(* ===== verification/_CoqProject ===== *)
-Q . S2P
Prelude.v
CString.v
Calendar.v
Platform.v
TestEnv.v
Interfaces.v
TimeSync.v
PubSub.v
TimeSrc.v
Factory.v
SysTimeMgr.v
MgrSpec.v
MgrProps.v
StateLock.v
NetworkStatus.v
PowerQueue.v
Daemon.v
Exceptions.v
Frame.v
Calls.v
NetworkShutdown.v
PathMonitor.v
Threads.v
Process.v
Effects.v
System.v
Interleave.v
Whole.v
UnitTests.v
