(* ===== verification/Prelude.v ===== *)
(** * A model of the system time manager, and what holds of it

    The program is a daemon of a set-top box (src/systimemgr.cpp, main.cpp).  It
    restores a time at boot from a clock file, the image's build time or a secure
    store (the time syncs), waits for network time, secure time and broadcast
    time (the time sources), tells the other processes over the IARM bus which
    quality the system time has, and on waking from deep sleep asks the
    platform's time service to synchronise again.  With chronyd enabled it also
    watches the internet status and the kernel's synchronisation.

    ** Files

    Every file of the development requires this one.  The code it translates is
    named before each definition ([src: file:lines symbol], relative to src/).

    - Prelude: outcomes of a call (returned, exception, undefined behaviour), the
      state monad [M], the range-based loop over a vector of pointers, 64-bit
      and 32-bit integers, and the weakest-precondition calculus [wp] that all
      specifications use.  [wp true] is total (the call returns and its result is
      as said), [wp false] partial; one proof per operation gives both.
    - CString: the operations of std::string and iostreams the sources use
      (find, substr, erase, stoll, extraction of a number, words), snprintf.
    - Calendar: strptime of the build time and timegm.
    - Platform: interface/itimermsg.h; the outside world.  A [world] is the files
      the process reads and writes and the log of its calls.  Kernel, chronyd,
      IARM, Thunder, power controller, MFR library and jsoncpp are the parameter
      [Env]: the answer to a call is an arbitrary function of the call and of the
      log.  The conditional compilation is the parameter [Build].
    - TestEnv: concrete environments for the witnesses.
    - Interfaces: interface/itimesrc.h and itimesync.h as type classes, and the
      contracts [ITimeSrcSpec], [ITimeSyncSpec] the daemon relies on.
    - TimeSync: the syncs (rdkdefaulttimesync.cpp, teetimesync.h, testtimesync.h).
    - PubSub: publishers and subscribers (pubsubfactory.cpp, iarm*.cpp,
      ipowercontrollersubscriber.cpp, test*.h), with the static instance pointer.
    - TimeSrc: the sources (ntptimesrc.h, stttimesrc.h, regulartimesrc.h,
      drmtimersrc.cpp, dtttimersrc.cpp).
    - Factory: timerfactory.cpp; the sums of all sources and syncs satisfy the
      contracts.
    - SysTimeMgr: the class of systimemgr.cpp: its members as the record [mgr], its
      table, handlers, status messages, initial time and deep sleep.
    - MgrSpec: the abstract status machine ([status], [spec_step], [spec_wake])
      and the specification of every operation of [mgr] against it, for any
      sources and syncs that satisfy the contracts.
    - MgrProps: sequences of inputs of the object; theorems.
    - StateLock: the critical sections of g_state_mutex statement by statement, with
      threads stopped between any two.
    - NetworkStatus: networkstatussrc.cpp: the chrony procedure, the Thunder
      callback, the subscription loop, and its threads as a step relation.
    - PowerQueue: the threads of ipowercontrollersubscriber.cpp.
    - Daemon: construction, [initialize], the thread bodies, [run] and [main].
    - Exceptions: which operations never leave by an exception, the start of the
      daemon among them.
    - Frame: a calculus of what an operation leaves unchanged ([keeps]), and the
      classes, paths and configuration no operation of the daemon changes.
    - Calls: the commands to chronyd and the polls of the kernel's clock, picked out
      of the log; which operations make them and how many.
    - NetworkShutdown: the lifetime of the Thunder client, access by access, and the
      network threads under the joins of [run].
    - PathMonitor: [runPathMonitor] step by step, with a directory other processes
      change and the events inotify queues.
    - Threads: the mutexes and the condition variable of SysTimeMgr: what each
      thread and callback does next, as code of a small machine.
    - Process: one step of the running process ([dstep]), its runs ([dexec]), and
      what a run makes of the process ([advances]).
    - Effects: what each operation of the process does, exactly, to the message
      queue and, by clock_settime, to the clock.
    - System: the theorems about the process.
    - Interleave: the procedures that hold no mutex as trees of their calls, found by
      instance search and proved equal to the definitions; each stopped before any
      call, among the steps of the daemon and the calls of others.
    - Whole: the process as [main] puts it together ([wstep], [boots]): the threads
      [run] starts, those of the power subscriber, the callbacks, each where it is,
      with the state of the network threads; the theorems that need all of them.
    - UnitTests: the tests of systimerfactory/unittest/ as computations.

    ** State and interaction

    The object's members are the fields of [mgr], its message queue included.
    [daemon] adds the subscriber objects with their static pointer ([bus]) and
    the world.  Threads interact through the queue ([sendMessage],
    [processMsg_round]), under [m_queue_mutex]; handlers, the power callback and
    queries run under [g_state_mutex], so each is one step of [dstep]: StateLock
    justifies this from their statements, and Threads shows of the locks of the whole
    program that they exclude each other.
    [dstep] lets any thread take any of its steps at any time; [wstep]
    keeps where each thread is, and the shared state of the network threads
    ([net_sys]), so its runs are runs of [dstep] and of [net_step] at once.  Power events of the power controller wait in the queue of their
    subscriber until its thread takes them.  The path monitor
    turns files of /tmp/systimemgr into events; the synchronisation monitor and
    other programs create those files.  A step of [dstep] makes its calls in one
    block of the log; Interleave takes the blocks apart.

    ** What is proved

    - Refinement.  [whole_process_refines]: the process [main] brings up refines the
      abstract status machine and the network protocol, and its queue keeps
      accounts: what the steps of the threads had to put in it is what was taken
      and what is left ([queueing]).  The threads' steps are those of their
      functions ([thread_functions_are_runs]).
      [interleaved_process_refines]: so does the daemon when the calls of its
      procedures are mixed with one another and with those of its handlers.
      [process_refines_spec]: any interleaving of the threads, the
      callbacks and other processes does what the abstract machine does, with the
      same messages on the bus, and the queue loses nothing.
      [daemon_refines_spec]: on a sane platform every input is processed to the
      end.  [process_invariant]: tables, state and quality stay consistent in
      every state reachable from initialisation.  [process_types]: so do the
      classes of the objects and what the callbacks of the buses point at.
      [process_never_fails]: every step a thread or callback can take returns, the
      callback and the connect thread of the power controller included.
    - Threads.  [locks_exclusive], [no_deadlock]: the three mutexes exclude, and
      some thread can always go on; [queued_message_taken]: no wake-up of the
      processing thread is lost; [sections_are_atomic]: the handlers, the wake-ups
      and the queries take effect one after the other, whatever is interleaved.
    - The path monitor.  [announcements_sent]: what it sends is what it found and
      read; [announcement_lost]: two ways an announcement does not reach it.
    - The status machine.  [final_state_of_events]: the state is a function of the
      events, and which part of their order matters; [bus_messages_consistent]
      (every message of a run; [broadcasts_consistent] for the object alone),
      [getTimeStatus_answer], [wake_resets], [timerExpiry_drift],
      [clock_set_only_with_dtt], [wake_steps_unguarded]; what the clients know:
      [clients_are_told], [source_stays_last_known].  Of the whole process:
      [clock_set_only_for_dtt].
    - Boot.  [config_builds_objects], [initialize_ready],
      [initial_time_never_backwards], [boot_state_from_files],
      [unknown_sync_never_initializes], [factory_roles], [second_instance_starts].
    - Stored time.  [persisted_time_recovered], [currentTime_monotone],
      [clock_file_falls_behind], [getTime_null_localtime], [tee_time_truncated];
      the version file: [tokenize_total], [tokenize_render],
      [buildtime_version_file].
    - Sources.  [drm_bad_time_escapes], [dtt_activates_once].
    - Network.  [makestep_justified_interleaved] (from [makestep_only_justified]),
      [internet_online_plan],
      [callback_signals_edges], [subscription_retries_until_success],
      [internet_signal_not_lost], [network_shutdown_completes] (once the
      destructor runs), [shutdown_never_requested] (it does not), [client_lifetime],
      [client_races] (where [run] detaches the threads),
      [ntp_monitor_announces], [ntp_announcement_published].  Of the whole process:
      [chrony_commands_bounded], [connectivity_served],
      [kernel_polled_until_synced].
    - Power.  [power_event_routed], [power_handlers_agree], [power_events_fifo],
      [power_connect_retries], [power_wakeup_can_be_lost], [power_deinit_hangs].
    - Validation.  [unit_tests_pass]: the unit tests of the repository that are
      replayed hold of the definitions.

    ** Bounds and fuel

    Total theorems are about environments in [SaneEnv]: times between 0 and
    [sane_max] = 2^33 seconds (year 2242), and a localtime that succeeds up to
    [sane_span] = 2^40.  [RdkDefaultTimeSync] may advance its time by 600 seconds
    per update, so its contract counts the updates that are certain not to leave
    that span ([rdk_fuel]; more than 10^9 from a sane time).  Loops that wait for
    a service ([subscribeToInternetEvent], [runNTPSyncMonitor],
    [sysTimeMgrPwrConnectHandlingThreadFunc]) take a fuel; their theorems give the
    number of rounds and any larger fuel is enough.  [runPathMonitor] takes one
    unit of fuel per read.  [tokenize] computes its own
    fuel, enough by [tokenize_total].

    ** What is not modelled

    Diagnostics (RDK_LOG, printf), except where evaluating an argument can fail;
    [t2_uninit], which comes after [run] returns; sleeping; the joins of [run],
    which the threads never let end; memory exhaustion; the write of the pid file
    comes before the threads' first steps, though they run meanwhile; changes of the
    files in the middle of a step under a mutex; data races on the members the threads read without a mutex
    ([m_timerInterval], [m_pathEventMap] and [m_chronyRfcEnabled] do not change
    once the threads run).  The path monitor watches its directory, and an
    inotify event of the directory itself carries no name: the code then reads what
    the buffer holds after the event, so the name in an [inotify_event] of Daemon is
    whatever the code finds there, while PathMonitor has only the events of the
    files in the directory.  Build files are not part of the program.  Of the unit
    tests those of stand-in classes and of the mocks themselves, those that compare
    addresses and one whose mock throws [std::runtime_error] are left out; for a test
    that starts a thread and sleeps, the rounds the thread takes are run.  The callback of broadcast time only
    writes a diagnostic. *)

From Stdlib Require Export Ascii.
From stdpp Require Export base tactics list option strings gmap pretty numbers relations.

#[global] Open Scope Z_scope.

(** ** Outcomes: a C++ call returns, throws, or has undefined behaviour *)

(** The exception types that can be raised on the modelled paths. *)
Inductive exn :=
  | JsonRpcException        (* jsonrpc::JsonRpcException, from Client::CallMethod *)
  | JsonLogicError          (* Json::LogicError, from Json::Value conversions *)
  | StdInvalidArgument      (* std::invalid_argument, from std::stoll *)
  | StdOutOfRange.          (* std::out_of_range, from std::stoll *)

#[export] Instance exn_eq_dec : EqDecision exn.
Proof. solve_decision. Defined.

(** [Ret a]: the call returns [a].  [Throw e]: it leaves by exception [e].
    [Undef]: it dereferences a null pointer or overflows a signed integer, so
    the C++ abstract machine gives the program no meaning from there on. *)
Inductive outcome (A : Type) :=
  | Ret (a : A)
  | Throw (e : exn)
  | Undef.
Arguments Ret {A} a.
Arguments Throw {A} e.
Arguments Undef {A}.

(** ** The state and error monad of the whole development *)

Definition M (S A : Type) : Type := S → outcome A * S.

#[export] Instance M_ret (S : Type) : MRet (M S) := λ A a s, (Ret a, s).
#[export] Instance M_bind (S : Type) : MBind (M S) := λ A B f m s,
  match m s with
  | (Ret a, s') => f a s'
  | (Throw e, s') => (Throw e, s')
  | (Undef, s') => (Undef, s')
  end.
#[export] Instance M_fmap (S : Type) : FMap (M S) := λ A B f m, m ≫= λ a, mret (f a).

(** Running a sequence whose first part is known. *)
Lemma bind_run {S A B} (m : M S A) (f : A → M S B) s a s' :
  m s = (Ret a, s') → (m ≫= f) s = f a s'.
Proof. intros H. unfold mbind, M_bind. by rewrite H. Qed.

(** Taking a sequence that returned apart. *)
Lemma bind_ret_inv {S A C} (m : M S A) (k : A → M S C) s c s' :
  (m ≫= k) s = (Ret c, s') → ∃ a s1, m s = (Ret a, s1) ∧ k a s1 = (Ret c, s').
Proof. unfold mbind, M_bind. destruct (m s) as [[a|e|] s1]; [eauto|done|done]. Qed.

Section operations.
Context {S : Type}.

Definition get : M S S := λ s, (Ret s, s).
Definition gets {A} (f : S → A) : M S A := λ s, (Ret (f s), s).
Definition modify (f : S → S) : M S unit := λ s, (Ret tt, f s).
Definition throw {A} (e : exn) : M S A := λ s, (Throw e, s).
Definition undef {A} : M S A := λ s, (Undef, s).
Definition of_outcome {A} (o : outcome A) : M S A := λ s, (o, s).
Definition when (b : bool) (m : M S unit) : M S unit := if b then m else mret tt.

(** [catch m sel h]: a [try { m } catch] whose handler clause selects the
    exceptions [sel] accepts; the others propagate. *)
Definition catch {A} (m : M S A) (sel : exn → bool) (h : M S A) : M S A := λ s,
  match m s with
  | (Throw e, s') => if sel e then h s' else (Throw e, s')
  | r => r
  end.

(** Dereferencing a possibly null pointer. *)
Definition deref {A} (p : option A) : M S A :=
  match p with Some a => mret a | None => undef end.
End operations.

(** A computation on one component of a pair of states. *)
Definition on_snd {O W A} (m : M W A) : M (O * W) A :=
  λ s, let '(r, w) := m (snd s) in (r, (fst s, w)).

(** ** Range-based [for] over a vector of object pointers

    [for_each body acc] runs [body] on the objects of the vector in order,
    threading an accumulator (the local variables the loop body assigns) and
    writing each object back, so a method may change the object it is called
    on.  A null pointer in the vector is dereferenced by the first method call
    of the body, which is undefined. *)
Fixpoint for_each {T W A} (body : A → M (T * W) A) (acc : A)
    (l : list (option T)) (w : W) : outcome A * (list (option T) * W) :=
  match l with
  | [] => (Ret acc, ([], w))
  | None :: l' => (Undef, (None :: l', w))
  | Some o :: l' =>
      match body acc (o, w) with
      | (Ret acc', (o', w')) =>
          let '(r, (l'', w'')) := for_each body acc' l' w' in
          (r, (Some o' :: l'', w''))
      | (Throw e, (o', w')) => (Throw e, (Some o' :: l', w'))
      | (Undef, (o', w')) => (Undef, (Some o' :: l', w'))
      end
  end.

Definition for_each_m {T W A} (body : A → M (T * W) A) (acc : A)
    : M (list (option T) * W) A :=
  λ s, for_each body acc (fst s) (snd s).

(** ** Machine integers *)

Definition i64_min : Z := - 2 ^ 63.
Definition i64_max : Z := 2 ^ 63 - 1.
Definition in_i64 (z : Z) : bool := bool_decide (i64_min ≤ z ≤ i64_max).

(** Signed [long long] arithmetic: overflow is undefined behaviour. *)
Definition i64 (z : Z) : outcome Z := if in_i64 z then Ret z else Undef.

(** Conversion to [uint32_t]: reduction modulo 2^32. *)
Definition u32 (z : Z) : Z := Z.land z (Z.ones 32).

(** ** A weakest-precondition calculus for total and partial correctness

    [wp true m Q s]: run from [s], [m] returns, in a state that satisfies [Q].
    [wp false m Q s]: if [m] returns at all, it does so in such a state.  The
    rules below hold for both, so each component proves one specification per
    operation and gets the two readings from it. *)

Definition wp {S A} (total : bool) (m : M S A) (Q : A → S → Prop) (s : S) : Prop :=
  match m s with
  | (Ret a, s') => Q a s'
  | _ => if total then False else True
  end.

Section wp_rules.
Context {S : Type} (t : bool).

Lemma wp_ret {A} (a : A) (Q : A → S → Prop) s : Q a s → wp t (mret a) Q s.
Proof. done. Qed.

Lemma wp_bind {A B} (m : M S A) (f : A → M S B) (Q : B → S → Prop) s :
  wp t m (λ a, wp t (f a) Q) s → wp t (m ≫= f) Q s.
Proof.
  unfold wp, mbind, M_bind. by destruct (m s) as [[a|e|] s'].
Qed.

Lemma wp_fmap {A B} (f : A → B) (m : M S A) (Q : B → S → Prop) s :
  wp t m (λ a, Q (f a)) s → wp t (f <$> m) Q s.
Proof. unfold wp, fmap, M_fmap, mbind, M_bind. by destruct (m s) as [[a|e|] s']. Qed.

Lemma wp_mono {A} (m : M S A) (Q1 Q2 : A → S → Prop) s :
  wp t m Q1 s → (∀ a s', Q1 a s' → Q2 a s') → wp t m Q2 s.
Proof. unfold wp. destruct (m s) as [[a|e|] s']; auto. Qed.

Lemma wp_and {A} (m : M S A) (Q1 Q2 : A → S → Prop) s :
  wp t m Q1 s → wp t m Q2 s → wp t m (λ a s', Q1 a s' ∧ Q2 a s') s.
Proof. unfold wp. by destruct (m s) as [[a|e|] s']. Qed.

Lemma wp_get (Q : S → S → Prop) s : Q s s → wp t get Q s.
Proof. done. Qed.

Lemma wp_gets {A} (f : S → A) (Q : A → S → Prop) s : Q (f s) s → wp t (gets f) Q s.
Proof. done. Qed.

Lemma wp_modify (f : S → S) (Q : unit → S → Prop) s : Q tt (f s) → wp t (modify f) Q s.
Proof. done. Qed.

Lemma wp_when b (m : M S unit) (Q : unit → S → Prop) s :
  (b = true → wp t m Q s) → (b = false → Q tt s) → wp t (when b m) Q s.
Proof. destruct b; intros H1 H2; [by apply H1|by apply wp_ret, H2]. Qed.

Lemma wp_deref {A} (p : option A) (Q : A → S → Prop) s :
  (t = true → is_Some p) → (∀ a, p = Some a → Q a s) → wp t (deref p) Q s.
Proof.
  intros Hp HQ. destruct p as [a|]; [by apply HQ|].
  unfold wp; simpl. destruct t; [|done]. by destruct (Hp eq_refl).
Qed.

Lemma wp_of_outcome {A} (o : outcome A) (Q : A → S → Prop) s :
  (t = true → ∃ a, o = Ret a) → (∀ a, o = Ret a → Q a s) → wp t (of_outcome o) Q s.
Proof.
  intros Ho HQ. unfold wp, of_outcome.
  destruct o; [by apply HQ| |]; destruct t; auto; by destruct (Ho eq_refl).
Qed.

Lemma wp_on_snd {O A} (m : M S A) (Q : A → O * S → Prop) (s : O * S) :
  wp t m (λ a w', Q a (fst s, w')) (snd s) → wp t (on_snd m) Q s.
Proof. unfold wp, on_snd. by destruct (m (snd s)) as [[a|e|] w']. Qed.

(** The loop rule: [I] holds of the accumulator and the world, [P] of every
    object before its iteration and [P'] after it. *)
Lemma wp_for_each {T A} (body : A → M (T * S) A) (P P' : T → Prop)
    (I : A → S → Prop) acc l w :
  I acc w →
  (t = true → Forall is_Some l) →
  Forall (λ p, ∀ o, p = Some o → P o) l →
  (∀ a o w, I a w → P o → wp t (body a) (λ a' ow, I a' ow.2 ∧ P' ow.1) (o, w)) →
  wp t (for_each_m body acc)
    (λ a lw, I a lw.2 ∧ length lw.1 = length l ∧ (t = true → Forall is_Some lw.1) ∧
             Forall (λ p, ∀ o, p = Some o → P' o) lw.1) (l, w).
Proof.
  intros HI Hsome HP Hbody. unfold wp, for_each_m; simpl.
  revert acc w HI. induction l as [|[o|] l IH]; intros acc w HI; simpl.
  - repeat split; auto.
  - apply Forall_cons in HP as [HPo HP].
    specialize (Hbody acc o w HI (HPo o eq_refl)). unfold wp in Hbody.
    destruct (body acc (o, w)) as [[acc'|e|] [o' w']]; [|done..].
    destruct Hbody as [HI' HP'].
    assert (t = true → Forall is_Some l) as Hsome' by (intros Ht; by destruct (Forall_cons_1 _ _ _ (Hsome Ht))).
    specialize (IH Hsome' HP acc' w' HI').
    destruct (for_each body acc' l w') as [[a|e|] [l'' w'']]; [|done..].
    simpl in *. destruct IH as (HI'' & Hlen & Hall & HF).
    split; [done|]. split; [by rewrite Hlen|]. split.
    + intros Ht. constructor; eauto.
    + constructor; [by intros ? [= <-]|done].
  - destruct t; [|done]. specialize (Hsome eq_refl).
    by apply Forall_cons_1 in Hsome as [[? ?] _].
Qed.
End wp_rules.

(** [wp true] is exactly "runs to a returned value". *)
Lemma wp_total_run {S A} (m : M S A) (Q : A → S → Prop) s :
  wp true m Q s ↔ ∃ a s', m s = (Ret a, s') ∧ Q a s'.
Proof.
  unfold wp. split.
  - destruct (m s) as [[a|e|] s']; [eauto|done..].
  - by intros (a & s' & -> & HQ).
Qed.

Lemma wp_partial_run {S A} (m : M S A) (Q : A → S → Prop) s :
  wp false m Q s ↔ ∀ a s', m s = (Ret a, s') → Q a s'.
Proof.
  unfold wp. split.
  - by intros H a s' Hm; rewrite Hm in H.
  - intros H. destruct (m s) as [[a|e|] s']; by eauto.
Qed.

(** ** Exceptions

    [wpx total m Q X s]: as [wp], and an exception [e] leaves a state that
    satisfies [X e]; needed only inside a [try] block. *)
Definition wpx {S A} (total : bool) (m : M S A) (Q : A → S → Prop) (X : exn → S → Prop) (s : S) : Prop :=
  match m s with
  | (Ret a, s') => Q a s'
  | (Throw e, s') => X e s'
  | (Undef, _) => if total then False else True
  end.

Section wpx_rules.
Context {S : Type} (t : bool).

Lemma wpx_of_total {A} (m : M S A) (Q : A → S → Prop) X s : wp true m Q s → wpx t m Q X s.
Proof. unfold wp, wpx. by destruct (m s) as [[a|e|] s']. Qed.

Lemma wpx_bind {A B} (m : M S A) (f : A → M S B) (Q : B → S → Prop) X s :
  wpx t m (λ a, wpx t (f a) Q X) X s → wpx t (m ≫= f) Q X s.
Proof. unfold wpx, mbind, M_bind. by destruct (m s) as [[a|e|] s']. Qed.

Lemma wpx_throw {A} e (Q : A → S → Prop) X s : X e s → wpx t (throw e) Q X s.
Proof. done. Qed.

Lemma wpx_of_outcome {A} (o : outcome A) (Q : A → S → Prop) X s :
  (∀ a, o = Ret a → Q a s) → (∀ e, o = Throw e → X e s) → (t = true → o ≠ Undef) →
  wpx t (of_outcome o) Q X s.
Proof.
  intros HQ HX HU. unfold wpx, of_outcome. destruct o; [by apply HQ|by apply HX|].
  destruct t; [by apply HU|done].
Qed.

Lemma wpx_on_snd {O A} (m : M S A) (Q : A → O * S → Prop) X (s : O * S) :
  wpx t m (λ a w', Q a (fst s, w')) (λ e w', X e (fst s, w')) (snd s) → wpx t (on_snd m) Q X s.
Proof. unfold wpx, on_snd. by destruct (m (snd s)) as [[a|e|] w']. Qed.

Lemma wpx_when b (m : M S unit) (Q : unit → S → Prop) X s :
  (b = true → wpx t m Q X s) → (b = false → Q tt s) → wpx t (when b m) Q X s.
Proof. destruct b; intros H1 H2; [by apply H1|by apply H2]. Qed.

(** A handler sees the states the selected exceptions leave. *)
Lemma wp_catch {A} (m : M S A) (sel : exn → bool) (h : M S A) (Q : A → S → Prop) s :
  wpx t m Q (λ e s', if sel e then wp t h Q s' else t = false) s → wp t (catch m sel h) Q s.
Proof.
  unfold wp, wpx, catch. destruct (m s) as [[a|e|] s']; [done| |done].
  destruct (sel e); [done|]. by intros ->.
Qed.
End wpx_rules.

(** [mstep] applies the rule for the head of a monadic program. *)
Ltac mstep :=
  lazymatch goal with
  | |- wp _ (mbind _ _) _ _ => apply wp_bind
  | |- wp _ (mret _) _ _ => apply wp_ret
  | |- wp _ (fmap _ _) _ _ => apply wp_fmap
  | |- wp _ get _ _ => apply wp_get
  | |- wp _ (gets _) _ _ => apply wp_gets
  | |- wp _ (modify _) _ _ => apply wp_modify
  | |- wp _ (when _ _) _ _ => apply wp_when; intros ?
  | |- wp _ (deref _) _ _ => apply wp_deref; [|intros ? ?]
  | |- wp _ (on_snd _) _ _ => apply wp_on_snd
  | |- wp _ (if ?b then _ else _) _ _ => destruct b eqn:?
  end.
Ltac msteps := repeat (mstep; simpl).

(** ** Range facts *)

Lemma in_i64_spec z : in_i64 z = true ↔ i64_min ≤ z ≤ i64_max.
Proof. unfold in_i64. by rewrite bool_decide_eq_true. Qed.

Lemma i64_ret z : i64_min ≤ z ≤ i64_max → i64 z = Ret z.
Proof. intros H. unfold i64. by apply in_i64_spec in H as ->. Qed.

Lemma u32_mod z : u32 z = z `mod` 2 ^ 32.
Proof. unfold u32. by rewrite Z.land_ones. Qed.

Lemma u32_small z : 0 ≤ z < 2 ^ 32 → u32 z = z.
Proof. intros H. rewrite u32_mod. by apply Z.mod_small. Qed.

Lemma u32_range z : 0 ≤ u32 z < 2 ^ 32.
Proof. rewrite u32_mod. by apply Z.mod_pos_bound. Qed.
