(* ===== verification/CString.v ===== *)
(** * CString: the string and number operations of the C and C++ libraries

    What the sources use of [std::string], [istream >>], [std::stoll],
    [std::to_string], [snprintf] and [std::tolower], as executable functions on
    [string], with the lemmas the components need: decimal printing and
    parsing are inverse, a search from an offset is a search in the suffix. *)

From Corelib Require Import SpecFloat.
From S2P Require Import Prelude.

(** ** Characters *)

Definition digit_of (c : ascii) : option Z :=
  let n := Z.of_N (Ascii.N_of_ascii c) in
  if bool_decide (48 ≤ n ≤ 57) then Some (n - 48) else None.

(** [std::tolower] in the "C" locale. *)
Definition char_tolower (c : ascii) : ascii :=
  let n := Ascii.N_of_ascii c in
  if bool_decide (65 ≤ n ≤ 90)%N then Ascii.ascii_of_N (n + 32) else c.

Fixpoint string_tolower (s : string) : string :=
  match s with
  | EmptyString => EmptyString
  | String c s' => String (char_tolower c) (string_tolower s')
  end.

(** [s.erase(std::remove(s.begin(), s.end(), c), s.end())]. *)
Fixpoint string_remove (c : ascii) (s : string) : string :=
  match s with
  | EmptyString => EmptyString
  | String d s' => if decide (d = c) then string_remove c s' else String d (string_remove c s')
  end.

Fixpoint string_take (n : nat) (s : string) : string :=
  match n, s with
  | S n', String c s' => String c (string_take n' s')
  | _, _ => EmptyString
  end.

(** [snprintf(buf, size, "%s", s)]: at most [size - 1] characters and a
    terminating NUL; the C string the buffer then holds. *)
Definition snprintf_s (size : nat) (s : string) : string := string_take (size - 1) s.

(** ** Searching: [find], [find_first_not_of], [substr]

    A [string::size_type] result is an [option nat]; [None] is [npos]. *)

Fixpoint string_prefix (p s : string) : bool :=
  match p, s with
  | EmptyString, _ => true
  | String a p', String b s' => bool_decide (a = b) && string_prefix p' s'
  | _, _ => false
  end.

Fixpoint find_from0 (pat s : string) : option nat :=
  if string_prefix pat s then Some 0%nat
  else match s with
       | EmptyString => None
       | String _ s' => S <$> find_from0 pat s'
       end.

Fixpoint string_drop (n : nat) (s : string) : string :=
  match n, s with
  | 0%nat, _ => s
  | S n', String _ s' => string_drop n' s'
  | S _, EmptyString => EmptyString
  end.

(** [s.find(pat, pos)]. *)
Definition string_find (pat s : string) (pos : nat) : option nat :=
  if (String.length s <? pos)%nat then None
  else Nat.add pos <$> find_from0 pat (string_drop pos s).

Fixpoint string_mem (c : ascii) (set : string) : bool :=
  match set with
  | EmptyString => false
  | String d set' => bool_decide (c = d) || string_mem c set'
  end.

Fixpoint first_not_of0 (set s : string) : option nat :=
  match s with
  | EmptyString => None
  | String c s' => if string_mem c set then S <$> first_not_of0 set s' else Some 0%nat
  end.

(** [s.find_first_not_of(set, pos)]. *)
Definition string_find_first_not_of (set s : string) (pos : nat) : option nat :=
  if (String.length s <? pos)%nat then None
  else Nat.add pos <$> first_not_of0 set (string_drop pos s).

(** [s.substr(pos, end - pos)], [end] being [npos] or a position not before [pos]. *)
Definition string_substr (s : string) (pos : nat) (stop : option nat) : string :=
  match stop with
  | None => string_drop pos s
  | Some e => string_take (e - pos) (string_drop pos s)
  end.

(** ** Reading integers *)

Fixpoint skip_space (s : string) : string :=
  match s with
  | String c s' => if Ascii.is_space c then skip_space s' else s
  | EmptyString => EmptyString
  end.

(** Reads decimal digits into the accumulator; the rest of the input is kept. *)
Fixpoint read_digits (acc : Z) (s : string) : Z * string :=
  match s with
  | String c s' =>
      match digit_of c with
      | Some d => read_digits (acc * 10 + d) s'
      | None => (acc, s)
      end
  | EmptyString => (acc, EmptyString)
  end.

Definition starts_with_digit (s : string) : bool :=
  match s with
  | String c _ => match digit_of c with Some _ => true | None => false end
  | EmptyString => false
  end.

(** An optionally signed decimal integer after white space, as [strtoll] and
    [num_get] read it; [None] when there is no digit.  The value is the
    unbounded integer the digits denote. *)
Definition parse_int (s : string) : option Z :=
  let unsigned t := if starts_with_digit t then Some (fst (read_digits 0 t)) else None in
  match skip_space s with
  | String "-" t => Z.opp <$> unsigned t
  | String "+" t => unsigned t
  | t => unsigned t
  end.

Definition clamp_i64 (z : Z) : Z := Z.max i64_min (Z.min i64_max z).

(** [stream >> x] for a [long long x]: no digits store 0, a value that does not
    fit stores the nearest limit. *)
Definition extract_ll (s : string) : Z :=
  match parse_int s with
  | Some z => clamp_i64 z
  | None => 0
  end.

(** [std::stoll(s)]. *)
Definition stoll (s : string) : outcome Z :=
  match parse_int s with
  | None => Throw StdInvalidArgument
  | Some z => if in_i64 z then Ret z else Throw StdOutOfRange
  end.

(** [std::to_string] of a [long long], which is also what [ostream <<] writes. *)
Definition to_string_ll (z : Z) : string := pretty z.

(** The newline character as a string. *)
Definition newline : string := String (Ascii.ascii_of_nat 10) EmptyString.

(** [while (stream >> a >> b >> c)]: the white-space separated words in threes;
    an incomplete last group is not delivered. *)
Fixpoint triples (ws : list string) : list (string * string * string) :=
  match ws with
  | a :: b :: c :: ws' => (a, b, c) :: triples ws'
  | _ => []
  end.

Definition read_triples (s : string) : list (string * string * string) :=
  triples (String.words s).

(** ** [snprintf("%.3f", x)] for a binary64 [x] *)

(** The nearest integer to [n / 2^k], ties to even. *)
Definition round_div_pow2 (n k : Z) : Z :=
  let q := n `div` 2 ^ k in
  let r := n `mod` 2 ^ k in
  if bool_decide (2 * r < 2 ^ k) then q
  else if bool_decide (2 * r = 2 ^ k) then q + q `mod` 2
  else q + 1.

Definition pad3 (n : Z) : string :=
  if bool_decide (n < 10) then "00" +:+ pretty n
  else if bool_decide (n < 100) then "0" +:+ pretty n
  else pretty n.

Definition fmt_thousandths (neg : bool) (n : Z) : string :=
  (if neg then "-" else "") +:+ pretty (n `div` 1000) +:+ "." +:+ pad3 (n `mod` 1000).

Definition fmt_3f (x : spec_float) : string :=
  match x with
  | S754_zero s => fmt_thousandths s 0
  | S754_infinity s => if s then "-inf" else "inf"
  | S754_nan => "nan"
  | S754_finite s m e =>
      fmt_thousandths s
        (if bool_decide (0 ≤ e) then Z.pos m * 2 ^ e * 1000
         else round_div_pow2 (Z.pos m * 1000) (- e))
  end.

(** ** Lemmas *)

Lemma string_app_assoc (a b c : string) : (a +:+ b) +:+ c = a +:+ (b +:+ c).
Proof. unfold String.app. induction a; simpl; by f_equal. Qed.

Lemma string_app_nil_r (a : string) : a +:+ "" = a.
Proof. unfold String.app. induction a; simpl; by f_equal. Qed.

Lemma string_app_length (a b : string) :
  String.length (a +:+ b) = (String.length a + String.length b)%nat.
Proof. unfold String.app. induction a; simpl; auto. Qed.

Lemma string_drop_app (a b : string) : string_drop (String.length a) (a +:+ b) = b.
Proof. unfold String.app. by induction a. Qed.

Lemma string_take_app (a b : string) : string_take (String.length a) (a +:+ b) = a.
Proof. unfold String.app. induction a; simpl; [by destruct b|by f_equal]. Qed.

Lemma string_take_length n s : (String.length (string_take n s) ≤ n)%nat.
Proof. revert s. induction n; intros [|? ?]; simpl; auto with lia. specialize (IHn s). lia. Qed.

Lemma string_take_all n s : (String.length s ≤ n)%nat → string_take n s = s.
Proof.
  revert s. induction n; intros [|? ?]; simpl; intros; try done; [lia|].
  rewrite IHn by lia. done.
Qed.

(** A search from an offset is a search in the suffix at that offset. *)
Lemma string_find_app pat pre s :
  string_find pat (pre +:+ s) (String.length pre) = Nat.add (String.length pre) <$> find_from0 pat s.
Proof.
  unfold string_find. rewrite string_app_length, string_drop_app.
  by rewrite (proj2 (Nat.ltb_ge _ _)) by lia.
Qed.

Lemma string_find_first_not_of_app set pre s :
  string_find_first_not_of set (pre +:+ s) (String.length pre)
  = Nat.add (String.length pre) <$> first_not_of0 set s.
Proof.
  unfold string_find_first_not_of. rewrite string_app_length, string_drop_app.
  by rewrite (proj2 (Nat.ltb_ge _ _)) by lia.
Qed.

(** *** Decimal printing and parsing *)

Lemma digit_of_pretty d : (d < 10)%N → digit_of (pretty_N_char d) = Some (Z.of_N d).
Proof.
  intros H.
  assert (d = 0 ∨ d = 1 ∨ d = 2 ∨ d = 3 ∨ d = 4 ∨ d = 5 ∨ d = 6 ∨ d = 7 ∨ d = 8 ∨ d = 9)%N
    as Hd by lia.
  repeat destruct Hd as [->|Hd]; try reflexivity. subst. reflexivity.
Qed.

Lemma read_digits_go x : ∃ k : Z, 0 ≤ k ∧ ∀ acc s,
  read_digits acc (pretty_N_go x s) = read_digits (acc * 10 ^ k + Z.of_N x) s.
Proof.
  induction (N.lt_wf_0 x) as [x _ IH].
  destruct (decide (x = 0)%N) as [->|Hx].
  - exists 0. split; [lia|]. intros acc s. rewrite pretty_N_go_0. f_equal. lia.
  - destruct (IH (x `div` 10)%N) as (k & Hk & Hgo); [by apply N.div_lt; lia|].
    exists (k + 1). split; [lia|]. intros acc s.
    rewrite pretty_N_go_step by lia. rewrite Hgo. simpl.
    rewrite digit_of_pretty by (by apply N.mod_lt).
    f_equal. rewrite Z.pow_add_r by lia.
    rewrite (N.div_mod' x 10) at 3.
    rewrite N2Z.inj_add, N2Z.inj_mul. simpl. lia.
Qed.

Lemma starts_with_digit_go x s :
  starts_with_digit s = true ∨ (0 < x)%N → starts_with_digit (pretty_N_go x s) = true.
Proof.
  revert s. induction (N.lt_wf_0 x) as [x _ IH]; intros s Hs.
  destruct (decide (x = 0)%N) as [->|Hx].
  - rewrite pretty_N_go_0. destruct Hs; [done|lia].
  - rewrite pretty_N_go_step by lia. apply IH; [by apply N.div_lt; lia|].
    left. simpl. by rewrite digit_of_pretty by (by apply N.mod_lt).
Qed.

Lemma read_digits_pretty (n : N) rest :
  starts_with_digit rest = false →
  read_digits 0 (pretty n +:+ rest) = (Z.of_N n, rest) ∧
  starts_with_digit (pretty n +:+ rest) = true.
Proof.
  intros Hrest.
  assert (read_digits (Z.of_N n) rest = (Z.of_N n, rest)) as Hstop.
  { destruct rest as [|c rest]; [done|]. simpl in *. by destruct (digit_of c). }
  assert (∀ x s, pretty_N_go x s +:+ rest = pretty_N_go x (s +:+ rest)) as Happ.
  { intros x. induction (N.lt_wf_0 x) as [x _ IH]; intros s.
    destruct (decide (x = 0)%N) as [->|Hx]; [by rewrite !pretty_N_go_0|].
    rewrite !(pretty_N_go_step x) by lia. rewrite IH by (apply N.div_lt; lia). done. }
  unfold pretty, pretty_N. destruct (decide (n = 0)%N) as [->|Hn]; [done|].
  rewrite Happ. destruct (read_digits_go n) as (k & _ & Hgo). split.
  - rewrite Hgo, Z.mul_0_l, Z.add_0_l. done.
  - apply starts_with_digit_go. right. lia.
Qed.

Lemma digit_not_special c d :
  digit_of c = Some d → Ascii.is_space c = false ∧ c ≠ "-"%char ∧ c ≠ "+"%char.
Proof.
  destruct c as [[] [] [] [] [] [] [] []]; intros H; try discriminate H;
    repeat split; discriminate.
Qed.

Lemma parse_int_unsigned s v rest :
  starts_with_digit s = true → read_digits 0 s = (v, rest) → parse_int s = Some v.
Proof.
  intros Hs Hr. unfold parse_int.
  destruct s as [|c s]; [done|]. pose proof Hs as Hs'. simpl in Hs'.
  destruct (digit_of c) as [d|] eqn:Hd; [|done].
  destruct (digit_not_special c d Hd) as (Hsp & Hm & Hp). simpl skip_space. rewrite Hsp.
  assert ((if starts_with_digit (String c s) then Some (fst (read_digits 0 (String c s))) else None)
          = Some v) as Hu by (by rewrite Hs, Hr).
  destruct c as [[] [] [] [] [] [] [] []]; try exact Hu; congruence.
Qed.

Lemma parse_int_minus s v rest :
  starts_with_digit s = true → read_digits 0 s = (v, rest) →
  parse_int (String "-" s) = Some (- v).
Proof. intros Hs Hr. unfold parse_int. simpl. by rewrite Hs, Hr. Qed.

(** What [<<] writes, [>>] and [stoll] read back, whatever non-digit follows. *)
Lemma parse_int_to_string z rest :
  starts_with_digit rest = false → parse_int (to_string_ll z +:+ rest) = Some z.
Proof.
  intros Hrest. unfold to_string_ll, pretty, pretty_Z. destruct z as [|p|p].
  - destruct (read_digits_pretty 0 rest Hrest) as [Hr Hs].
    by apply (parse_int_unsigned _ _ _ Hs Hr).
  - destruct (read_digits_pretty (N.pos p) rest Hrest) as [Hr Hs].
    apply (parse_int_unsigned _ _ _ Hs Hr).
  - destruct (read_digits_pretty (N.pos p) rest Hrest) as [Hr Hs].
    apply (parse_int_minus _ _ _ Hs Hr).
Qed.

Lemma clamp_i64_id z : i64_min ≤ z ≤ i64_max → clamp_i64 z = z.
Proof. unfold clamp_i64. lia. Qed.

Lemma clamp_i64_range z : i64_min ≤ clamp_i64 z ≤ i64_max.
Proof. unfold clamp_i64, i64_min, i64_max. lia. Qed.

Lemma extract_ll_range s : i64_min ≤ extract_ll s ≤ i64_max.
Proof.
  unfold extract_ll. destruct (parse_int s); [apply clamp_i64_range|].
  unfold i64_min, i64_max. lia.
Qed.

Lemma extract_ll_to_string z rest :
  i64_min ≤ z ≤ i64_max → starts_with_digit rest = false →
  extract_ll (to_string_ll z +:+ rest) = z.
Proof.
  intros Hz Hrest. unfold extract_ll. rewrite parse_int_to_string by done.
  by apply clamp_i64_id.
Qed.

Lemma stoll_to_string z : i64_min ≤ z ≤ i64_max → stoll (to_string_ll z) = Ret z.
Proof.
  intros Hz. unfold stoll. rewrite <- (string_app_nil_r (to_string_ll z)).
  rewrite parse_int_to_string by done. by apply in_i64_spec in Hz as ->.
Qed.

Create HintDb cstring.
#[export] Hint Resolve extract_ll_range clamp_i64_range string_take_length : cstring.
Create Rewrite HintDb cstring_rw.
#[export] Hint Rewrite string_find_app string_find_first_not_of_app string_drop_app
  string_app_length string_app_assoc : cstring_rw.

(** ** Concrete checks *)
Example extract_ll_ex1 : extract_ll ("  -42x") = -42. Proof. reflexivity. Qed.
Example extract_ll_ex2 : extract_ll "garbage" = 0. Proof. reflexivity. Qed.
Example extract_ll_ex3 : extract_ll "99999999999999999999" = 9223372036854775807.
Proof. reflexivity. Qed.
Example stoll_ex : stoll "" = Throw StdInvalidArgument. Proof. reflexivity. Qed.
Example fmt_3f_ex : fmt_3f (S754_finite true 5 (-3)) = "-0.625". Proof. reflexivity. Qed.

(** *** Searching in a suffix *)

Lemma string_take_drop n s : string_take n s +:+ string_drop n s = s.
Proof. unfold String.app. revert s. induction n; intros [|c s]; simpl; by f_equal. Qed.

Lemma string_take_length_le n s :
  (n ≤ String.length s)%nat → String.length (string_take n s) = n.
Proof. revert s. induction n; intros [|c s]; simpl; intros; auto with lia. Qed.

Lemma string_drop_length n s : String.length (string_drop n s) = (String.length s - n)%nat.
Proof. revert s. induction n; intros [|c s]; simpl; auto. Qed.

Lemma string_drop_drop n m s : string_drop n (string_drop m s) = string_drop (m + n) s.
Proof. revert s. induction m; intros [|c s]; simpl; auto. by destruct n. Qed.

Lemma find_from0_bound pat s n :
  find_from0 pat s = Some n → (n + String.length pat ≤ String.length s)%nat.
Proof.
  assert (∀ p t, string_prefix p t = true → (String.length p ≤ String.length t)%nat) as Hpre.
  { induction p; intros [|b t]; simpl; intros H; try done; [lia|].
    apply andb_true_iff in H as [_ H]. specialize (IHp _ H). lia. }
  revert n. induction s as [|c s IH]; intros n; cbn [find_from0].
  - destruct (string_prefix pat "") eqn:Hp; [|done]. intros [= <-]. by apply Hpre in Hp.
  - destruct (string_prefix pat (String c s)) eqn:Hp.
    + intros [= <-]. by apply Hpre in Hp.
    + destruct (find_from0 pat s) as [k|]; [|done]. intros [= <-]. simpl.
      specialize (IH k eq_refl). lia.
Qed.

Lemma first_not_of0_bound set s n : first_not_of0 set s = Some n → (n < String.length s)%nat.
Proof.
  revert n. induction s as [|c s IH]; intros n; simpl; [done|].
  destruct (string_mem c set); [|intros [= <-]; lia].
  destruct (first_not_of0 set s); [|done]. intros [= <-]. specialize (IH _ eq_refl). lia.
Qed.

Lemma string_app_take_length pre s k : (k ≤ String.length s)%nat →
  String.length (pre +:+ string_take k s) = (String.length pre + k)%nat.
Proof. intros. by rewrite string_app_length, string_take_length_le. Qed.

Lemma string_app_take_drop pre s k : (pre +:+ string_take k s) +:+ string_drop k s = pre +:+ s.
Proof. by rewrite string_app_assoc, string_take_drop. Qed.

Lemma string_find_at pat pre s k : (k ≤ String.length s)%nat →
  string_find pat (pre +:+ s) (String.length pre + k)
  = Nat.add (String.length pre + k) <$> find_from0 pat (string_drop k s).
Proof.
  intros Hk. rewrite <- (string_app_take_drop pre s k), <- (string_app_take_length pre s k Hk).
  apply string_find_app.
Qed.

Lemma string_find_first_not_of_at set pre s k : (k ≤ String.length s)%nat →
  string_find_first_not_of set (pre +:+ s) (String.length pre + k)
  = Nat.add (String.length pre + k) <$> first_not_of0 set (string_drop k s).
Proof.
  intros Hk. rewrite <- (string_app_take_drop pre s k), <- (string_app_take_length pre s k Hk).
  apply string_find_first_not_of_app.
Qed.

Lemma string_drop_at pre s k :
  string_drop (String.length pre + k) (pre +:+ s) = string_drop k s.
Proof. by rewrite <- string_drop_drop, string_drop_app. Qed.

(** A one-character pattern in a text whose prefix does not contain it. *)
Lemma find_from0_char c k s :
  string_mem c k = false → find_from0 (String c "") (k +:+ String c s) = Some (String.length k).
Proof.
  unfold String.app. induction k as [|d k IH]; simpl; intros Hk.
  - by rewrite bool_decide_eq_true_2.
  - apply orb_false_iff in Hk as [Hd Hk]. rewrite Hd. simpl. by rewrite IH.
Qed.

(** ** Words *)

(** Not empty and free of white space. *)
Fixpoint no_space (s : string) : bool :=
  match s with "" => true | String c s => negb (Ascii.is_space c) && no_space s end.
Definition is_word (s : string) : bool := negb (bool_decide (s = "")) && no_space s.

Lemma rev_app_twice w acc z : String.rev_app (String.rev_app w acc) z = String.rev_app acc (w +:+ z).
Proof. revert acc. induction w as [|c w IH]; intros acc; [done|]. simpl. by rewrite IH. Qed.

Lemma words_go_word w acc sp rest :
  no_space w = true → Ascii.is_space sp = true →
  String.words_go (Some acc) (w +:+ String sp rest)
  = String.rev (String.rev_app w acc) :: String.words_go None rest.
Proof.
  revert acc. induction w as [|c w IH]; intros acc Hw Hsp; simpl; [by rewrite Hsp|].
  simpl in Hw. apply andb_true_iff in Hw as [Hc Hw]. rewrite (proj1 (negb_true_iff _) Hc). by rewrite IH.
Qed.

Lemma words_word w sp rest :
  is_word w = true → Ascii.is_space sp = true →
  String.words (w +:+ String sp rest) = w :: String.words rest.
Proof.
  unfold is_word. intros [Hne Hw]%andb_true_iff Hsp. destruct w as [|c w]; [done|].
  simpl in Hw. apply andb_true_iff in Hw as [Hc Hw]. unfold String.words. simpl.
  rewrite (proj1 (negb_true_iff _) Hc), words_go_word by done. f_equal.
  unfold String.rev. rewrite rev_app_twice. simpl. by rewrite string_app_nil_r.
Qed.

Lemma words_blank w rest : is_word w = true → String.words (w +:+ " " +:+ rest) = w :: String.words rest.
Proof. intros Hw. exact (words_word w " " rest Hw eq_refl). Qed.

Lemma words_newline w rest : is_word w = true → String.words (w +:+ newline +:+ rest) = w :: String.words rest.
Proof. intros Hw. exact (words_word w (Ascii.ascii_of_nat 10) rest Hw eq_refl). Qed.
