(* ===== verification/Calendar.v ===== *)
(** * Calendar: [strptime] with "%Y-%m-%d %H:%M:%S" and [timegm]

    The C library's date functions, as far as [RdkDefaultTimeSync::buildtime]
    uses them: glibc's number reader, the six conversions of the one format
    string the source passes, and the proleptic Gregorian day count.  The day
    count is validated against the calendar's successor function, and the
    reader against the printer of the same format. *)

From S2P Require Import Prelude CString.

(** [lia] decides goals with division and modulo by constants in this file. *)
#[local] Ltac Zify.zify_post_hook ::= Z.to_euclidean_division_equations.

(** ** [strptime] *)

Record tm := Tm {
  tm_year : Z;   (* full year; the C field holds it minus 1900 *)
  tm_mon : Z;    (* 1..12; the C field holds it minus 1 *)
  tm_mday : Z;
  tm_hour : Z;
  tm_min : Z;
  tm_sec : Z
}.

(** The digit loop of glibc's [get_number]: at most [n] digits, stopping early
    when one more digit would exceed the upper limit. *)
Fixpoint get_number_digits (n : nat) (to v : Z) (s : string) : Z * string :=
  match n, s with
  | S n', String c s' =>
      match digit_of c with
      | Some d =>
          let v' := v * 10 + d in
          if bool_decide (v' * 10 ≤ to) then get_number_digits n' to v' s' else (v', s')
      | None => (v, s)
      end
  | _, _ => (v, s)
  end.

Definition get_number (from to : Z) (n : nat) (s : string) : option (Z * string) :=
  let s := skip_space s in
  if starts_with_digit s then
    let '(v, s') := get_number_digits n to 0 s in
    if bool_decide (from ≤ v ≤ to) then Some (v, s') else None
  else None.

Definition match_char (c : ascii) (s : string) : option string :=
  match s with
  | String d s' => if bool_decide (c = d) then Some s' else None
  | EmptyString => None
  end.

(** [strptime(s, "%Y-%m-%d %H:%M:%S", &tm)]; [None] is a null result. *)
Definition strptime_ymd_hms (s : string) : option tm :=
  '(y, s) ← get_number 0 9999 4 s;
  s ← match_char "-" s;
  '(mo, s) ← get_number 1 12 2 s;
  s ← match_char "-" s;
  '(d, s) ← get_number 1 31 2 s;
  let s := skip_space s in
  '(h, s) ← get_number 0 23 2 s;
  s ← match_char ":" s;
  '(mi, s) ← get_number 0 59 2 s;
  s ← match_char ":" s;
  '(se, s) ← get_number 0 61 2 s;
  Some (Tm y mo d h mi se).

(** ** [timegm] *)

Definition is_leap (y : Z) : bool :=
  bool_decide (y `mod` 4 = 0) && (negb (bool_decide (y `mod` 100 = 0)) || bool_decide (y `mod` 400 = 0)).

Definition leap_day (y : Z) : Z := if is_leap y then 1 else 0.

(** Days from 0001-01-01 to the first of January of [y]. *)
Definition days_before_year (y : Z) : Z :=
  365 * (y - 1) + (y - 1) `div` 4 - (y - 1) `div` 100 + (y - 1) `div` 400.

Definition days_in_month (y m : Z) : Z :=
  if bool_decide (m = 2) then 28 + leap_day y
  else if bool_decide (m = 4 ∨ m = 6 ∨ m = 9 ∨ m = 11) then 30 else 31.

Definition days_before_month (y m : Z) : Z :=
  match m with
  | 1 => 0 | 2 => 31 | 3 => 59 + leap_day y | 4 => 90 + leap_day y
  | 5 => 120 + leap_day y | 6 => 151 + leap_day y | 7 => 181 + leap_day y
  | 8 => 212 + leap_day y | 9 => 243 + leap_day y | 10 => 273 + leap_day y
  | 11 => 304 + leap_day y | _ => 334 + leap_day y
  end.

(** Days since the epoch; a day past the end of its month runs on into the next. *)
Definition days_of_civil (y m d : Z) : Z :=
  days_before_year y + days_before_month y m + (d - 1) - days_before_year 1970.

Definition timegm (t : tm) : Z :=
  days_of_civil (tm_year t) (tm_mon t) (tm_mday t) * 86400
  + tm_hour t * 3600 + tm_min t * 60 + tm_sec t.

(** ** Validation of the day count *)

Definition next_day (y m d : Z) : Z * Z * Z :=
  if bool_decide (d < days_in_month y m) then (y, m, d + 1)
  else if bool_decide (m < 12) then (y, m + 1, 1)
  else (y + 1, 1, 1).

Lemma days_before_year_succ y : days_before_year (y + 1) = days_before_year y + 365 + leap_day y.
Proof.
  unfold days_before_year, leap_day, is_leap.
  replace (y + 1 - 1) with y by lia.
  destruct (bool_decide_reflect (y `mod` 4 = 0)), (bool_decide_reflect (y `mod` 100 = 0)),
    (bool_decide_reflect (y `mod` 400 = 0)); simpl; lia.
Qed.

Lemma month_cases m : 1 ≤ m ≤ 12 →
  m = 1 ∨ m = 2 ∨ m = 3 ∨ m = 4 ∨ m = 5 ∨ m = 6 ∨ m = 7 ∨ m = 8 ∨ m = 9 ∨ m = 10 ∨ m = 11 ∨ m = 12.
Proof. lia. Qed.

(** The day count of the next calendar day is one more. *)
Lemma days_of_civil_next y m d :
  1 ≤ m ≤ 12 → 1 ≤ d ≤ days_in_month y m →
  (let '(y', m', d') := next_day y m d in days_of_civil y' m' d') = days_of_civil y m d + 1.
Proof.
  intros Hm Hd. unfold next_day.
  destruct (bool_decide_reflect (d < days_in_month y m)) as [Hlt|Hge];
    [unfold days_of_civil; lia|].
  assert (d = days_in_month y m) as -> by lia. clear Hd Hge.
  unfold days_of_civil.
  destruct (month_cases m Hm) as [->|[->|[->|[->|[->|[->|[->|[->|[->|[->|[->| ->]]]]]]]]]]];
    simpl; try (unfold days_in_month; simpl; lia).
  rewrite days_before_year_succ. unfold days_in_month; simpl. lia.
Qed.

Lemma days_of_civil_epoch : days_of_civil 1970 1 1 = 0.
Proof. reflexivity. Qed.

(** ** The reader inverts the printer *)

Definition digit_char (d : Z) : ascii := Ascii.ascii_of_N (Z.to_N (48 + d)).
Definition print2 (n : Z) : string :=
  String (digit_char (n `div` 10)) (String (digit_char (n `mod` 10)) "").
Definition print4 (n : Z) : string := print2 (n `div` 100) +:+ print2 (n `mod` 100).

Definition print_ymd_hms (t : tm) : string :=
  print4 (tm_year t) +:+ "-" +:+ print2 (tm_mon t) +:+ "-" +:+ print2 (tm_mday t) +:+ " " +:+
  print2 (tm_hour t) +:+ ":" +:+ print2 (tm_min t) +:+ ":" +:+ print2 (tm_sec t).

(** The fields [strptime] accepts. *)
Definition tm_valid (t : tm) : Prop :=
  0 ≤ tm_year t ≤ 9999 ∧ 1 ≤ tm_mon t ≤ 12 ∧ 1 ≤ tm_mday t ≤ 31 ∧
  0 ≤ tm_hour t ≤ 23 ∧ 0 ≤ tm_min t ≤ 59 ∧ 0 ≤ tm_sec t ≤ 61.

#[local] Arguments digit_of : simpl never.
#[local] Arguments digit_char : simpl never.

Lemma digit_of_char d : 0 ≤ d < 10 → digit_of (digit_char d) = Some d.
Proof.
  intros H. assert (d = 0 ∨ d = 1 ∨ d = 2 ∨ d = 3 ∨ d = 4 ∨ d = 5 ∨ d = 6 ∨ d = 7 ∨ d = 8 ∨ d = 9)
    as Hd by lia.
  repeat destruct Hd as [->|Hd]; try reflexivity. subst. reflexivity.
Qed.

Lemma digit_char_not_space d : 0 ≤ d < 10 → Ascii.is_space (digit_char d) = false.
Proof. intros H. by destruct (digit_not_special _ _ (digit_of_char d H)). Qed.

Lemma get_number_start from to n d s :
  0 ≤ d < 10 →
  get_number from to n (String (digit_char d) s) =
  let '(v, s') := get_number_digits n to 0 (String (digit_char d) s) in
  if bool_decide (from ≤ v ≤ to) then Some (v, s') else None.
Proof.
  intros H. unfold get_number. simpl skip_space. rewrite digit_char_not_space by done.
  unfold starts_with_digit. by rewrite digit_of_char by done.
Qed.

Lemma get_number_print2 from to n s :
  0 ≤ from → from ≤ n ≤ to → n < 100 →
  get_number from to 2 (print2 n +:+ s) = Some (n, s).
Proof.
  intros Hf Hn Hb. unfold print2, String.app; simpl.
  rewrite get_number_start by lia. simpl.
  rewrite digit_of_char by lia.
  rewrite bool_decide_eq_true_2 by lia. simpl.
  rewrite !digit_of_char by lia.
  replace ((0 * 10 + n `div` 10) * 10 + n `mod` 10) with n by lia.
  case_bool_decide as H1; by rewrite bool_decide_eq_true_2 by lia.
Qed.

Lemma get_number_print4 n s :
  0 ≤ n ≤ 9999 → get_number 0 9999 4 (print4 n +:+ s) = Some (n, s).
Proof.
  intros Hn. unfold print4, print2, String.app; simpl.
  rewrite get_number_start by lia. simpl.
  repeat (rewrite digit_of_char by lia; rewrite ?bool_decide_eq_true_2 by lia).
  set (v := ((((0 * 10 + (n `div` 100) `div` 10) * 10 + (n `div` 100) `mod` 10) * 10
    + (n `mod` 100) `div` 10) * 10 + (n `mod` 100) `mod` 10)).
  assert (v = n) as -> by (unfold v; lia).
  case_bool_decide as H1; by rewrite bool_decide_eq_true_2 by lia.
Qed.

Lemma match_char_app c s : match_char c (String c "" +:+ s) = Some s.
Proof. unfold String.app; simpl. by rewrite bool_decide_eq_true_2. Qed.

Lemma skip_space_print2 n s :
  0 ≤ n < 100 → skip_space (" " +:+ print2 n +:+ s) = print2 n +:+ s.
Proof.
  intros Hn. unfold String.app, print2; simpl. by rewrite digit_char_not_space by lia.
Qed.

(** Past the separator and through the next two-digit conversion. *)
#[local] Ltac next_field :=
  cbn [mbind option_bind]; rewrite ?match_char_app; cbn [mbind option_bind];
  rewrite ?skip_space_print2, get_number_print2 by lia.

Lemma strptime_print t rest :
  tm_valid t → strptime_ymd_hms (print_ymd_hms t +:+ rest) = Some t.
Proof.
  intros (Hy & Hmo & Hd & Hh & Hmi & Hs). unfold print_ymd_hms, strptime_ymd_hms.
  rewrite !string_app_assoc, get_number_print4 by done.
  do 5 next_field. by destruct t.
Qed.

Example strptime_ex : timegm <$> strptime_ymd_hms "2022-01-01 00:00:00" = Some 1640995200.
Proof. reflexivity. Qed.
Example strptime_leap_ex : timegm <$> strptime_ymd_hms "2024-02-29 23:59:60" = Some 1709251200.
Proof. reflexivity. Qed.
