(* ===== verification/Platform.v ===== *)
(** * Platform: the messages, the outside world and the calls made on it

    [TimerMsg] and the enumerations of interface/itimermsg.h, the process's view
    of the outside world ([world]: the files it reads and writes and the log of
    the calls it has made), and one operation per library, kernel or service
    call the sources make.  Code that is not in the repository (the kernel,
    chronyd's library, the IARM bus, the power controller, Thunder, jsoncpp, the
    MFR library) is the parameter [Env]: its answer to a call is an arbitrary
    function of the call and of everything that was called before. *)

From Corelib Require Import SpecFloat.
From S2P Require Import Prelude CString.

(** ** interface/itimermsg.h *)

(** src: interface/itimermsg.h:33-40 TimerMsg
    The three character arrays hold NUL-terminated strings of at most 79
    characters. *)
Record TimerMsg := mkTimerMsg {
  msg_event : Z;
  msg_quality : Z;
  msg_timerSrc : string;
  msg_currentTime : string;
  msg_message : string
}.

(** src: interface/itimermsg.h:29-29 cTIMER_STATUS_MESSAGE_LENGTH *)
Definition cTIMER_STATUS_MESSAGE_LENGTH : nat := 80.

(** src: interface/itimermsg.h:31-31 cTIMER_STATUS_UPDATE *)
Definition cTIMER_STATUS_UPDATE : Z := 0.

(** src: interface/itimermsg.h:26-28 IARM_BUS_SYSTIME_MGR_NAME *)
Definition IARM_BUS_SYSTIME_MGR_NAME : string := "SystemTimeMgr".
(** src: interface/itimermsg.h:27-27 TIMER_STATUS_MSG *)
Definition TIMER_STATUS_MSG : string := "TIMER_STATUS".
(** src: interface/itimermsg.h:28-28 POWER_CHANGE_MSG *)
Definition POWER_CHANGE_MSG : string := "POWER_CHANGE".

(** src: interface/itimermsg.h:43-51 publishEvent *)
Inductive publishEvent :=
  | ePUBLISH_TIME_INITIAL
  | ePUBLISH_NTP_FAIL
  | ePUBLISH_NTP_SUCCESS
  | ePUBLISH_DTT_SUCCESS
  | ePUBLISH_SECURE_TIME_SUCCESS
  | ePUBLISH_DEEP_SLEEP_ON.

(** src: interface/itimermsg.h:43-51 publishEvent *)
Definition publishEvent_code (e : publishEvent) : Z :=
  match e with
  | ePUBLISH_TIME_INITIAL => 0
  | ePUBLISH_NTP_FAIL => 1
  | ePUBLISH_NTP_SUCCESS => 2
  | ePUBLISH_DTT_SUCCESS => 3
  | ePUBLISH_SECURE_TIME_SUCCESS => 4
  | ePUBLISH_DEEP_SLEEP_ON => 5
  end.

(** src: interface/itimermsg.h:53-59 qualityOfTime *)
Inductive qualityOfTime :=
  | eTIMEQUALILTY_POOR
  | eTIMEQUALILTY_GOOD
  | eTIMEQUALILTY_SECURE
  | eTIMEQUALILTY_UNKNOWN.

#[export] Instance qualityOfTime_eq_dec : EqDecision qualityOfTime.
Proof. solve_decision. Defined.

(** src: interface/itimermsg.h:53-59 qualityOfTime *)
Definition qualityOfTime_code (q : qualityOfTime) : Z :=
  match q with
  | eTIMEQUALILTY_POOR => 0
  | eTIMEQUALILTY_GOOD => 1
  | eTIMEQUALILTY_SECURE => 2
  | eTIMEQUALILTY_UNKNOWN => 3
  end.

(** ** Calls on the outside world

    The index is the type of the answer.  A call that returns a status and
    fills an output parameter answers with the pair. *)

Definition json : Set := positive.   (* an opaque handle on a Json::Value *)

(** A [struct inotify_event] as the daemon reads it: its mask, and the text at its
    [name].  For an event of the watched directory itself, which has none, that text
    is whatever the buffer holds there. *)
Record inotify_event : Set := InotifyEvent { ie_mask : Z; ie_name : string }.

Inductive call : Set → Type :=
  (* the clock *)
  | ClockGettime : call (option (Z * Z))            (* tv_sec, tv_nsec *)
  | TimeNull : call Z
  | ClockSettime (sec : Z) : call bool              (* returned 0 *)
  | NtpGettime : call Z                             (* tVal.time.tv_sec *)
  | TimespecGet : call Z
  | Adjtimex : call (Z * Z)                         (* result, tx.status *)
  (* files *)
  | OpenWrite (path : string) : call bool
  | WriteBytes (path data : string) : call nat      (* bytes that reached the file *)
  | OpenRead (path : string) : call bool            (* permission; existence is in the world *)
  | Futimens (path : string) (sec : Z) : call bool
  | Fstat (path : string) : call (option Z)         (* st_mtim.tv_sec; other processes set it too *)
  (* processes, chronyd *)
  | SecureSystem (cmd : string) : call Z
  | ChronyInit : call Z
  | ChronyCleanup : call Z
  | ChronyGetOffset : call (Z * spec_float)
  | ChronyGetSystemTimeOffset : call (Z * spec_float)
  | ChronyMakestep : call Z
  | ChronyOnline : call Z
  | ChronyBurst (good total : Z) : call Z
  | ChronyHasSelectable : call (Z * Z)
  | ChronyGetSourceCount : call (Z * Z)
  | ChronyWaitsync (tries interval : Z) : call Z
  (* JSON-RPC, Thunder *)
  | CallMethod (method : string) : call (option json)   (* None: JsonRpcException *)
  | ThunderSubscribe (event : string) : call Z
  | ThunderUnsubscribe (event : string) : call unit
  (* the IARM bus, the MFR library, the power controller *)
  | IarmIsConnected (name : string) : call Z
  | IarmInit (name : string) : call Z
  | IarmConnect : call Z
  | IarmBroadcastEvent (name : string) (event : Z) (msg : TimerMsg) : call Z
  | IarmRegisterCall (name : string) : call Z
  | IarmRegisterEventHandler (owner : string) (event : Z) : call Z
  | MfrSetSecureTime (param : Z) : call bool        (* succeeded *)
  | MfrGetSecureTime : call (bool * Z)
  | PowerControllerInit : call unit
  | PowerControllerConnect : call Z
  | PowerControllerRegister : call Z
  | PowerControllerUnRegister : call Z
  (* inotify *)
  | InotifyInit : call Z
  | InotifyAddWatch (path : string) (mask : Z) : call Z
  | InotifyRead : call (option (list inotify_event))   (* the events a read returned; it failed *)
  | PowerControllerTerm : call unit
  (* telemetry and the console publisher *)
  | T2Init (component : string) : call unit
  | T2Count (marker : string) (n : Z) : call unit
  | T2Val (marker value : string) : call unit
  | Milestone (name : string) : call unit
  | ConsolePublish (event quality : Z) (message : string) : call unit.

(** One entry of the log: a call and the answer it got. *)
Record ev := Ev { ev_type : Set; ev_call : call ev_type; ev_answer : ev_type }.
Arguments Ev {ev_type} ev_call ev_answer.

(** ** The environment *)

Class Env := {
  (* the answer to a call, given the log so far (most recent first) *)
  answer : ∀ {A : Set}, list ev → call A → A;
  (* strftime("%A %c", localtime(&t)); None: localtime returns a null pointer *)
  strftime_Ac : Z → option string;
  (* jsoncpp: v[key], v.asString(), v.asBool() *)
  json_member : json → string → outcome json;
  json_asString : json → outcome string;
  json_asBool : json → outcome bool;
  (* conversions between long long and IARM_Bus_MFRLib_SecureTime_Param *)
  mfr_param_of_ll : Z → Z;
  ll_of_mfr_param : Z → Z
}.

(** The compile-time switches of the two packages' configure scripts and of the
    sources' conditional compilation. *)
Class Build := {
  T2_EVENT_ENABLED : bool;
  MILESTONE_SUPPORT_DISABLED : bool;
  IARM_SUPPORT_DISABLED : bool;
  ENABLE_IARM : bool;
  PWRMGRPLUGIN_ENABLED : bool;
  DTT_ENABLED : bool;
  TEE_ENABLED : bool;
  WPEVGDRM_ENABLED : bool;
  LOCAL_TEST : bool
}.

(** ** The world *)

Record file := File { f_data : string; f_mtime : Z }.

Record world := World {
  w_fs : gmap string file;
  w_trace : list ev
}.

Definition set_fs (f : gmap string file → gmap string file) (w : world) : world :=
  World (f (w_fs w)) (w_trace w).
Definition log (e : ev) (w : world) : world := World (w_fs w) (e :: w_trace w).

Section operations.
Context {E : Env}.

(** Makes a call and logs it with its answer. *)
Definition sys {A : Set} (c : call A) : M world A := λ w,
  let a := answer (w_trace w) c in (Ret a, log (Ev c a) w).

(** [access(path, F_OK) == 0]. *)
Definition file_exists (path : string) : M world bool :=
  gets (λ w, bool_decide (is_Some (w_fs w !! path))).

(** The contents of a file opened for reading; [None]: the open failed. *)
Definition read_file (path : string) : M world (option string) :=
  ok ← sys (OpenRead path);
  if (ok : bool) then gets (λ w, f_data <$> w_fs w !! path) else mret None.

(** [ofstream f(path, ios::out); if (f.is_open()) { f << data; f.close(); }]:
    the open truncates or creates, then as many bytes as the device takes are
    stored. *)
Definition write_file (path data : string) : M world bool :=
  ok ← sys (OpenWrite path);
  if (ok : bool) then
    n ← sys (WriteBytes path data);
    t ← sys TimespecGet;
    _ ← modify (set_fs (<[path := File (string_take n data) t]>));
    mret true
  else mret false.

(** [ofstream f(path)] and nothing written: creates or truncates. *)
Definition truncate_file (path : string) : M world bool :=
  ok ← sys (OpenWrite path);
  if (ok : bool) then
    t ← sys TimespecGet;
    _ ← modify (set_fs (<[path := File "" t]>));
    mret true
  else mret false.

(** [open(path, O_WRONLY|O_CREAT)]: keeps the contents of an existing file. *)
Definition create_file (path : string) : M world bool :=
  ok ← sys (OpenWrite path);
  if (ok : bool) then
    t ← sys TimespecGet;
    _ ← modify (set_fs (λ fs, match fs !! path with
                              | Some _ => fs
                              | None => <[path := File "" t]> fs
                              end));
    mret true
  else mret false.

(** [futimens(fd, {ts, ts})] on an open file. *)
Definition set_mtime (path : string) (sec : Z) : M world bool :=
  ok ← sys (Futimens path sec);
  _ ← when ok (modify (set_fs (alter (λ f, File (f_data f) sec) path)));
  mret ok.

(** [strftime(buf, n, "%A %c", localtime(&t))]: a null [struct tm] is
    dereferenced. *)
Definition strftime_local (t : Z) : M world string := deref (strftime_Ac t).

(** [system_clock::to_time_t] of [seconds{sec} + nanoseconds{nsec}]: the sum
    is taken in nanoseconds, in 64 bits. *)
Definition chrono_to_time_t (sec nsec : Z) : M world Z :=
  a ← of_outcome (i64 (sec * 1000000000));
  b ← of_outcome (i64 (a + nsec));
  mret (Z.quot b 1000000000).

(** The idiom of publishStatus, getTimeStatus and updateTime: CLOCK_REALTIME
    in seconds, or [time(NULL)] when clock_gettime fails. *)
Definition realtime_or_time : M world Z :=
  t ← sys TimeNull;
  ts ← sys ClockGettime;
  match ts with
  | Some (s, ns) => chrono_to_time_t s ns
  | None => mret t
  end.

(** What that idiom finds when the log is [h]: the seconds of CLOCK_REALTIME, or
    the answer of [time(NULL)] when clock_gettime fails. *)
Definition clock_reading (h : list ev) : Z :=
  match answer (Ev TimeNull (answer h TimeNull) :: h) ClockGettime with
  | Some (s, _) => s
  | None => answer h TimeNull
  end.
End operations.

(** ** Views of the log *)

Definition ev_msg (e : ev) : option TimerMsg :=
  match ev_call e with IarmBroadcastEvent _ _ m => Some m | _ => None end.
Definition ev_settime (e : ev) : option Z :=
  match ev_call e with ClockSettime s => Some s | _ => None end.

(** The messages broadcast on the bus, most recent first. *)
Definition broadcasts (l : list ev) : list TimerMsg := omap ev_msg l.

(** Neither a broadcast nor a change of the system clock. *)
Definition quiet_ev (e : ev) : Prop := ev_msg e = None ∧ ev_settime e = None.

(** [w'] follows [w] by calls of which none is a broadcast or sets the clock. *)
Definition quiet (w w' : world) : Prop :=
  ∃ l, w_trace w' = l ++ w_trace w ∧ Forall quiet_ev l.

#[export] Instance quiet_preorder : PreOrder quiet.
Proof.
  split.
  - intros w. by exists [].
  - intros w1 w2 w3 (l1 & H1 & F1) (l2 & H2 & F2). exists (l2 ++ l1).
    rewrite H2, H1, app_assoc. split; [done|]. by apply Forall_app.
Qed.

Lemma quiet_log w w' e : quiet w w' → quiet_ev e → quiet w (log e w').
Proof.
  intros (l & Hl & HF) He. exists (e :: l). simpl. rewrite Hl. auto.
Qed.

Lemma quiet_set_fs w w' f : quiet w w' → quiet w (set_fs f w').
Proof. done. Qed.

Lemma broadcasts_app l1 l2 : broadcasts (l1 ++ l2) = broadcasts l1 ++ broadcasts l2.
Proof. apply omap_app. Qed.

Lemma broadcasts_quiet w w' : quiet w w' → broadcasts (w_trace w') = broadcasts (w_trace w).
Proof.
  intros (l & -> & HF). rewrite broadcasts_app. induction HF as [|e l [He _] _ IH]; [done|].
  unfold broadcasts in *. simpl. by rewrite He.
Qed.

(** The values the clock was set to, most recent first. *)
Definition settimes (l : list ev) : list Z := omap ev_settime l.

Lemma settimes_quiet w w' : quiet w w' → settimes (w_trace w') = settimes (w_trace w).
Proof.
  intros (l & -> & HF). unfold settimes. rewrite omap_app.
  induction HF as [|e l [_ He] _ IH]; [done|]. simpl. by rewrite He.
Qed.

(** The last parameter the MFR library accepted as secure time. *)
Fixpoint last_secure_time (l : list ev) : Z :=
  match l with
  | [] => 0
  | @Ev _ (MfrSetSecureTime p) true :: _ => p
  | _ :: l => last_secure_time l
  end.

Create HintDb quiet.
#[export] Hint Resolve quiet_log quiet_set_fs : quiet.
#[export] Hint Extern 1 (quiet ?w ?w) => reflexivity : quiet.
#[export] Hint Extern 2 (quiet_ev _) => (split; reflexivity) : quiet.
#[export] Hint Extern 3 (quiet _ _) => (etrans; [eassumption|]) : quiet.

(** ** The environments the totality theorems are stated for

    A clock between 1970 and 2242, and a C library that can break down any
    time of the next thirty thousand years. *)
Definition sane_max : Z := 2 ^ 33.
Definition sane_span : Z := 2 ^ 40.

Class SaneEnv (E : Env) : Prop := {
  sane_clock : ∀ h s n, answer h ClockGettime = Some (s, n) →
    0 ≤ s ≤ sane_max ∧ 0 ≤ n < 1000000000;
  sane_time : ∀ h, 0 ≤ answer h TimeNull ≤ sane_max;
  sane_ntp : ∀ h, 0 ≤ answer h NtpGettime ≤ sane_max;
  sane_mtime : ∀ h p s, answer h (Fstat p) = Some s → 0 ≤ s ≤ sane_max;
  sane_strftime : ∀ z, 0 ≤ z ≤ sane_span → is_Some (strftime_Ac z)
}.

(** Services whose replies have the documented shape: the members asked for can
    be read, and the two time fields are decimal times of the same range. *)
Class SaneJson (E : Env) : Prop := {
  sane_member : ∀ j k, ∃ v, json_member j k = Ret v;
  sane_asString : ∀ j, ∃ s, json_asString j = Ret s;
  sane_asBool : ∀ j, ∃ b, json_asBool j = Ret b;
  sane_timefield : ∀ k j m s, k = "securetime" ∨ k = "timeUtc" →
    json_member j k = Ret m → json_asString m = Ret s →
    ∃ v, stoll s = Ret v ∧ 0 ≤ v ≤ sane_max
}.

(** A disk on which every open succeeds and every write is complete. *)
Class HealthyDisk (E : Env) : Prop := {
  disk_open_write : ∀ h p, answer h (OpenWrite p) = true;
  disk_write : ∀ h p d, (String.length d ≤ answer h (WriteBytes p d))%nat;
  disk_open_read : ∀ h p, answer h (OpenRead p) = true
}.

(** ** Specifications of the operations *)

Section specs.
Context {E : Env} (t : bool).
Context (HE : t = true → SaneEnv E).

Lemma wp_sys {A : Set} (c : call A) (Q : A → world → Prop) w :
  Q (answer (w_trace w) c) (log (Ev c (answer (w_trace w) c)) w) → wp t (sys c) Q w.
Proof. done. Qed.

Lemma wp_sys_unit (c : call unit) (Q : unit → world → Prop) w :
  Q tt (log (Ev c tt) w) → wp t (sys c) Q w.
Proof. intros H. apply wp_sys. by destruct (answer (w_trace w) c). Qed.

Lemma wp_strftime z (Q : string → world → Prop) w :
  (t = true → 0 ≤ z ≤ sane_span) → (∀ s, Q s w) → wp t (strftime_local z) Q w.
Proof.
  intros Hz HQ. unfold strftime_local. apply wp_deref; [|auto].
  intros Ht. destruct (HE Ht). auto.
Qed.

Lemma wp_chrono s n (Q : Z → world → Prop) w :
  (t = true → 0 ≤ s ≤ sane_max ∧ 0 ≤ n < 1000000000) →
  (∀ z, (0 ≤ s → 0 ≤ n < 1000000000 → z = s) → Q z w) → wp t (chrono_to_time_t s n) Q w.
Proof.
  intros Hs HQ. unfold chrono_to_time_t.
  apply wp_bind, wp_of_outcome.
  { intros Ht. destruct (Hs Ht). eexists. apply i64_ret. unfold i64_min, i64_max, sane_max in *. lia. }
  intros a Ha. apply wp_bind, wp_of_outcome.
  { intros Ht. destruct (Hs Ht). unfold i64 in Ha. case_match; [|done]. injection Ha as <-.
    eexists. apply i64_ret. unfold i64_min, i64_max, sane_max in *. lia. }
  intros b Hb. apply wp_ret, HQ. intros H1 H2. unfold i64 in Ha, Hb.
  repeat case_match; try done. injection Ha as <-. injection Hb as <-.
  rewrite Z.quot_div_nonneg by lia.
  rewrite Z.div_add_l by lia. rewrite (Z.div_small n) by lia. lia.
Qed.

Lemma wp_realtime (Q : Z → world → Prop) w :
  (∀ z w', quiet w w' → w_fs w' = w_fs w → (t = true → 0 ≤ z ≤ sane_max) →
     (t = true → z = clock_reading (w_trace w)) → Q z w') →
  wp t realtime_or_time Q w.
Proof.
  intros HQ. unfold realtime_or_time.
  apply wp_bind, wp_sys, wp_bind, wp_sys.
  set (w1 := log _ w). set (w2 := log _ w1).
  assert (quiet w w2) by (unfold w2, w1; eauto with quiet).
  destruct (answer (w_trace w1) ClockGettime) as [[s n]|] eqn:Hc.
  - apply wp_chrono.
    + intros Ht. destruct (HE Ht) as [Hclk _ _ _ _]. eauto.
    + intros z Hz. apply HQ; [done|done|..]; intros Ht; destruct (HE Ht) as [Hclk _ _ _ _];
        destruct (Hclk _ _ _ Hc) as [Hs Hn]; rewrite Hz by lia; [done|].
      unfold clock_reading. simpl in Hc. by rewrite Hc.
  - apply wp_ret, HQ; [done|done|..]; intros Ht; [by destruct (HE Ht) as [_ ? _ _ _]|].
    unfold clock_reading. simpl in Hc. by rewrite Hc.
Qed.

Lemma wp_read_file path (Q : option string → world → Prop) w :
  (∀ w', quiet w w' → w_fs w' = w_fs w → Q (f_data <$> w_fs w !! path) w') →
  (∀ h w', answer h (OpenRead path) = false → quiet w w' → w_fs w' = w_fs w → Q None w') →
  wp t (read_file path) Q w.
Proof.
  intros HQ1 HQ2. unfold read_file. apply wp_bind, wp_sys.
  destruct (answer (w_trace w) (OpenRead path)) eqn:Ho.
  - apply wp_gets, HQ1; simpl; eauto with quiet.
  - apply wp_ret. eapply HQ2; simpl; eauto with quiet.
Qed.

Lemma wp_write_file path data (Q : bool → world → Prop) w :
  (∀ h n m w', answer h (WriteBytes path data) = n → quiet w w' →
    w_fs w' = <[path := File (string_take n data) m]> (w_fs w) → Q true w') →
  (∀ h w', answer h (OpenWrite path) = false → quiet w w' → w_fs w' = w_fs w → Q false w') →
  wp t (write_file path data) Q w.
Proof.
  intros HQ1 HQ2. unfold write_file. apply wp_bind, wp_sys.
  destruct (answer (w_trace w) (OpenWrite path)) eqn:Ho.
  - apply wp_bind, wp_sys, wp_bind, wp_sys, wp_bind, wp_modify, wp_ret.
    eapply HQ1; [reflexivity| |reflexivity]. eauto 7 with quiet.
  - apply wp_ret. eapply HQ2; eauto with quiet.
Qed.

Lemma wp_truncate_file path (Q : bool → world → Prop) w :
  (∀ m w', quiet w w' → w_fs w' = <[path := File "" m]> (w_fs w) → Q true w') →
  (∀ w', quiet w w' → w_fs w' = w_fs w → Q false w') →
  wp t (truncate_file path) Q w.
Proof.
  intros HQ1 HQ2. unfold truncate_file. apply wp_bind, wp_sys.
  destruct (answer (w_trace w) (OpenWrite path)).
  - apply wp_bind, wp_sys, wp_bind, wp_modify, wp_ret.
    eapply HQ1; [|reflexivity]. eauto 7 with quiet.
  - apply wp_ret, HQ2; eauto with quiet.
Qed.

Definition created (path : string) (m : Z) (fs : gmap string file) : gmap string file :=
  match fs !! path with Some _ => fs | None => <[path := File "" m]> fs end.

Lemma wp_create_file path (Q : bool → world → Prop) w :
  (∀ m w', quiet w w' → w_fs w' = created path m (w_fs w) → Q true w') →
  (∀ w', quiet w w' → w_fs w' = w_fs w → Q false w') →
  wp t (create_file path) Q w.
Proof.
  intros HQ1 HQ2. unfold create_file. apply wp_bind, wp_sys.
  destruct (answer (w_trace w) (OpenWrite path)).
  - apply wp_bind, wp_sys, wp_bind, wp_modify, wp_ret.
    eapply HQ1; [|reflexivity]. eauto 7 with quiet.
  - apply wp_ret, HQ2; eauto with quiet.
Qed.

Lemma wp_set_mtime path sec (Q : bool → world → Prop) w :
  (∀ w', quiet w w' → w_fs w' = alter (λ f, File (f_data f) sec) path (w_fs w) → Q true w') →
  (∀ w', quiet w w' → w_fs w' = w_fs w → Q false w') →
  wp t (set_mtime path sec) Q w.
Proof.
  intros HQ1 HQ2. unfold set_mtime. apply wp_bind, wp_sys.
  set (w1 := log _ w). apply wp_bind, wp_when; intros Hb; rewrite Hb.
  - apply wp_modify, wp_ret, HQ1; unfold w1; [eauto with quiet|done].
  - apply wp_ret, HQ2; unfold w1; [eauto with quiet|done].
Qed.
End specs.

(** ** The calls an operation makes

    [makes π P m]: whatever the environment answers and however [m] ends, every
    call it makes satisfies [P]; [π] is the world inside the state. *)
Definition makes {S A} (π : S → world) (P : ev → Prop) (m : M S A) : Prop :=
  ∀ s, ∃ l, w_trace (π (snd (m s))) = l ++ w_trace (π s) ∧ Forall P l.

Section makes_rules.
Context {E : Env} {S : Type} (π : S → world) (P : ev → Prop).

Lemma makes_silent {A} (m : M S A) :
  (∀ s, w_trace (π (snd (m s))) = w_trace (π s)) → makes π P m.
Proof. intros H s. exists []. by rewrite H. Qed.

Lemma makes_ret {A} (a : A) : makes π P (mret a).
Proof. by apply makes_silent. Qed.

Lemma makes_gets {A} (f : S → A) : makes π P (gets f).
Proof. by apply makes_silent. Qed.

Lemma makes_throw {A} e : makes π P (throw e : M S A).
Proof. by apply makes_silent. Qed.

Lemma makes_of_outcome {A} (o : outcome A) : makes π P (of_outcome o).
Proof. by apply makes_silent. Qed.

Lemma makes_deref {A} (p : option A) : makes π P (deref p).
Proof. apply makes_silent. by destruct p. Qed.

Lemma makes_modify (f : S → S) : (∀ s, w_trace (π (f s)) = w_trace (π s)) → makes π P (modify f).
Proof. intros H. apply makes_silent. exact H. Qed.

Lemma makes_bind {A C} (m : M S A) (f : A → M S C) :
  makes π P m → (∀ a, makes π P (f a)) → makes π P (m ≫= f).
Proof.
  intros Hm Hf s. unfold mbind, M_bind. destruct (Hm s) as (l1 & H1 & F1).
  destruct (m s) as [[a|e|] s']; simpl in *; [|by exists l1..].
  destruct (Hf a s') as (l2 & H2 & F2). exists (l2 ++ l1).
  rewrite H2, H1, app_assoc. split; [done|]. by apply Forall_app.
Qed.

Lemma makes_fmap {A C} (f : A → C) (m : M S A) : makes π P m → makes π P (f <$> m).
Proof. intros Hm. apply makes_bind; [done|]. intros a. apply makes_ret. Qed.

Lemma makes_when b (m : M S unit) : (b = true → makes π P m) → makes π P (when b m).
Proof. destruct b; intros H; [by apply H|apply makes_ret]. Qed.

Lemma makes_catch {A} (m : M S A) sel (h : M S A) :
  makes π P m → makes π P h → makes π P (catch m sel h).
Proof.
  intros Hm Hh s. unfold catch. destruct (Hm s) as (l1 & H1 & F1).
  destruct (m s) as [[a|e|] s']; simpl in *; [by exists l1| |by exists l1].
  destruct (sel e); [|by exists l1]. destruct (Hh s') as (l2 & H2 & F2). exists (l2 ++ l1).
  rewrite H2, H1, app_assoc. split; [done|]. by apply Forall_app.
Qed.
End makes_rules.

Lemma makes_on_snd {O A} (P : ev → Prop) (m : M world A) :
  makes id P m → makes (snd : O * world → world) P (on_snd m).
Proof.
  intros Hm [o w]. unfold on_snd. simpl. destruct (Hm w) as (l & Hl & HF). unfold id in Hl.
  destruct (m w) as [r w']. simpl in *. eauto.
Qed.

Lemma makes_sys {E : Env} {A : Set} (P : ev → Prop) (c : call A) :
  (∀ a, P (Ev c a)) → makes id P (sys c).
Proof. intros H w. exists [Ev c (answer (w_trace w) c)]. simpl. auto. Qed.

Lemma makes_mono {S A} (π : S → world) (P Q : ev → Prop) (m : M S A) :
  (∀ e, P e → Q e) → makes π P m → makes π Q m.
Proof.
  intros H Hm s. destruct (Hm s) as (l & Hl & HF). exists l. split; [done|].
  eapply Forall_impl; eauto.
Qed.

(** Decomposes a program into its calls and tries to settle each by
    computation. *)
Ltac makes_step :=
  lazymatch goal with
  | |- makes _ _ (mbind _ _) => apply makes_bind; [|intros ?]
  | |- makes _ _ (fmap _ _) => apply makes_fmap
  | |- makes _ _ (mret _) => apply makes_ret
  | |- makes _ _ (gets _) => apply makes_gets
  | |- makes _ _ (throw _) => apply makes_throw
  | |- makes _ _ (of_outcome _) => apply makes_of_outcome
  | |- makes _ _ (deref _) => apply makes_deref
  | |- makes _ _ (modify _) => apply makes_modify; intros ?; done
  | |- makes _ _ (when _ _) => apply makes_when; intros ?
  | |- makes _ _ (on_snd _) => apply makes_on_snd
  | |- makes _ _ (catch _ _ _) => apply makes_catch
  | |- makes _ _ (sys _) => apply makes_sys; intros ?; done
  | |- makes _ _ (if ?b then _ else _) => destruct b
  | |- makes _ _ (match ?o with Some _ => _ | None => _ end) => destruct o
  | |- makes _ _ (let '(_, _) := ?p in _) => destruct p
  end.
Ltac makes_steps := repeat makes_step.
