(* ===== verification/TestEnv.v ===== *)
(** * TestEnv: concrete environments for the witnesses

    [good_env]: every service answers that all is well, the clock shows a fixed
    time in 2023, the disk takes every write.  Some answers can be overridden. *)

From Corelib Require Import SpecFloat.
From S2P Require Import Prelude CString Platform.

Record overrides := Overrides {
  o_clock : option (Z * Z);          (* CLOCK_REALTIME *)
  o_ntp : Z;                         (* ntp_gettime *)
  o_settime : bool;
  o_adjtimex : list (Z * Z);         (* successive answers; then "synchronised" *)
  o_active : string → Z;             (* systemctl *)
  o_selectable : Z * Z;
  o_sources : Z * Z;
  o_offset : Z * spec_float;
  o_waitsync : Z;
  o_rpc : string → option json;
  o_timeUtc : string;                (* the text of the time fields *)
  o_mtime : option Z;
  o_subscribe : list Z;              (* successive Subscribe results; then 0 *)
  o_pwr : list Z                     (* successive PowerController_Connect results; then 0 *)
}.

Definition plain : overrides := {|
  o_clock := Some (1700000000, 0); o_ntp := 1700000000; o_settime := true; o_adjtimex := [];
  o_active := λ _, 0; o_selectable := (0, 1); o_sources := (0, 1);
  o_offset := (0, S754_zero false); o_waitsync := 0; o_rpc := λ _, None; o_timeUtc := "1700000000";
  o_mtime := None; o_subscribe := [];
  o_pwr := []
|}.

(** How many calls of a kind the log holds. *)
Definition count_calls (f : ∀ {A : Set}, call A → bool) (h : list ev) : nat :=
  length (filter (λ e, f (ev_call e) = true) h).

Definition is_adjtimex {A : Set} (c : call A) : bool := match c with Adjtimex => true | _ => false end.
Definition is_subscribe {A : Set} (c : call A) : bool :=
  match c with ThunderSubscribe _ => true | _ => false end.
Definition is_connect {A : Set} (c : call A) : bool :=
  match c with PowerControllerConnect => true | _ => false end.

Definition test_answer (o : overrides) {A : Set} (h : list ev) (c : call A) : A :=
  match c in call A return A with
  | ClockGettime => o_clock o
  | TimeNull => 1700000000
  | ClockSettime _ => o_settime o
  | NtpGettime => o_ntp o
  | TimespecGet => 1700000000
  | Adjtimex => default (0, 0) (o_adjtimex o !! count_calls (@is_adjtimex) h)
  | OpenWrite _ => true
  | WriteBytes _ d => String.length d
  | OpenRead _ => true
  | Futimens _ _ => true
  | Fstat _ => o_mtime o
  | SecureSystem cmd => o_active o cmd
  | ChronyInit | ChronyCleanup | ChronyMakestep | ChronyOnline | ChronyBurst _ _ => 0
  | ChronyWaitsync _ _ => o_waitsync o
  | ChronyGetOffset | ChronyGetSystemTimeOffset => o_offset o
  | ChronyHasSelectable => o_selectable o
  | ChronyGetSourceCount => o_sources o
  | CallMethod m => o_rpc o m
  | ThunderSubscribe _ => default 0 (o_subscribe o !! count_calls (@is_subscribe) h)
  | ThunderUnsubscribe _ => tt
  | IarmIsConnected _ | IarmInit _ | IarmConnect | IarmBroadcastEvent _ _ _
  | IarmRegisterCall _ | IarmRegisterEventHandler _ _ => 0
  | MfrSetSecureTime _ => true
  | MfrGetSecureTime => (true, last_secure_time h)
  | PowerControllerInit | PowerControllerTerm => tt
  | PowerControllerConnect => default 0 (o_pwr o !! count_calls (@is_connect) h)
  | PowerControllerRegister | PowerControllerUnRegister => 0
  | InotifyInit => 3
  | InotifyAddWatch _ _ => 1
  | InotifyRead => Some [InotifyEvent 4 "ntp"; InotifyEvent 4 "drm"]
  | T2Init _ | T2Count _ _ | T2Val _ _ | Milestone _ | ConsolePublish _ _ _ => tt
  end.

(** A C library whose [localtime] succeeds while the year fits an [int]. *)
Definition glibc_strftime (z : Z) : option string :=
  if bool_decide (-67768040609740800 ≤ z ≤ 67768036191676799) then Some "date" else None.

(** One JSON document: handle 1 is the reply, handle 2 a field that reads
    "Active", 3 a time field. *)
Definition test_env (o : overrides) : Env := {|
  answer := λ A h c, test_answer o h c;
  strftime_Ac := glibc_strftime;
  json_member := λ j k, Ret (if decide (k = "activationstatus") then 2%positive
                             else if decide (k = "securetime" ∨ k = "timeUtc") then 3%positive
                             else 1%positive);
  json_asString := λ j, Ret (if decide (j = 2%positive) then "Active"
                             else if decide (j = 3%positive) then o_timeUtc o else "");
  json_asBool := λ _, Ret true;
  mfr_param_of_ll := u32;
  ll_of_mfr_param := u32
|}.

Definition good_env : Env := test_env plain.

Definition good_build : Build := {|
  T2_EVENT_ENABLED := false; MILESTONE_SUPPORT_DISABLED := false; IARM_SUPPORT_DISABLED := false;
  ENABLE_IARM := true; PWRMGRPLUGIN_ENABLED := true; DTT_ENABLED := true; TEE_ENABLED := true;
  WPEVGDRM_ENABLED := false; LOCAL_TEST := false
|}.

Definition good_world : world := World ∅ [].

Lemma glibc_strftime_sane z : 0 ≤ z ≤ sane_span → is_Some (glibc_strftime z).
Proof.
  intros Hz. unfold glibc_strftime, sane_span in *. rewrite bool_decide_eq_true_2 by lia. eauto.
Qed.

Lemma test_env_sane o :
  match o_clock o with Some (s, n) => 0 ≤ s ≤ sane_max ∧ 0 ≤ n < 1000000000 | None => True end →
  0 ≤ o_ntp o ≤ sane_max → match o_mtime o with Some s => 0 ≤ s ≤ sane_max | None => True end →
  SaneEnv (test_env o).
Proof.
  intros Hc Hn Hm. split.
  - intros h s n H. simpl in H. by rewrite H in Hc.
  - intros h. simpl. unfold sane_max. lia.
  - done.
  - intros h p s H. simpl in H. by rewrite H in Hm.
  - exact glibc_strftime_sane.
Qed.

Lemma good_env_sane : SaneEnv good_env.
Proof. apply test_env_sane; simpl; unfold sane_max; lia. Qed.

Lemma test_env_json o :
  (∃ v, stoll (o_timeUtc o) = Ret v ∧ 0 ≤ v ≤ sane_max) → SaneJson (test_env o).
Proof.
  intros Hv. split; [intros j k|intros j|intros j|]; simpl; eauto.
  intros j k m s Hk [= <-] [= <-]. destruct Hk as [-> | ->]; exact Hv.
Qed.

Lemma good_env_json : SaneJson good_env.
Proof.
  apply test_env_json. exists 1700000000. split; [vm_compute; reflexivity|]. unfold sane_max. lia.
Qed.

Lemma test_env_disk o : HealthyDisk (test_env o).
Proof. by split. Qed.
