(* ===== verification/Interfaces.v ===== *)
(** * Interfaces: the abstract classes of interface/

    [ITimeSrc] and [ITimeSync] as type classes on the type of an object's state,
    and the contracts the daemon relies on.  The daemon's theorems (SysTimeMgr)
    use the contracts only; TimeSync, TimeSrc and Factory discharge them for
    every concrete class. *)

From S2P Require Import Prelude CString Platform.

(** ** The interfaces *)

(** src: interface/itimesrc.h:38-67 ITimeSrc *)
Class ITimeSrc (T : Type) := {
  isreference : T → bool;
  getTimeSec : M (T * world) Z;
  checkTime : M (T * world) bool;
  isclockProvider : T → bool
}.

(** src: interface/itimesync.h:33-40 ITimeSync *)
Class ITimeSync (T : Type) := {
  updateTime : Z → M (T * world) unit;
  getTime : M (T * world) Z
}.

Section interfaces.
Context {E : Env}.

(** src: interface/itimesrc.h:64-64 ITimeSrc::checkTime
    The default of the abstract class: compares [getTimeSec()] to zero. *)
Definition ITimeSrc_checkTime {T} (getTimeSec : M (T * world) Z) : M (T * world) bool :=
  r ← getTimeSec; mret (bool_decide (r = 0)).

(** src: interface/itimesrc.h:65-65 ITimeSrc::isclockProvider *)
Definition ITimeSrc_isclockProvider {T} (_ : T) : bool := false.

(** src: interface/itimesrc.h:41-59 ITimeSrc::notifypathAvailable
    Creates the file when it is missing and sets its time stamps. *)
Definition notifypathAvailable (path : string) : M world unit :=
  fd ← create_file path;
  when fd
    (ts ← sys TimespecGet;
     _ ← set_mtime path ts;
     mret tt).
End interfaces.

(** ** The contracts

    [t = true] is the total reading: the method returns.  [src_fuel n o] and
    [sync_fuel n o] say that the object is in a state from which [n] more calls
    are certain to return; every call uses one.  [sync_readable fs o] says that [getTime] returns when the files
    are [fs]; it changes none, and leaves an object good for [fresh] many updates.  In both readings a method only
    makes quiet calls: it neither broadcasts nor sets the clock. *)
Class ITimeSrcSpec {E : Env} (t : bool) (T : Type) `{ITimeSrc T} := {
  src_fuel : nat → T → Prop;
  src_fuel_le n m o : (n ≤ m)%nat → src_fuel m o → src_fuel n o;
  getTimeSec_spec n o w : (t = true → src_fuel (S n) o) →
    wp t getTimeSec (λ z ow,
      quiet w ow.2 ∧ (t = true → src_fuel n ow.1 ∧ 0 ≤ z ≤ sane_max)) (o, w);
  checkTime_spec n o w : (t = true → src_fuel (S n) o) →
    wp t checkTime (λ _ ow, quiet w ow.2 ∧ (t = true → src_fuel n ow.1)) (o, w)
}.

(** The number of updates an object is good for after it was read. *)
Definition fresh (n : nat) : Prop := Z.of_nat n ≤ 1000000000.

Class ITimeSyncSpec {E : Env} (t : bool) (T : Type) `{ITimeSync T} := {
  sync_fuel : nat → T → Prop;
  sync_fuel_le n m o : (n ≤ m)%nat → sync_fuel m o → sync_fuel n o;
  sync_readable : gmap string file → T → Prop;
  updateTime_spec n z o w : (t = true → sync_fuel (S n) o ∧ 0 ≤ z ≤ sane_max) →
    wp t (updateTime z) (λ _ ow, quiet w ow.2 ∧ (t = true → sync_fuel n ow.1)) (o, w);
  getTime_spec o w : (t = true → sync_readable (w_fs w) o) →
    wp t getTime (λ _ ow, quiet w ow.2 ∧ w_fs ow.2 = w_fs w ∧
      (t = true → ∀ n, fresh n → sync_fuel n ow.1)) (o, w)
}.

(** ** [notifypathAvailable] *)

(** [fs'] has every file of [fs], with the same contents; files other than
    [path] are untouched. *)
Definition touched (path : string) (fs fs' : gmap string file) : Prop :=
  (∀ p, p ≠ path → fs' !! p = fs !! p) ∧
  (∀ p, is_Some (fs !! p) → f_data <$> fs' !! p = f_data <$> fs !! p).

Lemma touched_refl path fs : touched path fs fs.
Proof. done. Qed.

Lemma touched_created path m fs : touched path fs (created path m fs).
Proof.
  unfold created. destruct (fs !! path) eqn:Hp; [apply touched_refl|]. split; intros p.
  - intros Hne. by rewrite lookup_insert_ne.
  - intros [f Hf]. rewrite lookup_insert_ne; [done|congruence].
Qed.

Lemma touched_alter path s fs : touched path fs (alter (λ f, File (f_data f) s) path fs).
Proof.
  split; intros p.
  - intros Hne. by rewrite lookup_alter_ne.
  - intros _. destruct (decide (path = p)) as [<-|Hne].
    + rewrite lookup_alter_eq. by destruct (fs !! path).
    + by rewrite lookup_alter_ne.
Qed.

Lemma touched_trans path fs1 fs2 fs3 :
  touched path fs1 fs2 → touched path fs2 fs3 → touched path fs1 fs3.
Proof.
  intros [H1 D1] [H2 D2]. split; intros p Hp.
  - by rewrite H2, H1.
  - rewrite <- (D1 p Hp). apply D2. specialize (D1 p Hp). destruct Hp as [f Hf].
    rewrite Hf in D1. destruct (fs2 !! p); [eauto|done].
Qed.

Section notify.
Context {E : Env} (t : bool).

(** It returns whatever the kernel answers. *)
Lemma wp_notifypathAvailable path (Q : unit → world → Prop) w :
  (∀ w', quiet w w' → touched path (w_fs w) (w_fs w') → Q tt w') →
  wp t (notifypathAvailable path) Q w.
Proof.
  intros HQ. unfold notifypathAvailable.
  apply wp_bind, wp_create_file.
  - intros m w1 Hq1 Hf1. simpl. apply wp_bind, wp_sys, wp_bind, wp_set_mtime; simpl.
    + intros w2 Hq2 Hf2. apply wp_ret, HQ.
      * etrans; [|exact Hq2]. eauto with quiet.
      * rewrite Hf2. simpl. rewrite Hf1.
        eapply touched_trans; [apply touched_created|apply touched_alter].
    + intros w2 Hq2 Hf2. apply wp_ret, HQ.
      * etrans; [|exact Hq2]. eauto with quiet.
      * rewrite Hf2. simpl. rewrite Hf1. apply touched_created.
  - intros w1 Hq1 Hf1. simpl. apply wp_ret, HQ; [done|]. rewrite Hf1. apply touched_refl.
Qed.
(** On a working disk it leaves the file there. *)
Lemma wp_notify_creates path (Q : unit → world → Prop) w :
  HealthyDisk E → (∀ w', is_Some (w_fs w' !! path) → Q tt w') → wp t (notifypathAvailable path) Q w.
Proof.
  intros [Hopen _ _] HQ. unfold notifypathAvailable, create_file.
  apply wp_bind, wp_bind, wp_sys. rewrite Hopen. apply wp_bind, wp_sys, wp_bind, wp_modify, wp_ret.
  set (w1 := set_fs _ _).
  assert (is_Some (w_fs w1 !! path)) as H1.
  { unfold w1; simpl. destruct (w_fs w !! path) eqn:Hp; [by rewrite Hp|rewrite lookup_insert_eq; eauto]. }
  simpl. apply wp_bind, wp_sys, wp_bind, wp_set_mtime; intros w2 Hq2 Hf2; apply wp_ret, HQ; rewrite Hf2; [|done].
  rewrite lookup_alter_eq. by apply fmap_is_Some.
Qed.
End notify.
