(* ===== verification/TimeSync.v ===== *)
(** * TimeSync: the three [ITimeSync] classes of systimerfactory/

    [RdkDefaultTimeSync] (the clock file and the build time of /version.txt),
    [TeeTimeSync] (secure time in the MFR library) and [TestTimeSync]. *)

From S2P Require Import Prelude CString Calendar Platform TestEnv Interfaces.

(** ** RdkDefaultTimeSync *)

(** src: systimerfactory/rdkdefaulttimesync.h:30-46 RdkDefaultTimeSync *)
Record RdkDefaultTimeSync := mkRdkDefaultTimeSync {
  rdk_path : string;
  rdk_currentTime : Z
}.

(** src: systimerfactory/rdkdefaulttimesync.h:38-38 RdkDefaultTimeSync::RdkDefaultTimeSync *)
Definition new_RdkDefaultTimeSync (path : string) : RdkDefaultTimeSync :=
  mkRdkDefaultTimeSync path 0.

(** [std::map::emplace]: keeps the first value given for a key. *)
Definition emplace (k v : string) (m : gmap string string) : gmap string string :=
  match m !! k with Some _ => m | None => <[k := v]> m end.

(** src: systimerfactory/rdkdefaulttimesync.cpp:53-64 RdkDefaultTimeSync::tokenize
    The loop, with [key_pos] as a position; a [val_end] of [npos] makes
    [key_pos] [npos], where [find] fails, so the loop ends.  [None]: the fuel
    ran out, which [tokenize_loop_total] excludes. *)
Fixpoint tokenize_loop (fuel : nat) (s token : string) (key_pos : nat)
    (m : gmap string string) : option (gmap string string) :=
  match fuel with
  | O => None
  | S fuel =>
      match string_find token s key_pos with
      | None => Some m
      | Some key_end =>
          match string_find_first_not_of token s key_end with
          | None => Some m
          | Some val_pos =>
              let val_end := string_find newline s val_pos in
              let m' := emplace (string_substr s key_pos (Some key_end))
                                (string_substr s val_pos val_end) m in
              match val_end with
              | None => Some m'
              | Some e => tokenize_loop fuel s token (e + 1) m'
              end
          end
      end
  end.

(** src: systimerfactory/rdkdefaulttimesync.cpp:44-66 RdkDefaultTimeSync::tokenize *)
Definition tokenize (s token : string) : option (gmap string string) :=
  tokenize_loop (String.length s + 1) s token 0 ∅.

(** The double quote character. *)
Definition dquote : ascii := Ascii.ascii_of_nat 34.

(** src: systimerfactory/rdkdefaulttimesync.cpp:75-86 RdkDefaultTimeSync::buildtime
    From the contents of /version.txt to the build time. *)
Definition buildtime_of (str : string) : Z :=
  let tokens := default ∅ (tokenize str "=") in
  let timestr := string_remove dquote (default "" (tokens !! "BUILD_TIME")) in
  match strptime_ymd_hms timestr with
  | Some tm => timegm tm
  | None => 0
  end.

Section classes.
Context {E : Env} {B : Build}.

(** src: systimerfactory/rdkdefaulttimesync.cpp:68-91 RdkDefaultTimeSync::buildtime *)
Definition buildtime : M world Z :=
  verfile ← read_file "/version.txt";
  match verfile with
  | Some str => mret (buildtime_of str)
  | None => mret 0
  end.

Definition set_currentTime (z : Z) : M (RdkDefaultTimeSync * world) unit :=
  modify (λ ow, (mkRdkDefaultTimeSync (rdk_path ow.1) z, ow.2)).

(** src: systimerfactory/rdkdefaulttimesync.cpp:93-134 RdkDefaultTimeSync::getTime *)
Definition RdkDefaultTimeSync_getTime : M (RdkDefaultTimeSync * world) Z :=
  path ← gets (λ ow, rdk_path ow.1);
  myfile ← on_snd (read_file path);
  let clock_time := match myfile with Some s => extract_ll s | None => 0 end in
  ver_time ← on_snd buildtime;
  if bool_decide (clock_time > ver_time) then
    timeStr ← on_snd (strftime_local clock_time);
    _ ← on_snd (when T2_EVENT_ENABLED (sys (T2Val "SYST_INFO_SYSLKG_split" timeStr)));
    _ ← set_currentTime clock_time;
    mret clock_time
  else
    _ ← set_currentTime ver_time;
    _ ← on_snd (strftime_local ver_time);
    _ ← on_snd (when T2_EVENT_ENABLED (sys (T2Count "SYST_INFO_SYSBUILD" 1)));
    mret ver_time.

(** src: systimerfactory/rdkdefaulttimesync.cpp:136-183 RdkDefaultTimeSync::updateTime *)
Definition RdkDefaultTimeSync_updateTime (locTime : Z) : M (RdkDefaultTimeSync * world) unit :=
  _ ← on_snd (strftime_local locTime);
  updatetime ← (if bool_decide (locTime = 0) then on_snd realtime_or_time else mret locTime);
  cur ← gets (λ ow, rdk_currentTime ow.1);
  cur' ← (if bool_decide (cur ≤ updatetime) then mret updatetime
          else of_outcome (i64 (cur + 10 * 60)));
  _ ← set_currentTime cur';
  _ ← on_snd (strftime_local cur');
  path ← gets (λ ow, rdk_path ow.1);
  _ ← on_snd (write_file path (to_string_ll updatetime +:+ newline));
  mret tt.

#[export] Instance RdkDefaultTimeSync_ITimeSync : ITimeSync RdkDefaultTimeSync := {
  updateTime := RdkDefaultTimeSync_updateTime;
  getTime := RdkDefaultTimeSync_getTime
}.

(** ** TestTimeSync *)

(** src: systimerfactory/testtimesync.h:28-33 TestTimeSync *)
Definition TestTimeSync : Type := string.

(** src: systimerfactory/testtimesync.h:35-43 TestTimeSync::updateTime *)
Definition TestTimeSync_updateTime (locTime : Z) : M (TestTimeSync * world) unit :=
  path ← gets fst;
  _ ← on_snd (write_file path (to_string_ll locTime +:+ newline));
  mret tt.

(** src: systimerfactory/testtimesync.h:45-51 TestTimeSync::getTime *)
Definition TestTimeSync_getTime : M (TestTimeSync * world) Z :=
  path ← gets fst;
  myfile ← on_snd (read_file path);
  mret (match myfile with Some s => extract_ll s | None => 0 end).

#[export] Instance TestTimeSync_ITimeSync : ITimeSync TestTimeSync := {
  updateTime := TestTimeSync_updateTime;
  getTime := TestTimeSync_getTime
}.

(** ** TeeTimeSync *)

(** src: systimerfactory/teetimesync.h:40-44 TeeTimeSync *)
Inductive TeeTimeSync := mkTeeTimeSync.

(** src: systimerfactory/teetimesync.h:72-100 TeeTimeSync::getTime
    Without IARM the library writes the 32 bits it is given the address of,
    the low word of [ret] on a little-endian machine. *)
Definition TeeTimeSync_getTime : M (TeeTimeSync * world) Z :=
  r ← on_snd (sys MfrGetSecureTime);
  let ret := if ENABLE_IARM then (if fst r : bool then ll_of_mfr_param (snd r) else 0)
             else u32 (snd r) in
  _ ← on_snd (strftime_local ret);
  mret ret.

(** src: systimerfactory/teetimesync.h:45-70 TeeTimeSync::updateTime *)
Definition TeeTimeSync_updateTime (locTime : Z) : M (TeeTimeSync * world) unit :=
  _ ← on_snd (strftime_local locTime);
  let param := if ENABLE_IARM then mfr_param_of_ll locTime else u32 locTime in
  ok ← on_snd (sys (MfrSetSecureTime param));
  if (ok : bool) then mret tt else (_ ← TeeTimeSync_getTime; mret tt).

#[export] Instance TeeTimeSync_ITimeSync : ITimeSync TeeTimeSync := {
  updateTime := TeeTimeSync_updateTime;
  getTime := TeeTimeSync_getTime
}.
End classes.

(** ** The tokenizer against a reference on suffixes

    [tokens_ref] reads the remaining text instead of positions and lists the
    bindings in order; the map keeps the first binding of a key. *)
Fixpoint tokens_ref (fuel : nat) (token s : string) : option (list (string * string)) :=
  match fuel with
  | O => None
  | S fuel =>
      match find_from0 token s with
      | None => Some []
      | Some ke =>
          match first_not_of0 token (string_drop ke s) with
          | None => Some []
          | Some d =>
              let key := string_take ke s in
              let vs := string_drop (ke + d) s in
              match find_from0 newline vs with
              | None => Some [(key, vs)]
              | Some e => cons (key, string_take e vs) <$> tokens_ref fuel token (string_drop (e + 1) vs)
              end
          end
      end
  end.

Definition emplace_all (kvs : list (string * string)) (m : gmap string string) : gmap string string :=
  foldl (λ m kv, emplace kv.1 kv.2 m) m kvs.

Lemma tokenize_loop_ref fuel token pre s m :
  tokenize_loop fuel (pre +:+ s) token (String.length pre) m
  = (λ kvs, emplace_all kvs m) <$> tokens_ref fuel token s.
Proof.
  revert pre s m. induction fuel as [|fuel IH]; intros pre s m; [done|].
  cbn [tokenize_loop tokens_ref]. rewrite string_find_app.
  destruct (find_from0 token s) as [ke|] eqn:Hke; [|done].
  apply find_from0_bound in Hke as Hke'. simpl.
  rewrite string_find_first_not_of_at by lia.
  destruct (first_not_of0 token (string_drop ke s)) as [d|] eqn:Hd; [|done].
  apply first_not_of0_bound in Hd as Hd'. rewrite string_drop_length in Hd'. simpl.
  rewrite <- Nat.add_assoc, string_find_at by lia.
  unfold string_substr at 1 2.
  rewrite string_drop_app, string_drop_at, Nat.add_sub'.
  destruct (find_from0 newline (string_drop (ke + d) s)) as [e|] eqn:He; simpl; [|done].
  apply find_from0_bound in He as He'. rewrite string_drop_length in He'. simpl in He'.
  set (vs := string_drop (ke + d) s).
  replace (String.length pre + (ke + d) + e - (String.length pre + (ke + d)))%nat with e by lia.
  assert (pre +:+ s = (pre +:+ string_take (ke + d + e + 1) s) +:+ string_drop (e + 1) vs) as Hsplit.
  { unfold vs. rewrite string_drop_drop.
    replace (ke + d + (e + 1))%nat with (ke + d + e + 1)%nat by lia.
    by rewrite string_app_take_drop. }
  replace (String.length pre + (ke + d) + e + 1)%nat
    with (String.length (pre +:+ string_take (ke + d + e + 1) s))
    by (rewrite string_app_take_length by lia; lia).
  rewrite Hsplit at 1. rewrite IH. by destruct (tokens_ref fuel token (string_drop (e + 1) vs)).
Qed.

(** A fuel of one more than the length is enough: each round consumes a character. *)
Lemma tokens_ref_total fuel token s :
  (String.length s < fuel)%nat → is_Some (tokens_ref fuel token s).
Proof.
  revert s. induction fuel as [|fuel IH]; intros s Hlen; [lia|]. cbn [tokens_ref].
  destruct (find_from0 token s) as [ke|] eqn:Hke; [|eauto].
  destruct (first_not_of0 token (string_drop ke s)) as [d|] eqn:Hd; [|eauto].
  apply find_from0_bound in Hke. apply first_not_of0_bound in Hd. rewrite string_drop_length in Hd.
  destruct (find_from0 newline _) as [e|] eqn:He; [|eauto]. simpl.
  apply find_from0_bound in He. rewrite string_drop_length in He. simpl in He.
  destruct (IH (string_drop (e + 1) (string_drop (ke + d) s))) as [kvs ->]; [|eauto].
  rewrite !string_drop_length. lia.
Qed.

Lemma tokenize_ref s token :
  ∃ kvs, tokens_ref (String.length s + 1) token s = Some kvs ∧
         tokenize s token = Some (emplace_all kvs ∅).
Proof.
  destruct (tokens_ref_total (String.length s + 1) token s) as [kvs Hk]; [lia|].
  exists kvs. split; [done|]. unfold tokenize.
  pose proof (tokenize_loop_ref (String.length s + 1) token "" s ∅) as H.
  rewrite Hk in H. exact H.
Qed.

Lemma emplace_all_union kvs m : emplace_all kvs m = m ∪ list_to_map kvs.
Proof.
  revert m. induction kvs as [|[k v] kvs IH]; intros m; simpl; [by rewrite (right_id_L ∅ (∪))|].
  unfold emplace_all in *. simpl. rewrite IH. unfold emplace.
  apply map_eq. intros i. destruct (m !! k) as [v'|] eqn:Hk.
  - rewrite !lookup_union. destruct (decide (i = k)) as [->|Hne].
    + rewrite Hk. by destruct (list_to_map kvs !! k), (<[k:=v]> (list_to_map kvs : gmap _ _) !! k).
    + by rewrite lookup_insert_ne.
  - destruct (decide (i = k)) as [->|Hne].
    + rewrite !lookup_union, !lookup_insert_eq, Hk. simpl.
      by destruct ((list_to_map kvs : gmap _ _) !! k).
    + rewrite !lookup_union, !lookup_insert_ne by done. done.
Qed.

(** ** The version file format *)

(** A line KEY=VALUE; a key has no equals sign, a value no newline and no
    equals sign in front. *)
Definition good_binding (kv : string * string) : bool :=
  negb (string_mem "=" kv.1) && negb (string_mem (Ascii.ascii_of_nat 10) kv.2) &&
  match kv.2 with String c _ => negb (bool_decide (c = "="%char)) | EmptyString => true end.

Fixpoint render (kvs : list (string * string)) : string :=
  match kvs with
  | [] => ""
  | (k, v) :: kvs => k +:+ "=" +:+ v +:+ newline +:+ render kvs
  end.

Lemma tokens_ref_render kvs fuel :
  Forall (λ kv, good_binding kv = true) kvs → (length kvs < fuel)%nat →
  tokens_ref fuel "=" (render kvs) = Some kvs.
Proof.
  revert fuel. induction kvs as [|[k v] kvs IH]; intros [|fuel] HF Hf; simpl in Hf; try lia; [done|].
  apply Forall_cons in HF as [Hkv HF]. unfold good_binding in Hkv; simpl in Hkv.
  apply andb_true_iff in Hkv as [Hkv Hv2]. apply andb_true_iff in Hkv as [Hk Hv1].
  apply negb_true_iff in Hk, Hv1.
  cbn [tokens_ref render]. set (rest := v +:+ newline +:+ render kvs).
  change (k +:+ "=" +:+ rest) with (k +:+ String "=" rest).
  rewrite find_from0_char by done. rewrite string_drop_app, string_take_app.
  assert (first_not_of0 "=" (String "=" rest) = Some 1%nat) as ->.
  { unfold rest. destruct v as [|c v]; [done|]. simpl. apply negb_true_iff in Hv2.
    simpl in Hv2. by rewrite Hv2. }
  rewrite <- string_drop_drop, string_drop_app. simpl string_drop at 1.
  unfold rest at 1. change (newline +:+ render kvs) with (String (Ascii.ascii_of_nat 10) (render kvs)).
  unfold newline. rewrite find_from0_char by done.
  cbn [string_drop]. unfold rest.
  change (newline +:+ render kvs) with (String (Ascii.ascii_of_nat 10) (render kvs)).
  rewrite string_take_app. rewrite <- string_drop_drop, string_drop_app. cbn [string_drop].
  rewrite IH by (done || lia). done.
Qed.

Lemma render_length kvs : (length kvs ≤ String.length (render kvs))%nat.
Proof.
  induction kvs as [|[k v] kvs IH]; [done|]. cbn [render length].
  rewrite !string_app_length. simpl. lia.
Qed.

Lemma tokenize_render_map kvs :
  Forall (λ kv, good_binding kv = true) kvs →
  tokenize (render kvs) "=" = Some (list_to_map kvs).
Proof.
  intros HF. destruct (tokenize_ref (render kvs) "=") as (kvs' & Hr & ->).
  rewrite tokens_ref_render in Hr by (try done; pose proof (render_length kvs); lia).
  injection Hr as <-. by rewrite emplace_all_union, (left_id_L ∅ (∪)).
Qed.

(** ** The build time of a version file *)

Lemma string_remove_absent c s : string_mem c s = false → string_remove c s = s.
Proof.
  induction s as [|d s IH]; simpl; [done|]. intros H. apply orb_false_iff in H as [Hd Hs].
  apply bool_decide_eq_false in Hd. rewrite decide_False by congruence. by rewrite IH.
Qed.

Lemma string_remove_app c s t : string_remove c (s +:+ t) = string_remove c s +:+ string_remove c t.
Proof.
  unfold String.app. induction s as [|d s IH]; simpl; [done|]. destruct (decide (d = c)); simpl; by rewrite IH.
Qed.

Lemma string_mem_app c s t : string_mem c (s +:+ t) = string_mem c s || string_mem c t.
Proof. unfold String.app. induction s; simpl; [done|]. by rewrite IHs, orb_assoc. Qed.

Lemma string_mem_print2 n : 0 ≤ n < 100 → string_mem dquote (print2 n) = false.
Proof.
  intros Hn. unfold print2; simpl.
  assert (∀ d, 0 ≤ d < 10 → bool_decide (dquote = digit_char d) = false) as Hd.
  { intros d Hd. apply bool_decide_eq_false. intros Heq.
    pose proof (digit_of_char d Hd) as H. by rewrite <- Heq in H. }
  assert (0 ≤ n `div` 10 < 10) by (split; [apply Z.div_pos|apply Z.div_lt_upper_bound]; lia).
  pose proof (Z.mod_pos_bound n 10). rewrite !Hd by lia. done.
Qed.

Lemma string_mem_print_ymd_hms tm : tm_valid tm → string_mem dquote (print_ymd_hms tm) = false.
Proof.
  intros (Hy & Hmo & Hd & Hh & Hmi & Hs). unfold print_ymd_hms, print4.
  assert (0 ≤ tm_year tm `div` 100 < 100) by (split; [apply Z.div_pos|apply Z.div_lt_upper_bound]; lia).
  pose proof (Z.mod_pos_bound (tm_year tm) 100).
  rewrite !string_mem_app, !string_mem_print2 by lia. done.
Qed.

(** A quoted date, as image builds write it. *)
Definition quoted (s : string) : string := String dquote s +:+ String dquote "".

Lemma unquote tm : tm_valid tm →
  string_remove dquote (quoted (print_ymd_hms tm)) = print_ymd_hms tm.
Proof.
  intros Ht. unfold quoted. rewrite string_remove_app.
  change (String dquote (print_ymd_hms tm)) with (String dquote "" +:+ print_ymd_hms tm).
  rewrite string_remove_app, (string_remove_absent _ _ (string_mem_print_ymd_hms tm Ht)).
  simpl. by rewrite string_app_nil_r.
Qed.

(** ** Specifications of the methods *)

Lemma starts_with_digit_newline : starts_with_digit newline = false.
Proof. reflexivity. Qed.

Section specs.
Context {E : Env} {B : Build} (t : bool) (HE : t = true → SaneEnv E).

(** [m_currentTime] after an update with [u]. *)
Definition advance (cur u : Z) : Z := if bool_decide (cur ≤ u) then u else cur + 600.

Lemma advance_ge cur u : cur ≤ advance cur u.
Proof. unfold advance. case_bool_decide; lia. Qed.

(** What [updateTime z] writes to the clock file when the log is [h]. *)
Definition time_to_store (z : Z) (h : list ev) : Z := if bool_decide (z = 0) then clock_reading h else z.

Lemma wp_RdkDefault_updateTime z o w (Q : unit → RdkDefaultTimeSync * world → Prop) :
  (t = true → 0 ≤ z ≤ sane_max ∧ 0 ≤ rdk_currentTime o ∧ rdk_currentTime o + 600 ≤ sane_span) →
  (∀ u w', (z ≠ 0 → u = z) → (t = true → u = time_to_store z (w_trace w)) →
    (t = true → 0 ≤ u ≤ sane_max) → quiet w w' →
    (∃ h n m, answer h (WriteBytes (rdk_path o) (to_string_ll u +:+ newline)) = n ∧
       w_fs w' = <[rdk_path o := File (string_take n (to_string_ll u +:+ newline)) m]> (w_fs w)) ∨
    (∃ h, answer h (OpenWrite (rdk_path o)) = false ∧ w_fs w' = w_fs w) →
    Q tt (mkRdkDefaultTimeSync (rdk_path o) (advance (rdk_currentTime o) u), w')) →
  wp t (RdkDefaultTimeSync_updateTime z) Q (o, w).
Proof.
  intros Hpre HQ. unfold RdkDefaultTimeSync_updateTime, sane_max, sane_span in *.
  apply wp_bind, wp_on_snd, (wp_strftime t HE).
  { intros Ht. destruct (Hpre Ht). unfold sane_span. lia. }
  intros _. simpl. apply wp_bind.
  assert (∀ u w1, (z ≠ 0 → u = z) → (t = true → u = time_to_store z (w_trace w)) →
    (t = true → 0 ≤ u ≤ sane_max) → quiet w w1 → w_fs w1 = w_fs w →
    wp t (cur ← gets (λ ow : RdkDefaultTimeSync * world, rdk_currentTime ow.1);
          cur' ← (if bool_decide (cur ≤ u) then mret u else of_outcome (i64 (cur + 10 * 60)));
          _ ← set_currentTime cur';
          _ ← on_snd (strftime_local cur');
          path ← gets (λ ow, rdk_path ow.1);
          _ ← on_snd (write_file path (to_string_ll u +:+ newline));
          mret tt) Q (o, w1)) as Hrest.
  { intros u w1 Hu Hst Hur Hq Hfs. unfold sane_max in Hur.
    apply wp_bind, wp_gets, wp_bind. simpl.
    assert (wp t (if bool_decide (rdk_currentTime o ≤ u) then mret u
                  else of_outcome (i64 (rdk_currentTime o + 10 * 60)))
      (λ c ow, c = advance (rdk_currentTime o) u ∧ ow = (o, w1) ∧ (t = true → 0 ≤ c ≤ sane_span))
      (o, w1)) as Hadv.
    { unfold advance, sane_span. case_bool_decide.
      - apply wp_ret. split; [done|]. split; [done|]. intros Ht. destruct (Hur Ht). lia.
      - apply wp_of_outcome.
        + intros Ht. destruct (Hpre Ht) as (_ & ? & ?). eexists. apply i64_ret.
          unfold i64_min, i64_max. lia.
        + intros c Hc. unfold i64 in Hc. case_match; [|done]. injection Hc as <-.
          split; [done|]. split; [done|]. intros Ht. destruct (Hpre Ht) as (_ & ? & ?). lia. }
    eapply wp_mono; [exact Hadv|]. intros c ow (-> & -> & Hc).
    apply wp_bind, wp_modify, wp_bind, wp_on_snd, (wp_strftime t HE); [exact Hc|].
    intros _. simpl. apply wp_bind, wp_gets, wp_bind, wp_on_snd. simpl.
    apply wp_write_file.
    - intros h n m w2 Hn Hq2 Hfs2. apply wp_ret, HQ; auto.
      + by etrans.
      + left. rewrite Hfs2, Hfs. eauto.
    - intros h w2 Ho Hq2 Hfs2. apply wp_ret, HQ; auto.
      + by etrans.
      + right. rewrite Hfs2, Hfs. eauto. }
  assert (time_to_store z (w_trace w) = if bool_decide (z = 0) then clock_reading (w_trace w) else z) as Hst by done.
  case_bool_decide as Hz; rewrite Hst in Hrest; clear Hst.
  - apply wp_on_snd, (wp_realtime t HE). simpl. intros u w1 Hq Hfs Hr Hnow. apply Hrest; [done|auto..].
  - apply wp_ret. apply Hrest; auto; [|reflexivity]. intros Ht. by destruct (Hpre Ht).
Qed.

Lemma wp_buildtime (Q : Z → world → Prop) w :
  (∀ w', quiet w w' → w_fs w' = w_fs w →
    Q (match w_fs w !! "/version.txt" with Some f => buildtime_of (f_data f) | None => 0 end) w') →
  (∀ h w', answer h (OpenRead "/version.txt") = false → quiet w w' → w_fs w' = w_fs w → Q 0 w') →
  wp t buildtime Q w.
Proof.
  intros HQ1 HQ2. unfold buildtime. apply wp_bind, wp_read_file.
  - intros w' Hq Hfs. destruct (w_fs w !! "/version.txt"); simpl; by apply wp_ret, HQ1.
  - intros h w' Ho Hq Hfs. by eapply wp_ret, HQ2.
Qed.

(** [getTime] returns the larger of the stored time and the build time, and
    leaves it in [m_currentTime]. *)
Lemma wp_RdkDefault_getTime_values c v o w (Q : Z → RdkDefaultTimeSync * world → Prop) :
  (t = true → 0 ≤ Z.max c v ≤ sane_span) →
  (∀ w', quiet w w' → w_fs w' = w_fs w →
    Q (Z.max c v) (mkRdkDefaultTimeSync (rdk_path o) (Z.max c v), w')) →
  wp t (if bool_decide (c > v) then
          timeStr ← on_snd (strftime_local c);
          _ ← on_snd (when T2_EVENT_ENABLED (sys (T2Val "SYST_INFO_SYSLKG_split" timeStr)));
          _ ← set_currentTime c;
          mret c
        else
          _ ← set_currentTime v;
          _ ← on_snd (strftime_local v);
          _ ← on_snd (when T2_EVENT_ENABLED (sys (T2Count "SYST_INFO_SYSBUILD" 1)));
          mret v) Q (o, w).
Proof.
  intros Hr HQ. case_bool_decide as Hcv.
  - rewrite Z.max_l in Hr, HQ by lia.
    apply wp_bind, wp_on_snd, (wp_strftime t HE); [done|]. intros s. simpl.
    apply wp_bind, wp_on_snd, wp_when; intros _; [apply wp_sys|];
      apply wp_bind, wp_modify, wp_ret, HQ; simpl; eauto with quiet.
  - rewrite Z.max_r in Hr, HQ by lia.
    apply wp_bind, wp_modify, wp_bind, wp_on_snd, (wp_strftime t HE); [done|]. intros s. simpl.
    apply wp_bind, wp_on_snd, wp_when; intros _; [apply wp_sys|];
      apply wp_ret, HQ; simpl; eauto with quiet.
Qed.

Definition stored_time (fs : gmap string file) (path : string) : Z :=
  match fs !! path with Some f => extract_ll (f_data f) | None => 0 end.
Definition image_time (fs : gmap string file) : Z :=
  match fs !! "/version.txt" with Some f => buildtime_of (f_data f) | None => 0 end.

Lemma wp_RdkDefault_getTime o w (Q : Z → RdkDefaultTimeSync * world → Prop) :
  let c := stored_time (w_fs w) (rdk_path o) in
  let v := image_time (w_fs w) in
  (t = true → 0 ≤ c ≤ sane_span ∧ 0 ≤ v ≤ sane_span) →
  (∀ r w', quiet w w' → w_fs w' = w_fs w → (0 ≤ c → 0 ≤ v → 0 ≤ r ≤ Z.max c v) →
    (HealthyDisk E → r = Z.max c v) → Q r (mkRdkDefaultTimeSync (rdk_path o) r, w')) →
  wp t RdkDefaultTimeSync_getTime Q (o, w).
Proof.
  intros c v Hr HQ.
  assert (∀ c' v' w1, quiet w w1 → w_fs w1 = w_fs w → c' = 0 ∨ c' = c → v' = 0 ∨ v' = v →
    (HealthyDisk E → c' = c ∧ v' = v) →
    wp t (if bool_decide (c' > v') then
          timeStr ← on_snd (strftime_local c');
          _ ← on_snd (when T2_EVENT_ENABLED (sys (T2Val "SYST_INFO_SYSLKG_split" timeStr)));
          _ ← set_currentTime c';
          mret c'
        else
          _ ← set_currentTime v';
          _ ← on_snd (strftime_local v');
          _ ← on_snd (when T2_EVENT_ENABLED (sys (T2Count "SYST_INFO_SYSBUILD" 1)));
          mret v') Q (o, w1)) as Hrest.
  { intros c' v' w1 Hq1 Hf1 Hc Hv HD. apply wp_RdkDefault_getTime_values.
    - intros Ht. specialize (Hr Ht). unfold sane_span in *. lia.
    - intros w2 Hq2 Hf2. apply HQ; [by etrans|congruence|lia|].
      intros Hd. destruct (HD Hd) as [-> ->]. done. }
  unfold RdkDefaultTimeSync_getTime, stored_time, image_time in *.
  apply wp_bind, wp_gets, wp_bind, wp_on_snd, wp_read_file; simpl.
  - intros w1 Hq1 Hfs1. apply wp_bind, wp_on_snd, wp_buildtime; simpl.
    + intros w2 Hq2 Hfs2. rewrite Hfs1 in *. assert (quiet w w2) as Hq by (by etrans).
      destruct (w_fs w !! rdk_path o); apply (Hrest c v); auto; congruence.
    + intros h w2 Ho Hq2 Hfs2. assert (HealthyDisk E → False) as Hno by (intros [_ _ Hopen]; by rewrite Hopen in Ho).
      assert (quiet w w2) as Hq by (by etrans).
      destruct (w_fs w !! rdk_path o); apply (Hrest c 0); auto; congruence || by intros ?%Hno.
  - intros h w1 Ho Hq1 Hfs1. assert (HealthyDisk E → False) as Hno by (intros [_ _ Hopen]; by rewrite Hopen in Ho).
    apply wp_bind, wp_on_snd, wp_buildtime; simpl.
    + intros w2 Hq2 Hfs2. rewrite Hfs1 in *. assert (quiet w w2) as Hq by (by etrans).
      apply (Hrest 0 v); auto; congruence || by intros ?%Hno.
    + intros h' w2 Ho' Hq2 Hfs2. assert (quiet w w2) as Hq by (by etrans).
      apply (Hrest 0 0); auto; congruence || by intros ?%Hno.
Qed.

(** The object can take [n] more updates before [m_currentTime] could leave
    the range in which times can be printed. *)
Definition rdk_fuel (n : nat) (o : RdkDefaultTimeSync) : Prop :=
  0 ≤ rdk_currentTime o ∧ Z.max (rdk_currentTime o) sane_max + 600 * Z.of_nat n ≤ sane_span.
End specs.

(** ** The contract of the three classes *)

(** An MFR library whose secure time is a time that can be printed. *)
Class SaneMfr {E : Env} {B : Build} : Prop := {
  sane_mfr : ∀ r : bool * Z,
    0 ≤ (if ENABLE_IARM then (if fst r then ll_of_mfr_param (snd r) else 0) else u32 (snd r)) ≤ sane_span
}.

Section contracts.
Context {E : Env} {B : Build} (t : bool) (HE : t = true → SaneEnv E).

Definition RdkDefaultTimeSync_spec : ITimeSyncSpec t RdkDefaultTimeSync.
Proof.
  refine {| sync_fuel := rdk_fuel; sync_readable := λ fs o,
    0 ≤ stored_time fs (rdk_path o) ≤ sane_max ∧ 0 ≤ image_time fs ≤ sane_max |}.
  - unfold rdk_fuel. intros n m o Hle [? ?]. lia.
  - intros n z o w Hpre. apply (wp_RdkDefault_updateTime t HE).
    + intros Ht. destruct (Hpre Ht) as [[H0 H1] H2]. unfold sane_max, sane_span in *. lia.
    + intros u w' Hu _ Hur Hq _. simpl. split; [done|]. intros Ht.
      destruct (Hpre Ht) as [[H0 H1] H2]. specialize (Hur Ht). unfold rdk_fuel, advance; simpl.
      case_bool_decide; lia.
  - intros o w Hok. apply (wp_RdkDefault_getTime t HE).
    + intros Ht. specialize (Hok Ht). unfold sane_max, sane_span in *. lia.
    + intros r w' Hq Hfs Hr _. do 2 (split; [done|]). intros Ht n Hn. destruct (Hok Ht).
      unfold rdk_fuel, fresh, sane_max, sane_span in *. simpl. lia.
Defined.

Definition TestTimeSync_spec : ITimeSyncSpec t TestTimeSync.
Proof.
  refine {| sync_fuel := λ _ _, True; sync_readable := λ _ _, True |}; [done| |].
  - intros n z o w _. unfold updateTime; simpl. unfold TestTimeSync_updateTime.
    apply wp_bind, wp_gets, wp_bind, wp_on_snd, wp_write_file; simpl;
      intros; apply wp_ret; auto.
  - intros o w _. unfold getTime; simpl. unfold TestTimeSync_getTime.
    apply wp_bind, wp_gets, wp_bind, wp_on_snd, wp_read_file; simpl; intros; by apply wp_ret.
Defined.

Context (HM : t = true → SaneMfr).

Lemma wp_TeeTimeSync_getTime o w (Q : Z → TeeTimeSync * world → Prop) :
  (∀ r w', quiet w w' → w_fs w' = w_fs w → Q r (o, w')) → wp t TeeTimeSync_getTime Q (o, w).
Proof.
  intros HQ. unfold TeeTimeSync_getTime. apply wp_bind, wp_on_snd, wp_sys; simpl.
  apply wp_bind, wp_on_snd, (wp_strftime t HE); [intros Ht; by destruct (HM Ht)|].
  intros _. simpl. apply wp_ret, HQ; [eauto with quiet|done].
Qed.

Definition TeeTimeSync_spec : ITimeSyncSpec t TeeTimeSync.
Proof.
  refine {| sync_fuel := λ _ _, True; sync_readable := λ _ _, True |}; [done| |].
  - intros n z o w Hpre. unfold updateTime; simpl. unfold TeeTimeSync_updateTime.
    apply wp_bind, wp_on_snd, (wp_strftime t HE).
    { intros Ht. destruct (Hpre Ht) as [_ ?]. unfold sane_max, sane_span in *. lia. }
    intros _. simpl. apply wp_bind, wp_on_snd, wp_sys. simpl.
    match goal with |- context [answer ?h ?c] => destruct (answer h c) end.
    + apply wp_ret. simpl. eauto with quiet.
    + apply wp_bind, wp_TeeTimeSync_getTime. intros r w' Hq _. apply wp_ret. simpl.
      split; [|done]. etrans; [|exact Hq]. eauto with quiet.
  - intros o w _. apply wp_TeeTimeSync_getTime. simpl. auto.
Defined.
End contracts.

(** * Properties *)

(** The tokenizer always terminates, whatever the text and the separator: a
    fuel of one more than the length of the text is never exhausted, and its
    result is the one of the reference that reads suffixes, the first binding
    of a key winning. *)
Theorem tokenize_total (s token : string) :
  ∃ kvs, tokens_ref (String.length s + 1) token s = Some kvs ∧
         tokenize s token = Some (list_to_map kvs).
Proof.
  destruct (tokenize_ref s token) as (kvs & Hr & Ht). exists kvs. split; [done|].
  by rewrite Ht, emplace_all_union, (left_id_L ∅ (∪)).
Qed.

(** C33: a version file of KEY=VALUE lines is read back exactly: the tokenizer
    returns the map of the bindings the file was written from. *)
Theorem tokenize_render (kvs : list (string * string)) :
  Forall (λ kv, good_binding kv = true) kvs →
  tokenize (render kvs) "=" = Some (list_to_map kvs).
Proof. apply tokenize_render_map. Qed.

Lemma tokenize_render_witness :
  tokenize (render [("IMAGE", "x=y"); ("BUILD_TIME", "a b"); ("IMAGE", "z")]) "="
  = Some (list_to_map [("IMAGE", "x=y"); ("BUILD_TIME", "a b"); ("IMAGE", "z")]).
Proof. apply tokenize_render. repeat constructor. Defined.

(** The build time read from a version file whose BUILD_TIME is a quoted
    date is that date's time in seconds, whatever else the file binds and
    whatever lines repeat the key afterwards. *)
Theorem buildtime_version_file (kvs : list (string * string)) (d : tm) :
  Forall (λ kv, good_binding kv = true) kvs → tm_valid d →
  (list_to_map kvs : gmap string string) !! "BUILD_TIME" = Some (quoted (print_ymd_hms d)) →
  buildtime_of (render kvs) = timegm d.
Proof.
  intros HF Hd Hb. unfold buildtime_of. rewrite tokenize_render_map by done.
  cbn [from_option]. unfold id. rewrite Hb. cbn [from_option]. rewrite unquote by done.
  rewrite <- (string_app_nil_r (print_ymd_hms d)). by rewrite strptime_print.
Qed.

Lemma buildtime_version_file_witness :
  buildtime_of (render [("imagename", "rdk"); ("BUILD_TIME", quoted (print_ymd_hms (Tm 2022 1 1 0 0 0)))])
  = 1640995200.
Proof.
  rewrite (buildtime_version_file _ (Tm 2022 1 1 0 0 0)); [reflexivity| | |reflexivity].
  - repeat constructor.
  - unfold tm_valid; simpl; lia.
Defined.

Section properties.
Context {E : Env} {B : Build}.

(** C7: what an update stores survives a reboot.  After [updateTime z] on a
    working disk, a fresh object for the same path reads back the larger of
    the stored time and the build time of the image.  The stored time is [z];
    when [z] is zero it is what the clock reads in that call (the seconds of
    CLOCK_REALTIME, or time(NULL) when that cannot be read), and neither the
    time stored before nor the build time plays a part.  Both calls return. *)
Theorem persisted_time_recovered (z : Z) (o : RdkDefaultTimeSync) (w : world) :
  SaneEnv E → HealthyDisk E →
  0 ≤ z ≤ sane_max → rdk_fuel 1 o → rdk_path o ≠ "/version.txt" →
  0 ≤ image_time (w_fs w) ≤ sane_span →
  let u := time_to_store z (w_trace w) in
  ∃ o1 w1 o2 w2,
    RdkDefaultTimeSync_updateTime z (o, w) = (Ret tt, (o1, w1)) ∧
    0 ≤ u ≤ sane_max ∧ stored_time (w_fs w1) (rdk_path o) = u ∧
    RdkDefaultTimeSync_getTime (new_RdkDefaultTimeSync (rdk_path o), w1)
    = (Ret (Z.max u (image_time (w_fs w))), (o2, w2)).
Proof.
  intros HE HD Hz [Hf0 Hf1] Hpath Himg u.
  assert (wp true (RdkDefaultTimeSync_updateTime z) (λ _ ow,
    0 ≤ u ≤ sane_max ∧ stored_time (w_fs ow.2) (rdk_path o) = u ∧
         image_time (w_fs ow.2) = image_time (w_fs w)) (o, w)) as Hup.
  { apply (wp_RdkDefault_updateTime true (λ _, HE)).
    - unfold sane_max, sane_span in *. lia.
    - intros u' w' _ Hu Hur Hq Hfs. specialize (Hu eq_refl). subst u'. fold u in Hur, Hfs. specialize (Hur eq_refl).
      split; [done|]. simpl. destruct HD as [Hopen Hwrite _].
      destruct Hfs as [(h & n & m & Hn & ->)|(h & Ho & _)]; [|by rewrite Hopen in Ho].
      unfold stored_time, image_time. rewrite lookup_insert_eq, lookup_insert_ne by done. simpl.
      rewrite string_take_all by (rewrite <- Hn; apply Hwrite).
      split; [|done]. apply extract_ll_to_string; [|done].
      unfold i64_min, i64_max, sane_max in *. lia. }
  apply wp_total_run in Hup as ([] & [o1 w1] & Hrun & Hur & Hst & Him). simpl in *.
  assert (wp true RdkDefaultTimeSync_getTime
    (λ r _, r = Z.max u (image_time (w_fs w))) (new_RdkDefaultTimeSync (rdk_path o), w1)) as Hget.
  { apply (wp_RdkDefault_getTime true (λ _, HE)); simpl.
    - intros _. rewrite Hst, Him. unfold sane_max, sane_span in *. lia.
    - intros r w' _ _ _ Hr. by rewrite (Hr HD), Hst, Him. }
  apply wp_total_run in Hget as (r & [o2 w2] & Hrun2 & ->). by exists o1, w1, o2, w2.
Qed.

(** [m_currentTime] never moves backwards: an update with a time not
    before it moves it to that time, an earlier one advances it by ten
    minutes, and the call returns with no signed overflow. *)
Theorem currentTime_monotone (z : Z) (o : RdkDefaultTimeSync) (w : world) :
  SaneEnv E → 0 < z ≤ sane_max → rdk_fuel 1 o →
  ∃ o' w', RdkDefaultTimeSync_updateTime z (o, w) = (Ret tt, (o', w')) ∧
    rdk_path o' = rdk_path o ∧ rdk_currentTime o ≤ rdk_currentTime o' ∧
    rdk_currentTime o' = (if bool_decide (rdk_currentTime o ≤ z) then z
                          else rdk_currentTime o + 600).
Proof.
  intros HE Hz [Hf0 Hf1].
  assert (wp true (RdkDefaultTimeSync_updateTime z) (λ _ ow,
    ow.1 = mkRdkDefaultTimeSync (rdk_path o) (advance (rdk_currentTime o) z)) (o, w)) as Hup.
  { apply (wp_RdkDefault_updateTime true (λ _, HE)).
    - unfold sane_max, sane_span in *. lia.
    - intros u w' Hu _ _ _ _. simpl. rewrite Hu by lia. done. }
  apply wp_total_run in Hup as ([] & [o' w'] & Hrun & Ho). simpl in Ho. subst o'. eexists _, w'.
  split; [exact Hrun|]. simpl. split; [done|]. split; [apply advance_ge|done].
Qed.

(** C37: the clock file can fall behind the object: an update with a time
    before [m_currentTime] advances [m_currentTime] by ten minutes but stores
    the earlier time it was given, so that after a reboot the time recovered
    (build time aside) is the earlier one. *)
Theorem clock_file_falls_behind (z : Z) (o : RdkDefaultTimeSync) (w : world) :
  SaneEnv E → HealthyDisk E → 0 < z ≤ sane_max → rdk_fuel 1 o → z < rdk_currentTime o →
  ∃ o' w', RdkDefaultTimeSync_updateTime z (o, w) = (Ret tt, (o', w')) ∧
    rdk_currentTime o' = rdk_currentTime o + 600 ∧
    f_data <$> w_fs w' !! rdk_path o = Some (to_string_ll z +:+ newline) ∧
    stored_time (w_fs w') (rdk_path o) = z.
Proof.
  intros HE HD Hz [Hf0 Hf1] Hlt.
  assert (wp true (RdkDefaultTimeSync_updateTime z) (λ _ ow,
    rdk_currentTime ow.1 = rdk_currentTime o + 600 ∧
    f_data <$> w_fs ow.2 !! rdk_path o = Some (to_string_ll z +:+ newline)) (o, w)) as Hup.
  { apply (wp_RdkDefault_updateTime true (λ _, HE)).
    - unfold sane_max, sane_span in *. lia.
    - intros u w' Hu _ _ _ Hfs. rewrite Hu in Hfs |- * by lia. simpl. unfold advance.
      rewrite bool_decide_eq_false_2 by lia. split; [done|]. destruct HD as [Hopen Hwrite _].
      destruct Hfs as [(h & n & m & Hn & ->)|(h & Ho & _)]; [|by rewrite Hopen in Ho].
      rewrite lookup_insert_eq. simpl. f_equal. apply string_take_all. rewrite <- Hn. apply Hwrite. }
  apply wp_total_run in Hup as ([] & [o' w'] & Hrun & Hcur & Hfile). exists o', w'. simpl in *.
  repeat split; try done. unfold stored_time.
  destruct (w_fs w' !! rdk_path o) as [f|]; [|done]. injection Hfile as ->.
  apply extract_ll_to_string; [|done]. unfold i64_min, i64_max, sane_max in *. lia.
Qed.

(** A clock file that holds a number past what the C library can break
    down into a date makes [getTime] dereference a null [struct tm]. *)
Theorem getTime_null_localtime (o : RdkDefaultTimeSync) (w : world) (f : file) :
  HealthyDisk E →
  w_fs w !! rdk_path o = Some f → image_time (w_fs w) < extract_ll (f_data f) →
  strftime_Ac (extract_ll (f_data f)) = None →
  fst (RdkDefaultTimeSync_getTime (o, w)) = Undef.
Proof.
  intros [_ _ Hopen] Hf Hlt Hnull.
  unfold RdkDefaultTimeSync_getTime, image_time in *.
  cbv [mbind M_bind gets on_snd read_file sys]. simpl. rewrite Hopen. simpl. rewrite Hf.
  cbv [buildtime read_file mbind M_bind gets on_snd sys]. simpl. rewrite Hopen. simpl.
  destruct (w_fs w !! "/version.txt"); simpl in *;
    (rewrite bool_decide_eq_true_2 by lia); unfold strftime_local; by rewrite Hnull.
Qed.

(** C38: without IARM the secure time is kept as a 32-bit number.  With an MFR
    library that stores what it is given, an update followed by a read
    returns the time modulo 2^32, so a time is recovered exactly only before
    February 2106.  Both calls return. *)
Theorem tee_time_truncated (z : Z) (w : world) :
  SaneEnv E → ENABLE_IARM = false → 0 ≤ z ≤ sane_max →
  (∀ h p, answer h (MfrSetSecureTime p) = true) →
  (∀ h, answer h MfrGetSecureTime = (true, last_secure_time h)) →
  ∃ r w', (_ ← TeeTimeSync_updateTime z; TeeTimeSync_getTime) (mkTeeTimeSync, w)
          = (Ret r, (mkTeeTimeSync, w')) ∧
          r = z `mod` 2 ^ 32 ∧ (r = z ↔ z < 4294967296).
Proof.
  intros HE HI Hz Hset Hget.
  assert (wp true (_ ← TeeTimeSync_updateTime z; TeeTimeSync_getTime)
    (λ r ow, ow.1 = mkTeeTimeSync ∧ r = u32 z) (mkTeeTimeSync, w)) as Hrun.
  { unfold TeeTimeSync_updateTime. rewrite HI.
    apply wp_bind, wp_bind, wp_on_snd, (wp_strftime true (λ _, HE)).
    { unfold sane_max, sane_span in *. lia. }
    intros _. simpl. apply wp_bind, wp_on_snd, wp_sys. rewrite Hset. apply wp_ret. simpl.
    unfold TeeTimeSync_getTime. apply wp_bind, wp_on_snd, wp_sys. rewrite HI, Hget. simpl.
    pose proof (u32_range z). rewrite u32_small by done.
    apply wp_bind, wp_on_snd, (wp_strftime true (λ _, HE)).
    { unfold sane_span. lia. }
    intros _. by apply wp_ret. }
  apply wp_total_run in Hrun as (r & [[] w'] & Hrun & _ & ->). exists (u32 z), w'.
  split; [exact Hrun|]. rewrite u32_mod. split; [done|]. split; intros H.
  - pose proof (Z.mod_pos_bound z (2 ^ 32)). lia.
  - apply Z.mod_small. lia.
Qed.
End properties.

(** ** Witnesses *)

Definition w_clock : RdkDefaultTimeSync := mkRdkDefaultTimeSync "/opt/secure/clock.txt" 1600000000.

Definition version_world : world :=
  World {[ "/version.txt" := File (render [("BUILD_TIME", quoted (print_ymd_hms (Tm 2022 1 1 0 0 0)))]) 0 ]} [].

(** An update with zero: the clock's time is stored. *)
Lemma persisted_time_recovered_witness :
  let u := 1700000000 in
  ∃ o1 w1 o2 w2,
    @RdkDefaultTimeSync_updateTime good_env 0 (w_clock, version_world) = (Ret tt, (o1, w1)) ∧
    0 ≤ u ≤ sane_max ∧ stored_time (w_fs w1) (rdk_path w_clock) = u ∧
    @RdkDefaultTimeSync_getTime good_env good_build (new_RdkDefaultTimeSync (rdk_path w_clock), w1)
    = (Ret (Z.max u (image_time (w_fs version_world))), (o2, w2)).
Proof.
  intros u. change u with (@time_to_store good_env 0 (w_trace version_world)). apply (@persisted_time_recovered good_env good_build);
    [apply good_env_sane|apply test_env_disk|unfold sane_max; lia
    |unfold rdk_fuel, sane_max, sane_span; simpl; lia|discriminate|vm_compute; split; discriminate].
Defined.

Lemma currentTime_monotone_witness :
  ∃ o' w', @RdkDefaultTimeSync_updateTime good_env 1500000000 (w_clock, good_world) = (Ret tt, (o', w')) ∧
    rdk_path o' = rdk_path w_clock ∧ rdk_currentTime w_clock ≤ rdk_currentTime o' ∧
    rdk_currentTime o' = (if bool_decide (rdk_currentTime w_clock ≤ 1500000000) then 1500000000
                          else rdk_currentTime w_clock + 600).
Proof.
  apply (@currentTime_monotone good_env);
    [apply good_env_sane|unfold sane_max; lia|unfold rdk_fuel, sane_max, sane_span; simpl; lia].
Defined.

Lemma clock_file_falls_behind_witness :
  ∃ o' w', @RdkDefaultTimeSync_updateTime good_env 1500000000 (w_clock, good_world) = (Ret tt, (o', w')) ∧
    rdk_currentTime o' = rdk_currentTime w_clock + 600 ∧
    f_data <$> w_fs w' !! rdk_path w_clock = Some (to_string_ll 1500000000 +:+ newline) ∧
    stored_time (w_fs w') (rdk_path w_clock) = 1500000000.
Proof.
  apply (@clock_file_falls_behind good_env);
    [apply good_env_sane|apply test_env_disk|unfold sane_max; lia
    |unfold rdk_fuel, sane_max, sane_span; simpl; lia|simpl; lia].
Defined.

Definition corrupt_file : file := File ("9223372036854775807" +:+ newline) 0.

Lemma getTime_null_localtime_witness :
  fst (@RdkDefaultTimeSync_getTime good_env good_build
         (w_clock, World {[ rdk_path w_clock := corrupt_file ]} [])) = Undef.
Proof.
  apply (@getTime_null_localtime good_env good_build _ _ corrupt_file);
    [apply test_env_disk|reflexivity|vm_compute; reflexivity|vm_compute; reflexivity].
Defined.

Definition no_iarm_build : Build := {|
  T2_EVENT_ENABLED := false; MILESTONE_SUPPORT_DISABLED := false; IARM_SUPPORT_DISABLED := true;
  ENABLE_IARM := false; PWRMGRPLUGIN_ENABLED := false; DTT_ENABLED := false; TEE_ENABLED := true;
  WPEVGDRM_ENABLED := false; LOCAL_TEST := false
|}.

Lemma tee_time_truncated_witness :
  ∃ r w', (_ ← @TeeTimeSync_updateTime good_env no_iarm_build 4294967297;
           @TeeTimeSync_getTime good_env no_iarm_build) (mkTeeTimeSync, good_world)
          = (Ret r, (mkTeeTimeSync, w')) ∧
          r = 4294967297 `mod` 2 ^ 32 ∧ (r = 4294967297 ↔ 4294967297 < 4294967296).
Proof.
  apply (@tee_time_truncated good_env no_iarm_build);
    [apply good_env_sane|reflexivity|unfold sane_max; lia|reflexivity|reflexivity].
Defined.
