(* ===== verification/PubSub.v ===== *)
(** * PubSub: publishers and subscribers of systimerfactory/

    The publishers ([TestPublish], [IarmPublish]), the four subscriber classes
    and the factories of pubsubfactory.cpp.  Subscribers are objects of a shared
    store, because [IarmSubscriber::pInstance] aliases the last one constructed
    and the power callbacks go through that alias. *)

From S2P Require Import Prelude CString Platform TestEnv.

(** ** Publishers *)

(** src: interface/ipublish.h:28-35 IPublish
    The two classes, each with [m_publisher]. *)
Inductive IPublish :=
  | TestPublish (m_publisher : string)
  | IarmPublish (m_publisher : string).

(** ** Power states *)

(** src: systimerfactory/unittest/mocks/libIBusDaemon.h:128-134 IARM_Bus_PowerState_t
    [IARM_POWERSTATE_OTHER]: a value outside the enumeration. *)
Inductive IARM_PowerState :=
  | IARM_POWERSTATE_OFF
  | IARM_POWERSTATE_STANDBY
  | IARM_POWERSTATE_ON
  | IARM_POWERSTATE_STANDBY_LIGHT_SLEEP
  | IARM_POWERSTATE_STANDBY_DEEP_SLEEP
  | IARM_POWERSTATE_OTHER (code : Z).

#[export] Instance IARM_PowerState_eq_dec : EqDecision IARM_PowerState.
Proof. solve_decision. Defined.

(** src: systimerfactory/unittest/mocks/power_controller.h:41-48 PowerController_PowerState_t *)
Inductive PowerController_PowerState :=
  | POWER_STATE_UNKNOWN
  | POWER_STATE_OFF
  | POWER_STATE_STANDBY
  | POWER_STATE_ON
  | POWER_STATE_STANDBY_LIGHT_SLEEP
  | POWER_STATE_STANDBY_DEEP_SLEEP
  | POWER_STATE_OTHER (code : Z).

#[export] Instance PowerController_PowerState_eq_dec : EqDecision PowerController_PowerState.
Proof. solve_decision. Defined.

(** ** Subscribers *)

(** The two functions the daemon registers. *)
Inductive callback := SysTimeMgr_getTimeStatus | SysTimeMgr_powerhandler.

#[export] Instance callback_eq_dec : EqDecision callback.
Proof. solve_decision. Defined.

(** A [funcPtr] member: indeterminate, null, or a function. *)
Inductive funcPtr := FUninit | FNull | FFun (f : callback).

(** src: systimerfactory/ipowercontrollersubscriber.h:47-55 IpowerControllerSubscriber
    [pc_thread]: m_sysTimeMgrPwrEvtHandlerThread is joinable; [pc_connecting]: the
    detached connect thread was started. *)
Record PowerController := mkPowerController {
  pc_subscriber : string;
  pc_powerHandler : funcPtr;
  pc_pwrEvtQueue : list (PowerController_PowerState * PowerController_PowerState);
  pc_thread : bool;
  pc_connecting : bool
}.

(** src: interface/isubscribe.h:35-42 ISubscribe
    The four classes, each with [m_subscriber]. *)
Inductive ISubscribe :=
  | TestSubscriber (m_subscriber : string)
  | IarmTimerStatusSubscriber (m_subscriber : string)
  | IarmPowerSubscriber (m_subscriber : string) (m_powerHandler : funcPtr)
  | IpowerControllerSubscriber (o : PowerController).

(** src: systimerfactory/iarmsubscribe.h:29-37 IarmSubscriber
    The subscriber objects by address, and the static [pInstance]. *)
Record bus := Bus {
  b_objs : list ISubscribe;
  b_pInstance : option nat
}.

Definition empty_bus : bus := Bus [] None.

(** src: systimerfactory/unittest/mocks/pwrMgr.h:54-54 IARM_BUS_PWRMGR_NAME *)
Definition IARM_BUS_PWRMGR_NAME : string := "PWRMgr".
(** src: systimerfactory/unittest/mocks/pwrMgr.h:60-60 IARM_BUS_PWRMGR_EVENT_MODECHANGED *)
Definition IARM_BUS_PWRMGR_EVENT_MODECHANGED : Z := 0.

(** A call of a registered callback with its string argument. *)
Definition invocation : Type := callback * string.

(** The name a subscriber was created with. *)
Definition m_subscriber (s : ISubscribe) : string :=
  match s with
  | TestSubscriber n | IarmTimerStatusSubscriber n | IarmPowerSubscriber n _ => n
  | IpowerControllerSubscriber o => pc_subscriber o
  end.

Section operations.
Context {E : Env} {B : Build}.

(** ** Publishers *)

(** src: systimerfactory/iarmpublish.cpp:24-27 IarmPublish::IarmPublish
    The connection sequence every IARM class runs in its constructor. *)
Definition iarm_connect (name : string) : M world unit :=
  r ← sys (IarmIsConnected name);
  when (negb (bool_decide (r = 0)))
    (_ ← sys (IarmInit name);
     _ ← sys IarmConnect;
     mret tt).

(** src: systimerfactory/iarmpublish.cpp:21-28 IarmPublish::IarmPublish *)
Definition new_IarmPublish (pub : string) : M world IPublish :=
  _ ← iarm_connect pub;
  mret (IarmPublish pub).

(** src: systimerfactory/iarmpublish.cpp:30-35 IarmPublish::publish *)
Definition IarmPublish_publish (m_publisher : string) (event : Z) (msg : TimerMsg) : M world unit :=
  _ ← sys (IarmBroadcastEvent m_publisher event msg);
  mret tt.

(** src: systimerfactory/testpublish.h:29-33 TestPublish::publish *)
Definition TestPublish_publish (event : Z) (msg : TimerMsg) : M world unit :=
  sys (ConsolePublish (msg_event msg) (msg_quality msg) (msg_message msg)).

(** src: interface/ipublish.h:34-34 IPublish::publish
    The virtual call. *)
Definition publish (p : IPublish) (event : Z) (msg : TimerMsg) : M world unit :=
  match p with
  | TestPublish _ => TestPublish_publish event msg
  | IarmPublish n => IarmPublish_publish n event msg
  end.

(** src: systimerfactory/pubsubfactory.cpp:36-52 createPublish *)
Definition createPublish (type args : string) : M world (option IPublish) :=
  if bool_decide (type = "test") then mret (Some (TestPublish args))
  else if ENABLE_IARM && bool_decide (type = "iarm") then
    p ← new_IarmPublish args; mret (Some p)
  else mret None.

(** ** The store of subscribers *)

(** [new]: the address of the new object. *)
Definition new_subscriber (s : ISubscribe) : M (bus * world) nat := λ bw,
  (Ret (length (b_objs bw.1)), (Bus (b_objs bw.1 ++ [s]) (b_pInstance bw.1), bw.2)).

(** src: systimerfactory/iarmsubscribe.cpp:22-27 IarmSubscriber::IarmSubscriber *)
Definition set_pInstance (this : nat) : M (bus * world) unit :=
  modify (λ bw, (Bus (b_objs bw.1) (Some this), bw.2)).

(** src: systimerfactory/iarmtimerstatussubscriber.cpp:26-40 IarmTimerStatusSubscriber::IarmTimerStatusSubscriber *)
Definition new_IarmTimerStatusSubscriber (sub : string) : M (bus * world) nat :=
  this ← new_subscriber (IarmTimerStatusSubscriber sub);
  _ ← set_pInstance this;
  _ ← on_snd (iarm_connect sub);
  mret this.

(** src: systimerfactory/iarmpowersubscriber.cpp:27-42 IarmPowerSubscriber::IarmPowerSubscriber *)
Definition new_IarmPowerSubscriber (sub : string) : M (bus * world) nat :=
  this ← new_subscriber (IarmPowerSubscriber sub FNull);
  _ ← set_pInstance this;
  _ ← on_snd (iarm_connect sub);
  mret this.

(** src: systimerfactory/ipowercontrollersubscriber.cpp:25-29 IpowerControllerSubscriber::IpowerControllerSubscriber
    [m_powerHandler] is left indeterminate. *)
Definition new_IpowerControllerSubscriber (sub : string) : M (bus * world) nat :=
  this ← new_subscriber (IpowerControllerSubscriber (mkPowerController sub FUninit [] false false));
  _ ← set_pInstance this;
  mret this.

(** src: systimerfactory/pubsubfactory.cpp:53-81 createSubscriber *)
Definition createSubscriber (type args subtype : string) : M (bus * world) (option nat) :=
  if bool_decide (type = "test") then Some <$> new_subscriber (TestSubscriber args)
  else if ENABLE_IARM && bool_decide (type = "iarm") then
    if bool_decide (TIMER_STATUS_MSG = subtype) then Some <$> new_IarmTimerStatusSubscriber args
    else if bool_decide (POWER_CHANGE_MSG = subtype) then
      if PWRMGRPLUGIN_ENABLED then Some <$> new_IpowerControllerSubscriber args
      else Some <$> new_IarmPowerSubscriber args
    else mret None
  else mret None.

(** Writing the object at an address. *)
Definition put_subscriber (this : nat) (s : ISubscribe) : M (bus * world) unit :=
  modify (λ bw, (Bus (<[this := s]> (b_objs bw.1)) (b_pInstance bw.1), bw.2)).

(** ** subscribe *)

(** src: systimerfactory/iarmtimerstatussubscriber.cpp:42-58 IarmTimerStatusSubscriber::subscribe
    The IARM result code is converted to [bool]: zero, success, is false. *)
Definition IarmTimerStatusSubscriber_subscribe (eventname : string) : M (bus * world) bool :=
  if bool_decide (TIMER_STATUS_MSG = eventname) then
    r ← on_snd (sys (IarmRegisterCall eventname));
    mret (negb (bool_decide (r = 0)))
  else mret false.

(** src: systimerfactory/iarmpowersubscriber.cpp:44-59 IarmPowerSubscriber::subscribe *)
Definition IarmPowerSubscriber_subscribe (this : nat) (name eventname : string) (fptr : callback)
    : M (bus * world) bool :=
  if bool_decide (POWER_CHANGE_MSG = eventname) then
    _ ← put_subscriber this (IarmPowerSubscriber name (FFun fptr));
    r ← on_snd (sys (IarmRegisterEventHandler IARM_BUS_PWRMGR_NAME IARM_BUS_PWRMGR_EVENT_MODECHANGED));
    mret (negb (bool_decide (r = 0)))
  else mret false.

Definition with_thread (o : PowerController) : PowerController :=
  mkPowerController (pc_subscriber o) (pc_powerHandler o) (pc_pwrEvtQueue o) true (pc_connecting o).
Definition with_handler (f : funcPtr) (o : PowerController) : PowerController :=
  mkPowerController (pc_subscriber o) f (pc_pwrEvtQueue o) (pc_thread o) (pc_connecting o).
Definition with_connecting (o : PowerController) : PowerController :=
  mkPowerController (pc_subscriber o) (pc_powerHandler o) (pc_pwrEvtQueue o) (pc_thread o) true.
Definition with_queue (q : list (PowerController_PowerState * PowerController_PowerState))
    (o : PowerController) : PowerController :=
  mkPowerController (pc_subscriber o) (pc_powerHandler o) q (pc_thread o) (pc_connecting o).

(** src: systimerfactory/ipowercontrollersubscriber.cpp:229-243 IpowerControllerSubscriber::sysTimeMgrInitPwrEvt
    Starts the event handler thread (PowerQueue). *)
Definition sysTimeMgrInitPwrEvt (o : PowerController) : PowerController := with_thread o.

(** src: systimerfactory/ipowercontrollersubscriber.cpp:31-85 IpowerControllerSubscriber::subscribe *)
Definition IpowerControllerSubscriber_subscribe (this : nat) (o : PowerController)
    (eventname : string) (fptr : callback) : M (bus * world) bool :=
  if bool_decide (POWER_CHANGE_MSG = eventname) then
    _ ← on_snd (sys PowerControllerInit);
    let o1 := with_handler (FFun fptr) (sysTimeMgrInitPwrEvt o) in
    _ ← put_subscriber this (IpowerControllerSubscriber o1);
    c ← on_snd (sys PowerControllerConnect);
    if bool_decide (c = 0) then
      r ← on_snd (sys PowerControllerRegister);
      mret (bool_decide (r = 0))
    else
      _ ← put_subscriber this (IpowerControllerSubscriber (with_connecting o1));
      mret true
  else mret false.

(** src: interface/isubscribe.h:41-41 ISubscribe::subscribe
    The virtual call through a pointer. *)
Definition subscribe (p : option nat) (eventname : string) (fptr : callback) : M (bus * world) bool :=
  this ← deref p;
  objs ← gets (λ bw, b_objs bw.1);
  o ← deref (objs !! this);
  match o with
  | TestSubscriber _ => mret true
  | IarmTimerStatusSubscriber _ => IarmTimerStatusSubscriber_subscribe eventname
  | IarmPowerSubscriber n _ => IarmPowerSubscriber_subscribe this n eventname fptr
  | IpowerControllerSubscriber o => IpowerControllerSubscriber_subscribe this o eventname fptr
  end.

(** ** The end of the power controller's subscriber *)

(** src: systimerfactory/ipowercontrollersubscriber.cpp:246-277 IpowerControllerSubscriber::sysTimeMgrDeinitPwrEvt
    [false]: it blocks in the join, the handler thread having been started
    (PowerQueue). *)
Definition sysTimeMgrDeinitPwrEvt (this : nat) (o : PowerController) : M (bus * world) bool :=
  _ ← put_subscriber this (IpowerControllerSubscriber (with_queue [] o));
  if pc_thread o then mret false
  else _ ← on_snd (sys PowerControllerUnRegister); mret true.

(** src: systimerfactory/ipowercontrollersubscriber.cpp:87-98 IpowerControllerSubscriber::~IpowerControllerSubscriber *)
Definition delete_IpowerControllerSubscriber (this : nat) (o : PowerController) : M (bus * world) bool :=
  joined ← sysTimeMgrDeinitPwrEvt this o;
  if (joined : bool) then _ ← on_snd (sys PowerControllerTerm); mret true else mret false.

(** ** The power callbacks *)

(** src: systimerfactory/iarmpowersubscriber.h:33-33 IarmPowerSubscriber::invokepowerhandler
    Also that of [IpowerControllerSubscriber]: calls the member if it is not
    null; testing an indeterminate pointer is undefined. *)
Definition invokepowerhandler (h : funcPtr) (powerstatus : string) : M (bus * world) (option invocation) :=
  match h with
  | FUninit => undef
  | FNull => mret None
  | FFun f => mret (Some (f, powerstatus))
  end.

(** The object [pInstance] points at. *)
Definition getInstance : M (bus * world) (option ISubscribe) :=
  gets (λ bw, i ← b_pInstance bw.1; b_objs bw.1 !! i).

(** src: systimerfactory/iarmpowersubscriber.cpp:61-92 IarmPowerSubscriber::powereventHandler
    [cur] and [new]: curState and newState of the event data. *)
Definition powereventHandler (eventId : Z) (cur new : IARM_PowerState)
    : M (bus * world) (option invocation) :=
  if negb (bool_decide (IARM_BUS_PWRMGR_EVENT_MODECHANGED = eventId)) then mret None
  else
    inst ← getInstance;
    match inst with
    | Some (IarmPowerSubscriber _ h) =>
        if bool_decide (IARM_POWERSTATE_OFF = new) ||
           bool_decide (IARM_POWERSTATE_STANDBY_DEEP_SLEEP = new)
        then invokepowerhandler h "DEEP_SLEEP_ON"
        else if bool_decide (IARM_POWERSTATE_STANDBY_DEEP_SLEEP = cur) &&
                (bool_decide (IARM_POWERSTATE_ON = new) ||
                 bool_decide (IARM_POWERSTATE_STANDBY_LIGHT_SLEEP = new) ||
                 bool_decide (IARM_POWERSTATE_STANDBY = new))
        then invokepowerhandler h "DEEP_SLEEP_OFF"
        else mret None
    | _ => mret None
    end.

(** src: systimerfactory/ipowercontrollersubscriber.cpp:187-226 IpowerControllerSubscriber::sysTimeMgrHandlePwrEventData *)
Definition sysTimeMgrHandlePwrEventData (currentState newState : PowerController_PowerState)
    : M (bus * world) (option invocation) :=
  inst ← getInstance;
  match inst with
  | Some (IpowerControllerSubscriber o) =>
      match newState with
      | POWER_STATE_OFF | POWER_STATE_STANDBY_DEEP_SLEEP =>
          invokepowerhandler (pc_powerHandler o) "DEEP_SLEEP_ON"
      | POWER_STATE_ON | POWER_STATE_STANDBY_LIGHT_SLEEP | POWER_STATE_STANDBY =>
          if bool_decide (POWER_STATE_STANDBY_DEEP_SLEEP = currentState)
          then invokepowerhandler (pc_powerHandler o) "DEEP_SLEEP_OFF"
          else mret None
      | _ => mret None
      end
  | _ => mret None
  end.

(** src: systimerfactory/ipowercontrollersubscriber.cpp:101-116 IpowerControllerSubscriber::sysTimeMgrPwrEventHandler
    [notify_one] is called outside the null check. *)
Definition sysTimeMgrPwrEventHandler (currentState newState : PowerController_PowerState)
    : M (bus * world) unit :=
  inst ← gets (λ bw, b_pInstance bw.1);
  obj ← getInstance;
  match inst, obj with
  | Some this, Some (IpowerControllerSubscriber o) =>
      put_subscriber this (IpowerControllerSubscriber
        (with_queue (pc_pwrEvtQueue o ++ [(currentState, newState)]) o))
  | _, _ => undef
  end.

(** src: systimerfactory/ipowercontrollersubscriber.cpp:170-178 IpowerControllerSubscriber::sysTimeMgrPwrEventHandlingThreadFunc
    One round of the drain loop: the oldest event of the thread's object is taken
    and handled (by the instance). *)
Definition sysTimeMgrPwrEventHandlingThreadFunc_round (this : nat) : M (bus * world) (option invocation) :=
  obj ← gets (λ bw, b_objs bw.1 !! this);
  match obj with
  | Some (IpowerControllerSubscriber o) =>
      match pc_pwrEvtQueue o with
      | [] => mret None
      | (currentState, newState) :: q =>
          _ ← put_subscriber this (IpowerControllerSubscriber (with_queue q o));
          sysTimeMgrHandlePwrEventData currentState newState
      end
  | _ => undef
  end.

(** The objects whose handler thread was started. *)
Definition handler_started (b : bus) (this : nat) : bool :=
  match b_objs b !! this with Some (IpowerControllerSubscriber o) => pc_thread o | _ => false end.
End operations.

(** ** Specification of the power callbacks

    What a power transition means to the daemon, for both interfaces. *)
Definition power_signal (cur new : IARM_PowerState) : option string :=
  match new with
  | IARM_POWERSTATE_OFF | IARM_POWERSTATE_STANDBY_DEEP_SLEEP => Some "DEEP_SLEEP_ON"
  | IARM_POWERSTATE_OTHER _ => None
  | _ => if decide (cur = IARM_POWERSTATE_STANDBY_DEEP_SLEEP) then Some "DEEP_SLEEP_OFF" else None
  end.

(** The power controller's name of a state of the power manager. *)
Definition pc_of_iarm (s : IARM_PowerState) : PowerController_PowerState :=
  match s with
  | IARM_POWERSTATE_OFF => POWER_STATE_OFF
  | IARM_POWERSTATE_STANDBY => POWER_STATE_STANDBY
  | IARM_POWERSTATE_ON => POWER_STATE_ON
  | IARM_POWERSTATE_STANDBY_LIGHT_SLEEP => POWER_STATE_STANDBY_LIGHT_SLEEP
  | IARM_POWERSTATE_STANDBY_DEEP_SLEEP => POWER_STATE_STANDBY_DEEP_SLEEP
  | IARM_POWERSTATE_OTHER _ => POWER_STATE_UNKNOWN
  end.

(** The object the static points at. *)
Definition instance (b : bus) : option ISubscribe := i ← b_pInstance b; b_objs b !! i.

Lemma getInstance_run (b : bus) (w : world) : getInstance (b, w) = (Ret (instance b), (b, w)).
Proof. done. Qed.

Lemma powereventHandler_run n f cur new b w :
  instance b = Some (IarmPowerSubscriber n (FFun f)) →
  powereventHandler IARM_BUS_PWRMGR_EVENT_MODECHANGED cur new (b, w)
  = (Ret ((λ s, (f, s)) <$> power_signal cur new), (b, w)).
Proof.
  intros Hi. unfold powereventHandler. rewrite bool_decide_eq_true_2 by done.
  simpl. rewrite (bind_run _ _ _ _ _ (getInstance_run b w)), Hi. by destruct new, cur.
Qed.

Lemma sysTimeMgrHandlePwrEventData_run o f cur new b w :
  instance b = Some (IpowerControllerSubscriber o) → pc_powerHandler o = FFun f →
  sysTimeMgrHandlePwrEventData (pc_of_iarm cur) (pc_of_iarm new) (b, w)
  = (Ret ((λ s, (f, s)) <$> power_signal cur new), (b, w)).
Proof.
  intros Hi Hf. unfold sysTimeMgrHandlePwrEventData.
  rewrite (bind_run _ _ _ _ _ (getInstance_run b w)), Hi.
  destruct new, cur; simpl; by rewrite ?Hf.
Qed.

(** The constructors' calls on the bus. *)
Lemma wp_iarm_connect {E : Env} t name (Q : unit → world → Prop) w :
  (∀ w', quiet w w' → w_fs w' = w_fs w → Q tt w') → wp t (iarm_connect name) Q w.
Proof.
  intros HQ. unfold iarm_connect. apply wp_bind, wp_sys, wp_when; intros _.
  - apply wp_bind, wp_sys, wp_bind, wp_sys, wp_ret, HQ; [eauto 6 with quiet|done].
  - apply HQ; [eauto with quiet|done].
Qed.

(** ** Specifications of the constructors and of [subscribe] *)

(** The handler a subscriber object calls on power events. *)
Definition power_handler (s : ISubscribe) : funcPtr :=
  match s with
  | IarmPowerSubscriber _ h => h
  | IpowerControllerSubscriber o => pc_powerHandler o
  | _ => FNull
  end.

(** The class a build uses for power events. *)
Definition power_class {B : Build} (s : ISubscribe) : Prop :=
  if PWRMGRPLUGIN_ENABLED then ∃ o, s = IpowerControllerSubscriber o
  else ∃ n h, s = IarmPowerSubscriber n h.

Section specs.
Context {E : Env} {B : Build} (t : bool).

Lemma wp_createPublish_iarm args (Q : option IPublish → world → Prop) w :
  ENABLE_IARM = true → (∀ w', quiet w w' → w_fs w' = w_fs w → Q (Some (IarmPublish args)) w') →
  wp t (createPublish "iarm" args) Q w.
Proof.
  intros He HQ. unfold createPublish. simpl. rewrite He. simpl. apply wp_bind.
  unfold new_IarmPublish. apply wp_bind, wp_iarm_connect. intros w' Hq Hf. by apply wp_ret, wp_ret, HQ.
Qed.

(** A constructor: the new object at the end of the store, the static on it. *)
Definition appended (s : ISubscribe) (b : bus) : bus := Bus (b_objs b ++ [s]) (Some (length (b_objs b))).

Lemma wp_createSubscriber_timer args (Q : option nat → bus * world → Prop) b w :
  ENABLE_IARM = true →
  (∀ w', quiet w w' → w_fs w' = w_fs w →
     Q (Some (length (b_objs b))) (appended (IarmTimerStatusSubscriber args) b, w')) →
  wp t (createSubscriber "iarm" args TIMER_STATUS_MSG) Q (b, w).
Proof.
  intros He HQ. unfold createSubscriber. simpl. rewrite He. simpl. apply wp_fmap.
  unfold new_IarmTimerStatusSubscriber. apply wp_bind.
  change (wp t (_ ← set_pInstance (length (b_objs b)); _ ← on_snd (iarm_connect args); mret (length (b_objs b)))
    (λ a, Q (Some a)) (Bus (b_objs b ++ [IarmTimerStatusSubscriber args]) (b_pInstance b), w)).
  apply wp_bind, wp_modify, wp_bind, wp_on_snd, wp_iarm_connect. intros w' Hq Hf. by apply wp_ret, HQ.
Qed.

Lemma wp_createSubscriber_power args (Q : option nat → bus * world → Prop) b w :
  ENABLE_IARM = true →
  (∀ s w', power_class s → quiet w w' → w_fs w' = w_fs w →
     Q (Some (length (b_objs b))) (appended s b, w')) →
  wp t (createSubscriber "iarm" args POWER_CHANGE_MSG) Q (b, w).
Proof.
  intros He HQ. unfold createSubscriber, power_class in *. simpl. rewrite He. simpl.
  destruct PWRMGRPLUGIN_ENABLED; apply wp_fmap.
  - unfold new_IpowerControllerSubscriber. apply wp_bind.
    set (s := IpowerControllerSubscriber _).
    change (wp t (_ ← set_pInstance (length (b_objs b)); mret (length (b_objs b)))
      (λ a, Q (Some a)) (Bus (b_objs b ++ [s]) (b_pInstance b), w)).
    apply wp_bind, wp_modify, wp_ret, HQ; [by eexists|done|done].
  - unfold new_IarmPowerSubscriber. apply wp_bind.
    change (wp t (_ ← set_pInstance (length (b_objs b)); _ ← on_snd (iarm_connect args); mret (length (b_objs b)))
      (λ a, Q (Some a)) (Bus (b_objs b ++ [IarmPowerSubscriber args FNull]) (b_pInstance b), w)).
    apply wp_bind, wp_modify, wp_bind, wp_on_snd, wp_iarm_connect. intros w' Hq Hf.
    apply wp_ret, HQ; [by eexists _, _|done|done].
Qed.

Lemma wp_subscribe_timer this n f (Q : bool → bus * world → Prop) b w :
  b_objs b !! this = Some (IarmTimerStatusSubscriber n) →
  (∀ r w', quiet w w' → w_fs w' = w_fs w → Q r (b, w')) →
  wp t (subscribe (Some this) TIMER_STATUS_MSG f) Q (b, w).
Proof.
  intros Hthis HQ. unfold subscribe. apply wp_bind, wp_ret, wp_bind, wp_gets. simpl.
  apply wp_bind. rewrite Hthis. apply wp_ret. unfold IarmTimerStatusSubscriber_subscribe. simpl.
  apply wp_bind, wp_on_snd, wp_sys, wp_ret, HQ; [simpl; eauto with quiet|done].
Qed.

Lemma wp_subscribe_power this s f (Q : bool → bus * world → Prop) b w :
  b_objs b !! this = Some s → power_class s →
  (∀ r s' w', power_handler s' = FFun f → power_class s' → quiet w w' → w_fs w' = w_fs w →
     Q r (Bus (<[this := s']> (b_objs b)) (b_pInstance b), w')) →
  wp t (subscribe (Some this) POWER_CHANGE_MSG f) Q (b, w).
Proof.
  intros Hthis Hs HQ. unfold subscribe, power_class in *. apply wp_bind, wp_ret, wp_bind, wp_gets. simpl.
  apply wp_bind. rewrite Hthis. apply wp_ret. destruct PWRMGRPLUGIN_ENABLED.
  - destruct Hs as [o ->]. unfold IpowerControllerSubscriber_subscribe. simpl.
    apply wp_bind, wp_on_snd, wp_sys_unit, wp_bind, wp_modify, wp_bind, wp_on_snd, wp_sys. simpl.
    case_bool_decide.
    + apply wp_bind, wp_on_snd, wp_sys, wp_ret. apply HQ; [done|by eexists|simpl; eauto 6 with quiet|done].
    + apply wp_bind, wp_modify, wp_ret. simpl. rewrite list_insert_insert_eq.
      apply HQ; [done|by eexists|simpl; eauto 6 with quiet|done].
  - destruct Hs as (n & h & ->). unfold IarmPowerSubscriber_subscribe. simpl.
    apply wp_bind, wp_modify, wp_bind, wp_on_snd, wp_sys, wp_ret.
    apply HQ; [done|by eexists _, _|simpl; eauto with quiet|done].
Qed.
End specs.

(** * Properties *)

(** The two power interfaces mean the same.  When the registered handler of
    the instance is [f], the IARM callback and the power controller's handler
    call [f] with DEEP_SLEEP_ON on a transition to off or deep sleep, with
    DEEP_SLEEP_OFF on a transition from deep sleep to on, light sleep or
    standby, and do not call it otherwise; neither changes anything itself. *)
Theorem power_handlers_agree (n : string) (o : PowerController) (f : callback)
    (cur new : IARM_PowerState) (b1 b2 : bus) (w1 w2 : world) :
  instance b1 = Some (IarmPowerSubscriber n (FFun f)) →
  instance b2 = Some (IpowerControllerSubscriber o) → pc_powerHandler o = FFun f →
  let call := (λ s, (f, s)) <$> power_signal cur new in
  powereventHandler IARM_BUS_PWRMGR_EVENT_MODECHANGED cur new (b1, w1) = (Ret call, (b1, w1)) ∧
  sysTimeMgrHandlePwrEventData (pc_of_iarm cur) (pc_of_iarm new) (b2, w2) = (Ret call, (b2, w2)).
Proof.
  intros H1 H2 H3. split; [by eapply powereventHandler_run|by eapply sysTimeMgrHandlePwrEventData_run].
Qed.

Definition iarm_bus : bus :=
  Bus [IarmTimerStatusSubscriber "m"; IarmPowerSubscriber "m" (FFun SysTimeMgr_powerhandler)] (Some 1%nat).
Definition pc_object : PowerController :=
  mkPowerController "m" (FFun SysTimeMgr_powerhandler) [] true false.
Definition pc_bus : bus :=
  Bus [IarmTimerStatusSubscriber "m"; IpowerControllerSubscriber pc_object] (Some 1%nat).

Lemma power_handlers_agree_witness :
  let call := Some (SysTimeMgr_powerhandler, "DEEP_SLEEP_OFF") in
  powereventHandler 0 IARM_POWERSTATE_STANDBY_DEEP_SLEEP IARM_POWERSTATE_ON (iarm_bus, good_world)
  = (Ret call, (iarm_bus, good_world)) ∧
  sysTimeMgrHandlePwrEventData POWER_STATE_STANDBY_DEEP_SLEEP POWER_STATE_ON (pc_bus, good_world)
  = (Ret call, (pc_bus, good_world)).
Proof.
  exact (power_handlers_agree "m" pc_object SysTimeMgr_powerhandler
    IARM_POWERSTATE_STANDBY_DEEP_SLEEP IARM_POWERSTATE_ON iarm_bus pc_bus good_world good_world
    eq_refl eq_refl eq_refl).
Defined.

(** The result of [subscribe] on the two IARM classes is inverted: for the
    class's own event it reports false exactly when the bus accepted the
    registration, and for any other event it makes no call and reports false.
    The power handler is recorded whatever the bus answers. *)
Theorem iarm_subscribe_result {E : Env} (this : nat) (name ev : string) (f : callback)
    (b : bus) (w : world) :
  let accepted := bool_decide (answer (w_trace w) (IarmRegisterCall ev) = 0) in
  let accepted' := bool_decide (answer (w_trace w)
    (IarmRegisterEventHandler IARM_BUS_PWRMGR_NAME IARM_BUS_PWRMGR_EVENT_MODECHANGED) = 0) in
  fst (IarmTimerStatusSubscriber_subscribe ev (b, w))
  = Ret (bool_decide (ev = TIMER_STATUS_MSG) && negb accepted) ∧
  fst (IarmPowerSubscriber_subscribe this name ev f (b, w))
  = Ret (bool_decide (ev = POWER_CHANGE_MSG) && negb accepted') ∧
  b_objs (fst (snd (IarmPowerSubscriber_subscribe this name ev f (b, w))))
  = (if bool_decide (ev = POWER_CHANGE_MSG)
     then <[this := IarmPowerSubscriber name (FFun f)]> (b_objs b) else b_objs b).
Proof.
  intros accepted accepted'.
  unfold IarmTimerStatusSubscriber_subscribe, IarmPowerSubscriber_subscribe.
  repeat split; repeat case_bool_decide; try congruence; done.
Qed.

(** A power event delivered when the static instance is not a power
    controller subscriber is ignored by the handler that processes queued
    events, but undefined in the one that queues them, which signals the
    condition variable of a null instance. *)
Theorem power_event_without_instance (cur new : PowerController_PowerState) (b : bus) (w : world) :
  match instance b with Some (IpowerControllerSubscriber _) => False | _ => True end →
  sysTimeMgrHandlePwrEventData cur new (b, w) = (Ret None, (b, w)) ∧
  sysTimeMgrPwrEventHandler cur new (b, w) = (Undef, (b, w)).
Proof.
  intros Hi. unfold sysTimeMgrHandlePwrEventData, sysTimeMgrPwrEventHandler.
  rewrite (bind_run _ _ _ _ _ (getInstance_run b w)).
  rewrite (bind_run _ _ (b, w) (b_pInstance b) (b, w)) by done.
  rewrite (bind_run _ _ _ _ _ (getInstance_run b w)).
  split; by destruct (instance b) as [[| | |]|], (b_pInstance b).
Qed.

Lemma power_event_without_instance_witness :
  sysTimeMgrHandlePwrEventData POWER_STATE_ON POWER_STATE_OFF (empty_bus, good_world)
  = (Ret None, (empty_bus, good_world)) ∧
  sysTimeMgrPwrEventHandler POWER_STATE_ON POWER_STATE_OFF (empty_bus, good_world)
  = (Undef, (empty_bus, good_world)).
Proof. by apply power_event_without_instance. Defined.
