(* ===== verification/TimeSrc.v ===== *)
(** * TimeSrc: the five [ITimeSrc] classes of systimerfactory/

    [NtpTimeSrc] and [SttTimeSrc] (the kernel's clocks), [RegularTimeSrc] (the
    time stamp of a file), [DrmTimeSrc] and [DttTimeSrc] (time from a service
    over JSON-RPC, with the notification file they touch), their instances of
    the interface and the proof that each meets its contract. *)

From S2P Require Import Prelude CString Platform TestEnv Interfaces.

(** src: systimerfactory/ntptimesrc.h:25-28 NtpTimeSrc *)
Inductive NtpTimeSrc := mkNtpTimeSrc.

(** src: systimerfactory/stttimesrc.h:25-28 SttTimeSrc *)
Inductive SttTimeSrc := mkSttTimeSrc.

(** src: systimerfactory/regulartimesrc.h:31-36 RegularTimeSrc *)
Record RegularTimeSrc := mkRegularTimeSrc { regular_path : string }.

(** src: systimerfactory/drmtimersrc.h:27-39 DrmTimeSrc *)
Record DrmTimeSrc := mkDrmTimeSrc { drm_path : string }.

(** src: systimerfactory/dtttimersrc.h:27-43 DttTimeSrc *)
Record DttTimeSrc := mkDttTimeSrc {
  dtt_path : string;
  dtt_pluginactivated : bool;
  dtt_dtteventsubscribed : bool
}.

(** src: systimerfactory/dtttimersrc.h:35-35 DttTimeSrc::DttTimeSrc *)
Definition new_DttTimeSrc (path : string) : DttTimeSrc := mkDttTimeSrc path false false.

(** [catch (JsonRpcException& e)]: the exceptions of jsoncpp and of [stoll]
    derive from other classes. *)
Definition is_JsonRpcException (e : exn) : bool := bool_decide (e = JsonRpcException).

Section classes.
Context {E : Env} {B : Build}.

(** ** The kernel's clocks *)

(** src: systimerfactory/ntptimesrc.h:32-38 NtpTimeSrc::getTimeSec *)
Definition NtpTimeSrc_getTimeSec : M (NtpTimeSrc * world) Z := on_snd (sys NtpGettime).

(** src: systimerfactory/stttimesrc.h:32-37 SttTimeSrc::getTimeSec *)
Definition SttTimeSrc_getTimeSec : M (SttTimeSrc * world) Z := on_snd (sys TimeNull).

(** ** The time stamp of a file *)

(** src: systimerfactory/regulartimesrc.h:38-53 RegularTimeSrc::getTimeSec *)
Definition RegularTimeSrc_getTimeSec : M (RegularTimeSrc * world) Z :=
  m_path ← gets (λ ow, regular_path ow.1);
  fd ← on_snd (read_file m_path);
  match fd with
  | None => mret 0
  | Some _ =>
      st ← on_snd (sys (Fstat m_path));
      mret (default 0 st)
  end.

(** ** JSON-RPC services *)

(** [c.CallMethod(method, params)]. *)
Definition rpc (method : string) : M world json :=
  r ← sys (CallMethod method);
  match r with Some v => mret v | None => throw JsonRpcException end.

(** [v[key].asString()] and [v[key].asBool()]. *)
Definition member_string (v : json) (key : string) : M world string :=
  m ← of_outcome (json_member v key); of_outcome (json_asString m).
Definition member_bool (v : json) (key : string) : M world bool :=
  m ← of_outcome (json_member v key); of_outcome (json_asBool m).

(** src: systimerfactory/drmtimersrc.cpp:49-69 DrmTimeSrc::getTimeSec
    The [try] block; [Some]: it returned. *)
Definition drm_try (m_path : string) : M world (option Z) :=
  result ← rpc "DRMActivationService.1.GetActivationStatus";
  status ← member_string result "activationstatus";
  if bool_decide (status = "Active") then
    result ← rpc "DRMActivationService.1.GetSecureTime";
    success ← member_bool result "success";
    if (success : bool) then
      _ ← notifypathAvailable m_path;
      s ← member_string result "securetime";
      v ← of_outcome (stoll s);
      mret (Some v)
    else mret None
  else mret None.

(** src: systimerfactory/drmtimersrc.cpp:74-81 DrmTimeSrc::getTimeSec
    What follows the [try] block, the same text in dtttimersrc.cpp. *)
Definition no_service_time (m_path : string) : M world Z :=
  if LOCAL_TEST then
    _ ← notifypathAvailable m_path;
    sys TimeNull
  else mret 0.

(** src: systimerfactory/drmtimersrc.cpp:35-82 DrmTimeSrc::getTimeSec *)
Definition DrmTimeSrc_getTimeSec : M (DrmTimeSrc * world) Z :=
  m_path ← gets (λ ow, drm_path ow.1);
  r ← on_snd (catch (drm_try m_path) is_JsonRpcException (mret None));
  match r with
  | Some v => mret v
  | None => on_snd (no_service_time m_path)
  end.

(** Assignments to the two flags. *)
Definition set_pluginactivated : M (DttTimeSrc * world) unit :=
  modify (λ ow, (mkDttTimeSrc (dtt_path ow.1) true (dtt_dtteventsubscribed ow.1), ow.2)).
Definition set_dtteventsubscribed : M (DttTimeSrc * world) unit :=
  modify (λ ow, (mkDttTimeSrc (dtt_path ow.1) (dtt_pluginactivated ow.1) true, ow.2)).

(** src: systimerfactory/dtttimersrc.cpp:63-85 DttTimeSrc::getTimeSec
    Activation and subscription. *)
Definition dtt_prepare : M (DttTimeSrc * world) unit :=
  activated ← gets (λ ow, dtt_pluginactivated ow.1);
  _ ← when (negb activated)
        (_ ← on_snd (rpc "Controller.1.activate");
         set_pluginactivated);
  activated ← gets (λ ow, dtt_pluginactivated ow.1);
  subscribed ← gets (λ ow, dtt_dtteventsubscribed ow.1);
  when (activated && negb subscribed)
    (if WPEVGDRM_ENABLED then
       r ← on_snd (sys (ThunderSubscribe "onBroadcastTimeAvailable"));
       if bool_decide (r = 0) then set_dtteventsubscribed else mret tt
     else set_dtteventsubscribed).

(** src: systimerfactory/dtttimersrc.cpp:87-96 DttTimeSrc::getTimeSec
    The rest of the [try] block; [Some]: it returned. *)
Definition dtt_fetch (m_path : string) : M world (option Z) :=
  result ← rpc "org.rdk.MediaSystem.1.getBroadcastTimeInfo";
  success ← member_bool result "success";
  if (success : bool) then
    infoNode ← of_outcome (json_member result "info");
    _ ← notifypathAvailable m_path;
    s ← member_string infoNode "timeUtc";
    v ← of_outcome (stoll s);
    mret (Some v)
  else mret None.

(** src: systimerfactory/dtttimersrc.cpp:62-97 DttTimeSrc::getTimeSec
    The [try] block. *)
Definition dtt_try : M (DttTimeSrc * world) (option Z) :=
  _ ← dtt_prepare;
  m_path ← gets (λ ow, dtt_path ow.1);
  on_snd (dtt_fetch m_path).

(** src: systimerfactory/dtttimersrc.cpp:47-110 DttTimeSrc::getTimeSec *)
Definition DttTimeSrc_getTimeSec : M (DttTimeSrc * world) Z :=
  r ← catch dtt_try is_JsonRpcException (mret None);
  m_path ← gets (λ ow, dtt_path ow.1);
  match r with
  | Some v => mret v
  | None => on_snd (no_service_time m_path)
  end.

(** ** The instances *)

(** src: systimerfactory/ntptimesrc.h:25-40 NtpTimeSrc *)
#[export] Instance NtpTimeSrc_ITimeSrc : ITimeSrc NtpTimeSrc := {
  isreference := λ _, true;
  getTimeSec := NtpTimeSrc_getTimeSec;
  checkTime := ITimeSrc_checkTime NtpTimeSrc_getTimeSec;
  isclockProvider := ITimeSrc_isclockProvider
}.

(** src: systimerfactory/stttimesrc.h:25-39 SttTimeSrc *)
#[export] Instance SttTimeSrc_ITimeSrc : ITimeSrc SttTimeSrc := {
  isreference := λ _, true;
  getTimeSec := SttTimeSrc_getTimeSec;
  checkTime := ITimeSrc_checkTime SttTimeSrc_getTimeSec;
  isclockProvider := ITimeSrc_isclockProvider
}.

(** src: systimerfactory/regulartimesrc.h:31-54 RegularTimeSrc *)
#[export] Instance RegularTimeSrc_ITimeSrc : ITimeSrc RegularTimeSrc := {
  isreference := λ _, false;
  getTimeSec := RegularTimeSrc_getTimeSec;
  checkTime := ITimeSrc_checkTime RegularTimeSrc_getTimeSec;
  isclockProvider := ITimeSrc_isclockProvider
}.

(** src: systimerfactory/drmtimersrc.h:27-39 DrmTimeSrc *)
#[export] Instance DrmTimeSrc_ITimeSrc : ITimeSrc DrmTimeSrc := {
  isreference := λ _, false;
  getTimeSec := DrmTimeSrc_getTimeSec;
  checkTime := ITimeSrc_checkTime DrmTimeSrc_getTimeSec;
  isclockProvider := ITimeSrc_isclockProvider
}.

(** src: systimerfactory/dtttimersrc.h:27-43 DttTimeSrc *)
#[export] Instance DttTimeSrc_ITimeSrc : ITimeSrc DttTimeSrc := {
  isreference := λ _, false;
  getTimeSec := DttTimeSrc_getTimeSec;
  checkTime := ITimeSrc_checkTime DttTimeSrc_getTimeSec;
  isclockProvider := λ _, true
}.
End classes.

(** ** The contract *)

Section contracts.
Context {E : Env} {B : Build} (t : bool).
Context (HE : t = true → SaneEnv E) (HJ : t = true → SaneJson E).

(** What [getTimeSec] promises: quiet calls only, and a time in range. *)
Definition good_time {T} (w : world) (z : Z) (ow : T * world) : Prop :=
  quiet w ow.2 ∧ (t = true → 0 ≤ z ≤ sane_max).

(** The contract of a class without fuel, from its [getTimeSec]. *)
Definition src_spec_of {T} `{!ITimeSrc T} :
  (∀ o w, wp t getTimeSec (good_time w) (o, w)) →
  (checkTime = ITimeSrc_checkTime getTimeSec) → ITimeSrcSpec t T.
Proof.
  intros Hg Hc. refine {| src_fuel := λ _ _, True |}; [done| |].
  - intros n o w _. eapply wp_mono; [apply Hg|]. intros z ow [Hq Hz]. auto.
  - intros n o w _. rewrite Hc. apply wp_bind. eapply wp_mono; [apply Hg|].
    intros z ow [Hq Hz]. apply wp_ret. auto.
Defined.

Lemma wp_no_service_time path w :
  wp t (no_service_time path) (λ z w', quiet w w' ∧ (t = true → 0 ≤ z ≤ sane_max)) w.
Proof.
  unfold no_service_time. mstep.
  - apply wp_bind, wp_notifypathAvailable. intros w' Hq _. apply wp_sys. split.
    + etrans; [exact Hq|]. eauto with quiet.
    + intros Ht. by destruct (HE Ht) as [_ ? _ _ _].
  - apply wp_ret. split; [done|]. unfold sane_max. lia.
Qed.

(** A [try] block may leave by an exception the handler takes, after quiet calls. *)
Definition caught (w : world) (e : exn) (w' : world) : Prop :=
  quiet w w' ∧ (t = true → e = JsonRpcException).

Lemma wpx_rpc m (Q : json → world → Prop) w0 w :
  quiet w0 w → (∀ v w', quiet w0 w' → Q v w') → wpx t (rpc m) Q (caught w0) w.
Proof.
  intros Hq HQ. unfold rpc. apply wpx_bind, wpx_of_total, wp_sys.
  destruct (answer _ _).
  - apply (wpx_of_total t (mret _)), wp_ret, HQ. eauto with quiet.
  - apply wpx_throw. split; [eauto with quiet|done].
Qed.

Lemma wpx_member_string v k (Q : string → world → Prop) w0 w :
  quiet w0 w → (∀ m s, json_member v k = Ret m → json_asString m = Ret s → Q s w) →
  wpx t (member_string v k) Q (caught w0) w.
Proof.
  intros Hq HQ. apply wpx_bind. apply wpx_of_outcome.
  - intros m Hm. apply wpx_of_outcome; [eauto|..].
    + intros e He. split; [done|]. intros Ht. destruct (HJ Ht) as [_ H _ _], (H m). congruence.
    + intros Ht. destruct (HJ Ht) as [_ H _ _], (H m). congruence.
  - intros e He. split; [done|]. intros Ht. destruct (HJ Ht) as [H _ _ _], (H v k). congruence.
  - intros Ht. destruct (HJ Ht) as [H _ _ _], (H v k). congruence.
Qed.

Lemma wpx_member_bool v k (Q : bool → world → Prop) w0 w :
  quiet w0 w → (∀ b, Q b w) → wpx t (member_bool v k) Q (caught w0) w.
Proof.
  intros Hq HQ. apply wpx_bind. apply wpx_of_outcome.
  - intros m Hm. apply wpx_of_outcome; [eauto|..].
    + intros e He. split; [done|]. intros Ht. destruct (HJ Ht) as [_ _ H _], (H m). congruence.
    + intros Ht. destruct (HJ Ht) as [_ _ H _], (H m). congruence.
  - intros e He. split; [done|]. intros Ht. destruct (HJ Ht) as [H _ _ _], (H v k). congruence.
  - intros Ht. destruct (HJ Ht) as [H _ _ _], (H v k). congruence.
Qed.

(** Reading a time field: notification, then conversion. *)
Lemma wpx_time_field v k path w0 w :
  k = "securetime" ∨ k = "timeUtc" → quiet w0 w →
  wpx t (_ ← notifypathAvailable path; s ← member_string v k; z ← of_outcome (stoll s); mret (Some z))
    (λ r w', quiet w0 w' ∧ (t = true → ∀ z, r = Some z → 0 ≤ z ≤ sane_max)) (caught w0) w.
Proof.
  intros Hk Hq. apply wpx_bind, wpx_of_total, wp_notifypathAvailable. intros w1 Hq1 _.
  assert (quiet w0 w1) as Hq' by (by etrans).
  apply wpx_bind, wpx_member_string; [done|]. intros m s Hm Hs.
  apply wpx_bind, wpx_of_outcome.
  - intros z Hz. apply (wpx_of_total t (mret _)), wp_ret. split; [done|]. intros Ht ? [= <-].
    destruct (HJ Ht) as [_ _ _ H], (H k v m s Hk Hm Hs) as (z' & Hz' & ?).
    assert (z = z') as -> by congruence. done.
  - intros e He. split; [done|]. intros Ht.
    destruct (HJ Ht) as [_ _ _ H], (H k v m s Hk Hm Hs) as (z' & Hz' & ?). congruence.
  - intros Ht. destruct (HJ Ht) as [_ _ _ H], (H k v m s Hk Hm Hs) as (z' & Hz' & ?). congruence.
Qed.

(** ** The five classes *)

Definition NtpTimeSrc_spec : ITimeSrcSpec t NtpTimeSrc.
Proof.
  apply src_spec_of; [|done]. intros o w. apply wp_on_snd, wp_sys. split; simpl.
  - eauto with quiet.
  - intros Ht. by destruct (HE Ht) as [_ _ ? _ _].
Defined.

Definition SttTimeSrc_spec : ITimeSrcSpec t SttTimeSrc.
Proof.
  apply src_spec_of; [|done]. intros o w. apply wp_on_snd, wp_sys. split; simpl.
  - eauto with quiet.
  - intros Ht. by destruct (HE Ht) as [_ ? _ _ _].
Defined.

Definition RegularTimeSrc_spec : ITimeSrcSpec t RegularTimeSrc.
Proof.
  apply src_spec_of; [|done]. intros o w. unfold getTimeSec; simpl. unfold RegularTimeSrc_getTimeSec.
  apply wp_bind, wp_gets, wp_bind, wp_on_snd, wp_read_file; simpl.
  - intros w1 Hq1 _. destruct (f_data <$> _); simpl.
    + apply wp_bind, wp_on_snd, wp_sys, wp_ret. simpl. split.
      * etrans; [exact Hq1|]. eauto with quiet.
      * intros Ht. destruct (HE Ht) as [_ _ _ Hm _].
        destruct (answer _ _) eqn:Ha; simpl; [eauto|unfold sane_max; lia].
    + apply wp_ret. split; [done|]. unfold sane_max. lia.
  - intros h w1 _ Hq1 _. apply wp_ret. split; [done|]. unfold sane_max. lia.
Defined.

Lemma wpx_drm_try path w :
  wpx t (drm_try path)
    (λ r w', quiet w w' ∧ (t = true → ∀ z, r = Some z → 0 ≤ z ≤ sane_max)) (caught w) w.
Proof.
  unfold drm_try. apply wpx_bind, wpx_rpc; [done|]. intros v1 w1 Hq1.
  apply wpx_bind, wpx_member_string; [done|]. intros m s _ _.
  case_bool_decide; [|by apply (wpx_of_total t (mret _)), wp_ret].
  apply wpx_bind, wpx_rpc; [done|]. intros v2 w2 Hq2.
  apply wpx_bind, wpx_member_bool; [done|]. intros [|]; [|by apply (wpx_of_total t (mret _)), wp_ret].
  apply wpx_time_field; auto.
Qed.

(** A [try] block whose handler only logs, then the common tail. *)
Lemma wp_after_try {T} (r : option Z) path w0 (o : T) w :
  quiet w0 w → (t = true → ∀ z, r = Some z → 0 ≤ z ≤ sane_max) →
  wp t (match r with Some v => mret v | None => on_snd (no_service_time path) end)
    (good_time w0) (o, w).
Proof.
  intros Hq Hr. destruct r as [v|]; [apply wp_ret; split; [done|eauto]|].
  apply wp_on_snd. eapply wp_mono; [apply wp_no_service_time|].
  intros z w' [Hq' Hz]. split; [by etrans|done].
Qed.

Definition DrmTimeSrc_spec : ITimeSrcSpec t DrmTimeSrc.
Proof.
  apply src_spec_of; [|done]. intros o w. unfold getTimeSec; simpl. unfold DrmTimeSrc_getTimeSec.
  apply wp_bind, wp_gets, wp_bind, wp_on_snd, wp_catch. simpl.
  pose proof (wpx_drm_try (drm_path o) w) as H. unfold wpx in *.
  destruct (drm_try (drm_path o) w) as [[r|e|] w']; [| |done].
  - destruct H as [Hq Hr]. by apply wp_after_try.
  - destruct H as [Hq He]. unfold is_JsonRpcException. case_bool_decide.
    + apply wp_ret. by apply (wp_after_try None).
    + destruct t; [|done]. by destruct H; apply He.
Defined.

Lemma wpx_dtt_prepare (Q : unit → DttTimeSrc * world → Prop) o w :
  (∀ o' w', quiet w w' → Q tt (o', w')) →
  wpx t dtt_prepare Q (λ e ow, caught w e ow.2) (o, w).
Proof.
  intros HQ. unfold dtt_prepare. apply wpx_bind, (wpx_of_total t (gets _)), wp_gets. simpl.
  assert (∀ o1 w1, quiet w w1 → wpx t
    (activated ← gets (λ ow : DttTimeSrc * world, dtt_pluginactivated ow.1);
     subscribed ← gets (λ ow, dtt_dtteventsubscribed ow.1);
     when (activated && negb subscribed)
      (if WPEVGDRM_ENABLED then
         r ← on_snd (sys (ThunderSubscribe "onBroadcastTimeAvailable"));
         if bool_decide (r = 0) then set_dtteventsubscribed else mret tt
       else set_dtteventsubscribed)) Q (λ e ow, caught w e ow.2) (o1, w1)) as Hsub.
  { intros o1 w1 Hq. apply (wpx_of_total t).
    apply wp_bind, wp_gets, wp_bind, wp_gets, wp_when; intros _; [|by apply HQ]. mstep.
    - apply wp_bind, wp_on_snd, wp_sys. mstep; [apply wp_modify|apply wp_ret]; apply HQ; simpl; eauto with quiet.
    - apply wp_modify. by apply HQ. }
  apply wpx_bind, wpx_when; intros _; [|by apply Hsub].
  apply wpx_bind, wpx_on_snd, wpx_rpc; [done|]. intros v w1 Hq1.
  apply (wpx_of_total t set_pluginactivated), wp_modify. by apply Hsub.
Qed.

Lemma wpx_dtt_try o w :
  wpx t dtt_try (λ r ow, quiet w ow.2 ∧ (t = true → ∀ z, r = Some z → 0 ≤ z ≤ sane_max))
    (λ e ow, caught w e ow.2) (o, w).
Proof.
  unfold dtt_try. apply wpx_bind, wpx_dtt_prepare. intros o1 w1 Hq1.
  apply wpx_bind, (wpx_of_total t (gets _)), wp_gets, wpx_on_snd. simpl.
  apply wpx_bind, wpx_rpc; [done|]. intros v2 w2 Hq2.
  apply wpx_bind, wpx_member_bool; [done|]. intros [|]; [|by apply (wpx_of_total t (mret _)), wp_ret].
  apply wpx_bind, wpx_of_outcome.
  - intros m Hm. apply (wpx_time_field m "timeUtc"); auto.
  - intros e He. split; [done|]. intros Ht. destruct (HJ Ht) as [H _ _ _], (H v2 "info"). congruence.
  - intros Ht. destruct (HJ Ht) as [H _ _ _], (H v2 "info"). congruence.
Qed.

Definition DttTimeSrc_spec : ITimeSrcSpec t DttTimeSrc.
Proof.
  apply src_spec_of; [|done]. intros o w. unfold getTimeSec; simpl. unfold DttTimeSrc_getTimeSec.
  apply wp_bind, wp_catch. pose proof (wpx_dtt_try o w) as H. unfold wpx in *.
  destruct (dtt_try (o, w)) as [[r|e|] [o' w']]; [| |done].
  - destruct H as [Hq Hr]. apply wp_bind, wp_gets. by apply wp_after_try.
  - destruct H as [Hq He]. unfold is_JsonRpcException. case_bool_decide.
    + apply wp_ret, wp_bind, wp_gets. by apply (wp_after_try None).
    + destruct t; [|done]. by destruct H; apply He.
Defined.
End contracts.

(** * Properties *)

Lemma stoll_throws s e : stoll s = Throw e → is_JsonRpcException e = false.
Proof. unfold stoll. by destruct (parse_int s); [case_match|]; intros [= <-]. Qed.

(** The activation calls in a log. *)
Definition is_activate (e : ev) : bool :=
  match ev_call e with CallMethod m => bool_decide (m = "Controller.1.activate") | _ => false end.

Definition is_thunder_subscribe (e : ev) : bool :=
  match ev_call e with ThunderSubscribe _ => true | _ => false end.

(** What [getTimeSec] does once the plugin is prepared. *)
Definition dtt_rest {E : Env} {B : Build} (path : string) : M world Z :=
  r ← catch (dtt_fetch path) is_JsonRpcException (mret None);
  match r with Some v => mret v | None => no_service_time path end.

Lemma dtt_getTimeSec_prepared {E : Env} {B : Build} o w o1 w1 :
  dtt_prepare (o, w) = (Ret tt, (o1, w1)) →
  DttTimeSrc_getTimeSec (o, w) = on_snd (dtt_rest (dtt_path o1)) (o1, w1).
Proof.
  intros Hp. unfold DttTimeSrc_getTimeSec, dtt_rest, dtt_try, catch, on_snd, mbind, M_bind, gets.
  rewrite Hp. simpl. destruct (dtt_fetch (dtt_path o1) w1) as [[[v|]|e|] w2]; simpl; [done|done| |done].
  by destruct (is_JsonRpcException e).
Qed.

Lemma makes_dtt_rest {E : Env} {B : Build} path :
  makes id (λ e, is_activate e = false ∧ is_thunder_subscribe e = false) (dtt_rest path).
Proof.
  unfold dtt_rest, dtt_fetch, rpc, member_bool, member_string, no_service_time,
    notifypathAvailable, create_file, set_mtime. makes_steps.
Qed.

(** [dtt_prepare] on an object that has activated the plugin already. *)
Lemma dtt_prepare_activated {E : Env} {B : Build} o w :
  dtt_pluginactivated o = true →
  ∃ o' l, dtt_prepare (o, w) = (Ret tt, (o', World (w_fs w) (l ++ w_trace w))) ∧
    dtt_pluginactivated o' = true ∧ dtt_path o' = dtt_path o ∧
    (dtt_dtteventsubscribed o = true → dtt_dtteventsubscribed o' = true ∧ l = []) ∧
    Forall (λ e, is_activate e = false) l.
Proof.
  intros Ha. unfold dtt_prepare.
  rewrite (bind_run _ _ (o, w) (dtt_pluginactivated o) (o, w)) by done. rewrite Ha. simpl.
  rewrite (bind_run _ _ (o, w) tt (o, w)) by done.
  rewrite (bind_run _ _ (o, w) (dtt_pluginactivated o) (o, w)) by done.
  rewrite (bind_run _ _ (o, w) (dtt_dtteventsubscribed o) (o, w)) by done. rewrite Ha.
  destruct o as [path a s]. simpl in *. subst a. destruct w as [fs h]. destruct s; simpl.
  { by exists (mkDttTimeSrc path true true), []. }
  destruct WPEVGDRM_ENABLED.
  - set (r := answer h (ThunderSubscribe "onBroadcastTimeAvailable")).
    rewrite (bind_run _ _ _ r (mkDttTimeSrc path true false, log (Ev (ThunderSubscribe _) r) (World fs h)))
      by done.
    case_bool_decide; eexists _, [Ev (ThunderSubscribe "onBroadcastTimeAvailable") r];
      (split; [reflexivity|]); repeat split; try done; by repeat constructor.
  - by exists (mkDttTimeSrc path true true), [].
Qed.

Section properties.
Context {E : Env} {B : Build}.

(** C40: a secure time that is not a number is not contained: when the DRM
    service is active, reports success and sends a text that [stoll] rejects,
    the exception leaves [getTimeSec], whose handler only takes RPC errors; by
    then the notification file, which announces that secure time is available,
    has been created. *)
Theorem drm_bad_time_escapes (o : DrmTimeSrc) (w : world) (j1 j2 m1 m2 m3 : json) (s : string) (e : exn) :
  HealthyDisk E →
  (∀ h, answer h (CallMethod "DRMActivationService.1.GetActivationStatus") = Some j1) →
  json_member j1 "activationstatus" = Ret m1 → json_asString m1 = Ret "Active" →
  (∀ h, answer h (CallMethod "DRMActivationService.1.GetSecureTime") = Some j2) →
  json_member j2 "success" = Ret m2 → json_asBool m2 = Ret true →
  json_member j2 "securetime" = Ret m3 → json_asString m3 = Ret s → stoll s = Throw e →
  ∃ w', DrmTimeSrc_getTimeSec (o, w) = (Throw e, (o, w')) ∧ is_Some (w_fs w' !! drm_path o).
Proof.
  intros HD Ha1 Hm1 Hs1 Ha2 Hm2 Hb2 Hm3 Hs3 Hst.
  assert (wpx true (drm_try (drm_path o)) (λ _ _, False)
    (λ e' w', e' = e ∧ is_Some (w_fs w' !! drm_path o)) w) as Htry.
  { unfold drm_try, rpc, member_string, member_bool.
    apply wpx_bind, wpx_bind, wpx_of_total, wp_sys. rewrite Ha1. apply (wpx_of_total true (mret _)), wp_ret.
    apply wpx_bind. rewrite Hm1. apply wpx_bind, wpx_of_total, wp_of_outcome; [eauto|]. intros ? [= <-].
    rewrite Hs1. apply wpx_of_total, wp_of_outcome; [eauto|]. intros ? [= <-]. rewrite bool_decide_eq_true_2 by done.
    apply wpx_bind, wpx_bind, wpx_of_total, wp_sys. rewrite Ha2. apply (wpx_of_total true (mret _)), wp_ret.
    apply wpx_bind. rewrite Hm2. apply wpx_bind, wpx_of_total, wp_of_outcome; [eauto|]. intros ? [= <-].
    rewrite Hb2. apply wpx_of_total, wp_of_outcome; [eauto|]. intros ? [= <-].
    apply wpx_bind, wpx_of_total, wp_notify_creates; [done|]. intros w1 Hw1.
    apply wpx_bind. rewrite Hm3. apply wpx_bind, wpx_of_total, wp_of_outcome; [eauto|]. intros ? [= <-].
    rewrite Hs3. apply wpx_of_total, wp_of_outcome; [eauto|]. intros ? [= <-].
    apply wpx_bind. rewrite Hst. by apply wpx_of_outcome; [|intros ? [= <-]|]. }
  unfold DrmTimeSrc_getTimeSec. rewrite (bind_run _ _ (o, w) (drm_path o) (o, w)) by done.
  unfold wpx in Htry. destruct (drm_try (drm_path o) w) as [[r|e'|] w'] eqn:Hrun; [done| |done].
  destruct Htry as [-> Hex]. exists w'. split; [|done].
  unfold mbind, M_bind, on_snd, catch. simpl. rewrite Hrun. by rewrite (stoll_throws s).
Qed.

(** The media plugin is activated once.  After a call that got past the
    activation, no later [getTimeSec] of the object asks for it again, whatever
    the services answer and however the calls end; the subscription is repeated
    until it succeeds, then never. *)
Theorem dtt_activates_once (o : DttTimeSrc) (w : world) :
  dtt_pluginactivated o = true →
  ∃ r o' w' l, DttTimeSrc_getTimeSec (o, w) = (r, (o', w')) ∧
    w_trace w' = l ++ w_trace w ∧ Forall (λ e, is_activate e = false) l ∧
    dtt_pluginactivated o' = true ∧
    (dtt_dtteventsubscribed o = true → dtt_dtteventsubscribed o' = true ∧
       Forall (λ e, is_thunder_subscribe e = false) l).
Proof.
  intros Ha. destruct (dtt_prepare_activated o w Ha) as (o1 & l1 & Hp & Ha1 & Hpath & Hs1 & F1).
  set (w1 := World (w_fs w) (l1 ++ w_trace w)) in *.
  rewrite (dtt_getTimeSec_prepared _ _ _ _ Hp).
  destruct (makes_dtt_rest (dtt_path o1) w1) as (l2 & H2 & F2). unfold on_snd. simpl.
  destruct (dtt_rest (dtt_path o1) w1) as [r w2]. exists r, o1, w2, (l2 ++ l1). simpl in *.
  unfold id in H2. split; [done|]. split; [by rewrite H2, app_assoc|].
  split; [apply Forall_app; split; [|done]; eapply Forall_impl; [exact F2|]; by intros e []|].
  split; [done|]. intros Hs. destruct (Hs1 Hs) as [-> ->]. split; [done|].
  rewrite app_nil_r. eapply Forall_impl; [exact F2|]. by intros e [].
Qed.
End properties.

(** ** Witnesses *)

(** Services that answer every request; the time field reads [s]. *)
Definition services (s : string) : overrides := {|
  o_clock := Some (1700000000, 0); o_ntp := 1700000000; o_settime := true; o_adjtimex := [];
  o_active := λ _, 0; o_selectable := (0, 1); o_sources := (0, 1);
  o_offset := (0, SpecFloat.S754_zero false); o_waitsync := 0; o_rpc := λ _, Some 1%positive;
  o_timeUtc := s; o_mtime := None; o_subscribe := []; o_pwr := []
|}.

Lemma drm_bad_time_escapes_witness :
  ∃ w', @DrmTimeSrc_getTimeSec (test_env (services "soon")) good_build
          (mkDrmTimeSrc "/tmp/systimemgr/drm", good_world)
        = (Throw StdInvalidArgument, (mkDrmTimeSrc "/tmp/systimemgr/drm", w')) ∧
        is_Some (w_fs w' !! "/tmp/systimemgr/drm").
Proof.
  apply (@drm_bad_time_escapes (test_env (services "soon")) good_build (mkDrmTimeSrc "/tmp/systimemgr/drm")
    good_world 1%positive 1%positive 2%positive 1%positive 3%positive "soon" StdInvalidArgument); try reflexivity. apply test_env_disk.
Defined.

Lemma dtt_activates_once_witness :
  ∃ r o' w' l, @DttTimeSrc_getTimeSec good_env good_build
      (mkDttTimeSrc "/tmp/systimemgr/dtt" true false, good_world) = (r, (o', w')) ∧
    w_trace w' = l ++ [] ∧ Forall (λ e, is_activate e = false) l ∧
    dtt_pluginactivated o' = true ∧
    (false = true → dtt_dtteventsubscribed o' = true ∧ Forall (λ e, is_thunder_subscribe e = false) l).
Proof.
  apply (@dtt_activates_once good_env good_build (mkDttTimeSrc "/tmp/systimemgr/dtt" true false) good_world).
  reflexivity.
Defined.
