(* ===== verification/Factory.v ===== *)
(** * Factory: timerfactory.cpp

    The objects the daemon's two vectors point at, as sums of the concrete
    classes with the interfaces' virtual calls, and the two factories. *)

From S2P Require Import Prelude CString Platform TestEnv Interfaces TimeSync TimeSrc.

(** src: interface/itimesrc.h:38-67 ITimeSrc
    An object behind an [ITimeSrc*]. *)
Inductive TimeSrcObj :=
  | SrcNtp (o : NtpTimeSrc)
  | SrcStt (o : SttTimeSrc)
  | SrcRegular (o : RegularTimeSrc)
  | SrcDrm (o : DrmTimeSrc)
  | SrcDtt (o : DttTimeSrc).

(** src: interface/itimesync.h:33-40 ITimeSync
    An object behind an [ITimeSync*]. *)
Inductive TimeSyncObj :=
  | SyncTest (o : TestTimeSync)
  | SyncRdkDefault (o : RdkDefaultTimeSync)
  | SyncTee (o : TeeTimeSync).

(** A method of a class run on an object seen through the interface. *)
Definition via {T O A} (c : T → O) (o : T) (m : M (T * world) A) : M (O * world) A := λ ow,
  let '(r, (o', w')) := m (o, ow.2) in (r, (c o', w')).

Section factory.
Context {E : Env} {B : Build}.

#[export] Instance TimeSrcObj_ITimeSrc : ITimeSrc TimeSrcObj := {
  isreference := λ s, match s with
    | SrcNtp o => isreference o | SrcStt o => isreference o | SrcRegular o => isreference o
    | SrcDrm o => isreference o | SrcDtt o => isreference o end;
  getTimeSec := λ ow, match ow.1 with
    | SrcNtp o => via SrcNtp o getTimeSec ow | SrcStt o => via SrcStt o getTimeSec ow
    | SrcRegular o => via SrcRegular o getTimeSec ow | SrcDrm o => via SrcDrm o getTimeSec ow
    | SrcDtt o => via SrcDtt o getTimeSec ow end;
  checkTime := λ ow, match ow.1 with
    | SrcNtp o => via SrcNtp o checkTime ow | SrcStt o => via SrcStt o checkTime ow
    | SrcRegular o => via SrcRegular o checkTime ow | SrcDrm o => via SrcDrm o checkTime ow
    | SrcDtt o => via SrcDtt o checkTime ow end;
  isclockProvider := λ s, match s with
    | SrcNtp o => isclockProvider o | SrcStt o => isclockProvider o | SrcRegular o => isclockProvider o
    | SrcDrm o => isclockProvider o | SrcDtt o => isclockProvider o end
}.

#[export] Instance TimeSyncObj_ITimeSync : ITimeSync TimeSyncObj := {
  updateTime := λ z ow, match ow.1 with
    | SyncTest o => via SyncTest o (updateTime z) ow
    | SyncRdkDefault o => via SyncRdkDefault o (updateTime z) ow
    | SyncTee o => via SyncTee o (updateTime z) ow end;
  getTime := λ ow, match ow.1 with
    | SyncTest o => via SyncTest o getTime ow
    | SyncRdkDefault o => via SyncRdkDefault o getTime ow
    | SyncTee o => via SyncTee o getTime ow end
}.

(** src: systimerfactory/timerfactory.cpp:32-59 createTimeSrc *)
Definition createTimeSrc (type args : string) : option TimeSrcObj :=
  if bool_decide (type = "ntp") then Some (SrcNtp mkNtpTimeSrc)
  else if bool_decide (type = "stt") then Some (SrcStt mkSttTimeSrc)
  else if bool_decide (type = "regular") then Some (SrcRegular (mkRegularTimeSrc args))
  else if bool_decide (type = "drm") then Some (SrcDrm (mkDrmTimeSrc args))
  else if DTT_ENABLED && bool_decide (type = "dtt") then Some (SrcDtt (new_DttTimeSrc args))
  else None.

(** src: systimerfactory/timerfactory.cpp:60-79 createTimeSync *)
Definition createTimeSync (type args : string) : option TimeSyncObj :=
  if bool_decide (type = "test") then Some (SyncTest args)
  else if bool_decide (type = "rdkdefault") then
    Some (SyncRdkDefault (new_RdkDefaultTimeSync "/opt/secure/clock.txt"))
  else if TEE_ENABLED && bool_decide (type = "tee") then Some (SyncTee mkTeeTimeSync)
  else None.
End factory.

(** ** The contract of the sums *)

Lemma wp_via {T O A} t (c : T → O) (o : T) (m : M (T * world) A) (Q : A → O * world → Prop) ow :
  wp t m (λ a ow', Q a (c ow'.1, ow'.2)) (o, ow.2) → wp t (via c o m) Q ow.
Proof. unfold wp, via. by destruct (m (o, ow.2)) as [[a|e|] [o' w']]. Qed.

Section contracts.
Context {E : Env} {B : Build} (t : bool).
Context (HE : t = true → SaneEnv E) (HJ : t = true → SaneJson E) (HM : t = true → SaneMfr).

(** Which class an object belongs to never changes. *)
Definition src_class (s : TimeSrcObj) : nat :=
  match s with SrcNtp _ => 0 | SrcStt _ => 1 | SrcRegular _ => 2 | SrcDrm _ => 3 | SrcDtt _ => 4 end.

Lemma wp_src_dispatch {A} (f : ∀ T (i : ITimeSrc T) (HT : ITimeSrcSpec t T), M (T * world) A)
    (m : M (TimeSrcObj * world) A) (R : A → world → world → Prop) o w :
  (m (o, w) = match o with
     | SrcNtp o => via SrcNtp o (f _ _ (NtpTimeSrc_spec t HE)) (SrcNtp o, w)
     | SrcStt o => via SrcStt o (f _ _ (SttTimeSrc_spec t HE)) (SrcStt o, w)
     | SrcRegular o => via SrcRegular o (f _ _ (RegularTimeSrc_spec t HE)) (SrcRegular o, w)
     | SrcDrm o => via SrcDrm o (f _ _ (DrmTimeSrc_spec t HE HJ)) (SrcDrm o, w)
     | SrcDtt o => via SrcDtt o (f _ _ (DttTimeSrc_spec t HE HJ)) (SrcDtt o, w) end) →
  (∀ T (i : ITimeSrc T) (HT : ITimeSrcSpec t T) (o : T), src_fuel 1 o →
     wp t (f T i HT) (λ a ow, R a w ow.2) (o, w)) →
  wp t m (λ a ow, R a w ow.2 ∧ src_class ow.1 = src_class o) (o, w).
Proof.
  intros Hm Hf. unfold wp at 1. rewrite Hm. destruct o as [o|o|o|o|o].
  all: match goal with |- context [via ?c ?o ?m ?ow] =>
         assert (wp t (via c o m) (λ a ow', R a w ow'.2 ∧ src_class ow'.1 = src_class (c o)) ow) as Hwp
           by (apply wp_via; simpl; eapply wp_mono; [by apply Hf|auto])
       end; exact Hwp.
Qed.

Definition TimeSrcObj_spec : ITimeSrcSpec t TimeSrcObj.
Proof.
  refine {| src_fuel := λ _ _, True |}; [done| |].
  - intros n o w _. eapply wp_mono.
    + apply (wp_src_dispatch (λ T i HT, getTimeSec) getTimeSec
        (λ z w w', quiet w w' ∧ (t = true → 0 ≤ z ≤ sane_max))); [by destruct o|].
      intros T i HT o' Hf. eapply wp_mono; [by apply (getTimeSec_spec 0)|].
      intros z ow [Hq Hz]. split; [done|]. intros Ht. by destruct (Hz Ht).
    + intros z ow [[Hq Hz] _]. auto.
  - intros n o w _. eapply wp_mono.
    + apply (wp_src_dispatch (λ T i HT, checkTime) checkTime (λ z w w', quiet w w')); [by destruct o|].
      intros T i HT o' Hf. eapply wp_mono; [by apply (checkTime_spec 0)|]. by intros z ow [Hq _].
    + intros z ow [Hq _]. auto.
Defined.

(** Only the clock file limits the number of updates. *)
Definition syncobj_fuel (n : nat) (o : TimeSyncObj) : Prop :=
  match o with SyncRdkDefault o => rdk_fuel n o | _ => True end.

Definition syncobj_readable (fs : gmap string file) (o : TimeSyncObj) : Prop :=
  match o with
  | SyncRdkDefault o => 0 ≤ stored_time fs (rdk_path o) ≤ sane_max ∧ 0 ≤ image_time fs ≤ sane_max
  | _ => True
  end.

Definition TimeSyncObj_spec : ITimeSyncSpec t TimeSyncObj.
Proof.
  refine {| sync_fuel := syncobj_fuel; sync_readable := syncobj_readable |}.
  - intros n m [o|o|o] Hle; [done| |done]. simpl. unfold rdk_fuel. lia.
  - intros n z [o|o|o] w Hpre; [set (S := TestTimeSync_spec t)|set (S := RdkDefaultTimeSync_spec t HE)
      |set (S := TeeTimeSync_spec t HE HM)].
    all: match goal with |- wp _ _ _ (?c ?x, _) =>
           apply (wp_via t c x (updateTime z) _ (c x, w)); simpl;
           eapply wp_mono; [apply (@updateTime_spec _ t _ _ S n)|]; simpl; [|by intros [] ow] end.
    + intros Ht. by destruct (Hpre Ht).
    + exact Hpre.
    + intros Ht. by destruct (Hpre Ht).
  - intros [o|o|o] w Hok; [set (S := TestTimeSync_spec t)|set (S := RdkDefaultTimeSync_spec t HE)
      |set (S := TeeTimeSync_spec t HE HM)].
    all: match goal with |- wp _ _ _ (?c ?x, _) =>
           apply (wp_via t c x getTime _ (c x, w)); simpl;
           eapply wp_mono; [apply (@getTime_spec _ t _ _ S); done|]; simpl; by intros z ow (? & ? & ?) end.
Defined.
End contracts.

(** Case analysis of the type name over the names a factory tests. *)
Ltac by_types v l :=
  lazymatch l with
  | [] => idtac
  | ?s :: ?l =>
      destruct (decide (v = s)) as [->|];
      [try solve [repeat split; set_solver]
      |rewrite ?(bool_decide_eq_false_2 (v = s)) by done; by_types v l]
  end.

(** * Properties *)

Section properties.
Context {E : Env} {B : Build}.

(** The factories build an object exactly for the types they know, and an
    object has the role its type stands for: the kernel clocks are references,
    broadcast time is a clock provider, nothing else is either.  An unknown type,
    or one compiled out, gives a null pointer. *)
Theorem factory_roles (type args : string) :
  match createTimeSrc type args with
  | Some o => isreference o = bool_decide (type = "ntp" ∨ type = "stt") ∧
              isclockProvider o = bool_decide (type = "dtt")
  | None => (type ∉ ["ntp"; "stt"; "regular"; "drm"]) ∧
            (type = "dtt" → DTT_ENABLED = false)
  end ∧
  match createTimeSync type args with
  | Some _ => type ∈ ["test"; "rdkdefault"; "tee"]
  | None => (type ∉ ["test"; "rdkdefault"]) ∧ (type = "tee" → TEE_ENABLED = false)
  end.
Proof.
  split.
  - unfold createTimeSrc. by_types type ["ntp"; "stt"; "regular"; "drm"; "dtt"].
    + destruct DTT_ENABLED; [done|]. split; [set_solver|done].
    + rewrite andb_false_r. split; [set_solver|done].
  - unfold createTimeSync. by_types type ["test"; "rdkdefault"; "tee"].
    + destruct TEE_ENABLED; [set_solver|]. split; [set_solver|done].
    + rewrite andb_false_r. split; [set_solver|done].
Qed.

(** Every source returns a time.  On a platform whose clocks are in range
    and whose services send well-formed replies, [getTimeSec] of any source
    returns a time between 0 and 2^33, whatever its state; it makes no broadcast
    and does not set the clock, and the object stays in its class. *)
Theorem source_time_in_range (o : TimeSrcObj) (w : world) :
  SaneEnv E → SaneJson E →
  ∃ z o' w', getTimeSec (o, w) = (Ret z, (o', w')) ∧ 0 ≤ z ≤ sane_max ∧
    quiet w w' ∧ src_class o' = src_class o.
Proof.
  intros HE HJ.
  assert (wp true getTimeSec (λ z ow, (0 ≤ z ≤ sane_max ∧ quiet w ow.2) ∧ src_class ow.1 = src_class o) (o, w))
    as Hwp.
  { apply (wp_src_dispatch true (λ _, HE) (λ _, HJ) (λ T i HT, getTimeSec) getTimeSec
      (λ z w w', 0 ≤ z ≤ sane_max ∧ quiet w w')); [by destruct o|].
    intros T i HT o' Hf. eapply wp_mono; [by apply (getTimeSec_spec 0)|].
    intros z ow [Hq Hz]. split; [|done]. by destruct (Hz eq_refl). }
  apply wp_total_run in Hwp as (z & [o' w'] & Hrun & [Hz Hq] & Hc). simpl in *. by exists z, o', w'.
Qed.
End properties.

Lemma source_time_in_range_witness :
  ∃ z o' w', @getTimeSec _ (@TimeSrcObj_ITimeSrc (test_env (services "1700000000")) good_build)
               (SrcDrm (mkDrmTimeSrc "/tmp/systimemgr/drm"), good_world) = (Ret z, (o', w')) ∧
    0 ≤ z ≤ sane_max ∧ quiet good_world w' ∧ src_class o' = 3%nat.
Proof.
  apply (@source_time_in_range (test_env (services "1700000000")) good_build).
  - apply test_env_sane; simpl; unfold sane_max; lia.
  - apply test_env_json. exists 1700000000. split; [vm_compute; reflexivity|unfold sane_max; lia].
Defined.
