(* ===== verification/SysTimeMgr.v ===== *)
(** * SysTimeMgr: the daemon's object (systimemgr.h, systimemgr.cpp)

    The state machine, its handlers, the status messages, the initial time and
    the reaction to deep sleep, for any classes of time sources and time syncs
    that implement the interfaces (Interfaces); Factory gives the concrete ones.
    Daemon has [initialize], the threads and the whole process. *)

From S2P Require Import Prelude CString Platform TestEnv Interfaces PubSub.

(** ** Enumerations *)

(** src: systimemgr.h:47-56 sysTimeMgrState *)
Inductive sysTimeMgrState :=
  | eSYSMGR_STATE_INIT
  | eSYSMGR_STATE_NTP_WAIT
  | eSYSMGR_STATE_NTP_FAIL
  | eSYSMGR_STATE_NTP_ACQUIRED
  | eSYSMGR_STATE_DTT_ACQUIRED
  | eSYSMGR_STATE_SECURE_TIME_ACQUIRED
  | eSYSMGR_STATE_RUNNING.

(** src: systimemgr.h:58-69 sysTimeMgrEvent *)
Inductive sysTimeMgrEvent :=
  | eSYSMGR_EVENT_ADD_TIMESRC
  | eSYSMGR_EVENT_DELETE_TIMESRC
  | eSYSMGR_EVENT_ADD_TIMESYNC
  | eSYSMGR_EVENT_DELETE_TIMESSYNC
  | eSYSMGR_EVENT_TIMER_EXPIRY
  | eSYSMGR_EVENT_NTP_AVAILABLE
  | eSYSMGR_EVENT_DTT_TIME_AVAILABLE
  | eSYSMGR_EVENT_SECURE_TIME_AVAILABLE
  | eSYSMGR_EVENT_UNKNOWN.

#[export] Instance sysTimeMgrState_eq_dec : EqDecision sysTimeMgrState.
Proof. solve_decision. Defined.
#[export] Instance sysTimeMgrEvent_eq_dec : EqDecision sysTimeMgrEvent.
Proof. solve_decision. Defined.

(** Keys of the two maps, numbered as in the enumerations. *)
Definition state_code (s : sysTimeMgrState) : nat :=
  match s with
  | eSYSMGR_STATE_INIT => 0 | eSYSMGR_STATE_NTP_WAIT => 1 | eSYSMGR_STATE_NTP_FAIL => 2
  | eSYSMGR_STATE_NTP_ACQUIRED => 3 | eSYSMGR_STATE_DTT_ACQUIRED => 4
  | eSYSMGR_STATE_SECURE_TIME_ACQUIRED => 5 | eSYSMGR_STATE_RUNNING => 6
  end.
Definition all_states : list sysTimeMgrState :=
  [eSYSMGR_STATE_INIT; eSYSMGR_STATE_NTP_WAIT; eSYSMGR_STATE_NTP_FAIL; eSYSMGR_STATE_NTP_ACQUIRED;
   eSYSMGR_STATE_DTT_ACQUIRED; eSYSMGR_STATE_SECURE_TIME_ACQUIRED; eSYSMGR_STATE_RUNNING].

Definition event_code (e : sysTimeMgrEvent) : nat :=
  match e with
  | eSYSMGR_EVENT_ADD_TIMESRC => 0 | eSYSMGR_EVENT_DELETE_TIMESRC => 1 | eSYSMGR_EVENT_ADD_TIMESYNC => 2
  | eSYSMGR_EVENT_DELETE_TIMESSYNC => 3 | eSYSMGR_EVENT_TIMER_EXPIRY => 4
  | eSYSMGR_EVENT_NTP_AVAILABLE => 5 | eSYSMGR_EVENT_DTT_TIME_AVAILABLE => 6
  | eSYSMGR_EVENT_SECURE_TIME_AVAILABLE => 7 | eSYSMGR_EVENT_UNKNOWN => 8
  end.
Definition all_events : list sysTimeMgrEvent :=
  [eSYSMGR_EVENT_ADD_TIMESRC; eSYSMGR_EVENT_DELETE_TIMESRC; eSYSMGR_EVENT_ADD_TIMESYNC;
   eSYSMGR_EVENT_DELETE_TIMESSYNC; eSYSMGR_EVENT_TIMER_EXPIRY; eSYSMGR_EVENT_NTP_AVAILABLE;
   eSYSMGR_EVENT_DTT_TIME_AVAILABLE; eSYSMGR_EVENT_SECURE_TIME_AVAILABLE; eSYSMGR_EVENT_UNKNOWN].

#[export] Program Instance sysTimeMgrState_countable : Countable sysTimeMgrState :=
  inj_countable state_code (λ n, all_states !! n) _.
Next Obligation. by intros []. Qed.
#[export] Program Instance sysTimeMgrEvent_countable : Countable sysTimeMgrEvent :=
  inj_countable event_code (λ n, all_events !! n) _.
Next Obligation. by intros []. Qed.

(** src: systimemgr.h:145-152 SysTimeMgr::memfunc
    The member functions the state machine points to. *)
Inductive memfunc :=
  | timerExpiry_f
  | ntpFailed_f
  | ntpAquired_f
  | dttAquired_f
  | updateSecureTime_f
  | updateTime_f
  | secureTimeAcquired_f
  | updateClockRealTime_f.

(** src: systimemgr.h:71-82 sysTimeMsg *)
Record sysTimeMsg := mkSysTimeMsg { sm_event : sysTimeMgrEvent; sm_args : option TimerMsg }.

(** ** The object *)

Section object.
Context {Src Sync : Type}.

(** src: systimemgr.h:86-138 SysTimeMgr
    [m_pathEventMap] lists the bindings in the order of their keys, as
    [std::map] iterates; a null pointer in the vectors is [None]. *)
Record mgr := Mgr {
  stateMachine : gmap sysTimeMgrState (gmap sysTimeMgrEvent memfunc);
  m_pathEventMap : list (string * sysTimeMgrEvent);
  m_state : sysTimeMgrState;
  m_event : sysTimeMgrEvent;
  m_timerInterval : Z;
  m_timequality : qualityOfTime;
  m_timerSrc : list (option Src);
  m_timerSync : list (option Sync);
  m_publish : option IPublish;
  m_subscriber_ptr : option nat;
  m_tmrsubscriber_ptr : option nat;
  m_timersrc : string;
  m_cfgfile : string;
  m_chronyRfcEnabled : bool;
  m_queue : list sysTimeMsg
}.

Definition set_stateMachine (x : gmap sysTimeMgrState (gmap sysTimeMgrEvent memfunc)) (m : mgr) :
    mgr :=
  Mgr x (m_pathEventMap m) (m_state m) (m_event m) (m_timerInterval m) (m_timequality m)
    (m_timerSrc m) (m_timerSync m) (m_publish m) (m_subscriber_ptr m) (m_tmrsubscriber_ptr m)
    (m_timersrc m) (m_cfgfile m) (m_chronyRfcEnabled m) (m_queue m).
Definition set_pathEventMap (x : list (string * sysTimeMgrEvent)) (m : mgr) : mgr :=
  Mgr (stateMachine m) x (m_state m) (m_event m) (m_timerInterval m) (m_timequality m)
    (m_timerSrc m) (m_timerSync m) (m_publish m) (m_subscriber_ptr m) (m_tmrsubscriber_ptr m)
    (m_timersrc m) (m_cfgfile m) (m_chronyRfcEnabled m) (m_queue m).
Definition set_state (x : sysTimeMgrState) (m : mgr) : mgr :=
  Mgr (stateMachine m) (m_pathEventMap m) x (m_event m) (m_timerInterval m) (m_timequality m)
    (m_timerSrc m) (m_timerSync m) (m_publish m) (m_subscriber_ptr m) (m_tmrsubscriber_ptr m)
    (m_timersrc m) (m_cfgfile m) (m_chronyRfcEnabled m) (m_queue m).
Definition set_event (x : sysTimeMgrEvent) (m : mgr) : mgr :=
  Mgr (stateMachine m) (m_pathEventMap m) (m_state m) x (m_timerInterval m) (m_timequality m)
    (m_timerSrc m) (m_timerSync m) (m_publish m) (m_subscriber_ptr m) (m_tmrsubscriber_ptr m)
    (m_timersrc m) (m_cfgfile m) (m_chronyRfcEnabled m) (m_queue m).
Definition set_quality (x : qualityOfTime) (m : mgr) : mgr :=
  Mgr (stateMachine m) (m_pathEventMap m) (m_state m) (m_event m) (m_timerInterval m) x
    (m_timerSrc m) (m_timerSync m) (m_publish m) (m_subscriber_ptr m) (m_tmrsubscriber_ptr m)
    (m_timersrc m) (m_cfgfile m) (m_chronyRfcEnabled m) (m_queue m).
Definition set_srcs (x : list (option Src)) (m : mgr) : mgr :=
  Mgr (stateMachine m) (m_pathEventMap m) (m_state m) (m_event m) (m_timerInterval m)
    (m_timequality m) x (m_timerSync m) (m_publish m) (m_subscriber_ptr m) (m_tmrsubscriber_ptr m)
    (m_timersrc m) (m_cfgfile m) (m_chronyRfcEnabled m) (m_queue m).
Definition set_syncs (x : list (option Sync)) (m : mgr) : mgr :=
  Mgr (stateMachine m) (m_pathEventMap m) (m_state m) (m_event m) (m_timerInterval m)
    (m_timequality m) (m_timerSrc m) x (m_publish m) (m_subscriber_ptr m) (m_tmrsubscriber_ptr m)
    (m_timersrc m) (m_cfgfile m) (m_chronyRfcEnabled m) (m_queue m).
Definition set_publish (x : option IPublish) (m : mgr) : mgr :=
  Mgr (stateMachine m) (m_pathEventMap m) (m_state m) (m_event m) (m_timerInterval m)
    (m_timequality m) (m_timerSrc m) (m_timerSync m) x (m_subscriber_ptr m) (m_tmrsubscriber_ptr m)
    (m_timersrc m) (m_cfgfile m) (m_chronyRfcEnabled m) (m_queue m).
Definition set_subscriber (x : option nat) (m : mgr) : mgr :=
  Mgr (stateMachine m) (m_pathEventMap m) (m_state m) (m_event m) (m_timerInterval m)
    (m_timequality m) (m_timerSrc m) (m_timerSync m) (m_publish m) x (m_tmrsubscriber_ptr m)
    (m_timersrc m) (m_cfgfile m) (m_chronyRfcEnabled m) (m_queue m).
Definition set_tmrsubscriber (x : option nat) (m : mgr) : mgr :=
  Mgr (stateMachine m) (m_pathEventMap m) (m_state m) (m_event m) (m_timerInterval m)
    (m_timequality m) (m_timerSrc m) (m_timerSync m) (m_publish m) (m_subscriber_ptr m) x
    (m_timersrc m) (m_cfgfile m) (m_chronyRfcEnabled m) (m_queue m).
Definition set_timersrc (x : string) (m : mgr) : mgr :=
  Mgr (stateMachine m) (m_pathEventMap m) (m_state m) (m_event m) (m_timerInterval m)
    (m_timequality m) (m_timerSrc m) (m_timerSync m) (m_publish m) (m_subscriber_ptr m)
    (m_tmrsubscriber_ptr m) x (m_cfgfile m) (m_chronyRfcEnabled m) (m_queue m).
Definition set_queue (x : list sysTimeMsg) (m : mgr) : mgr :=
  Mgr (stateMachine m) (m_pathEventMap m) (m_state m) (m_event m) (m_timerInterval m)
    (m_timequality m) (m_timerSrc m) (m_timerSync m) (m_publish m) (m_subscriber_ptr m)
    (m_tmrsubscriber_ptr m) (m_timersrc m) (m_cfgfile m) (m_chronyRfcEnabled m) x.
End object.
Arguments mgr : clear implicits.

(** ** The operations *)

Section operations.
Context {E : Env} {B : Build} {Src Sync : Type} `{ISrc : ITimeSrc Src} `{ISync : ITimeSync Sync}.
Implicit Type args : option TimerMsg.

(** Assigning members. *)
Definition upd (f : mgr Src Sync → mgr Src Sync) : M (mgr Src Sync * world) unit :=
  modify (λ mw, (f mw.1, mw.2)).
Definition field {A} (f : mgr Src Sync → A) : M (mgr Src Sync * world) A := gets (λ mw, f mw.1).

(** A loop over [m_timerSync] or [m_timerSrc]. *)
Definition over_syncs {A} (l : M (list (option Sync) * world) A) : M (mgr Src Sync * world) A :=
  λ mw, let '(r, (syncs, w)) := l (m_timerSync mw.1, mw.2) in (r, (set_syncs syncs mw.1, w)).
Definition over_srcs {A} (l : M (list (option Src) * world) A) : M (mgr Src Sync * world) A :=
  λ mw, let '(r, (srcs, w)) := l (m_timerSrc mw.1, mw.2) in (r, (set_srcs srcs mw.1, w)).

(** src: systimemgr.cpp:622-628 SysTimeMgr::updateTimeSync *)
Definition updateTimeSync (updateTime_ : Z) : M (mgr Src Sync * world) unit :=
  over_syncs (for_each_m (λ _, updateTime updateTime_) tt).

(** src: systimemgr.cpp:708-734 SysTimeMgr::publishStatus *)
Definition publishStatus (event : publishEvent) (message : string) : M (mgr Src Sync * world) unit :=
  q ← field m_timequality;
  src ← field m_timersrc;
  timeinSec ← on_snd realtime_or_time;
  monotimeinSec ← on_snd (sys TimeNull);
  _ ← on_snd (strftime_local timeinSec);
  _ ← on_snd (strftime_local monotimeinSec);
  let msg := {|
    msg_event := publishEvent_code event;
    msg_quality := qualityOfTime_code q;
    msg_timerSrc := snprintf_s cTIMER_STATUS_MESSAGE_LENGTH src;
    msg_currentTime := snprintf_s cTIMER_STATUS_MESSAGE_LENGTH (to_string_ll timeinSec);
    msg_message := snprintf_s cTIMER_STATUS_MESSAGE_LENGTH message
  |} in
  m_publish_ ← field m_publish;
  p ← deref m_publish_;
  on_snd (publish p cTIMER_STATUS_UPDATE msg).

(** src: systimemgr.cpp:755-777 SysTimeMgr::getTimeStatus
    The switch on the quality, repeated at systimemgr.cpp:832-854. *)
Definition quality_label (q : qualityOfTime) : string :=
  match q with
  | eTIMEQUALILTY_POOR => "Poor"
  | eTIMEQUALILTY_GOOD => "Good"
  | eTIMEQUALILTY_SECURE => "Secure"
  | _ => "Unknown"
  end.

(** src: systimemgr.cpp:748-797 SysTimeMgr::getTimeStatus
    Fills the caller's message; its event is left as it was. *)
Definition getTimeStatus (pMsg : TimerMsg) : M (mgr Src Sync * world) TimerMsg :=
  q ← field m_timequality;
  src ← field m_timersrc;
  timeinSec ← on_snd realtime_or_time;
  monotimeinSec ← on_snd (sys TimeNull);
  _ ← on_snd (strftime_local timeinSec);
  _ ← on_snd (strftime_local monotimeinSec);
  mret {|
    msg_event := msg_event pMsg;
    msg_quality := qualityOfTime_code q;
    msg_timerSrc := snprintf_s cTIMER_STATUS_MESSAGE_LENGTH src;
    msg_currentTime := snprintf_s cTIMER_STATUS_MESSAGE_LENGTH (to_string_ll timeinSec);
    msg_message := snprintf_s cTIMER_STATUS_MESSAGE_LENGTH (quality_label q)
  |}.

(** ** Handlers of the state machine *)

(** src: systimemgr.cpp:595-613 SysTimeMgr::timerExpiry
    The loop body, on [(reftime, filetime)]. *)
Definition timerExpiry_body (acc : Z * Z) : M (Src * world) (Z * Z) :=
  ref ← gets (λ ow, isreference ow.1);
  if (ref : bool) then
    reftime ← getTimeSec; mret (reftime, acc.2)
  else
    tempTime ← getTimeSec;
    mret (acc.1, if bool_decide (tempTime = 0) then acc.2 else tempTime).

(** src: systimemgr.cpp:590-621 SysTimeMgr::timerExpiry *)
Definition timerExpiry args : M (mgr Src Sync * world) unit :=
  times ← over_srcs (for_each_m timerExpiry_body (0, 0));
  diff ← of_outcome (i64 (times.1 - times.2));
  updateTimeSync (if bool_decide (diff ≤ 600) then times.1 else 0).

(** src: systimemgr.cpp:542-549 SysTimeMgr::updateTime *)
Definition SysTimeMgr_updateTime args : M (mgr Src Sync * world) unit :=
  _ ← updateTimeSync 0;
  over_srcs (for_each_m (λ _, _ ← checkTime; mret tt) tt).

(** src: systimemgr.cpp:550-555 SysTimeMgr::ntpFailed *)
Definition ntpFailed args : M (mgr Src Sync * world) unit :=
  _ ← updateTimeSync 0;
  _ ← upd (set_state eSYSMGR_STATE_NTP_FAIL);
  publishStatus ePUBLISH_NTP_FAIL "Poor".

(** src: systimemgr.cpp:556-565 SysTimeMgr::ntpAquired *)
Definition ntpAquired args : M (mgr Src Sync * world) unit :=
  _ ← updateTimeSync 0;
  _ ← upd (set_quality eTIMEQUALILTY_GOOD);
  _ ← upd (set_state eSYSMGR_STATE_NTP_ACQUIRED);
  _ ← upd (set_timersrc "NTP");
  publishStatus ePUBLISH_NTP_SUCCESS "Good".

(** src: systimemgr.cpp:566-573 SysTimeMgr::updateSecureTime *)
Definition updateSecureTime args : M (mgr Src Sync * world) unit :=
  _ ← timerExpiry args;
  _ ← upd (set_state eSYSMGR_STATE_RUNNING);
  _ ← upd (set_quality eTIMEQUALILTY_SECURE);
  publishStatus ePUBLISH_SECURE_TIME_SUCCESS "Secure".

(** src: systimemgr.cpp:574-579 SysTimeMgr::secureTimeAcquired *)
Definition secureTimeAcquired args : M (mgr Src Sync * world) unit :=
  _ ← updateTimeSync 0;
  _ ← upd (set_quality eTIMEQUALILTY_GOOD);
  upd (set_state eSYSMGR_STATE_SECURE_TIME_ACQUIRED).

(** src: systimemgr.cpp:581-589 SysTimeMgr::dttAquired *)
Definition dttAquired args : M (mgr Src Sync * world) unit :=
  _ ← updateTimeSync 0;
  _ ← upd (set_quality eTIMEQUALILTY_GOOD);
  _ ← upd (set_state eSYSMGR_STATE_DTT_ACQUIRED);
  _ ← upd (set_timersrc "DTT");
  publishStatus ePUBLISH_DTT_SUCCESS "Good".

(** src: systimemgr.cpp:911-918 SysTimeMgr::updateClockRealTime
    The loop body, on [(locTime, clock_acquired)]. *)
Definition updateClockRealTime_body (acc : Z * bool) : M (Src * world) (Z * bool) :=
  prov ← gets (λ ow, isclockProvider ow.1);
  acc' ← (if (prov : bool) && negb acc.2 then
            locTime ← getTimeSec; mret (locTime, true)
          else mret acc);
  _ ← checkTime;
  mret acc'.

(** src: systimemgr.cpp:904-934 SysTimeMgr::updateClockRealTime *)
Definition updateClockRealTime args : M (mgr Src Sync * world) unit :=
  acc ← over_srcs (for_each_m updateClockRealTime_body (0, false));
  _ ← when (negb (bool_decide (acc.1 = 0)))
        (_ ← on_snd (sys (ClockSettime acc.1)); mret tt);
  updateTimeSync 0.

(** ** The state machine *)

(** src: systimemgr.cpp:193-193 SysTimeMgr::runStateMachine
    The call through the member pointer. *)
Definition call_memfunc (f : memfunc) args : M (mgr Src Sync * world) unit :=
  match f with
  | timerExpiry_f => timerExpiry args
  | ntpFailed_f => ntpFailed args
  | ntpAquired_f => ntpAquired args
  | dttAquired_f => dttAquired args
  | updateSecureTime_f => updateSecureTime args
  | updateTime_f => SysTimeMgr_updateTime args
  | secureTimeAcquired_f => secureTimeAcquired args
  | updateClockRealTime_f => updateClockRealTime args
  end.

(** src: systimemgr.cpp:185-200 SysTimeMgr::runStateMachine *)
Definition runStateMachine (event : sysTimeMgrEvent) args : M (mgr Src Sync * world) unit :=
  sm ← field stateMachine;
  st ← field m_state;
  match sm !! st ≫= (!!) event with
  | Some f => _ ← upd (set_event event); call_memfunc f args
  | None => mret tt
  end.

(** src: systimemgr.cpp:629-637 SysTimeMgr::sendMessage *)
Definition sendMessage (event : sysTimeMgrEvent) args : M (mgr Src Sync * world) unit :=
  upd (λ m, set_queue (m_queue m ++ [mkSysTimeMsg event args]) m).

(** [stateMachine[s][e] = f]. *)
Definition sm_assign (s : sysTimeMgrState) (e : sysTimeMgrEvent) (f : memfunc)
    (sm : gmap sysTimeMgrState (gmap sysTimeMgrEvent memfunc)) :=
  <[s := <[e := f]> (default ∅ (sm !! s))]> sm.

(** src: systimemgr.cpp:167-181 SysTimeMgr::initialize
    The assignments that fill the state machine. *)
Definition fill_stateMachine (sm : gmap sysTimeMgrState (gmap sysTimeMgrEvent memfunc)) :=
  foldl (λ sm sef, sm_assign sef.1.1 sef.1.2 sef.2 sm) sm
    [(eSYSMGR_STATE_RUNNING, eSYSMGR_EVENT_TIMER_EXPIRY, timerExpiry_f);
     (eSYSMGR_STATE_NTP_WAIT, eSYSMGR_EVENT_TIMER_EXPIRY, ntpFailed_f);
     (eSYSMGR_STATE_NTP_WAIT, eSYSMGR_EVENT_NTP_AVAILABLE, ntpAquired_f);
     (eSYSMGR_STATE_NTP_WAIT, eSYSMGR_EVENT_SECURE_TIME_AVAILABLE, secureTimeAcquired_f);
     (eSYSMGR_STATE_NTP_ACQUIRED, eSYSMGR_EVENT_SECURE_TIME_AVAILABLE, updateSecureTime_f);
     (eSYSMGR_STATE_NTP_ACQUIRED, eSYSMGR_EVENT_TIMER_EXPIRY, updateTime_f);
     (eSYSMGR_STATE_NTP_FAIL, eSYSMGR_EVENT_DTT_TIME_AVAILABLE, dttAquired_f);
     (eSYSMGR_STATE_NTP_FAIL, eSYSMGR_EVENT_TIMER_EXPIRY, updateTime_f);
     (eSYSMGR_STATE_NTP_FAIL, eSYSMGR_EVENT_NTP_AVAILABLE, ntpAquired_f);
     (eSYSMGR_STATE_NTP_FAIL, eSYSMGR_EVENT_SECURE_TIME_AVAILABLE, secureTimeAcquired_f);
     (eSYSMGR_STATE_DTT_ACQUIRED, eSYSMGR_EVENT_TIMER_EXPIRY, updateClockRealTime_f);
     (eSYSMGR_STATE_DTT_ACQUIRED, eSYSMGR_EVENT_SECURE_TIME_AVAILABLE, secureTimeAcquired_f);
     (eSYSMGR_STATE_DTT_ACQUIRED, eSYSMGR_EVENT_NTP_AVAILABLE, ntpAquired_f);
     (eSYSMGR_STATE_SECURE_TIME_ACQUIRED, eSYSMGR_EVENT_NTP_AVAILABLE, updateSecureTime_f);
     (eSYSMGR_STATE_SECURE_TIME_ACQUIRED, eSYSMGR_EVENT_TIMER_EXPIRY, updateTime_f)].

(** ** Initial time *)

(** [(unsigned long long) tv_sec * 1000 + tv_nsec / 1000000]. *)
Definition uptime_ms (ts : Z * Z) : Z := Z.land (ts.1 * 1000 + Z.quot ts.2 1000000) (Z.ones 64).

(** src: systimemgr.cpp:681-705 SysTimeMgr::setInitialTime
    Setting the clock and what is reported about it. *)
Definition set_clock (locTime : Z) : M world unit :=
  ok ← sys (ClockSettime locTime);
  if (ok : bool) then
    _ ← when (negb MILESTONE_SUPPORT_DISABLED) (sys (Milestone "SYSTEM_TIME_SET"));
    up ← sys ClockGettime;
    match up with
    | Some ts =>
        when T2_EVENT_ENABLED
          (sys (T2Val "SYST_INFO_SETSYSTIME_split" (snprintf_s 32 (to_string_ll (uptime_ms ts)))))
    | None => mret tt
    end
  else when T2_EVENT_ENABLED (sys (T2Count "SYST_ERROR_SYSTIME_FAIL" 1)).

(** src: systimemgr.cpp:639-707 SysTimeMgr::setInitialTime *)
Definition setInitialTime : M (mgr Src Sync * world) unit :=
  locTime ← over_syncs (for_each_m (λ _, getTime) 0);
  _ ← on_snd (truncate_file "/tmp/systimeset");
  if bool_decide (locTime = 0) then mret tt
  else
    _ ← upd (set_quality eTIMEQUALILTY_POOR);
    ts ← on_snd (sys ClockGettime);
    ahead ← match ts with
            | Some (s, ns) =>
                currenttime ← on_snd (chrono_to_time_t s ns);
                mret (bool_decide (currenttime > locTime))
            | None => mret false
            end;
    if (ahead : bool) then publishStatus ePUBLISH_TIME_INITIAL "Poor"
    else
      _ ← on_snd (set_clock locTime);
      publishStatus ePUBLISH_TIME_INITIAL "Poor".

(** ** Deep sleep *)

(** src: systimemgr.cpp:824-857 SysTimeMgr::deepsleepoff
    The block under [g_state_mutex]. *)
Definition deepsleepoff_locked : M (mgr Src Sync * world) unit :=
  q ← field m_timequality;
  _ ← when (bool_decide (q = eTIMEQUALILTY_SECURE))
        (_ ← upd (set_quality eTIMEQUALILTY_GOOD);
         upd (set_state eSYSMGR_STATE_NTP_ACQUIRED));
  _ ← upd (set_timersrc "Last Known");
  q ← field m_timequality;
  publishStatus ePUBLISH_DEEP_SLEEP_ON (quality_label q).

(** src: systimemgr.cpp:860-895 SysTimeMgr::deepsleepoff
    Restarting the time synchronisation of the platform. *)
Definition deepsleepoff_resync : M world unit :=
  ret ← sys (SecureSystem "/bin/systemctl is-active --quiet systemd-timesyncd.service");
  if bool_decide (ret = 0) then
    _ ← sys (SecureSystem "/bin/systemctl reset-failed systemd-timesyncd.service");
    _ ← sys (SecureSystem "/bin/systemctl restart systemd-timesyncd.service");
    mret tt
  else
    ret ← sys (SecureSystem "/bin/systemctl is-active --quiet chronyd.service");
    if bool_decide (ret = 0) then
      _ ← sys (ChronyBurst 4 6);
      _ ← sys (ChronyWaitsync 20 1);
      _ ← sys ChronyMakestep;
      mret tt
    else mret tt.

(** src: systimemgr.cpp:817-896 SysTimeMgr::deepsleepoff *)
Definition deepsleepoff : M (mgr Src Sync * world) unit :=
  _ ← deepsleepoff_locked;
  on_snd deepsleepoff_resync.

(** src: systimemgr.cpp:898-902 SysTimeMgr::deepsleepon *)
Definition deepsleepon : M (mgr Src Sync * world) unit := mret tt.

(** src: systimemgr.cpp:798-816 SysTimeMgr::powerhandler *)
Definition powerhandler (message : string) : M (mgr Src Sync * world) Z :=
  _ ← when (bool_decide (message = "DEEP_SLEEP_ON")) deepsleepon;
  _ ← when (bool_decide (message = "DEEP_SLEEP_OFF")) deepsleepoff;
  mret 1.
End operations.
