(* ===== verification/MgrSpec.v ===== *)
(** * MgrSpec: the contract of the SysTimeMgr object and its refinement

    The abstract status machine ([spec_step], [spec_wake]) that the daemon
    promises to its clients, and the proof that the operations of SysTimeMgr
    implement it, against the contracts of the time sources and syncs only. *)

From S2P Require Import Prelude CString Platform Interfaces PubSub SysTimeMgr.

(** ** The abstract machine *)

(** What a client sees of the daemon. *)
Record status := Status {
  s_state : sysTimeMgrState;
  s_quality : qualityOfTime;
  s_timersrc : string
}.

(** The notification of a transition, if any: its event and its text. *)
Definition notice : Type := option (publishEvent * string).

(** The transition table of the daemon, by state and event. *)
Definition spec_step (s : status) (e : sysTimeMgrEvent) : status * notice :=
  match s_state s, e with
  | eSYSMGR_STATE_NTP_WAIT, eSYSMGR_EVENT_TIMER_EXPIRY =>
      (Status eSYSMGR_STATE_NTP_FAIL (s_quality s) (s_timersrc s), Some (ePUBLISH_NTP_FAIL, "Poor"))
  | (eSYSMGR_STATE_NTP_WAIT | eSYSMGR_STATE_NTP_FAIL | eSYSMGR_STATE_DTT_ACQUIRED),
    eSYSMGR_EVENT_NTP_AVAILABLE =>
      (Status eSYSMGR_STATE_NTP_ACQUIRED eTIMEQUALILTY_GOOD "NTP", Some (ePUBLISH_NTP_SUCCESS, "Good"))
  | (eSYSMGR_STATE_NTP_WAIT | eSYSMGR_STATE_NTP_FAIL | eSYSMGR_STATE_DTT_ACQUIRED),
    eSYSMGR_EVENT_SECURE_TIME_AVAILABLE =>
      (Status eSYSMGR_STATE_SECURE_TIME_ACQUIRED eTIMEQUALILTY_GOOD (s_timersrc s), None)
  | eSYSMGR_STATE_NTP_FAIL, eSYSMGR_EVENT_DTT_TIME_AVAILABLE =>
      (Status eSYSMGR_STATE_DTT_ACQUIRED eTIMEQUALILTY_GOOD "DTT", Some (ePUBLISH_DTT_SUCCESS, "Good"))
  | eSYSMGR_STATE_NTP_ACQUIRED, eSYSMGR_EVENT_SECURE_TIME_AVAILABLE
  | eSYSMGR_STATE_SECURE_TIME_ACQUIRED, eSYSMGR_EVENT_NTP_AVAILABLE =>
      (Status eSYSMGR_STATE_RUNNING eTIMEQUALILTY_SECURE (s_timersrc s),
       Some (ePUBLISH_SECURE_TIME_SUCCESS, "Secure"))
  | _, _ => (s, None)
  end.

(** Waking from deep sleep. *)
Definition spec_wake (s : status) : status * notice :=
  let s' := match s_quality s with
            | eTIMEQUALILTY_SECURE =>
                Status eSYSMGR_STATE_NTP_ACQUIRED eTIMEQUALILTY_GOOD "Last Known"
            | q => Status (s_state s) q "Last Known"
            end in
  (s', Some (ePUBLISH_DEEP_SLEEP_ON, quality_label (s_quality s'))).

(** The only transition on which the daemon may set the system clock. *)
Definition may_set_clock (s : status) (e : sysTimeMgrEvent) : bool :=
  bool_decide (s_state s = eSYSMGR_STATE_DTT_ACQUIRED) && bool_decide (e = eSYSMGR_EVENT_TIMER_EXPIRY).

(** The message a notice becomes on the bus. *)
Definition status_msg (s : status) (ev : publishEvent) (label : string) (now : Z) : TimerMsg := {|
  msg_event := publishEvent_code ev;
  msg_quality := qualityOfTime_code (s_quality s);
  msg_timerSrc := snprintf_s cTIMER_STATUS_MESSAGE_LENGTH (s_timersrc s);
  msg_currentTime := snprintf_s cTIMER_STATUS_MESSAGE_LENGTH (to_string_ll now);
  msg_message := snprintf_s cTIMER_STATUS_MESSAGE_LENGTH label
|}.

(** Broadcasts of a notice by a publisher. *)
Definition notice_msgs (p : option IPublish) (s : status) (n : notice) (now : Z) : list TimerMsg :=
  match p, n with
  | Some (IarmPublish _), Some (ev, label) => [status_msg s ev label now]
  | _, _ => []
  end.

(** [w'] follows [w] with these broadcasts and clock settings, most recent first. *)
Definition effect (bs : list TimerMsg) (ss : list Z) (w w' : world) : Prop :=
  broadcasts (w_trace w') = bs ++ broadcasts (w_trace w) ∧
  settimes (w_trace w') = ss ++ settimes (w_trace w).

Lemma effect_quiet w w' : quiet w w' → effect [] [] w w'.
Proof. intros Hq. split; simpl; [by apply broadcasts_quiet|by apply settimes_quiet]. Qed.

Lemma effect_trans bs1 ss1 bs2 ss2 w1 w2 w3 :
  effect bs1 ss1 w1 w2 → effect bs2 ss2 w2 w3 → effect (bs2 ++ bs1) (ss2 ++ ss1) w1 w3.
Proof. intros [H1 H2] [H3 H4]. split; rewrite ?H3, ?H4, ?H1, ?H2; by rewrite app_assoc. Qed.

Lemma effect_quiet_l bs ss w1 w2 w3 : quiet w1 w2 → effect bs ss w2 w3 → effect bs ss w1 w3.
Proof.
  intros Hq H. pose proof (effect_trans _ _ _ _ _ _ _ (effect_quiet _ _ Hq) H) as H'.
  by rewrite !app_nil_r in H'.
Qed.

Lemma effect_quiet_r bs ss w1 w2 w3 : effect bs ss w1 w2 → quiet w2 w3 → effect bs ss w1 w3.
Proof. intros H Hq. exact (effect_trans _ _ _ _ _ _ _ H (effect_quiet _ _ Hq)). Qed.

(** ** Views of the object *)

Section views.
Context {Src Sync : Type}.

Definition status_of (m : mgr Src Sync) : status := Status (m_state m) (m_timequality m) (m_timersrc m).

(** The members no handler changes. *)
Definition config (m : mgr Src Sync) :=
  (stateMachine m, m_pathEventMap m, m_timerInterval m, m_publish m, m_subscriber_ptr m,
   m_tmrsubscriber_ptr m, m_cfgfile m, m_chronyRfcEnabled m, m_queue m).
End views.

(** ** Specifications of the operations *)

(** Every pointer of a vector is an object with fuel [n]. *)
Definition all_ok {T} (F : nat → T → Prop) (n : nat) (l : list (option T)) : Prop :=
  Forall (λ p, ∃ o, p = Some o ∧ F n o) l.

Section specs.
Context {E : Env} {B : Build} (t : bool) (HE : t = true → SaneEnv E).
Context {Src Sync : Type} `{ISrc : ITimeSrc Src} `{ISync : ITimeSync Sync}.
Context {HSrc : ITimeSrcSpec t Src} {HSync : ITimeSyncSpec t Sync}.
Implicit Types (m : mgr Src Sync) (w : world) (args : option TimerMsg).

(** [n] more events are certain to be processed: no null pointer in the vectors,
    objects with enough fuel, a publisher. *)
Definition healthy (n : nat) m : Prop :=
  all_ok src_fuel n (m_timerSrc m) ∧ all_ok sync_fuel n (m_timerSync m) ∧ is_Some (m_publish m).

(** The loop rule for a method that makes quiet calls and uses fuel. *)
Lemma wp_loop {T A} (F : nat → T → Prop) (body : A → M (T * world) A) (J : A → Prop) k n acc
    (l : list (option T)) w :
  J acc → (t = true → all_ok F (k + n) l) →
  (∀ a o w1, J a → (t = true → F (k + n)%nat o) →
     wp t (body a) (λ a' ow, J a' ∧ quiet w1 ow.2 ∧ (t = true → F n ow.1)) (o, w1)) →
  wp t (for_each_m body acc)
    (λ a lw, J a ∧ quiet w lw.2 ∧ length lw.1 = length l ∧ (t = true → all_ok F n lw.1)) (l, w).
Proof.
  clear HE HSrc HSync. intros HJ Hall Hbody.
  eapply wp_mono;
    [apply (wp_for_each t body (λ o, t = true → F (k + n)%nat o) (λ o, t = true → F n o)
       (λ a w', J a ∧ quiet w w'))|].
  - done.
  - intros Ht. eapply Forall_impl; [exact (Hall Ht)|]. intros p (o & -> & _). eauto.
  - destruct t; [|by apply Forall_true; intros].
    eapply Forall_impl; [exact (Hall eq_refl)|]. by intros p (o & -> & Ho) ? [= <-] _.
  - intros a o w1 [HJa Hq] Ho. eapply wp_mono; [by apply Hbody|].
    intros a' ow (HJ' & Hq' & HF). split; [|done]. split; [done|]. by etrans.
  - intros a [l' w'] ([HJa Hq] & Hlen & Hsome & HF). simpl in *. do 3 (split; [done|]).
    intros Ht. specialize (Hsome Ht). clear -Ht Hsome HF.
    induction Hsome as [|p l' [o ->] _ IH]; constructor.
    + exists o. split; [done|]. apply Forall_cons_1 in HF as [HF _]. by apply HF.
    + apply IH. by apply Forall_cons_1 in HF as [_ HF].
Qed.

Lemma wp_over_syncs {A} (l : M (list (option Sync) * world) A) (Q : A → mgr Src Sync * world → Prop) m w :
  wp t l (λ a lw, Q a (set_syncs lw.1 m, lw.2)) (m_timerSync m, w) → wp t (over_syncs l) Q (m, w).
Proof. unfold wp, over_syncs. simpl. by destruct (l (m_timerSync m, w)) as [[a|e|] [l' w']]. Qed.

Lemma wp_over_srcs {A} (l : M (list (option Src) * world) A) (Q : A → mgr Src Sync * world → Prop) m w :
  wp t l (λ a lw, Q a (set_srcs lw.1 m, lw.2)) (m_timerSrc m, w) → wp t (over_srcs l) Q (m, w).
Proof. unfold wp, over_srcs. simpl. by destruct (l (m_timerSrc m, w)) as [[a|e|] [l' w']]. Qed.

Lemma wp_updateTimeSync n z (Q : unit → mgr Src Sync * world → Prop) m w :
  (t = true → all_ok sync_fuel (S n) (m_timerSync m) ∧ 0 ≤ z ≤ sane_max) →
  (∀ l w', quiet w w' → length l = length (m_timerSync m) → (t = true → all_ok sync_fuel n l) →
     Q tt (set_syncs l m, w')) →
  wp t (updateTimeSync z) Q (m, w).
Proof.
  intros Hpre HQ. unfold updateTimeSync. apply wp_over_syncs.
  eapply wp_mono; [apply (wp_loop sync_fuel _ (λ _, True) 1 n)|].
  - done.
  - intros Ht. by destruct (Hpre Ht).
  - intros [] o w1 _ Ho. eapply wp_mono; [apply (updateTime_spec n)|].
    + intros Ht. destruct (Hpre Ht). auto.
    + simpl. auto.
  - intros [] lw (_ & Hq & Hlen & Hok). by apply HQ.
Qed.

Lemma wp_publishStatus ev label (Q : unit → mgr Src Sync * world → Prop) m w :
  (t = true → is_Some (m_publish m)) →
  (∀ now w', (t = true → 0 ≤ now ≤ sane_max) →
     effect (notice_msgs (m_publish m) (status_of m) (Some (ev, label)) now) [] w w' → Q tt (m, w')) →
  wp t (publishStatus ev label) Q (m, w).
Proof.
  intros Hp HQ. unfold publishStatus.
  apply wp_bind, wp_gets, wp_bind, wp_gets, wp_bind, wp_on_snd, (wp_realtime t HE). simpl.
  intros now w1 Hq1 _ Hnow _. apply wp_bind, wp_on_snd, wp_sys. simpl.
  set (mono := answer _ TimeNull). set (w2 := log _ w1).
  assert (quiet w w2) as Hq2 by (etrans; [exact Hq1|]; unfold w2; eauto with quiet).
  apply wp_bind, wp_on_snd, (wp_strftime t HE).
  { intros Ht. specialize (Hnow Ht). unfold sane_max, sane_span in *. lia. }
  intros _. simpl. apply wp_bind, wp_on_snd, (wp_strftime t HE).
  { intros Ht. destruct (HE Ht) as [_ Htn _ _ _]. specialize (Htn (w_trace w1)). fold mono in Htn.
    unfold sane_max, sane_span in *. lia. }
  intros _. simpl. apply wp_bind, wp_gets, wp_bind, wp_deref; [exact Hp|]. simpl.
  intros p Hpub. apply wp_on_snd. simpl. destruct p as [n|n]; simpl.
  - unfold TestPublish_publish. apply wp_sys_unit. eapply (HQ now); [done|]. rewrite Hpub.
    apply effect_quiet. eauto with quiet.
  - unfold IarmPublish_publish. apply wp_bind, wp_sys, wp_ret. eapply (HQ now); [done|]. rewrite Hpub.
    eapply effect_quiet_l; [exact Hq2|]. done.
Qed.

Lemma wp_timerExpiry_times n (Q : Z * Z → mgr Src Sync * world → Prop) m w :
  (t = true → all_ok src_fuel (S n) (m_timerSrc m)) →
  (∀ ref file l w', quiet w w' → length l = length (m_timerSrc m) →
     (t = true → all_ok src_fuel n l ∧ 0 ≤ ref ≤ sane_max ∧ 0 ≤ file ≤ sane_max) →
     Q (ref, file) (set_srcs l m, w')) →
  wp t (over_srcs (for_each_m timerExpiry_body (0, 0))) Q (m, w).
Proof.
  intros Hpre HQ. apply wp_over_srcs.
  eapply wp_mono; [apply (wp_loop src_fuel timerExpiry_body
    (λ a, t = true → 0 ≤ a.1 ≤ sane_max ∧ 0 ≤ a.2 ≤ sane_max) 1 n)|].
  - unfold sane_max. simpl. lia.
  - exact Hpre.
  - intros [r f] o w1 Hacc Ho. unfold timerExpiry_body. apply wp_bind, wp_gets. simpl in *.
    mstep; apply wp_bind; (eapply wp_mono; [by apply (getTimeSec_spec n)|]);
      intros z ow [Hq Hz]; apply wp_ret; simpl; (split; [|split; [done|intros Ht; by destruct (Hz Ht)]]);
      intros Ht; destruct (Hacc Ht), (Hz Ht); split; try done. by case_bool_decide.
  - intros [r f] lw (Hacc & Hq & Hlen & Hok). apply HQ; [done|done|].
    intros Ht. split; [by apply Hok|by apply Hacc].
Qed.

Lemma wp_checkTimes {Q : unit → mgr Src Sync * world → Prop} n m w :
  (t = true → all_ok src_fuel (S n) (m_timerSrc m)) →
  (∀ l w', quiet w w' → length l = length (m_timerSrc m) →
     (t = true → all_ok src_fuel n l) → Q tt (set_srcs l m, w')) →
  wp t (over_srcs (for_each_m (λ _ : unit, _ ← checkTime; mret tt) tt)) Q (m, w).
Proof.
  intros Hpre HQ. apply wp_over_srcs.
  eapply wp_mono; [apply (wp_loop src_fuel _ (λ _, True) 1 n)|]; [done|exact Hpre| |].
  - intros [] o w1 _ Ho. apply wp_bind. eapply wp_mono; [by apply (checkTime_spec n)|].
    intros b ow [Hq Hf]. by apply wp_ret.
  - intros [] lw (_ & Hq & Hlen & Hok). by apply HQ.
Qed.

Lemma wp_updateClock_times n (Q : Z * bool → mgr Src Sync * world → Prop) m w :
  (t = true → all_ok src_fuel (S (S n)) (m_timerSrc m)) →
  (∀ a l w', quiet w w' → length l = length (m_timerSrc m) →
     (t = true → all_ok src_fuel n l) → Q a (set_srcs l m, w')) →
  wp t (over_srcs (for_each_m updateClockRealTime_body (0, false))) Q (m, w).
Proof.
  intros Hpre HQ. apply wp_over_srcs.
  eapply wp_mono; [apply (wp_loop src_fuel updateClockRealTime_body (λ _, True) 2 n)|]; [done|exact Hpre| |].
  - intros a o w1 _ Ho. unfold updateClockRealTime_body. apply wp_bind, wp_gets, wp_bind. simpl.
    assert (∀ (a' : Z * bool) (o' : Src) w2, quiet w1 w2 → (t = true → src_fuel (S n) o') →
      wp t (_ ← checkTime; mret a') (λ _ ow, True ∧ quiet w1 ow.2 ∧ (t = true → src_fuel n ow.1)) (o', w2))
      as Hcheck.
    { intros a' o' w2 Hq Hf. apply wp_bind. eapply wp_mono; [by apply (checkTime_spec n)|].
      intros b ow [Hq' Hf']. apply wp_ret. split; [done|]. split; [by etrans|done]. }
    mstep.
    + apply wp_bind. eapply wp_mono; [by apply (getTimeSec_spec (S n))|].
      intros z [o' w2] [Hq Hz]. apply wp_ret. apply Hcheck; [done|]. intros Ht. by destruct (Hz Ht).
    + apply wp_ret, Hcheck; [done|]. intros Ht. eapply src_fuel_le; [|by apply Ho]. lia.
  - intros a lw (_ & Hq & Hlen & Hok). by apply HQ.
Qed.

(** ** Handlers *)

Lemma all_ok_le {T} (F : nat → T → Prop) (HF : ∀ i j o, (i ≤ j)%nat → F j o → F i o) i j l :
  (i ≤ j)%nat → all_ok F j l → all_ok F i l.
Proof.
  intros Hle H. eapply Forall_impl; [exact H|]. intros p (o & -> & Ho). eauto.
Qed.

Lemma srcs_le i j (l : list (option Src)) : (i ≤ j)%nat → all_ok src_fuel j l → all_ok src_fuel i l.
Proof. apply all_ok_le. intros. by eapply src_fuel_le. Qed.

Lemma syncs_le i j (l : list (option Sync)) : (i ≤ j)%nat → all_ok sync_fuel j l → all_ok sync_fuel i l.
Proof. apply all_ok_le. intros. by eapply sync_fuel_le. Qed.

(** What a handler leaves: the status [s'] and last event [e'], the other members
    as they were, the broadcast of the notice, one clock setting at most and only if [clk], and
    in the total reading an object that is good for [n] more events. *)
Definition post (n : nat) m w (s' : status) (e' : sysTimeMgrEvent) (nt : notice) (clk : bool)
    (_ : unit) (mw : mgr Src Sync * world) : Prop :=
  status_of mw.1 = s' ∧ m_event mw.1 = e' ∧ config mw.1 = config m ∧
  (∃ now ss, effect (notice_msgs (m_publish m) s' nt now) ss w mw.2 ∧
     (length ss ≤ if clk then 1 else 0)%nat) ∧
  (t = true → healthy n mw.1).

(** One event may use two units of the fuel of the sources. *)
Definition ready (n : nat) m : Prop := t = true → healthy (2 + n) m.

Lemma zero_ok : 0 ≤ 0 ≤ sane_max.
Proof. unfold sane_max. lia. Qed.

(** The common beginning of most handlers. *)
Lemma wp_updateTimeSync0 n (Q : unit → mgr Src Sync * world → Prop) m w :
  ready n m →
  (∀ l w', quiet w w' → (t = true → healthy (1 + n) (set_syncs l m)) → Q tt (set_syncs l m, w')) →
  wp t (updateTimeSync 0) Q (m, w).
Proof.
  intros Hok HQ. apply (wp_updateTimeSync (1 + n)).
  - intros Ht. destruct (Hok Ht) as (_ & ? & _). split; [done|apply zero_ok].
  - intros l w' Hq _ Hl. apply HQ; [done|]. intros Ht. destruct (Hok Ht) as (Hs & _ & Hp).
    split; [|split; [by apply Hl|done]]. eapply srcs_le; [|exact Hs]. lia.
Qed.

Lemma healthy_le i j m : (i ≤ j)%nat → healthy j m → healthy i m.
Proof.
  intros Hle (H1 & H2 & H3). split; [by eapply srcs_le|]. split; [by eapply syncs_le|done].
Qed.

(** The common end of the handlers that publish: [m'] is the object they leave. *)
Lemma wp_publish_post n ev label m m' w w1 :
  quiet w w1 → config m' = config m → (t = true → healthy (1 + n) m') →
  wp t (publishStatus ev label) (post n m w (status_of m') (m_event m') (Some (ev, label)) false) (m', w1).
Proof.
  intros Hq Hc Hok. apply wp_publishStatus.
  - intros Ht. by destruct (Hok Ht) as (_ & _ & ?).
  - intros now w2 _ Heff. do 3 (split; [done|]). split.
    + exists now, []. split; [|done]. eapply effect_quiet_l; [exact Hq|].
      by replace (m_publish m) with (m_publish m') by (injection Hc; congruence).
    + intros Ht. eapply healthy_le; [|exact (Hok Ht)]. lia.
Qed.

Lemma wp_ntpFailed n args m w :
  ready n m →
  wp t (ntpFailed args) (post n m w (Status eSYSMGR_STATE_NTP_FAIL (m_timequality m) (m_timersrc m))
    (m_event m) (Some (ePUBLISH_NTP_FAIL, "Poor")) false) (m, w).
Proof.
  intros Hok. unfold ntpFailed. apply wp_bind, (wp_updateTimeSync0 n); [done|].
  intros l w1 Hq Hok1. apply wp_bind, wp_modify. simpl.
  by apply (wp_publish_post n _ _ m (set_state eSYSMGR_STATE_NTP_FAIL (set_syncs l m))).
Qed.

Lemma wp_ntpAquired n args m w :
  ready n m →
  wp t (ntpAquired args) (post n m w (Status eSYSMGR_STATE_NTP_ACQUIRED eTIMEQUALILTY_GOOD "NTP")
    (m_event m) (Some (ePUBLISH_NTP_SUCCESS, "Good")) false) (m, w).
Proof.
  intros Hok. unfold ntpAquired. apply wp_bind, (wp_updateTimeSync0 n); [done|].
  intros l w1 Hq Hok1. do 3 (apply wp_bind, wp_modify). simpl.
  by apply (wp_publish_post n _ _ m (set_timersrc "NTP" (set_state eSYSMGR_STATE_NTP_ACQUIRED
    (set_quality eTIMEQUALILTY_GOOD (set_syncs l m))))).
Qed.

Lemma wp_dttAquired n args m w :
  ready n m →
  wp t (dttAquired args) (post n m w (Status eSYSMGR_STATE_DTT_ACQUIRED eTIMEQUALILTY_GOOD "DTT")
    (m_event m) (Some (ePUBLISH_DTT_SUCCESS, "Good")) false) (m, w).
Proof.
  intros Hok. unfold dttAquired. apply wp_bind, (wp_updateTimeSync0 n); [done|].
  intros l w1 Hq Hok1. do 3 (apply wp_bind, wp_modify). simpl.
  by apply (wp_publish_post n _ _ m (set_timersrc "DTT" (set_state eSYSMGR_STATE_DTT_ACQUIRED
    (set_quality eTIMEQUALILTY_GOOD (set_syncs l m))))).
Qed.

(** A handler that stays silent. *)
Lemma post_silent n m m' w w' clk :
  quiet w w' → config m' = config m → (t = true → healthy n m') →
  post n m w (status_of m') (m_event m') None clk tt (m', w').
Proof.
  intros Hq Hc Hok. do 3 (split; [done|]). split; [|done]. exists 0, [].
  assert (notice_msgs (m_publish m) (status_of m') None 0 = []) as -> by (by destruct (m_publish m) as [[]|]).
  split; [by apply effect_quiet|simpl; lia].
Qed.

Lemma wp_secureTimeAcquired n args m w :
  ready n m →
  wp t (secureTimeAcquired args) (post n m w
    (Status eSYSMGR_STATE_SECURE_TIME_ACQUIRED eTIMEQUALILTY_GOOD (m_timersrc m)) (m_event m) None false) (m, w).
Proof.
  intros Hok. unfold secureTimeAcquired. apply wp_bind, (wp_updateTimeSync0 n); [done|].
  intros l w1 Hq Hok1. apply wp_bind, wp_modify, wp_modify. simpl.
  apply (post_silent n m (set_state eSYSMGR_STATE_SECURE_TIME_ACQUIRED
    (set_quality eTIMEQUALILTY_GOOD (set_syncs l m)))); [done|done|].
  intros Ht. eapply healthy_le; [|exact (Hok1 Ht)]. lia.
Qed.

Lemma wp_SysTimeMgr_updateTime n args m w :
  ready n m →
  wp t (SysTimeMgr_updateTime args) (post n m w (status_of m) (m_event m) None false) (m, w).
Proof.
  intros Hok. unfold SysTimeMgr_updateTime. apply wp_bind, (wp_updateTimeSync0 n); [done|].
  intros l w1 Hq Hok1. apply (wp_checkTimes n).
  - intros Ht. by destruct (Hok1 Ht).
  - intros l2 w2 Hq2 _ Hl2. apply (post_silent n m (set_srcs l2 (set_syncs l m))); [by etrans|done|].
    intros Ht. destruct (Hok1 Ht) as (_ & Hs & Hp). split; [by apply Hl2|].
    split; [|done]. eapply syncs_le; [|exact Hs]. lia.
Qed.

Lemma wp_timerExpiry n args m w :
  ready n m →
  wp t (timerExpiry args) (λ _ mw, quiet w mw.2 ∧ (t = true → healthy (1 + n) mw.1) ∧
    ∃ l1 l2, mw.1 = set_syncs l2 (set_srcs l1 m)) (m, w).
Proof.
  intros Hok. unfold timerExpiry. apply wp_bind, (wp_timerExpiry_times (1 + n)).
  { intros Ht. by destruct (Hok Ht). }
  intros ref file l1 w1 Hq1 _ Hl1. simpl. apply wp_bind, wp_of_outcome.
  { intros Ht. destruct (Hl1 Ht) as (_ & ? & ?). eexists. apply i64_ret.
    unfold i64_min, i64_max, sane_max in *. lia. }
  intros diff _. apply (wp_updateTimeSync (1 + n)).
  - intros Ht. destruct (Hl1 Ht) as (_ & Hr & _), (Hok Ht) as (_ & Hs & _). split; [done|].
    case_bool_decide; [done|apply zero_ok].
  - intros l2 w2 Hq2 _ Hl2. simpl. split; [by etrans|]. split; [|by exists l1, l2].
    intros Ht. destruct (Hl1 Ht) as (Hs & _), (Hok Ht) as (_ & _ & Hp). split; [done|]. split; [by apply Hl2|done].
Qed.

Lemma wp_timerExpiry_post n args m w :
  ready n m →
  wp t (timerExpiry args) (post n m w (status_of m) (m_event m) None false) (m, w).
Proof.
  intros Hok. eapply wp_mono; [by apply (wp_timerExpiry n)|].
  intros [] [m' w'] (Hq & Hok' & l1 & l2 & Hm). simpl in *. subst m'.
  apply (post_silent n m (set_syncs l2 (set_srcs l1 m))); [done|done|].
  intros Ht. eapply healthy_le; [|exact (Hok' Ht)]. lia.
Qed.

Lemma wp_updateSecureTime n args m w :
  ready n m →
  wp t (updateSecureTime args) (post n m w (Status eSYSMGR_STATE_RUNNING eTIMEQUALILTY_SECURE (m_timersrc m))
    (m_event m) (Some (ePUBLISH_SECURE_TIME_SUCCESS, "Secure")) false) (m, w).
Proof.
  intros Hok. unfold updateSecureTime. apply wp_bind. eapply wp_mono; [by apply (wp_timerExpiry n)|].
  intros [] [m' w1] (Hq & Hok' & l1 & l2 & Hm). simpl in *. subst m'.
  apply wp_bind, wp_modify, wp_bind, wp_modify. simpl.
  by apply (wp_publish_post n _ _ m (set_quality eTIMEQUALILTY_SECURE (set_state eSYSMGR_STATE_RUNNING
    (set_syncs l2 (set_srcs l1 m))))).
Qed.

Lemma wp_updateClockRealTime n args m w :
  ready n m →
  wp t (updateClockRealTime args) (post n m w (status_of m) (m_event m) None true) (m, w).
Proof.
  intros Hok. unfold updateClockRealTime. apply wp_bind, (wp_updateClock_times n).
  { intros Ht. by destruct (Hok Ht). }
  intros a l1 w1 Hq1 _ Hl1.
  assert (∀ w2 ss, effect [] ss w w2 → (length ss ≤ 1)%nat → wp t (updateTimeSync 0)
    (post n m w (status_of m) (m_event m) None true) (set_srcs l1 m, w2)) as Hrest.
  { intros w2 ss Heff Hlen. apply (wp_updateTimeSync n).
    - intros Ht. destruct (Hok Ht) as (_ & Hs & _). split; [|apply zero_ok].
      simpl. eapply syncs_le; [|exact Hs]. lia.
    - intros l2 w3 Hq3 _ Hl2. do 3 (split; [done|]). split.
      + exists 0, ss. split; [|done]. eapply effect_quiet_r; [|exact Hq3].
        by destruct (m_publish m) as [[]|].
      + intros Ht. destruct (Hok Ht) as (_ & _ & Hp). split; [by apply Hl1|]. split; [by apply Hl2|done]. }
  apply wp_bind, wp_when; intros _.
  - apply wp_bind, wp_on_snd, wp_sys, wp_ret. apply (Hrest _ [a.1]); [|done]. simpl.
    eapply effect_quiet_l; [exact Hq1|]. done.
  - apply (Hrest _ []); [by apply effect_quiet|simpl; lia].
Qed.

(** ** The whole state machine *)

(** The filled table, read as a function. *)
Definition table (s : sysTimeMgrState) (e : sysTimeMgrEvent) : option memfunc :=
  match s, e with
  | eSYSMGR_STATE_NTP_WAIT, eSYSMGR_EVENT_TIMER_EXPIRY => Some ntpFailed_f
  | (eSYSMGR_STATE_NTP_WAIT | eSYSMGR_STATE_NTP_FAIL | eSYSMGR_STATE_DTT_ACQUIRED),
    eSYSMGR_EVENT_NTP_AVAILABLE => Some ntpAquired_f
  | (eSYSMGR_STATE_NTP_WAIT | eSYSMGR_STATE_NTP_FAIL | eSYSMGR_STATE_DTT_ACQUIRED),
    eSYSMGR_EVENT_SECURE_TIME_AVAILABLE => Some secureTimeAcquired_f
  | eSYSMGR_STATE_NTP_FAIL, eSYSMGR_EVENT_DTT_TIME_AVAILABLE => Some dttAquired_f
  | (eSYSMGR_STATE_NTP_FAIL | eSYSMGR_STATE_NTP_ACQUIRED | eSYSMGR_STATE_SECURE_TIME_ACQUIRED),
    eSYSMGR_EVENT_TIMER_EXPIRY => Some updateTime_f
  | eSYSMGR_STATE_NTP_ACQUIRED, eSYSMGR_EVENT_SECURE_TIME_AVAILABLE
  | eSYSMGR_STATE_SECURE_TIME_ACQUIRED, eSYSMGR_EVENT_NTP_AVAILABLE => Some updateSecureTime_f
  | eSYSMGR_STATE_DTT_ACQUIRED, eSYSMGR_EVENT_TIMER_EXPIRY => Some updateClockRealTime_f
  | eSYSMGR_STATE_RUNNING, eSYSMGR_EVENT_TIMER_EXPIRY => Some timerExpiry_f
  | _, _ => None
  end.

Lemma table_filled s e : fill_stateMachine ∅ !! s ≫= (!!) e = table s e.
Proof. destruct s, e; vm_compute; reflexivity. Qed.

Definition handled (s : sysTimeMgrState) (e : sysTimeMgrEvent) : bool :=
  match table s e with Some _ => true | None => false end.

Lemma wp_runStateMachine n e args m w :
  stateMachine m = fill_stateMachine ∅ → ready n m →
  wp t (runStateMachine e args)
    (post n m w (fst (spec_step (status_of m) e)) (if handled (m_state m) e then e else m_event m)
       (snd (spec_step (status_of m) e)) (may_set_clock (status_of m) e)) (m, w).
Proof.
  intros Hsm Hok. unfold runStateMachine. apply wp_bind, wp_gets, wp_bind, wp_gets. simpl.
  rewrite Hsm, table_filled. unfold handled.
  assert (ready n (set_event e m)) as Hok' by exact Hok.
  destruct (table (m_state m) e) as [f|] eqn:Hf.
  - apply wp_bind, wp_modify. simpl. unfold call_memfunc.
    destruct (m_state m) eqn:Hst, e; try discriminate Hf; injection Hf as <-;
      unfold spec_step, may_set_clock; cbn [s_state status_of]; rewrite ?Hst; cbn [fst snd].
    all: first
      [ exact (wp_ntpFailed n args (set_event _ m) w Hok')
      | exact (wp_ntpAquired n args (set_event _ m) w Hok')
      | exact (wp_dttAquired n args (set_event _ m) w Hok')
      | exact (wp_secureTimeAcquired n args (set_event _ m) w Hok')
      | exact (wp_updateSecureTime n args (set_event _ m) w Hok')
      | exact (wp_SysTimeMgr_updateTime n args (set_event _ m) w Hok')
      | exact (wp_timerExpiry_post n args (set_event _ m) w Hok')
      | exact (wp_updateClockRealTime n args (set_event _ m) w Hok') ].
  - apply wp_ret. assert (spec_step (status_of m) e = (status_of m, None)) as ->.
    { unfold spec_step. simpl. destruct (m_state m), e; done. }
    apply post_silent; [done|done|]. intros Ht. eapply healthy_le; [|exact (Hok Ht)]. lia.
Qed.

(** ** Deep sleep and queries *)

Lemma wp_deepsleepoff_locked n m w :
  (t = true → healthy n m) →
  wp t deepsleepoff_locked
    (post n m w (fst (spec_wake (status_of m))) (m_event m) (snd (spec_wake (status_of m))) false) (m, w).
Proof.
  intros Hok. unfold deepsleepoff_locked. apply wp_bind, wp_gets, wp_bind. simpl.
  assert (∀ m', config m' = config m → (t = true → healthy n m') → m_event m' = m_event m →
    m_timersrc m' = "Last Known" → status_of m' = fst (spec_wake (status_of m)) →
    wp t (q ← field m_timequality; publishStatus ePUBLISH_DEEP_SLEEP_ON (quality_label q))
      (post n m w (fst (spec_wake (status_of m))) (m_event m) (snd (spec_wake (status_of m))) false) (m', w))
    as Hpub.
  { intros m' Hc Hok' He _ Hs. apply wp_bind, wp_gets. simpl. apply wp_publishStatus.
    - intros Ht. by destruct (Hok' Ht) as (_ & _ & ?).
    - intros now w2 _ Heff. do 3 (split; [done|]). split; [|done]. exists now, []. split; [|done].
      replace (m_publish m) with (m_publish m') by (injection Hc; congruence).
      change (m_timequality m') with (s_quality (status_of m')) in Heff.
      rewrite Hs in Heff. exact Heff. }
  apply wp_when; intros Hq.
  - apply bool_decide_eq_true in Hq. apply wp_bind, wp_modify, wp_modify, wp_bind, wp_modify. simpl.
    apply Hpub; [done|done|done|done|]. unfold spec_wake. simpl. by rewrite Hq.
  - apply bool_decide_eq_false in Hq. apply wp_bind, wp_modify. simpl.
    apply Hpub; [done|done|done|done|]. unfold spec_wake, status_of. simpl. by destruct (m_timequality m).
Qed.

Lemma wp_deepsleepoff_resync (Q : unit → world → Prop) w :
  (∀ w', quiet w w' → w_fs w' = w_fs w → Q tt w') → wp t deepsleepoff_resync Q w.
Proof.
  intros HQ. unfold deepsleepoff_resync. apply wp_bind, wp_sys. mstep.
  - apply wp_bind, wp_sys, wp_bind, wp_sys, wp_ret, HQ; [eauto 6 with quiet|done].
  - apply wp_bind, wp_sys. mstep; [|apply wp_ret, HQ; [eauto 6 with quiet|done]].
    apply wp_bind, wp_sys, wp_bind, wp_sys, wp_bind, wp_sys, wp_ret, HQ; [eauto 9 with quiet|done].
Qed.

Lemma wp_deepsleepoff n m w :
  (t = true → healthy n m) →
  wp t deepsleepoff
    (post n m w (fst (spec_wake (status_of m))) (m_event m) (snd (spec_wake (status_of m))) false) (m, w).
Proof.
  intros Hok. unfold deepsleepoff. apply wp_bind.
  eapply wp_mono; [by apply (wp_deepsleepoff_locked n)|].
  intros [] [m' w1] (Hs & He & Hc & (now & ss & Heff & Hss) & Hok').
  apply wp_on_snd, wp_deepsleepoff_resync. intros w2 Hq _. do 3 (split; [done|]). split; [|done].
  exists now, ss. split; [|done]. by eapply effect_quiet_r.
Qed.

Lemma wp_getTimeStatus pMsg (Q : TimerMsg → mgr Src Sync * world → Prop) m w :
  (∀ now w', (t = true → 0 ≤ now ≤ sane_max) → quiet w w' → w_fs w' = w_fs w →
     Q (mkTimerMsg (msg_event pMsg) (qualityOfTime_code (m_timequality m))
          (snprintf_s cTIMER_STATUS_MESSAGE_LENGTH (m_timersrc m))
          (snprintf_s cTIMER_STATUS_MESSAGE_LENGTH (to_string_ll now))
          (quality_label (m_timequality m))) (m, w')) →
  wp t (getTimeStatus pMsg) Q (m, w).
Proof.
  intros HQ. unfold getTimeStatus.
  apply wp_bind, wp_gets, wp_bind, wp_gets, wp_bind, wp_on_snd, (wp_realtime t HE). simpl.
  intros now w1 Hq1 Hfs Hnow _. apply wp_bind, wp_on_snd, wp_sys. simpl.
  set (mono := answer _ TimeNull). set (w2 := log _ w1).
  assert (quiet w w2) as Hq2 by (etrans; [exact Hq1|]; unfold w2; eauto with quiet).
  apply wp_bind, wp_on_snd, (wp_strftime t HE).
  { intros Ht. specialize (Hnow Ht). unfold sane_max, sane_span in *. lia. }
  intros _. simpl. apply wp_bind, wp_on_snd, (wp_strftime t HE).
  { intros Ht. destruct (HE Ht) as [_ Htn _ _ _]. specialize (Htn (w_trace w1)). fold mono in Htn.
    unfold sane_max, sane_span in *. lia. }
  intros _. simpl. apply wp_ret.
  replace (snprintf_s cTIMER_STATUS_MESSAGE_LENGTH (quality_label (m_timequality m)))
    with (quality_label (m_timequality m)) by (by destruct (m_timequality m)).
  by apply HQ.
Qed.
End specs.

(** The partial reading has no hypothesis on the environment. *)
Definition never {P : Prop} (H : false = true) : P := match Bool.diff_false_true H with end.

(** ** The initial time *)

Section initial.
Context {E : Env} {B : Build} (t : bool) {Src Sync : Type} `{ISrc : ITimeSrc Src} `{ISync : ITimeSync Sync}.
Context {HSync : ITimeSyncSpec t Sync}.
Implicit Types (m : mgr Src Sync) (w : world).

(** The syncs can all be read, and what they are good for afterwards. *)
Definition readable m w : Prop :=
  Forall (λ p, ∃ o, p = Some o ∧ sync_readable (w_fs w) o) (m_timerSync m).
Definition all_fresh (l : list (option Sync)) : Prop := ∀ n, fresh n → all_ok sync_fuel n l.

Lemma wp_getTimes (Q : Z → mgr Src Sync * world → Prop) m w :
  (t = true → readable m w) →
  (∀ z l w', quiet w w' → length l = length (m_timerSync m) → (t = true → all_fresh l) →
     Q z (set_syncs l m, w')) →
  wp t (over_syncs (for_each_m (λ _ : Z, getTime) 0)) Q (m, w).
Proof.
  intros Hok HQ. apply wp_over_syncs.
  eapply wp_mono; [apply (wp_for_each t (λ _ : Z, getTime) (λ o, t = true → sync_readable (w_fs w) o)
    (λ o, t = true → ∀ n, fresh n → sync_fuel n o) (λ _ w', quiet w w' ∧ w_fs w' = w_fs w))|].
  - done.
  - intros Ht. eapply Forall_impl; [exact (Hok Ht)|]. intros p (o & -> & _). eauto.
  - apply Forall_forall. intros p Hin o -> Ht. specialize (Hok Ht). unfold readable in Hok.
    rewrite Forall_forall in Hok. by destruct (Hok _ Hin) as (o' & [= <-] & ?).
  - intros z o w1 [Hq Hfs] Ho. eapply wp_mono; [apply getTime_spec|].
    + intros Ht. rewrite Hfs. by apply Ho.
    + intros a ow (Hq' & Hfs' & Hf). split; [|done]. split; [by etrans|congruence].
  - intros z [l w'] ([Hq _] & Hlen & Hsome & HF). apply HQ; [done|done|].
    intros Ht n Hn. specialize (Hsome Ht). simpl in *. clear HQ Hlen.
    induction Hsome as [|p l [o ->] _ IH]; constructor; apply Forall_cons_1 in HF as [HF1 HF2].
    + exists o. split; [done|]. by apply HF1.
    + by apply IH.
Qed.

Lemma wp_set_clock v (Q : unit → world → Prop) w :
  (∀ w', effect [] [v] w w' → w_fs w' = w_fs w → Q tt w') → wp t (set_clock v) Q w.
Proof.
  intros HQ. unfold set_clock. apply wp_bind, wp_sys.
  set (ok := answer (w_trace w) (ClockSettime v)). set (w1 := log _ w).
  assert (∀ w', quiet w1 w' → w_fs w' = w_fs w → Q tt w') as Hend.
  { intros w' Hq Hfs. apply HQ; [|done]. eapply effect_quiet_r; [|exact Hq]. done. }
  assert (∀ b w2 (c : call unit), quiet w1 w2 → w_fs w2 = w_fs w → (∀ a, quiet_ev (Ev c a)) →
    wp t (when b (sys c)) Q w2) as Hreport.
  { intros b w2 c Hq Hfs Hc. apply wp_when; intros _; [apply wp_sys_unit|]; apply Hend; try done.
    apply quiet_log; auto. }
  destruct ok; [|apply Hreport; [done|done|by intros []]].
  assert (∀ w2, quiet w1 w2 → w_fs w2 = w_fs w → wp t
    (up ← sys ClockGettime;
     match up with
     | Some ts => when T2_EVENT_ENABLED
         (sys (T2Val "SYST_INFO_SETSYSTIME_split" (snprintf_s 32 (to_string_ll (uptime_ms ts)))))
     | None => mret tt
     end) Q w2) as Hup.
  { intros w2 Hq Hfs. apply wp_bind, wp_sys. destruct (answer _ ClockGettime).
    - apply Hreport; [eauto with quiet|done|by intros []].
    - apply wp_ret, Hend; [eauto with quiet|done]. }
  apply wp_bind, wp_when; intros _; [apply wp_sys_unit|]; apply Hup; try done. eauto with quiet.
Qed.

(** A reading of the clock after the time [v]. *)
Definition clock_ahead (reading : option (Z * Z)) (v : Z) : bool :=
  match reading with Some (s, _) => bool_decide (s > v) | None => false end.

(** What [setInitialTime] leaves when the syncs gave [v] and the clock reads
    [reading]: without a time, the quality as it was and no message; else quality
    Poor, announced, and the clock set to [v] unless it was ahead. *)
Definition initial_post (v : Z) (reading : option (Z * Z)) m w (_ : unit) (mw : mgr Src Sync * world) : Prop :=
  config mw.1 = config m ∧ m_state mw.1 = m_state m ∧ m_timersrc mw.1 = m_timersrc m ∧
  m_timerSrc mw.1 = m_timerSrc m ∧ length (m_timerSync mw.1) = length (m_timerSync m) ∧
  (t = true → all_fresh (m_timerSync mw.1)) ∧
  if bool_decide (v = 0) then m_timequality mw.1 = m_timequality m ∧ quiet w mw.2
  else m_timequality mw.1 = eTIMEQUALILTY_POOR ∧ ∃ now,
    effect (notice_msgs (m_publish m) (status_of mw.1) (Some (ePUBLISH_TIME_INITIAL, "Poor")) now)
      (if clock_ahead reading v then [] else [v]) w mw.2.

Lemma wp_publish_initial m w l v r w1 :
  SaneEnv E → (t = true → is_Some (m_publish m)) →
  length l = length (m_timerSync m) → (t = true → all_fresh l) → v ≠ 0 →
  effect [] (if clock_ahead r v then [] else [v]) w w1 →
  wp t (publishStatus ePUBLISH_TIME_INITIAL "Poor") (initial_post v r m w)
    (set_quality eTIMEQUALILTY_POOR (set_syncs l m), w1).
Proof.
  intros HE Hp Hlen Hl Hv Heff. apply (wp_publishStatus t (λ _, HE)); [done|].
  intros now w2 _ Heff2. unfold initial_post. simpl in *. rewrite bool_decide_eq_false_2 by done.
  do 4 (split; [done|]). do 2 (split; [done|]). split; [done|]. exists now.
  pose proof (effect_trans _ _ _ _ _ _ _ Heff Heff2) as H. by rewrite app_nil_r in H.
Qed.

Lemma wp_set_and_publish m w l v r w1 :
  SaneEnv E → (t = true → is_Some (m_publish m)) →
  length l = length (m_timerSync m) → (t = true → all_fresh l) → v ≠ 0 → clock_ahead r v = false → quiet w w1 →
  wp t (_ ← on_snd (set_clock v); publishStatus ePUBLISH_TIME_INITIAL "Poor") (initial_post v r m w)
    (set_quality eTIMEQUALILTY_POOR (set_syncs l m), w1).
Proof.
  intros HE Hp Hlen Hl Hv Hr Hq. apply wp_bind, wp_on_snd, wp_set_clock. intros w2 Heff _.
  apply wp_publish_initial; [done..|]. rewrite Hr. by eapply effect_quiet_l.
Qed.

(** From the point where the syncs have answered [v]. *)
Lemma wp_initial_from m w l v w1 :
  SaneEnv E → (t = true → is_Some (m_publish m)) →
  length l = length (m_timerSync m) → (t = true → all_fresh l) → quiet w w1 →
  wp t
    (if bool_decide (v = 0) then mret tt else
     _ ← upd (set_quality eTIMEQUALILTY_POOR);
     ts ← on_snd (sys ClockGettime);
     ahead ← match ts with
             | Some (s, ns) => currenttime ← on_snd (chrono_to_time_t s ns); mret (bool_decide (currenttime > v))
             | None => mret false
             end;
     if (ahead : bool) then publishStatus ePUBLISH_TIME_INITIAL "Poor"
     else _ ← on_snd (set_clock v); publishStatus ePUBLISH_TIME_INITIAL "Poor")
    (initial_post v (answer (w_trace w1) ClockGettime) m w) (set_syncs l m, w1).
Proof.
  intros HE Hp Hlen Hl Hq. case_bool_decide as Hv.
  { apply wp_ret. unfold initial_post. simpl. rewrite bool_decide_eq_true_2 by done. by auto 9. }
  apply wp_bind, wp_modify, wp_bind, wp_on_snd, wp_sys. simpl.
  set (ts := answer _ ClockGettime). set (w2 := log _ w1).
  assert (quiet w w2) as Hq2 by (unfold w2; eauto with quiet).
  apply wp_bind. destruct ts as [[s ns]|] eqn:Hts; unfold ts in Hts.
  - destruct (sane_clock _ _ _ Hts) as [Hs Hn].
    apply wp_bind, wp_on_snd, (wp_chrono t); [done|]. intros z Hz. apply wp_ret. simpl.
    rewrite Hz by lia. case_bool_decide as Hgt.
    + apply wp_publish_initial; [done..|]. simpl. rewrite bool_decide_eq_true_2 by done. by apply effect_quiet.
    + apply wp_set_and_publish; [done..| |done]. by apply bool_decide_eq_false_2.
  - apply wp_ret. by apply wp_set_and_publish.
Qed.

Lemma wp_setInitialTime m w :
  SaneEnv E → (t = true → is_Some (m_publish m) ∧ readable m w) →
  wp t setInitialTime (λ a mw, ∃ v r, initial_post v r m w a mw) (m, w).
Proof.
  intros HE Hok. assert (t = true → is_Some (m_publish m)) as Hp by (intros Ht; by destruct (Hok Ht)).
  unfold setInitialTime. apply wp_bind, wp_getTimes; [intros Ht; by destruct (Hok Ht)|].
  intros v l w1 Hq1 Hlen Hl.
  apply wp_bind, wp_on_snd, wp_truncate_file; simpl.
  - intros mt w2 Hq2 _. eapply wp_mono; [apply (wp_initial_from m w l v); [done..|by etrans]|]. intros [] mw ?. by eexists _, _.
  - intros w2 Hq2 _. eapply wp_mono; [apply (wp_initial_from m w l v); [done..|by etrans]|]. intros [] mw ?. by eexists _, _.
Qed.
End initial.
