(* ===== verification/MgrProps.v ===== *)
(** * MgrProps: what the state machine guarantees

    Sequences of inputs of the SysTimeMgr object (events of the queue, wake-ups
    from deep sleep, status queries) and the theorems about them: refinement of
    the abstract machine, the relation between state and quality, the final
    state as a function of the events received, the messages on the bus, when
    the clock is set. *)

From S2P Require Import Prelude CString Platform TestEnv Interfaces TimeSync PubSub TimeSrc Factory.
From S2P Require Import SysTimeMgr MgrSpec.

(** ** Inputs *)

(** What reaches the object: an event taken from the queue, the power callback
    with DEEP_SLEEP_OFF, a status query over the bus. *)
Inductive input :=
  | IEvent (e : sysTimeMgrEvent) (args : option TimerMsg)
  | IWake
  | IQuery (pMsg : TimerMsg).

Section inputs.
Context {E : Env} {B : Build} {Src Sync : Type} `{ISrc : ITimeSrc Src} `{ISync : ITimeSync Sync}.

Definition run_input (i : input) : M (mgr Src Sync * world) unit :=
  match i with
  | IEvent e args => runStateMachine e args
  | IWake => deepsleepoff
  | IQuery p => _ ← getTimeStatus p; mret tt
  end.

Fixpoint run_inputs (l : list input) : M (mgr Src Sync * world) unit :=
  match l with
  | [] => mret tt
  | i :: l => _ ← run_input i; run_inputs l
  end.
End inputs.

(** The abstract machine on inputs. *)
Definition spec_input (s : status) (i : input) : status * notice :=
  match i with
  | IEvent e _ => spec_step s e
  | IWake => spec_wake s
  | IQuery _ => (s, None)
  end.

Definition spec_inputs (s : status) (l : list input) : status :=
  foldl (λ s i, fst (spec_input s i)) s l.

(** A message without its time. *)
Definition msg_core (m : TimerMsg) : Z * Z * string * string :=
  (msg_event m, msg_quality m, msg_timerSrc m, msg_message m).

(** The messages the abstract machine announces, oldest first. *)
Fixpoint spec_msgs (p : option IPublish) (s : status) (l : list input) : list (Z * Z * string * string) :=
  match l with
  | [] => []
  | i :: l =>
      let s' := fst (spec_input s i) in
      map msg_core (notice_msgs p s' (snd (spec_input s i)) 0) ++ spec_msgs p s' l
  end.

Lemma notice_core p s n now now' :
  map msg_core (notice_msgs p s n now) = map msg_core (notice_msgs p s n now').
Proof. by destruct p as [[]|], n as [[]|]. Qed.

Lemma notice_rev p s n now :
  reverse (map msg_core (notice_msgs p s n now)) = map msg_core (notice_msgs p s n now).
Proof. by destruct p as [[]|], n as [[]|]. Qed.

(** The inputs on which the clock may be set, and how many of a list are. *)
Definition input_may_set_clock (s : status) (i : input) : bool :=
  match i with IEvent e _ => may_set_clock s e | _ => false end.
Fixpoint clock_inputs (s : status) (l : list input) : nat :=
  match l with
  | [] => 0
  | i :: l => (if input_may_set_clock s i then 1 else 0) + clock_inputs (fst (spec_input s i)) l
  end.

Section refinement.
Context {E : Env} {B : Build} (t : bool) (HE : t = true → SaneEnv E).
Context {Src Sync : Type} `{ISrc : ITimeSrc Src} `{ISync : ITimeSync Sync}.
Context {HSrc : ITimeSrcSpec t Src} {HSync : ITimeSyncSpec t Sync}.
Implicit Types (m : mgr Src Sync) (w : world).

Lemma wp_run_input n i m w :
  stateMachine m = fill_stateMachine ∅ → ready t n m →
  wp t (run_input i) (λ _ mw,
    status_of mw.1 = fst (spec_input (status_of m) i) ∧ config mw.1 = config m ∧
    (∃ now ss, effect (notice_msgs (m_publish m) (fst (spec_input (status_of m) i))
                         (snd (spec_input (status_of m) i)) now) ss w mw.2 ∧
               (length ss ≤ if input_may_set_clock (status_of m) i then 1 else 0)%nat) ∧
    (t = true → healthy t n mw.1)) (m, w).
Proof.
  intros Hsm Hok. destruct i as [e args| |p]; simpl.
  - eapply wp_mono; [by apply (wp_runStateMachine t HE n)|]. by intros [] mw (? & _ & ? & ? & ?).
  - eapply wp_mono; [apply (wp_deepsleepoff t HE n)|].
    + intros Ht. eapply healthy_le; [|exact (Hok Ht)]. lia.
    + intros [] mw (? & _ & ? & (now & ss & ? & ?) & ?). do 2 (split; [done|]). split; [|done]. eauto.
  - apply wp_bind, (wp_getTimeStatus t HE). intros now w' _ Hq _. apply wp_ret.
    do 2 (split; [done|]). split.
    + exists 0, []. split; [|done]. simpl.
      assert (notice_msgs (m_publish m) (status_of m) None 0 = []) as -> by (by destruct (m_publish m) as [[]|]).
      by apply effect_quiet.
    + intros Ht. eapply healthy_le; [|exact (Hok Ht)]. lia.
Qed.

Lemma wp_run_inputs n l m w :
  stateMachine m = fill_stateMachine ∅ → (t = true → healthy t (2 * length l + n) m) →
  wp t (run_inputs l) (λ _ mw,
    status_of mw.1 = spec_inputs (status_of m) l ∧ config mw.1 = config m ∧
    map msg_core (broadcasts (w_trace mw.2))
    = reverse (spec_msgs (m_publish m) (status_of m) l) ++ map msg_core (broadcasts (w_trace w)) ∧
    (t = true → healthy t n mw.1)) (m, w).
Proof.
  revert m w. induction l as [|i l IH]; intros m w Hsm Hok; simpl.
  { apply wp_ret. do 3 (split; [done|]). exact Hok. }
  apply wp_bind. eapply wp_mono; [apply (wp_run_input (2 * length l + n)); [done|]|].
  { intros Ht. eapply healthy_le; [|exact (Hok Ht)]. simpl. lia. }
  intros [] [m1 w1] (Hs & Hc & (now & ss & [Hb _] & _) & Hok1). simpl in *.
  assert (stateMachine m1 = fill_stateMachine ∅) as Hsm1 by (injection Hc; congruence).
  eapply wp_mono; [by apply IH|]. intros [] [m2 w2] (Hs2 & Hc2 & Hb2 & Hok2). simpl in *.
  split; [by rewrite Hs2, Hs|]. split; [congruence|]. split; [|done].
  rewrite Hb2, Hb, Hs, map_app, reverse_app.
  replace (m_publish m1) with (m_publish m) by (injection Hc; congruence).
  rewrite notice_rev, <- app_assoc. by rewrite (notice_core _ _ _ now 0).
Qed.
End refinement.

(** ** Facts of the abstract machine *)

(** The quality each state stands for. *)
Definition quality_inv (s : status) : Prop :=
  match s_state s with
  | eSYSMGR_STATE_INIT | eSYSMGR_STATE_NTP_WAIT | eSYSMGR_STATE_NTP_FAIL =>
      s_quality s = eTIMEQUALILTY_POOR ∨ s_quality s = eTIMEQUALILTY_UNKNOWN
  | eSYSMGR_STATE_NTP_ACQUIRED | eSYSMGR_STATE_DTT_ACQUIRED | eSYSMGR_STATE_SECURE_TIME_ACQUIRED =>
      s_quality s = eTIMEQUALILTY_GOOD
  | eSYSMGR_STATE_RUNNING => s_quality s = eTIMEQUALILTY_SECURE
  end.

Lemma spec_input_inv s i : quality_inv s → quality_inv (fst (spec_input s i)).
Proof.
  destruct s as [st q src]. unfold quality_inv. destruct i as [e args| |p]; simpl.
  - unfold spec_step; simpl. destruct st, e; simpl; auto.
  - unfold spec_wake; simpl. destruct st, q; simpl; naive_solver.
  - done.
Qed.

Lemma spec_inputs_inv l s : quality_inv s → quality_inv (spec_inputs s l).
Proof.
  revert s. induction l as [|i l IH]; intros s Hs; [done|]. simpl. by apply IH, spec_input_inv.
Qed.

(** Text and quality of a message agree; the one exception is the failure notice
    of a daemon that never had an initial time, which says Poor with quality
    Unknown. *)
Definition core_ok (c : Z * Z * string * string) : Prop :=
  let '(ev, q, _, label) := c in
  (∃ q', q = qualityOfTime_code q' ∧ label = quality_label q') ∨
  (ev = publishEvent_code ePUBLISH_NTP_FAIL ∧ q = qualityOfTime_code eTIMEQUALILTY_UNKNOWN ∧ label = "Poor").

Lemma spec_msgs_ok p l s : quality_inv s → Forall core_ok (spec_msgs p s l).
Proof.
  revert s. induction l as [|i l IH]; intros s Hs; [by constructor|]. simpl.
  apply Forall_app. split; [|by apply IH, spec_input_inv].
  destruct s as [st q src]. destruct p as [[n|n]|]; [by constructor| |by constructor].
  unfold quality_inv in Hs. destruct i as [e args| |pm]; simpl in *; [| |by constructor].
  - unfold spec_step; simpl. destruct st, e; simpl in *; try (by constructor);
      (apply Forall_cons; split; [|by constructor]); simpl.
    + destruct Hs as [-> | ->]; [left; by exists eTIMEQUALILTY_POOR|by right].
    + left. by exists eTIMEQUALILTY_GOOD.
    + left. by exists eTIMEQUALILTY_GOOD.
    + left. by exists eTIMEQUALILTY_GOOD.
    + left. by exists eTIMEQUALILTY_SECURE.
    + left. by exists eTIMEQUALILTY_GOOD.
    + left. by exists eTIMEQUALILTY_SECURE.
  - unfold spec_wake; simpl. apply Forall_cons. split; [|by constructor]. simpl. left.
    exists (s_quality (fst (spec_wake (Status st q src)))). by destruct q.
Qed.

(** The state after a list of events from NTP_WAIT: which of network time and
    secure time have been seen, in whatever order, and before both whether
    broadcast time came after the first expiry. *)
Fixpoint dtt_after (expired : bool) (es : list sysTimeMgrEvent) : bool :=
  match es with
  | [] => false
  | eSYSMGR_EVENT_TIMER_EXPIRY :: es => dtt_after true es
  | eSYSMGR_EVENT_DTT_TIME_AVAILABLE :: es => expired || dtt_after expired es
  | _ :: es => dtt_after expired es
  end.

Definition seen (e : sysTimeMgrEvent) (es : list sysTimeMgrEvent) : bool := bool_decide (e ∈ es).

Definition final_state (es : list sysTimeMgrEvent) : sysTimeMgrState :=
  match seen eSYSMGR_EVENT_NTP_AVAILABLE es, seen eSYSMGR_EVENT_SECURE_TIME_AVAILABLE es with
  | true, true => eSYSMGR_STATE_RUNNING
  | true, false => eSYSMGR_STATE_NTP_ACQUIRED
  | false, true => eSYSMGR_STATE_SECURE_TIME_ACQUIRED
  | false, false =>
      if dtt_after false es then eSYSMGR_STATE_DTT_ACQUIRED
      else if seen eSYSMGR_EVENT_TIMER_EXPIRY es then eSYSMGR_STATE_NTP_FAIL
      else eSYSMGR_STATE_NTP_WAIT
  end.

(** The state component of the abstract machine does not depend on the rest. *)
Definition next_state (st : sysTimeMgrState) (e : sysTimeMgrEvent) : sysTimeMgrState :=
  s_state (fst (spec_step (Status st eTIMEQUALILTY_POOR "") e)).

Lemma spec_step_state s e : s_state (fst (spec_step s e)) = next_state (s_state s) e.
Proof. destruct s as [st q src]. unfold next_state, spec_step. simpl. by destruct st, e. Qed.

Lemma spec_events_state (es : list sysTimeMgrEvent) args s :
  s_state (spec_inputs s (map (λ e, IEvent e args) es)) = foldl next_state (s_state s) es.
Proof.
  revert s. induction es as [|e es IH]; intros s; [done|]. simpl. rewrite IH. simpl.
  by rewrite spec_step_state.
Qed.

(** What is still missing in each state, before the events [es] arrive. *)
Definition from_state (st : sysTimeMgrState) (es : list sysTimeMgrEvent) : sysTimeMgrState :=
  let ntp := seen eSYSMGR_EVENT_NTP_AVAILABLE es in
  let sec := seen eSYSMGR_EVENT_SECURE_TIME_AVAILABLE es in
  match st with
  | eSYSMGR_STATE_NTP_WAIT => final_state es
  | eSYSMGR_STATE_NTP_FAIL | eSYSMGR_STATE_DTT_ACQUIRED =>
      match ntp, sec with
      | true, true => eSYSMGR_STATE_RUNNING
      | true, false => eSYSMGR_STATE_NTP_ACQUIRED
      | false, true => eSYSMGR_STATE_SECURE_TIME_ACQUIRED
      | false, false =>
          if bool_decide (st = eSYSMGR_STATE_DTT_ACQUIRED) || dtt_after true es
          then eSYSMGR_STATE_DTT_ACQUIRED else eSYSMGR_STATE_NTP_FAIL
      end
  | eSYSMGR_STATE_NTP_ACQUIRED => if sec then eSYSMGR_STATE_RUNNING else st
  | eSYSMGR_STATE_SECURE_TIME_ACQUIRED => if ntp then eSYSMGR_STATE_RUNNING else st
  | _ => st
  end.

Lemma seen_cons e e' es : seen e (e' :: es) = bool_decide (e = e') || seen e es.
Proof.
  unfold seen. apply eq_true_iff_eq. rewrite orb_true_iff, !bool_decide_eq_true.
  by rewrite elem_of_cons.
Qed.

Lemma dtt_after_true es : dtt_after true es = seen eSYSMGR_EVENT_DTT_TIME_AVAILABLE es.
Proof.
  induction es as [|e es IH]; [done|]. rewrite seen_cons. destruct e; simpl; rewrite ?IH; done.
Qed.

Lemma from_state_cons st e es : from_state (next_state st e) es = from_state st (e :: es).
Proof.
  unfold from_state, final_state, next_state, spec_step. rewrite !seen_cons.
  destruct st, e; simpl; try done; rewrite ?dtt_after_true;
    by destruct (seen eSYSMGR_EVENT_NTP_AVAILABLE es), (seen eSYSMGR_EVENT_SECURE_TIME_AVAILABLE es),
      (seen eSYSMGR_EVENT_DTT_TIME_AVAILABLE es).
Qed.

Lemma foldl_next_state es st : foldl next_state st es = from_state st es.
Proof.
  revert st. induction es as [|e es IH]; intros st; [by destruct st|]. simpl. by rewrite IH, from_state_cons.
Qed.

(** Secure time without network time is only good. *)
Definition secured_good (s : status) : Prop :=
  s_state s = eSYSMGR_STATE_SECURE_TIME_ACQUIRED → s_quality s = eTIMEQUALILTY_GOOD.

Lemma spec_events_secured (es : list sysTimeMgrEvent) args s :
  secured_good s → secured_good (spec_inputs s (map (λ e, IEvent e args) es)).
Proof.
  revert s. induction es as [|e es IH]; intros s Hs; [done|]. apply IH. destruct s as [st q src].
  unfold secured_good in *. unfold spec_input, spec_step. simpl in *. by destruct st, e.
Qed.

(** Once network or secure time is among the events their order is immaterial. *)
Lemma final_state_perm es es' :
  es ≡ₚ es' → eSYSMGR_EVENT_NTP_AVAILABLE ∈ es ∨ eSYSMGR_EVENT_SECURE_TIME_AVAILABLE ∈ es →
  final_state es = final_state es'.
Proof.
  intros Hp Hor. assert (∀ e, seen e es = seen e es') as Hseen.
  { intros e. unfold seen. apply bool_decide_ext. by rewrite Hp. }
  assert (∀ e, e ∈ es → seen e es = true) as Hin by (intros e He; by apply bool_decide_eq_true).
  unfold final_state. rewrite <- !Hseen. destruct Hor as [H|H]; rewrite (Hin _ H); [done|].
  by destruct (seen eSYSMGR_EVENT_NTP_AVAILABLE es).
Qed.

(** * Properties *)

Section properties.
Context {E : Env} {B : Build} {Src Sync : Type} `{ISrc : ITimeSrc Src} `{ISync : ITimeSync Sync}.
Implicit Types (m : mgr Src Sync) (w : world).

(** The partial reading: what holds of any run that returns. *)
Lemma run_inputs_partial {HSrc : ITimeSrcSpec false Src} {HSync : ITimeSyncSpec false Sync} l m w m' w' :
  stateMachine m = fill_stateMachine ∅ → run_inputs l (m, w) = (Ret tt, (m', w')) →
  status_of m' = spec_inputs (status_of m) l ∧ config m' = config m ∧
  map msg_core (broadcasts (w_trace w'))
  = reverse (spec_msgs (m_publish m) (status_of m) l) ++ map msg_core (broadcasts (w_trace w)).
Proof.
  intros Hsm Hrun.
  pose proof (wp_run_inputs false never 0 l m w Hsm) as Hwp.
  unfold wp in Hwp. rewrite Hrun in Hwp. by destruct Hwp as (? & ? & ? & _).
Qed.

(** The daemon implements the abstract status machine.  From any object with
    the filled table, enough fuel in its sources and syncs, and a publisher, a
    list of queue events, wake-ups and queries is processed to the end (no
    exception, no null pointer, no overflow); the status is then the one the
    abstract machine computes, the messages on the bus are exactly those it
    announces, in its order, and the configuration is untouched. *)
Theorem daemon_refines_spec {HSrc : ITimeSrcSpec true Src} {HSync : ITimeSyncSpec true Sync}
    (l : list input) m w :
  SaneEnv E → stateMachine m = fill_stateMachine ∅ → healthy true (2 * length l) m →
  ∃ m' w', run_inputs l (m, w) = (Ret tt, (m', w')) ∧
    status_of m' = spec_inputs (status_of m) l ∧
    map msg_core (broadcasts (w_trace w'))
    = reverse (spec_msgs (m_publish m) (status_of m) l) ++ map msg_core (broadcasts (w_trace w)) ∧
    config m' = config m.
Proof.
  intros HE Hsm Hok.
  assert (wp true (run_inputs l) (λ _ mw, status_of mw.1 = spec_inputs (status_of m) l ∧
    config mw.1 = config m ∧ map msg_core (broadcasts (w_trace mw.2))
      = reverse (spec_msgs (m_publish m) (status_of m) l) ++ map msg_core (broadcasts (w_trace w)) ∧
    (true = true → healthy true 0 mw.1)) (m, w)) as Hwp.
  { apply (wp_run_inputs true (λ _, HE)); [done|]. intros _. by rewrite Nat.add_0_r. }
  apply wp_total_run in Hwp as ([] & [m' w'] & Hrun & Hs & Hc & Hb & _). by exists m', w'.
Qed.

(** C4: the state after any list of events is a function of the list, computed
    without running the daemon.  From NTP_WAIT the daemon is RUNNING exactly when
    network time and secure time have both been announced; NTP_ACQUIRED when only
    network time was; SECURE_TIME_ACQUIRED, with quality Good and not Secure, when
    only secure time was, whether or not broadcast time had been acquired before;
    and with neither, DTT_ACQUIRED when broadcast time came after an expiry, else
    NTP_FAIL after an expiry, else NTP_WAIT.  So the order of the events matters
    only between expiries and broadcast time, and not at all once network or secure
    time is among them. *)
Theorem final_state_of_events {HSrc : ITimeSrcSpec true Src} {HSync : ITimeSyncSpec true Sync}
    (es : list sysTimeMgrEvent) (args : option TimerMsg) m w :
  SaneEnv E → stateMachine m = fill_stateMachine ∅ → healthy true (2 * length es) m →
  m_state m = eSYSMGR_STATE_NTP_WAIT →
  ∃ m' w', run_inputs (map (λ e, IEvent e args) es) (m, w) = (Ret tt, (m', w')) ∧
    m_state m' = final_state es ∧
    (m_state m' = eSYSMGR_STATE_RUNNING ↔
       eSYSMGR_EVENT_NTP_AVAILABLE ∈ es ∧ eSYSMGR_EVENT_SECURE_TIME_AVAILABLE ∈ es) ∧
    (eSYSMGR_EVENT_SECURE_TIME_AVAILABLE ∈ es → eSYSMGR_EVENT_NTP_AVAILABLE ∉ es →
       m_state m' = eSYSMGR_STATE_SECURE_TIME_ACQUIRED ∧ m_timequality m' = eTIMEQUALILTY_GOOD) ∧
    (eSYSMGR_EVENT_NTP_AVAILABLE ∈ es ∨ eSYSMGR_EVENT_SECURE_TIME_AVAILABLE ∈ es →
       ∀ es', es ≡ₚ es' → m_state m' = final_state es').
Proof.
  intros HE Hsm Hok Hst.
  assert (wp true (run_inputs (map (λ e, IEvent e args) es)) (λ _ mw, m_state mw.1 = final_state es ∧
    secured_good (status_of mw.1)) (m, w)) as Hwp.
  { eapply wp_mono; [apply (wp_run_inputs true (λ _, HE) 0); [done|]|].
    - intros _. by rewrite length_map, Nat.add_0_r.
    - intros [] [m' w'] (Hs & _). simpl in *. rewrite Hs. split.
      + apply (f_equal s_state) in Hs. rewrite spec_events_state, foldl_next_state in Hs. simpl in Hs. by rewrite Hs, Hst.
      + apply spec_events_secured. unfold secured_good. simpl. by rewrite Hst. }
  apply wp_total_run in Hwp as ([] & [m' w'] & Hrun & Hs & Hgood). simpl in Hs. exists m', w'.
  split; [done|]. split; [done|]. unfold secured_good in Hgood. simpl in *. rewrite Hs in Hgood |- *.
  split; [|split; [|intros Hor es' Hp; by apply final_state_perm]].
  - unfold final_state. destruct (seen eSYSMGR_EVENT_NTP_AVAILABLE es) eqn:Hn, (seen eSYSMGR_EVENT_SECURE_TIME_AVAILABLE es) eqn:Hc;
      (apply bool_decide_eq_true in Hn || apply bool_decide_eq_false in Hn);
      (apply bool_decide_eq_true in Hc || apply bool_decide_eq_false in Hc); [done|split; [done|by intros []]..|].
    destruct (dtt_after false es); [|case_match]; (split; [done|by intros []]).
  - intros H1 H2. assert (final_state es = eSYSMGR_STATE_SECURE_TIME_ACQUIRED) as Hf; [|by split; [|apply Hgood]].
    unfold final_state, seen. by rewrite bool_decide_eq_false_2, bool_decide_eq_true_2.
Qed.

(** Every message on the bus is consistent: its text is the name of the
    quality it carries.  The one exception is the failure notice of a daemon
    without an initial time: it says Poor and carries quality Unknown. *)
Theorem broadcasts_consistent {HSrc : ITimeSrcSpec false Src} {HSync : ITimeSyncSpec false Sync}
    (l : list input) m w m' w' :
  stateMachine m = fill_stateMachine ∅ → quality_inv (status_of m) →
  run_inputs l (m, w) = (Ret tt, (m', w')) →
  ∃ new, map msg_core (broadcasts (w_trace w')) = new ++ map msg_core (broadcasts (w_trace w)) ∧
    Forall core_ok new.
Proof.
  intros Hsm Hinv Hrun. destruct (run_inputs_partial l m w m' w') as (_ & _ & Hb); [done..|].
  eexists. split; [exact Hb|]. apply Forall_reverse. by apply spec_msgs_ok.
Qed.

(** The state machine calls clock_settime on one transition only, an expiry in
    DTT_ACQUIRED; no other event, wake-up or query does. *)
Theorem clock_set_only_with_dtt {HSrc : ITimeSrcSpec false Src} {HSync : ITimeSyncSpec false Sync}
    (i : input) m w m' w' :
  stateMachine m = fill_stateMachine ∅ → run_input i (m, w) = (Ret tt, (m', w')) →
  settimes (w_trace w') ≠ settimes (w_trace w) →
  m_state m = eSYSMGR_STATE_DTT_ACQUIRED ∧ ∃ args, i = IEvent eSYSMGR_EVENT_TIMER_EXPIRY args.
Proof.
  intros Hsm Hrun Hne.
  pose proof (wp_run_input false never 0 i m w Hsm) as Hwp.
  unfold wp in Hwp. rewrite Hrun in Hwp.
  destruct Hwp as (_ & _ & (now & ss & [_ Hset] & Hss) & _); [done|]. simpl in *.
  destruct (input_may_set_clock (status_of m) i) eqn:Hmay; [|by destruct ss; [|simpl in Hss; lia]].
  destruct i as [e args| |p]; try discriminate. simpl in Hmay. unfold may_set_clock in Hmay.
  apply andb_true_iff in Hmay as [H1%bool_decide_eq_true H2%bool_decide_eq_true]. simpl in H1.
  split; [done|]. exists args. by f_equal.
Qed.

(** A status query is answered from the current status without disturbing
    it: the reply carries the current quality, its name and the time source, the
    event field the caller passed, and a time; the call returns, changes no
    member, and neither broadcasts nor sets the clock. *)
Theorem getTimeStatus_answer (pMsg : TimerMsg) m w :
  SaneEnv E →
  ∃ now w', getTimeStatus pMsg (m, w)
    = (Ret {| msg_event := msg_event pMsg;
              msg_quality := qualityOfTime_code (m_timequality m);
              msg_timerSrc := snprintf_s cTIMER_STATUS_MESSAGE_LENGTH (m_timersrc m);
              msg_currentTime := snprintf_s cTIMER_STATUS_MESSAGE_LENGTH (to_string_ll now);
              msg_message := quality_label (m_timequality m) |}, (m, w')) ∧
    0 ≤ now ≤ sane_max ∧ quiet w w' ∧ w_fs w' = w_fs w.
Proof.
  intros HE.
  assert (wp true (getTimeStatus pMsg) (λ r mw, mw.1 = m ∧ quiet w mw.2 ∧ w_fs mw.2 = w_fs w ∧ ∃ now,
    0 ≤ now ≤ sane_max ∧ r = mkTimerMsg (msg_event pMsg) (qualityOfTime_code (m_timequality m))
          (snprintf_s cTIMER_STATUS_MESSAGE_LENGTH (m_timersrc m))
          (snprintf_s cTIMER_STATUS_MESSAGE_LENGTH (to_string_ll now))
          (quality_label (m_timequality m))) (m, w)) as Hwp.
  { apply (wp_getTimeStatus true (λ _, HE)). intros now w' Hnow Hq Hfs. simpl. eauto 7. }
  apply wp_total_run in Hwp as (r & [m' w'] & Hrun & Hm & Hq & Hfs & now & Hnow & ->). simpl in *.
  subst m'. by exists now, w'.
Qed.
End properties.

(** ** Secure time against network time *)

(** The last reading of a reference and the last non-zero reading of another
    source, in the order of the vector. *)
Fixpoint readings {Src} `{ISrc : ITimeSrc Src} (rd : Src → Z) (l : list Src) (acc : Z * Z) : Z * Z :=
  match l with
  | [] => acc
  | o :: l =>
      readings rd l
        (if isreference o then (rd o, acc.2) else (acc.1, if bool_decide (rd o = 0) then acc.2 else rd o))
  end.

Lemma timerExpiry_readings {Src} `{ISrc : ITimeSrc Src} (rd : Src → Z) (l : list Src) acc w :
  (∀ o w, o ∈ l → ∃ o' w', getTimeSec (o, w) = (Ret (rd o), (o', w'))) →
  ∃ l' w', for_each timerExpiry_body acc (Some <$> l) w = (Ret (readings rd l acc), (l', w')).
Proof.
  revert acc w. induction l as [|o l IH]; intros acc w Hrd; simpl; [by eexists _, _|].
  destruct (Hrd o w) as (o' & w' & Hrun); [by left|].
  unfold timerExpiry_body at 1. unfold mbind, M_bind, gets. simpl.
  destruct (isreference o); rewrite Hrun; simpl;
    (edestruct IH as (l' & w2 & ->); [intros; apply Hrd; by right|]); simpl; eauto.
Qed.

(** The calls of a log that ask chronyd to step the clock. *)
Definition is_makestep (e : ev) : bool := match ev_call e with ChronyMakestep => true | _ => false end.

Section properties2.
Context {E : Env} {B : Build} {Src Sync : Type} `{ISrc : ITimeSrc Src} `{ISync : ITimeSync Sync}.
Implicit Types (m : mgr Src Sync) (w : world).

(** C31: the drift check is one-sided.  With sources that answer [rd], the timer
    handler hands the syncs the last reference time whenever that time is not
    more than ten minutes after the last non-zero time of the other sources,
    however far it is before it, and zero (the clock's time) otherwise; with no
    such other time the reference is compared with zero.  The difference is
    taken without overflow whenever it fits 64 bits. *)
Theorem timerExpiry_drift (rd : Src → Z) (l : list Src) (ref file : Z) (args : option TimerMsg) m w :
  m_timerSrc m = Some <$> l →
  (∀ o w, o ∈ l → ∃ o' w', getTimeSec (o, w) = (Ret (rd o), (o', w'))) →
  readings rd l (0, 0) = (ref, file) → i64_min ≤ ref - file ≤ i64_max →
  ∃ l' w', timerExpiry args (m, w)
    = updateTimeSync (if bool_decide (ref ≤ file + 600) then ref else 0) (set_srcs l' m, w').
Proof.
  intros Hl Hrd Hreads Hi. destruct (timerExpiry_readings rd l (0, 0) w Hrd) as (l' & w' & Hrun).
  rewrite Hreads in Hrun. exists l', w'.
  unfold timerExpiry. rewrite (bind_run _ _ (m, w) (ref, file) (set_srcs l' m, w')).
  2:{ unfold over_srcs, for_each_m. simpl. by rewrite Hl, Hrun. }
  simpl. rewrite (bind_run _ _ _ (ref - file) (set_srcs l' m, w')).
  2:{ unfold of_outcome. by rewrite i64_ret. }
  do 2 f_equal. by repeat case_bool_decide; (done || lia).
Qed.

(** Waking from deep sleep.  The daemon returns; secure quality is dropped
    to Good and the state goes back to NTP_ACQUIRED, so that secure time must be
    announced again, any other status keeps its state and quality; the time
    source reads Last Known; one message with the new quality is broadcast. *)
Theorem wake_resets {HSrc : ITimeSrcSpec true Src} {HSync : ITimeSyncSpec true Sync} m w n :
  SaneEnv E → healthy true 0 m → m_publish m = Some (IarmPublish n) →
  ∃ m' w' now, powerhandler "DEEP_SLEEP_OFF" (m, w) = (Ret 1, (m', w')) ∧
    m_timersrc m' = "Last Known" ∧ m_timequality m' ≠ eTIMEQUALILTY_SECURE ∧
    (m_timequality m = eTIMEQUALILTY_SECURE →
       m_timequality m' = eTIMEQUALILTY_GOOD ∧ m_state m' = eSYSMGR_STATE_NTP_ACQUIRED) ∧
    (m_timequality m ≠ eTIMEQUALILTY_SECURE → m_timequality m' = m_timequality m ∧ m_state m' = m_state m) ∧
    broadcasts (w_trace w')
    = status_msg (status_of m') ePUBLISH_DEEP_SLEEP_ON (quality_label (m_timequality m')) now
      :: broadcasts (w_trace w) ∧ config m' = config m.
Proof.
  intros HE Hok Hp.
  assert (wp true (powerhandler "DEEP_SLEEP_OFF") (λ r mw, r = 1 ∧
    post true 0 m w (fst (spec_wake (status_of m))) (m_event m) (snd (spec_wake (status_of m))) false tt mw)
    (m, w)) as Hwp.
  { unfold powerhandler. apply wp_bind, wp_when; intros H1; [exfalso; by apply bool_decide_eq_true in H1|].
    apply wp_bind, wp_when; intros H2; [|exfalso; apply bool_decide_eq_false in H2; by apply H2].
    eapply wp_mono; [by apply (wp_deepsleepoff true (λ _, HE) 0)|]. intros [] mw Hpost. by apply wp_ret. }
  apply wp_total_run in Hwp as (r & [m' w'] & Hrun & -> & Hs & _ & Hc & (now & ss & [Hb _] & _) & _).
  exists m', w', now. simpl in *. split; [done|]. rewrite Hp in Hb. simpl in Hb. rewrite <- Hs in Hb.
  unfold status_of, spec_wake in Hs. simpl in Hs.
  assert (m_timersrc m' = "Last Known") as Hsrc by (destruct (m_timequality m); congruence).
  split; [exact Hsrc|].
  destruct (m_timequality m); injection Hs as Hst Hq _;
    (split; [congruence|]; split; [by intros|]; split; [by intros|]; split; [exact Hb|exact Hc]).
Qed.

(** On waking, the platform's time service is asked to resynchronise: when
    timesyncd is not active and chronyd is, the clock is stepped whatever the
    burst and the wait for a source have answered; when timesyncd is active it
    is restarted, and with neither nothing is asked.  The calls return. *)
Theorem wake_steps_unguarded (active : string → Z) w :
  (∀ h c, answer h (SecureSystem c) = active c) →
  ∃ w' l, deepsleepoff_resync w = (Ret tt, w') ∧ w_trace w' = l ++ w_trace w ∧ w_fs w' = w_fs w ∧
    existsb is_makestep l
    = (negb (bool_decide (active "/bin/systemctl is-active --quiet systemd-timesyncd.service" = 0)) &&
       bool_decide (active "/bin/systemctl is-active --quiet chronyd.service" = 0)).
Proof.
  intros Ha. unfold deepsleepoff_resync, sys, mbind, M_bind. rewrite !Ha. case_bool_decide; simpl.
  - eexists _, [_; _; _]. repeat split.
  - rewrite !Ha. case_bool_decide; simpl; [eexists _, [_; _; _; _; _]|eexists _, [_; _]]; repeat split.
Qed.




End properties2.

(** ** Witnesses

    The daemon of a device with NTP, DRM and DTT sources, a clock file and TEE
    time, in the environment where every service answers. *)

#[local] Existing Instance good_env.
#[local] Existing Instance good_build.

Lemma good_mfr : SaneMfr (E := good_env) (B := good_build).
Proof.
  split. intros [[|] p]; simpl; unfold sane_span; [|lia]. pose proof (u32_range p). lia.
Qed.

#[local] Instance good_src_spec : ITimeSrcSpec true TimeSrcObj :=
  TimeSrcObj_spec true (λ _, good_env_sane) (λ _, good_env_json).
#[local] Instance good_sync_spec : ITimeSyncSpec true TimeSyncObj :=
  TimeSyncObj_spec true (λ _, good_env_sane) (λ _, good_mfr).
#[local] Instance any_src_spec : ITimeSrcSpec false TimeSrcObj := TimeSrcObj_spec false never never.
#[local] Instance any_sync_spec : ITimeSyncSpec false TimeSyncObj := TimeSyncObj_spec false never never.

Definition demo (st : sysTimeMgrState) (q : qualityOfTime) : mgr TimeSrcObj TimeSyncObj := {|
  stateMachine := fill_stateMachine ∅;
  m_pathEventMap := [];
  m_state := st;
  m_event := eSYSMGR_EVENT_UNKNOWN;
  m_timerInterval := 600000;
  m_timequality := q;
  m_timerSrc := [Some (SrcNtp mkNtpTimeSrc); Some (SrcDrm (mkDrmTimeSrc "/tmp/systimemgr/drm"));
                 Some (SrcDtt (new_DttTimeSrc "/tmp/systimemgr/dtt"))];
  m_timerSync := [Some (SyncRdkDefault w_clock); Some (SyncTee mkTeeTimeSync)];
  m_publish := Some (IarmPublish IARM_BUS_SYSTIME_MGR_NAME);
  m_subscriber_ptr := Some 1%nat;
  m_tmrsubscriber_ptr := Some 0%nat;
  m_timersrc := "Last Known";
  m_cfgfile := "/etc/systimemgr.conf";
  m_chronyRfcEnabled := true;
  m_queue := []
|}.

Lemma demo_healthy st q n : (n ≤ 1000)%nat → healthy true n (demo st q).
Proof.
  intros Hn. split; [|split; [|by eexists]].
  - repeat (apply Forall_cons; split; [by eexists|]). by apply Forall_nil.
  - repeat (apply Forall_cons; split; [eexists; split; [reflexivity|]|]); [|done|by apply Forall_nil].
    simpl. unfold rdk_fuel, sane_max, sane_span. simpl. lia.
Qed.

Definition demo_inputs : list input :=
  [IEvent eSYSMGR_EVENT_TIMER_EXPIRY None; IEvent eSYSMGR_EVENT_SECURE_TIME_AVAILABLE None;
   IEvent eSYSMGR_EVENT_NTP_AVAILABLE None; IWake].

Lemma daemon_refines_spec_witness :
  ∃ m' w', run_inputs demo_inputs (demo eSYSMGR_STATE_NTP_WAIT eTIMEQUALILTY_POOR, good_world)
      = (Ret tt, (m', w')) ∧
    status_of m' = Status eSYSMGR_STATE_NTP_ACQUIRED eTIMEQUALILTY_GOOD "Last Known" ∧
    map msg_core (broadcasts (w_trace w'))
    = [(5, 1, "Last Known", "Good"); (4, 2, "Last Known", "Secure"); (1, 0, "Last Known", "Poor")] ∧
    config m' = config (demo eSYSMGR_STATE_NTP_WAIT eTIMEQUALILTY_POOR).
Proof.
  exact (daemon_refines_spec demo_inputs (demo eSYSMGR_STATE_NTP_WAIT eTIMEQUALILTY_POOR) good_world
    good_env_sane eq_refl (demo_healthy _ _ 8 ltac:(lia))).
Defined.

Lemma final_state_of_events_witness :
  let es := [eSYSMGR_EVENT_SECURE_TIME_AVAILABLE; eSYSMGR_EVENT_TIMER_EXPIRY; eSYSMGR_EVENT_NTP_AVAILABLE] in
  ∃ m' w', run_inputs (map (λ e, IEvent e None) es)
      (demo eSYSMGR_STATE_NTP_WAIT eTIMEQUALILTY_POOR, good_world) = (Ret tt, (m', w')) ∧
    m_state m' = eSYSMGR_STATE_RUNNING ∧
    (m_state m' = eSYSMGR_STATE_RUNNING ↔
       eSYSMGR_EVENT_NTP_AVAILABLE ∈ es ∧ eSYSMGR_EVENT_SECURE_TIME_AVAILABLE ∈ es) ∧
    (eSYSMGR_EVENT_SECURE_TIME_AVAILABLE ∈ es → eSYSMGR_EVENT_NTP_AVAILABLE ∉ es →
       m_state m' = eSYSMGR_STATE_SECURE_TIME_ACQUIRED ∧ m_timequality m' = eTIMEQUALILTY_GOOD) ∧
    (eSYSMGR_EVENT_NTP_AVAILABLE ∈ es ∨ eSYSMGR_EVENT_SECURE_TIME_AVAILABLE ∈ es →
       ∀ es', es ≡ₚ es' → m_state m' = final_state es').
Proof.
  intros es. exact (final_state_of_events es None (demo eSYSMGR_STATE_NTP_WAIT eTIMEQUALILTY_POOR) good_world
    good_env_sane eq_refl (demo_healthy _ _ 6 ltac:(lia)) eq_refl).
Defined.

(** The object and world after the demonstration. *)
Definition after_demo : mgr TimeSrcObj TimeSyncObj * world :=
  snd (run_inputs demo_inputs (demo eSYSMGR_STATE_NTP_WAIT eTIMEQUALILTY_POOR, good_world)).

Lemma broadcasts_consistent_witness :
  ∃ new, map msg_core (broadcasts (w_trace (snd after_demo))) = new ++ [] ∧ Forall core_ok new.
Proof.
  apply (broadcasts_consistent demo_inputs (demo eSYSMGR_STATE_NTP_WAIT eTIMEQUALILTY_POOR) good_world
    (fst after_demo) (snd after_demo)); [reflexivity|by left|vm_compute; reflexivity].
Defined.

(** A broadcast time that is served. *)
Definition dtt_env : Env := test_env (services "1700000600").

Definition dtt_after_expiry : mgr TimeSrcObj TimeSyncObj * world :=
  snd (@run_input dtt_env TimeSrcObj TimeSyncObj (@TimeSrcObj_ITimeSrc dtt_env good_build)
         (@TimeSyncObj_ITimeSync dtt_env good_build) (IEvent eSYSMGR_EVENT_TIMER_EXPIRY None)
         (demo eSYSMGR_STATE_DTT_ACQUIRED eTIMEQUALILTY_GOOD, good_world)).

Lemma clock_set_only_with_dtt_witness :
  m_state (demo eSYSMGR_STATE_DTT_ACQUIRED eTIMEQUALILTY_GOOD) = eSYSMGR_STATE_DTT_ACQUIRED ∧
  ∃ args, IEvent eSYSMGR_EVENT_TIMER_EXPIRY None = IEvent eSYSMGR_EVENT_TIMER_EXPIRY args.
Proof.
  apply (@clock_set_only_with_dtt dtt_env TimeSrcObj TimeSyncObj
    (@TimeSrcObj_ITimeSrc dtt_env good_build) (@TimeSyncObj_ITimeSync dtt_env good_build)
    (@TimeSrcObj_spec dtt_env good_build false never never) (@TimeSyncObj_spec dtt_env good_build false never never)
    (IEvent eSYSMGR_EVENT_TIMER_EXPIRY None)
    (demo eSYSMGR_STATE_DTT_ACQUIRED eTIMEQUALILTY_GOOD) good_world
    (fst dtt_after_expiry) (snd dtt_after_expiry)); [reflexivity|vm_compute; reflexivity|].
  assert (settimes (w_trace (snd dtt_after_expiry)) = [1700000600]) as -> by (vm_compute; reflexivity).
  discriminate.
Defined.

Lemma getTimeStatus_answer_witness :
  let m := demo eSYSMGR_STATE_RUNNING eTIMEQUALILTY_SECURE in
  ∃ now w', getTimeStatus (mkTimerMsg 7 0 "" "" "") (m, good_world)
    = (Ret {| msg_event := 7; msg_quality := 2; msg_timerSrc := "Last Known";
              msg_currentTime := snprintf_s cTIMER_STATUS_MESSAGE_LENGTH (to_string_ll now);
              msg_message := "Secure" |}, (m, w')) ∧
    0 ≤ now ≤ sane_max ∧ quiet good_world w' ∧ w_fs w' = w_fs good_world.
Proof. intros m. exact (getTimeStatus_answer (mkTimerMsg 7 0 "" "" "") m good_world good_env_sane). Defined.

Definition two_sources : list TimeSrcObj := [SrcNtp mkNtpTimeSrc; SrcRegular (mkRegularTimeSrc "/tmp/t")].

Lemma timerExpiry_drift_witness :
  let m := set_srcs (Some <$> two_sources) (demo eSYSMGR_STATE_RUNNING eTIMEQUALILTY_SECURE) in
  ∃ l' w', timerExpiry None (m, good_world)
    = updateTimeSync (if bool_decide (1700000000 ≤ 0 + 600) then 1700000000 else 0) (set_srcs l' m, w').
Proof.
  apply (timerExpiry_drift (λ o, if isreference o then 1700000000 else 0) two_sources
    1700000000 0 None
    (set_srcs (Some <$> two_sources) (demo eSYSMGR_STATE_RUNNING eTIMEQUALILTY_SECURE)) good_world).
  - reflexivity.
  - intros o w Hin. unfold two_sources in Hin.
    apply elem_of_cons in Hin as [->|Hin]; [by eexists _, _|].
    apply elem_of_cons in Hin as [->|Hin]; [|by apply elem_of_nil in Hin].
    simpl. unfold via, RegularTimeSrc_getTimeSec, mbind, M_bind, on_snd, read_file, sys, gets. simpl.
    destruct (f_data <$> w_fs w !! "/tmp/t"); simpl; by eexists _, _.
  - reflexivity.
  - unfold i64_min, i64_max. lia.
Defined.

Lemma wake_resets_witness :
  let m := demo eSYSMGR_STATE_RUNNING eTIMEQUALILTY_SECURE in
  ∃ m' w' now, powerhandler "DEEP_SLEEP_OFF" (m, good_world) = (Ret 1, (m', w')) ∧
    m_timersrc m' = "Last Known" ∧ m_timequality m' ≠ eTIMEQUALILTY_SECURE ∧
    (m_timequality m = eTIMEQUALILTY_SECURE →
       m_timequality m' = eTIMEQUALILTY_GOOD ∧ m_state m' = eSYSMGR_STATE_NTP_ACQUIRED) ∧
    (m_timequality m ≠ eTIMEQUALILTY_SECURE → m_timequality m' = m_timequality m ∧ m_state m' = m_state m) ∧
    broadcasts (w_trace w')
    = status_msg (status_of m') ePUBLISH_DEEP_SLEEP_ON (quality_label (m_timequality m')) now
      :: broadcasts (w_trace good_world) ∧ config m' = config m.
Proof.
  intros m. exact (wake_resets m good_world IARM_BUS_SYSTIME_MGR_NAME good_env_sane
    (demo_healthy _ _ 0 ltac:(lia)) eq_refl).
Defined.

(** Only chronyd is active, and it finds no source. *)
Definition chrony_only : overrides := {|
  o_clock := Some (1700000000, 0); o_ntp := 1700000000; o_settime := true; o_adjtimex := [];
  o_active := λ cmd, if decide (cmd = "/bin/systemctl is-active --quiet chronyd.service") then 0 else 3;
  o_selectable := (0, 0); o_sources := (0, 0);
  o_offset := (0, SpecFloat.S754_zero false); o_waitsync := 1; o_rpc := λ _, None;
  o_timeUtc := ""; o_mtime := None; o_subscribe := []; o_pwr := []
|}.

Lemma wake_steps_unguarded_witness :
  ∃ w' l, @deepsleepoff_resync (test_env chrony_only) good_world = (Ret tt, w') ∧
    w_trace w' = l ++ [] ∧ w_fs w' = ∅ ∧ existsb is_makestep l = true.
Proof.
  exact (@wake_steps_unguarded (test_env chrony_only) (o_active chrony_only) good_world (λ h c, eq_refl)).
Defined.


