(* ===== verification/StateLock.v ===== *)
(** * StateLock: the critical sections of g_state_mutex, statement by statement

    The handlers of the state machine, the power callback and the queries of the
    clients run on different threads and touch the same three members: state,
    quality and name of the source.  Here a section is the sequence of its
    statements on them, any thread may be stopped between two of its own, and
    nothing but the mutex keeps the others out.  The theorem is that the sections
    take effect one after the other, as Process takes them: what a query returns and
    what a message says is never a mixture of two statuses. *)

From S2P Require Import Prelude CString Platform TestEnv Interfaces TimeSync PubSub TimeSrc Factory.
From S2P Require Import SysTimeMgr MgrSpec MgrProps.

(** A statement under the mutex.  The values read go to variables of the thread. *)
Inductive stmt :=
  | Dispatch (e : sysTimeMgrEvent)         (* the look-up by m_state, and the call *)
  | TestSecure                             (* the test of m_timequality on waking, and its block *)
  | SetQuality (q : qualityOfTime)
  | SetState (s : sysTimeMgrState)
  | SetSource (src : string)
  | SetLabel (label : string)              (* the text given to publishStatus *)
  | SwitchLabel                            (* the text by m_timequality *)
  | ReadQuality
  | ReadSource
  | Send (event : publishEvent).

(** The variables of a thread: quality, name of the source, text. *)
Record locals := Locals { v_quality : qualityOfTime; v_source : string; v_label : string }.

(** src: systimemgr.cpp:708-734 SysTimeMgr::publishStatus
    What it reads and sends. *)
Definition publishStatus_code (event : publishEvent) : list stmt := [ReadQuality; ReadSource; Send event].

(** src: systimemgr.cpp:550-589 SysTimeMgr::ntpFailed
    The handlers, without the updates of the syncs and sources, which other
    sections do not look at. *)
Definition handler_code (f : memfunc) : list stmt :=
  match f with
  | ntpFailed_f => [SetState eSYSMGR_STATE_NTP_FAIL; SetLabel "Poor"] ++ publishStatus_code ePUBLISH_NTP_FAIL
  | ntpAquired_f =>
      [SetQuality eTIMEQUALILTY_GOOD; SetState eSYSMGR_STATE_NTP_ACQUIRED; SetSource "NTP"; SetLabel "Good"]
        ++ publishStatus_code ePUBLISH_NTP_SUCCESS
  | updateSecureTime_f =>
      [SetState eSYSMGR_STATE_RUNNING; SetQuality eTIMEQUALILTY_SECURE; SetLabel "Secure"]
        ++ publishStatus_code ePUBLISH_SECURE_TIME_SUCCESS
  | secureTimeAcquired_f => [SetQuality eTIMEQUALILTY_GOOD; SetState eSYSMGR_STATE_SECURE_TIME_ACQUIRED]
  | dttAquired_f =>
      [SetQuality eTIMEQUALILTY_GOOD; SetState eSYSMGR_STATE_DTT_ACQUIRED; SetSource "DTT"; SetLabel "Good"]
        ++ publishStatus_code ePUBLISH_DTT_SUCCESS
  | timerExpiry_f | updateTime_f | updateClockRealTime_f => []
  end.

(** src: systimemgr.cpp:824-857 SysTimeMgr::deepsleepoff
    The section of a wake-up. *)
Definition deepsleepoff_code : list stmt :=
  [TestSecure; SetSource "Last Known"; SwitchLabel] ++ publishStatus_code ePUBLISH_DEEP_SLEEP_ON.

(** src: systimemgr.cpp:748-780 SysTimeMgr::getTimeStatus
    The section of a query: the quality is read twice. *)
Definition getTimeStatus_code : list stmt := [ReadQuality; SwitchLabel; ReadSource].

(** The section of an input. *)
Definition section_code (i : input) : list stmt :=
  match i with
  | IEvent e _ => [Dispatch e]
  | IWake => deepsleepoff_code
  | IQuery _ => getTimeStatus_code
  end.

(** A message without its time, from the variables. *)
Definition sent_core (event : publishEvent) (v : locals) : Z * Z * string * string :=
  (publishEvent_code event, qualityOfTime_code (v_quality v),
   snprintf_s cTIMER_STATUS_MESSAGE_LENGTH (v_source v), snprintf_s cTIMER_STATUS_MESSAGE_LENGTH (v_label v)).

(** One statement: what it puts before the rest of the section, the members and
    variables after it, the messages it sends. *)
Definition exec_stmt (c : stmt) (s : status) (v : locals) : list stmt * status * locals * list (Z * Z * string * string) :=
  match c with
  | Dispatch e =>
      (match fill_stateMachine ∅ !! s_state s ≫= (!!) e with Some f => handler_code f | None => [] end, s, v, [])
  | TestSecure =>
      (if bool_decide (s_quality s = eTIMEQUALILTY_SECURE)
       then [SetQuality eTIMEQUALILTY_GOOD; SetState eSYSMGR_STATE_NTP_ACQUIRED] else [], s, v, [])
  | SetQuality q => ([], Status (s_state s) q (s_timersrc s), v, [])
  | SetState st => ([], Status st (s_quality s) (s_timersrc s), v, [])
  | SetSource src => ([], Status (s_state s) (s_quality s) src, v, [])
  | SetLabel label => ([], s, Locals (v_quality v) (v_source v) label, [])
  | SwitchLabel => ([], s, Locals (v_quality v) (v_source v) (quality_label (s_quality s)), [])
  | ReadQuality => ([], s, Locals (s_quality s) (v_source v) (v_label v), [])
  | ReadSource => ([], s, Locals (v_quality v) (s_timersrc s) (v_label v), [])
  | Send event => ([], s, v, [sent_core event v])
  end.

(** A section run without interruption. *)
Fixpoint run_section (fuel : nat) (code : list stmt) (s : status) (v : locals) (msgs : list (Z * Z * string * string)) :
    option (status * locals * list (Z * Z * string * string)) :=
  match fuel, code with
  | _, [] => Some (s, v, msgs)
  | O, _ => None
  | S fuel, c :: code =>
      let '(more, s', v', new) := exec_stmt c s v in run_section fuel (more ++ code) s' v' (new ++ msgs)
  end.

(** ** The machine *)

(** A thread inside: what it is doing, the statements left, its variables. *)
Record critical := Critical { cs_input : input; cs_rest : list stmt; cs_locals : locals }.

(** The members, the holder of the mutex, the threads between taking and
    releasing it, the messages sent (most recent first), the answers to queries
    (most recent first).  Ghost: the inputs whose sections have ended, in order. *)
Record lock_sys := LockSys {
  ls_status : status;
  ls_holder : option nat;
  ls_inside : gmap nat critical;
  ls_msgs : list (Z * Z * string * string);
  ls_answers : list locals;
  ls_done : list input
}.

Definition lock_start (s : status) (msgs : list (Z * Z * string * string)) : lock_sys := LockSys s None ∅ msgs [] [].

(** The answer of a query. *)
Definition answer_of (i : input) (v : locals) : list locals := match i with IQuery _ => [v] | _ => [] end.

(** src: systimemgr.cpp:185-200 SysTimeMgr::runStateMachine
    Taking the mutex, one statement, releasing it.  [v] is what the variables hold
    before they are assigned. *)
Inductive lock_step : lock_sys → lock_sys → Prop :=
  | ls_acquire s t i v :
      ls_holder s = None → ls_inside s !! t = None →
      lock_step s (LockSys (ls_status s) (Some t) (<[t := Critical i (section_code i) v]> (ls_inside s)) (ls_msgs s)
                     (ls_answers s) (ls_done s))
  | ls_statement s t i c rest v more st' v' new :
      ls_inside s !! t = Some (Critical i (c :: rest) v) → exec_stmt c (ls_status s) v = (more, st', v', new) →
      lock_step s (LockSys st' (ls_holder s) (<[t := Critical i (more ++ rest) v']> (ls_inside s)) (new ++ ls_msgs s)
                     (ls_answers s) (ls_done s))
  | ls_release s t i v :
      ls_inside s !! t = Some (Critical i [] v) →
      lock_step s (LockSys (ls_status s) None (delete t (ls_inside s)) (ls_msgs s) (answer_of i v ++ ls_answers s)
                     (ls_done s ++ [i])).

(** ** Uninterrupted, a section does what the abstract machine does *)

(** The answer of a status. *)
Definition answer_in (s : status) : locals := Locals (s_quality s) (s_timersrc s) (quality_label (s_quality s)).

(** The answers the abstract machine gives, most recent first. *)
Definition spec_answers (s : status) (l : list input) : list locals :=
  snd (foldl (λ a i, (fst (spec_input a.1 i), answer_of i (answer_in a.1) ++ a.2)) (s, []) l).

Section spec.
Context (n : string).

Definition input_cores (s : status) (i : input) : list (Z * Z * string * string) :=
  map msg_core (notice_msgs (Some (IarmPublish n)) (fst (spec_input s i)) (snd (spec_input s i)) 0).

Lemma section_spec i s v msgs :
  ∃ v', run_section 9 (section_code i) s v msgs = Some (fst (spec_input s i), v', input_cores s i ++ msgs) ∧
    answer_of i v' = answer_of i (answer_in s).
Proof.
  destruct s as [st q src], i as [e args| |p]; unfold section_code.
  - cbn [run_section exec_stmt s_state]. rewrite table_filled.
    destruct st, e; cbn; by eexists.
  - destruct q; by eexists.
  - by eexists.
Qed.

(** The invariant: with the mutex free nobody is inside and the members are the
    abstract machine's; otherwise its holder alone is inside, and the rest of its
    section leads to where the abstract machine goes. *)
Definition lock_ok (st0 : status) (msgs0 : list (Z * Z * string * string)) (s : lock_sys) : Prop :=
  let a := spec_inputs st0 (ls_done s) in
  let sent := reverse (spec_msgs (Some (IarmPublish n)) st0 (ls_done s)) ++ msgs0 in
  ls_answers s = spec_answers st0 (ls_done s) ∧
  match ls_holder s with
  | None => ls_inside s = ∅ ∧ ls_status s = a ∧ ls_msgs s = sent
  | Some t => ∃ i rest v fuel v',
      ls_inside s = {[t := Critical i rest v]} ∧
      run_section fuel rest (ls_status s) v (ls_msgs s) = Some (fst (spec_input a i), v', input_cores a i ++ sent) ∧
      answer_of i v' = answer_of i (answer_in a)
  end.

Lemma spec_answers_snoc st l i :
  spec_answers st (l ++ [i]) = answer_of i (answer_in (spec_inputs st l)) ++ spec_answers st l.
Proof.
  unfold spec_answers, spec_inputs. rewrite foldl_app. simpl. f_equal. f_equal. f_equal.
  assert (∀ a, fst (foldl (λ (a : status * list locals) i, (fst (spec_input a.1 i), answer_of i (answer_in a.1) ++ a.2)) a l)
    = foldl (λ s i, fst (spec_input s i)) a.1 l) as H.
  { induction l as [|j l IH]; intros a; [done|]. simpl. by rewrite IH. }
  apply (H (st, [])).
Qed.

Lemma spec_msgs_snoc st l i :
  reverse (spec_msgs (Some (IarmPublish n)) st (l ++ [i]))
  = input_cores (spec_inputs st l) i ++ reverse (spec_msgs (Some (IarmPublish n)) st l).
Proof.
  assert (spec_msgs (Some (IarmPublish n)) st (l ++ [i])
    = spec_msgs (Some (IarmPublish n)) st l ++ input_cores (spec_inputs st l) i) as ->.
  { revert st. induction l as [|j l IH]; intros st; [apply app_nil_r|].
    cbn [spec_msgs app]. by rewrite IH, app_assoc. }
  rewrite reverse_app. unfold input_cores. by rewrite notice_rev.
Qed.

Lemma lock_ok_step st0 msgs0 s s' : lock_step s s' → lock_ok st0 msgs0 s → lock_ok st0 msgs0 s'.
Proof.
  intros Hstep [Hans Hok]. destruct Hstep as [s t i v Hh Ht|s t i c rest v more st' v' new Ht Hx|s t i v Ht].
  - rewrite Hh in Hok. destruct Hok as (He & Hs & Hm). split; [done|]. simpl.
    destruct (section_spec i (ls_status s) v (ls_msgs s)) as (v' & Hrun & Hv).
    exists i, (section_code i), v, 9%nat, v'. rewrite He, <- Hs, <- Hm. by rewrite insert_empty.
  - destruct (ls_holder s) as [t'|] eqn:Hh; [|destruct Hok as (He & _); by rewrite He, lookup_empty in Ht].
    destruct Hok as (i' & rest' & w & fuel & w' & Hin & Hrun & Hv). rewrite Hin in Ht.
    apply lookup_singleton_Some in Ht as [-> [= -> -> ->]]. split; [done|]. simpl.
    destruct fuel as [|fuel]; [done|]. cbn [run_section] in Hrun. rewrite Hx in Hrun.
    exists i, (more ++ rest), v', fuel, w'. split; [rewrite Hin; apply insert_singleton_eq|].
    split; [exact Hrun|exact Hv].
  - destruct (ls_holder s) as [t'|] eqn:Hh; [|destruct Hok as (He & _); by rewrite He, lookup_empty in Ht].
    destruct Hok as (i' & rest' & w & fuel & w' & Hin & Hrun & Hv). rewrite Hin in Ht.
    apply lookup_singleton_Some in Ht as [-> [= -> -> ->]].
    assert (Some (ls_status s, v, ls_msgs s) = Some (fst (spec_input (spec_inputs st0 (ls_done s)) i), w',
      input_cores (spec_inputs st0 (ls_done s)) i ++ reverse (spec_msgs (Some (IarmPublish n)) st0 (ls_done s)) ++ msgs0))
      as [= Hs <- Hm] by (rewrite <- Hrun; by destruct fuel).
    split; simpl; [by rewrite spec_answers_snoc, Hans, Hv|].
    rewrite Hin, delete_singleton_eq, spec_msgs_snoc, <- app_assoc. split; [done|].
    unfold spec_inputs in *. by rewrite foldl_app.
Qed.
End spec.

(** ** The sections are those of the operations *)

Section operations.
Context {E : Env} {B : Build}.
#[local] Instance section_srcs : ITimeSrcSpec false TimeSrcObj := TimeSrcObj_spec false never never.
#[local] Instance section_syncs : ITimeSyncSpec false TimeSyncObj := TimeSyncObj_spec false never never.

Lemma section_operation n i v (m m' : mgr TimeSrcObj TimeSyncObj) (w w' : world) :
  stateMachine m = fill_stateMachine ∅ → m_publish m = Some (IarmPublish n) → run_input i (m, w) = (Ret tt, (m', w')) →
  ∃ v' cores, run_section 9 (section_code i) (status_of m) v [] = Some (status_of m', v', cores) ∧
    map msg_core (broadcasts (w_trace w')) = cores ++ map msg_core (broadcasts (w_trace w)).
Proof.
  intros Hsm Hp Hrun.
  destruct (proj1 (wp_partial_run _ _ _) (wp_run_input false never 0 i m w Hsm never) tt (m', w') Hrun)
    as (Hs & _ & (now & ss & [Hb _] & _) & _). cbn [fst snd] in *.
  destruct (section_spec n i (status_of m) v []) as (v' & Hsec & _).
  exists v', (input_cores n (status_of m) i). rewrite Hsec, Hs, app_nil_r. split; [done|].
  rewrite Hb, map_app, Hp. by rewrite (notice_core _ _ _ now 0).
Qed.

(** What a query returns is the answer of the status. *)
Definition answers_with (r : TimerMsg) (v : locals) : Prop :=
  msg_quality r = qualityOfTime_code (v_quality v) ∧
  msg_timerSrc r = snprintf_s cTIMER_STATUS_MESSAGE_LENGTH (v_source v) ∧ msg_message r = v_label v.

Lemma query_answer p (r : TimerMsg) (m : mgr TimeSrcObj TimeSyncObj) (w : world) s' :
  getTimeStatus p (m, w) = (Ret r, s') → answers_with r (answer_in (status_of m)).
Proof.
  intros Hrun. refine (proj1 (wp_partial_run _ (λ r _, answers_with r (answer_in (status_of m))) _) _ r s' Hrun).
  by apply (wp_getTimeStatus false never).
Qed.

(** C21: the critical sections take effect one after the other.  However the threads
    are stopped between the statements of their sections, at most one is inside;
    whenever the mutex is free, the members and the messages sent are those of the
    abstract machine on the inputs whose sections have ended, in that order, and
    every query has answered with the quality, source and text of one status in
    that order, never a mixture of two.  A section that runs to its end does what
    the operation of the object does, and a query returns its answer. *)
Theorem sections_are_atomic (n : string) (st0 : status) (msgs0 : list (Z * Z * string * string)) (s : lock_sys) :
  rtc lock_step (lock_start st0 msgs0) s →
  (∀ t1 t2, is_Some (ls_inside s !! t1) → is_Some (ls_inside s !! t2) → t1 = t2) ∧
  ls_answers s = spec_answers st0 (ls_done s) ∧
  (ls_holder s = None →
     ls_status s = spec_inputs st0 (ls_done s) ∧
     ls_msgs s = reverse (spec_msgs (Some (IarmPublish n)) st0 (ls_done s)) ++ msgs0) ∧
  (∀ i v (m m' : mgr TimeSrcObj TimeSyncObj) w w',
     stateMachine m = fill_stateMachine ∅ → m_publish m = Some (IarmPublish n) →
     run_input i (m, w) = (Ret tt, (m', w')) →
     ∃ v' cores, run_section 9 (section_code i) (status_of m) v [] = Some (status_of m', v', cores) ∧
       map msg_core (broadcasts (w_trace w')) = cores ++ map msg_core (broadcasts (w_trace w))) ∧
  (∀ p r (m : mgr TimeSrcObj TimeSyncObj) w s', getTimeStatus p (m, w) = (Ret r, s') →
     answers_with r (answer_in (status_of m))).
Proof.
  intros Hr. assert (lock_ok n st0 msgs0 s) as [Hans Hok].
  { assert (lock_ok n st0 msgs0 (lock_start st0 msgs0)) as H0 by (split; [done|by split_and!]).
    induction Hr as [|s1 s2 s3 Hstep _ IH]; [done|]. by eapply IH, lock_ok_step. }
  split_and!; [|done| |intros i v m m' w w'; apply section_operation|intros p r m w s'; apply query_answer].
  - intros t1 t2 [c1 H1] [c2 H2]. destruct (ls_holder s) as [t|].
    + destruct Hok as (i & rest & v & fuel & v' & Hin & _). rewrite Hin in *.
      apply lookup_singleton_Some in H1 as [<- _]. by apply lookup_singleton_Some in H2 as [<- _].
    + destruct Hok as [He _]. by rewrite He, lookup_empty in H1.
  - intros Hh. rewrite Hh in Hok. by destruct Hok as (_ & ? & ?).
Qed.
End operations.

(** ** Witness

    A query is stopped after it has read the quality, while network time waits for
    the mutex; then both finish. *)
Definition lk_query : input := IQuery (mkTimerMsg 0 0 "" "" "").
Definition lk_ntp : input := IEvent eSYSMGR_EVENT_NTP_AVAILABLE None.
Definition lk_poor : status := Status eSYSMGR_STATE_NTP_WAIT eTIMEQUALILTY_POOR "Last Known".
Definition lk_v : locals := Locals eTIMEQUALILTY_UNKNOWN "" "".

(** One more step of the thread inside. *)
Definition lk_run (t : nat) (s : lock_sys) : lock_sys :=
  match ls_inside s !! t with
  | Some (Critical i (c :: rest) v) =>
      let '(more, st', v', new) := exec_stmt c (ls_status s) v in
      LockSys st' (ls_holder s) (<[t := Critical i (more ++ rest) v']> (ls_inside s)) (new ++ ls_msgs s) (ls_answers s) (ls_done s)
  | Some (Critical i [] v) =>
      LockSys (ls_status s) None (delete t (ls_inside s)) (ls_msgs s) (answer_of i v ++ ls_answers s) (ls_done s ++ [i])
  | None => s
  end.
Definition lk_enter (t : nat) (i : input) (s : lock_sys) : lock_sys :=
  LockSys (ls_status s) (Some t) (<[t := Critical i (section_code i) lk_v]> (ls_inside s)) (ls_msgs s) (ls_answers s) (ls_done s).

Lemma lk_run_steps t k s : rtc lock_step s (Nat.iter k (lk_run t) s).
Proof.
  induction k as [|k IH]; [apply rtc_refl|]. etransitivity; [exact IH|]. simpl. clear IH.
  generalize (Nat.iter k (lk_run t) s). intros s1. unfold lk_run.
  destruct (ls_inside s1 !! t) as [[i [|c rest] v]|] eqn:Ht; [by apply rtc_once, ls_release| |apply rtc_refl].
  destruct (exec_stmt c (ls_status s1) v) as [[[more st'] v'] new] eqn:Hx. apply rtc_once. by eapply ls_statement.
Qed.

Definition lk_end : lock_sys :=
  Nat.iter 9 (lk_run 1) (lk_enter 1 lk_ntp (Nat.iter 4 (lk_run 7) (lk_enter 7 lk_query (lock_start lk_poor [])))).

Lemma lk_end_reached : rtc lock_step (lock_start lk_poor []) lk_end.
Proof.
  eapply rtc_l; [by apply (ls_acquire _ 7 lk_query lk_v)|].
  etransitivity; [apply (lk_run_steps 7 4)|].
  eapply rtc_l; [by apply (ls_acquire _ 1 lk_ntp lk_v)|]. apply (lk_run_steps 1 9).
Qed.

Lemma sections_are_atomic_witness :
  ls_done lk_end = [lk_query; lk_ntp] ∧ ls_answers lk_end = [Locals eTIMEQUALILTY_POOR "Last Known" "Poor"] ∧
  ls_status lk_end = Status eSYSMGR_STATE_NTP_ACQUIRED eTIMEQUALILTY_GOOD "NTP" ∧
  ls_msgs lk_end = [(2, 1, "NTP", "Good")].
Proof.
  destruct (@sections_are_atomic good_env good_build IARM_BUS_SYSTIME_MGR_NAME lk_poor [] lk_end lk_end_reached)
    as (_ & Ha & Hs & _). destruct Hs as [Hs Hm]; [vm_compute; reflexivity|].
  split; [vm_compute; reflexivity|]. rewrite Ha, Hs, Hm.
  split; [vm_compute; reflexivity|]. split; vm_compute; reflexivity.
Defined.
