(* ===== verification/NetworkStatus.v ===== *)
(** * NetworkStatus: systimerfactory/networkstatussrc.cpp

    The reaction to internet connectivity on devices that run chronyd: the
    decision procedure [processInternetOnline], the Thunder callback that detects
    the transition to fully connected, the subscription retry loop, and the three
    threads around one mutex and one condition variable as a step relation. *)

From Corelib Require Import SpecFloat.
From S2P Require Import Prelude CString Platform TestEnv.

(** ** The chrony decision procedure *)

(** src: systimerfactory/networkstatussrc.cpp:64-64 OFFSET_STEP_THRESHOLD_S
    The double 1.0. *)
Definition OFFSET_STEP_THRESHOLD_S : spec_float := S754_finite false 4503599627370496 (-52).

Section procedure.
Context {E : Env}.

(** src: systimerfactory/networkstatussrc.cpp:117-183 processInternetOnline
    The branch before the first synchronisation of this boot. *)
Definition first_sync_pending : M world unit :=
  chronyActive ← sys (SecureSystem "/bin/systemctl is-active --quiet chronyd.service");
  if negb (bool_decide (chronyActive = 0)) then mret tt
  else
    srcCount ← sys ChronyGetSourceCount;
    if negb (bool_decide (srcCount.1 = 0)) then mret tt
    else if bool_decide (srcCount.2 > 0) then mret tt
    else _ ← sys ChronyOnline; mret tt.

(** src: systimerfactory/networkstatussrc.cpp:187-275 processInternetOnline
    The branch after it. *)
Definition resync : M world unit :=
  sel ← sys ChronyHasSelectable;
  let hasSelectableSource := bool_decide (sel.1 = 0) && negb (bool_decide (sel.2 = 0)) in
  if negb hasSelectableSource then
    _ ← sys (ChronyBurst 4 6);
    waitRet ← sys (ChronyWaitsync 20 1);
    if negb (bool_decide (waitRet = 0)) then mret tt
    else _ ← sys ChronyMakestep; mret tt
  else
    off ← sys ChronyGetSystemTimeOffset;
    let offset := if bool_decide (off.1 = 0) then off.2 else S754_zero false in
    if SFltb OFFSET_STEP_THRESHOLD_S (SFabs offset) then _ ← sys ChronyMakestep; mret tt
    else mret tt.

(** src: systimerfactory/networkstatussrc.cpp:110-277 processInternetOnline *)
Definition processInternetOnline : M world unit :=
  firstSyncDone ← file_exists "/tmp/clock-event";
  if negb firstSyncDone then first_sync_pending else resync.
End procedure.

(** ** The callback *)

(** src: systimerfactory/networkstatussrc.cpp:84-89 NetworkSharedState
    With the file-scope [lastStatus] and [m_networkeventsubscribed]. *)
Record NetState := mkNetState {
  lastStatus : string;
  internetUpPending : bool;
  stopProcessing : bool;
  m_networkeventsubscribed : bool
}.

(** src: systimerfactory/networkstatussrc.cpp:91-104 sharedState
    As the function-local static and the file-scope variables are initialised. *)
Definition net_init : NetState := mkNetState "" false false false.

(** A [JsonObject] as the callback reads it: the texts of two labels. *)
Record net_params := NetParams { p_status : option string; p_internetStatus : option string }.

(** src: systimerfactory/networkstatussrc.cpp:287-295 handle_internetStatusChange
    The normalised status of a notification. *)
Definition normalizedStatus (params : net_params) : string :=
  string_tolower (match p_status params with
                  | Some s => s
                  | None => default "" (p_internetStatus params)
                  end).

(** src: systimerfactory/networkstatussrc.cpp:285-314 handle_internetStatusChange
    The new shared state, and whether the condition variable is signalled. *)
Definition handle_internetStatusChange (params : net_params) (s : NetState) : NetState * bool :=
  let status := normalizedStatus params in
  let prev := lastStatus s in
  if negb (bool_decide (status = "fully_connected")) || bool_decide (status = prev) then
    (mkNetState status (internetUpPending s) (stopProcessing s) (m_networkeventsubscribed s), false)
  else
    (mkNetState status true (stopProcessing s) (m_networkeventsubscribed s), true).

(** ** The subscription loop *)

Section subscription.
Context {E : Env}.

(** src: systimerfactory/networkstatussrc.cpp:355-404 subscribeToInternetEvent
    With no shutdown in sight each wait ends by its deadline.  Returns the
    number of attempts; [None]: the fuel ran out. *)
Fixpoint subscribeToInternetEvent (fuel : nat) (attempt : nat) : M (NetState * world) (option nat) :=
  match fuel with
  | O => mret None
  | S fuel =>
      sub ← gets (λ sw, m_networkeventsubscribed sw.1);
      if (sub : bool) then mret (Some attempt)
      else
        stop ← gets (λ sw, stopProcessing sw.1);
        if (stop : bool) then mret (Some attempt)
        else
          ret ← on_snd (sys (ThunderSubscribe "onInternetStatusChange"));
          if bool_decide (ret = 0) then
            _ ← modify (λ sw, (mkNetState (lastStatus sw.1) (internetUpPending sw.1) (stopProcessing sw.1) true,
                              sw.2));
            mret (Some (S attempt))
          else subscribeToInternetEvent fuel (S attempt)
  end.
End subscription.

(** ** Properties of the procedure *)

(** The chrony actions in a log, most recent first. *)
Inductive chrony_action := AOnline | ABurst | AWaitsync | AMakestep.

#[export] Instance chrony_action_eq_dec : EqDecision chrony_action.
Proof. solve_decision. Defined.

Definition action_of (e : ev) : option chrony_action :=
  match ev_call e with
  | ChronyOnline => Some AOnline
  | ChronyBurst _ _ => Some ABurst
  | ChronyWaitsync _ _ => Some AWaitsync
  | ChronyMakestep => Some AMakestep
  | _ => None
  end.

Definition actions (l : list ev) : list chrony_action := omap action_of l.

(** What the platform answers when asked. *)
Record net_answers := NetAnswers {
  na_active : Z;
  na_sources : Z * Z;
  na_selectable : Z * Z;
  na_waitsync : Z;
  na_offset : Z * spec_float
}.

(** The scenarios of the procedure's comments, as the actions they ask for, in
    order.  Before the first synchronisation: A, chronyd not started; B, it has
    sources; C, it has none.  After it: D, no selected source; E, a selected
    source and a large offset; F, a small one. *)
Definition online_plan (clock_event : bool) (a : net_answers) : list chrony_action :=
  if clock_event then
    if bool_decide (fst (na_selectable a) = 0 ∧ snd (na_selectable a) ≠ 0) then
      if bool_decide (fst (na_offset a) = 0) && SFltb OFFSET_STEP_THRESHOLD_S (SFabs (snd (na_offset a)))
      then [AMakestep] else []
    else if bool_decide (na_waitsync a = 0) then [ABurst; AWaitsync; AMakestep] else [ABurst; AWaitsync]
  else if bool_decide (na_active a = 0 ∧ fst (na_sources a) = 0 ∧ snd (na_sources a) ≤ 0) then [AOnline]
  else [].

(** The answer that justifies a step: a source was selected, or the offset is
    known and exceeds a second. *)
Definition justifies (e : ev) : bool :=
  match e with
  | @Ev _ (ChronyWaitsync _ _) r => bool_decide (r = 0)
  | @Ev _ ChronyGetSystemTimeOffset (rc, off) =>
      bool_decide (rc = 0) && SFltb OFFSET_STEP_THRESHOLD_S (SFabs off)
  | _ => false
  end.

(** Every step in a log comes directly after its justification. *)
Fixpoint steps_justified (l : list ev) : bool :=
  match l with
  | [] => true
  | e :: l =>
      (match action_of e, l with
       | Some AMakestep, e' :: _ => justifies e'
       | Some AMakestep, [] => false
       | _, _ => true
       end) && steps_justified l
  end.

(** The clock is stepped only with a justification.  Whatever chronyd, the
    kernel and systemd answer, [processInternetOnline] returns, changes no file,
    and asks for a step only directly after a wait that found a source or an
    offset reading above one second, and only when this boot has been
    synchronised before. *)
Lemma makestep_only_justified {E : Env} (w : world) :
  ∃ w' l, processInternetOnline w = (Ret tt, w') ∧ w_trace w' = l ++ w_trace w ∧ w_fs w' = w_fs w ∧
    steps_justified l = true ∧
    (AMakestep ∈ actions l → is_Some (w_fs w !! "/tmp/clock-event")).
Proof.
  unfold processInternetOnline, file_exists. rewrite (bind_run _ _ w
    (bool_decide (is_Some (w_fs w !! "/tmp/clock-event"))) w) by done.
  case_bool_decide as Hev; simpl.
  - unfold resync, sys, mbind, M_bind. simpl.
    set (sel := answer _ ChronyHasSelectable). set (w1 := log _ w).
    destruct (bool_decide (sel.1 = 0) && negb (bool_decide (sel.2 = 0))); simpl.
    + set (off := answer _ ChronyGetSystemTimeOffset). destruct off as [rc x] eqn:Hoff. simpl.
      destruct (SFltb OFFSET_STEP_THRESHOLD_S (SFabs (if bool_decide (rc = 0) then x else S754_zero false)))
        eqn:Hlt; simpl.
      * eexists _, [_; _; _]. split; [reflexivity|]. do 2 (split; [reflexivity|]). split; [|done].
        simpl. destruct (bool_decide (rc = 0)); [|by vm_compute in Hlt]. by rewrite Hlt.
      * eexists _, [_; _]. split; [reflexivity|]. repeat split; done.
    + case_bool_decide as Hw; simpl.
      * eexists _, [_; _; _; _]. split; [reflexivity|]. repeat split; [|done].
        simpl. rewrite bool_decide_eq_true_2; done.
      * eexists _, [_; _; _]. split; [reflexivity|]. repeat split; done.
  - unfold first_sync_pending, sys, mbind, M_bind. simpl.
    case_bool_decide; simpl; [|eexists _, [_]; split; [reflexivity|]; repeat split; by intros ?%elem_of_nil].
    case_bool_decide; simpl; [|eexists _, [_; _]; split; [reflexivity|]; repeat split; by intros ?%elem_of_nil].
    case_bool_decide; simpl; [eexists _, [_; _]; split; [reflexivity|]; repeat split; by intros ?%elem_of_nil|].
    eexists _, [_; _; _]. split; [reflexivity|]. repeat split. simpl. by intros ?%list_elem_of_singleton.
Qed.

(** C27: the procedure follows the scenario table.  On a platform that gives the
    answers [a], the actions asked of chronyd are exactly those of the table, in
    its order: nothing when chronyd is down or already has sources, going online
    when it has none, burst and wait without a selected source and a step only
    after a successful wait, a step above one second of offset, nothing below. *)
Theorem internet_online_plan {E : Env} (a : net_answers) (w : world) :
  (∀ h, answer h (SecureSystem "/bin/systemctl is-active --quiet chronyd.service") = na_active a) →
  (∀ h, answer h ChronyGetSourceCount = na_sources a) →
  (∀ h, answer h ChronyHasSelectable = na_selectable a) →
  (∀ h, answer h (ChronyWaitsync 20 1) = na_waitsync a) →
  (∀ h, answer h ChronyGetSystemTimeOffset = na_offset a) →
  ∃ w' l, processInternetOnline w = (Ret tt, w') ∧ w_trace w' = l ++ w_trace w ∧
    reverse (actions l) = online_plan (bool_decide (is_Some (w_fs w !! "/tmp/clock-event"))) a.
Proof.
  intros Ha Hs Hsel Hwait Hoff. unfold processInternetOnline, file_exists, online_plan.
  rewrite (bind_run _ _ w (bool_decide (is_Some (w_fs w !! "/tmp/clock-event"))) w) by done.
  case_bool_decide as Hev; simpl.
  - unfold resync, sys, mbind, M_bind. simpl. rewrite Hsel. destruct (na_selectable a) as [rs ns].
    rewrite bool_decide_and, bool_decide_not. simpl.
    destruct (bool_decide (rs = 0)), (bool_decide (ns = 0)); simpl.
    2:{ rewrite Hoff. destruct (na_offset a) as [rc x]. simpl. case_bool_decide; simpl.
        - destruct (SFltb _ _); [eexists _, [_; _; _]|eexists _, [_; _]]; repeat split.
        - eexists _, [_; _]. repeat split. }
    all: rewrite Hwait; case_bool_decide; [eexists _, [_; _; _; _]|eexists _, [_; _; _]]; repeat split.
  - unfold first_sync_pending, sys, mbind, M_bind. simpl. rewrite Ha, !bool_decide_and.
    case_bool_decide; simpl; [|eexists _, [_]; repeat split].
    rewrite Hs. destruct (na_sources a) as [rs ns]. simpl.
    case_bool_decide; simpl; [|eexists _, [_; _]; repeat split].
    case_bool_decide as H1; case_bool_decide as H2; try lia;
      [eexists _, [_; _]|eexists _, [_; _; _]]; repeat split.
Qed.

Lemma internet_online_plan_witness :
  ∃ w' l, @processInternetOnline (test_env plain) good_world = (Ret tt, w') ∧ w_trace w' = l ++ [] ∧
    reverse (actions l) = [].
Proof.
  exact (@internet_online_plan (test_env plain) (NetAnswers 0 (0, 1) (0, 1) 0 (0, S754_zero false)) good_world
    (λ h, eq_refl) (λ h, eq_refl) (λ h, eq_refl) (λ h, eq_refl) (λ h, eq_refl)).
Defined.

(** ** The callback detects transitions *)

(** The signals of a sequence of notifications. *)
Fixpoint callbacks (s : NetState) (l : list net_params) : NetState * list bool :=
  match l with
  | [] => (s, [])
  | p :: l =>
      let '(s1, b) := handle_internetStatusChange p s in
      let '(s2, bs) := callbacks s1 l in (s2, b :: bs)
  end.

(** A transition to fully connected, by the statuses alone. *)
Fixpoint edges (prev : string) (l : list string) : list bool :=
  match l with
  | [] => []
  | x :: l => bool_decide (x = "fully_connected" ∧ prev ≠ "fully_connected") :: edges x l
  end.

Lemma handle_edge p s :
  snd (handle_internetStatusChange p s)
  = bool_decide (normalizedStatus p = "fully_connected" ∧ lastStatus s ≠ "fully_connected") ∧
  lastStatus (fst (handle_internetStatusChange p s)) = normalizedStatus p.
Proof.
  unfold handle_internetStatusChange.
  destruct (decide (normalizedStatus p = "fully_connected")) as [->|Hne]; simpl.
  - destruct (decide (lastStatus s = "fully_connected")) as [->|Hne]; simpl; [done|].
    rewrite (bool_decide_eq_false_2 ("fully_connected" = lastStatus s)) by congruence. simpl.
    rewrite bool_decide_eq_true_2; done.
  - rewrite (bool_decide_eq_false_2 _ Hne). simpl. rewrite bool_decide_eq_false_2; [done|]. by intros [].
Qed.

(** C32: the callback signals the processing thread exactly on a change from
    another status to fully connected, case and label aside; repeats are silent
    and an up, down, up sequence signals twice.  Every notification is recorded,
    so the last status is always the latest one, and the pending flag is raised
    by a signal and never lowered. *)
Theorem callback_signals_edges (l : list net_params) (s : NetState) :
  snd (callbacks s l) = edges (lastStatus s) (map normalizedStatus l) ∧
  lastStatus (fst (callbacks s l)) = default (lastStatus s) (last (map normalizedStatus l)) ∧
  internetUpPending (fst (callbacks s l)) = internetUpPending s || existsb id (snd (callbacks s l)).
Proof.
  revert s. induction l as [|p l IH]; intros s; simpl; [by rewrite orb_false_r|].
  destruct (handle_internetStatusChange p s) as [s1 b] eqn:Hh.
  destruct (handle_edge p s) as [Hb Hs]. rewrite Hh in Hb, Hs. simpl in Hb, Hs.
  destruct (IH s1) as (IH1 & IH2 & IH3). destruct (callbacks s1 l) as [s2 bs]. simpl in *.
  split; [by rewrite IH1, Hb, Hs|]. split.
  - rewrite IH2, Hs, last_cons. by destruct (last (map normalizedStatus l)).
  - rewrite IH3, orb_assoc. f_equal. unfold handle_internetStatusChange in Hh.
    destruct (_ || _); injection Hh as <- <-; simpl; [by rewrite orb_false_r|by rewrite orb_true_r].
Qed.

(** ** The subscription loop ends with the first success *)

Definition subscribe_calls (l : list ev) : nat := count_calls (@is_subscribe) l.

Lemma subscribe_calls_app l1 l2 : subscribe_calls (l1 ++ l2) = (subscribe_calls l1 + subscribe_calls l2)%nat.
Proof. unfold subscribe_calls, count_calls. by rewrite filter_app, length_app. Qed.

Lemma subscribe_loop {E : Env} (r : nat → Z) (k : nat) fuel attempt s w :
  (∀ h, answer h (ThunderSubscribe "onInternetStatusChange") = r (subscribe_calls h)) →
  (∀ i, (i < k)%nat → r (subscribe_calls (w_trace w) + i)%nat ≠ 0) → r (subscribe_calls (w_trace w) + k)%nat = 0 →
  m_networkeventsubscribed s = false → stopProcessing s = false → (k < fuel)%nat →
  ∃ w', subscribeToInternetEvent fuel attempt (s, w)
    = (Ret (Some (attempt + S k)%nat),
       (mkNetState (lastStatus s) (internetUpPending s) false true, w')) ∧
    subscribe_calls (w_trace w') = (subscribe_calls (w_trace w) + S k)%nat.
Proof.
  intros Hr. revert fuel attempt w. induction k as [|k IH]; intros [|fuel] attempt w Hf Hk Hs Hst Hlt;
    try lia; simpl; unfold mbind, M_bind, gets, on_snd, sys; simpl; rewrite Hs; simpl; rewrite Hst; simpl; rewrite Hr.
  - rewrite Nat.add_0_r in Hk. rewrite Hk. simpl. eexists. split; [by rewrite Nat.add_1_r, ?Hst|].
    simpl. unfold subscribe_calls, count_calls. simpl. lia.
  - pose proof (Hf 0%nat ltac:(lia)) as H0. rewrite Nat.add_0_r in H0.
    rewrite (bool_decide_eq_false_2 _ H0).
    set (w1 := log _ w).
    assert (subscribe_calls (w_trace w1) = S (subscribe_calls (w_trace w))) as Hc by done.
    destruct (IH fuel (S attempt) w1) as (w' & Hrun & Hcalls); try done; try lia.
    + intros i Hi. rewrite Hc. replace (S _ + i)%nat with (subscribe_calls (w_trace w) + S i)%nat by lia.
      apply Hf. lia.
    + rewrite Hc. by replace (S _ + k)%nat with (subscribe_calls (w_trace w) + S k)%nat by lia.
    + exists w'. rewrite Hrun. split; [do 3 f_equal; lia|]. rewrite Hcalls, Hc. lia.
Qed.

(** The subscription retry loop ends: when the service accepts the first
    attempt after [k] refusals, the loop makes exactly [k + 1] attempts, marks
    the daemon subscribed and returns; a fuel above [k] is enough, and no later
    call subscribes again. *)
Theorem subscription_retries_until_success {E : Env} (r : nat → Z) (k fuel : nat) (s : NetState) (w : world) :
  (∀ h, answer h (ThunderSubscribe "onInternetStatusChange") = r (subscribe_calls h)) →
  (∀ i, (i < k)%nat → r (subscribe_calls (w_trace w) + i)%nat ≠ 0) →
  r (subscribe_calls (w_trace w) + k)%nat = 0 →
  m_networkeventsubscribed s = false → stopProcessing s = false → (k < fuel)%nat →
  ∃ s' w', subscribeToInternetEvent fuel 0 (s, w) = (Ret (Some (S k)), (s', w')) ∧
    m_networkeventsubscribed s' = true ∧
    subscribe_calls (w_trace w') = (subscribe_calls (w_trace w) + S k)%nat ∧
    subscribeToInternetEvent fuel 0 (s', w') = (Ret (Some 0%nat), (s', w')).
Proof.
  intros Hr Hf Hk Hs Hst Hlt. destruct (subscribe_loop r k fuel 0 s w) as (w' & Hrun & Hc); try done.
  eexists _, w'. split; [exact Hrun|]. do 2 (split; [done|]). destruct fuel; [lia|]. reflexivity.
Qed.

(** A service that refuses twice. *)
Definition refusing : overrides := {|
  o_clock := Some (1700000000, 0); o_ntp := 1700000000; o_settime := true; o_adjtimex := [];
  o_active := λ _, 0; o_selectable := (0, 1); o_sources := (0, 1);
  o_offset := (0, S754_zero false); o_waitsync := 0; o_rpc := λ _, None;
  o_timeUtc := ""; o_mtime := None; o_subscribe := [31; 31]; o_pwr := []
|}.

Lemma subscription_retries_until_success_witness :
  ∃ s' w', @subscribeToInternetEvent (test_env refusing) 5 0 (net_init, good_world)
      = (Ret (Some 3%nat), (s', w')) ∧
    m_networkeventsubscribed s' = true ∧ subscribe_calls (w_trace w') = 3%nat ∧
    @subscribeToInternetEvent (test_env refusing) 5 0 (s', w') = (Ret (Some 0%nat), (s', w')).
Proof.
  apply (@subscription_retries_until_success (test_env refusing) (λ i, default 0 ([31; 31] !! i)) 2 5
    net_init good_world); try reflexivity; [|lia].
  intros i Hi. destruct i as [|[|i]]; [discriminate|discriminate|lia].
Defined.

(** ** The threads

    Every access to the shared state is under its mutex, so a step is one
    critical section or one stretch of code outside; [cv.wait] releases the mutex
    and blocks at once.  The counters are ghosts: signals sent by the callback,
    runs of [processInternetOnline] started. *)

(** src: systimerfactory/networkstatussrc.cpp:325-351 NetworkStatusSrc::runEventProcessingLoop
    Where the processing thread is: before the critical section, blocked in
    [cv.wait], in [processInternetOnline], returned. *)
Inductive proc_pc := PCheck | PWait | PProcess | PExit.

(** src: systimerfactory/networkstatussrc.cpp:355-404 subscribeToInternetEvent
    Where the subscription thread is: before the loop test, in [Subscribe],
    blocked in [cv.wait_until], returned. *)
Inductive sub_pc := SCheck | SCall | SWait | SExit.

(** src: systimerfactory/networkstatussrc.cpp:412-436 NetworkStatusSrc::~NetworkStatusSrc
    Where the destructor is: not called, flag set, waiters notified. *)
Inductive dtor_pc := D0 | D1 | D2.

Record net_sys := NetSys {
  n_st : NetState;
  n_proc : proc_pc;
  n_sub : sub_pc;
  n_dtor : dtor_pc;
  n_signals : nat;
  n_runs : nat
}.

Definition net_start : net_sys := NetSys net_init PCheck SCheck D0 0 0.

(** src: systimerfactory/networkstatussrc.cpp:331-345 NetworkStatusSrc::runEventProcessingLoop
    The critical section of the processing thread. *)
Definition proc_check (s : net_sys) : net_sys :=
  let st := n_st s in
  if negb (internetUpPending st) && negb (stopProcessing st) then
    NetSys st PWait (n_sub s) (n_dtor s) (n_signals s) (n_runs s)
  else if stopProcessing st then
    NetSys st PExit (n_sub s) (n_dtor s) (n_signals s) (n_runs s)
  else
    NetSys (mkNetState (lastStatus st) false (stopProcessing st) (m_networkeventsubscribed st))
      PProcess (n_sub s) (n_dtor s) (n_signals s) (S (n_runs s)).

Definition set_proc (p : proc_pc) (s : net_sys) : net_sys :=
  NetSys (n_st s) p (n_sub s) (n_dtor s) (n_signals s) (n_runs s).
Definition set_sub (p : sub_pc) (s : net_sys) : net_sys :=
  NetSys (n_st s) (n_proc s) p (n_dtor s) (n_signals s) (n_runs s).

(** src: systimerfactory/networkstatussrc.cpp:358-371 subscribeToInternetEvent
    The loop test and the test of the stop flag. *)
Definition sub_check (s : net_sys) : net_sys :=
  if m_networkeventsubscribed (n_st s) || stopProcessing (n_st s) then set_sub SExit s else set_sub SCall s.

(** src: systimerfactory/networkstatussrc.cpp:376-381 subscribeToInternetEvent
    [Subscribe] succeeded. *)
Definition sub_ok (s : net_sys) : net_sys :=
  let st := n_st s in
  NetSys (mkNetState (lastStatus st) (internetUpPending st) (stopProcessing st) true)
    (n_proc s) SExit (n_dtor s) (n_signals s) (n_runs s).

(** src: systimerfactory/networkstatussrc.cpp:388-402 subscribeToInternetEvent
    [Subscribe] failed: entering the wait, or leaving it, tests the stop flag. *)
Definition sub_wait (s : net_sys) (next : sub_pc) : net_sys :=
  if stopProcessing (n_st s) then set_sub SExit s else set_sub next s.

(** [cv.notify_one()]: one of the waiting threads, if any, resumes; a resumed
    subscription thread goes back to its wait unless the stop flag is set. *)
Inductive notify_one : net_sys → net_sys → Prop :=
  | notify_proc s : n_proc s = PWait → notify_one s (set_proc PCheck s)
  | notify_sub s : n_sub s = SWait → notify_one s (sub_wait s SWait)
  | notify_none s : n_proc s ≠ PWait → n_sub s ≠ SWait → notify_one s s.

Definition with_state (st : NetState) (signals : nat) (s : net_sys) : net_sys :=
  NetSys st (n_proc s) (n_sub s) (n_dtor s) signals (n_runs s).

(** The steps of the processing thread. *)
Inductive proc_step : net_sys → net_sys → Prop :=
  | step_check s : n_proc s = PCheck → proc_step s (proc_check s)
  | step_done s : n_proc s = PProcess → proc_step s (set_proc PCheck s).

(** The steps of the subscription thread. *)
Inductive sub_step : net_sys → net_sys → Prop :=
  | step_sub_check s : n_sub s = SCheck → sub_step s (sub_check s)
  | step_sub_ok s : n_sub s = SCall → sub_step s (sub_ok s)
  | step_sub_fail s : n_sub s = SCall → sub_step s (sub_wait s SWait)
  | step_sub_timeout s : n_sub s = SWait → sub_step s (sub_wait s SCheck).

(** src: systimerfactory/networkstatussrc.cpp:285-436 NetworkStatusSrc
    All steps: of the processing thread (runEventProcessingLoop), the subscription
    thread (subscribeToInternetEvent), the callback (handle_internetStatusChange)
    and the destructor.  Thunder calls the callback while the client is subscribing or
    subscribed: after a failed attempt the client is deleted before the wait. *)
Inductive net_step : net_sys → net_sys → Prop :=
  | net_proc s s' : proc_step s s' → net_step s s'
  | net_sub s s' : sub_step s s' → net_step s s'
  | net_spurious s : n_proc s = PWait → net_step s (set_proc PCheck s)
  | net_silent s p st :
      n_sub s = SCall ∨ (n_sub s = SExit ∧ m_networkeventsubscribed (n_st s) = true) →
      handle_internetStatusChange p (n_st s) = (st, false) →
      net_step s (with_state st (n_signals s) s)
  | net_signal s p st s' :
      n_sub s = SCall ∨ (n_sub s = SExit ∧ m_networkeventsubscribed (n_st s) = true) →
      handle_internetStatusChange p (n_st s) = (st, true) →
      notify_one (with_state st (S (n_signals s)) s) s' → net_step s s'
  | net_stop s :
      n_dtor s = D0 →
      let st := n_st s in
      net_step s (NetSys (mkNetState (lastStatus st) (internetUpPending st) true (m_networkeventsubscribed st))
                    (n_proc s) (n_sub s) D1 (n_signals s) (n_runs s))
  | net_notify_all s :
      n_dtor s = D1 →
      net_step s (NetSys (n_st s) (match n_proc s with PWait => PCheck | p => p end)
                    (match n_sub s with SWait => SExit | p => p end) D2 (n_signals s) (n_runs s)).

Definition net_reachable (s : net_sys) : Prop := rtc net_step net_start s.

(** The invariant: a raised flag finds the processing thread awake, the
    destructor has set the flag before it notifies, nobody is left waiting after
    that, and every run answers a signal. *)
Definition net_inv (s : net_sys) : Prop :=
  (internetUpPending (n_st s) = true → n_proc s ≠ PWait) ∧
  (n_dtor s ≠ D0 → stopProcessing (n_st s) = true) ∧
  (n_dtor s = D2 → n_proc s ≠ PWait ∧ n_sub s ≠ SWait) ∧
  (n_runs s + (if internetUpPending (n_st s) then 1 else 0) ≤ n_signals s)%nat.

Lemma handle_state p s st b :
  handle_internetStatusChange p s = (st, b) →
  stopProcessing st = stopProcessing s ∧ m_networkeventsubscribed st = m_networkeventsubscribed s ∧
  (b = true → internetUpPending st = true) ∧ (b = false → internetUpPending st = internetUpPending s).
Proof. unfold handle_internetStatusChange. destruct (_ || _); intros [= <- <-]; done. Qed.

Lemma proc_step_inv s s' : proc_step s s' → net_inv s → net_inv s'.
Proof.
  intros [s1 Hp|s1 Hp] (H1 & H2 & H3 & H4).
  - unfold proc_check. destruct (stopProcessing (n_st s1)) eqn:Hst, (internetUpPending (n_st s1)) eqn:Hup;
      simpl; unfold net_inv; simpl; rewrite ?Hup, ?Hst; split_and!; try done; try lia;
      intros Hd; (split; [done|by apply H3]) || (assert (n_dtor s1 ≠ D0) as Hd' by (by rewrite Hd);
        by apply H2 in Hd').
  - unfold net_inv, set_proc. simpl. split_and!; [done|done| |done]. intros Hd. split; [done|by apply H3].
Qed.

Lemma sub_step_inv s s' : sub_step s s' → net_inv s → net_inv s'.
Proof.
  intros Hstep (H1 & H2 & H3 & H4).
  assert (∀ p, (p = SWait → stopProcessing (n_st s) = false) → net_inv (set_sub p s)) as Hset.
  { intros p Hp. unfold net_inv, set_sub. simpl. split_and!; [done|done| |done].
    intros Hd. split; [by apply H3|]. intros ->. assert (n_dtor s ≠ D0) as Hd' by (by rewrite Hd).
    apply H2 in Hd'. by rewrite Hp in Hd'. }
  destruct Hstep as [s Hp|s Hp|s Hp|s Hp].
  - unfold sub_check. destruct (_ || _); by apply Hset.
  - unfold net_inv, sub_ok. simpl. split_and!; [done|done| |done]. intros Hd. split; [by apply H3|done].
  - unfold sub_wait. destruct (stopProcessing (n_st s)) eqn:Hst; by apply Hset.
  - unfold sub_wait. destruct (stopProcessing (n_st s)) eqn:Hst; by apply Hset.
Qed.

Lemma net_step_inv s s' : net_step s s' → net_inv s → net_inv s'.
Proof.
  intros Hstep Hinv. destruct Hstep as [s s' Hp|s s' Hp|s Hp|s p st Hsub Hh|s p st s' Hsub Hh Hn|s Hd st|s Hd].
  - by eapply proc_step_inv.
  - by eapply sub_step_inv.
  - destruct Hinv as (H1 & H2 & H3 & H4). unfold net_inv, set_proc. simpl.
    split_and!; [done|done| |done]. intros Hd. split; [done|by apply H3].
  - destruct Hinv as (H1 & H2 & H3 & H4). apply handle_state in Hh as (E1 & E2 & _ & E3).
    unfold net_inv, with_state. simpl. rewrite E1, E3 by done. by split_and!.
  - destruct Hinv as (H1 & H2 & H3 & H4). apply handle_state in Hh as (E1 & E2 & E3 & _).
    specialize (E3 eq_refl). assert (n_sub s ≠ SWait) as Hnw by (destruct Hsub as [->|[-> _]]; done).
    remember (with_state st (S (n_signals s)) s) as s1 eqn:Hs1.
    assert (n_runs s + 1 ≤ S (n_signals s))%nat as Hrun by (destruct (internetUpPending (n_st s)); lia).
    destruct Hn as [s1 Hp|s1 Hw|s1 Hp Hw]; subst s1; [|done|].
    + unfold net_inv, set_proc. simpl. rewrite E1, E3. split_and!; [done|done|done|lia].
    + unfold net_inv. simpl in *. rewrite E1, E3. split_and!; [done|done|done|lia].
  - destruct Hinv as (H1 & H2 & H3 & H4). unfold net_inv. by split_and!.
  - destruct Hinv as (H1 & H2 & H3 & H4). unfold net_inv. simpl. split_and!; [| | |done].
    + intros Hup. specialize (H1 Hup). by destruct (n_proc s).
    + intros _. apply H2. by rewrite Hd.
    + intros _. by destruct (n_proc s), (n_sub s).
Qed.

Lemma net_reachable_inv s : net_reachable s → net_inv s.
Proof.
  intros Hr. assert (net_inv net_start) as Hinit by (by split_and!).
  unfold net_reachable in Hr. induction Hr as [|s1 s2 s3 Hstep _ IH]; [done|].
  apply IH. by eapply net_step_inv.
Qed.

(** The processing thread has not returned while no shutdown was asked for. *)
Definition exit_inv (s : net_sys) : Prop := n_proc s = PExit → stopProcessing (n_st s) = true.

Lemma net_step_exit_inv s s' : net_step s s' → exit_inv s → exit_inv s'.
Proof.
  intros Hstep He. destruct Hstep as [s s' Hp|s s' Hp|s Hp|s p st Hsub Hh|s p st s' Hsub Hh Hn|s Hd st|s Hd].
  - destruct Hp as [s Hp|s Hp]; unfold exit_inv in *; [|done]. unfold proc_check.
    by destruct (internetUpPending (n_st s)), (stopProcessing (n_st s)) eqn:Hst.
  - assert (∀ p, exit_inv (set_sub p s)) as Hset by (intros p; exact He).
    destruct Hp as [s Hp|s Hp|s Hp|s Hp]; unfold sub_check, sub_wait;
      [destruct (_ || _); apply Hset|exact He|destruct (stopProcessing _); apply Hset..].
  - done.
  - apply handle_state in Hh as (E1 & _). unfold exit_inv in *. simpl. by rewrite E1.
  - apply handle_state in Hh as (E1 & _).
    remember (with_state st (S (n_signals s)) s) as s1 eqn:Hs1.
    destruct Hn as [s1 Hp|s1 Hw|s1 Hp Hw]; subst s1; unfold exit_inv, sub_wait in *; simpl in *; rewrite ?E1 in *;
      [done| |done]. by destruct (stopProcessing (n_st s)); simpl; rewrite E1.
  - done.
  - unfold exit_inv in *. simpl. by destruct (n_proc s).
Qed.

Lemma net_reachable_exit s : net_reachable s → exit_inv s.
Proof.
  intros Hr. assert (exit_inv net_start) as Hinit by done.
  unfold net_reachable in Hr. induction Hr as [|s1 s2 s3 Hstep _ IH]; [done|].
  apply IH. by eapply net_step_exit_inv.
Qed.

(** From the top of its loop the processing thread takes a pending signal. *)
Lemma proc_check_runs s :
  n_proc s = PCheck → internetUpPending (n_st s) = true → stopProcessing (n_st s) = false →
  proc_step s (proc_check s) ∧ n_proc (proc_check s) = PProcess ∧
  n_runs (proc_check s) = S (n_runs s) ∧ internetUpPending (n_st (proc_check s)) = false.
Proof.
  intros Hp Hup Hst. split; [by apply step_check|]. unfold proc_check. by rewrite Hup, Hst.
Qed.

(** No wake-up is lost.  In every reachable state of the three threads, if a
    transition to fully connected is pending the processing thread is not
    blocked, and unless shutdown was asked for it starts processing it within
    two steps of its own, clearing the flag.  Runs never outnumber signals: chrony
    is not touched without a transition. *)
Theorem internet_signal_not_lost (s : net_sys) :
  net_reachable s →
  (n_runs s ≤ n_signals s)%nat ∧
  (internetUpPending (n_st s) = true → n_proc s ≠ PWait) ∧
  (internetUpPending (n_st s) = true → stopProcessing (n_st s) = false →
   ∃ s', rtc proc_step s s' ∧ n_proc s' = PProcess ∧ n_runs s' = S (n_runs s) ∧
     internetUpPending (n_st s') = false).
Proof.
  intros Hr. destruct (net_reachable_inv s Hr) as (H1 & _ & _ & H4).
  split; [lia|]. split; [done|]. intros Hup Hst. pose proof (net_reachable_exit s Hr) as Hex.
  destruct (n_proc s) eqn:Hp.
  - destruct (proc_check_runs s) as (Hstep & ?); [done..|]. eexists. split; [by apply rtc_once|done].
  - by destruct (H1 Hup).
  - destruct (proc_check_runs (set_proc PCheck s)) as (Hstep & ?); [done..|].
    eexists. split; [|done]. eapply rtc_l; [by apply step_done|by apply rtc_once].
  - specialize (Hex Hp). congruence.
Qed.

(** Shutdown reaches both threads.  Once the destructor has set the flag and
    notified, neither thread is blocked on the condition variable, and each gets
    to its return by steps of its own, the processing thread within two and the
    subscription thread within two, whatever [Subscribe] answers. *)
Theorem network_shutdown_completes (s : net_sys) :
  net_reachable s → n_dtor s = D2 →
  n_proc s ≠ PWait ∧ n_sub s ≠ SWait ∧
  (∃ s', rtc proc_step s s' ∧ n_proc s' = PExit) ∧
  (∃ s', rtc sub_step s s' ∧ n_sub s' = SExit).
Proof.
  intros Hr Hd. destruct (net_reachable_inv s Hr) as (_ & H2 & H3 & _).
  destruct (H3 Hd) as [Hp Hs]. assert (stopProcessing (n_st s) = true) as Hst by (apply H2; by rewrite Hd).
  assert (∀ s1, n_st s1 = n_st s → n_proc s1 = PCheck → proc_step s1 (proc_check s1) ∧ n_proc (proc_check s1) = PExit)
    as Hcheck.
  { intros s1 E Hc. split; [by apply step_check|]. unfold proc_check. rewrite E, Hst.
    by destruct (internetUpPending (n_st s)). }
  do 2 (split; [done|]). split.
  - destruct (n_proc s) eqn:Hpc; [|done| |by exists s].
    + destruct (Hcheck s) as [? ?]; [done..|]. eexists. split; [by apply rtc_once|done].
    + destruct (Hcheck (set_proc PCheck s)) as [? ?]; [done..|].
      eexists. split; [|done]. eapply rtc_l; [by apply step_done|by apply rtc_once].
  - destruct (n_sub s) eqn:Hsc; [| |done|by exists s].
    + eexists. split; [by apply rtc_once, step_sub_check|]. unfold sub_check. by rewrite Hst, orb_true_r.
    + eexists. split; [by apply rtc_once, step_sub_fail|]. unfold sub_wait. by rewrite Hst.
Qed.

(** ** Witnesses *)

Definition up : net_params := NetParams (Some "FULLY_CONNECTED") None.

(** Blocked in the wait, subscribed, then signalled. *)
Definition net_pending : net_sys :=
  NetSys (mkNetState "fully_connected" true false true) PCheck SExit D0 1 0.

Lemma net_pending_reachable : net_reachable net_pending.
Proof.
  unfold net_reachable.
  eapply rtc_l; [apply net_proc, step_check; reflexivity|].
  eapply rtc_l; [apply net_sub, step_sub_check; reflexivity|].
  eapply rtc_l; [apply net_sub, step_sub_ok; reflexivity|].
  apply rtc_once. eapply (net_signal _ up); [by right|reflexivity|].
  by apply (notify_proc (NetSys (mkNetState "fully_connected" true false true) PWait SExit D0 1 0)).
Qed.

Lemma internet_signal_not_lost_witness :
  (n_runs net_pending ≤ n_signals net_pending)%nat ∧
  (internetUpPending (n_st net_pending) = true → n_proc net_pending ≠ PWait) ∧
  (internetUpPending (n_st net_pending) = true → stopProcessing (n_st net_pending) = false →
   ∃ s', rtc proc_step net_pending s' ∧ n_proc s' = PProcess ∧ n_runs s' = S (n_runs net_pending) ∧
     internetUpPending (n_st s') = false).
Proof. exact (internet_signal_not_lost net_pending net_pending_reachable). Defined.

Definition net_stopped : net_sys :=
  NetSys (mkNetState "" false true false) PCheck SExit D2 0 0.

Lemma net_stopped_reachable : net_reachable net_stopped.
Proof.
  unfold net_reachable.
  eapply rtc_l; [apply net_proc, step_check; reflexivity|].
  eapply rtc_l; [apply net_sub, step_sub_check; reflexivity|].
  eapply rtc_l; [apply net_sub, step_sub_fail; reflexivity|].
  eapply rtc_l; [apply net_stop; reflexivity|].
  apply rtc_once. by apply net_notify_all.
Qed.

Lemma network_shutdown_completes_witness :
  n_proc net_stopped ≠ PWait ∧ n_sub net_stopped ≠ SWait ∧
  (∃ s', rtc proc_step net_stopped s' ∧ n_proc s' = PExit) ∧
  (∃ s', rtc sub_step net_stopped s' ∧ n_sub s' = SExit).
Proof. exact (network_shutdown_completes net_stopped net_stopped_reachable eq_refl). Defined.
