(* ===== verification/PowerQueue.v ===== *)
(** * PowerQueue: the threads of ipowercontrollersubscriber.cpp

    The queue of power events between the power controller's callback and the
    daemon's handler thread, with the two mutexes and the condition variable of
    the class, as a step relation; and the retry loop of the connect thread. *)

From Corelib Require Import SpecFloat.
From S2P Require Import Prelude CString Platform TestEnv PubSub.

(** src: systimerfactory/ipowercontrollersubscriber.h:37-42 SysTimeMgr_Power_Event_State
    A queued event: current and new state. *)
Definition pwr_event : Type := PowerController_PowerState * PowerController_PowerState.

(** ** The connect thread *)

Section connect.
Context {E : Env}.

(** src: systimerfactory/ipowercontrollersubscriber.cpp:119-147 IpowerControllerSubscriber::sysTimeMgrPwrConnectHandlingThreadFunc
    Returns the result of the registration; [None]: the fuel ran out. *)
Fixpoint sysTimeMgrPwrConnectHandlingThreadFunc (fuel : nat) : M world (option Z) :=
  match fuel with
  | O => mret None
  | S fuel =>
      c ← sys PowerControllerConnect;
      if bool_decide (c = 0) then
        retValPwrCtrl ← sys PowerControllerRegister;
        mret (Some retValPwrCtrl)
      else sysTimeMgrPwrConnectHandlingThreadFunc fuel
  end.
End connect.

(** ** The queue *)

(** src: systimerfactory/ipowercontrollersubscriber.cpp:150-183 IpowerControllerSubscriber::sysTimeMgrPwrEventHandlingThreadFunc
    Where the handler thread is: about to lock m_pwrEvtMutexLock and evaluate the
    predicate of the wait; found it false, the mutex held, not blocked yet;
    blocked; in the drain loop, the queue locked; handling an event, the queue
    unlocked; returned. *)
Inductive handler_pc := HCheck | HBlocking | HWait | HDrain | HHandle (e : pwr_event) | HExit.

(** src: systimerfactory/ipowercontrollersubscriber.cpp:101-116 IpowerControllerSubscriber::sysTimeMgrPwrEventHandler
    Where the callback is: not running, or between the push and the notify. *)
Inductive callback_pc := CIdle | CNotify.

(** src: systimerfactory/ipowercontrollersubscriber.cpp:246-277 IpowerControllerSubscriber::sysTimeMgrDeinitPwrEvt
    Where the destructor is: not called, notified, queue cleared and joining,
    joined. *)
Inductive deinit_pc := DNone | DNotified | DJoin | DDone.

(** [pq_pushed], [pq_handled]: ghosts, the events in the order they were queued
    and taken. *)
Record pq := PQ {
  pq_queue : list pwr_event;
  pq_handler : handler_pc;
  pq_callback : callback_pc;
  pq_deinit : deinit_pc;
  pq_pushed : list pwr_event;
  pq_handled : list pwr_event
}.

Definition pq_start : pq := PQ [] HCheck CIdle DNone [] [].

Definition with_handler_pc (h : handler_pc) (s : pq) : pq :=
  PQ (pq_queue s) h (pq_callback s) (pq_deinit s) (pq_pushed s) (pq_handled s).
Definition with_callback_pc (c : callback_pc) (s : pq) : pq :=
  PQ (pq_queue s) (pq_handler s) c (pq_deinit s) (pq_pushed s) (pq_handled s).

(** [notify_one]: the handler thread is the only waiter. *)
Definition notify (s : pq) : pq :=
  match pq_handler s with HWait => with_handler_pc HCheck s | _ => s end.

(** src: systimerfactory/ipowercontrollersubscriber.cpp:110-111 IpowerControllerSubscriber::sysTimeMgrPwrEventHandler
    The push. *)
Definition push_event (e : pwr_event) (s : pq) : pq :=
  PQ (pq_queue s ++ [e]) (pq_handler s) CNotify (pq_deinit s) (pq_pushed s ++ [e]) (pq_handled s).

(** src: systimerfactory/ipowercontrollersubscriber.cpp:170-178 IpowerControllerSubscriber::sysTimeMgrPwrEventHandlingThreadFunc
    One round of the drain loop up to the unlock; an empty queue ends it. *)
Definition take_event (s : pq) : pq :=
  match pq_queue s with
  | [] => with_handler_pc HCheck s
  | e :: q => PQ q (HHandle e) (pq_callback s) (pq_deinit s) (pq_pushed s) (pq_handled s ++ [e])
  end.

(** src: systimerfactory/ipowercontrollersubscriber.cpp:101-277 IpowerControllerSubscriber
    The steps of the callback (sysTimeMgrPwrEventHandler), of the handler thread
    (sysTimeMgrPwrEventHandlingThreadFunc) and of the shutdown
    (sysTimeMgrDeinitPwrEvt).  m_pwrEvtMutexLock is held by the handler thread in [HBlocking]; the join
    waits for the thread's function to return. *)
Inductive pq_step : pq → pq → Prop :=
  | pq_predicate s :
      pq_handler s = HCheck →
      pq_step s (with_handler_pc (match pq_queue s with [] => HBlocking | _ => HDrain end) s)
  | pq_block s : pq_handler s = HBlocking → pq_step s (with_handler_pc HWait s)
  | pq_spurious s : pq_handler s = HWait → pq_step s (with_handler_pc HCheck s)
  | pq_take s : pq_handler s = HDrain → pq_step s (take_event s)
  | pq_handled_one s e : pq_handler s = HHandle e → pq_step s (with_handler_pc HDrain s)
  | pq_push s e : pq_callback s = CIdle → pq_step s (push_event e s)
  | pq_notify s : pq_callback s = CNotify → pq_step s (with_callback_pc CIdle (notify s))
  | pq_deinit_notify s :
      pq_deinit s = DNone → pq_handler s ≠ HBlocking →
      pq_step s (PQ (pq_queue s) (pq_handler (notify s)) (pq_callback s) DNotified (pq_pushed s) (pq_handled s))
  | pq_deinit_clear s :
      pq_deinit s = DNotified →
      pq_step s (PQ [] (pq_handler s) (pq_callback s) DJoin (pq_pushed s) (pq_handled s))
  | pq_deinit_join s :
      pq_deinit s = DJoin → pq_handler s = HExit →
      pq_step s (PQ (pq_queue s) (pq_handler s) (pq_callback s) DDone (pq_pushed s) (pq_handled s)).

Definition pq_reachable (s : pq) : Prop := rtc pq_step pq_start s.

(** Until the destructor clears the queue, what was taken and what is waiting is
    what was queued, in order. *)
Definition fifo_inv (s : pq) : Prop :=
  pq_deinit s = DNone ∨ pq_deinit s = DNotified → pq_handled s ++ pq_queue s = pq_pushed s.

(** The handler thread never returns, so the destructor never gets past the join. *)
Definition loop_inv (s : pq) : Prop := pq_handler s ≠ HExit ∧ pq_deinit s ≠ DDone.

Lemma notify_fields s :
  pq_queue (notify s) = pq_queue s ∧ pq_pushed (notify s) = pq_pushed s ∧
  pq_handled (notify s) = pq_handled s ∧ pq_deinit (notify s) = pq_deinit s ∧
  (pq_handler s ≠ HExit → pq_handler (notify s) ≠ HExit).
Proof. unfold notify. destruct (pq_handler s) eqn:Hp; simpl; rewrite ?Hp; by split_and!. Qed.

Lemma pq_step_inv s s' : pq_step s s' → fifo_inv s ∧ loop_inv s → fifo_inv s' ∧ loop_inv s'.
Proof.
  intros Hstep [Hf [Hl Hd]]. unfold fifo_inv, loop_inv in *.
  destruct (notify_fields s) as (N1 & N2 & N3 & N4 & N5).
  destruct Hstep as [s Hp|s Hp|s Hp|s Hp|s e Hp|s e Hp|s Hp|s Hp Hb|s Hp|s Hp Hx]; simpl in *.
  - split; [done|]. by destruct (pq_queue s).
  - done.
  - done.
  - unfold take_event. destruct (pq_queue s) as [|e q] eqn:Hq; simpl; [by rewrite Hq|].
    split; [|done]. intros Hor. rewrite <- (Hf Hor), <- app_assoc. done.
  - done.
  - split; [|done]. intros Hor. by rewrite app_assoc, Hf.
  - rewrite N1, N2, N3, N4. auto.
  - split; [|split; [auto|done]]. intros _. apply Hf. by left.
  - split; [|done]. by intros [|].
  - done.
Qed.

Lemma pq_reachable_inv s : pq_reachable s → fifo_inv s ∧ loop_inv s.
Proof.
  intros Hr. assert (fifo_inv pq_start ∧ loop_inv pq_start) as Hinit by done.
  unfold pq_reachable in Hr. induction Hr as [|s1 s2 s3 Hstep _ IH]; [done|].
  apply IH. by eapply pq_step_inv.
Qed.

(** * Properties *)

(** C34: power events are handled in the order they were delivered, each at most
    once and none dropped: until the destructor clears the queue, the events
    taken so far followed by the queue are exactly the events delivered, in
    every reachable state of the threads. *)
Theorem power_events_fifo (s : pq) :
  pq_reachable s → pq_deinit s = DNone →
  pq_handled s ++ pq_queue s = pq_pushed s ∧ pq_handled s `prefix_of` pq_pushed s.
Proof.
  intros Hr Hd. destruct (pq_reachable_inv s Hr) as [Hf _].
  assert (pq_handled s ++ pq_queue s = pq_pushed s) as H by (apply Hf; by left).
  split; [done|]. exists (pq_queue s). by rewrite H.
Qed.

(** C39: a wake-up can be lost.  The callback changes the queue and notifies
    without the mutex of the wait, so an event that arrives after the predicate
    was found false and before the thread blocks leaves the thread blocked with
    a non-empty queue and no notification due.  Such a state is reachable, no
    step of the handler thread or of the callback's current run leaves it, and
    the event is taken only when another event, a shutdown or a spurious wake-up
    comes. *)
Theorem power_wakeup_can_be_lost (e : pwr_event) :
  ∃ s, pq_reachable s ∧ pq_handler s = HWait ∧ pq_queue s = [e] ∧ pq_callback s = CIdle ∧
    pq_deinit s = DNone ∧
    (∀ s', pq_step s s' →
       s' = with_handler_pc HCheck s ∨ (∃ e', s' = push_event e' s) ∨ pq_deinit s' = DNotified) ∧
    (∀ e', ∃ s', rtc pq_step (push_event e' s) s' ∧ pq_handler s' = HHandle e ∧ pq_queue s' = [e']).
Proof.
  exists (PQ [e] HWait CIdle DNone [e] []). split_and!; try done.
  - unfold pq_reachable.
    eapply rtc_l; [apply pq_predicate; reflexivity|]. simpl.
    eapply rtc_l; [apply (pq_push _ e); reflexivity|].
    eapply rtc_l; [apply pq_notify; reflexivity|].
    apply rtc_once. by apply (pq_block (PQ [e] HBlocking CIdle DNone [e] [])).
  - intros s' Hstep. inversion Hstep; subst; simpl in *; try done; eauto.
  - intros e'. eexists. split; [|split].
    + eapply rtc_l; [apply pq_notify; reflexivity|].
      eapply rtc_l; [apply pq_predicate; reflexivity|].
      apply rtc_once. apply pq_take. reflexivity.
    + done.
    + done.
Qed.

(** The destructor never returns from the join: the handler thread's loop
    has no exit, the flag its comments speak of does not exist, so in every
    state reachable after the queue was cleared the destructor is still
    joining. *)
Theorem power_deinit_hangs (s s' : pq) :
  pq_reachable s → pq_deinit s = DJoin → rtc pq_step s s' →
  pq_handler s' ≠ HExit ∧ pq_deinit s' = DJoin.
Proof.
  intros Hr Hd Hrtc. assert (loop_inv s) as Hl by (by apply pq_reachable_inv).
  assert (fifo_inv s) as Hf by (by apply pq_reachable_inv). clear Hr.
  induction Hrtc as [s|s s1 s2 Hstep _ IH]; [by destruct Hl|].
  destruct (pq_step_inv s s1 Hstep) as [Hf1 Hl1]; [done|]. apply IH; [|done|done].
  destruct Hl as [Hl _].
  destruct Hstep; simpl in *; try congruence; try (by rewrite <- Hd; apply notify_fields).
  unfold take_event. by destruct (pq_queue s).
Qed.

Definition connect_calls (l : list ev) : nat := count_calls (@is_connect) l.

Definition is_register (e : ev) : bool :=
  match ev_call e with PowerControllerRegister => true | _ => false end.

(** The connect thread registers the callback exactly once, after the first
    successful connection: when the power controller accepts the attempt after
    [k] refusals, the thread makes [k + 1] attempts, registers, and ends with
    the registration's result; a fuel above [k] is enough. *)
Theorem power_connect_retries {E : Env} (r : nat → Z) (k fuel : nat) (w : world) :
  (∀ h, answer h PowerControllerConnect = r (connect_calls h)) →
  (∀ i, (i < k)%nat → r (connect_calls (w_trace w) + i)%nat ≠ 0) →
  r (connect_calls (w_trace w) + k)%nat = 0 → (k < fuel)%nat →
  ∃ v l, sysTimeMgrPwrConnectHandlingThreadFunc fuel w
      = (Ret (Some v), World (w_fs w) (l ++ w_trace w)) ∧
    connect_calls (l ++ w_trace w) = (connect_calls (w_trace w) + S k)%nat ∧
    length (filter (λ e, is_register e = true) l) = 1%nat ∧ length l = S (S k).
Proof.
  intros Hr. revert fuel w. induction k as [|k IH]; intros [|fuel] w Hf Hk Hlt; try lia;
    simpl; unfold mbind, M_bind, sys; simpl; rewrite Hr.
  - rewrite Nat.add_0_r in Hk. rewrite Hk. simpl. eexists _, [_; _]. split; [reflexivity|].
    split; [|done]. unfold connect_calls, count_calls. simpl. lia.
  - pose proof (Hf 0%nat ltac:(lia)) as H0. rewrite Nat.add_0_r in H0. rewrite (bool_decide_eq_false_2 _ H0).
    set (w1 := log _ w).
    assert (connect_calls (w_trace w1) = S (connect_calls (w_trace w))) as Hc by done.
    destruct (IH fuel w1) as (v & l & Hrun & Hcalls & Hreg & Hlen); try lia.
    + intros i Hi. rewrite Hc. replace (S _ + i)%nat with (connect_calls (w_trace w) + S i)%nat by lia.
      apply Hf. lia.
    + rewrite Hc. by replace (S _ + k)%nat with (connect_calls (w_trace w) + S k)%nat by lia.
    + exists v, (l ++ [Ev PowerControllerConnect (r (connect_calls (w_trace w)))]).
      rewrite <- app_assoc. split; [exact Hrun|]. split; [etrans; [exact Hcalls|rewrite Hc; lia]|].
      split; [by rewrite filter_app, length_app, Hreg|]. rewrite length_app, Hlen. simpl. lia.
Qed.

(** ** Witnesses *)

Definition deep_on : pwr_event := (POWER_STATE_ON, POWER_STATE_STANDBY_DEEP_SLEEP).
Definition deep_off : pwr_event := (POWER_STATE_STANDBY_DEEP_SLEEP, POWER_STATE_ON).

Definition pq_mid : pq := PQ [deep_off] (HHandle deep_on) CIdle DNone [deep_on; deep_off] [deep_on].

Lemma pq_mid_reachable : pq_reachable pq_mid.
Proof.
  unfold pq_reachable.
  eapply rtc_l; [apply (pq_push _ deep_on); reflexivity|].
  eapply rtc_l; [apply pq_notify; reflexivity|].
  eapply rtc_l; [apply (pq_push _ deep_off); reflexivity|].
  eapply rtc_l; [apply pq_notify; reflexivity|].
  eapply rtc_l; [apply pq_predicate; reflexivity|].
  apply rtc_once. by apply (pq_take (PQ [deep_on; deep_off] HDrain CIdle DNone [deep_on; deep_off] [])).
Qed.

Lemma power_events_fifo_witness :
  pq_handled pq_mid ++ pq_queue pq_mid = [deep_on; deep_off] ∧ pq_handled pq_mid `prefix_of` [deep_on; deep_off].
Proof. exact (power_events_fifo pq_mid pq_mid_reachable eq_refl). Defined.

Definition pq_joining : pq := PQ [] HCheck CIdle DJoin [] [].

Lemma power_deinit_hangs_witness :
  pq_handler (with_handler_pc HBlocking pq_joining) ≠ HExit ∧
  pq_deinit (with_handler_pc HBlocking pq_joining) = DJoin.
Proof.
  apply (power_deinit_hangs pq_joining (with_handler_pc HBlocking pq_joining)).
  - unfold pq_reachable. eapply rtc_l; [by apply pq_deinit_notify|].
    apply rtc_once. by apply (pq_deinit_clear (PQ [] HCheck CIdle DNotified [] [])).
  - reflexivity.
  - apply rtc_once. by apply (pq_predicate pq_joining).
Defined.

(** A power controller that refuses once. *)
Definition late_controller : overrides := {|
  o_clock := Some (1700000000, 0); o_ntp := 1700000000; o_settime := true; o_adjtimex := [];
  o_active := λ _, 0; o_selectable := (0, 1); o_sources := (0, 1);
  o_offset := (0, S754_zero false); o_waitsync := 0; o_rpc := λ _, None;
  o_timeUtc := ""; o_mtime := None; o_subscribe := []; o_pwr := [1]
|}.

Lemma power_connect_retries_witness :
  ∃ v l, @sysTimeMgrPwrConnectHandlingThreadFunc (test_env late_controller) 3 good_world
      = (Ret (Some v), World ∅ (l ++ [])) ∧
    connect_calls (l ++ []) = 2%nat ∧
    length (filter (λ e, is_register e = true) l) = 1%nat ∧ length l = 3%nat.
Proof.
  apply (@power_connect_retries (test_env late_controller) (λ i, default 0 ([1] !! i)) 1 3 good_world);
    try reflexivity; [|lia].
  intros i Hi. destruct i as [|i]; [discriminate|lia].
Defined.
