(* ===== verification/Daemon.v ===== *)
(** * Daemon: the process (systimemgr.cpp, main.cpp)

    The concrete object with Factory's sources and syncs, its construction and
    [initialize], the bodies of its threads, and the whole process as a step
    relation in which the threads, the bus callbacks and other processes
    interleave. *)

From Corelib Require Import SpecFloat.
From S2P Require Import Prelude CString Platform TestEnv Interfaces TimeSync PubSub TimeSrc Factory.
From S2P Require Import SysTimeMgr MgrSpec MgrProps NetworkStatus.

(** The daemon's object, the subscribers with the static instance, the world. *)
Definition daemon : Type := mgr TimeSrcObj TimeSyncObj * (bus * world).

Section daemon_ops.
Context {E : Env} {B : Build}.

(** A computation of the object in the process. *)
Definition on_mgr {A} (m : M (mgr TimeSrcObj TimeSyncObj * world) A) : M daemon A := λ s,
  let '(r, (g, w)) := m (s.1, s.2.2) in (r, (g, (s.2.1, w))).

(** ** Construction *)

(** src: systimemgr.h:98-98 SysTimeMgr::m_directory *)
Definition m_directory : string := "/tmp/systimemgr".

(** src: systimemgr.cpp:73-85 SysTimeMgr::SysTimeMgr *)
Definition new_SysTimeMgr {Src Sync} (cfgfile : string) : M world (mgr Src Sync) :=
  rfc ← file_exists "/opt/secure/RFC/chrony/chronyd_enabled";
  mret {|
    stateMachine := ∅;
    m_pathEventMap := [];
    m_state := eSYSMGR_STATE_INIT;
    m_event := eSYSMGR_EVENT_UNKNOWN;
    m_timerInterval := 600000;
    m_timequality := eTIMEQUALILTY_UNKNOWN;
    m_timerSrc := [];
    m_timerSync := [];
    m_publish := None;
    m_subscriber_ptr := None;
    m_tmrsubscriber_ptr := None;
    m_timersrc := "Last Known";
    m_cfgfile := cfgfile;
    m_chronyRfcEnabled := rfc;
    m_queue := []
  |}.

(** src: systimemgr.cpp:61-71 SysTimeMgr::get_instance
    On the static [pInstance]. *)
Definition get_instance {Src Sync} (pInstance : option (mgr Src Sync)) : M world (mgr Src Sync) :=
  match pInstance with
  | Some m => mret m
  | None => new_SysTimeMgr "/etc/systimemgr.conf"
  end.

(** ** initialize *)

(** src: systimemgr.cpp:107-118 SysTimeMgr::initialize
    One line of the configuration. *)
Definition config_line (line : string * string * string) (m : mgr TimeSrcObj TimeSyncObj)
    : mgr TimeSrcObj TimeSyncObj :=
  let '(category, type, objargs) := line in
  if bool_decide (category = "timesrc") then
    set_srcs (m_timerSrc m ++ [createTimeSrc type (m_directory +:+ objargs)]) m
  else if bool_decide (category = "timesync") then
    set_syncs (m_timerSync m ++ [createTimeSync type (m_directory +:+ objargs)]) m
  else m.

(** src: systimemgr.cpp:102-124 SysTimeMgr::initialize
    Creating the sources and syncs. *)
Definition load_config : M daemon unit :=
  path ← gets (λ s : daemon, m_cfgfile s.1);
  cfgFile ← on_mgr (on_snd (read_file path));
  match cfgFile with
  | Some text => on_mgr (upd (λ m, foldl (λ m line, config_line line m) m (read_triples text)))
  | None => mret tt
  end.

(** src: systimemgr.cpp:135-155 SysTimeMgr::initialize
    Publisher and subscribers. *)
Definition connect_bus : M daemon unit :=
  let type := if IARM_SUPPORT_DISABLED then "test" else "iarm" in
  p ← on_mgr (on_snd (createPublish type IARM_BUS_SYSTIME_MGR_NAME));
  _ ← on_mgr (upd (set_publish p));
  t ← on_snd (createSubscriber type IARM_BUS_SYSTIME_MGR_NAME TIMER_STATUS_MSG);
  _ ← on_mgr (upd (set_tmrsubscriber t));
  s ← on_snd (createSubscriber type IARM_BUS_SYSTIME_MGR_NAME POWER_CHANGE_MSG);
  _ ← on_mgr (upd (set_subscriber s));
  _ ← on_snd (subscribe t TIMER_STATUS_MSG SysTimeMgr_getTimeStatus);
  _ ← on_snd (subscribe s POWER_CHANGE_MSG SysTimeMgr_powerhandler);
  mret tt.

(** [std::map::insert] on a map listed in the order of its keys: keeps the first
    value of a key. *)
Fixpoint path_insert (k : string) (e : sysTimeMgrEvent) (l : list (string * sysTimeMgrEvent))
    : list (string * sysTimeMgrEvent) :=
  match l with
  | [] => [(k, e)]
  | (k', e') :: l' =>
      match String.compare k k' with
      | Eq => l
      | Lt => (k, e) :: l
      | Gt => (k', e') :: path_insert k e l'
      end
  end.

(** src: systimemgr.cpp:158-162 SysTimeMgr::initialize
    The path event map. *)
Definition fill_pathEventMap (l : list (string * sysTimeMgrEvent)) : list (string * sysTimeMgrEvent) :=
  path_insert "dtt" eSYSMGR_EVENT_DTT_TIME_AVAILABLE
    (path_insert "drm" eSYSMGR_EVENT_SECURE_TIME_AVAILABLE
      (path_insert "stt" eSYSMGR_EVENT_NTP_AVAILABLE
        (path_insert "ntp" eSYSMGR_EVENT_NTP_AVAILABLE l))).

(** src: systimemgr.cpp:93-184 SysTimeMgr::initialize *)
Definition initialize : M daemon unit :=
  _ ← on_mgr (on_snd (when T2_EVENT_ENABLED (sys (T2Init "sysTimeMgr"))));
  _ ← load_config;
  rfc ← gets (λ s : daemon, m_chronyRfcEnabled s.1);
  _ ← when rfc (_ ← on_mgr (on_snd (sys ChronyInit)); mret tt);
  _ ← connect_bus;
  _ ← on_mgr (upd (λ m, set_pathEventMap (fill_pathEventMap (m_pathEventMap m)) m));
  _ ← on_mgr setInitialTime;
  _ ← on_mgr (upd (λ m, set_stateMachine (fill_stateMachine (stateMachine m)) m));
  on_mgr (upd (set_state eSYSMGR_STATE_NTP_WAIT)).

(** src: systimemgr.cpp:87-92 SysTimeMgr::~SysTimeMgr *)
Definition delete_SysTimeMgr : M daemon unit :=
  rfc ← gets (λ s : daemon, m_chronyRfcEnabled s.1);
  when rfc (_ ← on_mgr (on_snd (sys ChronyCleanup)); mret tt).

(** ** The threads *)

(** src: systimemgr.cpp:405-416 SysTimeMgr::runNTPSyncMonitor
    Reporting chronyd's offset, the same text in [runTimer]. *)
Definition report_offset : M world unit :=
  ret ← sys ChronyGetOffset;
  if bool_decide (ret.1 = 0) then
    when T2_EVENT_ENABLED (sys (T2Val "SYST_INFO_NTP_DELTA_split" (snprintf_s 16 (fmt_3f ret.2))))
  else mret tt.

(** The constants of sys/timex.h. *)
Definition TIME_ERROR : Z := 5.
Definition STA_UNSYNC : Z := 64.

(** src: systimemgr.cpp:345-403 SysTimeMgr::runNTPSyncMonitor
    The files that announce the synchronisation. *)
Definition ntp_artefacts : M world unit :=
  _ ← notifypathAvailable (m_directory +:+ "/ntp");
  _ ← create_file "/tmp/clock-event";
  _ ← write_file "/tmp/ntp_status" ("Synchronized" +:+ newline);
  mret tt.

(** src: systimemgr.cpp:325-339 SysTimeMgr::runNTPSyncMonitor
    The kernel's clock is synchronised. *)
Definition kernel_synced (r : Z * Z) : bool :=
  negb (bool_decide (r.1 < 0)) &&
  negb (bool_decide (r.1 = TIME_ERROR) || negb (bool_decide (Z.land r.2 STA_UNSYNC = 0))).

(** src: systimemgr.cpp:313-424 SysTimeMgr::runNTPSyncMonitor
    [Some n]: returned after [n] polls; [None]: the fuel ran out. *)
Fixpoint runNTPSyncMonitor (fuel : nat) (polls : nat) : M world (option nat) :=
  match fuel with
  | O => mret None
  | S fuel =>
      r ← sys Adjtimex;
      if kernel_synced r then
        _ ← ntp_artefacts;
        _ ← report_offset;
        mret (Some (S polls))
      else runNTPSyncMonitor fuel (S polls)
  end.

(** src: systimemgr.cpp:427-442 SysTimeMgr::processMsg
    One round of the loop, the queue not empty. *)
Definition processMsg_round (val : sysTimeMsg) (q : list sysTimeMsg) : M daemon unit :=
  _ ← on_mgr (upd (set_queue q));
  on_mgr (runStateMachine (sm_event val) (sm_args val)).

(** src: systimemgr.cpp:443-465 SysTimeMgr::runTimer
    One round of the loop, after the sleep. *)
Definition runTimer_round : M daemon unit :=
  rfc ← gets (λ s : daemon, m_chronyRfcEnabled s.1);
  _ ← when rfc (on_mgr (on_snd report_offset));
  on_mgr (sendMessage eSYSMGR_EVENT_TIMER_EXPIRY None).

(** src: systimemgr.cpp:473-482 SysTimeMgr::runPathMonitor
    The scan of the files that exist at the start. *)
Fixpoint path_scan (l : list (string * sysTimeMgrEvent)) : M daemon unit :=
  match l with
  | [] => mret tt
  | (name, e) :: l =>
      f ← on_mgr (on_snd (read_file (m_directory +:+ "/" +:+ name)));
      _ ← when (bool_decide (is_Some f)) (on_mgr (sendMessage e None));
      path_scan l
  end.

(** The value of a key. *)
Fixpoint path_find (name : string) (l : list (string * sysTimeMgrEvent)) : option sysTimeMgrEvent :=
  match l with
  | [] => None
  | (k, e) :: l => if bool_decide (name = k) then Some e else path_find name l
  end.

(** The constants of sys/inotify.h. *)
Definition IN_MODIFY : Z := 2.
Definition IN_ATTRIB : Z := 4.
Definition IN_DELETE : Z := 512.

(** src: systimemgr.cpp:506-521 SysTimeMgr::runPathMonitor
    The event announced by what a read has put in the buffer: the buffer is looked
    at as one [struct inotify_event], and its name taken whether or not its length
    says that it has one. *)
Definition buffer_event (map : list (string * sysTimeMgrEvent)) (buffer : list inotify_event) : option sysTimeMgrEvent :=
  match buffer with
  | [] => None
  | pevent :: _ =>
      if bool_decide (Z.land (ie_mask pevent) IN_ATTRIB = 0) then None else path_find (ie_name pevent) map
  end.

(** src: systimemgr.cpp:498-523 SysTimeMgr::runPathMonitor
    One round of the loop; [false]: the read failed and the thread ends. *)
Definition runPathMonitor_round : M daemon bool :=
  count ← on_mgr (on_snd (sys InotifyRead));
  match count with
  | None => mret false
  | Some buffer =>
      map ← gets (λ s : daemon, m_pathEventMap s.1);
      _ ← match buffer_event map buffer with
          | Some e => on_mgr (sendMessage e None)
          | None => mret tt
          end;
      mret true
  end.

(** src: systimemgr.cpp:498-523 SysTimeMgr::runPathMonitor
    [true]: the thread ended; [false]: the fuel ran out. *)
Fixpoint runPathMonitor_loop (fuel : nat) : M daemon bool :=
  match fuel with
  | O => mret false
  | S fuel => go ← runPathMonitor_round; if (go : bool) then runPathMonitor_loop fuel else mret true
  end.

(** src: systimemgr.cpp:467-482 SysTimeMgr::runPathMonitor *)
Definition runPathMonitor_start : M daemon unit :=
  map ← gets (λ s : daemon, m_pathEventMap s.1);
  path_scan map.

(** src: systimemgr.cpp:483-496 SysTimeMgr::runPathMonitor
    Sets the watch up; [false]: the thread ends. *)
Definition runPathMonitor_watch : M daemon bool :=
  inotifyFd ← on_mgr (on_snd (sys InotifyInit));
  if bool_decide (inotifyFd = -1) then mret false else
  wd ← on_mgr (on_snd (sys (InotifyAddWatch m_directory (Z.lor (Z.lor IN_DELETE IN_MODIFY) IN_ATTRIB))));
  mret (negb (bool_decide (wd = -1))).

(** src: systimemgr.cpp:467-525 SysTimeMgr::runPathMonitor
    [true]: the thread ended. *)
Definition runPathMonitor (fuel : nat) : M daemon bool :=
  _ ← runPathMonitor_start;
  watching ← runPathMonitor_watch;
  if (watching : bool) then runPathMonitor_loop fuel else mret true.

(** ** run and main *)

(** src: systimemgr.h:116-121 SysTimeMgr::processThr
    The thread functions. *)
Inductive thread := processThr | timerThr | pathThr | nwEventProcessThr | nwEventSubscribeThr | ntpSyncMonitorThr.

(** src: systimemgr.cpp:202-262 SysTimeMgr::run
    Up to the joins: the threads started, in order; [pid] is getpid()'s text. *)
Definition run (pid : string) (forever : bool) : M daemon (list thread) :=
  rfc ← gets (λ s : daemon, m_chronyRfcEnabled s.1);
  _ ← when forever (_ ← on_mgr (on_snd (write_file "/run/systimemgr.pid" (pid +:+ newline))); mret tt);
  mret ([processThr; timerThr; pathThr] ++
        if (rfc : bool) then [nwEventProcessThr; nwEventSubscribeThr; ntpSyncMonitorThr] else []).

(** src: main.cpp:26-54 main
    [None]: the process runs, blocked in the joins; [Some]: the exit status. *)
Definition main (pid : string) : M daemon (option Z) :=
  catch (_ ← initialize; _ ← run pid true; mret None) (λ _, true) (mret (Some 1)).

(** ** Power events *)

(** A callback's call of the registered function with its string. *)
Definition deliver (c : option invocation) : M daemon unit :=
  match c with
  | None => mret tt
  | Some (SysTimeMgr_powerhandler, message) => _ ← on_mgr (powerhandler message); mret tt
  | Some (SysTimeMgr_getTimeStatus, _) => undef
  end.

(** A transition reported by the power manager over IARM, or by the power
    controller's queue, up to the daemon's reaction. *)
Definition iarm_power_event (cur new : IARM_PowerState) : M daemon unit :=
  c ← on_snd (powereventHandler IARM_BUS_PWRMGR_EVENT_MODECHANGED cur new); deliver c.
Definition pc_power_event (cur new : PowerController_PowerState) : M daemon unit :=
  c ← on_snd (sysTimeMgrHandlePwrEventData cur new); deliver c.
End daemon_ops.

(** ** initialize *)

Lemma wp_on_mgr {A} t (m : M (mgr TimeSrcObj TimeSyncObj * world) A) (Q : A → daemon → Prop) g b w :
  wp t m (λ a gw, Q a (gw.1, (b, gw.2))) (g, w) → wp t (on_mgr m) Q (g, (b, w)).
Proof. unfold wp, on_mgr. simpl. by destruct (m (g, w)) as [[a|e|] [g' w']]. Qed.

(** ** Configuration *)

(** A line of the file, and the whole file. *)
Definition render_line (l : string * string * string) : string :=
  let '(category, type, objargs) := l in
  category +:+ " " +:+ type +:+ " " +:+ objargs +:+ newline.
Fixpoint render_config (ls : list (string * string * string)) : string :=
  match ls with [] => "" | l :: ls => render_line l +:+ render_config ls end.

Definition line_ok (l : string * string * string) : Prop :=
  is_word l.1.1 = true ∧ is_word l.1.2 = true ∧ is_word l.2 = true.

Lemma read_render_config ls : Forall line_ok ls → read_triples (render_config ls) = ls.
Proof.
  unfold read_triples. induction 1 as [|[[c ty] a] ls (Hc & Ht & Ha) _ IH]; [done|].
  simpl in Hc, Ht, Ha. cbn [render_config render_line]. rewrite !string_app_assoc.
  rewrite !words_blank, words_newline by done. simpl. by rewrite IH.
Qed.

(** The objects the lines of a category describe, in the order of the file. *)
Definition configured {T} (category : string) (create : string → string → option T)
    (ls : list (string * string * string)) : list (option T) :=
  map (λ l, create l.1.2 (m_directory +:+ l.2)) (filter (λ l, l.1.1 = category) ls).

Section init_specs.
Context {E : Env} {B : Build}.

(** Where the power callbacks end up, when the bus is compiled in. *)
Definition power_ready (b : bus) : Prop :=
  IARM_SUPPORT_DISABLED = false →
  ∃ s, instance b = Some s ∧ power_handler s = FFun SysTimeMgr_powerhandler ∧ power_class s.

Lemma config_lines_frame ls (m : mgr TimeSrcObj TimeSyncObj) :
  config (foldl (λ m l, config_line l m) m ls) = config m ∧
  status_of (foldl (λ m l, config_line l m) m ls) = status_of m.
Proof.
  revert m. induction ls as [|[[c ty] a] ls IH]; intros m; [done|]. cbn [foldl].
  destruct (IH (config_line (c, ty, a) m)) as [-> ->]. unfold config_line. by repeat case_bool_decide.
Qed.

Lemma config_lines_objects ls (m : mgr TimeSrcObj TimeSyncObj) :
  m_timerSrc (foldl (λ m l, config_line l m) m ls) = m_timerSrc m ++ configured "timesrc" createTimeSrc ls ∧
  m_timerSync (foldl (λ m l, config_line l m) m ls) = m_timerSync m ++ configured "timesync" createTimeSync ls.
Proof.
  revert m. induction ls as [|[[c ty] a] ls IH]; intros m; [by rewrite !app_nil_r|].
  cbn [foldl]. destruct (IH (config_line (c, ty, a) m)) as [-> ->]. unfold config_line, configured.
  rewrite !filter_cons. simpl. case_bool_decide as H1.
  - rewrite decide_True by done. subst c. simpl. by rewrite <- app_assoc.
  - rewrite decide_False by done. case_bool_decide as H2.
    + rewrite decide_True by done. simpl. by rewrite <- app_assoc.
    + by rewrite decide_False.
Qed.

(** The lines of a configuration file, none when it is missing. *)
Definition conf_lines (fs : gmap string file) (path : string) : list (string * string * string) :=
  match fs !! path with Some f => read_triples (f_data f) | None => [] end.

Lemma wp_load_config t (Q : unit → daemon → Prop) m b w :
  (∀ ls w', ls = conf_lines (w_fs w) (m_cfgfile m) ∨ ls = [] → w_fs w' = w_fs w →
     Q tt (foldl (λ m l, config_line l m) m ls, (b, w'))) →
  wp t load_config Q (m, (b, w)).
Proof.
  intros HQ. unfold load_config. apply wp_bind, wp_gets, wp_bind. simpl.
  apply wp_on_mgr, wp_on_snd, wp_read_file; simpl.
  - intros w1 _ Hf. unfold conf_lines in HQ. destruct (w_fs w !! m_cfgfile m) as [f|]; simpl.
    + apply wp_on_mgr, wp_modify. simpl. apply HQ; [by left|done].
    + apply wp_ret, (HQ []); [by right|done].
  - intros h w1 _ _ Hf. apply wp_ret, (HQ []); [by right|done].
Qed.

(** What [connect_bus] leaves alone. *)
Definition bus_frame (m m' : mgr TimeSrcObj TimeSyncObj) : Prop :=
  status_of m' = status_of m ∧ m_queue m' = m_queue m ∧ stateMachine m' = stateMachine m ∧
  m_pathEventMap m' = m_pathEventMap m ∧ m_timerSync m' = m_timerSync m ∧ m_timerSrc m' = m_timerSrc m.

(** The IARM classes are there when the build asks for IARM. *)
Definition iarm_built : Prop := IARM_SUPPORT_DISABLED = false → ENABLE_IARM = true.

(** [connect_bus] on a fresh store; without the IARM classes in a build that asks
    for them the null subscriber is dereferenced. *)
Lemma wp_connect_bus t (Q : unit → daemon → Prop) m w :
  (t = true → iarm_built) →
  (∀ m' b' w', bus_frame m m' → power_ready b' → is_Some (m_publish m') → w_fs w' = w_fs w → Q tt (m', (b', w'))) →
  wp t connect_bus Q (m, (empty_bus, w)).
Proof.
  intros HB HQ. unfold connect_bus, power_ready, iarm_built in *. destruct IARM_SUPPORT_DISABLED eqn:Hd.
  - unfold wp. vm_compute. apply HQ; [done|done|by eexists|done].
  - destruct ENABLE_IARM eqn:He.
    2:{ unfold wp, connect_bus, createPublish, createSubscriber, mbind, M_bind, on_mgr, on_snd, upd, modify.
        simpl. rewrite He. destruct t; [|done]. by specialize (HB eq_refl eq_refl). }
    apply wp_bind, wp_on_mgr, wp_on_snd, wp_createPublish_iarm; [done|]. intros w1 _ F1.
    apply wp_bind, wp_on_mgr, wp_modify, wp_bind, wp_on_snd, wp_createSubscriber_timer; [done|].
    intros w2 _ F2. apply wp_bind, wp_on_mgr, wp_modify, wp_bind, wp_on_snd, wp_createSubscriber_power; [done|].
    intros s w3 Hs _ F3. simpl. apply wp_bind, wp_on_mgr, wp_modify, wp_bind, wp_on_snd.
    eapply wp_subscribe_timer; [done|]. intros r1 w4 _ F4. simpl. apply wp_bind, wp_on_snd.
    eapply wp_subscribe_power; [done|done|]. intros r2 s' w5 Hh Hs' _ F5. simpl. apply wp_ret. simpl in *.
    apply HQ; [done| |by eexists|congruence]. intros _. by exists s'.
Qed.
End init_specs.

(** The map the path monitor uses, in key order. *)
Definition path_events : list (string * sysTimeMgrEvent) :=
  [("drm", eSYSMGR_EVENT_SECURE_TIME_AVAILABLE); ("dtt", eSYSMGR_EVENT_DTT_TIME_AVAILABLE);
   ("ntp", eSYSMGR_EVENT_NTP_AVAILABLE); ("stt", eSYSMGR_EVENT_NTP_AVAILABLE)].

(** A message the daemon's threads queue: no argument, one of the four events
    the state machine has transitions for. *)
Definition known_msg (msg : sysTimeMsg) : Prop :=
  sm_args msg = None ∧
  sm_event msg ∈ [eSYSMGR_EVENT_TIMER_EXPIRY; eSYSMGR_EVENT_NTP_AVAILABLE;
                  eSYSMGR_EVENT_DTT_TIME_AVAILABLE; eSYSMGR_EVENT_SECURE_TIME_AVAILABLE].

(** What holds of the daemon from the end of [initialize] on. *)
Definition daemon_inv (s : daemon) : Prop :=
  stateMachine s.1 = fill_stateMachine ∅ ∧ m_pathEventMap s.1 = path_events ∧
  m_state s.1 ≠ eSYSMGR_STATE_INIT ∧ quality_inv (status_of s.1) ∧
  Forall known_msg (m_queue s.1).

(** The factory knows the type. *)
Definition known_line {E : Env} {B : Build} (l : string * string * string) : Prop :=
  (l.1.1 = "timesrc" → is_Some (createTimeSrc l.1.2 (m_directory +:+ l.2))) ∧
  (l.1.1 = "timesync" → is_Some (createTimeSync l.1.2 (m_directory +:+ l.2))).

(** The clock file and the version file hold times in range. *)
Definition times_in_range (fs : gmap string file) : Prop :=
  0 ≤ stored_time fs "/opt/secure/clock.txt" ≤ sane_max ∧ 0 ≤ image_time fs ≤ sane_max.

(** Sources and syncs good for [n] more inputs. *)
Definition plugins_ok (n : nat) (m : mgr TimeSrcObj TimeSyncObj) : Prop :=
  all_ok (λ _ _, True) n (m_timerSrc m) ∧ all_ok syncobj_fuel n (m_timerSync m).

Section initialization.
Context {E : Env} {B : Build} (t : bool) (HE : SaneEnv E) (HM : t = true → SaneMfr).
#[local] Instance sync_spec_here : ITimeSyncSpec t TimeSyncObj := TimeSyncObj_spec t (λ _, HE) HM.

Lemma configured_ok {T} category create (P : T → Prop) ls :
  (∀ l o, l ∈ ls → l.1.1 = category → create l.1.2 (m_directory +:+ l.2) = Some o → P o) →
  (∀ l, l ∈ ls → l.1.1 = category → is_Some (create l.1.2 (m_directory +:+ l.2))) →
  Forall (λ p, ∃ o, p = Some o ∧ P o) (configured category create ls).
Proof.
  intros HP Hk. apply Forall_forall. intros p (l & -> & [Hc Hl]%list_elem_of_filter)%list_elem_of_fmap.
  destruct (Hk l Hl Hc) as [o Ho]. exists o. split; [done|]. by eapply HP.
Qed.

Lemma createTimeSync_readable fs ty args o :
  times_in_range fs → createTimeSync ty args = Some o → sync_readable fs o.
Proof.
  intros [Hc Hv]. unfold createTimeSync. repeat case_match; intros [= <-]; done.
Qed.

(** The rest of [initialize], once the buses are connected. *)
Lemma wp_initialize_rest (Q : unit → daemon → Prop) m b w :
  m_queue m = [] → stateMachine m = ∅ → m_pathEventMap m = [] → m_timequality m = eTIMEQUALILTY_UNKNOWN →
  (t = true → is_Some (m_publish m) ∧ readable t m w) →
  (∀ s', daemon_inv s' → m_state s'.1 = eSYSMGR_STATE_NTP_WAIT → m_queue s'.1 = [] → s'.2.1 = b →
     m_publish s'.1 = m_publish m → m_timerSrc s'.1 = m_timerSrc m →
     (t = true → all_fresh t (m_timerSync s'.1)) → Q tt s') →
  wp t (_ ← on_mgr (upd (λ m, set_pathEventMap (fill_pathEventMap (m_pathEventMap m)) m));
     _ ← on_mgr setInitialTime;
     _ ← on_mgr (upd (λ m, set_stateMachine (fill_stateMachine (stateMachine m)) m));
     on_mgr (upd (set_state eSYSMGR_STATE_NTP_WAIT))) Q (m, (b, w)).
Proof.
  intros Hq Hsm Hp Hqu Hok HQ. apply wp_bind, wp_on_mgr, wp_modify. simpl. apply wp_bind, wp_on_mgr.
  eapply wp_mono; [apply (wp_setInitialTime t); [exact HE|exact Hok]|].
  intros [] [m3 w3] (v & r & Hc & _ & _ & Hsrc & _ & Hfr & Hq3). simpl in *.
  apply wp_bind, wp_on_mgr, wp_modify, wp_on_mgr, wp_modify. simpl.
  injection Hc as Hca Hcb _ Hcp _ _ _ _ Hcq. apply HQ; try done; simpl; [|congruence].
  unfold daemon_inv. simpl. rewrite Hca, Hcb, Hcq, Hsm, Hp, Hq. split_and!; try done.
  unfold quality_inv. simpl. case_bool_decide; destruct Hq3 as [-> _]; auto.
Qed.

(** Starting the telemetry library changes no file. *)
Lemma wp_telemetry m b (w : world) (Q : unit → daemon → Prop) :
  (∀ w', w_fs w' = w_fs w → Q tt (m, (b, w'))) →
  wp t (on_mgr (on_snd (when T2_EVENT_ENABLED (sys (T2Init "sysTimeMgr"))))) Q (m, (b, w)).
Proof.
  intros HQ. apply wp_on_mgr, wp_on_snd, wp_when; intros _; simpl; [|by apply HQ].
  by apply wp_sys_unit, HQ.
Qed.

Lemma wp_initialize m w :
  m_queue m = [] → stateMachine m = ∅ → m_pathEventMap m = [] → m_timequality m = eTIMEQUALILTY_UNKNOWN →
  m_timerSrc m = [] → m_timerSync m = [] →
  (t = true → iarm_built ∧ Forall known_line (conf_lines (w_fs w) (m_cfgfile m)) ∧ times_in_range (w_fs w)) →
  wp t initialize (λ _ s, daemon_inv s ∧ m_state s.1 = eSYSMGR_STATE_NTP_WAIT ∧ m_queue s.1 = [] ∧
    power_ready s.2.1 ∧ is_Some (m_publish s.1) ∧ (t = true → ∀ n, fresh n → plugins_ok n s.1))
    (m, (empty_bus, w)).
Proof.
  intros Hq Hsm Hp Hqu Hsrc0 Hsync0 Hok. unfold initialize. apply wp_bind, wp_telemetry. intros w0 Hf0.
  rewrite <- Hf0 in *. clear w Hf0. rename w0 into w.
  apply wp_bind, wp_load_config. intros ls w1 Hls Hf1.
  destruct (config_lines_frame ls m) as [Hc1 Hs1]. destruct (config_lines_objects ls m) as [Hsrc1 Hsync1].
  set (m1 := foldl _ m ls) in *. clearbody m1. rewrite Hsrc0 in Hsrc1. rewrite Hsync0 in Hsync1. simpl in *.
  assert (t = true → Forall known_line ls) as Hkn.
  { intros Ht. destruct (Hok Ht) as (_ & Hk & _). destruct Hls as [-> | ->]; [done|by apply Forall_nil]. }
  assert (∀ w2, w_fs w2 = w_fs w → wp t connect_bus (λ _ s, wp t
    (_ ← on_mgr (upd (λ m, set_pathEventMap (fill_pathEventMap (m_pathEventMap m)) m));
     _ ← on_mgr setInitialTime;
     _ ← on_mgr (upd (λ m, set_stateMachine (fill_stateMachine (stateMachine m)) m));
     on_mgr (upd (set_state eSYSMGR_STATE_NTP_WAIT)))
    (λ _ s, daemon_inv s ∧ m_state s.1 = eSYSMGR_STATE_NTP_WAIT ∧ m_queue s.1 = [] ∧
      power_ready s.2.1 ∧ is_Some (m_publish s.1) ∧ (t = true → ∀ n, fresh n → plugins_ok n s.1)) s)
    (m1, (empty_bus, w2))) as Hrest.
  { intros w2 Hf2. apply wp_connect_bus; [intros Ht; by destruct (Hok Ht)|].
    intros m2 b2 w3 (Hs2 & Hq2 & Hsm2 & Hp2 & Hsy2 & Hsr2) Hb Hpub Hf3.
    injection Hc1 as Hc1a Hc1b _ _ _ _ _ _ Hc1q. injection Hs1 as _ Hs1 _. injection Hs2 as _ Hs2 _.
    apply wp_initialize_rest; [congruence..| |].
    - intros Ht. split; [done|]. destruct (Hok Ht) as (_ & _ & Hr). unfold readable. rewrite Hsy2, Hsync1, Hf3, Hf2.
      apply configured_ok; [intros l o _ _ Ho; by eapply createTimeSync_readable|].
      intros l Hl Hcat. specialize (Hkn Ht). rewrite Forall_forall in Hkn. by apply (Hkn l Hl).
    - intros s' Hinv Hst Hq' Hb' Hpub' Hsr' Hfr. rewrite Hb', Hpub'. do 5 (split; [done|]).
      intros Ht n Hn. split; [|exact (Hfr Ht n Hn)]. rewrite Hsr', Hsr2, Hsrc1.
      apply (configured_ok "timesrc" createTimeSrc (λ _, True)); [done|].
      intros l Hl Hcat. specialize (Hkn Ht). rewrite Forall_forall in Hkn. by apply (Hkn l Hl). }
  apply wp_bind, wp_gets, wp_bind, wp_when; intros _; simpl.
  - apply wp_bind, wp_on_mgr, wp_on_snd, wp_sys, wp_ret. apply wp_bind. by apply Hrest.
  - apply wp_bind. by apply Hrest.
Qed.
End initialization.

Section initialization_run.
Context {E : Env} {B : Build}.

Lemma initialize_run (cfg : string) (w : world) :
  SaneEnv E → SaneMfr → iarm_built → Forall known_line (conf_lines (w_fs w) cfg) → times_in_range (w_fs w) →
  ∃ m0 s', new_SysTimeMgr cfg w = (Ret m0, w) ∧ initialize (m0, (empty_bus, w)) = (Ret tt, s') ∧
    daemon_inv s' ∧ m_state s'.1 = eSYSMGR_STATE_NTP_WAIT ∧ m_queue s'.1 = [] ∧
    power_ready s'.2.1 ∧ is_Some (m_publish s'.1) ∧ ∀ n, fresh n → plugins_ok n s'.1.
Proof.
  intros HE HM HB Hk Hr.
  assert (∀ m0 : mgr TimeSrcObj TimeSyncObj, new_SysTimeMgr cfg w = (Ret m0, w) → m_queue m0 = [] ∧ stateMachine m0 = ∅ ∧ m_pathEventMap m0 = [] ∧
    m_timequality m0 = eTIMEQUALILTY_UNKNOWN ∧ m_timerSrc m0 = [] ∧ m_timerSync m0 = [] ∧ m_cfgfile m0 = cfg) as Hnew
    by (by intros m0 [= <-]).
  destruct (new_SysTimeMgr (Src := TimeSrcObj) (Sync := TimeSyncObj) cfg w) as [[m0|e|] w0] eqn:Hn; try done.
  assert (w0 = w) as -> by (by injection Hn). exists m0.
  destruct (Hnew m0 eq_refl) as (Hq & Hsm & Hp & Hqu & Hs1 & Hs2 & Hc).
  assert (wp true initialize (λ _ s, daemon_inv s ∧ m_state s.1 = eSYSMGR_STATE_NTP_WAIT ∧ m_queue s.1 = [] ∧
    power_ready s.2.1 ∧ is_Some (m_publish s.1) ∧ (true = true → ∀ n, fresh n → plugins_ok n s.1))
    (m0, (empty_bus, w))) as Hwp.
  { apply (wp_initialize true HE (λ _, HM)); try done. intros _. by rewrite Hc. }
  apply wp_total_run in Hwp as ([] & s' & Hrun & Hinv & Hst & Hq' & Hb & Hpub & Hpl).
  exists s'. do 7 (split; [done|]). by apply Hpl.
Qed.
End initialization_run.

Section properties.
Context {E : Env} {B : Build}.

(** Initialisation succeeds and leaves the daemon ready.  On a sane platform,
    with every type of the configuration file known to the build and times in
    range in the clock file and the version file, the object is built and
    [initialize] returns.  The daemon then waits for network time, its table
    holds the fifteen transitions, the path map sends the four file names to
    their events in key order, the queue is empty, the quality is Poor or
    Unknown, there is a publisher; the static subscriber instance the power
    callbacks go through is the power subscriber of this build with the daemon's
    handler (the timer subscriber, built first, does not shadow it); and the
    sources and syncs are good for any number of inputs up to a thousand
    million. *)
Theorem initialize_ready (cfg : string) (w : world) :
  SaneEnv E → SaneMfr → iarm_built → Forall known_line (conf_lines (w_fs w) cfg) → times_in_range (w_fs w) →
  ∃ m0 s', new_SysTimeMgr cfg w = (Ret m0, w) ∧ initialize (m0, (empty_bus, w)) = (Ret tt, s') ∧
    daemon_inv s' ∧ m_state s'.1 = eSYSMGR_STATE_NTP_WAIT ∧ m_queue s'.1 = [] ∧
    power_ready s'.2.1 ∧ is_Some (m_publish s'.1) ∧ ∀ n, fresh n → plugins_ok n s'.1.
Proof. apply initialize_run. Qed.
End properties.

Section config_properties.
Context {E : Env} {B : Build}.

Lemma load_config_run (ls : list (string * string * string)) (f : file)
    (m : mgr TimeSrcObj TimeSyncObj) (b : bus) (w : world) :
  Forall line_ok ls → w_fs w !! m_cfgfile m = Some f → f_data f = render_config ls →
  answer (w_trace w) (OpenRead (m_cfgfile m)) = true →
  load_config (m, (b, w))
  = (Ret tt, (foldl (λ m l, config_line l m) m ls, (b, log (Ev (OpenRead (m_cfgfile m)) true) w))).
Proof.
  intros Hls Hf Hd Ho. unfold load_config, read_file, on_mgr, on_snd, upd, modify, mbind, M_bind, gets, sys.
  simpl. rewrite Ho. simpl. rewrite Hf. simpl. by rewrite Hd, read_render_config.
Qed.

(** The daemon builds what its configuration file lists.  From a file of
    lines [category type args], written with single blanks, [load_config] adds
    to the sources one object per [timesrc] line and to the syncs one per
    [timesync] line, in the order of the file, each made by the factory from its
    type and its path under /tmp/systimemgr; lines of other categories add
    nothing, and no other member changes. *)
Theorem config_builds_objects (ls : list (string * string * string)) (f : file)
    (m : mgr TimeSrcObj TimeSyncObj) (b : bus) (w : world) :
  Forall line_ok ls → w_fs w !! m_cfgfile m = Some f → f_data f = render_config ls →
  answer (w_trace w) (OpenRead (m_cfgfile m)) = true →
  ∃ m' w', load_config (m, (b, w)) = (Ret tt, (m', (b, w'))) ∧
    m_timerSrc m' = m_timerSrc m ++ configured "timesrc" createTimeSrc ls ∧
    m_timerSync m' = m_timerSync m ++ configured "timesync" createTimeSync ls ∧
    config m' = config m ∧ status_of m' = status_of m ∧ quiet w w' ∧ w_fs w' = w_fs w.
Proof.
  intros Hls Hf Hd Ho. eexists _, _. split; [by apply (load_config_run ls f)|].
  destruct (config_lines_objects ls m) as [-> ->]. destruct (config_lines_frame ls m) as [-> ->].
  do 4 (split; [done|]). split; [|done]. eauto with quiet.
Qed.

(** A computation over the vector that returned has met no null pointer. *)
Lemma for_each_no_null {T W A} (body : A → M (T * W) A) acc l w a l' w' :
  for_each body acc l w = (Ret a, (l', w')) → Forall is_Some l.
Proof.
  revert acc w a l' w'. induction l as [|[o|] l IH]; intros acc w a l' w'; simpl; [by constructor| |done].
  destruct (body acc (o, w)) as [[acc'|e|] [o' w1]]; [|done|done].
  destruct (for_each body acc' l w1) as [[x|e|] [l1 w2]] eqn:Hl; [|done|done].
  intros _. constructor; [done|]. by eapply IH.
Qed.

Lemma configured_null {T} category create ls l :
  l ∈ ls → l.1.1 = category → create l.1.2 (m_directory +:+ l.2) = None →
  ¬ Forall is_Some (configured category create ls : list (option T)).
Proof.
  intros Hin Hc Hn Hall. rewrite Forall_forall in Hall.
  assert (None ∈ configured category create ls) as Hnone.
  { unfold configured. rewrite <- Hn. apply list_elem_of_fmap. exists l. split; [done|].
    by apply list_elem_of_filter. }
  by destruct (Hall _ Hnone).
Qed.

Lemma setInitialTime_no_null (m : mgr TimeSrcObj TimeSyncObj) (Q : unit → mgr TimeSrcObj TimeSyncObj * world → Prop) w :
  ¬ Forall is_Some (m_timerSync m) → wp false setInitialTime Q (m, w).
Proof.
  intros Hn. unfold setInitialTime. apply wp_bind, wp_over_syncs. unfold wp, for_each_m. simpl.
  destruct (for_each _ _ _ _) as [[z|e|] [l' w']] eqn:Hl; [|done|done].
  by apply for_each_no_null in Hl.
Qed.

End config_properties.

(** ** Witnesses *)

Definition demo_lines : list (string * string * string) :=
  [("timesrc", "ntp", "/ntp"); ("timesrc", "drm", "/drm"); ("timesync", "rdkdefault", "/clock.txt")].
Definition conf_file (ls : list (string * string * string)) : file := File (render_config ls) 0.
Definition conf_world (ls : list (string * string * string)) : world :=
  World {[ "/etc/systimemgr.conf" := conf_file ls ]} [].

(** The object of a new process and what [initialize] makes of it. *)
Definition new_object : mgr TimeSrcObj TimeSyncObj * world :=
  match new_SysTimeMgr "/etc/systimemgr.conf" (conf_world demo_lines) with
  | (Ret m, w) => (m, w)
  | (_, w) => (demo eSYSMGR_STATE_INIT eTIMEQUALILTY_UNKNOWN, w)
  end.
Definition booted : daemon :=
  snd (@initialize good_env good_build (fst new_object, (empty_bus, snd new_object))).

Lemma initialize_ready_witness :
  ∃ m0 s', new_SysTimeMgr "/etc/systimemgr.conf" (conf_world demo_lines)
      = (Ret m0, conf_world demo_lines) ∧
    @initialize good_env good_build (m0, (empty_bus, conf_world demo_lines)) = (Ret tt, s') ∧
    daemon_inv s' ∧ m_state s'.1 = eSYSMGR_STATE_NTP_WAIT ∧ m_queue s'.1 = [] ∧
    power_ready (B := good_build) s'.2.1 ∧ is_Some (m_publish s'.1) ∧ ∀ n, fresh n → plugins_ok n s'.1.
Proof.
  apply (@initialize_ready good_env good_build "/etc/systimemgr.conf" (conf_world demo_lines) good_env_sane good_mfr).
  - by intros _.
  - assert (conf_lines (w_fs (conf_world demo_lines)) "/etc/systimemgr.conf" = demo_lines) as ->
      by (vm_compute; reflexivity).
    repeat (apply Forall_cons; split; [by split; intros ?; try discriminate; eexists|]). by apply Forall_nil.
  - split; vm_compute; by split.
Defined.

Lemma demo_lines_ok : Forall line_ok demo_lines.
Proof. repeat (apply Forall_cons; split; [by vm_compute|]). by apply Forall_nil. Qed.

Lemma config_builds_objects_witness :
  let m := set_srcs [] (set_syncs [] (demo eSYSMGR_STATE_INIT eTIMEQUALILTY_UNKNOWN)) in
  ∃ m' w', @load_config good_env good_build (m, (empty_bus, conf_world demo_lines))
      = (Ret tt, (m', (empty_bus, w'))) ∧
    m_timerSrc m' = [Some (SrcNtp mkNtpTimeSrc); Some (SrcDrm (mkDrmTimeSrc "/tmp/systimemgr/drm"))] ∧
    m_timerSync m' = [Some (SyncRdkDefault (new_RdkDefaultTimeSync "/opt/secure/clock.txt"))] ∧
    config m' = config m ∧ status_of m' = status_of m ∧
    quiet (conf_world demo_lines) w' ∧ w_fs w' = w_fs (conf_world demo_lines).
Proof.
  intros m. apply (@config_builds_objects good_env good_build demo_lines (conf_file demo_lines) m empty_bus
    (conf_world demo_lines) demo_lines_ok); vm_compute; reflexivity.
Defined.
