(* ===== verification/Exceptions.v ===== *)
(** * Exceptions: what never leaves by an exception

    Exceptions come from two places only, the JSON-RPC client and std::stoll, and
    only the sources that ask for the time over JSON-RPC use them.  [nothrow] says
    that an operation never leaves by an exception, in whatever state and
    environment it runs; it holds of the start of the daemon.  So a start that does
    not return has no defined outcome: [main], which catches every exception,
    cannot turn it into an exit status. *)

From S2P Require Import Prelude CString Platform TestEnv Interfaces TimeSync PubSub TimeSrc Factory.
From S2P Require Import SysTimeMgr MgrSpec MgrProps Daemon.

Definition nothrow {S A} (m : M S A) : Prop := ∀ s e, (m s).1 ≠ Throw e.

Create HintDb nothrow.

Section rules.
Context {S : Type}.

Lemma nothrow_ret {A} (a : A) : nothrow (mret a : M S A).
Proof. done. Qed.
Lemma nothrow_bind {A C} (m : M S A) (k : A → M S C) : nothrow m → (∀ a, nothrow (k a)) → nothrow (m ≫= k).
Proof.
  intros Hm Hk s e. unfold mbind, M_bind. specialize (Hm s). destruct (m s) as [[a|e'|] s1]; simpl in *; [apply Hk| |done].
  by destruct (Hm e').
Qed.
Lemma nothrow_gets {A} (f : S → A) : nothrow (gets f).
Proof. done. Qed.
Lemma nothrow_modify (f : S → S) : nothrow (modify f).
Proof. done. Qed.
Lemma nothrow_deref {A} (p : option A) : nothrow (deref p : M S A).
Proof. by destruct p. Qed.
Lemma nothrow_i64 z : nothrow (of_outcome (i64 z) : M S Z).
Proof. intros s e. unfold of_outcome, i64. by destruct (in_i64 z). Qed.
Lemma nothrow_when b (m : M S unit) : nothrow m → nothrow (when b m).
Proof. by destruct b. Qed.
End rules.

Lemma nothrow_on_snd {O W A} (m : M W A) : nothrow m → nothrow (on_snd m : M (O * W) A).
Proof. intros Hm [o w] e. unfold on_snd. specialize (Hm w e). simpl. by destruct (m w). Qed.

Lemma nothrow_on_mgr {A} (m : M (mgr TimeSrcObj TimeSyncObj * world) A) : nothrow m → nothrow (on_mgr m).
Proof. intros Hm [g [b w]] e. unfold on_mgr. specialize (Hm (g, w) e). simpl in *. by destruct (m (g, w)) as [r [g' w']]. Qed.

#[export] Hint Resolve nothrow_ret nothrow_gets nothrow_modify nothrow_deref nothrow_i64 nothrow_when nothrow_on_snd
  nothrow_on_mgr : nothrow.

(** Walks through the body of an operation. *)
Ltac nothrow :=
  repeat first
    [ done | apply nothrow_bind; [|intros ?] | apply nothrow_when | apply nothrow_on_mgr | apply nothrow_on_snd
    | solve [eauto 2 with nothrow] | case_match ].

Section operations.
Context {E : Env} {B : Build}.

Lemma sys_nothrow {A : Set} (c : call A) : nothrow (sys c).
Proof. done. Qed.
Hint Resolve sys_nothrow : nothrow.

Lemma read_file_nothrow path : nothrow (read_file path).
Proof. unfold read_file. nothrow. Qed.
Lemma truncate_file_nothrow path : nothrow (truncate_file path).
Proof. unfold truncate_file. nothrow. Qed.
Lemma strftime_nothrow z : nothrow (strftime_local z).
Proof. apply nothrow_deref. Qed.
Lemma chrono_nothrow s n : nothrow (chrono_to_time_t s n).
Proof. unfold chrono_to_time_t. nothrow. Qed.
Hint Resolve read_file_nothrow truncate_file_nothrow strftime_nothrow chrono_nothrow : nothrow.
Lemma realtime_nothrow : nothrow realtime_or_time.
Proof. unfold realtime_or_time. nothrow. Qed.
Lemma publish_nothrow p e m : nothrow (publish p e m).
Proof. destruct p; simpl; unfold TestPublish_publish, IarmPublish_publish; nothrow. Qed.
Hint Resolve realtime_nothrow publish_nothrow : nothrow.

(** The reading of every class of sync. *)
Lemma getTime_nothrow : nothrow (getTime : M (TimeSyncObj * world) Z).
Proof.
  assert (∀ T (c : T → TimeSyncObj) o (m : M (T * world) Z) w e, nothrow m → (via c o m (c o, w)).1 ≠ Throw e) as Hvia.
  { intros T c o m w e Hm. unfold via. specialize (Hm (o, w) e). simpl in *. by destruct (m (o, w)) as [r [o' w']]. }
  assert (nothrow buildtime) as Hb by (unfold buildtime; nothrow).
  assert (∀ z, nothrow (set_currentTime z)) as Hs by done.
  intros [[o|o|o] w] e; [refine (Hvia _ SyncTest o _ w e _)|refine (Hvia _ SyncRdkDefault o _ w e _)
    |refine (Hvia _ SyncTee o _ w e _)]; unfold getTime; simpl;
    unfold TestTimeSync_getTime, RdkDefaultTimeSync_getTime, TeeTimeSync_getTime; nothrow.
Qed.

Lemma for_each_nothrow {T W A} (body : A → M (T * W) A) acc : (∀ a, nothrow (body a)) → nothrow (for_each_m body acc).
Proof.
  intros Hb [l w] e. unfold for_each_m. simpl. revert acc w.
  induction l as [|[o|] l IH]; intros acc w; [done| |done]. simpl. specialize (Hb acc (o, w)).
  destruct (body acc (o, w)) as [[acc'|e'|] [o' w']]; [| |done]; [|by destruct (Hb e')].
  specialize (IH acc' w'). by destruct (for_each body acc' l w') as [r [l' w'']].
Qed.

Lemma over_syncs_nothrow {A} (l : M (list (option TimeSyncObj) * world) A) :
  nothrow l → nothrow (over_syncs l : M (mgr TimeSrcObj TimeSyncObj * world) A).
Proof.
  intros Hl [m w] e. unfold over_syncs. specialize (Hl (m_timerSync m, w) e). simpl in *.
  by destruct (l (m_timerSync m, w)) as [r [l' w']].
Qed.

Lemma publishStatus_nothrow e label : nothrow (publishStatus e label : M (mgr TimeSrcObj TimeSyncObj * world) unit).
Proof. unfold publishStatus, field. nothrow. Qed.
Hint Resolve publishStatus_nothrow : nothrow.

Lemma setInitialTime_nothrow : nothrow (setInitialTime : M (mgr TimeSrcObj TimeSyncObj * world) unit).
Proof.
  unfold setInitialTime. apply nothrow_bind; [|intros v; unfold set_clock, upd; nothrow].
  apply over_syncs_nothrow, for_each_nothrow. intros _. apply getTime_nothrow.
Qed.

Lemma connect_bus_nothrow : nothrow connect_bus.
Proof.
  assert (∀ name, nothrow (iarm_connect name)) as Hi by (intros; unfold iarm_connect; nothrow).
  assert (∀ type args, nothrow (createPublish type args)) as Hp.
  { intros. unfold createPublish, new_IarmPublish. nothrow. }
  assert (∀ s, nothrow (new_subscriber s)) as Hn by done.
  assert (∀ this, nothrow (set_pInstance this)) as Hset by done.
  assert (∀ type args sub, nothrow (createSubscriber type args sub)) as Hc.
  { intros. unfold createSubscriber, new_IarmTimerStatusSubscriber, new_IarmPowerSubscriber,
      new_IpowerControllerSubscriber, fmap, M_fmap. nothrow. }
  assert (∀ this o, nothrow (put_subscriber this o)) as Hput by done.
  assert (∀ p name f, nothrow (subscribe p name f)) as Hsub.
  { intros. unfold subscribe, IarmTimerStatusSubscriber_subscribe, IarmPowerSubscriber_subscribe,
      IpowerControllerSubscriber_subscribe. nothrow. }
  unfold connect_bus, upd. nothrow.
Qed.

(** Nothing in the start of the daemon raises an exception. *)
Lemma initialize_nothrow : nothrow initialize.
Proof.
  pose proof connect_bus_nothrow. pose proof setInitialTime_nothrow. unfold initialize, load_config, upd. nothrow.
Qed.
End operations.

(** * Properties *)

Section properties.
Context {E : Env} {B : Build}.

(** C36: one misspelt type takes the daemon down.  When a [timesync] line of the
    configuration names a type the factory does not know, the factory's null
    pointer is stored unchecked and the loop of [setInitialTime] dereferences it at
    the latest: the outcome of [initialize] is undefined behaviour, neither a
    return nor an exception, so the handlers of [main] do not apply and [main] has
    no exit status either. *)
Theorem unknown_sync_never_initializes (ls : list (string * string * string)) (f : file)
    (l : string * string * string) (m : mgr TimeSrcObj TimeSyncObj) (w : world) :
  Forall line_ok ls → w_fs w !! m_cfgfile m = Some f → f_data f = render_config ls →
  (∀ h, answer h (OpenRead (m_cfgfile m)) = true) →
  l ∈ ls → l.1.1 = "timesync" → createTimeSync l.1.2 (m_directory +:+ l.2) = None →
  fst (initialize (m, (empty_bus, w))) = Undef ∧ ∀ pid, fst (main pid (m, (empty_bus, w))) = Undef.
Proof.
  intros Hls Hf Hd Ho Hin Hc Hnull.
  assert (wp false initialize (λ _ _, False) (m, (empty_bus, w))) as Hwp.
  { unfold initialize. apply wp_bind, wp_telemetry. intros w0 Hf0. rewrite <- Hf0 in Hf. clear Hf0.
    apply wp_bind. unfold wp at 1. rewrite (load_config_run ls f) by done.
    destruct (config_lines_objects ls m) as [_ Hsync].
    set (m1 := foldl _ m ls) in *. set (w1 := log _ w0). clearbody m1 w1.
    assert (¬ Forall is_Some (m_timerSync m1)) as Hbad.
    { rewrite Hsync, Forall_app. intros [_ Hall]. revert Hall. by eapply configured_null. }
    assert (∀ w2, wp false connect_bus (λ _ s, wp false
      (_ ← on_mgr (upd (λ m, set_pathEventMap (fill_pathEventMap (m_pathEventMap m)) m));
       _ ← on_mgr setInitialTime;
       _ ← on_mgr (upd (λ m, set_stateMachine (fill_stateMachine (stateMachine m)) m));
       on_mgr (upd (set_state eSYSMGR_STATE_NTP_WAIT))) (λ _ _, False) s) (m1, (empty_bus, w2))) as Hrest.
    { intros w2. apply wp_connect_bus; [done|]. intros m2 b2 w3 (_ & _ & _ & _ & Hs2 & _) _ _ _.
      apply wp_bind, wp_on_mgr, wp_modify, wp_bind, wp_on_mgr, setInitialTime_no_null. simpl. by rewrite Hs2. }
    apply wp_bind, wp_gets, wp_bind, wp_when; intros _; simpl; [|by apply wp_bind].
    apply wp_bind, wp_on_mgr, wp_on_snd, wp_sys, wp_ret. by apply wp_bind. }
  assert (fst (initialize (m, (empty_bus, w))) = Undef) as Hundef.
  { pose proof (initialize_nothrow (m, (empty_bus, w))) as Hno. unfold wp in Hwp.
    destruct (initialize (m, (empty_bus, w))) as [[[]|e|] s']; [done|by destruct (Hno e)|done]. }
  split; [done|]. intros pid. unfold main, catch, mbind, M_bind.
  by destruct (initialize (m, (empty_bus, w))) as [[[]|e|] s'].
Qed.
End properties.

(** ** Witnesses *)

(** A misspelt type. *)
Definition bad_lines : list (string * string * string) := [("timesync", "rdkdefalt", "/clock.txt")].

Lemma unknown_sync_never_initializes_witness :
  let s := (demo eSYSMGR_STATE_INIT eTIMEQUALILTY_UNKNOWN, (empty_bus, conf_world bad_lines)) in
  fst (@initialize good_env good_build s) = Undef ∧ ∀ pid, fst (@main good_env good_build pid s) = Undef.
Proof.
  apply (@unknown_sync_never_initializes good_env good_build bad_lines (conf_file bad_lines)
    ("timesync", "rdkdefalt", "/clock.txt")); try (vm_compute; reflexivity).
  - apply Forall_cons. split; [by vm_compute|by apply Forall_nil].
  - by apply list_elem_of_here.
Defined.
