(* ===== verification/Frame.v ===== *)
(** * Frame: what no operation changes

    A frame calculus for the monad: [keeps f m] says that [m] leaves [f] of its
    state as it was, however it ends.  With it: the class and the path of every
    object in the two vectors, and the members only [initialize] sets, through
    every operation of the daemon. *)

From Corelib Require Import SpecFloat.
From S2P Require Import Prelude CString Platform TestEnv Interfaces TimeSync PubSub TimeSrc Factory.
From S2P Require Import SysTimeMgr MgrSpec NetworkStatus Daemon.

Definition keeps {S A C} (f : S → C) (m : M S A) : Prop := ∀ s, f (m s).2 = f s.

Create HintDb keeps.

Section rules.
Context {S C : Type} (f : S → C).

Lemma keeps_ret {A} (a : A) : keeps f (mret a).
Proof. done. Qed.
Lemma keeps_bind {A B} (m : M S A) (k : A → M S B) : keeps f m → (∀ a, keeps f (k a)) → keeps f (m ≫= k).
Proof.
  intros Hm Hk s. unfold mbind, M_bind. specialize (Hm s). destruct (m s) as [[a|e|] s1]; simpl in *; try done.
  by rewrite Hk.
Qed.
Lemma keeps_gets {A} (g : S → A) : keeps f (gets g).
Proof. done. Qed.
Lemma keeps_of_outcome {A} (o : outcome A) : keeps f (of_outcome o).
Proof. done. Qed.
Lemma keeps_throw {A} e : keeps f (throw e : M S A).
Proof. done. Qed.
Lemma keeps_deref {A} (p : option A) : keeps f (deref p).
Proof. by destruct p. Qed.
Lemma keeps_modify (g : S → S) : (∀ s, f (g s) = f s) → keeps f (modify g).
Proof. intros H s. apply H. Qed.
Lemma keeps_when b (m : M S unit) : keeps f m → keeps f (when b m).
Proof. by destruct b. Qed.
Lemma keeps_catch {A} (m : M S A) sel (h : M S A) : keeps f m → keeps f h → keeps f (catch m sel h).
Proof.
  intros Hm Hh s. unfold catch. specialize (Hm s). destruct (m s) as [[a|e|] s1]; simpl in *; try done.
  destruct (sel e); [|done]. by rewrite Hh.
Qed.
End rules.

Lemma keeps_on_snd {O W A C} (g : O → C) (m : M W A) : keeps (λ s : O * W, g s.1) (on_snd m).
Proof. intros [o w]. unfold on_snd. simpl. by destruct (m w). Qed.

Lemma keeps_inner {O W A C} (f : W → C) (m : M W A) : keeps f m → keeps (λ s : O * W, f s.2) (on_snd m).
Proof. intros Hm [o w]. unfold on_snd. specialize (Hm w). simpl in *. by destruct (m w). Qed.

#[export] Hint Resolve keeps_ret keeps_bind keeps_gets keeps_of_outcome keeps_throw keeps_deref keeps_when
  keeps_catch keeps_on_snd : keeps.

(** Walks through the body of an operation. *)
Ltac keep :=
  repeat first
    [ done | apply keeps_ret | apply keeps_gets | apply keeps_of_outcome | apply keeps_deref | apply keeps_on_snd
    | apply keeps_bind; [|intros ?] | apply keeps_when | apply keeps_catch | progress eauto 2 with keeps
    | apply keeps_inner
    | case_match ].

(** A loop over a vector keeps what its body keeps of every object, and the null
    pointers. *)
Lemma keeps_for_each {T W A C} (g : T → C) (body : A → M (T * W) A) acc :
  (∀ a, keeps (λ ow : T * W, g ow.1) (body a)) →
  keeps (λ lw : list (option T) * W, map (fmap g) lw.1) (for_each_m body acc).
Proof.
  intros Hb [l w]. unfold for_each_m. simpl. revert acc w.
  induction l as [|[o|] l IH]; intros acc w; [done| |done]. simpl.
  specialize (Hb acc (o, w)). destruct (body acc (o, w)) as [[acc'|e|] [o' w']]; simpl in Hb; simpl; try by rewrite Hb.
  specialize (IH acc' w'). destruct (for_each body acc' l w') as [r [l' w'']]. simpl in *. by rewrite Hb, IH.
Qed.

(** ** The objects *)

(** The class of a source and its path; those without one are created without. *)
Definition src_type (s : TimeSrcObj) : string * string :=
  match s with
  | SrcNtp _ => ("ntp", "")
  | SrcStt _ => ("stt", "")
  | SrcRegular o => ("regular", regular_path o)
  | SrcDrm o => ("drm", drm_path o)
  | SrcDtt o => ("dtt", dtt_path o)
  end.
Definition sync_type (s : TimeSyncObj) : string * string :=
  match s with
  | SyncTest o => ("test", o)
  | SyncRdkDefault o => ("rdkdefault", rdk_path o)
  | SyncTee _ => ("tee", "")
  end.

Lemma keeps_via {T O A C} (c : T → O) (g : O → C) (o : T) (m : M (T * world) A) :
  keeps (λ ow : T * world, g (c ow.1)) m → ∀ w, g (via c o m (c o, w)).2.1 = g (c o).
Proof. intros Hm w. unfold via. specialize (Hm (o, w)). simpl in *. by destruct (m (o, w)) as [r [o' w']]. Qed.

Section objects.
Context {E : Env} {B : Build}.

Lemma ntp_keeps : keeps (λ ow, src_type (SrcNtp ow.1)) NtpTimeSrc_getTimeSec.
Proof. apply (keeps_on_snd (λ o, src_type (SrcNtp o))). Qed.
Lemma stt_keeps : keeps (λ ow, src_type (SrcStt ow.1)) SttTimeSrc_getTimeSec.
Proof. apply (keeps_on_snd (λ o, src_type (SrcStt o))). Qed.
Lemma regular_keeps : keeps (λ ow, src_type (SrcRegular ow.1)) RegularTimeSrc_getTimeSec.
Proof. unfold RegularTimeSrc_getTimeSec. keep; apply (keeps_on_snd (λ o, src_type (SrcRegular o))). Qed.
Lemma drm_keeps : keeps (λ ow, src_type (SrcDrm ow.1)) DrmTimeSrc_getTimeSec.
Proof. unfold DrmTimeSrc_getTimeSec. keep; apply (keeps_on_snd (λ o, src_type (SrcDrm o))). Qed.
Lemma dtt_keeps : keeps (λ ow, src_type (SrcDtt ow.1)) DttTimeSrc_getTimeSec.
Proof.
  assert (keeps (λ ow : DttTimeSrc * world, src_type (SrcDtt ow.1)) set_pluginactivated) as H1 by done.
  assert (keeps (λ ow : DttTimeSrc * world, src_type (SrcDtt ow.1)) set_dtteventsubscribed) as H2 by done.
  unfold DttTimeSrc_getTimeSec, dtt_try, dtt_prepare. keep; apply (keeps_on_snd (λ o, src_type (SrcDtt o))).
Qed.

Lemma getTimeSec_keeps_type : keeps (λ ow : TimeSrcObj * world, src_type ow.1) getTimeSec.
Proof.
  intros [[o|o|o|o|o] w];
    [exact (keeps_via SrcNtp src_type o _ ntp_keeps w)|exact (keeps_via SrcStt src_type o _ stt_keeps w)
    |exact (keeps_via SrcRegular src_type o _ regular_keeps w)|exact (keeps_via SrcDrm src_type o _ drm_keeps w)
    |exact (keeps_via SrcDtt src_type o _ dtt_keeps w)].
Qed.

Lemma check_keeps {T C} (g : T → C) (m : M (T * world) Z) :
  keeps (λ ow, g ow.1) m → keeps (λ ow, g ow.1) (ITimeSrc_checkTime m).
Proof. intros Hm. unfold ITimeSrc_checkTime. keep. Qed.

Lemma checkTime_keeps_type : keeps (λ ow : TimeSrcObj * world, src_type ow.1) checkTime.
Proof.
  intros [[o|o|o|o|o] w].
  - exact (keeps_via SrcNtp src_type o _ (check_keeps (λ o, src_type (SrcNtp o)) _ ntp_keeps) w).
  - exact (keeps_via SrcStt src_type o _ (check_keeps (λ o, src_type (SrcStt o)) _ stt_keeps) w).
  - exact (keeps_via SrcRegular src_type o _ (check_keeps (λ o, src_type (SrcRegular o)) _ regular_keeps) w).
  - exact (keeps_via SrcDrm src_type o _ (check_keeps (λ o, src_type (SrcDrm o)) _ drm_keeps) w).
  - exact (keeps_via SrcDtt src_type o _ (check_keeps (λ o, src_type (SrcDtt o)) _ dtt_keeps) w).
Qed.

Lemma updateTime_keeps_type z : keeps (λ ow : TimeSyncObj * world, sync_type ow.1) (updateTime z).
Proof.
  intros [[o|o|o] w];
    [refine (keeps_via SyncTest sync_type o _ _ w)|refine (keeps_via SyncRdkDefault sync_type o _ _ w)
    |refine (keeps_via SyncTee sync_type o _ _ w)].
  - unfold updateTime; simpl; unfold TestTimeSync_updateTime. keep; apply (keeps_on_snd (λ o, sync_type (SyncTest o))).
  - assert (∀ c, keeps (λ ow : RdkDefaultTimeSync * world, sync_type (SyncRdkDefault ow.1)) (set_currentTime c)) as H by done.
    unfold updateTime; simpl; unfold RdkDefaultTimeSync_updateTime.
    keep; apply (keeps_on_snd (λ o, sync_type (SyncRdkDefault o))).
  - unfold updateTime; simpl; unfold TeeTimeSync_updateTime, TeeTimeSync_getTime.
    keep; apply (keeps_on_snd (λ o, sync_type (SyncTee o))).
Qed.

Lemma getTime_keeps_type : keeps (λ ow : TimeSyncObj * world, sync_type ow.1) getTime.
Proof.
  intros [[o|o|o] w];
    [refine (keeps_via SyncTest sync_type o _ _ w)|refine (keeps_via SyncRdkDefault sync_type o _ _ w)
    |refine (keeps_via SyncTee sync_type o _ _ w)].
  - unfold getTime; simpl; unfold TestTimeSync_getTime. keep; apply (keeps_on_snd (λ o, sync_type (SyncTest o))).
  - assert (∀ c, keeps (λ ow : RdkDefaultTimeSync * world, sync_type (SyncRdkDefault ow.1)) (set_currentTime c)) as H by done.
    unfold getTime; simpl; unfold RdkDefaultTimeSync_getTime.
    keep; apply (keeps_on_snd (λ o, sync_type (SyncRdkDefault o))).
  - unfold getTime; simpl; unfold TeeTimeSync_getTime.
    keep; apply (keeps_on_snd (λ o, sync_type (SyncTee o))).
Qed.

(** ** The object *)

(** The members no operation changes after [initialize]: the class and path of
    every object in the vectors, the interval, the configuration. *)
Definition constant (m : mgr TimeSrcObj TimeSyncObj) :=
  (map (fmap src_type) (m_timerSrc m), map (fmap sync_type) (m_timerSync m), m_timerInterval m, m_cfgfile m,
   m_chronyRfcEnabled m).

Notation steady := (keeps (λ mw : mgr TimeSrcObj TimeSyncObj * world, constant mw.1)).

Lemma upd_keeps f : (∀ m, constant (f m) = constant m) → steady (upd f).
Proof. intros Hf [m w]. apply Hf. Qed.

Lemma over_srcs_keeps {A} (l : M (list (option TimeSrcObj) * world) A) :
  keeps (λ lw : list (option TimeSrcObj) * world, map (fmap src_type) lw.1) l → steady (over_srcs l).
Proof.
  intros Hl [m w]. specialize (Hl (m_timerSrc m, w)). unfold over_srcs. simpl in *.
  destruct (l (m_timerSrc m, w)) as [r [l' w']]. simpl in *. unfold constant. simpl. by rewrite Hl.
Qed.

Lemma over_syncs_keeps {A} (l : M (list (option TimeSyncObj) * world) A) :
  keeps (λ lw : list (option TimeSyncObj) * world, map (fmap sync_type) lw.1) l → steady (over_syncs l).
Proof.
  intros Hl [m w]. specialize (Hl (m_timerSync m, w)). unfold over_syncs. simpl in *.
  destruct (l (m_timerSync m, w)) as [r [l' w']]. simpl in *. unfold constant. simpl. by rewrite Hl.
Qed.

Lemma outside_keeps {A} (c : M world A) : steady (on_snd c).
Proof. apply keeps_on_snd. Qed.
Lemma field_keeps {A} (f : mgr TimeSrcObj TimeSyncObj → A) : steady (field f).
Proof. done. Qed.

Hint Resolve outside_keeps field_keeps : keeps.
Hint Extern 1 (keeps _ (upd _)) => (apply upd_keeps; done) : keeps.

Lemma updateTimeSync_keeps z : steady (updateTimeSync z).
Proof. apply over_syncs_keeps, keeps_for_each. intros []. apply updateTime_keeps_type. Qed.

Lemma publishStatus_keeps e s : steady (publishStatus e s).
Proof. unfold publishStatus. keep. Qed.

Hint Resolve updateTimeSync_keeps publishStatus_keeps : keeps.

Lemma timerExpiry_keeps args : steady (timerExpiry args).
Proof.
  unfold timerExpiry. apply keeps_bind; [|intros ?; keep]. apply over_srcs_keeps, keeps_for_each. intros [r f].
  unfold timerExpiry_body. keep; apply getTimeSec_keeps_type.
Qed.

Lemma call_memfunc_keeps f args : steady (call_memfunc f args).
Proof.
  pose proof timerExpiry_keeps as Ht.
  assert (steady (SysTimeMgr_updateTime args)) as Hu.
  { unfold SysTimeMgr_updateTime. apply keeps_bind; [keep|intros ?]. apply over_srcs_keeps, keeps_for_each.
    intros []. keep. apply checkTime_keeps_type. }
  assert (steady (updateClockRealTime args)) as Hc.
  { unfold updateClockRealTime. apply keeps_bind; [|intros ?; keep]. apply over_srcs_keeps, keeps_for_each.
    intros [z b]. unfold updateClockRealTime_body. keep; (apply getTimeSec_keeps_type || apply checkTime_keeps_type). }
  destruct f; simpl; try done;
    unfold ntpFailed, ntpAquired, dttAquired, updateSecureTime, secureTimeAcquired; keep.
Qed.

Lemma runStateMachine_keeps e args : steady (runStateMachine e args).
Proof. unfold runStateMachine. keep. apply call_memfunc_keeps. Qed.

Lemma deepsleepoff_locked_keeps : steady deepsleepoff_locked.
Proof. unfold deepsleepoff_locked. keep. Qed.

Lemma setInitialTime_keeps : steady setInitialTime.
Proof.
  unfold setInitialTime. apply keeps_bind; [|intros ?; keep]. apply over_syncs_keeps, keeps_for_each.
  intros z. apply getTime_keeps_type.
Qed.

Lemma getTimeStatus_keeps p : steady (getTimeStatus p).
Proof. unfold getTimeStatus. keep. Qed.

(** ** The process *)

Lemma on_mgr_keeps {A C} (f : mgr TimeSrcObj TimeSyncObj → C) (m : M (mgr TimeSrcObj TimeSyncObj * world) A) :
  keeps (λ mw : mgr TimeSrcObj TimeSyncObj * world, f mw.1) m → keeps (λ s : daemon, f s.1) (on_mgr m).
Proof. intros Hm [g [b w]]. unfold on_mgr. specialize (Hm (g, w)). simpl in *. by destruct (m (g, w)) as [r [g' w']]. Qed.

Lemma on_mgr_outside_keeps {A C} (f : mgr TimeSrcObj TimeSyncObj → C) (c : M world A) :
  keeps (λ s : daemon, f s.1) (on_mgr (on_snd c)).
Proof. apply (on_mgr_keeps f), (keeps_on_snd f). Qed.

Lemma on_bus_keeps {A C} (f : mgr TimeSrcObj TimeSyncObj → C) (c : M (bus * world) A) :
  keeps (λ s : daemon, f s.1) (on_snd c).
Proof. apply (keeps_on_snd f). Qed.

(** The rounds that at most queue a message, and every function of the object
    that does not look at the queue. *)
Section senders.
Context {C : Type} (f : mgr TimeSrcObj TimeSyncObj → C) (Hf : ∀ q m, f (set_queue q m) = f m).

Lemma sendMessage_keeps e args : keeps (λ s : daemon, f s.1) (on_mgr (sendMessage e args)).
Proof using Hf. apply (on_mgr_keeps f). intros [m w]. apply Hf. Qed.

Hint Resolve sendMessage_keeps on_mgr_outside_keeps : keeps.

Lemma runTimer_round_keeps : keeps (λ s : daemon, f s.1) runTimer_round.
Proof using Hf. unfold runTimer_round. keep. Qed.

Lemma path_scan_keeps l : keeps (λ s : daemon, f s.1) (path_scan l).
Proof using Hf. induction l as [|[n e] l IH]; [done|]. simpl. keep. Qed.

Lemma runPathMonitor_round_keeps : keeps (λ s : daemon, f s.1) runPathMonitor_round.
Proof using Hf. unfold runPathMonitor_round. keep. Qed.

Lemma runPathMonitor_watch_keeps : keeps (λ s : daemon, f s.1) runPathMonitor_watch.
Proof using Hf. unfold runPathMonitor_watch. keep. Qed.
End senders.

Lemma processMsg_round_keeps val q : keeps (λ s : daemon, constant s.1) (processMsg_round val q).
Proof.
  unfold processMsg_round. apply keeps_bind; [apply (on_mgr_keeps constant); by apply upd_keeps|intros _].
  apply (on_mgr_keeps constant), runStateMachine_keeps.
Qed.
End objects.

(** A computation that keeps [f], reasoned about with a postcondition. *)
Lemma wp_keeps {S A C} t (f : S → C) (m : M S A) Q s :
  keeps f m → wp t m Q s → wp t m (λ a s', Q a s' ∧ f s' = f s) s.
Proof. intros Hk Hwp. specialize (Hk s). unfold wp in *. by destruct (m s) as [[a|e|] s']. Qed.

(** ** The files [initialize] leaves alone

    All but the one that announces that the time has been set. *)

Definition files_but (path : string) (w : world) : gmap string file := delete path (w_fs w).

Section files.
Context {E : Env} {B : Build}.

Lemma keeps_for_each_snd {T W A C} (f : W → C) (body : A → M (T * W) A) acc :
  (∀ a, keeps (λ ow : T * W, f ow.2) (body a)) →
  keeps (λ lw : list (option T) * W, f lw.2) (for_each_m body acc).
Proof.
  intros Hb [l w]. unfold for_each_m. simpl. revert acc w.
  induction l as [|[o|] l IH]; intros acc w; [done| |done]. simpl.
  specialize (Hb acc (o, w)). destruct (body acc (o, w)) as [[acc'|e|] [o' w']]; simpl in Hb; try done.
  specialize (IH acc' w'). destruct (for_each body acc' l w') as [r [l' w'']]. simpl in *. by rewrite IH.
Qed.

Notation tidy := (keeps (files_but "/tmp/systimeset")).
Notation tidy_snd := (keeps (λ s, files_but "/tmp/systimeset" s.2)).

Lemma sys_files {A : Set} path (c : call A) : keeps (files_but path) (sys c).
Proof. done. Qed.
Hint Resolve sys_files keeps_inner : keeps.

Lemma read_file_files path : tidy (read_file path).
Proof. unfold read_file. keep. Qed.
Hint Resolve read_file_files : keeps.

Lemma truncate_file_files path : keeps (files_but path) (truncate_file path).
Proof.
  unfold truncate_file. keep. apply keeps_modify. intros w. unfold files_but, set_fs. simpl.
  apply delete_insert_eq.
Qed.
Hint Resolve truncate_file_files : keeps.

Lemma realtime_files : tidy realtime_or_time.
Proof. unfold realtime_or_time, chrono_to_time_t. keep. Qed.
Hint Resolve realtime_files : keeps.

Lemma strftime_files z : tidy (strftime_local z).
Proof. apply keeps_deref. Qed.
Hint Resolve strftime_files : keeps.

Lemma publish_files p e m : tidy (publish p e m).
Proof. destruct p; simpl; unfold TestPublish_publish, IarmPublish_publish; keep. Qed.
Hint Resolve publish_files : keeps.

Lemma getTime_files : keeps (λ ow : TimeSyncObj * world, files_but "/tmp/systimeset" ow.2) getTime.
Proof.
  assert (∀ T (c : T → TimeSyncObj) o (m : M (T * world) Z) w,
    keeps (λ ow : T * world, files_but "/tmp/systimeset" ow.2) m →
    files_but "/tmp/systimeset" (via c o m (c o, w)).2.2 = files_but "/tmp/systimeset" w) as Hvia.
  { intros T c o m w Hm. unfold via. specialize (Hm (o, w)). simpl in *. by destruct (m (o, w)) as [r [o' w']]. }
  intros [[o|o|o] w].
  - apply (Hvia _ SyncTest o). unfold getTime; simpl; unfold TestTimeSync_getTime. keep.
  - apply (Hvia _ SyncRdkDefault o). unfold getTime; simpl; unfold RdkDefaultTimeSync_getTime, buildtime, set_currentTime.
    keep; by apply keeps_modify.
  - apply (Hvia _ SyncTee o). unfold getTime; simpl; unfold TeeTimeSync_getTime. keep.
Qed.

Notation tidy_mgr := (keeps (λ mw : mgr TimeSrcObj TimeSyncObj * world, files_but "/tmp/systimeset" mw.2)).

Lemma upd_files f : tidy_mgr (upd f).
Proof. done. Qed.
Lemma field_files {A} (f : mgr TimeSrcObj TimeSyncObj → A) : tidy_mgr (field f).
Proof. done. Qed.
Hint Resolve upd_files field_files : keeps.

Lemma over_syncs_files {A} (l : M (list (option TimeSyncObj) * world) A) :
  keeps (λ lw : list (option TimeSyncObj) * world, files_but "/tmp/systimeset" lw.2) l → tidy_mgr (over_syncs l).
Proof.
  intros Hl [m w]. specialize (Hl (m_timerSync m, w)). unfold over_syncs. simpl in *.
  by destruct (l (m_timerSync m, w)) as [r [l' w']].
Qed.

Lemma publishStatus_files e s : tidy_mgr (publishStatus e s).
Proof. unfold publishStatus. keep. Qed.
Hint Resolve publishStatus_files : keeps.

Lemma setInitialTime_files : tidy_mgr setInitialTime.
Proof.
  unfold setInitialTime. apply keeps_bind; [|intros ?; unfold chrono_to_time_t, set_clock; keep].
  apply over_syncs_files, keeps_for_each_snd. intros z. apply getTime_files.
Qed.

Notation tidy_bus := (keeps (λ bw : bus * world, files_but "/tmp/systimeset" bw.2)).

Lemma createSubscriber_files type args sub : tidy_bus (createSubscriber type args sub).
Proof.
  unfold createSubscriber, new_IarmTimerStatusSubscriber, new_IarmPowerSubscriber, new_IpowerControllerSubscriber,
    iarm_connect, fmap, M_fmap.
  assert (∀ o, tidy_bus (new_subscriber o)) as H1 by done.
  assert (∀ this, tidy_bus (set_pInstance this)) as H2 by done.
  keep.
Qed.

Lemma subscribe_files p name f : tidy_bus (subscribe p name f).
Proof.
  assert (∀ this o, tidy_bus (put_subscriber this o)) as H1 by done.
  unfold subscribe, IarmTimerStatusSubscriber_subscribe, IarmPowerSubscriber_subscribe,
    IpowerControllerSubscriber_subscribe. keep.
Qed.

Lemma on_mgr_files {A} (m : M (mgr TimeSrcObj TimeSyncObj * world) A) :
  tidy_mgr m → keeps (λ s : daemon, files_but "/tmp/systimeset" s.2.2) (on_mgr m).
Proof. intros Hm [g [b w]]. unfold on_mgr. specialize (Hm (g, w)). simpl in *. by destruct (m (g, w)) as [r [g' w']]. Qed.

Lemma on_bus_files {A} (c : M (bus * world) A) :
  tidy_bus c → keeps (λ s : daemon, files_but "/tmp/systimeset" s.2.2) (on_snd c).
Proof. intros Hc. apply (keeps_inner (λ bw : bus * world, files_but "/tmp/systimeset" bw.2) c Hc). Qed.

Lemma initialize_files : keeps (λ s : daemon, files_but "/tmp/systimeset" s.2.2) initialize.
Proof.
  assert (∀ type args, tidy (createPublish type args)) as Hp.
  { intros. unfold createPublish, new_IarmPublish, iarm_connect. keep. }
  unfold initialize, load_config, connect_bus.
  keep; first [apply on_mgr_files|apply on_bus_files];
    first [apply setInitialTime_files|apply createSubscriber_files|apply subscribe_files|keep].
Qed.
End files.
