(* ===== verification/Calls.v ===== *)
(** * Calls: who commands chronyd and asks the kernel

    The calls that move the system clock behind the daemon's back, the commands to
    chronyd, and the question whether the kernel's clock is synchronised, picked
    out of the log.  With the frame calculus: every operation of the daemon but
    the three that are meant to make such calls leaves them alone.  What the three
    add at most is bounded at the end. *)

From Corelib Require Import SpecFloat.
From S2P Require Import Prelude CString Platform TestEnv Interfaces TimeSync PubSub TimeSrc Factory.
From S2P Require Import SysTimeMgr MgrSpec NetworkStatus PowerQueue Daemon Frame.

(** The calls looked at. *)
Definition controlling {A : Set} (c : call A) : bool :=
  match c with
  | ChronyOnline | ChronyBurst _ _ | ChronyWaitsync _ _ | ChronyMakestep | Adjtimex => true
  | _ => false
  end.

(** Their entries in the log, most recent first. *)
Definition controls (w : world) : list ev := filter (λ e, controlling (ev_call e) = true) (w_trace w).

Lemma controls_log e w : controlling (ev_call e) = true → controls (log e w) = e :: controls w.
Proof. intros H. unfold controls. simpl. by rewrite filter_cons_True. Qed.

Lemma controls_quiet e w : controlling (ev_call e) = false → controls (log e w) = controls w.
Proof. intros H. unfold controls. simpl. rewrite filter_cons_False; [done|]. by rewrite H. Qed.

Section calls.
Context {E : Env} {B : Build}.

(** ** The frame *)

Notation plain := (keeps controls).
Notation plain_snd := (keeps (λ s, controls s.2)).
Notation plain_mgr := (keeps (λ mw : mgr TimeSrcObj TimeSyncObj * world, controls mw.2)).

Lemma sys_controls {A : Set} (c : call A) : controlling c = false → plain (sys c).
Proof. intros Hc w. by apply controls_quiet. Qed.

Lemma set_fs_controls f : plain (modify (set_fs f)).
Proof. done. Qed.

Hint Extern 1 (keeps controls (sys _)) => (apply sys_controls; reflexivity) : keeps.
Hint Resolve set_fs_controls : keeps.

Lemma read_file_controls path : plain (read_file path).
Proof. unfold read_file. keep. Qed.
Lemma write_file_controls path d : plain (write_file path d).
Proof. unfold write_file. keep. Qed.
Lemma truncate_file_controls path : plain (truncate_file path).
Proof. unfold truncate_file. keep. Qed.
Lemma create_file_controls path : plain (create_file path).
Proof. unfold create_file. keep. Qed.
Lemma set_mtime_controls path z : plain (set_mtime path z).
Proof. unfold set_mtime. keep. Qed.
Hint Resolve read_file_controls write_file_controls truncate_file_controls create_file_controls set_mtime_controls : keeps.

Lemma to_time_t_controls s n : plain (chrono_to_time_t s n).
Proof. unfold chrono_to_time_t. keep. Qed.
Lemma strftime_controls z : plain (strftime_local z).
Proof. apply keeps_deref. Qed.
Hint Resolve to_time_t_controls strftime_controls : keeps.
Lemma realtime_controls : plain realtime_or_time.
Proof. unfold realtime_or_time. keep. Qed.
Lemma publish_controls p e m : plain (publish p e m).
Proof. destruct p; simpl; unfold TestPublish_publish, IarmPublish_publish; keep. Qed.
Lemma announce_controls path : plain (notifypathAvailable path).
Proof. unfold notifypathAvailable. keep. Qed.
Hint Resolve realtime_controls publish_controls announce_controls : keeps.

(** *** Sources and syncs *)

Lemma via_controls {T O A} (c : T → O) o (m : M (T * world) A) w :
  plain_snd m → controls (via c o m (c o, w)).2.2 = controls w.
Proof. intros Hm. unfold via. specialize (Hm (o, w)). simpl in *. by destruct (m (o, w)) as [r [o' w']]. Qed.

Lemma member_controls n k : plain (member_string n k).
Proof. unfold member_string. keep. Qed.
Lemma member_bool_controls n k : plain (member_bool n k).
Proof. unfold member_bool. keep. Qed.
Lemma rpc_controls m : plain (rpc m).
Proof. unfold rpc. keep. Qed.
Hint Resolve member_controls member_bool_controls rpc_controls : keeps.

Lemma no_service_controls path : plain (no_service_time path).
Proof. unfold no_service_time. keep. Qed.
Lemma drm_try_controls path : plain (drm_try path).
Proof. unfold drm_try. keep. Qed.
Lemma dtt_fetch_controls path : plain (dtt_fetch path).
Proof. unfold dtt_fetch. keep. Qed.
Hint Resolve no_service_controls drm_try_controls dtt_fetch_controls : keeps.

Lemma regular_controls : plain_snd RegularTimeSrc_getTimeSec.
Proof. unfold RegularTimeSrc_getTimeSec. keep. Qed.
Lemma drm_controls : plain_snd DrmTimeSrc_getTimeSec.
Proof. unfold DrmTimeSrc_getTimeSec. keep. Qed.
Lemma dtt_controls : plain_snd DttTimeSrc_getTimeSec.
Proof.
  assert (plain_snd set_pluginactivated) as H1 by done. assert (plain_snd set_dtteventsubscribed) as H2 by done.
  unfold DttTimeSrc_getTimeSec, dtt_try, dtt_prepare. keep.
Qed.
Hint Resolve regular_controls drm_controls dtt_controls : keeps.

Lemma ntp_controls : plain_snd NtpTimeSrc_getTimeSec.
Proof. unfold NtpTimeSrc_getTimeSec. keep. Qed.
Lemma stt_controls : plain_snd SttTimeSrc_getTimeSec.
Proof. unfold SttTimeSrc_getTimeSec. keep. Qed.
Lemma check_controls {T} (m : M (T * world) Z) : plain_snd m → plain_snd (ITimeSrc_checkTime m).
Proof. intros Hm. unfold ITimeSrc_checkTime. keep. Qed.

Lemma getTimeSec_controls : plain_snd (getTimeSec : M (TimeSrcObj * world) Z).
Proof.
  intros [[o|o|o|o|o] w]; [exact (via_controls SrcNtp o _ w ntp_controls)|exact (via_controls SrcStt o _ w stt_controls)
    |exact (via_controls SrcRegular o _ w regular_controls)|exact (via_controls SrcDrm o _ w drm_controls)
    |exact (via_controls SrcDtt o _ w dtt_controls)].
Qed.

Lemma checkTime_controls : plain_snd (checkTime : M (TimeSrcObj * world) bool).
Proof.
  intros [[o|o|o|o|o] w];
    [exact (via_controls SrcNtp o _ w (check_controls _ ntp_controls))
    |exact (via_controls SrcStt o _ w (check_controls _ stt_controls))
    |exact (via_controls SrcRegular o _ w (check_controls _ regular_controls))
    |exact (via_controls SrcDrm o _ w (check_controls _ drm_controls))
    |exact (via_controls SrcDtt o _ w (check_controls _ dtt_controls))].
Qed.

Lemma updateTime_controls z : plain_snd (updateTime z : M (TimeSyncObj * world) unit).
Proof.
  assert (∀ c, plain_snd (set_currentTime c)) as H by done.
  intros [[o|o|o] w]; [refine (via_controls SyncTest o _ w _)|refine (via_controls SyncRdkDefault o _ w _)
    |refine (via_controls SyncTee o _ w _)]; unfold updateTime; simpl;
    unfold TestTimeSync_updateTime, RdkDefaultTimeSync_updateTime, TeeTimeSync_updateTime, TeeTimeSync_getTime; keep.
Qed.

Lemma getTime_controls : plain_snd (getTime : M (TimeSyncObj * world) Z).
Proof.
  assert (∀ c, plain_snd (set_currentTime c)) as H by done.
  assert (plain buildtime) as Hb by (unfold buildtime; keep).
  intros [[o|o|o] w]; [refine (via_controls SyncTest o _ w _)|refine (via_controls SyncRdkDefault o _ w _)
    |refine (via_controls SyncTee o _ w _)]; unfold getTime; simpl;
    unfold TestTimeSync_getTime, RdkDefaultTimeSync_getTime, TeeTimeSync_getTime; keep.
Qed.

(** *** The object *)

Lemma upd_controls f : plain_mgr (upd f).
Proof. done. Qed.
Lemma field_controls {A} (f : mgr TimeSrcObj TimeSyncObj → A) : plain_mgr (field f).
Proof. done. Qed.

Lemma over_syncs_controls {A} (l : M (list (option TimeSyncObj) * world) A) : plain_snd l → plain_mgr (over_syncs l).
Proof.
  intros Hl [m w]. specialize (Hl (m_timerSync m, w)). unfold over_syncs. simpl in *.
  by destruct (l (m_timerSync m, w)) as [r [l' w']].
Qed.
Lemma over_srcs_controls {A} (l : M (list (option TimeSrcObj) * world) A) : plain_snd l → plain_mgr (over_srcs l).
Proof.
  intros Hl [m w]. specialize (Hl (m_timerSrc m, w)). unfold over_srcs. simpl in *.
  by destruct (l (m_timerSrc m, w)) as [r [l' w']].
Qed.

Lemma updateTimeSync_controls z : plain_mgr (updateTimeSync z).
Proof. apply over_syncs_controls, keeps_for_each_snd. intros []. apply updateTime_controls. Qed.
Hint Resolve upd_controls field_controls updateTimeSync_controls : keeps.
Lemma publishStatus_controls e s : plain_mgr (publishStatus e s).
Proof. unfold publishStatus. keep. Qed.
Hint Resolve publishStatus_controls : keeps.

Lemma over_srcs_each {A} (body : A → M (TimeSrcObj * world) A) acc :
  (∀ a, plain_snd (body a)) → plain_mgr (over_srcs (for_each_m body acc)).
Proof. intros Hb. apply over_srcs_controls, keeps_for_each_snd, Hb. Qed.

Lemma call_memfunc_controls f args : plain_mgr (call_memfunc f args).
Proof.
  pose proof getTimeSec_controls as Hg. pose proof checkTime_controls as Hc.
  assert (plain_mgr (timerExpiry args)) as Ht.
  { unfold timerExpiry. apply keeps_bind; [|intros ?; keep]. apply over_srcs_each.
    intros [r b]. unfold timerExpiry_body. keep. }
  assert (plain_mgr (SysTimeMgr_updateTime args)) as Hu.
  { unfold SysTimeMgr_updateTime. apply keeps_bind; [keep|intros ?]. apply over_srcs_each. intros []. keep. }
  assert (plain_mgr (updateClockRealTime args)) as Hr.
  { unfold updateClockRealTime. apply keeps_bind; [|intros ?; unfold set_clock; keep].
    apply over_srcs_each. intros [z b]. unfold updateClockRealTime_body. keep. }
  destruct f; simpl; try done;
    unfold ntpFailed, ntpAquired, dttAquired, updateSecureTime, secureTimeAcquired; keep.
Qed.

Lemma runStateMachine_controls e args : plain_mgr (runStateMachine e args).
Proof. unfold runStateMachine. keep. apply call_memfunc_controls. Qed.
Lemma setInitialTime_controls : plain_mgr setInitialTime.
Proof.
  unfold setInitialTime. apply keeps_bind; [|intros ?; unfold set_clock; keep].
  apply over_syncs_controls, keeps_for_each_snd. intros z. apply getTime_controls.
Qed.
Lemma deepsleepoff_locked_controls : plain_mgr deepsleepoff_locked.
Proof. unfold deepsleepoff_locked. keep. Qed.
Lemma getTimeStatus_controls p : plain_mgr (getTimeStatus p).
Proof. unfold getTimeStatus. keep. Qed.
Lemma sendMessage_controls e args : plain_mgr (sendMessage e args).
Proof. unfold sendMessage. keep. Qed.
Hint Resolve runStateMachine_controls setInitialTime_controls deepsleepoff_locked_controls getTimeStatus_controls
  sendMessage_controls : keeps.

(** *** The process *)

Notation still := (keeps (λ s : daemon, controls s.2.2)).

Lemma on_mgr_controls {A} (m : M (mgr TimeSrcObj TimeSyncObj * world) A) : plain_mgr m → still (on_mgr m).
Proof. intros Hm [g [b w]]. unfold on_mgr. specialize (Hm (g, w)). simpl in *. by destruct (m (g, w)) as [r [g' w']]. Qed.

Lemma on_bus_controls {A} (c : M (bus * world) A) : plain_snd c → still (on_snd c).
Proof. intros Hc. apply (keeps_inner (λ bw : bus * world, controls bw.2) c Hc). Qed.
Hint Resolve on_mgr_controls on_bus_controls : keeps.

Lemma on_world_controls {A} (c : M world A) : plain c → still (on_mgr (on_snd c)).
Proof. intros Hc. apply on_mgr_controls, keeps_inner, Hc. Qed.
Hint Resolve on_world_controls : keeps.

Lemma report_offset_controls : plain report_offset.
Proof. unfold report_offset. keep. Qed.
Lemma ntp_artefacts_controls : plain ntp_artefacts.
Proof. unfold ntp_artefacts. keep. Qed.
Lemma connect_controls fuel : plain (sysTimeMgrPwrConnectHandlingThreadFunc fuel).
Proof. induction fuel as [|fuel IH]; [done|]. simpl. keep. Qed.
Hint Resolve report_offset_controls ntp_artefacts_controls connect_controls : keeps.

Lemma processMsg_controls val q : still (processMsg_round val q).
Proof. unfold processMsg_round. keep. Qed.
Lemma runTimer_controls : still runTimer_round.
Proof. unfold runTimer_round. keep. Qed.
Lemma path_scan_controls l : still (path_scan l).
Proof. induction l as [|[n e] l IH]; [done|]. simpl. keep. Qed.
Lemma path_start_controls : still runPathMonitor_start.
Proof. unfold runPathMonitor_start. keep. apply path_scan_controls. Qed.
Lemma path_watch_controls : still runPathMonitor_watch.
Proof. unfold runPathMonitor_watch. keep. Qed.
Lemma path_round_controls : still runPathMonitor_round.
Proof. unfold runPathMonitor_round. keep. Qed.

Lemma createSubscriber_controls type args sub : plain_snd (createSubscriber type args sub).
Proof.
  unfold createSubscriber, new_IarmTimerStatusSubscriber, new_IarmPowerSubscriber, new_IpowerControllerSubscriber,
    iarm_connect, fmap, M_fmap.
  assert (∀ o, plain_snd (new_subscriber o)) as H1 by done.
  assert (∀ this, plain_snd (set_pInstance this)) as H2 by done. keep.
Qed.
Lemma subscribe_controls p name f : plain_snd (subscribe p name f).
Proof.
  assert (∀ this o, plain_snd (put_subscriber this o)) as H1 by done.
  unfold subscribe, IarmTimerStatusSubscriber_subscribe, IarmPowerSubscriber_subscribe,
    IpowerControllerSubscriber_subscribe. keep.
Qed.

(** Starting up commands nothing. *)
Lemma initialize_controls : still initialize.
Proof.
  assert (∀ type args, plain (createPublish type args)) as Hp.
  { intros. unfold createPublish, new_IarmPublish, iarm_connect. keep. }
  pose proof createSubscriber_controls as Hc. pose proof subscribe_controls as Hs.
  unfold initialize, load_config, connect_bus. keep. apply on_world_controls. keep.
Qed.
Lemma run_controls pid forever : still (run pid forever).
Proof. unfold run. keep. Qed.

(** ** What the others ask for *)

(** How often an action was asked of chronyd, and what the kernel answered about
    its clock, most recent first. *)
Definition asked (a : chrony_action) (w : world) : nat :=
  length (filter (λ x, x = a) (actions (w_trace w))).
Definition ev_adjtimex (e : ev) : option (Z * Z) :=
  match e with @Ev _ Adjtimex r => Some r | _ => None end.
Definition kernel_answers (w : world) : list (Z * Z) := omap ev_adjtimex (w_trace w).

(** Both are functions of the calls looked at. *)
Lemma omap_filter {A C} (f : A → option C) (P : A → Prop) `{!∀ x, Decision (P x)} (l : list A) :
  (∀ x, ¬ P x → f x = None) → omap f l = omap f (filter P l).
Proof.
  intros HP. induction l as [|x l IH]; [done|]. destruct (decide (P x)) as [Hx|Hx].
  - rewrite filter_cons_True by done. cbn. destruct (f x); [f_equal|]; exact IH.
  - rewrite filter_cons_False by done. cbn. rewrite (HP x Hx). exact IH.
Qed.
Lemma actions_controls w : actions (w_trace w) = actions (controls w).
Proof. apply omap_filter. intros [T c r] Hc. by destruct c. Qed.
Lemma answers_controls w : kernel_answers w = omap ev_adjtimex (controls w).
Proof. apply omap_filter. intros [T c r] Hc. by destruct c. Qed.

Lemma asked_same a w w' : controls w' = controls w → asked a w' = asked a w.
Proof. intros H. unfold asked. by rewrite !actions_controls, H. Qed.
Lemma answers_same w w' : controls w' = controls w → kernel_answers w' = kernel_answers w.
Proof. intros H. by rewrite !answers_controls, H. Qed.

Lemma asked_log a e w :
  asked a (log e w) = ((if bool_decide (action_of e = Some a) then 1 else 0) + asked a w)%nat.
Proof.
  unfold asked, actions. simpl. destruct (action_of e) as [b|]; [|done]. rewrite filter_cons.
  case_decide; case_bool_decide; by simplify_eq.
Qed.

#[local] Ltac count_asked := rewrite ?asked_log; simpl; repeat case_bool_decide; try congruence; lia.

(** The resynchronisation after a wake-up: at most one of each but going online. *)
Lemma resync_asks a (w w' : world) :
  deepsleepoff_resync w = (Ret tt, w') →
  (asked a w' ≤ asked a w + if bool_decide (a = AOnline) then 0 else 1)%nat ∧ kernel_answers w' = kernel_answers w.
Proof.
  set (k := if bool_decide (a = AOnline) then 0%nat else 1%nat).
  unfold deepsleepoff_resync, mbind, M_bind, sys. simpl.
  repeat (case_match; simpl); intros [= <-]; (split; [|done]); subst k; destruct a; count_asked.
Qed.

(** The network procedure: at most one of each. *)
Lemma online_asks a (w w' : world) :
  processInternetOnline w = (Ret tt, w') →
  (asked a w' ≤ S (asked a w))%nat ∧ kernel_answers w' = kernel_answers w.
Proof.
  unfold processInternetOnline, first_sync_pending, resync, file_exists, gets, mbind, M_bind, sys. simpl.
  repeat (case_match; simpl); intros [= <-]; (split; [|done]); destruct a; count_asked.
Qed.

(** One poll of the synchronisation monitor, the last exactly when the kernel's
    clock is synchronised. *)
Lemma poll_asks (r : option nat) (w w' : world) :
  runNTPSyncMonitor 1 0 w = (Ret r, w') →
  (∀ a, asked a w' = asked a w) ∧
  ∃ x, kernel_answers w' = x :: kernel_answers w ∧ kernel_synced x = bool_decide (is_Some r).
Proof.
  simpl. unfold mbind at 1, M_bind at 1, sys. simpl. set (x := answer _ Adjtimex). set (w1 := log _ w).
  assert (∀ a, asked a w1 = asked a w) as Ha by done.
  assert (kernel_answers w1 = x :: kernel_answers w) as Hk by done. clearbody w1.
  destruct (kernel_synced x) eqn:Hs; [|intros [= <- <-]; eauto].
  assert (keeps controls (_ ← ntp_artefacts; _ ← report_offset; mret (Some 1%nat))) as Hc by keep.
  assert (∀ w2, (_ ← ntp_artefacts; _ ← report_offset; mret (Some 1%nat)) w1 = (Ret r, w2) → is_Some r) as Hr.
  { unfold mbind, M_bind. intros w2. destruct (ntp_artefacts w1) as [[[]|e|] w3]; [|done|done].
    destruct (report_offset w3) as [[[]|e|] w4]; [|done|done]. intros [= <- _]. eauto. }
  intros Hrun. specialize (Hr _ Hrun). specialize (Hc w1). rewrite Hrun in Hc. simpl in Hc.
  split; [intros a; by rewrite (asked_same a w1)|]. exists x. rewrite (answers_same w1) by done.
  by rewrite bool_decide_eq_true_2.
Qed.
End calls.
