(* ===== verification/NetworkShutdown.v ===== *)
(** * NetworkShutdown: how the network threads and the Thunder client end

    The Thunder client of networkstatussrc.cpp is a static pointer that the
    subscription thread creates and deletes and the destructor of
    [NetworkStatusSrc] unsubscribes and deletes, neither under a mutex.  The first
    part has every access to the pointer as a step; the second puts the threads of
    NetworkStatus under the joins of [SysTimeMgr::run]. *)

From Corelib Require Import SpecFloat.
From S2P Require Import Prelude CString Platform TestEnv NetworkStatus.

(** ** The client *)

(** src: systimerfactory/networkstatussrc.cpp:355-404 subscribeToInternetEvent
    Where the subscription thread is: before the tests of the loop, of the
    pointer, the assignment, the second test, the load for the call, in
    [Subscribe] on the loaded pointer, before the delete, before the reset, in the
    wait, returned. *)
Inductive sub_at :=
  | KTest | KNewTest | KAssign | KUse | KLoad | KCall (p : option nat) | KDelete | KNull | KWait | KReturned.

(** src: systimerfactory/networkstatussrc.cpp:412-436 NetworkStatusSrc::~NetworkStatusSrc
    Where the destructor is: before setting the flag, notifying, testing the
    pointer, [Unsubscribe], the delete, the reset; returned. *)
Inductive dtor_at := XStop | XNotify | XTest | XUnsubscribe | XDelete | XNull | XReturned.

(** Clients are numbered as they are created.  [c_live]: created and not deleted;
    [c_listening]: subscribed, so that Thunder calls back; [c_fault]: an access to
    a client that is not live. *)
Record client_sys := ClientSys {
  c_sub : sub_at;
  c_dtor : dtor_at;
  thunder_client : option nat;
  c_next : nat;
  c_live : gset nat;
  c_listening : gset nat;
  c_subscribed : bool;
  c_stop : bool;
  c_fault : bool
}.

Definition client_start : client_sys := ClientSys KTest XStop None 0 ∅ ∅ false false false.

Definition sub_goto (k : sub_at) (s : client_sys) : client_sys :=
  ClientSys k (c_dtor s) (thunder_client s) (c_next s) (c_live s) (c_listening s) (c_subscribed s) (c_stop s) (c_fault s).
Definition dtor_goto (x : dtor_at) (s : client_sys) : client_sys :=
  ClientSys (c_sub s) x (thunder_client s) (c_next s) (c_live s) (c_listening s) (c_subscribed s) (c_stop s) (c_fault s).
Definition set_client (p : option nat) (s : client_sys) : client_sys :=
  ClientSys (c_sub s) (c_dtor s) p (c_next s) (c_live s) (c_listening s) (c_subscribed s) (c_stop s) (c_fault s).

(** [new SmartLinkType]: a fresh client. *)
Definition new_client (s : client_sys) : client_sys :=
  ClientSys (c_sub s) (c_dtor s) (Some (c_next s)) (S (c_next s)) ({[c_next s]} ∪ c_live s) (c_listening s)
    (c_subscribed s) (c_stop s) (c_fault s).

(** The pointer designates a live client. *)
Definition usable (p : option nat) (s : client_sys) : bool :=
  match p with Some i => bool_decide (i ∈ c_live s) | None => false end.

(** A call of a method on [p]; on a live client it changes the listeners. *)
Definition call_client (p : option nat) (f : gset nat → gset nat) (s : client_sys) : client_sys :=
  if usable p s then
    ClientSys (c_sub s) (c_dtor s) (thunder_client s) (c_next s) (c_live s) (f (c_listening s)) (c_subscribed s)
      (c_stop s) (c_fault s)
  else ClientSys (c_sub s) (c_dtor s) (thunder_client s) (c_next s) (c_live s) (c_listening s) (c_subscribed s)
      (c_stop s) true.

(** [delete thunder_client]: of a null pointer it does nothing, of a client that
    is not live it is a fault. *)
Definition delete_client (s : client_sys) : client_sys :=
  match thunder_client s with
  | None => s
  | Some i =>
      ClientSys (c_sub s) (c_dtor s) (thunder_client s) (c_next s) (c_live s ∖ {[i]}) (c_listening s ∖ {[i]})
        (c_subscribed s) (c_stop s) (c_fault s || negb (bool_decide (i ∈ c_live s)))
  end.

Definition mark_subscribed (s : client_sys) : client_sys :=
  ClientSys (c_sub s) (c_dtor s) (thunder_client s) (c_next s) (c_live s) (c_listening s) true (c_stop s) (c_fault s).
Definition mark_stop (s : client_sys) : client_sys :=
  ClientSys (c_sub s) (c_dtor s) (thunder_client s) (c_next s) (c_live s) (c_listening s) (c_subscribed s) true (c_fault s).

(** A pointer as the set of what it designates. *)
Definition pointed (p : option nat) : gset nat := match p with Some i => {[i]} | None => ∅ end.

(** src: systimerfactory/networkstatussrc.cpp:357-404 subscribeToInternetEvent
    The next step of the subscription thread; [ok]: [Subscribe] succeeds. *)
Definition sub_next (ok : bool) (s : client_sys) : client_sys :=
  match c_sub s with
  | KTest => sub_goto (if c_subscribed s || c_stop s then KReturned else KNewTest) s
  | KNewTest => sub_goto (match thunder_client s with None => KAssign | Some _ => KUse end) s
  | KAssign => sub_goto KUse (new_client s)
  | KUse => sub_goto (match thunder_client s with Some _ => KLoad | None => KWait end) s
  | KLoad => sub_goto (KCall (thunder_client s)) s
  | KCall p =>
      if ok then sub_goto KReturned (mark_subscribed (call_client p (λ l, pointed p ∪ l) s))
      else sub_goto KDelete (call_client p id s)
  | KDelete => sub_goto KNull (delete_client s)
  | KNull => sub_goto KWait (set_client None s)
  | KWait => sub_goto (if c_stop s then KReturned else KTest) s
  | KReturned => s
  end.

(** src: systimerfactory/networkstatussrc.cpp:424-434 NetworkStatusSrc::~NetworkStatusSrc
    The next step of the destructor. *)
Definition dtor_next (s : client_sys) : client_sys :=
  match c_dtor s with
  | XStop => dtor_goto XNotify (mark_stop s)
  | XNotify => dtor_goto XTest s
  | XTest => dtor_goto (match thunder_client s with Some _ => XUnsubscribe | None => XReturned end) s
  | XUnsubscribe => dtor_goto XDelete (call_client (thunder_client s) (λ l, l ∖ pointed (thunder_client s)) s)
  | XDelete => dtor_goto XNull (delete_client s)
  | XNull => dtor_goto XReturned (set_client None s)
  | XReturned => s
  end.

(** src: systimemgr.cpp:229-261 SysTimeMgr::run
    A step of either.  [forever] is the argument of [run]: with [true], as [main]
    calls it, the subscription thread is joined, so that the static object is
    destroyed only once that thread has returned; with [false] it is detached, and
    the destructor may run at any time. *)
Inductive client_step (forever : bool) : client_sys → client_sys → Prop :=
  | client_sub ok s : client_step forever s (sub_next ok s)
  | client_dtor s : (forever = true → c_sub s = KReturned) → client_step forever s (dtor_next s).

Definition client_reachable (forever : bool) : client_sys → Prop := rtc (client_step forever) client_start.

(** What the pointer, the clients and the subscription are when the thread and the
    destructor are where they are. *)
Definition client_is (p live listening : option nat) (s : client_sys) : Prop :=
  thunder_client s = p ∧ c_live s = pointed live ∧ c_listening s = pointed listening ∧ c_fault s = false.

Definition client_inv (s : client_sys) : Prop :=
  match c_sub s, c_dtor s with
  | (KTest | KNewTest | KAssign | KWait), XStop => client_is None None None s ∧ c_subscribed s = false
  | (KUse | KLoad | KDelete), XStop => ∃ i, client_is (Some i) (Some i) None s ∧ c_subscribed s = false
  | KCall p, XStop => ∃ i, p = Some i ∧ client_is (Some i) (Some i) None s ∧ c_subscribed s = false
  | KNull, XStop => ∃ i, client_is (Some i) None None s ∧ c_subscribed s = false
  | KReturned, (XStop | XNotify | XTest) =>
      (client_is None None None s ∧ c_subscribed s = false) ∨
      ∃ i, client_is (Some i) (Some i) (Some i) s ∧ c_subscribed s = true
  | KReturned, XUnsubscribe => ∃ i, client_is (Some i) (Some i) (Some i) s
  | KReturned, XDelete => ∃ i, client_is (Some i) (Some i) None s
  | KReturned, XNull => ∃ i, client_is (Some i) None None s
  | KReturned, XReturned => client_is None None None s
  | _, _ => False
  end.

(** The operations on a pointer that is as it should be. *)
Lemma call_client_is i l f g s :
  client_is (Some i) (Some i) l s → f (pointed l) = pointed g →
  client_is (Some i) (Some i) g (call_client (Some i) f s) ∧
  c_subscribed (call_client (Some i) f s) = c_subscribed s ∧ c_sub (call_client (Some i) f s) = c_sub s ∧
  c_dtor (call_client (Some i) f s) = c_dtor s.
Proof.
  intros (Hp & Hl & Hg & Hf) Hfg. unfold call_client, usable.
  rewrite bool_decide_eq_true_2 by (rewrite Hl; set_solver). unfold client_is. simpl. by rewrite Hg, Hfg.
Qed.

Lemma delete_client_is i s :
  client_is (Some i) (Some i) None s →
  client_is (Some i) None None (delete_client s) ∧ c_subscribed (delete_client s) = c_subscribed s ∧
  c_sub (delete_client s) = c_sub s ∧ c_dtor (delete_client s) = c_dtor s.
Proof.
  intros (Hp & Hl & Hg & Hf). unfold delete_client, client_is. rewrite Hp. simpl.
  rewrite Hl, Hg, Hf, (bool_decide_eq_true_2 (i ∈ _)) by set_solver. simpl. repeat split; set_solver.
Qed.

Lemma new_client_is s :
  client_is None None None s → client_is (Some (c_next s)) (Some (c_next s)) None (new_client s).
Proof. intros (Hp & Hl & Hg & Hf). unfold client_is. simpl. rewrite Hl. split_and!; [done|set_solver|done|done]. Qed.

Lemma sub_next_inv ok s : client_inv s → client_inv (sub_next ok s).
Proof.
  unfold client_inv, sub_next. intros H. destruct (c_sub s) eqn:Hs; [..|by rewrite Hs];
    destruct (c_dtor s) eqn:Hd; try done.
  - destruct H as [Hc Hsub]. rewrite Hsub. destruct (c_stop s); simpl; rewrite Hd; [left|]; by split.
  - destruct H as [Hc Hsub]. destruct Hc as (Hp & Hrest). rewrite Hp. simpl. rewrite Hd. by split.
  - destruct H as [Hc Hsub]. simpl. rewrite Hd. eexists. split; [by apply (new_client_is s)|done].
  - destruct H as (i & Hc & Hsub). destruct Hc as (Hp & Hrest). rewrite Hp. simpl. rewrite Hd. by exists i.
  - destruct H as (i & Hc & Hsub). simpl. rewrite Hd. exists i. split; [apply Hc|]. by split.
  - destruct H as (i & -> & Hc & Hsub). destruct ok; simpl.
    + destruct (call_client_is i None (λ l, {[i]} ∪ l) (Some i) s Hc) as (Hc' & Hsub' & Hs' & Hd'); [set_solver|].
      rewrite Hd', Hd. right. exists i. by split.
    + destruct (call_client_is i None id None s Hc) as (Hc' & Hsub' & Hs' & Hd'); [done|].
      rewrite Hd', Hd. exists i. split; [exact Hc'|]. by rewrite <- Hsub.
  - destruct H as (i & Hc & Hsub). destruct (delete_client_is i s Hc) as (Hc' & Hsub' & Hs' & Hd').
    simpl. rewrite Hd', Hd. exists i. split; [exact Hc'|]. by rewrite <- Hsub.
  - destruct H as (i & (Hp & Hrest) & Hsub). simpl. rewrite Hd. by split.
  - destruct H as [Hc Hsub]. destruct (c_stop s); simpl; rewrite Hd; [left|]; by split.
Qed.

Lemma dtor_next_inv s : c_sub s = KReturned → client_inv s → client_inv (dtor_next s).
Proof.
  unfold client_inv, dtor_next. intros Hs H. rewrite Hs in H. destruct (c_dtor s) eqn:Hd.
  - simpl. by rewrite Hs.
  - simpl. by rewrite Hs.
  - simpl. rewrite Hs. destruct H as [[(Hp & Hrest) _]|(i & (Hp & Hrest) & _)]; rewrite Hp; [by split|]. by exists i.
  - destruct H as (i & Hc). pose proof (proj1 Hc) as Hp. rewrite Hp. simpl.
    destruct (call_client_is i (Some i) (λ l, l ∖ {[i]}) None s Hc) as (Hc' & Hsub' & Hs' & Hd'); [set_solver|].
    rewrite Hs', Hs. by exists i.
  - destruct H as (i & Hc). destruct (delete_client_is i s Hc) as (Hc' & Hsub' & Hs' & Hd').
    simpl. rewrite Hs', Hs. by exists i.
  - destruct H as (i & Hp & Hrest). simpl. rewrite Hs. by split.
  - by rewrite Hs, Hd.
Qed.

Lemma client_reachable_inv s : client_reachable true s → client_inv s.
Proof.
  intros Hr. assert (client_inv client_start) as H0 by (by split). unfold client_reachable in Hr.
  induction Hr as [|s1 s2 s3 Hstep _ IH]; [done|]. apply IH.
  destruct Hstep as [ok s1|s1 Hs]; [by apply sub_next_inv|by apply dtor_next_inv; [apply Hs|]].
Qed.

Lemma client_inv_safe s : client_inv s → c_fault s = false ∧ (c_dtor s = XReturned → c_listening s = ∅).
Proof.
  assert (∀ p live l, client_is p live l s → c_fault s = false ∧ c_listening s = pointed l) as Hgen
    by (intros p live l (_ & _ & Hg & Hf); done).
  unfold client_inv. destruct (c_sub s), (c_dtor s); try done; intros H;
    repeat match goal with
      | H : _ ∨ _ |- _ => destruct H
      | H : ∃ _, _ |- _ => destruct H as (? & ?)
      | H : client_is _ _ _ _ ∧ _ |- _ => destruct H
      | H : _ = Some _ ∧ _ |- _ => destruct H as [_ H]
      end; match goal with H : client_is _ _ _ _ |- _ => destruct (Hgen _ _ _ H) as [Hf Hg] end; by split.
Qed.

(** * Properties *)

(** C24: when [run] joins the subscription thread, so that the destructor runs only
    after it has returned, the client is used as it should be: no access to a
    client that was deleted, no client deleted twice, never two of them; a client
    that is called back is live, the one the pointer designates; after the
    destructor none is left and Thunder calls nothing any more. *)
Theorem client_lifetime (s : client_sys) :
  client_reachable true s →
  c_fault s = false ∧ (∃ l, c_live s = pointed l) ∧
  c_listening s ⊆ c_live s ∧ c_listening s ⊆ pointed (thunder_client s) ∧
  (c_sub s = KReturned → c_dtor s = XStop → c_subscribed s = true → is_Some (thunder_client s) ∧
     c_listening s = pointed (thunder_client s)) ∧
  (c_dtor s = XReturned → thunder_client s = None ∧ c_live s = ∅ ∧ c_listening s = ∅).
Proof.
  intros Hr. apply client_reachable_inv in Hr. unfold client_inv in Hr.
  assert (∀ p live l, client_is p live l s → (l = None ∨ l = p ∧ l = live) →
    c_fault s = false ∧ (∃ l, c_live s = pointed l) ∧
    c_listening s ⊆ c_live s ∧ c_listening s ⊆ pointed (thunder_client s)) as Hgen.
  { intros p live l (-> & Hl & Hg & ->) Hcase. rewrite Hl, Hg. split; [done|]. split; [by eexists|].
    destruct Hcase as [-> | [-> ->]]; set_solver. }
  destruct (c_sub s) eqn:Hs, (c_dtor s) eqn:Hd; try done.
  all: repeat match goal with H : _ ∨ _ |- _ => destruct H | H : ∃ _, _ |- _ => destruct H as (? & ?) end.
  all: repeat match goal with H : client_is _ _ _ _ ∧ _ |- _ => destruct H | H : _ = Some _ ∧ _ |- _ => destruct H as [-> ?] end.
  all: match goal with H : client_is _ _ _ _ |- _ =>
         pose proof (Hgen _ _ _ H ltac:(auto)) as (? & ? & ? & ?); destruct H as (Hp & Hl & Hg & Hf) end.
  all: do 4 (split; [done|]).
  all: split; [intros; try congruence|intros; try done; try congruence].
  all: try (rewrite Hp, Hg; split; [by eexists|done]).
Qed.

(** A run given by the choices: a step of the thread with an answer, or one of the
    destructor. *)
Fixpoint client_run (l : list (option bool)) (s : client_sys) : client_sys :=
  match l with
  | [] => s
  | Some ok :: l => client_run l (sub_next ok s)
  | None :: l => client_run l (dtor_next s)
  end.

Lemma client_run_reachable l s : rtc (client_step false) s (client_run l s).
Proof.
  revert s. induction l as [|[ok|] l IH]; intros s; [done|..]; (eapply rtc_l; [|apply IH]).
  - apply client_sub.
  - by apply client_dtor.
Qed.

(** Up to [n] steps of the thread whose attempts are answered by [ok]; the
    destructor from its start to its return. *)
Definition by_thread (n : nat) (ok : bool) : list (option bool) := replicate n (Some ok).
Definition by_dtor (n : nat) : list (option bool) := replicate n None.

(** C25: the class relies on being joined.  Where [run(false)] detaches the threads
    ([main] never does, the unit tests do), the destructor can run while the
    subscription thread is at work, and then the client is used after it was
    deleted: [Subscribe] is called on a client the destructor has deleted; the
    destructor unsubscribes one that the thread has deleted, or both delete it; or
    the thread, past its test of the stop flag, creates and subscribes a client
    after the destructor has returned, so that Thunder goes on calling back.  None
    of this can happen when the thread is joined: there no reachable state has a
    fault. *)
Theorem client_races :
  (∃ s i, client_reachable false s ∧ c_fault s = false ∧ c_sub s = KCall (Some i) ∧
     thunder_client s = None ∧ c_dtor s = XReturned ∧ ∀ ok, c_fault (sub_next ok s) = true) ∧
  (∃ s, client_reachable false s ∧ c_fault s = false ∧ c_dtor s = XUnsubscribe ∧ c_fault (dtor_next s) = true) ∧
  (∃ s, client_reachable false s ∧ c_fault s = false ∧ c_dtor s = XDelete ∧ c_sub s = KDelete ∧
     c_fault (dtor_next (sub_next false s)) = true ∧ c_fault (sub_next false (dtor_next s)) = true) ∧
  (∃ s i, client_reachable false s ∧ c_fault s = false ∧ c_dtor s = XReturned ∧ c_sub s = KReturned ∧
     c_live s = {[i]} ∧ c_listening s = {[i]}) ∧
  (∀ s, client_reachable true s → c_fault s = false ∧ (c_dtor s = XReturned → c_listening s = ∅)).
Proof.
  split; [|split; [|split; [|split]]].
  - exists (client_run (by_thread 5 false ++ by_dtor 6) client_start), 0%nat.
    split; [apply client_run_reachable|]. repeat split; try by vm_compute. by intros [].
  - exists (client_run (by_thread 6 false ++ by_dtor 3 ++ by_thread 1 false) client_start).
    split; [apply client_run_reachable|]. by repeat split.
  - exists (client_run (by_thread 6 false ++ by_dtor 4) client_start).
    split; [apply client_run_reachable|]. by repeat split.
  - exists (client_run (by_thread 2 true ++ by_dtor 3 ++ by_thread 4 true) client_start), 0%nat.
    split; [apply client_run_reachable|]. by repeat split.
  - intros s Hr%client_reachable_inv. by apply client_inv_safe.
Qed.

(** ** The threads under run *)

(** src: systimemgr.cpp:229-245 SysTimeMgr::run
    With [forever] the main thread joins the two network threads, so [main] returns
    and the static objects are destroyed only when both have returned. *)
Inductive joined_step : net_sys → net_sys → Prop :=
  | run_threads s s' : net_step s s' → n_dtor s' = n_dtor s → joined_step s s'
  | run_destroyed s s' : net_step s s' → n_proc s = PExit → n_sub s = SExit → joined_step s s'.

(** Only the destructor's first step raises the stop flag. *)
Lemma net_step_stop s s' :
  net_step s s' → n_dtor s' = n_dtor s → stopProcessing (n_st s') = stopProcessing (n_st s).
Proof.
  intros Hstep Hd. destruct Hstep as [s s' Hp|s s' Hp|s Hp|s p st Hsub Hh|s p st s' Hsub Hh Hn|s Hd0 st|s Hd0].
  - destruct Hp as [s Hp|s Hp]; [|done]. unfold proc_check.
    by destruct (internetUpPending (n_st s)), (stopProcessing (n_st s)) eqn:Hst.
  - destruct Hp as [s Hp|s Hp|s Hp|s Hp]; unfold sub_check, sub_wait; [by destruct (_ || _)|done| |];
      destruct (stopProcessing (n_st s)) eqn:Hst; exact Hst.
  - done.
  - by apply handle_state in Hh as (E1 & _).
  - apply handle_state in Hh as (E1 & _). remember (with_state st (S (n_signals s)) s) as s1 eqn:Hs1.
    destruct Hn as [s1 Hp|s1 Hw|s1 Hp Hw]; subst s1; unfold sub_wait; [done| |done].
    simpl in *. rewrite <- E1. destruct (stopProcessing st) eqn:Hst; exact Hst.
  - simpl in Hd. congruence.
  - simpl in Hd. congruence.
Qed.

(** Under the joins nobody asks for the shutdown. *)
Lemma joined_running (s : net_sys) :
  rtc joined_step net_start s →
  stopProcessing (n_st s) = false ∧ n_proc s ≠ PExit ∧ n_dtor s = D0.
Proof.
  intros Hr.
  assert (∀ s1, stopProcessing (n_st s1) = false → exit_inv s1 → n_proc s1 ≠ PExit) as Hne
    by (intros s1 Hs He Hp; apply He in Hp; congruence).
  assert (stopProcessing (n_st s) = false ∧ exit_inv s ∧ n_dtor s = D0) as (H1 & H2 & H3).
  2:{ split; [done|]. split; [by apply Hne|done]. }
  assert (stopProcessing (n_st net_start) = false ∧ exit_inv net_start ∧ n_dtor net_start = D0) as H0 by done.
  induction Hr as [|s1 s2 s3 Hstep _ IH]; [done|]. apply IH. destruct H0 as (Hst & Hex & Hd).
  destruct Hstep as [s1 s2 Hnet Hkeep|s1 s2 Hnet Hp _]; [|by destruct (Hne s1)].
  split; [|split; [by eapply net_step_exit_inv|congruence]].
  by rewrite (net_step_stop s1 s2).
Qed.

(** C26: the shutdown that NetworkStatus provides for is never asked for by the
    daemon.  The destructor alone sets the stop flag, the processing thread returns
    only when the flag is set, and [run] joins that thread before the destructor can
    run: in every reachable state the flag is down, the processing thread has not
    returned and the destructor has not started, whatever the internet does and
    whether the subscription succeeds. *)
Theorem shutdown_never_requested (s : net_sys) :
  rtc joined_step net_start s →
  stopProcessing (n_st s) = false ∧ n_proc s ≠ PExit ∧ n_dtor s = D0.
Proof. apply joined_running. Qed.

(** The state of NetworkStatus's witness, by the steps [run] leaves. *)
Lemma net_pending_run : rtc joined_step net_start net_pending.
Proof.
  eapply rtc_l; [apply run_threads; [by apply net_proc, step_check|done]|].
  eapply rtc_l; [apply run_threads; [by apply net_sub, step_sub_check|done]|].
  eapply rtc_l; [apply run_threads; [by apply net_sub, step_sub_ok|done]|].
  apply rtc_once, run_threads; [|done]. eapply (net_signal _ up); [by right|reflexivity|].
  by apply (notify_proc (NetSys (mkNetState "fully_connected" true false true) PWait SExit D0 1 0)).
Qed.

Lemma shutdown_never_requested_witness :
  stopProcessing (n_st net_pending) = false ∧ n_proc net_pending ≠ PExit ∧ n_dtor net_pending = D0.
Proof. exact (shutdown_never_requested net_pending net_pending_run). Defined.

(** The second attempt succeeds; later the destructor runs. *)
Definition client_end : client_sys :=
  client_run (by_dtor 6) (client_run (by_thread 9 false ++ by_thread 6 true) client_start).

Lemma client_run_ordered l s :
  Forall (λ c, is_Some c) l → client_reachable true s → client_reachable true (client_run l s).
Proof.
  intros HF. revert s. induction HF as [|c l [ok ->] _ IH]; intros s Hs; [done|].
  apply IH. eapply rtc_r; [exact Hs|apply client_sub].
Qed.

Lemma dtor_run_ordered n s :
  c_sub s = KReturned → client_reachable true s → client_reachable true (client_run (by_dtor n) s).
Proof.
  revert s. induction n as [|n IH]; intros s Hs Hr; [done|]. simpl. apply IH.
  - unfold dtor_next, call_client, delete_client.
    destruct (c_dtor s), (thunder_client s) as [i|]; simpl; try done; by destruct (bool_decide _).
  - eapply rtc_r; [exact Hr|by apply client_dtor].
Qed.

Lemma client_end_reachable : client_reachable true client_end.
Proof.
  unfold client_end. apply dtor_run_ordered; [vm_compute; reflexivity|].
  apply client_run_ordered; [|apply rtc_refl]. apply Forall_app. split; apply Forall_replicate; eauto.
Qed.

Lemma client_lifetime_witness :
  c_fault client_end = false ∧ thunder_client client_end = None ∧ c_live client_end = ∅ ∧ c_listening client_end = ∅.
Proof.
  destruct (client_lifetime client_end client_end_reachable) as (Hf & _ & _ & _ & _ & Hend).
  split; [exact Hf|]. apply Hend. vm_compute. reflexivity.
Defined.
