(* ===== verification/PathMonitor.v ===== *)
(** * PathMonitor: the path monitor and inotify

    The thread of [runPathMonitor], step by step, with the other processes that
    create and remove the announcement files and with what inotify(7) says of the
    events: those of a watched directory are queued in order, and a read returns
    one of them or several. *)

From Corelib Require Import SpecFloat.
From S2P Require Import Prelude CString Platform TestEnv Interfaces TimeSync PubSub TimeSrc Factory.
From S2P Require Import SysTimeMgr Daemon.

(** src: systimemgr.cpp:467-525 SysTimeMgr::runPathMonitor
    Where the thread is: the entries it has still to look for; before
    inotify_init; before inotify_add_watch; before a read; it has returned. *)
Inductive monitor_pc := PMScan (l : list (string * sysTimeMgrEvent)) | PMInit | PMAddWatch | PMRead | PMExit.

(** The thread, the files of the announcement directory and the inotify queue.
    [pm_sent]: the events sent.  Ghosts: [pm_seen], the events the scan has sent;
    [pm_reads], what each read returned; [pm_events], the inotify events since
    the watch. *)
Record monitor := Monitor {
  pm_pc : monitor_pc;
  pm_files : gset string;
  pm_watching : bool;
  pm_pending : list inotify_event;
  pm_sent : list sysTimeMgrEvent;
  pm_seen : list sysTimeMgrEvent;
  pm_reads : list (list inotify_event);
  pm_events : list inotify_event
}.

Section monitor.
Context (pathEventMap : list (string * sysTimeMgrEvent)).

Definition scan_pc (l : list (string * sysTimeMgrEvent)) : monitor_pc :=
  match l with [] => PMInit | _ => PMScan l end.

Definition monitor_start (files : gset string) : monitor :=
  Monitor (scan_pc pathEventMap) files false [] [] [] [] [].

Definition with_pc (c : monitor_pc) (s : monitor) : monitor :=
  Monitor c (pm_files s) (pm_watching s) (pm_pending s) (pm_sent s) (pm_seen s) (pm_reads s) (pm_events s).

(** src: systimemgr.cpp:473-482 SysTimeMgr::runPathMonitor
    One file of the scan. *)
Definition scan_one (name : string) (e : sysTimeMgrEvent) (l : list (string * sysTimeMgrEvent)) (s : monitor) : monitor :=
  let found := if bool_decide (name ∈ pm_files s) then [e] else [] in
  Monitor (scan_pc l) (pm_files s) (pm_watching s) (pm_pending s)
    (pm_sent s ++ found) (pm_seen s ++ found) (pm_reads s) (pm_events s).

(** src: systimemgr.cpp:498-523 SysTimeMgr::runPathMonitor
    A read that returned [buffer] and left [rest]. *)
Definition handle_read (buffer rest : list inotify_event) (s : monitor) : monitor :=
  Monitor PMRead (pm_files s) (pm_watching s) rest
    (pm_sent s ++ option_list (buffer_event pathEventMap buffer)) (pm_seen s)
    (pm_reads s ++ [buffer]) (pm_events s).

(** src: systimemgr.cpp:467-525 SysTimeMgr::runPathMonitor
    The steps of the thread. *)
Inductive monitor_step : monitor → monitor → Prop :=
  | pm_scan s name e l :
      pm_pc s = PMScan ((name, e) :: l) → monitor_step s (scan_one name e l s)
  | pm_init s : pm_pc s = PMInit → monitor_step s (with_pc PMAddWatch s)
  | pm_init_failed s : pm_pc s = PMInit → monitor_step s (with_pc PMExit s)
  | pm_watch s :
      pm_pc s = PMAddWatch →
      monitor_step s (Monitor PMRead (pm_files s) true [] (pm_sent s) (pm_seen s) (pm_reads s) [])
  | pm_watch_failed s : pm_pc s = PMAddWatch → monitor_step s (with_pc PMExit s)
  | pm_read s buffer rest :
      pm_pc s = PMRead → buffer ≠ [] → pm_pending s = buffer ++ rest → monitor_step s (handle_read buffer rest s)
  | pm_read_failed s : pm_pc s = PMRead → monitor_step s (with_pc PMExit s).

(** A change in the directory: the files after it, and the event of a watch. *)
Definition changed (files : gset string) (ev : inotify_event) (s : monitor) : monitor :=
  let new := if pm_watching s then [ev] else [] in
  Monitor (pm_pc s) files (pm_watching s) (pm_pending s ++ new) (pm_sent s) (pm_seen s) (pm_reads s)
    (pm_events s ++ new).

(** src: interface/itimesrc.h:41-59 ITimeSrc::notifypathAvailable
    What the other processes do to the files of the directory: set the time stamps
    of one, created when it is missing; remove one; write to one.  (A change of the
    attributes of the directory itself is not among them.) *)
Inductive directory_step : monitor → monitor → Prop :=
  | pm_announce s name : directory_step s (changed ({[name]} ∪ pm_files s) (InotifyEvent IN_ATTRIB name) s)
  | pm_remove s name : name ∈ pm_files s → directory_step s (changed (pm_files s ∖ {[name]}) (InotifyEvent IN_DELETE name) s)
  | pm_modify s name : name ∈ pm_files s → directory_step s (changed (pm_files s) (InotifyEvent IN_MODIFY name) s).

Definition pm_step (s s' : monitor) : Prop := monitor_step s s' ∨ directory_step s s'.

(** ** What has been sent *)

(** The events of the reads, and of the inotify events one by one. *)
Definition announced (buffers : list (list inotify_event)) : list sysTimeMgrEvent :=
  omap (buffer_event pathEventMap) buffers.
Definition each (l : list inotify_event) : list (list inotify_event) := map (λ ev, [ev]) l.

Record monitor_inv (s : monitor) : Prop := {
  mi_sent : pm_sent s = pm_seen s ++ announced (pm_reads s);
  mi_events : concat (pm_reads s) ++ pm_pending s = pm_events s;
  mi_watch : pm_pc s = PMRead → pm_watching s = true;
  mi_before : pm_watching s = false → pm_reads s = [] ∧ pm_pending s = [] ∧ pm_events s = [];
  mi_unwatched : pm_pc s = PMAddWatch ∨ pm_pc s = PMInit ∨ (∃ l, pm_pc s = PMScan l) → pm_watching s = false
}.

Lemma announced_app l1 l2 : announced (l1 ++ l2) = announced l1 ++ announced l2.
Proof. apply omap_app. Qed.

Ltac frame := split; simpl; auto; try done; try (intros [?|[?|[? ?]]]; congruence).

Lemma monitor_inv_step s s' : pm_step s s' → monitor_inv s → monitor_inv s'.
Proof.
  intros Hor [H1 H2 H3 H4 H5]. destruct Hor as [Hstep|Hstep].
  1: destruct Hstep as [s name e l Hp|s Hp|s Hp|s Hp|s Hp|s buffer rest Hp Hb Hq|s Hp].
  - destruct (H4 (H5 ltac:(eauto))) as (R & Q & V). split; simpl.
    + rewrite H1, R. simpl. by rewrite !app_nil_r.
    + by rewrite R, Q, V.
    + by destruct l.
    + done.
    + intros _. apply H5. eauto.
  - by frame.
  - by frame.
  - destruct (H4 (H5 ltac:(eauto))) as (R & Q & V). split; simpl; auto; try done.
    + by rewrite R.
    + intros [?|[?|[? ?]]]; done.
  - by frame.
  - split; simpl.
    + rewrite H1, announced_app, app_assoc. unfold announced. simpl.
      by destruct (buffer_event pathEventMap buffer).
    + rewrite concat_app. simpl. by rewrite app_nil_r, <- app_assoc, <- Hq.
    + auto.
    + intros Hw. rewrite H3 in Hw; done.
    + intros [?|[?|[? ?]]]; done.
  - by frame.
  - assert (∀ files ev, monitor_inv (changed files ev s)) as Hch.
    { intros files ev. split; simpl; auto.
      - by rewrite app_assoc, H2.
      - intros Hw. rewrite Hw. destruct (H4 Hw) as (R & Q & V). by rewrite R, Q, V. }
    by destruct Hstep.
Qed.

Lemma monitor_reachable_inv files s : rtc pm_step (monitor_start files) s → monitor_inv s.
Proof.
  intros Hr. assert (monitor_inv (monitor_start files)) as Hinit.
  { split; try done. simpl. by destruct pathEventMap. }
  induction Hr as [|s1 s2 s3 Hstep _ IH]; [done|]. apply IH. by eapply monitor_inv_step.
Qed.

(** A file the scan has yet to look for, or has seen. *)
Definition scanned (name : string) (e : sysTimeMgrEvent) (s : monitor) : Prop :=
  e ∈ pm_sent s ∨ ∃ l, pm_pc s = PMScan l ∧ (name, e) ∈ l.

(** A step after which a file is there. *)
Definition keeps (name : string) (s s' : monitor) : Prop := pm_step s s' ∧ name ∈ pm_files s'.

Lemma scanned_step name e s s' : name ∈ pm_files s → pm_step s s' → scanned name e s → scanned name e s'.
Proof.
  intros Hf Hor Hs. destruct Hor as [Hstep|Hstep].
  2: { destruct Hstep; exact Hs. }
  destruct Hstep as [s name' e' l Hp|s Hp|s Hp|s Hp|s Hp|s buffer rest Hp Hb Hq|s Hp];
    destruct Hs as [Hs|(l' & Hl & Hin)]; try (rewrite Hp in Hl; discriminate); try (left; exact Hs).
  - left. simpl. set_solver.
  - rewrite Hp in Hl. injection Hl as <-. apply elem_of_cons in Hin as [[= <- <-]|Hin].
    + left. simpl. rewrite bool_decide_eq_true_2 by done. set_solver.
    + right. exists l. by destruct l; [apply elem_of_nil in Hin|].
  - left. simpl. set_solver.
Qed.

Lemma scanned_run name e s s' :
  name ∈ pm_files s → rtc (keeps name) s s' → scanned name e s → scanned name e s'.
Proof.
  intros Hf Hr. induction Hr as [|s1 s2 s3 [Hstep Hf2] _ IH]; [done|]. intros Hs.
  by apply IH, (scanned_step name e s1).
Qed.

Lemma announced_each buffers :
  Forall (λ b, length b = 1%nat) buffers → announced (each (concat buffers)) = announced buffers.
Proof.
  induction 1 as [|b buffers Hb _ IH]; [done|]. destruct b as [|ev [|]]; try done.
  simpl. unfold announced in *. simpl. by rewrite IH.
Qed.
End monitor.

(** * Properties *)

(** C11: what the path monitor sends.  In every state the thread can reach, in
    whatever order files are created, touched and removed meanwhile, it has sent
    the events of the files the scan saw and then, for every read, the event its
    first inotify event announces; the reads and what is still pending are all the
    inotify events since the watch, in order.  So when each read returned one
    event and none is pending, every announcement since the watch was sent, in
    order; and a file that is there when the thread starts and stays is announced
    once the scan is over. *)
Theorem announcements_sent map (files : gset string) s :
  rtc (pm_step map) (monitor_start map files) s →
  pm_sent s = pm_seen s ++ announced map (pm_reads s) ∧
  concat (pm_reads s) ++ pm_pending s = pm_events s ∧
  (pm_pending s = [] → Forall (λ b, length b = 1%nat) (pm_reads s) →
   pm_sent s = pm_seen s ++ announced map (each (pm_events s))) ∧
  ∀ name e s', name ∈ files → (name, e) ∈ map → rtc (keeps map name) (monitor_start map files) s' →
    (∀ l, pm_pc s' ≠ PMScan l) → e ∈ pm_sent s'.
Proof.
  intros Hr. destruct (monitor_reachable_inv map files s Hr) as [H1 H2 _ _ _].
  do 2 (split; [done|]). split.
  - intros Hp Hone. rewrite <- H2, Hp, app_nil_r, announced_each; done.
  - intros name e s' Hf Hin Hrun Hpc.
    destruct (scanned_run map name e (monitor_start map files) s' Hf Hrun) as [?|(l & Hl & _)];
      [right; exists map; destruct map; [by apply elem_of_nil in Hin|done]|done|].
    by destruct (Hpc l).
Qed.

(** The thread waits and has nothing to read: of itself it can only fail. *)
Definition stuck (map : list (string * sysTimeMgrEvent)) (s : monitor) : Prop :=
  pm_pc s = PMRead ∧ pm_pending s = [] ∧
  ∀ s', monitor_step map s s' → pm_pc s' = PMExit ∧ pm_sent s' = pm_sent s.

Lemma nothing_pending_stuck map s : pm_pc s = PMRead → pm_pending s = [] → stuck map s.
Proof.
  intros Hp Hq. do 2 (split; [done|]). intros s' Hstep.
  destruct Hstep; simpl; try congruence; [|done].
  destruct buffer; simpl in *; congruence.
Qed.

Ltac by_monitor c := eapply rtc_l; [left; eapply c; try reflexivity; try discriminate|simpl].
Ltac announce n := eapply rtc_l; [right; apply pm_announce with (name := n)|simpl].

(** C23: an announcement can be lost.  The scan looks for the files before the
    watch is set up, so a network time file created in between is announced by
    neither; and a read that returns the events of two files is handled as one, so
    the second is dropped.  In both cases the file is there, nothing is pending,
    and the thread waits for the next change. *)
Theorem announcement_lost :
  (∃ s, rtc (pm_step path_events) (monitor_start path_events ∅) s ∧ "ntp" ∈ pm_files s ∧
     pm_sent s = [] ∧ stuck path_events s) ∧
  (∃ s, rtc (pm_step path_events) (monitor_start path_events ∅) s ∧ "ntp" ∈ pm_files s ∧ "drm" ∈ pm_files s ∧
     pm_sent s = [eSYSMGR_EVENT_NTP_AVAILABLE] ∧ stuck path_events s).
Proof.
  split; eexists.
  - split.
    + unfold path_events, monitor_start. do 4 (by_monitor pm_scan).
      announce "ntp"%string. by_monitor pm_init. by_monitor pm_watch. apply rtc_refl.
    + simpl. split; [set_solver|]. split; [by vm_compute|]. by apply nothing_pending_stuck.
  - split.
    + unfold path_events, monitor_start. do 4 (by_monitor pm_scan). by_monitor pm_init. by_monitor pm_watch.
      announce "ntp"%string. announce "drm"%string.
      eapply rtc_l; [left; eapply pm_read with
        (buffer := [InotifyEvent IN_ATTRIB "ntp"; InotifyEvent IN_ATTRIB "drm"]) (rest := []); done|].
      apply rtc_refl.
    + simpl. split; [set_solver|]. split; [set_solver|]. split; [by vm_compute|]. by apply nothing_pending_stuck.
Qed.

(** ** Instances *)

(** The drm file is there at the start, the ntp file comes after the watch. *)
Lemma monitor_run :
  ∃ s, rtc (keeps path_events "drm") (monitor_start path_events {["drm"]}) s ∧ pm_pc s = PMRead ∧
    pm_pending s = [] ∧ pm_events s = [InotifyEvent IN_ATTRIB "ntp"] ∧ length (pm_reads s) = 1%nat ∧
    Forall (λ b, length b = 1%nat) (pm_reads s) ∧ "drm" ∈ ({["drm"]} : gset string).
Proof.
  assert ("drm" ∈ ({["drm"]} : gset string)) as Hin by set_solver.
  eexists. split.
  - unfold path_events, monitor_start.
    do 4 (eapply rtc_l; [split; [left; eapply pm_scan; reflexivity|exact Hin]|simpl]).
    eapply rtc_l; [split; [left; by apply pm_init|exact Hin]|simpl].
    eapply rtc_l; [split; [left; by apply pm_watch|exact Hin]|simpl].
    eapply rtc_l; [split; [right; apply pm_announce with (name := "ntp"%string)|simpl; set_solver]|simpl].
    eapply rtc_l; [split; [left; eapply pm_read with (buffer := [InotifyEvent IN_ATTRIB "ntp"]) (rest := []); done
                          |simpl; set_solver]|].
    apply rtc_refl.
  - simpl. split_and!; try done. by repeat constructor.
Qed.

Lemma announcements_sent_witness :
  ∃ s, rtc (pm_step path_events) (monitor_start path_events {["drm"]}) s ∧
    pm_sent s = pm_seen s ++ [eSYSMGR_EVENT_NTP_AVAILABLE] ∧ eSYSMGR_EVENT_SECURE_TIME_AVAILABLE ∈ pm_sent s.
Proof.
  destruct monitor_run as (s & Hrun & Hpc & Hq & Hev & _ & Hone & Hin).
  assert (rtc (pm_step path_events) (monitor_start path_events {["drm"]}) s) as Hr.
  { revert Hrun. apply rtc_subrel. intros ? ? [? _]. assumption. }
  destruct (announcements_sent path_events {["drm"]} s Hr) as (_ & _ & Hall & Hscan).
  exists s. split; [exact Hr|]. split.
  - rewrite (Hall Hq Hone), Hev. reflexivity.
  - apply (Hscan "drm"%string _ s Hin); [left|exact Hrun|].
    intros l. rewrite Hpc. discriminate.
Defined.
