(* ===== verification/Threads.v ===== *)
(** * Threads: the mutexes of SysTimeMgr

    The threads and callbacks of the process as far as they take
    [g_instance_mutex], [g_state_mutex] and [m_queue_mutex] and wait on
    [m_cond_var]: what every thread does next ([code]), and the steps of all of
    them ([tstep]).  This is where the granularity of System's [dstep] comes
    from: a critical section of [g_state_mutex] or [m_queue_mutex] there is a
    stretch here during which no other thread is inside one. *)

From stdpp Require Import functions.
From S2P Require Import Prelude CString Platform SysTimeMgr.

(** src: systimemgr.h:131-136 SysTimeMgr::m_queue_mutex *)
Inductive mutex := MQueue | MState | MInstance.

#[export] Instance mutex_eq_dec : EqDecision mutex.
Proof. solve_decision. Defined.

(** The main thread, the three threads that use the queue, and the callbacks the
    IARM bus and the power controller run on threads of their own. *)
Inductive tid := TMain | TProc | TTimer | TPath | TCall (n : nat).

#[export] Instance tid_eq_dec : EqDecision tid.
Proof. solve_decision. Defined.

(** Where a thread is. *)
Inductive pc :=
  (* main *)
  | M0 | M1 | M2 | M3 | M4 | MRun
  (* processMsg *)
  | P0 | PLock | PTest | PWait | PRelock | PTaken | PHandle | PEnd
  (* sendMessage, from the timer and the path monitor *)
  | S0 | SIdle | SLock (e : sysTimeMgrEvent) | SHold (e : sysTimeMgrEvent) | SPushed | SNotify
  (* the power handler and the status query *)
  | CIdle | CInst | CInInst | CLock | CHold.

(** What a step does. *)
Inductive act :=
  | Lock (m : mutex)
  | Unlock (m : mutex)
  | CondWait                  (* the queue is empty: release it and block *)
  | Pop
  | Push (e : sysTimeMgrEvent)
  | Notify
  | Start                     (* the thread is created by run *)
  | Call                      (* the bus calls a registered handler *)
  | Skip.

(** src: systimemgr.cpp:61-95 SysTimeMgr::get_instance
    The main thread, in the order of [main] in main.cpp: get_instance under its
    mutex; initialize, which registers the callbacks while it holds the state mutex
    taken in its first line; run. *)
Inductive main_code : pc → act → pc → Prop :=
  | main_get : main_code M0 (Lock MInstance) M1
  | main_got : main_code M1 (Unlock MInstance) M2
  | main_initialize : main_code M2 (Lock MState) M3
  | main_register : main_code M3 Skip M4
  | main_initialized : main_code M4 (Unlock MState) MRun.

(** src: systimemgr.cpp:427-442 SysTimeMgr::processMsg
    [lk] is held from the test to the end of the round; [wait] releases it, and
    takes it again when it has been woken; runStateMachine takes the state
    mutex. *)
Inductive process_code : pc → act → pc → Prop :=
  | process_start : process_code P0 Start PLock
  | process_lock : process_code PLock (Lock MQueue) PTest
  | process_wait : process_code PTest CondWait PWait
  | process_relock : process_code PRelock (Lock MQueue) PTest
  | process_pop : process_code PTest Pop PTaken
  | process_state : process_code PTaken (Lock MState) PHandle
  | process_handled : process_code PHandle (Unlock MState) PEnd
  | process_end : process_code PEnd (Unlock MQueue) PLock.

(** src: systimemgr.cpp:629-637 SysTimeMgr::sendMessage
    The notification comes after the unlock. *)
Inductive send_code : pc → act → pc → Prop :=
  | send_start : send_code S0 Start SIdle
  | send_begin e : send_code SIdle Skip (SLock e)
  | send_lock e : send_code (SLock e) (Lock MQueue) (SHold e)
  | send_push e : send_code (SHold e) (Push e) SPushed
  | send_unlock : send_code SPushed (Unlock MQueue) SNotify
  | send_notify : send_code SNotify Notify SIdle.

(** src: systimemgr.cpp:798-816 SysTimeMgr::powerhandler
    The static handlers, this and [getTimeStatus]: get_instance, then the method,
    which takes the state mutex; [deepsleepon] does not. *)
Inductive call_code : pc → act → pc → Prop :=
  | call_begin : call_code CIdle Call CInst
  | call_get : call_code CInst (Lock MInstance) CInInst
  | call_got : call_code CInInst (Unlock MInstance) CLock
  | call_state : call_code CLock (Lock MState) CHold
  | call_unlocked : call_code CLock Skip CIdle
  | call_done : call_code CHold (Unlock MState) CIdle.

(** src: systimemgr.cpp:202-225 SysTimeMgr::run
    Which thread runs which code. *)
Definition code (t : tid) : pc → act → pc → Prop :=
  match t with
  | TMain => main_code
  | TProc => process_code
  | TTimer | TPath => send_code
  | TCall _ => call_code
  end.

(** [th_pushed], [th_taken]: ghosts, the events queued and taken so far. *)
Record threads := Threads {
  pcs : tid → pc;
  holder : mutex → option tid;
  th_queue : list sysTimeMgrEvent;
  th_pushed : list sysTimeMgrEvent;
  th_taken : list sysTimeMgrEvent
}.

Definition threads_start : threads := {|
  pcs := λ t, match t with TMain => M0 | TProc => P0 | TTimer | TPath => S0 | TCall _ => CIdle end;
  holder := λ _, None;
  th_queue := []; th_pushed := []; th_taken := []
|}.

Definition goto (t : tid) (c : pc) (s : threads) : threads :=
  Threads (<[t:=c]> (pcs s)) (holder s) (th_queue s) (th_pushed s) (th_taken s).
Definition set_holder (m : mutex) (o : option tid) (s : threads) : threads :=
  Threads (pcs s) (<[m:=o]> (holder s)) (th_queue s) (th_pushed s) (th_taken s).

(** [notify_one]: the processing thread is the only one that waits. *)
Definition notify_proc (s : threads) : threads :=
  match pcs s TProc with PWait => goto TProc PRelock s | _ => s end.

(** The effect of an action of thread [t]; [None]: it cannot be done now. *)
Definition perform (t : tid) (a : act) (s : threads) : option threads :=
  match a with
  | Lock m => match holder s m with None => Some (set_holder m (Some t) s) | Some _ => None end
  | Unlock m => Some (set_holder m None s)
  | CondWait => match th_queue s with [] => Some (set_holder MQueue None s) | _ => None end
  | Pop => match th_queue s with
           | [] => None
           | e :: q => Some (Threads (pcs s) (holder s) q (th_pushed s) (th_taken s ++ [e]))
           end
  | Push e => Some (Threads (pcs s) (holder s) (th_queue s ++ [e]) (th_pushed s ++ [e]) (th_taken s))
  | Notify => Some (notify_proc s)
  | Start => match pcs s TMain with MRun => Some s | _ => None end
  | Call => match pcs s TMain with M4 | MRun => Some s | _ => None end
  | Skip => Some s
  end.

(** A step of thread [t]. *)
Inductive run_step (s : threads) : threads → Prop :=
  | run_step_intro t a c' s1 :
      code t (pcs s t) a c' → perform t a s = Some s1 → run_step s (goto t c' s1).

(** A thread's step, or a spurious wake-up. *)
Inductive tstep (s : threads) : threads → Prop :=
  | tstep_run s' : run_step s s' → tstep s s'
  | tstep_spurious : pcs s TProc = PWait → tstep s (goto TProc PRelock s).

Definition threads_reachable (s : threads) : Prop := rtc tstep threads_start s.

(** ** The invariants *)

(** The mutexes a thread at [c] holds. *)
Definition holds (c : pc) (m : mutex) : bool :=
  match c, m with
  | (M1 | CInInst), MInstance => true
  | (M3 | M4 | PHandle | CHold), MState => true
  | (PTest | PTaken | PHandle | PEnd | SHold _ | SPushed), MQueue => true
  | _, _ => false
  end.

(** The holder of a mutex is the one thread inside its critical section. *)
Definition lock_inv (s : threads) : Prop :=
  ∀ t m, holder s m = Some t ↔ holds (pcs s t) m = true.

(** While the processing thread is blocked and the queue is not empty, a sender is
    between its push and its notification. *)
Definition notify_due (s : threads) : Prop :=
  ∃ t, (t = TTimer ∨ t = TPath) ∧ (pcs s t = SPushed ∨ pcs s t = SNotify).
Definition wake_inv (s : threads) : Prop :=
  pcs s TProc = PWait → th_queue s ≠ [] → notify_due s.

(** Before run nothing but the callbacks moves, and those only once they are
    registered. *)
Definition phase_inv (s : threads) : Prop :=
  (pcs s TMain ≠ MRun → pcs s TProc = P0 ∧ pcs s TTimer = S0 ∧ pcs s TPath = S0 ∧ th_queue s = []) ∧
  (pcs s TMain ∈ [M0; M1; M2; M3] → ∀ n, pcs s (TCall n) = CIdle).

(** Every thread is in its own code. *)
Definition own (t : tid) (c : pc) : bool :=
  match t, c with
  | TMain, (M0 | M1 | M2 | M3 | M4 | MRun) => true
  | TProc, (P0 | PLock | PTest | PWait | PRelock | PTaken | PHandle | PEnd) => true
  | (TTimer | TPath), (S0 | SIdle | SLock _ | SHold _ | SPushed | SNotify) => true
  | TCall _, (CIdle | CInst | CInInst | CLock | CHold) => true
  | _, _ => false
  end.
Definition pc_inv (s : threads) : Prop := ∀ t, own t (pcs s t) = true.

Definition order_inv (s : threads) : Prop := th_taken s ++ th_queue s = th_pushed s.

Record threads_inv (s : threads) : Prop := {
  ti_lock : lock_inv s;
  ti_wake : wake_inv s;
  ti_phase : phase_inv s;
  ti_pc : pc_inv s;
  ti_order : order_inv s
}.

(** ** Preservation *)

Ltac case_in H :=
  match type of H with context [match ?x with _ => _ end] => destruct x eqn:? end.

Lemma goto_same t c s : pcs (goto t c s) t = c.
Proof. apply fn_lookup_insert. Qed.
Lemma goto_other t t' c s : t ≠ t' → pcs (goto t c s) t' = pcs s t'.
Proof. apply fn_lookup_insert_ne. Qed.

(** What an action does to the mutexes the acting thread holds. *)
Definition holds_after (a : act) (c : pc) (m : mutex) : bool :=
  match a with
  | Lock m' => bool_decide (m' = m) || holds c m
  | Unlock m' => negb (bool_decide (m' = m)) && holds c m
  | CondWait => negb (bool_decide (MQueue = m)) && holds c m
  | _ => holds c m
  end.

(** The mutex an action needs its thread to hold. *)
Definition needs (a : act) : option mutex :=
  match a with
  | Unlock m => Some m
  | CondWait | Pop | Push _ => Some MQueue
  | _ => None
  end.

Lemma code_holds t c a c' m : code t c a c' → holds c' m = holds_after a c m.
Proof. destruct t; intros Hc; destruct Hc; by destruct m. Qed.

Lemma code_needs t c a c' m : code t c a c' → needs a = Some m → holds c m = true.
Proof. destruct t; intros Hc; destruct Hc; intros; by simplify_eq/=. Qed.

(** Nobody asks for a mutex it holds. *)
Lemma lock_outside t c m c' : code t c (Lock m) c' → holds c m = false.
Proof. destruct t; intros Hc; by inversion Hc. Qed.

(** The holder of each mutex after an action of [t]. *)
Definition holder_after (t : tid) (a : act) (h : option tid) (m : mutex) : option tid :=
  match a with
  | Lock m' => if bool_decide (m' = m) then Some t else h
  | Unlock m' => if bool_decide (m' = m) then None else h
  | CondWait => if bool_decide (MQueue = m) then None else h
  | _ => h
  end.

Lemma set_holder_lookup (m m' : mutex) (o : option tid) (h : mutex → option tid) :
  <[m:=o]> h m' = if bool_decide (m = m') then o else h m'.
Proof. case_bool_decide; [subst; apply fn_lookup_insert|by apply fn_lookup_insert_ne]. Qed.

Lemma perform_holder t a s s1 m : perform t a s = Some s1 → holder s1 m = holder_after t a (holder s m) m.
Proof.
  intros H. destruct a; unfold perform, notify_proc in H; repeat case_in H; simplify_eq; simpl;
    rewrite ?set_holder_lookup; done.
Qed.

Lemma perform_lock_free t m s s1 : perform t (Lock m) s = Some s1 → holder s m = None.
Proof. simpl. by case_match. Qed.

(** Only a notification touches another thread, and then only a blocked one. *)
Lemma perform_pcs t a s s1 t' :
  perform t a s = Some s1 →
  pcs s1 t' = pcs s t' ∨ (a = Notify ∧ t' = TProc ∧ pcs s t' = PWait ∧ pcs s1 t' = PRelock).
Proof.
  intros H. destruct a; unfold perform, notify_proc in H; repeat case_in H; simplify_eq; simpl; auto.
  destruct (decide (t' = TProc)) as [->|Hne]; [right; split_and!; try done; apply fn_lookup_insert|left].
  by apply fn_lookup_insert_ne.
Qed.

Lemma perform_holds t a s s1 t' m : perform t a s = Some s1 → holds (pcs s1 t') m = holds (pcs s t') m.
Proof. intros Hp. destruct (perform_pcs t a s s1 t' Hp) as [->|(_ & _ & -> & ->)]; [done|by destruct m]. Qed.

Lemma lock_inv_step t a c' s s1 :
  code t (pcs s t) a c' → perform t a s = Some s1 → lock_inv s → lock_inv (goto t c' s1).
Proof.
  intros Hc Hp Hinv t' m. change (holder (goto t c' s1) m) with (holder s1 m).
  rewrite (perform_holder t a s s1 m Hp). pose proof (Hinv t' m) as Ht'. pose proof (Hinv t m) as Ht.
  assert (holds (pcs (goto t c' s1) t') m
    = if bool_decide (t = t') then holds_after a (pcs s t) m else holds (pcs s t') m) as ->.
  { case_bool_decide as Heq; [subst; by rewrite goto_same, (code_holds _ _ _ _ _ Hc)|].
    rewrite goto_other by done. by apply (perform_holds t a). }
  pose proof (code_needs _ _ _ _ m Hc) as Hn.
  destruct a; simpl in *; try pose proof (perform_lock_free _ _ _ _ Hp) as Hfree;
    repeat (case_bool_decide; simplify_eq; simpl); try done; try (rewrite Hfree in * ); try naive_solver.
Qed.

(** A step of [t] leaves the other threads where they are, a blocked one apart. *)
Lemma step_pcs t c' a s s1 t' :
  perform t a s = Some s1 → t ≠ t' → (t' = TProc → pcs s t' ≠ PWait) → pcs (goto t c' s1) t' = pcs s t'.
Proof.
  intros Hp Hne Hw. rewrite goto_other by done.
  destruct (perform_pcs t a s s1 t' Hp) as [|(_ & ? & ? & _)]; [done|by destruct Hw].
Qed.

(** The queue grows at the back and shrinks at the front. *)
Lemma perform_order t a s s1 : perform t a s = Some s1 → order_inv s → order_inv s1.
Proof.
  intros H. unfold order_inv. intros Hinv.
  destruct a; unfold perform, notify_proc in H; repeat case_in H; simplify_eq; simpl; try done.
  - by rewrite Heql.
  - by rewrite <- app_assoc.
  - by rewrite app_assoc, Hinv.
Qed.

Lemma perform_queue t a s s1 :
  perform t a s = Some s1 → th_queue s1 = th_queue s ∨ a = Pop ∨ ∃ e, a = Push e.
Proof.
  intros H. destruct a; unfold perform, notify_proc in H; repeat case_in H; simplify_eq; simpl; eauto.
Qed.

Lemma wake_inv_step t a c' s s1 :
  code t (pcs s t) a c' → perform t a s = Some s1 → wake_inv s → wake_inv (goto t c' s1).
Proof.
  intros Hc Hp Hinv Hw Hq. change (th_queue s1 ≠ []) in Hq.
  destruct (decide (t = TProc)) as [->|Hne].
  { rewrite goto_same in Hw. subst c'. inversion Hc; subst. simpl in Hp. case_in Hp; simplify_eq. }
  rewrite goto_other in Hw by done.
  assert (pcs s TProc = PWait) as Hw0.
  { destruct (perform_pcs t a s s1 TProc Hp) as [Heq|(_ & _ & _ & Heq)]; congruence. }
  assert ((∃ e, a = Push e) ∨ th_queue s1 = th_queue s) as [[e ->]|Hq0].
  { destruct (perform_queue t a s s1 Hp) as [?|[->|?]]; auto.
    destruct t; try done; inversion Hc. }
  - exists t. rewrite goto_same. destruct t; inversion Hc; subst; auto.
  - rewrite Hq0 in Hq. destruct (Hinv Hw0 Hq) as (t' & Ht' & Hp').
    destruct (decide (t = t')) as [->|Hne'].
    + exists t'. rewrite goto_same. split; [done|].
      destruct Ht' as [-> | ->]; simpl in Hc; destruct Hp' as [Hp'|Hp']; rewrite Hp' in Hc;
        inversion Hc; subst; auto; simpl in Hp; unfold notify_proc in Hp; rewrite Hw0 in Hp;
        simplify_eq; by rewrite goto_same in Hw.
    + exists t'. split; [done|]. by rewrite (step_pcs t c' a s s1 t'); [| |done|intros ->; destruct Ht' as [|]].
Qed.

(** Another thread's step leaves the main thread where it is. *)
Lemma step_main t c' a s s1 :
  perform t a s = Some s1 → t ≠ TMain → pcs (goto t c' s1) TMain = pcs s TMain.
Proof. intros Hp Ht. by apply (step_pcs t c' a). Qed.

Lemma phase_inv_step t a c' s s1 :
  code t (pcs s t) a c' → perform t a s = Some s1 → phase_inv s → phase_inv (goto t c' s1).
Proof.
  intros Hc Hp [Hrun Hreg]. unfold phase_inv.
  assert (a ≠ Pop → (∀ e, a ≠ Push e) → th_queue (goto t c' s1) = th_queue s) as Hq.
  { intros. destruct (perform_queue _ _ _ _ Hp) as [?|[?|[??]]]; [done|done|naive_solver]. }
  assert (∀ t', t ≠ t' → t' ≠ TProc → pcs (goto t c' s1) t' = pcs s t') as Ho.
  { intros. by apply (step_pcs t c' a). }
  assert (t ≠ TProc → pcs s TProc = P0 → pcs (goto t c' s1) TProc = P0) as HoP.
  { intros ? H0. rewrite (step_pcs t c' a s s1 TProc); [done|done|done|by rewrite H0]. }
  destruct t as [| | | |n]; simpl in Hc.
  - assert (pcs s TMain ≠ MRun) as Hm by (intros Heq; rewrite Heq in Hc; inversion Hc).
    destruct (Hrun Hm) as (H1 & H2 & H3 & H4). split.
    + intros _. rewrite (Ho TTimer), (Ho TPath), HoP, Hq by (done || (intros; inversion Hc; congruence)). by split_and!.
    + rewrite goto_same. intros Hin n. rewrite Ho by done. apply Hreg. inversion Hc; subst; set_solver.
  - rewrite !Ho by done. split; [|intros Hin n; rewrite Ho by done; auto].
    intros Hm. destruct (Hrun Hm) as (H1 & _). rewrite H1 in Hc. inversion Hc; subst.
    simpl in Hp. by case_in Hp.
  - rewrite Ho by done. split; [|intros Hin n; rewrite Ho by done; auto].
    intros Hm. destruct (Hrun Hm) as (_ & H1 & _). rewrite H1 in Hc. inversion Hc; subst.
    simpl in Hp. by case_in Hp.
  - rewrite Ho by done. split; [|intros Hin n; rewrite Ho by done; auto].
    intros Hm. destruct (Hrun Hm) as (_ & _ & H1 & _). rewrite H1 in Hc. inversion Hc; subst.
    simpl in Hp. by case_in Hp.
  - rewrite (Ho TMain), (Ho TTimer), (Ho TPath) by done. split.
    + intros Hm. destruct (Hrun Hm) as (H1 & H2 & H3 & H4).
      rewrite HoP, Hq by (done || (intros; inversion Hc; congruence)). by split_and!.
    + intros Hin. pose proof (Hreg Hin n) as H1. rewrite H1 in Hc. inversion Hc; subst.
      simpl in Hp. case_in Hp; simplify_eq; set_solver.
Qed.

Lemma pc_inv_step t a c' s s1 :
  code t (pcs s t) a c' → perform t a s = Some s1 → pc_inv s → pc_inv (goto t c' s1).
Proof.
  intros Hc Hp Hinv t'. destruct (decide (t = t')) as [<-|Hne].
  - rewrite goto_same. destruct t; by destruct Hc.
  - rewrite goto_other by done.
    by destruct (perform_pcs t a s s1 t' Hp) as [->|(_ & -> & _ & ->)].
Qed.

Lemma threads_inv_start : threads_inv threads_start.
Proof.
  split; try done; [intros t m; destruct t, m; naive_solver|by intros []].
Qed.

Lemma threads_inv_tstep s s' : tstep s s' → threads_inv s → threads_inv s'.
Proof.
  intros [s1 [t a c' s2 Hc Hp]|Hw] [H1 H2 H3 Hpc H4].
  - split; [by eapply lock_inv_step|by eapply wake_inv_step|by eapply phase_inv_step|by eapply pc_inv_step|].
    change (order_inv s2). by apply (perform_order t a s).
  - split; [| | | |exact H4].
    + intros t m. change (holder (goto TProc PRelock s) m) with (holder s m). rewrite (H1 t m).
      destruct (decide (TProc = t)) as [<-|Hne]; [by rewrite goto_same, Hw; destruct m|by rewrite goto_other].
    + intros Hw'. by rewrite goto_same in Hw'.
    + unfold phase_inv. rewrite !goto_other by done. destruct H3 as [Hrun Hreg]. split.
      * intros Hm. destruct (Hrun Hm) as [Hp _]. congruence.
      * intros Hin n. rewrite goto_other by done. auto.
    + intros t. destruct (decide (TProc = t)) as [<-|Hne]; [by rewrite goto_same|by rewrite goto_other].
Qed.

Lemma threads_reachable_inv s : threads_reachable s → threads_inv s.
Proof.
  intros Hr. unfold threads_reachable in Hr. pose proof threads_inv_start as Hinv.
  induction Hr as [|s1 s2 s3 Hstep _ IH]; [done|]. by apply IH, (threads_inv_tstep s1).
Qed.

(** ** Progress *)

(** Some continuation of [s], without spurious wake-ups, satisfies [P]. *)
Definition can_reach (s : threads) (P : threads → Prop) : Prop :=
  ∃ s', rtc run_step s s' ∧ P s'.

Lemma reach_now s (P : threads → Prop) : P s → can_reach s P.
Proof. intros HP. by exists s. Qed.

Lemma reach_step t a c' s1 s P :
  code t (pcs s t) a c' → perform t a s = Some s1 → can_reach (goto t c' s1) P → can_reach s P.
Proof.
  intros Hc Hp (s' & Hrun & HP). exists s'. split; [|done]. eapply rtc_l; [|exact Hrun].
  by eapply run_step_intro.
Qed.

Lemma reach_bind s P Q : can_reach s P → (∀ s', P s' → can_reach s' Q) → can_reach s Q.
Proof.
  intros (s1 & H1 & HP) HQ. destruct (HQ s1 HP) as (s2 & H2 & HQ2). exists s2.
  split; [by etrans|done].
Qed.

Lemma reach_inv s P : threads_inv s → can_reach s P → can_reach s (λ s', threads_inv s' ∧ P s').
Proof.
  intros Hinv (s' & Hrun & HP). exists s'. split; [done|]. split; [|done]. clear HP.
  induction Hrun as [|s1 s2 s3 Hstep _ IH]; [done|]. apply IH, (threads_inv_tstep s1); [|done].
  by apply tstep_run.
Qed.

(** What freeing a mutex that nobody waits inside leaves alone. *)
Record same_but (t : tid) (s s' : threads) : Prop := {
  sb_pcs : ∀ t', t' ≠ t → pcs s' t' = pcs s t';
  sb_queue : th_queue s' = th_queue s;
  sb_taken : th_taken s' = th_taken s
}.

(** A thread inside the state or the instance mutex leaves it by itself. *)
Lemma free_leaf s t m :
  threads_inv s → holder s m = Some t → m ≠ MQueue →
  can_reach s (λ s', holder s' m = None ∧ same_but t s s').
Proof.
  intros Hinv Hh Hm. apply (ti_lock s Hinv) in Hh. pose proof (ti_pc s Hinv t) as Ho.
  assert (∀ s0 c', code t (pcs s0 t) (Unlock m) c' → same_but t s s0 →
    can_reach s0 (λ s', holder s' m = None ∧ same_but t s s')) as Hun.
  { intros s0 c' Hc [P1 P2 P3]. eapply reach_step; [exact Hc|reflexivity|]. apply reach_now.
    split; [apply fn_lookup_insert|]. split; [|exact P2|exact P3].
    intros t' Ht'. by rewrite goto_other; [apply P1|]. }
  assert (same_but t s s) as Hs by done.
  destruct (pcs s t) eqn:Hpc; destruct m; try done; destruct t; try done;
    try (eapply Hun; [rewrite Hpc; constructor|exact Hs]).
  eapply (reach_step TMain); [rewrite Hpc; constructor|reflexivity|].
  eapply Hun; [rewrite goto_same; constructor|]. split; [|done|done]. intros t' Ht'. by apply goto_other.
Qed.

(** The threads other than [t] that hold nothing are left where they are. *)
Definition idle_same (t : tid) (s s' : threads) : Prop :=
  ∀ w, w ≠ t → (∀ m, holds (pcs s w) m = false) → pcs s' w = pcs s w.

Lemma idle_same_trans t s1 s2 s3 : idle_same t s1 s2 → idle_same t s2 s3 → idle_same t s1 s3.
Proof. intros H1 H2 w Hw Hi. rewrite (H2 w Hw); rewrite (H1 w Hw Hi); done. Qed.

Lemma idle_same_goto t c s s1 : pcs s1 = pcs s → idle_same t s (goto t c s1).
Proof. intros Hp w Hw _. rewrite goto_other by done. by rewrite Hp. Qed.

(** A thread gets the state or the instance mutex when it asks for it. *)
Lemma acquire_leaf s w m c' :
  threads_inv s → code w (pcs s w) (Lock m) c' → m ≠ MQueue →
  can_reach s (λ s', pcs s' w = c' ∧ idle_same w s s' ∧ th_queue s' = th_queue s ∧ th_taken s' = th_taken s).
Proof.
  intros Hinv Hc Hm.
  assert (∀ s0, holder s0 m = None → pcs s0 w = pcs s w → idle_same w s s0 →
    th_queue s0 = th_queue s → th_taken s0 = th_taken s → can_reach s0 (λ s', pcs s' w = c' ∧ idle_same w s s' ∧
      th_queue s' = th_queue s ∧ th_taken s' = th_taken s)) as Hget.
  { intros s0 Hfree Hpc Hi Hq Ht. rewrite <- Hpc in Hc.
    eapply reach_step; [exact Hc|simpl; by rewrite Hfree|]. apply reach_now. split; [apply goto_same|].
    split; [|done]. eapply idle_same_trans; [exact Hi|by apply idle_same_goto]. }
  destruct (holder s m) as [t|] eqn:Hh; [|by apply Hget].
  eapply reach_bind; [by eapply free_leaf|]. intros s1 (Hfree & [P1 P2 P3]).
  apply (ti_lock s Hinv) in Hh.
  apply Hget; try done.
  - apply P1. intros ->. by rewrite (lock_outside _ _ _ _ Hc) in Hh.
  - intros v Hv Hi. apply P1. intros ->. by rewrite Hi in Hh.
Qed.

(** From the test on, the processing thread takes what there is, runs the state
    machine and releases the queue's mutex. *)
Lemma finish_round s :
  threads_inv s → pcs s TProc ∈ [PTaken; PHandle; PEnd] →
  can_reach s (λ s', holder s' MQueue = None ∧ pcs s' TProc = PLock ∧ idle_same TProc s s' ∧
    th_queue s' = th_queue s ∧ th_taken s' = th_taken s).
Proof.
  intros Hinv Hin.
  set (P := λ s', holder s' MQueue = None ∧ pcs s' TProc = PLock ∧ idle_same TProc s s' ∧
    th_queue s' = th_queue s ∧ th_taken s' = th_taken s).
  assert (∀ s0, pcs s0 TProc = PEnd → idle_same TProc s s0 → th_queue s0 = th_queue s →
    th_taken s0 = th_taken s → can_reach s0 P) as Hend.
  { intros s0 Hp Hi Hq Ht. eapply (reach_step TProc); [rewrite Hp; constructor|reflexivity|]. apply reach_now.
    split; [apply fn_lookup_insert|]. split; [apply goto_same|]. split; [|done].
    eapply idle_same_trans; [exact Hi|by apply idle_same_goto]. }
  assert (∀ s0, pcs s0 TProc = PHandle → idle_same TProc s s0 → th_queue s0 = th_queue s →
    th_taken s0 = th_taken s → can_reach s0 P) as Hhandle.
  { intros s0 Hp Hi Hq Ht. eapply (reach_step TProc); [rewrite Hp; constructor|reflexivity|].
    apply Hend; [apply goto_same| |done|done].
    eapply idle_same_trans; [exact Hi|by apply idle_same_goto]. }
  assert (idle_same TProc s s) as Hs by done.
  rewrite !elem_of_cons, elem_of_nil in Hin. destruct Hin as [Hp|[Hp|[Hp|[]]]].
  - eapply reach_bind; [apply (acquire_leaf s TProc MState PHandle Hinv); [rewrite Hp; constructor|done]|].
    intros s1 (Hp1 & Hi1 & Hq1 & Ht1). by apply Hhandle.
  - by apply Hhandle.
  - by apply Hend.
Qed.

(** A sender inside the queue's mutex leaves it, its event queued. *)
Lemma finish_send s t :
  lock_inv s → t = TTimer ∨ t = TPath → (∃ e, pcs s t = SHold e) ∨ pcs s t = SPushed →
  can_reach s (λ s', holder s' MQueue = None ∧ idle_same t s s' ∧
    th_taken s' = th_taken s ∧ th_queue s `prefix_of` th_queue s').
Proof.
  intros Hinv Ht Hpc.
  assert (∀ s0, pcs s0 t = SPushed → idle_same t s s0 → th_taken s0 = th_taken s →
    th_queue s `prefix_of` th_queue s0 → can_reach s0 (λ s', holder s' MQueue = None ∧ idle_same t s s' ∧
      th_taken s' = th_taken s ∧ th_queue s `prefix_of` th_queue s')) as Hun.
  { intros s0 Hp Hi Hta Hq. eapply (reach_step t (Unlock MQueue) SNotify); [|reflexivity|].
    - rewrite Hp. destruct Ht as [-> | ->]; constructor.
    - apply reach_now. split; [apply fn_lookup_insert|]. split; [|done].
      eapply idle_same_trans; [exact Hi|by apply idle_same_goto]. }
  destruct Hpc as [[e Hp]|Hp]; [|by apply Hun].
  eapply (reach_step t (Push e) SPushed); [|reflexivity|].
  - rewrite Hp. destruct Ht as [-> | ->]; constructor.
  - apply Hun; [apply goto_same|by apply idle_same_goto|done|by apply prefix_app_r].
Qed.

(** Whoever is inside the queue's mutex leaves it. *)
Lemma free_queue s t :
  threads_inv s → holder s MQueue = Some t →
  can_reach s (λ s', holder s' MQueue = None ∧ idle_same t s s' ∧
    (t ≠ TProc → th_taken s' = th_taken s ∧ th_queue s `prefix_of` th_queue s')).
Proof.
  intros Hinv Hh. apply (ti_lock s Hinv) in Hh. pose proof (ti_pc s Hinv t) as Ho.
  assert (∀ s0, threads_inv s0 → idle_same TProc s s0 → pcs s0 TProc ∈ [PTaken; PHandle; PEnd] →
    can_reach s0 (λ s', holder s' MQueue = None ∧ idle_same TProc s s' ∧
      (TProc ≠ TProc → th_taken s' = th_taken s ∧ th_queue s `prefix_of` th_queue s'))) as Hround.
  { intros s0 Hi0 Hid Hin. eapply reach_bind; [by apply finish_round|].
    intros s1 (H1 & _ & H3 & _). apply reach_now. split; [done|]. split; [|done].
    by eapply idle_same_trans. }
  assert (t = TTimer ∨ t = TPath → (∃ e, pcs s t = SHold e) ∨ pcs s t = SPushed →
    can_reach s (λ s', holder s' MQueue = None ∧ idle_same t s s' ∧
      (t ≠ TProc → th_taken s' = th_taken s ∧ th_queue s `prefix_of` th_queue s'))) as Hsend.
  { intros Ht Hp. eapply reach_bind; [apply (finish_send s t); [apply Hinv|done|done]|].
    intros s1 (H1 & H2 & H3 & H4). by apply reach_now. }
  destruct (pcs s t) eqn:Hpc; try done; destruct t; try done;
    try (by apply Hsend; eauto); try (by apply Hround; [done|done|rewrite Hpc; set_solver]).
  destruct (th_queue s) as [|e q] eqn:Hq.
  - eapply (reach_step TProc); [rewrite Hpc; apply process_wait|simpl; by rewrite Hq|]. apply reach_now.
    split; [apply fn_lookup_insert|]. split; [by apply idle_same_goto|done].
  - assert (perform TProc Pop s = Some (Threads (pcs s) (holder s) q (th_pushed s) (th_taken s ++ [e]))) as Hp.
    { simpl. by rewrite Hq. }
    assert (code TProc (pcs s TProc) Pop PTaken) as Hc by (rewrite Hpc; constructor).
    eapply (reach_step TProc _ _ _ _ _ Hc Hp). rewrite <- Hq in *.
    apply Hround; [|by apply idle_same_goto|rewrite goto_same; set_solver].
    eapply threads_inv_tstep; [|exact Hinv]. apply tstep_run. by eapply run_step_intro.
Qed.

(** A thread that asks for a mutex gets it; the processing thread does with the
    queue at least as it was. *)
Lemma acquire s w m c' :
  threads_inv s → code w (pcs s w) (Lock m) c' →
  can_reach s (λ s', pcs s' w = c' ∧
    (w = TProc → m = MQueue → th_taken s' = th_taken s ∧ th_queue s `prefix_of` th_queue s')).
Proof.
  intros Hinv Hc. destruct (decide (m = MQueue)) as [->|Hm].
  2: { eapply reach_bind; [by apply (acquire_leaf s w m c')|]. intros s' (H1 & _). by apply reach_now. }
  assert (∀ s0, holder s0 MQueue = None → pcs s0 w = pcs s w →
    (w = TProc → th_taken s0 = th_taken s ∧ th_queue s `prefix_of` th_queue s0) →
    can_reach s0 (λ s', pcs s' w = c' ∧
      (w = TProc → MQueue = MQueue → th_taken s' = th_taken s ∧ th_queue s `prefix_of` th_queue s'))) as Hget.
  { intros s0 Hfree Hpc Hq. rewrite <- Hpc in Hc.
    eapply reach_step; [exact Hc|simpl; by rewrite Hfree|]. apply reach_now. split; [apply goto_same|].
    intros Hw _. exact (Hq Hw). }
  destruct (holder s MQueue) as [t|] eqn:Hh; [|by apply Hget].
  assert (w ≠ t) as Hne.
  { intros ->. apply (ti_lock s Hinv) in Hh. by rewrite (lock_outside _ _ _ _ Hc) in Hh. }
  eapply reach_bind; [by eapply free_queue|]. intros s1 (Hfree & Hi & Hq).
  apply Hget; [done| |intros ->; apply Hq; congruence].
  apply Hi; [done|]. intros m. clear -Hc. destruct w; inversion Hc; by destruct m.
Qed.

(** A sender past its push wakes the blocked thread. *)
Lemma wake_up s t :
  t = TTimer ∨ t = TPath → pcs s t = SPushed ∨ pcs s t = SNotify → pcs s TProc = PWait →
  can_reach s (λ s', pcs s' TProc = PRelock ∧ th_taken s' = th_taken s ∧ th_queue s `prefix_of` th_queue s').
Proof.
  intros Ht Hpt Hp.
  assert (t ≠ TProc) as Hne by (by destruct Ht as [-> | ->]).
  assert (∀ s0, pcs s0 t = SNotify → pcs s0 TProc = PWait → th_taken s0 = th_taken s → th_queue s0 = th_queue s →
    can_reach s0 (λ s', pcs s' TProc = PRelock ∧ th_taken s' = th_taken s ∧ th_queue s `prefix_of` th_queue s')) as Hn.
  { intros s0 Hs0 Hw Hta Hq. eapply (reach_step t Notify SIdle); [|reflexivity|].
    - rewrite Hs0. destruct Ht as [-> | ->]; constructor.
    - apply reach_now. rewrite goto_other by done. unfold notify_proc. rewrite Hw, goto_same. simpl.
      by rewrite Hta, Hq. }
  destruct Hpt as [Hpt|Hpt]; [|by apply Hn].
  eapply (reach_step t (Unlock MQueue) SNotify); [|reflexivity|].
  - rewrite Hpt. destruct Ht as [-> | ->]; constructor.
  - apply Hn; [apply goto_same|by rewrite goto_other|done|done].
Qed.

(** * Properties *)

(** C22: the mutexes exclude: in every state the threads can reach, at most one of
    them is inside a critical section of each mutex; the callbacks that read or
    change the state, and the processing, timer and path threads, only do so
    after initialize has returned. *)
Theorem locks_exclusive s :
  threads_reachable s →
  (∀ t1 t2 m, holds (pcs s t1) m = true → holds (pcs s t2) m = true → t1 = t2) ∧
  (∀ n, pcs s (TCall n) = CHold → pcs s TMain = MRun) ∧
  (pcs s TProc ≠ P0 ∨ pcs s TTimer ≠ S0 ∨ pcs s TPath ≠ S0 ∨ th_queue s ≠ [] → pcs s TMain = MRun).
Proof.
  intros Hr. destruct (threads_reachable_inv s Hr) as [Hl _ [Hrun Hreg] Ho _].
  assert (∀ t1 t2 m, holds (pcs s t1) m = true → holds (pcs s t2) m = true → t1 = t2) as Hex.
  { intros t1 t2 m H1 H2. apply Hl in H1, H2. congruence. }
  split; [done|]. pose proof (Ho TMain) as Hown. split.
  - intros n Hn. destruct (pcs s TMain) eqn:Hm; try done; try (rewrite Hreg in Hn; [done|by repeat constructor]).
    assert (TMain = TCall n) by (apply (Hex _ _ MState); [by rewrite Hm|by rewrite Hn]). done.
  - intros Hany. destruct (pcs s TMain) eqn:Hm; try done; exfalso;
      destruct Hrun as (H1 & H2 & H3 & H4); try done; by destruct Hany as [?|[?|[?|?]]].
Qed.

(** C10: no deadlock: whatever the other threads are doing, a thread that asks for
    one of the three mutexes can always go on to get it, and the main thread can
    always finish initialize and start the others. *)
Theorem no_deadlock s :
  threads_reachable s →
  (∀ t m c, code t (pcs s t) (Lock m) c → can_reach s (λ s', pcs s' t = c)) ∧
  can_reach s (λ s', pcs s' TMain = MRun).
Proof.
  intros Hr. pose proof (threads_reachable_inv s Hr) as Hinv.
  assert (∀ s0 t m c, threads_inv s0 → code t (pcs s0 t) (Lock m) c →
    can_reach s0 (λ s', threads_inv s' ∧ pcs s' t = c)) as Hget.
  { intros s0 t m c H0 Hc. apply reach_inv; [done|].
    eapply reach_bind; [by apply (acquire s0 t m c)|]. intros s' [H1 _]. by apply reach_now. }
  split. { intros t m c Hc. eapply reach_bind; [by eapply Hget|]. intros s' [_ H]. by apply reach_now. }
  assert (∀ s0, pcs s0 TMain = M4 → can_reach s0 (λ s', pcs s' TMain = MRun)) as H4.
  { intros s0 Hp. eapply (reach_step TMain); [rewrite Hp; constructor|reflexivity|].
    apply reach_now, goto_same. }
  assert (∀ s0, pcs s0 TMain = M3 → can_reach s0 (λ s', pcs s' TMain = MRun)) as H3.
  { intros s0 Hp. eapply (reach_step TMain); [rewrite Hp; constructor|reflexivity|].
    apply H4, goto_same. }
  assert (∀ s0, threads_inv s0 → pcs s0 TMain = M2 → can_reach s0 (λ s', pcs s' TMain = MRun)) as H2.
  { intros s0 H0 Hp. eapply reach_bind.
    { apply (Hget s0 TMain MState M3 H0). rewrite Hp. constructor. }
    intros s' [_ H]. by apply H3. }
  assert (∀ s0, threads_inv s0 → pcs s0 TMain = M1 → can_reach s0 (λ s', pcs s' TMain = MRun)) as H1.
  { intros s0 H0 Hp. eapply (reach_step TMain); [rewrite Hp; constructor|reflexivity|].
    apply H2; [|apply goto_same]. eapply threads_inv_tstep; [|exact H0].
    apply tstep_run. eapply run_step_intro; [rewrite Hp; constructor|reflexivity]. }
  pose proof (ti_pc s Hinv TMain) as Hown. destruct (pcs s TMain) eqn:Hp; try done; auto.
  - eapply reach_bind; [apply (Hget s TMain MInstance M1 Hinv); rewrite Hp; constructor|].
    intros s' [Hs' H]. by apply H1.
  - by apply reach_now.
Qed.

(** C9: no message is lost and no wake-up is missed: in every reachable state the
    messages taken followed by the queue are the messages sent, in order; and
    when the queue is not empty the processing thread can go on to take its first
    message without a further message and without a spurious wake-up, even when
    it is blocked: then a sender has queued and not yet notified. *)
Theorem queued_message_taken s :
  threads_reachable s →
  th_taken s ++ th_queue s = th_pushed s ∧
  (pcs s TProc = PWait → th_queue s ≠ [] → notify_due s) ∧
  ∀ e q, th_queue s = e :: q → can_reach s (λ s', th_taken s' = th_taken s ++ [e]).
Proof.
  intros Hr. pose proof (threads_reachable_inv s Hr) as Hinv.
  split; [apply Hinv|]. split; [apply Hinv|]. intros e q Hq.
  set (goal := λ s', th_taken s' = th_taken s ++ [e]).
  set (waiting := λ s' : threads, th_taken s' = th_taken s ∧ th_queue s `prefix_of` th_queue s').
  assert (∀ s0, pcs s0 TProc = PTest → waiting s0 → can_reach s0 goal) as Htest.
  { intros s0 Hp [Ht [l Hl]]. rewrite Hq in Hl. simpl in Hl. eapply (reach_step TProc Pop).
    - rewrite Hp. apply process_pop.
    - simpl. by rewrite Hl.
    - apply reach_now. unfold goal. simpl. by rewrite Ht. }
  assert (∀ s0, threads_inv s0 → code TProc (pcs s0 TProc) (Lock MQueue) PTest → waiting s0 → can_reach s0 goal) as Hlock.
  { intros s0 H0 Hc [Ht Hl]. eapply reach_bind; [by apply (acquire s0 TProc MQueue PTest)|].
    intros s1 (Hp & Hw). destruct (Hw eq_refl eq_refl) as [Ht1 Hl1].
    apply Htest; [done|]. split; [congruence|by etrans]. }
  assert (waiting s) as Hs by done.
  assert (pcs s TProc ∈ [PTaken; PHandle; PEnd] → can_reach s goal) as Hround.
  { intros Hin. eapply reach_bind; [by apply reach_inv, finish_round|].
    intros s1 (H1 & _ & Hp & _ & Hq1 & Ht1). apply Hlock; [done|rewrite Hp; constructor|].
    split; [done|by rewrite Hq1]. }
  pose proof (ti_pc s Hinv TProc) as Hown.
  destruct (pcs s TProc) eqn:Hp; try done; try (apply Hround; set_solver).
  - apply (reach_bind s (λ s', threads_inv s' ∧ pcs s' TProc = PLock ∧ waiting s')).
    2: { intros s1 (H1 & Hp1 & Hw). apply Hlock; [done|rewrite Hp1; constructor|done]. }
    assert (pcs s TMain = MRun) as Hm.
    { pose proof (ti_pc s Hinv TMain) as Hm. destruct (pcs s TMain) eqn:Heq; try done;
        destruct (ti_phase s Hinv) as [Hrun _]; rewrite Heq in Hrun;
        destruct Hrun as (_ & _ & _ & ?); congruence. }
    apply reach_inv; [done|]. eapply (reach_step TProc); [rewrite Hp; constructor|simpl; by rewrite Hm|].
    apply reach_now. split; [apply goto_same|done].
  - apply Hlock; [done|rewrite Hp; constructor|done].
  - by apply Htest.
  - destruct (ti_wake s Hinv Hp) as (t & Ht & Hpt); [by rewrite Hq|].
    apply (reach_bind s (λ s', threads_inv s' ∧ pcs s' TProc = PRelock ∧ waiting s')).
    2: { intros s1 (H1 & Hp1 & Hw). apply Hlock; [done|rewrite Hp1; constructor|done]. }
    apply reach_inv; [done|]. by apply (wake_up s t).
  - apply Hlock; [done|rewrite Hp; constructor|done].
Qed.

(** ** Instances *)

(** One step of [t], and the state it leads to. *)
Ltac play t :=
  eapply rtc_l; [apply tstep_run; eapply (run_step_intro _ t); [simpl; constructor|vm_compute; reflexivity]|].

(** The processing thread is blocked, the timer has queued its event and not yet
    notified, the power handler is about to ask for the state. *)
Lemma lock_example :
  ∃ s, threads_reachable s ∧ pcs s TProc = PWait ∧ pcs s TTimer = SPushed ∧
    th_queue s = [eSYSMGR_EVENT_TIMER_EXPIRY] ∧ code (TCall 0) (pcs s (TCall 0)) (Lock MState) CHold.
Proof.
  eexists. split.
  - unfold threads_reachable.
    do 5 play TMain. do 2 play TProc.
    eapply rtc_l; [apply tstep_run; eapply (run_step_intro _ TProc); [apply process_wait|vm_compute; reflexivity]|].
    play TTimer.
    eapply rtc_l; [apply tstep_run; eapply (run_step_intro _ TTimer);
      [apply (send_begin eSYSMGR_EVENT_TIMER_EXPIRY)|vm_compute; reflexivity]|].
    do 2 play TTimer. do 3 play (TCall 0). apply rtc_refl.
  - split_and!; try reflexivity. constructor.
Qed.

Lemma locks_exclusive_witness :
  ∃ s, threads_reachable s ∧ pcs s TTimer = SPushed ∧ pcs s TMain = MRun.
Proof.
  destruct lock_example as (s & Hr & _ & Ht & _). exists s. split; [exact Hr|]. split; [exact Ht|].
  apply (proj2 (proj2 (locks_exclusive s Hr))). right. left. rewrite Ht. discriminate.
Defined.

Lemma no_deadlock_witness :
  ∃ s, threads_reachable s ∧ pcs s TProc = PWait ∧ can_reach s (λ s', pcs s' (TCall 0) = CHold).
Proof.
  destruct lock_example as (s & Hr & Hw & _ & _ & Hc). exists s. split; [exact Hr|]. split; [exact Hw|].
  exact (proj1 (no_deadlock s Hr) (TCall 0) MState CHold Hc).
Defined.

Lemma queued_message_taken_witness :
  ∃ s, threads_reachable s ∧ pcs s TProc = PWait ∧
    can_reach s (λ s', th_taken s' = th_taken s ++ [eSYSMGR_EVENT_TIMER_EXPIRY]).
Proof.
  destruct lock_example as (s & Hr & Hw & _ & Hq & _). exists s. split; [exact Hr|]. split; [exact Hw|].
  exact (proj2 (proj2 (queued_message_taken s Hr)) _ _ Hq).
Defined.
