(* ===== verification/Process.v ===== *)
(** * Process: the steps of the running process

    After [initialize] the process is its threads, the callbacks of the buses and
    the other processes that change files.  [dstep] is one step of any of them:
    the code between taking and releasing the mutexes.  A step is labelled by the
    input of the state machine it consumes, if any; [advances] is what a run on a
    list of inputs makes of the process. *)

From Corelib Require Import SpecFloat.
From S2P Require Import Prelude CString Platform TestEnv Interfaces TimeSync PubSub TimeSrc Factory.
From S2P Require Import SysTimeMgr MgrSpec MgrProps NetworkStatus PowerQueue Daemon Frame.

Section steps.
Context {E : Env} {B : Build}.

(** src: systimemgr.cpp:809-857 SysTimeMgr::powerhandler
    What the power callback does under [g_state_mutex]; the rest of
    [deepsleepoff] runs without it. *)
Definition power_locked (message : string) : M daemon unit :=
  when (bool_decide (message = "DEEP_SLEEP_OFF")) (on_mgr deepsleepoff_locked).

Definition power_inputs (message : string) : list input :=
  if bool_decide (message = "DEEP_SLEEP_OFF") then [IWake] else [].

(** [m_queue_mutex] is held from taking a message to the end of its processing,
    [g_state_mutex] while a handler, the power callback's update or a query
    runs.  The resynchronisation that ends a wake-up and the network procedure
    hold neither, so they may come at any time; so may the attempts of the network
    and the power controller's threads to connect.  Whole says which thread takes
    which of these steps, and when. *)
Inductive dstep : daemon → list input → daemon → Prop :=
  | ds_process val q s s' :
      m_queue s.1 = val :: q → processMsg_round val q s = (Ret tt, s') →
      dstep s [IEvent (sm_event val) (sm_args val)] s'
  | ds_timer s s' : runTimer_round s = (Ret tt, s') → dstep s [] s'
  | ds_scan s s' : runPathMonitor_start s = (Ret tt, s') → dstep s [] s'
  | ds_watch r s s' : runPathMonitor_watch s = (Ret r, s') → dstep s [] s'
  | ds_path r s s' : runPathMonitor_round s = (Ret r, s') → dstep s [] s'
  | ds_iarm id cur new message s s1 s' :
      on_snd (powereventHandler id cur new) s = (Ret (Some (SysTimeMgr_powerhandler, message)), s1) →
      power_locked message s1 = (Ret tt, s') → dstep s (power_inputs message) s'
  | ds_pc this message s s1 s' :
      handler_started s.2.1 this = true →
      on_snd (sysTimeMgrPwrEventHandlingThreadFunc_round this) s = (Ret (Some (SysTimeMgr_powerhandler, message)), s1) →
      power_locked message s1 = (Ret tt, s') → dstep s (power_inputs message) s'
  | ds_pc_none this s s' :
      handler_started s.2.1 this = true →
      on_snd (sysTimeMgrPwrEventHandlingThreadFunc_round this) s = (Ret None, s') → dstep s [] s'
  | ds_pc_push cur new s s' : on_snd (sysTimeMgrPwrEventHandler cur new) s = (Ret tt, s') → dstep s [] s'
  | ds_resync s s' : on_mgr (on_snd deepsleepoff_resync) s = (Ret tt, s') → dstep s [] s'
  | ds_query p r s s' : on_mgr (getTimeStatus p) s = (Ret r, s') → dstep s [IQuery p] s'
  | ds_internet s s' : on_mgr (on_snd processInternetOnline) s = (Ret tt, s') → dstep s [] s'
  | ds_ntp_poll r s s' : on_mgr (on_snd (runNTPSyncMonitor 1 0)) s = (Ret r, s') → dstep s [] s'
  | ds_subscribe r s s' :
      on_mgr (on_snd (sys (ThunderSubscribe "onInternetStatusChange"))) s = (Ret r, s') → dstep s [] s'
  | ds_connect r s s' : on_mgr (on_snd (sysTimeMgrPwrConnectHandlingThreadFunc 1)) s = (Ret r, s') → dstep s [] s'
  | ds_files fs s : dstep s [] (s.1, (s.2.1, World fs (w_trace s.2.2))).

(** Runs of the process. *)
Inductive dexec : daemon → list input → daemon → Prop :=
  | dexec_refl s : dexec s [] s
  | dexec_step s1 is1 s2 is2 s3 : dstep s1 is1 s2 → dexec s2 is2 s3 → dexec s1 (is1 ++ is2) s3.
End steps.

(** The queue messages among the inputs. *)
Definition taken (l : list input) : list sysTimeMsg :=
  omap (λ i, match i with IEvent e args => Some (mkSysTimeMsg e args) | _ => None end) l.

(** A message with its members in range: the character arrays hold a text and its
    NUL, the numbers are values of the two enums. *)
Definition msg_fits (m : TimerMsg) : Prop :=
  (String.length (msg_timerSrc m) < cTIMER_STATUS_MESSAGE_LENGTH)%nat ∧
  (String.length (msg_currentTime m) < cTIMER_STATUS_MESSAGE_LENGTH)%nat ∧
  (String.length (msg_message m) < cTIMER_STATUS_MESSAGE_LENGTH)%nat ∧
  0 ≤ msg_event m ≤ 5 ∧ 0 ≤ msg_quality m ≤ 3.

Lemma notice_fits p s n now : Forall msg_fits (notice_msgs p s n now).
Proof.
  assert (∀ x, (String.length (snprintf_s cTIMER_STATUS_MESSAGE_LENGTH x) < cTIMER_STATUS_MESSAGE_LENGTH)%nat) as Hlen.
  { intros x. pose proof (string_take_length (cTIMER_STATUS_MESSAGE_LENGTH - 1) x).
    unfold snprintf_s, cTIMER_STATUS_MESSAGE_LENGTH in *. lia. }
  destruct p as [[|]|], n as [[ev label]|]; try apply Forall_nil_2. apply Forall_singleton.
  unfold msg_fits, status_msg. simpl msg_event; simpl msg_quality. do 3 (split; [apply Hlen|]).
  split; [by destruct ev|by destruct (s_quality s)].
Qed.

(** What the inputs [l] make of the process: the status of the abstract machine,
    its messages on the bus, the queue used in order and only appended to, the
    tables and the publisher as they were. *)
Record advances (l : list input) (s s' : daemon) : Prop := {
  adv_status : status_of s'.1 = spec_inputs (status_of s.1) l;
  adv_msgs : map msg_core (broadcasts (w_trace s'.2.2))
    = reverse (spec_msgs (m_publish s.1) (status_of s.1) l) ++ map msg_core (broadcasts (w_trace s.2.2));
  adv_queue : ∃ sent, m_queue s.1 ++ sent = taken l ++ m_queue s'.1 ∧ Forall known_msg sent;
  adv_sm : stateMachine s'.1 = stateMachine s.1;
  adv_map : m_pathEventMap s'.1 = m_pathEventMap s.1;
  adv_publish : m_publish s'.1 = m_publish s.1;
  adv_fit : ∃ new, broadcasts (w_trace s'.2.2) = new ++ broadcasts (w_trace s.2.2) ∧ Forall msg_fits new
}.

Lemma spec_inputs_app l1 l2 s : spec_inputs s (l1 ++ l2) = spec_inputs (spec_inputs s l1) l2.
Proof. unfold spec_inputs. by rewrite foldl_app. Qed.

Lemma spec_msgs_app p l1 l2 s :
  spec_msgs p s (l1 ++ l2) = spec_msgs p s l1 ++ spec_msgs p (spec_inputs s l1) l2.
Proof.
  revert s. induction l1 as [|i l1 IH]; intros s; [done|]. simpl. by rewrite IH, app_assoc.
Qed.

Lemma advances_trans l1 l2 s1 s2 s3 : advances l1 s1 s2 → advances l2 s2 s3 → advances (l1 ++ l2) s1 s3.
Proof.
  intros [S1 M1 (q1 & Q1 & K1) T1 P1 B1 (n1 & N1 & F1)] [S2 M2 (q2 & Q2 & K2) T2 P2 B2 (n2 & N2 & F2)].
  split; try congruence.
  - by rewrite spec_inputs_app, <- S1.
  - by rewrite M2, M1, B1, S1, spec_msgs_app, reverse_app, app_assoc.
  - exists (q1 ++ q2). split; [|by apply Forall_app]. unfold taken in *.
    by rewrite app_assoc, Q1, <- app_assoc, Q2, omap_app, app_assoc.
  - exists (n2 ++ n1). rewrite N2, N1, app_assoc. split; [done|by apply Forall_app].
Qed.

(** A quiet step that at most queues messages. *)
Lemma advances_send sent (s s' : daemon) :
  s'.1 = set_queue (m_queue s.1 ++ sent) s.1 → Forall known_msg sent → quiet s.2.2 s'.2.2 →
  advances [] s s'.
Proof.
  intros Hm Hk Hq. destruct s' as [m' bw']. simpl in *. subst m'. split; try done; simpl.
  - by rewrite (broadcasts_quiet _ _ Hq).
  - by exists sent.
  - exists []. rewrite (broadcasts_quiet _ _ Hq). by split; [|apply Forall_nil].
Qed.

Lemma advances_quiet (s s' : daemon) : s'.1 = s.1 → quiet s.2.2 s'.2.2 → advances [] s s'.
Proof.
  intros Hm Hq. apply (advances_send []); [|by apply Forall_nil|done].
  rewrite Hm, app_nil_r. by destruct (s.1).
Qed.

(** A step on one input that does what the abstract machine does. *)
Lemma advances_input i q (s s' : daemon) :
  status_of s'.1 = fst (spec_input (status_of s.1) i) →
  config s'.1 = config (set_queue q s.1) → m_queue s.1 = taken [i] ++ q →
  (∃ now ss, effect (notice_msgs (m_publish s.1) (fst (spec_input (status_of s.1) i))
                       (snd (spec_input (status_of s.1) i)) now) ss s.2.2 s'.2.2) →
  advances [i] s s'.
Proof.
  intros Hs Hc Hq (now & ss & [Hb _]). injection Hc as Hsm Hpm _ Hpub _ _ _ _ Hq'.
  split; try done.
  - rewrite Hb, map_app. simpl. by rewrite app_nil_r, notice_rev, (notice_core _ _ _ now 0).
  - exists []. rewrite app_nil_r, Hq'. by split; [|apply Forall_nil].
  - eexists. split; [exact Hb|]. apply notice_fits.
Qed.

Lemma wp_run {S A} t (m : M S A) (Q : A → S → Prop) s a s' : m s = (Ret a, s') → wp t m Q s → Q a s'.
Proof. intros Hm Hwp. unfold wp in Hwp. by rewrite Hm in Hwp. Qed.

Lemma wp_false_run {S A} (m : M S A) (Q : A → S → Prop) s a s' :
  m s = (Ret a, s') → wp false m Q s → Q a s'.
Proof. intros Hm Hwp. exact (proj1 (wp_partial_run m Q s) Hwp a s' Hm). Qed.

(** The power handler is its locked part, then the resynchronisation after a wake-up. *)
Lemma powerhandler_split {E : Env} {B : Build} message (d : daemon) :
  on_mgr (powerhandler message) d
  = (_ ← power_locked message;
     _ ← when (bool_decide (message = "DEEP_SLEEP_OFF")) (on_mgr (on_snd deepsleepoff_resync));
     mret 1) d.
Proof.
  destruct d as [m [b w]]. unfold powerhandler, power_locked, deepsleepoff, deepsleepon, on_mgr, on_snd, when.
  destruct (decide (message = "DEEP_SLEEP_OFF")) as [->|Hne].
  - rewrite bool_decide_eq_true_2, (bool_decide_eq_false_2 ("DEEP_SLEEP_OFF" = "DEEP_SLEEP_ON")) by done.
    unfold mbind, M_bind. simpl. destruct (deepsleepoff_locked (m, w)) as [[[]|e|] [m1 w1]]; simpl; [|done|done].
    by destruct (deepsleepoff_resync w1) as [[[]|e|] w2].
  - rewrite (bool_decide_eq_false_2 (message = "DEEP_SLEEP_OFF")) by done.
    unfold mbind, M_bind. simpl. by destruct (bool_decide (message = "DEEP_SLEEP_ON")).
Qed.

(** ** What the callbacks of the power buses leave alone *)

Section power_facts.
Context {E : Env} {B : Build}.

Lemma invokepowerhandler_keeps {C} (f : bus * world → C) h text : keeps f (invokepowerhandler h text).
Proof. by destruct h. Qed.
Hint Resolve invokepowerhandler_keeps : keeps.

Lemma powereventHandler_keeps {C} (f : bus * world → C) id cur new : keeps f (powereventHandler id cur new).
Proof. unfold powereventHandler, getInstance. keep. Qed.

Lemma pwr_event_keeps {C} (f : bus * world → C) cur new : keeps f (sysTimeMgrHandlePwrEventData cur new).
Proof. unfold sysTimeMgrHandlePwrEventData, getInstance. keep. Qed.

Lemma pwr_round_keeps this : keeps (λ bw : bus * world, bw.2) (sysTimeMgrPwrEventHandlingThreadFunc_round this).
Proof.
  unfold sysTimeMgrPwrEventHandlingThreadFunc_round, put_subscriber.
  keep; apply pwr_event_keeps.
Qed.

Lemma pwr_push_keeps cur new : keeps (λ bw : bus * world, bw.2) (sysTimeMgrPwrEventHandler cur new).
Proof. unfold sysTimeMgrPwrEventHandler, getInstance, put_subscriber. keep. Qed.

(** A computation on the buses that makes no call. *)
Lemma on_bus_same {A} (c : M (bus * world) A) r (s s' : daemon) :
  keeps (λ bw : bus * world, bw.2) c → on_snd c s = (r, s') → s'.1 = s.1 ∧ s'.2.2 = s.2.2.
Proof.
  intros Hc Hr. destruct s as [m bw]. unfold on_snd in Hr. specialize (Hc bw). simpl in *.
  destruct (c bw) as [o bw']. by injection Hr as <- <-.
Qed.
End power_facts.

(** ** The steps

    With [t = true] the statements also say that the computation returns, and
    that the plugins have fuel left. *)

Section steps.
Context {E : Env} {B : Build} (t : bool).

Lemma report_offset_quiet (w : world) : wp t report_offset (λ _ w', quiet w w') w.
Proof.
  unfold report_offset. apply wp_bind, wp_sys. case_bool_decide; [|apply wp_ret; eauto with quiet].
  apply wp_when; intros _; [apply wp_sys_unit|]; eauto with quiet.
Qed.

Lemma wp_sendMessage e (Q : unit → daemon → Prop) (s : daemon) :
  Q tt (set_queue (m_queue s.1 ++ [mkSysTimeMsg e None]) s.1, s.2) → wp t (on_mgr (sendMessage e None)) Q s.
Proof. intros HQ. destruct s as [m [b w]]. apply wp_on_mgr, wp_modify. exact HQ. Qed.

Lemma known_path fName e : path_find fName path_events = Some e → known_msg (mkSysTimeMsg e None).
Proof.
  unfold path_events. simpl. intros H. split; [done|].
  repeat case_bool_decide; simplify_eq; set_solver.
Qed.

Lemma scan_advances l (s : daemon) :
  Forall (λ ne, known_msg (mkSysTimeMsg ne.2 None)) l → wp t (path_scan l) (λ _ s', advances [] s s') s.
Proof.
  intros Hl. revert s. induction Hl as [|[n e] l Hk Hl IH]; intros s.
  { apply wp_ret. by apply advances_quiet. }
  simpl. apply wp_bind. destruct s as [m [b w]].
  apply wp_on_mgr, wp_on_snd. simpl.
  assert (∀ r w1, quiet w w1 → wp t (_ ← when (bool_decide (is_Some (r : option string)))
      (on_mgr (sendMessage e None)); path_scan l) (λ _ s', advances [] (m, (b, w)) s') (m, (b, w1))) as Hrest.
  { intros r w1 Hq. apply wp_bind, wp_when; intros _.
    - apply wp_sendMessage. eapply wp_mono; [apply IH|]. intros [] s' Hadv. simpl in Hadv.
      eapply (advances_trans [] []); [|exact Hadv].
      apply (advances_send [mkSysTimeMsg e None]); [done| |done]. by apply Forall_cons; split; [|apply Forall_nil].
    - eapply wp_mono; [apply IH|]. intros [] s' Hadv.
      eapply (advances_trans [] []); [|exact Hadv]. by apply advances_quiet. }
  apply wp_read_file; [intros w1 Hq _; exact (Hrest _ w1 Hq)|].
  intros h w1 _ Hq _. exact (Hrest None w1 Hq).
Qed.

Lemma internet_quiet (w : world) : wp t processInternetOnline (λ _ w', quiet w w') w.
Proof.
  unfold processInternetOnline, file_exists. apply wp_bind, wp_gets. simpl. destruct (negb _).
  - unfold first_sync_pending. apply wp_bind, wp_sys. destruct (negb _); [apply wp_ret; eauto with quiet|].
    apply wp_bind, wp_sys. destruct (negb _); [apply wp_ret; eauto with quiet|].
    case_bool_decide; [apply wp_ret; eauto with quiet|]. apply wp_bind, wp_sys, wp_ret. eauto 6 with quiet.
  - unfold resync. apply wp_bind, wp_sys. destruct (negb _).
    + apply wp_bind, wp_sys, wp_bind, wp_sys. destruct (negb _); [apply wp_ret; eauto 6 with quiet|].
      apply wp_bind, wp_sys, wp_ret. eauto 7 with quiet.
    + apply wp_bind, wp_sys. destruct (SFltb _ _); [|apply wp_ret; eauto with quiet].
      apply wp_bind, wp_sys, wp_ret. eauto 6 with quiet.
Qed.

Lemma ntp_poll_quiet (w : world) : wp t (runNTPSyncMonitor 1 0) (λ _ w', quiet w w') w.
Proof.
  unfold runNTPSyncMonitor, ntp_artefacts. apply wp_bind, wp_sys. destruct (kernel_synced _); [|apply wp_ret; eauto with quiet].
  set (w0 := log _ w). assert (quiet w w0) as H0 by (unfold w0; eauto with quiet). clearbody w0.
  apply wp_bind, wp_bind, wp_notifypathAvailable. intros w1 H1 _.
  assert (∀ w2, quiet w w2 → wp t (_ ← report_offset; mret (Some 1%nat)) (λ _ w', quiet w w') w2) as Hend.
  { intros w2 H2. apply wp_bind. eapply wp_mono; [apply report_offset_quiet|]. intros [] w3 H3. apply wp_ret.
    by etrans. }
  assert (∀ w2, quiet w w2 → wp t (_ ← write_file "/tmp/ntp_status" ("Synchronized" +:+ newline); mret tt)
     (λ _ w', wp t (_ ← report_offset; mret (Some 1%nat)) (λ _ w', quiet w w') w') w2) as Hw.
  { intros w2 H2. apply wp_bind, wp_write_file.
    - intros h n mt w3 _ H3 _. apply wp_ret, Hend. by etrans.
    - intros h w3 _ H3 _. apply wp_ret, Hend. by etrans. }
  apply wp_bind, wp_create_file.
  - intros mt w2 H2 _. apply Hw. do 2 (etrans; [eassumption|]). done.
  - intros w2 H2 _. apply Hw. do 2 (etrans; [eassumption|]). done.
Qed.

Lemma connect_quiet (w : world) : wp t (sysTimeMgrPwrConnectHandlingThreadFunc 1) (λ _ w', quiet w w') w.
Proof.
  simpl. apply wp_bind, wp_sys. case_bool_decide; [|apply wp_ret; eauto with quiet].
  apply wp_bind, wp_sys, wp_ret. eauto with quiet.
Qed.

Context (HE : t = true → SaneEnv E).
Context {HSrc : ITimeSrcSpec t TimeSrcObj} {HSync : ITimeSyncSpec t TimeSyncObj}.

(** A step on the inputs [l] that leaves fuel for [n] more events. *)
Definition adv (n : nat) (l : list input) (s s' : daemon) : Prop :=
  advances l s s' ∧ (t = true → healthy t n s'.1).

Lemma healthy_parts n (m m' : mgr TimeSrcObj TimeSyncObj) :
  (m_timerSrc m', m_timerSync m', m_publish m') = (m_timerSrc m, m_timerSync m, m_publish m) →
  healthy t n m → healthy t n m'.
Proof. intros [= H1 H2 H3]. unfold healthy. by rewrite H1, H2, H3. Qed.

(** A quiet step keeps the fuel. *)
Lemma wp_quiet_step {A} n (m : M daemon A) (s : daemon) :
  keeps (λ s : daemon, (m_timerSrc s.1, m_timerSync s.1, m_publish s.1)) m →
  wp t m (λ _ s', advances [] s s') s → (t = true → healthy t n s.1) → wp t m (λ _ s', adv n [] s s') s.
Proof.
  intros Hk Hwp Hok. eapply wp_mono; [apply (wp_keeps t _ m _ s Hk Hwp)|]. intros a s' [Ha Hs'].
  split; [done|]. intros Ht. by apply (healthy_parts n s.1), Hok.
Qed.

(** A step outside the object, by calls only. *)
Lemma outside_step {A} n (c : M world A) (s : daemon) :
  (∀ w, wp t c (λ _ w', quiet w w') w) → (t = true → healthy t n s.1) →
  wp t (on_mgr (on_snd c)) (λ _ s', adv n [] s s') s.
Proof.
  intros Hc Hok. destruct s as [m [b w]]. apply wp_on_mgr, wp_on_snd. simpl.
  eapply wp_mono; [apply Hc|]. intros a w' Hq. split; [by apply advances_quiet|exact Hok].
Qed.

Lemma process_step n val q (s : daemon) :
  stateMachine s.1 = fill_stateMachine ∅ → m_queue s.1 = val :: q → (t = true → healthy t (2 + n) s.1) →
  wp t (processMsg_round val q) (λ _ s', adv n [IEvent (sm_event val) (sm_args val)] s s') s.
Proof.
  intros Hsm Hq Hok. destruct s as [m [b w]].
  unfold processMsg_round. apply wp_bind, wp_on_mgr, wp_modify, wp_on_mgr. simpl.
  eapply wp_mono; [by apply (wp_runStateMachine t HE n)|].
  intros [] [m' w'] (Hs & _ & Hc & (now & ss & Heff & _) & Hok'). simpl in *. split; [|exact Hok'].
  apply (advances_input _ q); [exact Hs|exact Hc|by destruct val|]. exists now, ss. exact Heff.
Qed.

Lemma wake_step n message (s : daemon) :
  (t = true → healthy t n s.1) →
  wp t (power_locked message) (λ _ s', adv n (power_inputs message) s s') s.
Proof.
  intros Hok. destruct s as [m [b w]]. unfold power_locked, power_inputs.
  apply wp_when; intros ->; [|split; [by apply advances_quiet|exact Hok]].
  apply wp_on_mgr. simpl. eapply wp_mono; [by apply (wp_deepsleepoff_locked t HE n)|].
  intros [] [m' w'] (Hs & _ & Hc & (now & ss & Heff & _) & Hok'). simpl in *. split; [|exact Hok'].
  apply (advances_input _ (m_queue m)); [exact Hs|by destruct m|done|]. exists now, ss. exact Heff.
Qed.

Lemma query_step n p (s : daemon) :
  (t = true → healthy t n s.1) → wp t (on_mgr (getTimeStatus p)) (λ _ s', adv n [IQuery p] s s') s.
Proof.
  intros Hok. destruct s as [m [b w]].
  apply wp_on_mgr, (wp_getTimeStatus t HE). intros now w' _ Hq _. simpl. split; [|exact Hok].
  apply (advances_input _ (m_queue m)); [done|by destruct m|done|]. exists 0, []. simpl.
  assert (notice_msgs (m_publish m) (status_of m) None 0 = []) as -> by (by destruct (m_publish m) as [[]|]).
  by apply effect_quiet.
Qed.

Lemma timer_step n (s : daemon) :
  (t = true → healthy t n s.1) → wp t runTimer_round (λ _ s', adv n [] s s') s.
Proof.
  intros Hok. apply wp_quiet_step; [by apply (runTimer_round_keeps (λ m, (m_timerSrc m, m_timerSync m, m_publish m)))| |done].
  destruct s as [m [b w]]. clear Hok.
  assert (∀ w1, quiet w w1 → wp t (on_mgr (sendMessage eSYSMGR_EVENT_TIMER_EXPIRY None))
    (λ _ s', advances [] (m, (b, w)) s') (m, (b, w1))) as Hsend.
  { intros w1 Hq. apply wp_sendMessage. apply (advances_send [mkSysTimeMsg eSYSMGR_EVENT_TIMER_EXPIRY None]); [done| |done].
    apply Forall_cons. split; [|by apply Forall_nil]. split; [done|]. set_solver. }
  unfold runTimer_round. apply wp_bind, wp_gets, wp_bind, wp_when; intros _; [|by apply Hsend].
  apply wp_on_mgr, wp_on_snd. simpl. eapply wp_mono; [apply report_offset_quiet|]. intros [] w1 Hq. by apply Hsend.
Qed.

Lemma path_step n (s : daemon) :
  m_pathEventMap s.1 = path_events → (t = true → healthy t n s.1) →
  wp t runPathMonitor_round (λ _ s', adv n [] s s') s.
Proof.
  intros Hmap Hok.
  apply wp_quiet_step; [by apply (runPathMonitor_round_keeps (λ m, (m_timerSrc m, m_timerSync m, m_publish m)))| |done].
  destruct s as [m [b w]]. simpl in Hmap. unfold runPathMonitor_round.
  apply wp_bind, wp_on_mgr, wp_on_snd, wp_sys. simpl.
  assert (advances [] (m, (b, w)) (m, (b, log (Ev InotifyRead (answer (w_trace w) InotifyRead)) w))) as Hsame.
  { apply advances_quiet; [done|]. simpl. eauto with quiet. }
  destruct (answer (w_trace w) InotifyRead) as [buffer|]; [|by apply wp_ret].
  apply wp_bind, wp_gets. simpl. rewrite Hmap. apply wp_bind.
  destruct (buffer_event path_events buffer) as [e|] eqn:He; [|by apply wp_ret, wp_ret].
  apply wp_sendMessage. apply wp_ret. simpl.
  apply (advances_send [mkSysTimeMsg e None]); [done| |simpl; eauto with quiet].
  apply Forall_cons. split; [|by apply Forall_nil].
  unfold buffer_event in He. destruct buffer as [|pe buffer]; [done|]. case_bool_decide; [done|].
  by eapply known_path.
Qed.

Lemma watch_step n (s : daemon) :
  (t = true → healthy t n s.1) → wp t runPathMonitor_watch (λ _ s', adv n [] s s') s.
Proof.
  intros Hok. apply wp_quiet_step; [by apply (runPathMonitor_watch_keeps (λ m, (m_timerSrc m, m_timerSync m, m_publish m)))| |done].
  destruct s as [m [b w]]. unfold runPathMonitor_watch.
  apply wp_bind, wp_on_mgr, wp_on_snd, wp_sys. simpl.
  case_bool_decide; [apply wp_ret, advances_quiet; simpl; eauto with quiet|].
  apply wp_bind, wp_on_mgr, wp_on_snd, wp_sys, wp_ret, advances_quiet; simpl; eauto with quiet.
Qed.

Lemma scan_step n (s : daemon) :
  m_pathEventMap s.1 = path_events → (t = true → healthy t n s.1) →
  wp t runPathMonitor_start (λ _ s', adv n [] s s') s.
Proof.
  intros Hmap Hok. unfold runPathMonitor_start. apply wp_bind, wp_gets. rewrite Hmap.
  apply wp_quiet_step; [by apply (path_scan_keeps (λ m, (m_timerSrc m, m_timerSync m, m_publish m)))| |done].
  apply scan_advances. repeat (apply Forall_cons; split; [split; [done|set_solver]|]). by apply Forall_nil.
Qed.

Lemma run_adv {A} n l (m : M daemon A) a s0 (s s' : daemon) :
  m s = (Ret a, s') → wp t m (λ _ s', adv n l s0 s') s → adv n l s0 s'.
Proof. apply (wp_run t m (λ _ s', adv n l s0 s')). Qed.

(** A callback that calls the power handler: the bus changes, then the object. *)
Lemma power_step n message (s s1 s' : daemon) :
  s1.1 = s.1 → s1.2.2 = s.2.2 → (t = true → healthy t n s.1) →
  power_locked message s1 = (Ret tt, s') → adv n (power_inputs message) s s'.
Proof.
  intros Hm Hw Hok Hr.
  assert (adv n (power_inputs message) s1 s') as [[A1 A2 A3 A4 A5 A6 A7] Hok'].
  { eapply run_adv; [exact Hr|]. apply wake_step. by rewrite Hm. }
  split; [|done]. rewrite Hm, ?Hw in *. by split.
Qed.

(** Every step does what the abstract machine does on its label, and uses two
    units of fuel for every input. *)
Lemma dstep_adv n l (s s' : daemon) :
  stateMachine s.1 = fill_stateMachine ∅ → m_pathEventMap s.1 = path_events →
  (t = true → healthy t (2 * length l + n) s.1) → dstep s l s' → adv n l s s'.
Proof.
  intros Hsm Hmap Hok Hstep.
  assert (t = true → healthy t n s.1) as Hok0 by (intros Ht; eapply healthy_le; [|exact (Hok Ht)]; lia).
  destruct Hstep as [val q s s' Hq Hr|s s' Hr|s s' Hr|r s s' Hr|r s s' Hr|id cur new msg s s1 s' Hc Hr
    |this msg s s1 s' _ Hc Hr|this s s' _ Hc|cur new s s' Hc|s s' Hr|p r s s' Hr|s s' Hr|r s s' Hr|r s s' Hr|r s s' Hr|fs s].
  - eapply run_adv; [exact Hr|]. by apply process_step.
  - eapply run_adv; [exact Hr|]. by apply timer_step.
  - eapply run_adv; [exact Hr|]. by apply scan_step.
  - eapply run_adv; [exact Hr|]. by apply watch_step.
  - eapply run_adv; [exact Hr|]. by apply path_step.
  - apply on_bus_same in Hc as [Hm Hw]; [|apply powereventHandler_keeps]. by apply (power_step n msg s s1).
  - apply on_bus_same in Hc as [Hm Hw]; [|apply pwr_round_keeps]. by apply (power_step n msg s s1).
  - apply on_bus_same in Hc as [Hm Hw]; [|apply pwr_round_keeps].
    split; [apply advances_quiet; [done|by rewrite Hw]|by rewrite Hm].
  - apply on_bus_same in Hc as [Hm Hw]; [|apply pwr_push_keeps].
    split; [apply advances_quiet; [done|by rewrite Hw]|by rewrite Hm].
  - eapply run_adv; [exact Hr|]. apply outside_step; [|done]. intros w. by apply wp_deepsleepoff_resync.
  - eapply run_adv; [exact Hr|]. by apply query_step.
  - eapply run_adv; [exact Hr|]. apply outside_step; [apply internet_quiet|done].
  - eapply run_adv; [exact Hr|]. apply outside_step; [apply ntp_poll_quiet|done].
  - eapply run_adv; [exact Hr|]. apply outside_step; [|done]. intros w. apply wp_sys. eauto with quiet.
  - eapply run_adv; [exact Hr|]. apply outside_step; [apply connect_quiet|done].
  - split; [apply advances_quiet; [done|by exists []]|done].
Qed.

Lemma dexec_adv n l (s s' : daemon) :
  stateMachine s.1 = fill_stateMachine ∅ → m_pathEventMap s.1 = path_events →
  (t = true → healthy t (2 * length l + n) s.1) → dexec s l s' → adv n l s s'.
Proof.
  intros Hsm Hmap Hok Hexec. induction Hexec as [s|s1 l1 s2 l2 s3 Hstep _ IH].
  { split; [by apply advances_quiet|exact Hok]. }
  assert (adv (2 * length l2 + n) l1 s1 s2) as [Hadv Hok2].
  { apply dstep_adv; try done. intros Ht. eapply healthy_le; [|exact (Hok Ht)]. rewrite length_app. lia. }
  destruct IH as [Hadv2 Hok3]; [by rewrite (adv_sm _ _ _ Hadv)|by rewrite (adv_map _ _ _ Hadv)|done|].
  split; [by eapply advances_trans|done].
Qed.
End steps.

Section runs.
Context {E : Env} {B : Build}.
#[local] Instance src_partial : ITimeSrcSpec false TimeSrcObj := TimeSrcObj_spec false never never.
#[local] Instance sync_partial : ITimeSyncSpec false TimeSyncObj := TimeSyncObj_spec false never never.

Lemma dexec_advances l (s s' : daemon) :
  stateMachine s.1 = fill_stateMachine ∅ → m_pathEventMap s.1 = path_events → dexec s l s' → advances l s s'.
Proof. intros Hsm Hmap Hexec. by destruct (dexec_adv false never 0 l s s' Hsm Hmap never Hexec). Qed.

Lemma Forall_taken (P : sysTimeMsg → Prop) q sent tk rest :
  q ++ sent = tk ++ rest → Forall P q → Forall P sent → Forall P (tk ++ rest).
Proof. intros <- Hq Hs. by apply Forall_app. Qed.

Lemma dexec_inv l (s s' : daemon) : dexec s l s' → daemon_inv s → daemon_inv s'.
Proof.
  intros Hexec (Hsm & Hmap & Hst & Hinv & Hq).
  destruct (dexec_advances l s s' Hsm Hmap Hexec) as [Hs _ (sent & Hsent & Hk) Hsm' Hmap' _].
  split; [congruence|]. split; [congruence|]. split; [|split].
  - assert (s_state (status_of s'.1) = m_state s'.1) as <- by done. rewrite Hs.
    clear -Hst. assert (s_state (status_of s.1) ≠ eSYSMGR_STATE_INIT) as H by done. revert H.
    generalize (status_of s.1). induction l as [|i l IH]; intros st H; [done|]. simpl. apply IH.
    destruct st as [[] q src]; try done; destruct i as [[]| |]; simpl; try done; by destruct q.
  - rewrite Hs. by apply spec_inputs_inv.
  - by apply (Forall_taken known_msg _ _ _ _ Hsent Hq) in Hk as [_ ?]%Forall_app.
Qed.

(** *** The power subscriber *)

Lemma on_mgr_bus {A} (m : M (mgr TimeSrcObj TimeSyncObj * world) A) : keeps (λ s : daemon, s.2.1) (on_mgr m).
Proof. intros [g [b w]]. unfold on_mgr. simpl. by destruct (m (g, w)) as [r [g' w']]. Qed.
Hint Resolve on_mgr_bus : keeps.

Lemma path_scan_bus l : keeps (λ s : daemon, s.2.1) (path_scan l).
Proof. induction l as [|[n e] l IH]; [done|]. simpl. keep. Qed.

(** Replacing the queue of the subscriber keeps it ready. *)
Lemma power_ready_queue (b : bus) i (o : PowerController) q :
  b_objs b !! i = Some (IpowerControllerSubscriber o) → power_ready b →
  power_ready (Bus (<[i := IpowerControllerSubscriber (with_queue q o)]> (b_objs b)) (b_pInstance b)).
Proof.
  intros Ho Hr Hd. destruct (Hr Hd) as (s & Hs & Hh & Hc). unfold instance in *. simpl.
  destruct (b_pInstance b) as [j|]; [|done]. simpl in *. destruct (decide (i = j)) as [->|Hne].
  2:{ rewrite list_lookup_insert_ne by done. by exists s. }
  rewrite Ho in Hs. injection Hs as <-. exists (IpowerControllerSubscriber (with_queue q o)).
  split; [by apply list_lookup_insert_eq, (lookup_lt_Some _ _ _ Ho)|]. split; [done|].
  unfold power_class in *. destruct PWRMGRPLUGIN_ENABLED; [by eexists|]. by destruct Hc as (n & h & ?).
Qed.

Lemma pwr_round_ready this (bw : bus * world) :
  power_ready bw.1 → power_ready (sysTimeMgrPwrEventHandlingThreadFunc_round this bw).2.1.
Proof.
  intros Hr. destruct bw as [b w].
  unfold sysTimeMgrPwrEventHandlingThreadFunc_round, mbind, M_bind, gets. simpl.
  destruct (b_objs b !! this) as [[n|n|n h|o]|] eqn:Ho; simpl; try done.
  destruct (pc_pwrEvtQueue o) as [|[cur new] q]; simpl; [done|].
  rewrite (pwr_event_keeps (λ bw : bus * world, bw.1)). simpl. by apply power_ready_queue.
Qed.

Lemma pwr_push_ready cur new (bw : bus * world) :
  power_ready bw.1 → power_ready (sysTimeMgrPwrEventHandler cur new bw).2.1.
Proof.
  intros Hr. destruct bw as [b w]. unfold sysTimeMgrPwrEventHandler, getInstance, mbind, M_bind, gets. simpl.
  destruct (b_pInstance b) as [i|] eqn:Hi; simpl; [|done].
  destruct (b_objs b !! i) as [[n|n|n h|o]|] eqn:Ho; simpl; try done.
  by apply power_ready_queue.
Qed.

Lemma keeps_run {S A C} (f : S → C) (m : M S A) r s s' : keeps f m → m s = (r, s') → f s' = f s.
Proof. intros Hk Hr. specialize (Hk s). by rewrite Hr in Hk. Qed.

Lemma on_snd_run {O W A} (m : M W A) r (s s' : O * W) : on_snd m s = (r, s') → m s.2 = (r, s'.2).
Proof. unfold on_snd. destruct (m s.2) as [x w]. by intros [= <- <-]. Qed.

Lemma power_locked_bus message : keeps (λ s : daemon, s.2.1) (power_locked message).
Proof. unfold power_locked. keep. Qed.
Lemma bus_run {A} (m : M daemon A) r (s s' : daemon) :
  keeps (λ s : daemon, s.2.1) m → m s = (r, s') → s'.2.1 = s.2.1.
Proof. apply (keeps_run (λ s : daemon, s.2.1)). Qed.

Lemma dstep_power_ready l (s s' : daemon) : dstep s l s' → power_ready s.2.1 → power_ready s'.2.1.
Proof.
  intros Hstep Hr.
  destruct Hstep as [val q s s' Hq Hc|s s' Hc|s s' Hc|r s s' Hc|r s s' Hc|id cur new msg s s1 s' Hc Hp
    |this msg s s1 s' _ Hc Hp|this s s' _ Hc|cur new s s' Hc|s s' Hc|p r s s' Hc|s s' Hc|r s s' Hc|r s s' Hc|r s s' Hc|fs s].
  - refine (eq_ind_r power_ready Hr (keeps_run (λ s : daemon, s.2.1) _ _ _ _ _ Hc)). unfold processMsg_round; keep.
  - refine (eq_ind_r power_ready Hr (keeps_run (λ s : daemon, s.2.1) _ _ _ _ _ Hc)). unfold runTimer_round; keep.
  - refine (eq_ind_r power_ready Hr (keeps_run (λ s : daemon, s.2.1) _ _ _ _ _ Hc)). unfold runPathMonitor_start; keep; apply path_scan_bus.
  - refine (eq_ind_r power_ready Hr (keeps_run (λ s : daemon, s.2.1) _ _ _ _ _ Hc)). unfold runPathMonitor_watch; keep.
  - refine (eq_ind_r power_ready Hr (keeps_run (λ s : daemon, s.2.1) _ _ _ _ _ Hc)). unfold runPathMonitor_round; keep.
  - rewrite (bus_run (power_locked msg) _ _ _ (power_locked_bus msg) Hp).
    apply on_snd_run in Hc. by rewrite (keeps_run (λ bw, bw) _ _ _ _ (powereventHandler_keeps (λ bw, bw) _ _ _) Hc).
  - rewrite (bus_run (power_locked msg) _ _ _ (power_locked_bus msg) Hp).
    apply on_snd_run in Hc. pose proof (pwr_round_ready this s.2 Hr) as H. by rewrite Hc in H.
  - apply on_snd_run in Hc. pose proof (pwr_round_ready this s.2 Hr) as H. by rewrite Hc in H.
  - apply on_snd_run in Hc. pose proof (pwr_push_ready cur new s.2 Hr) as H. by rewrite Hc in H.
  - by rewrite (keeps_run (λ s : daemon, s.2.1) _ _ _ _ (on_mgr_bus _) Hc).
  - by rewrite (keeps_run (λ s : daemon, s.2.1) _ _ _ _ (on_mgr_bus _) Hc).
  - by rewrite (keeps_run (λ s : daemon, s.2.1) _ _ _ _ (on_mgr_bus _) Hc).
  - by rewrite (keeps_run (λ s : daemon, s.2.1) _ _ _ _ (on_mgr_bus _) Hc).
  - by rewrite (keeps_run (λ s : daemon, s.2.1) _ _ _ _ (on_mgr_bus _) Hc).
  - by rewrite (keeps_run (λ s : daemon, s.2.1) _ _ _ _ (on_mgr_bus _) Hc).
  - done.
Qed.

Lemma dexec_power_ready l (s s' : daemon) : dexec s l s' → power_ready s.2.1 → power_ready s'.2.1.
Proof. induction 1 as [|s1 l1 s2 l2 s3 Hstep _ IH]; [done|]. intros Hr. by eapply IH, dstep_power_ready. Qed.

(** *** The classes of the objects *)

Lemma constant_queue q (m : mgr TimeSrcObj TimeSyncObj) : constant (set_queue q m) = constant m.
Proof. done. Qed.

Lemma dstep_constant l (s s' : daemon) : dstep s l s' → constant s'.1 = constant s.1.
Proof.
  assert (∀ A (c : M (bus * world) A), keeps (λ s : daemon, constant s.1) (on_snd c)) as Hbus.
  { intros A c. apply (on_bus_keeps constant). }
  assert (∀ A (c : M world A), keeps (λ s : daemon, constant s.1) (on_mgr (on_snd c))) as Hout.
  { intros A c. apply (on_mgr_outside_keeps constant). }
  assert (∀ message, keeps (λ s : daemon, constant s.1) (power_locked message)) as Hpow.
  { intros message. unfold power_locked. apply keeps_when, (on_mgr_keeps constant), deepsleepoff_locked_keeps. }
  intros Hstep.
  destruct Hstep as [val q s s' Hq Hc|s s' Hc|s s' Hc|r s s' Hc|r s s' Hc|id cur new msg s s1 s' Hc Hp
    |this msg s s1 s' _ Hc Hp|this s s' _ Hc|cur new s s' Hc|s s' Hc|p r s s' Hc|s s' Hc|r s s' Hc|r s s' Hc|r s s' Hc|fs s].
  - exact (keeps_run (λ s : daemon, constant s.1) _ _ _ _ (processMsg_round_keeps val q) Hc).
  - exact (keeps_run (λ s : daemon, constant s.1) _ _ _ _ (runTimer_round_keeps constant constant_queue) Hc).
  - refine (keeps_run (λ s : daemon, constant s.1) _ _ _ _ _ Hc). unfold runPathMonitor_start.
    apply keeps_bind; [apply keeps_gets|intros map]. apply (path_scan_keeps constant constant_queue).
  - exact (keeps_run (λ s : daemon, constant s.1) _ _ _ _ (runPathMonitor_watch_keeps constant constant_queue) Hc).
  - exact (keeps_run (λ s : daemon, constant s.1) _ _ _ _ (runPathMonitor_round_keeps constant constant_queue) Hc).
  - etrans; [exact (keeps_run (λ s : daemon, constant s.1) _ _ _ _ (Hpow msg) Hp)|].
    exact (keeps_run (λ s : daemon, constant s.1) _ _ _ _ (Hbus _ _) Hc).
  - etrans; [exact (keeps_run (λ s : daemon, constant s.1) _ _ _ _ (Hpow msg) Hp)|].
    exact (keeps_run (λ s : daemon, constant s.1) _ _ _ _ (Hbus _ _) Hc).
  - exact (keeps_run (λ s : daemon, constant s.1) _ _ _ _ (Hbus _ _) Hc).
  - exact (keeps_run (λ s : daemon, constant s.1) _ _ _ _ (Hbus _ _) Hc).
  - exact (keeps_run (λ s : daemon, constant s.1) _ _ _ _ (Hout _ _) Hc).
  - exact (keeps_run (λ s : daemon, constant s.1) _ _ _ _ (on_mgr_keeps constant _ (getTimeStatus_keeps p)) Hc).
  - exact (keeps_run (λ s : daemon, constant s.1) _ _ _ _ (Hout _ _) Hc).
  - exact (keeps_run (λ s : daemon, constant s.1) _ _ _ _ (Hout _ _) Hc).
  - exact (keeps_run (λ s : daemon, constant s.1) _ _ _ _ (Hout _ _) Hc).
  - exact (keeps_run (λ s : daemon, constant s.1) _ _ _ _ (Hout _ _) Hc).
  - done.
Qed.

Lemma dexec_constant l (s s' : daemon) : dexec s l s' → constant s'.1 = constant s.1.
Proof. induction 1 as [|s1 l1 s2 l2 s3 Hstep _ IH]; [done|]. rewrite IH. by eapply dstep_constant. Qed.
End runs.
