(* ===== verification/Effects.v ===== *)
(** * Effects: the message queue and the clock, step by step

    What each operation of the process does, exactly, to the two things several
    threads share the use of: the queue of messages, and the system clock as far as
    the daemon sets it itself.  Whole adds them up over the runs of the process. *)

From Corelib Require Import SpecFloat.
From S2P Require Import Prelude CString Platform TestEnv Interfaces TimeSync PubSub TimeSrc Factory.
From S2P Require Import SysTimeMgr MgrSpec MgrProps NetworkStatus PowerQueue Daemon Frame Process.

Section effects.
Context {E : Env} {B : Build}.
#[local] Instance src_any : ITimeSrcSpec false TimeSrcObj := TimeSrcObj_spec false never never.
#[local] Instance sync_any : ITimeSyncSpec false TimeSyncObj := TimeSyncObj_spec false never never.

(** ** What the environment announces *)

(** The message of an event, as the senders make it. *)
Definition plain_msg (e : sysTimeMgrEvent) : sysTimeMsg := mkSysTimeMsg e None.

(** The entries whose file can be opened, one after the other, from the world [w]. *)
Fixpoint scan_finds (l : list (string * sysTimeMgrEvent)) (w : world) : list sysTimeMgrEvent :=
  match l with
  | [] => []
  | (name, e) :: l =>
      let '(r, w') := read_file (m_directory +:+ "/" +:+ name) w in
      (match r with Ret (Some _) => [e] | _ => [] end) ++ scan_finds l w'
  end.

(** The entry the next read of the inotify descriptor announces. *)
Definition read_finds (l : list (string * sysTimeMgrEvent)) (w : world) : list sysTimeMgrEvent :=
  match answer (w_trace w) InotifyRead with
  | Some buffer => option_list (buffer_event l buffer)
  | None => []
  end.

(** ** The queue *)

Lemma process_takes val q (d d' : daemon) :
  stateMachine d.1 = fill_stateMachine ∅ → processMsg_round val q d = (Ret tt, d') → m_queue d'.1 = q.
Proof.
  intros Hsm Hr. refine (wp_false_run _ (λ _ d', m_queue d'.1 = q) _ _ _ Hr _). destruct d as [m [b w]].
  unfold processMsg_round. apply wp_bind, wp_on_mgr, wp_modify, wp_on_mgr. simpl.
  eapply wp_mono; [by apply (wp_runStateMachine false never 0)|].
  intros [] [m' w'] (_ & _ & Hc & _). by injection Hc.
Qed.

Lemma wake_keeps_queue message (d d' : daemon) : power_locked message d = (Ret tt, d') → m_queue d'.1 = m_queue d.1.
Proof.
  intros Hr. refine (wp_false_run _ (λ _ d', m_queue d'.1 = m_queue d.1) _ _ _ Hr _). destruct d as [m [b w]].
  unfold power_locked. apply wp_when; intros _; [|done].
  apply wp_on_mgr. eapply wp_mono; [by apply (wp_deepsleepoff_locked false never 0)|].
  intros [] [m' w'] (_ & _ & Hc & _). by injection Hc.
Qed.

Lemma query_keeps_queue p : keeps (λ s : daemon, m_queue s.1) (on_mgr (getTimeStatus p)).
Proof.
  apply (on_mgr_keeps m_queue). unfold getTimeStatus, field. keep; apply (keeps_on_snd m_queue).
Qed.

Lemma outside_keeps_queue {A} (c : M world A) : keeps (λ s : daemon, m_queue s.1) (on_mgr (on_snd c)).
Proof. apply (on_mgr_outside_keeps m_queue). Qed.

Lemma sends e (d d' : daemon) r :
  on_mgr (sendMessage e None) d = (r, d') → m_queue d'.1 = m_queue d.1 ++ [plain_msg e] ∧ r = Ret tt ∧ d'.2 = d.2 ∧
    m_pathEventMap d'.1 = m_pathEventMap d.1.
Proof. destruct d as [m [b w]]. unfold on_mgr, sendMessage, upd, modify. simpl. by intros [= <- <-]. Qed.

Lemma timer_puts (d d' : daemon) :
  runTimer_round d = (Ret tt, d') → m_queue d'.1 = m_queue d.1 ++ [plain_msg eSYSMGR_EVENT_TIMER_EXPIRY].
Proof.
  intros (rfc & d1 & H1 & H2)%bind_ret_inv. injection H1 as _ <-.
  apply bind_ret_inv in H2 as ([] & d2 & H2 & (Hq & _)%sends). rewrite Hq. f_equal.
  refine (keeps_run (λ s : daemon, m_queue s.1) _ _ _ _ _ H2). apply keeps_when, outside_keeps_queue.
Qed.

Lemma scan_puts_from l (d d' : daemon) :
  path_scan l d = (Ret tt, d') → m_queue d'.1 = m_queue d.1 ++ map plain_msg (scan_finds l d.2.2).
Proof.
  revert d. induction l as [|[n e] l IH]; intros [m [b w]]; cbn [path_scan scan_finds].
  { intros [= <-]. simpl. by rewrite app_nil_r. }
  intros (f & d1 & H1 & (u & d2 & H2 & H3)%bind_ret_inv)%bind_ret_inv.
  unfold on_mgr, on_snd in H1. simpl in *. destruct (read_file _ w) as [r w'] eqn:Hf. injection H1 as -> <-.
  specialize (IH _ H3). rewrite IH. destruct f as [x|]; simpl in *.
  - destruct (sends e _ _ _ H2) as (Hq & _ & Hw & _). rewrite Hq, Hw. simpl. by rewrite <- app_assoc.
  - by injection H2 as _ <-.
Qed.

Lemma scan_puts (d d' : daemon) :
  runPathMonitor_start d = (Ret tt, d') →
  m_queue d'.1 = m_queue d.1 ++ map plain_msg (scan_finds (m_pathEventMap d.1) d.2.2).
Proof. intros (map & d1 & H1 & H2)%bind_ret_inv. injection H1 as <- <-. by apply scan_puts_from. Qed.

Lemma watch_keeps_queue : keeps (λ s : daemon, m_queue s.1) runPathMonitor_watch.
Proof. unfold runPathMonitor_watch. keep; apply outside_keeps_queue. Qed.

Lemma read_puts r (d d' : daemon) :
  runPathMonitor_round d = (Ret r, d') →
  m_queue d'.1 = m_queue d.1 ++ map plain_msg (read_finds (m_pathEventMap d.1) d.2.2).
Proof.
  destruct d as [m [b w]]. intros (count & d1 & H1 & H2)%bind_ret_inv. unfold on_mgr, on_snd, sys in H1. simpl in H1.
  injection H1 as <- <-. unfold read_finds. simpl. destruct (answer (w_trace w) InotifyRead) as [buffer|].
  2:{ injection H2 as _ <-. simpl. by rewrite app_nil_r. }
  apply bind_ret_inv in H2 as (map' & d2 & H2 & (u & d3 & H3 & H4)%bind_ret_inv). injection H2 as <- <-. injection H4 as _ <-.
  simpl in H3. destruct (buffer_event (m_pathEventMap m) buffer) as [e|]; simpl.
  - by destruct (sends e _ _ _ H3) as (Hq & _).
  - injection H3 as _ <-. simpl. by rewrite app_nil_r.
Qed.

(** ** The clock *)

Notation set_to s := (settimes (w_trace s.2.2)).

(** On the inputs [l] the clock was set at most as often as they allow. *)
Definition clock_adv (l : list input) (d d' : daemon) : Prop :=
  ∃ ss, set_to d' = ss ++ set_to d ∧ (length ss ≤ clock_inputs (status_of d.1) l)%nat.

Lemma clock_adv_same l (d d' : daemon) : set_to d' = set_to d → clock_adv l d d'.
Proof. intros H. exists []. split; [done|simpl; lia]. Qed.

Lemma clock_inputs_app l1 l2 s : clock_inputs s (l1 ++ l2) = (clock_inputs s l1 + clock_inputs (spec_inputs s l1) l2)%nat.
Proof. revert s. induction l1 as [|i l1 IH]; intros s; [done|]. simpl. rewrite IH. lia. Qed.

Lemma on_world_quiet {A} (c : M world A) r (d d' : daemon) :
  (∀ w, wp false c (λ _ w', quiet w w') w) → on_mgr (on_snd c) d = (Ret r, d') → set_to d' = set_to d.
Proof.
  intros Hc Hr. refine (wp_false_run _ (λ _ d', set_to d' = set_to d) _ _ _ Hr _). destruct d as [m [b w]].
  apply wp_on_mgr, wp_on_snd. eapply wp_mono; [apply Hc|]. intros a w' Hq. by apply settimes_quiet.
Qed.

Notation idle := (keeps (λ s : daemon, set_to s)).

Lemma world_idle {A} (c : M world A) : keeps (λ w, settimes (w_trace w)) c → idle (on_mgr (on_snd c)).
Proof.
  intros Hc [m [b w]]. specialize (Hc w). unfold on_mgr, on_snd. simpl in *. by destruct (c w) as [r w'].
Qed.
Lemma send_idle e args : idle (on_mgr (sendMessage e args)).
Proof. by intros [m [b w]]. Qed.
Lemma read_file_idle path : idle (on_mgr (on_snd (read_file path))).
Proof. apply world_idle. unfold read_file. by keep. Qed.
Lemma report_idle : idle (on_mgr (on_snd report_offset)).
Proof. apply world_idle. unfold report_offset. by keep. Qed.
Hint Resolve send_idle read_file_idle report_idle : keeps.
Hint Extern 1 (keeps _ (on_mgr (on_snd (sys _)))) => (apply world_idle; done) : keeps.

Lemma timer_idle : idle runTimer_round.
Proof. unfold runTimer_round. keep. Qed.
Lemma scan_idle l : idle (path_scan l).
Proof. induction l as [|[n e] l IH]; [done|]. simpl. keep. Qed.
Lemma start_idle : idle runPathMonitor_start.
Proof. unfold runPathMonitor_start. apply keeps_bind; [done|intros map]. apply scan_idle. Qed.
Lemma watch_idle : idle runPathMonitor_watch.
Proof. unfold runPathMonitor_watch. keep. Qed.
Lemma round_idle : idle runPathMonitor_round.
Proof. unfold runPathMonitor_round. keep. Qed.

Lemma process_clock val q (d d' : daemon) :
  stateMachine d.1 = fill_stateMachine ∅ → processMsg_round val q d = (Ret tt, d') →
  clock_adv [IEvent (sm_event val) (sm_args val)] d d'.
Proof.
  intros Hsm Hr. refine (wp_false_run _ (λ _ d', clock_adv _ d d') _ _ _ Hr _). destruct d as [m [b w]].
  unfold processMsg_round. apply wp_bind, wp_on_mgr, wp_modify, wp_on_mgr. simpl.
  eapply wp_mono; [by apply (wp_runStateMachine false never 0)|].
  intros [] [m' w'] (_ & _ & _ & (now & ss & [_ Hs] & Hlen) & _). exists ss. split; [done|]. simpl in *.
  change (status_of (set_queue q m)) with (status_of m) in Hlen. lia.
Qed.

Lemma wake_clock message (d d' : daemon) : power_locked message d = (Ret tt, d') → set_to d' = set_to d.
Proof.
  intros Hr. refine (wp_false_run _ (λ _ d', set_to d' = set_to d) _ _ _ Hr _). destruct d as [m [b w]].
  unfold power_locked. apply wp_when; intros _; [|done].
  apply wp_on_mgr. eapply wp_mono; [by apply (wp_deepsleepoff_locked false never 0)|].
  intros [] [m' w'] (_ & _ & _ & (now & ss & [_ Hs] & Hlen) & _). simpl in *. destruct ss; [done|simpl in Hlen; lia].
Qed.

Lemma query_clock p r (d d' : daemon) : on_mgr (getTimeStatus p) d = (Ret r, d') → set_to d' = set_to d.
Proof.
  intros Hr. refine (wp_false_run _ (λ _ d', set_to d' = set_to d) _ _ _ Hr _). destruct d as [m [b w]].
  apply wp_on_mgr, (wp_getTimeStatus false never). intros now w' _ Hq _. by apply settimes_quiet.
Qed.

Lemma bus_idle {A} (c : M (bus * world) A) r (d d' : daemon) :
  keeps (λ bw : bus * world, bw.2) c → on_snd c d = (r, d') → set_to d' = set_to d.
Proof. intros Hc Hr. by destruct (on_bus_same c r d d' Hc Hr) as [_ ->]. Qed.

Lemma dstep_clock l (d d' : daemon) : stateMachine d.1 = fill_stateMachine ∅ → dstep d l d' → clock_adv l d d'.
Proof.
  intros Hsm Hstep.
  destruct Hstep as [val q s s' Hq Hr|s s' Hr|s s' Hr|r s s' Hr|r s s' Hr|id cur new msg s s1 s' Hc Hr
    |this msg s s1 s' _ Hc Hr|this s s' _ Hc|cur new s s' Hc|s s' Hr|p r s s' Hr|s s' Hr|r s s' Hr|r s s' Hr|r s s' Hr|fs s].
  1: by eapply process_clock.
  all: apply clock_adv_same.
  - exact (keeps_run (λ s : daemon, set_to s) _ _ _ _ timer_idle Hr).
  - exact (keeps_run (λ s : daemon, set_to s) _ _ _ _ start_idle Hr).
  - exact (keeps_run (λ s : daemon, set_to s) _ _ _ _ watch_idle Hr).
  - exact (keeps_run (λ s : daemon, set_to s) _ _ _ _ round_idle Hr).
  - rewrite (wake_clock _ _ _ Hr). exact (bus_idle _ _ _ _ (powereventHandler_keeps _ _ _ _) Hc).
  - rewrite (wake_clock _ _ _ Hr). exact (bus_idle _ _ _ _ (pwr_round_keeps _) Hc).
  - exact (bus_idle _ _ _ _ (pwr_round_keeps _) Hc).
  - exact (bus_idle _ _ _ _ (pwr_push_keeps _ _) Hc).
  - refine (on_world_quiet _ _ _ _ _ Hr). intros w. by apply wp_deepsleepoff_resync.
  - by apply (query_clock p r).
  - refine (on_world_quiet _ _ _ _ _ Hr). apply internet_quiet.
  - refine (on_world_quiet _ _ _ _ _ Hr). apply ntp_poll_quiet.
  - refine (on_world_quiet _ _ _ _ _ Hr). intros w. apply wp_sys. eauto with quiet.
  - refine (on_world_quiet _ _ _ _ _ Hr). apply connect_quiet.
  - done.
Qed.

(** Over a run of the process. *)
Lemma dexec_clock l (d d' : daemon) :
  stateMachine d.1 = fill_stateMachine ∅ → m_pathEventMap d.1 = path_events → dexec d l d' → clock_adv l d d'.
Proof.
  intros Hsm Hmap Hexec. induction Hexec as [s|s1 l1 s2 l2 s3 Hstep _ IH]; [by apply clock_adv_same|].
  destruct (dstep_clock l1 s1 s2 Hsm Hstep) as (ss1 & H1 & L1).
  pose proof (dexec_step s1 l1 s2 [] s2 Hstep (dexec_refl s2)) as H0. rewrite app_nil_r in H0.
  destruct (dexec_advances l1 s1 s2 Hsm Hmap H0) as [Hs _ _ Hsm' Hmap' _ _].
  destruct IH as (ss2 & H2 & L2); [congruence..|]. exists (ss2 ++ ss1).
  rewrite H2, H1, app_assoc, clock_inputs_app, length_app, <- Hs. split; [done|lia].
Qed.
End effects.
