(* ===== verification/System.v ===== *)
(** * System: the properties of the process

    The refinement of the abstract machine by the process, its invariant, its
    progress, the restart from the announcement files, and the routes of the events
    through the threads. *)

From Corelib Require Import SpecFloat.
From S2P Require Import Prelude CString Platform TestEnv Interfaces TimeSync PubSub TimeSrc Factory.
From S2P Require Import SysTimeMgr MgrSpec MgrProps NetworkStatus PowerQueue Daemon Frame Process.

(** ** The synchronisation monitor *)

Definition adjtimex_calls (l : list ev) : nat := count_calls (@is_adjtimex) l.

(** What the monitor leaves for the other threads and programs. *)
Definition announced (fs : gmap string file) : Prop :=
  is_Some (fs !! (m_directory +:+ "/ntp")) ∧ is_Some (fs !! "/tmp/clock-event") ∧
  f_data <$> fs !! "/tmp/ntp_status" = Some ("Synchronized" +:+ newline).

Section monitor.
Context {E : Env} {B : Build} (t : bool).

Lemma wp_report_offset (Q : unit → world → Prop) w :
  (∀ w', quiet w w' → w_fs w' = w_fs w → adjtimex_calls (w_trace w') = adjtimex_calls (w_trace w) → Q tt w') →
  wp t report_offset Q w.
Proof.
  intros HQ. unfold report_offset. apply wp_bind, wp_sys. case_bool_decide.
  - apply wp_when; intros _; [apply wp_sys_unit|]; apply HQ; try done; eauto with quiet.
  - apply wp_ret, HQ; [eauto with quiet|done|done].
Qed.

Lemma wp_ntp_artefacts (Q : unit → world → Prop) w :
  HealthyDisk E →
  (∀ w', quiet w w' → announced (w_fs w') → adjtimex_calls (w_trace w') = adjtimex_calls (w_trace w) → Q tt w') →
  wp t ntp_artefacts Q w.
Proof.
  intros [Hopen Hwrite _] HQ. unfold ntp_artefacts, notifypathAvailable, create_file, write_file, set_mtime.
  apply wp_bind, wp_bind, wp_bind, wp_sys. rewrite Hopen. apply wp_bind, wp_sys, wp_bind, wp_modify, wp_ret.
  apply wp_bind, wp_sys, wp_bind, wp_bind, wp_sys. simpl.
  set (ok := answer _ (Futimens _ _)). set (w1 := log _ (log _ _)).
  assert (∀ w2, quiet w w2 → is_Some (w_fs w2 !! (m_directory +:+ "/ntp")) →
    adjtimex_calls (w_trace w2) = adjtimex_calls (w_trace w) →
    wp t (_ ← create_file "/tmp/clock-event"; _ ← write_file "/tmp/ntp_status" ("Synchronized" +:+ newline); mret tt)
      Q w2) as Hrest.
  { intros w2 Hq2 Hntp Hc2. unfold create_file, write_file. apply wp_bind, wp_bind, wp_sys. rewrite Hopen.
    apply wp_bind, wp_sys, wp_bind, wp_modify, wp_ret, wp_bind, wp_bind, wp_sys. rewrite Hopen.
    apply wp_bind, wp_sys, wp_bind, wp_sys, wp_bind, wp_modify, wp_ret, wp_ret.
    rewrite string_take_all by apply Hwrite. apply HQ; [eauto 12 with quiet| |done]. simpl. split_and!.
    - rewrite lookup_insert_ne by done. destruct (w_fs w2 !! "/tmp/clock-event"); [done|]. by rewrite lookup_insert_ne.
    - rewrite lookup_insert_ne by done. destruct (w_fs w2 !! "/tmp/clock-event") eqn:He; [by rewrite He|].
      by rewrite lookup_insert_eq.
    - by rewrite lookup_insert_eq. }
  assert (quiet w w1) as Hq1 by (unfold w1; eauto 12 with quiet).
  assert (is_Some (w_fs w1 !! (m_directory +:+ "/ntp"))) as Hntp.
  { unfold w1. simpl. destruct (w_fs w !! (m_directory +:+ "/ntp")) eqn:Hp; [by rewrite Hp|].
    by rewrite lookup_insert_eq. }
  apply wp_bind, wp_when; intros _; [apply wp_modify|]; apply wp_ret, wp_ret, Hrest; try done.
  simpl. change (log _ (log _ _)) with w1. rewrite lookup_alter_eq. by apply fmap_is_Some.
Qed.

Lemma monitor_loop (r : nat → Z * Z) (k fuel polls : nat) w :
  HealthyDisk E → (∀ h, answer h Adjtimex = r (adjtimex_calls h)) →
  (∀ i, (i < k)%nat → kernel_synced (r (adjtimex_calls (w_trace w) + i)%nat) = false) →
  kernel_synced (r (adjtimex_calls (w_trace w) + k)%nat) = true → (k < fuel)%nat →
  wp t (runNTPSyncMonitor fuel polls) (λ n w', n = Some (polls + S k)%nat ∧ quiet w w' ∧ announced (w_fs w') ∧
    adjtimex_calls (w_trace w') = (adjtimex_calls (w_trace w) + S k)%nat) w.
Proof.
  intros HD Hr. revert fuel polls w.
  induction k as [|k IH]; intros [|fuel] polls w Hf Hk Hlt; try lia; simpl; apply wp_bind, wp_sys; rewrite Hr;
    set (w1 := log _ w); assert (adjtimex_calls (w_trace w1) = S (adjtimex_calls (w_trace w))) as Hc by done;
    assert (quiet w w1) as Hq by (unfold w1; eauto with quiet); clearbody w1.
  - rewrite Nat.add_0_r in Hk. rewrite Hk. apply wp_bind, wp_ntp_artefacts; [done|].
    intros w2 Hq2 Ha Hc2. apply wp_bind, wp_report_offset. intros w3 Hq3 Hfs Hc3. apply wp_ret.
    split; [f_equal; lia|]. split; [by do 2 (etrans; [eassumption|])|]. rewrite Hfs. split; [done|]. lia.
  - pose proof (Hf 0%nat ltac:(lia)) as H0. rewrite Nat.add_0_r in H0. rewrite H0.
    eapply wp_mono; [apply IH|].
    + intros i Hi. rewrite Hc. replace (S _ + i)%nat with (adjtimex_calls (w_trace w) + S i)%nat by lia.
      apply Hf. lia.
    + rewrite Hc. by replace (S _ + k)%nat with (adjtimex_calls (w_trace w) + S k)%nat by lia.
    + lia.
    + intros n w' (-> & Hq' & Ha & Hc'). split; [f_equal; lia|]. split; [by etrans|]. split; [done|]. lia.
Qed.
End monitor.

(** ** The scan at the start and the draining of the queue *)

(** The events of the files that exist, in key order. *)
Definition path_of (ne : string * sysTimeMgrEvent) : string := m_directory +:+ "/" +:+ ne.1.
Definition existing (fs : gmap string file) (l : list (string * sysTimeMgrEvent)) : list sysTimeMgrEvent :=
  map snd (filter (λ ne, is_Some (fs !! path_of ne)) l).

(** A file of the announcement directory exists. *)
Definition has_file (fs : gmap string file) (name : string) : bool :=
  bool_decide (is_Some (fs !! (m_directory +:+ "/" +:+ name))).

(** src: systimemgr.cpp:427-442 SysTimeMgr::processMsg
    At most [n] rounds of the loop; an empty queue ends it. *)
Fixpoint processMsg {E : Env} {B : Build} (n : nat) : M daemon unit :=
  match n with
  | O => mret tt
  | S n =>
      queue ← gets (λ s : daemon, m_queue s.1);
      match queue with
      | [] => mret tt
      | val :: q => _ ← processMsg_round val q; processMsg n
      end
  end.

Section startup.
Context {E : Env} {B : Build} (t : bool) (HE : t = true → SaneEnv E).
Context {HSrc : ITimeSrcSpec t TimeSrcObj} {HSync : ITimeSyncSpec t TimeSyncObj}.

Lemma wp_path_scan l (Q : unit → daemon → Prop) m b w :
  HealthyDisk E →
  (∀ w', quiet w w' → w_fs w' = w_fs w →
    Q tt (set_queue (m_queue m ++ map (λ e, mkSysTimeMsg e None) (existing (w_fs w) l)) m, (b, w'))) →
  wp t (path_scan l) Q (m, (b, w)).
Proof.
  clear HE HSrc HSync. intros HD. revert Q m w. induction l as [|[n e] l IH]; intros Q m w HQ; simpl.
  { apply wp_ret. specialize (HQ w). simpl in HQ. rewrite app_nil_r in HQ.
    destruct m. by apply HQ. }
  assert (∀ w', answer (w_trace w') (OpenRead (m_directory +:+ "/" +:+ n)) = true) as Hopen
    by (intros w'; apply (disk_open_read (E := E))).
  apply wp_bind, wp_on_mgr, wp_on_snd. simpl. unfold read_file. apply wp_bind, wp_sys. rewrite Hopen.
  apply wp_gets. simpl. set (w1 := log _ w). assert (quiet w w1) as Hq1 by (unfold w1; eauto with quiet).
  assert (w_fs w1 = w_fs w) as Hf1 by done. clearbody w1.
  unfold existing in HQ. rewrite filter_cons in HQ. apply wp_bind.
  destruct (decide (is_Some (w_fs w !! path_of (n, e)))) as [[f Hf]|Hf].
  - change (path_of (n, e)) with (m_directory +:+ "/" +:+ n) in Hf. rewrite Hf.
    apply wp_on_mgr, wp_modify. simpl. apply IH. intros w2 Hq2 Hf2. rewrite Hf1 in *.
    specialize (HQ w2). simpl in HQ. simpl. rewrite <- app_assoc. apply HQ; [by etrans|done].
  - apply eq_None_not_Some in Hf. change (path_of (n, e)) with (m_directory +:+ "/" +:+ n) in Hf. rewrite Hf.
    apply wp_ret, IH. intros w2 Hq2 Hf2. rewrite Hf1 in *. apply HQ; [by etrans|done].
Qed.

(** Draining a queue of [n] messages is running the state machine on each. *)
Lemma wp_processMsg q n m b w :
  stateMachine m = fill_stateMachine ∅ → m_queue m = q → (t = true → healthy t (2 * length q + n) m) →
  wp t (processMsg (length q)) (λ _ s',
    status_of s'.1 = spec_inputs (status_of m) (map (λ msg, IEvent (sm_event msg) (sm_args msg)) q) ∧
    m_queue s'.1 = [] ∧ (t = true → healthy t n s'.1)) (m, (b, w)).
Proof.
  revert m w. induction q as [|val q IH]; intros m w Hsm Hq Hok; simpl; [by apply wp_ret|].
  apply wp_bind, wp_gets. simpl. rewrite Hq. apply wp_bind. unfold processMsg_round.
  apply wp_bind, wp_on_mgr, wp_modify, wp_on_mgr. simpl.
  eapply wp_mono; [apply (wp_runStateMachine t HE (2 * length q + n)); [done|]|].
  { intros Ht. eapply (healthy_le t (2 + (2 * length q + n)) (2 * length (val :: q) + n) m); [simpl; lia|auto]. }
  intros [] [m1 w1] (Hs & _ & Hc & _ & Hok1). simpl in *. injection Hc as Hsm1 _ _ _ _ _ _ _ Hq1.
  eapply wp_mono; [apply IH|]; [congruence|done|exact Hok1|].
  intros [] s' (Hs' & Hq' & Hok'). split; [|done]. by rewrite Hs', Hs.
Qed.
End startup.

Section restart.
Context {E : Env} {B : Build}.

(** From NTP_WAIT with an empty queue, on a working disk, the scan of the path
    monitor and the processing of what it queued. *)
Lemma restart_scan {HSrc : ITimeSrcSpec true TimeSrcObj} {HSync : ITimeSyncSpec true TimeSyncObj}
    (m : mgr TimeSrcObj TimeSyncObj) (b : bus) (w : world) :
  SaneEnv E → HealthyDisk E → stateMachine m = fill_stateMachine ∅ → m_pathEventMap m = path_events →
  m_queue m = [] → m_state m = eSYSMGR_STATE_NTP_WAIT → healthy true 8 m →
  ∃ s', (_ ← runPathMonitor_start; processMsg (length (existing (w_fs w) path_events))) (m, (b, w)) = (Ret tt, s') ∧
    m_queue s'.1 = [] ∧
    m_state s'.1 = match has_file (w_fs w) "ntp" || has_file (w_fs w) "stt", has_file (w_fs w) "drm" with
                   | true, true => eSYSMGR_STATE_RUNNING
                   | true, false => eSYSMGR_STATE_NTP_ACQUIRED
                   | false, true => eSYSMGR_STATE_SECURE_TIME_ACQUIRED
                   | false, false => eSYSMGR_STATE_NTP_WAIT
                   end.
Proof.
  intros HE HD Hsm Hmap Hq Hst Hok. set (es := existing (w_fs w) path_events).
  assert (length es ≤ 4)%nat as Hlen.
  { unfold es, existing. rewrite length_map. etrans; [apply length_filter|done]. }
  assert (wp true (_ ← runPathMonitor_start; processMsg (length es)) (λ _ s', m_queue s'.1 = [] ∧
    m_state s'.1 = foldl next_state eSYSMGR_STATE_NTP_WAIT es) (m, (b, w))) as Hwp.
  { apply wp_bind. unfold runPathMonitor_start. apply wp_bind, wp_gets. simpl. rewrite Hmap.
    apply wp_path_scan; [done|]. intros w1 Hq1 Hf1. rewrite Hq. simpl.
    set (q := map (λ e, mkSysTimeMsg e None) es). change (existing (w_fs w) path_events) with es. fold q.
    replace (length es) with (length q) by (unfold q; apply length_map).
    eapply wp_mono; [apply (wp_processMsg true (λ _, HE) q 0); [done|done|]|].
    { intros _. eapply (healthy_le true _ 8 m); [|exact Hok]. unfold q. rewrite length_map. lia. }
    intros [] s' (Hs & Hq' & _). split; [done|]. apply (f_equal s_state) in Hs. simpl in Hs. rewrite Hs.
    unfold q. rewrite map_map. simpl. rewrite spec_events_state. simpl. by rewrite Hst. }
  apply wp_total_run in Hwp as ([] & s' & Hrun & Hq' & Hs'). exists s'. do 2 (split; [done|]).
  rewrite Hs'. unfold es, existing, path_events, has_file. rewrite !filter_cons.
  change (path_of ("drm", eSYSMGR_EVENT_SECURE_TIME_AVAILABLE)) with (m_directory +:+ "/" +:+ "drm").
  change (path_of ("ntp", eSYSMGR_EVENT_NTP_AVAILABLE)) with (m_directory +:+ "/" +:+ "ntp").
  change (path_of ("stt", eSYSMGR_EVENT_NTP_AVAILABLE)) with (m_directory +:+ "/" +:+ "stt").
  rewrite filter_nil. repeat case_decide;
    repeat first [rewrite bool_decide_eq_true_2 by done | rewrite bool_decide_eq_false_2 by done]; reflexivity.
Qed.
End restart.

(** The operation returns. *)
Definition returns {S A} (m : M S A) (s : S) : Prop := ∃ a s', m s = (Ret a, s').

Lemma wp_returns {S A} (m : M S A) Q s : wp true m Q s → returns m s.
Proof. intros (a & s' & Hr & _)%wp_total_run. by exists a, s'. Qed.

Section callbacks.
Context {E : Env} {B : Build}.

Lemma powerhandler_returns {HSrc : ITimeSrcSpec true TimeSrcObj} {HSync : ITimeSyncSpec true TimeSyncObj}
    message (s : daemon) :
  SaneEnv E → (true = true → healthy true 0 s.1) → returns (on_mgr (powerhandler message)) s.
Proof.
  intros HE Hok. destruct s as [m [b w]]. eapply (wp_returns _ (λ _ _, True)). apply wp_on_mgr. unfold powerhandler.
  apply wp_bind, wp_when; intros _; [apply wp_ret|]; apply wp_bind, wp_when; intros _; try by apply wp_ret, wp_ret.
  all: try (by apply wp_ret).
  all: eapply wp_mono; [by apply (wp_deepsleepoff true (λ _, HE) 0)|]; by intros [] mw _; apply wp_ret.
Qed.

(** After a change of an object's queue the instance is still a subscriber with its
    handler. *)
Lemma instance_queue (b : bus) this (o o' : PowerController) q :
  b_objs b !! this = Some (IpowerControllerSubscriber o) → instance b = Some (IpowerControllerSubscriber o') →
  ∃ o1, instance (Bus (<[this := IpowerControllerSubscriber (with_queue q o)]> (b_objs b)) (b_pInstance b))
        = Some (IpowerControllerSubscriber o1) ∧ pc_powerHandler o1 = pc_powerHandler o'.
Proof.
  unfold instance. simpl. intros Ho Hi. destruct (b_pInstance b) as [i|]; [|done]. simpl in *.
  destruct (decide (this = i)) as [->|Hne]; [|rewrite list_lookup_insert_ne by done; by exists o'].
  rewrite Ho in Hi. injection Hi as <-. exists (with_queue q o).
  split; [by apply list_lookup_insert_eq, (lookup_lt_Some _ _ _ Ho)|done].
Qed.

Lemma power_push_returns (s : daemon) cur new :
  IARM_SUPPORT_DISABLED = false → power_ready s.2.1 → PWRMGRPLUGIN_ENABLED = true →
  returns (on_snd (sysTimeMgrPwrEventHandler cur new)) s.
Proof.
  intros Hd Hr Hp. destruct s as [m [b w]]. destruct (Hr Hd) as (o & Hi & _ & Hc). unfold power_class in Hc. rewrite Hp in Hc.
  destruct Hc as [o' ->]. unfold returns, on_snd, sysTimeMgrPwrEventHandler, getInstance, mbind, M_bind, gets.
  simpl in *. unfold instance in Hi. destruct (b_pInstance b) as [i|]; [|done]. simpl in *. rewrite Hi. simpl. eauto.
Qed.

Lemma power_callback_returns (s : daemon) :
  IARM_SUPPORT_DISABLED = false → power_ready s.2.1 →
  if PWRMGRPLUGIN_ENABLED
  then ∀ this, handler_started s.2.1 this = true → returns (on_snd (sysTimeMgrPwrEventHandlingThreadFunc_round this)) s
  else ∀ id cur new, returns (on_snd (powereventHandler id cur new)) s.
Proof.
  intros Hd Hr. destruct s as [m [b w]]. destruct (Hr Hd) as (o & Hi & Hh & Hc). unfold power_class in Hc. simpl in *.
  destruct PWRMGRPLUGIN_ENABLED.
  - destruct Hc as [o' ->]. simpl in Hh. intros this Hthis. unfold returns, on_snd. simpl.
    destruct (sysTimeMgrPwrEventHandlingThreadFunc_round this (b, w)) as [r bw] eqn:Hrun.
    revert Hrun. unfold sysTimeMgrPwrEventHandlingThreadFunc_round, mbind, M_bind, gets. simpl.
    unfold handler_started in Hthis. destruct (b_objs b !! this) as [[n|n|n h|o]|] eqn:Ho; try done.
    destruct (pc_pwrEvtQueue o) as [|[cur new] q]; simpl; [intros [= <- <-]; eauto|].
    destruct (instance_queue b this o o' q Ho Hi) as (o1 & Hi1 & Hh1). rewrite Hh in Hh1.
    unfold sysTimeMgrHandlePwrEventData, getInstance, mbind, M_bind, gets.
    unfold instance in Hi1. simpl in *. destruct (b_pInstance b) as [i|]; [|done]. simpl in *. rewrite Hi1.
    destruct new, cur; simpl; rewrite ?Hh1; simpl; intros [= <- <-]; eauto.
  - destruct Hc as (n & h & ->). simpl in Hh. subst h. intros id cur new. unfold returns, on_snd. simpl.
    destruct (powereventHandler id cur new (b, w)) as [r bw] eqn:Hrun. revert Hrun.
    unfold powereventHandler, getInstance, mbind, M_bind, gets. destruct (negb _); simpl; [intros [= <- <-]; eauto|].
    unfold instance in Hi. destruct (b_pInstance b) as [i|] eqn:Hp; [|done]. simpl in *. rewrite Hi.
    destruct new, cur; simpl; intros [= <- <-]; eauto.
Qed.
End callbacks.

(** The announcement files through [initialize]. *)
Lemma same_lookup (w w1 : world) name :
  files_but "/tmp/systimeset" w1 = files_but "/tmp/systimeset" w →
  w_fs w1 !! (m_directory +:+ "/" +:+ name) = w_fs w !! (m_directory +:+ "/" +:+ name).
Proof.
  intros Heq. assert (∀ w : world, w_fs w !! (m_directory +:+ "/" +:+ name)
    = files_but "/tmp/systimeset" w !! (m_directory +:+ "/" +:+ name)) as H.
  { intros w'. unfold files_but. by rewrite lookup_delete_ne. }
  by rewrite !H, Heq.
Qed.

Lemma has_file_same w w1 name :
  files_but "/tmp/systimeset" w1 = files_but "/tmp/systimeset" w → has_file (w_fs w1) name = has_file (w_fs w) name.
Proof. intros Heq. unfold has_file. by rewrite (same_lookup w w1). Qed.

Lemma existing_same w w1 l :
  files_but "/tmp/systimeset" w1 = files_but "/tmp/systimeset" w → existing (w_fs w1) l = existing (w_fs w) l.
Proof.
  intros Heq. unfold existing. f_equal. apply list_filter_iff. intros [n e]. unfold path_of. simpl.
  by rewrite (same_lookup w w1).
Qed.

(** Starting the telemetry library, as a run. *)
Lemma telemetry_run {E : Env} {B : Build} (m : mgr TimeSrcObj TimeSyncObj) b w :
  ∃ w', on_mgr (on_snd (when T2_EVENT_ENABLED (sys (T2Init "sysTimeMgr")))) (m, (b, w)) = (Ret tt, (m, (b, w'))) ∧
    w_fs w' = w_fs w.
Proof.
  destruct (proj1 (wp_total_run _ _ _) (wp_telemetry true m b w (λ _ s, s = (m, (b, s.2.2)) ∧ w_fs s.2.2 = w_fs w)
    (λ w' Hw, conj eq_refl Hw))) as ([] & s' & Hrun & Hs & Hf).
  exists s'.2.2. by rewrite <- Hs.
Qed.

(** What [initialize] makes of the members it sets for good. *)
Lemma initialize_constant {E : Env} {B : Build} ls (f : file) (m : mgr TimeSrcObj TimeSyncObj) (b : bus) (w : world) :
  Forall line_ok ls → w_fs w !! m_cfgfile m = Some f → f_data f = render_config ls →
  (∀ h, answer h (OpenRead (m_cfgfile m)) = true) →
  ∀ s, initialize (m, (b, w)) = (Ret tt, s) → constant s.1 = constant (foldl (λ m l, config_line l m) m ls).
Proof.
  intros Hls Hf Hd Ho s Hinit. unfold initialize in Hinit.
  destruct (telemetry_run m b w) as (w0 & Hrun & Hf0). rewrite <- Hf0 in Hf.
  rewrite (bind_run _ _ _ _ _ Hrun) in Hinit.
  rewrite (bind_run _ _ _ _ _ (load_config_run ls f m b w0 Hls Hf Hd (Ho _))) in Hinit.
  set (m1 := foldl _ m ls) in *. clearbody m1. clear Hls Hf Hd.
  refine (keeps_run (λ s : daemon, constant s.1) _ _ _ _ _ Hinit). unfold connect_bus.
  assert (∀ g, (∀ m, constant (g m) = constant m) → keeps (λ s : daemon, constant s.1) (on_mgr (upd g))) as Hupd.
  { intros g Hg. apply (on_mgr_keeps constant). by apply upd_keeps. }
  keep; first [by apply Hupd|apply (on_mgr_outside_keeps constant)|apply (on_bus_keeps constant)
    |apply (on_mgr_keeps constant), setInitialTime_keeps].
Qed.

(** The object [initialize] leaves behind. *)
Lemma initialize_inv {E : Env} {B : Build} (cfg : string) (w w0 : world) (m0 : mgr TimeSrcObj TimeSyncObj) (s : daemon) :
  SaneEnv E → new_SysTimeMgr cfg w = (Ret m0, w0) → initialize (m0, (empty_bus, w0)) = (Ret tt, s) →
  daemon_inv s ∧ m_state s.1 = eSYSMGR_STATE_NTP_WAIT ∧ m_queue s.1 = [].
Proof.
  intros HE Hnew Hinit.
  assert (m_queue m0 = [] ∧ stateMachine m0 = ∅ ∧ m_pathEventMap m0 = [] ∧
    m_timequality m0 = eTIMEQUALILTY_UNKNOWN ∧ m_timerSrc m0 = [] ∧ m_timerSync m0 = [])
    as (Hq & Hsm & Hp & Hqu & Hs1 & Hs2) by (by injection Hnew as <- <-).
  by destruct (wp_false_run _ _ _ _ _ Hinit (wp_initialize false HE never m0 w0 Hq Hsm Hp Hqu Hs1 Hs2 never))
    as (Hinv & Hst & Hqu' & _).
Qed.

(** The states in which network or secure time has been acquired. *)
Definition acquired (s : status) : bool :=
  match s_state s with
  | eSYSMGR_STATE_NTP_ACQUIRED | eSYSMGR_STATE_SECURE_TIME_ACQUIRED | eSYSMGR_STATE_RUNNING => true
  | _ => false
  end.

Lemma spec_input_acquired s i :
  acquired s = true →
  acquired (fst (spec_input s i)) = true ∧
  (s_timersrc s = "Last Known" ∨ i = IWake → s_timersrc (fst (spec_input s i)) = "Last Known").
Proof.
  destruct s as [st q src]. unfold acquired. simpl. intros Ha.
  destruct st, i as [[]| |]; try done; destruct q; (split; [done|by intros [?|?]]).
Qed.

Lemma spec_inputs_acquired l s :
  acquired s = true →
  acquired (spec_inputs s l) = true ∧
  (s_timersrc s = "Last Known" ∨ IWake ∈ l → s_timersrc (spec_inputs s l) = "Last Known").
Proof.
  revert s. induction l as [|i l IH]; intros s Ha.
  { split; [done|]. intros [?|?%elem_of_nil]; done. }
  destruct (spec_input_acquired s i Ha) as [Ha1 Hs1]. destruct (IH _ Ha1) as [Ha2 Hs2]. split; [done|].
  intros Hor. apply Hs2. destruct Hor as [Hs|[Heq|Hin]%elem_of_cons]; [left; auto|left; auto|by right].
Qed.

Lemma spec_msgs_last_known p l s :
  acquired s = true → s_timersrc s = "Last Known" →
  Forall (λ c : Z * Z * string * string, c.1.2 = "Last Known") (spec_msgs p s l).
Proof.
  revert s. induction l as [|i l IH]; intros s Ha Hs; [by apply Forall_nil|]. simpl.
  destruct (spec_input_acquired s i Ha) as [Ha1 Hs1]. specialize (Hs1 (or_introl Hs)).
  apply Forall_app. split; [|by apply IH]. unfold notice_msgs.
  destruct p as [[]|], (snd (spec_input s i)) as [[ev label]|]; try by apply Forall_nil.
  apply Forall_singleton. simpl. by rewrite Hs1.
Qed.

(** What the last message says of the time: its quality and the name of its source. *)
Definition tells (c : Z * Z * string * string) (s : status) : Prop :=
  c.1.1.2 = qualityOfTime_code (s_quality s) ∧ c.1.2 = snprintf_s cTIMER_STATUS_MESSAGE_LENGTH (s_timersrc s).

Definition told_or_secure (s : status) (cores : list (Z * Z * string * string)) : Prop :=
  s_state s = eSYSMGR_STATE_SECURE_TIME_ACQUIRED ∨ ∃ c, head cores = Some c ∧ tells c s.

Lemma spec_input_told n s i cores :
  told_or_secure s cores →
  told_or_secure (fst (spec_input s i))
    (map msg_core (notice_msgs (Some (IarmPublish n)) (fst (spec_input s i)) (snd (spec_input s i)) 0) ++ cores).
Proof.
  intros Ht. destruct (snd (spec_input s i)) as [[ev label]|] eqn:Hn; simpl; [right; by eexists|].
  assert (s_state (fst (spec_input s i)) = eSYSMGR_STATE_SECURE_TIME_ACQUIRED ∨ fst (spec_input s i) = s) as [Hs| ->];
    [|by left|done].
  destruct s as [st q src], i as [e args| |p]; [|done|by right]. revert Hn. by destruct st, e; simpl; auto.
Qed.

Lemma spec_inputs_told n l s cores :
  told_or_secure s cores →
  told_or_secure (spec_inputs s l) (reverse (spec_msgs (Some (IarmPublish n)) s l) ++ cores).
Proof.
  revert s cores. induction l as [|i l IH]; intros s cores Ht; [done|].
  change (spec_msgs ?p s (i :: l)) with (map msg_core (notice_msgs p (fst (spec_input s i)) (snd (spec_input s i)) 0)
    ++ spec_msgs p (fst (spec_input s i)) l).
  rewrite reverse_app, <- app_assoc, notice_rev. by apply IH, spec_input_told.
Qed.

(** A wake-up of the process is one message with the status it leaves. *)
Lemma wake_message {E : Env} {B : Build} (s s' : daemon) n :
  dexec s [IWake] s' → stateMachine s.1 = fill_stateMachine ∅ → m_pathEventMap s.1 = path_events →
  m_publish s.1 = Some (IarmPublish n) →
  ∃ msg, broadcasts (w_trace s'.2.2) = msg :: broadcasts (w_trace s.2.2) ∧
    msg_event msg = publishEvent_code ePUBLISH_DEEP_SLEEP_ON ∧ tells (msg_core msg) (status_of s'.1) ∧
    msg_message msg = quality_label (m_timequality s'.1) ∧ m_timersrc s'.1 = "Last Known".
Proof.
  intros Hexec Hsm Hmap Hp. destruct (dexec_advances [IWake] s s' Hsm Hmap Hexec) as [Hs Hm _ _ _ _ (new & Hnew & _)].
  rewrite Hnew, map_app in Hm. apply app_inv_tail in Hm. rewrite Hp in Hm.
  change (status_of s'.1 = fst (spec_wake (status_of s.1))) in Hs.
  change (map msg_core new = [msg_core (status_msg (fst (spec_wake (status_of s.1))) ePUBLISH_DEEP_SLEEP_ON
    (quality_label (s_quality (fst (spec_wake (status_of s.1))))) 0)]) in Hm. rewrite <- Hs in Hm.
  destruct new as [|msg [|msg' new]]; try done.
  exists msg. split; [exact Hnew|]. unfold msg_core in Hm. injection Hm as He Hq Hsrc Hl.
  assert (m_timersrc s'.1 = "Last Known") as Hlast.
  { apply (f_equal s_timersrc) in Hs. simpl in Hs. rewrite Hs. by destruct (m_timequality s.1). }
  split; [done|]. split; [by split|]. split; [|done]. rewrite Hl. by destruct (m_timequality s'.1).
Qed.

(** * Properties *)

Section properties.
Context {E : Env} {B : Build}.

(** The process refines the abstract status machine.  In every run of the
    process, however its threads, the buses and other processes interleave and
    whatever the environment answers, the status at the end is the one the
    abstract machine computes from the inputs in the order they were consumed,
    and the messages sent on the bus are exactly those it announces, in order.
    The queue loses nothing: what was queued before and during the run is what
    was taken, in order, followed by what is still queued. *)
Theorem process_refines_spec (l : list input) (s s' : daemon) :
  daemon_inv s → dexec s l s' →
  status_of s'.1 = spec_inputs (status_of s.1) l ∧
  map msg_core (broadcasts (w_trace s'.2.2))
  = reverse (spec_msgs (m_publish s.1) (status_of s.1) l) ++ map msg_core (broadcasts (w_trace s.2.2)) ∧
  ∃ sent, m_queue s.1 ++ sent = taken l ++ m_queue s'.1 ∧ Forall known_msg sent.
Proof.
  intros (Hsm & Hmap & _) Hexec. by destruct (dexec_advances l s s' Hsm Hmap Hexec).
Qed.

(** C3: the daemon's invariant holds in every state the process can reach from
    the end of initialisation: the tables are the ones filled in, the state is
    never the initial one again, quality agrees with state, and the queue holds
    events the state machine knows.  In particular the quality is Secure exactly
    while the daemon is RUNNING. *)
Theorem process_invariant (l : list input) (cfg : string) (w w0 : world) (m0 : mgr TimeSrcObj TimeSyncObj)
    (s s' : daemon) :
  SaneEnv E → new_SysTimeMgr cfg w = (Ret m0, w0) → initialize (m0, (empty_bus, w0)) = (Ret tt, s) →
  dexec s l s' →
  daemon_inv s' ∧ (m_timequality s'.1 = eTIMEQUALILTY_SECURE ↔ m_state s'.1 = eSYSMGR_STATE_RUNNING).
Proof.
  intros HE Hnew Hinit Hexec. destruct (initialize_inv cfg w w0 m0 s HE Hnew Hinit) as [Hinv _].
  assert (daemon_inv s') as Hinv' by (by eapply dexec_inv). split; [done|].
  destruct Hinv' as (_ & _ & _ & Hquality & _). unfold quality_inv in Hquality. simpl in Hquality.
  destruct (m_state s'.1); split; (done || (intros ?; destruct Hquality; congruence) || congruence).
Qed.

(** C6: the process never fails.  On a sane platform, with services whose replies
    have the documented shape, every type of the configuration known to the build
    and times in range in the clock and version files: in every state the process
    can reach from its initialisation, as long as it has consumed fewer than five
    hundred million inputs, every next step of every thread and callback returns: a round of
    the processing thread, of the timer and of the path monitor, an attempt of the
    network subscription and of the power controller's connect thread, a poll of the
    synchronisation monitor, the network procedure, the power handler, its part
    under the mutex and its resynchronisation, a query, and, in a build with the
    bus, the callback of the power bus and the thread that drains its queue.  No
    exception leaves it, no null pointer is dereferenced, no time overflows. *)
Theorem process_never_fails (cfg : string) (w : world) (m0 : mgr TimeSrcObj TimeSyncObj) (s s' : daemon) (l : list input) :
  SaneEnv E → SaneJson E → SaneMfr → iarm_built → Forall known_line (conf_lines (w_fs w) cfg) → times_in_range (w_fs w) →
  new_SysTimeMgr cfg w = (Ret m0, w) → initialize (m0, (empty_bus, w)) = (Ret tt, s) →
  dexec s l s' → fresh (2 * length l + 2) →
  (∀ val q, m_queue s'.1 = val :: q → returns (processMsg_round val q) s') ∧
  returns runTimer_round s' ∧
  (returns runPathMonitor_start s' ∧ returns runPathMonitor_watch s' ∧ returns runPathMonitor_round s') ∧
  (∀ message, returns (on_mgr (powerhandler message)) s' ∧ returns (power_locked message) s') ∧
  returns (on_mgr (on_snd deepsleepoff_resync)) s' ∧
  (∀ p, returns (on_mgr (getTimeStatus p)) s') ∧
  (IARM_SUPPORT_DISABLED = false →
   if PWRMGRPLUGIN_ENABLED
   then (∀ this, handler_started s'.2.1 this = true →
           returns (on_snd (sysTimeMgrPwrEventHandlingThreadFunc_round this)) s') ∧
        ∀ cur new, returns (on_snd (sysTimeMgrPwrEventHandler cur new)) s'
   else ∀ id cur new, returns (on_snd (powereventHandler id cur new)) s') ∧
  returns (on_mgr (on_snd (sysTimeMgrPwrConnectHandlingThreadFunc 1))) s' ∧
  returns (on_mgr (on_snd (sys (ThunderSubscribe "onInternetStatusChange")))) s' ∧
  returns (on_mgr (on_snd processInternetOnline)) s' ∧ returns (on_mgr (on_snd (runNTPSyncMonitor 1 0))) s'.
Proof.
  intros HE HJ HM HB Hk Hr Hnew Hinit Hexec Hn.
  destruct (initialize_run cfg w HE HM HB Hk Hr) as (m1 & s1 & Hnew1 & Hinit1 & Hinv & _ & _ & Hpow & Hpub & Hfuel).
  rewrite Hnew in Hnew1. injection Hnew1 as <-. rewrite Hinit in Hinit1. injection Hinit1 as <-.
  pose (HSrc := TimeSrcObj_spec true (λ _, HE) (λ _, HJ)). pose (HSync := TimeSyncObj_spec true (λ _, HE) (λ _, HM)).
  destruct Hinv as (Hsm & Hmap & _).
  assert (healthy true (2 * length l + 2) s.1) as Hok by (destruct (Hfuel _ Hn); by split).
  destruct (dexec_adv true (λ _, HE) 2 l s s' Hsm Hmap (λ _, Hok) Hexec) as [Hadv Hok'].
  specialize (Hok' eq_refl).
  assert (true = true → healthy true 0 s'.1) as Hok0.
  { intros _. eapply healthy_le; [|exact Hok']. lia. }
  assert (stateMachine s'.1 = fill_stateMachine ∅) as Hsm' by (by rewrite (adv_sm _ _ _ Hadv)).
  assert (m_pathEventMap s'.1 = path_events) as Hmap' by (by rewrite (adv_map _ _ _ Hadv)).
  pose proof (dexec_power_ready l s s' Hexec Hpow) as Hpow'.
  split. { intros val q Hq. eapply wp_returns. by apply (process_step true (λ _, HE) 0). }
  split. { eapply wp_returns. by apply (timer_step true (λ _, HE) 0). }
  split. { split_and!; eapply wp_returns; [by apply (scan_step true (λ _, HE) 0)|by apply (watch_step true 0)|by apply (path_step true 0)]. }
  split. { intros message. split; [by apply powerhandler_returns|]. eapply wp_returns. by apply (wake_step true (λ _, HE) 0). }
  split. { eapply wp_returns, (outside_step true 0); [intros w'; by apply wp_deepsleepoff_resync|done]. }
  split. { intros p. eapply wp_returns. by apply (query_step true (λ _, HE) 0). }
  split. { intros Hd. pose proof (power_callback_returns s' Hd Hpow') as Hcb. pose proof (power_push_returns s') as Hpush.
    destruct PWRMGRPLUGIN_ENABLED; [|done]. split; [done|]. intros cur new. by apply Hpush. }
  split_and!; eapply wp_returns; apply (outside_step true 0); try done;
    [apply connect_quiet|intros w'; apply wp_sys; eauto with quiet|apply internet_quiet|apply ntp_poll_quiet].
Qed.

(** C5: a restarted daemon takes up the time it had.  On a sane platform with a
    working disk and a configuration the build knows, the object is built,
    [initialize] returns, and then the scan of the path monitor and the processing
    of what it queued: the queue is empty and the state is decided by which
    announcement files there were when the process started: RUNNING when network
    time (ntp or stt) and secure time (drm) were announced before, the acquired
    state of the one that was, NTP_WAIT when neither was; a dtt file alone does
    nothing before the first expiry. *)
Theorem boot_state_from_files (cfg : string) (w : world) :
  SaneEnv E → SaneJson E → SaneMfr → HealthyDisk E → iarm_built →
  Forall known_line (conf_lines (w_fs w) cfg) → times_in_range (w_fs w) →
  ∃ m0 s s', new_SysTimeMgr cfg w = (Ret m0, w) ∧ initialize (m0, (empty_bus, w)) = (Ret tt, s) ∧
    (_ ← runPathMonitor_start; processMsg (length (existing (w_fs w) path_events))) s = (Ret tt, s') ∧
    m_queue s'.1 = [] ∧
    m_state s'.1 = match has_file (w_fs w) "ntp" || has_file (w_fs w) "stt", has_file (w_fs w) "drm" with
                   | true, true => eSYSMGR_STATE_RUNNING
                   | true, false => eSYSMGR_STATE_NTP_ACQUIRED
                   | false, true => eSYSMGR_STATE_SECURE_TIME_ACQUIRED
                   | false, false => eSYSMGR_STATE_NTP_WAIT
                   end.
Proof.
  intros HE HJ HM HD HB Hk Hr.
  destruct (initialize_run cfg w HE HM HB Hk Hr) as (m0 & s & Hnew & Hinit & (Hsm & Hmap & _) & Hst & Hq & _ & Hpub & Hfuel).
  pose (HSrc := TimeSrcObj_spec true (λ _, HE) (λ _, HJ)). pose (HSync := TimeSyncObj_spec true (λ _, HE) (λ _, HM)).
  assert (healthy true 8 s.1) as Hok by (destruct (Hfuel 8%nat); [by vm_compute|by split]).
  pose proof (keeps_run (λ s : daemon, files_but "/tmp/systimeset" s.2.2) _ _ _ _ initialize_files Hinit) as Hfs.
  destruct s as [m [b w1]]. simpl in *.
  destruct (restart_scan m b w1 HE HD Hsm Hmap Hq Hst Hok) as (s' & Hrun & Hq' & Hs').
  exists m0, (m, (b, w1)), s'. rewrite !(has_file_same w w1), (existing_same w w1) in * by done. done.
Qed.

(** C12: the objects keep their types.  When the configuration file lists the sources
    and syncs, one per line, every slot of the two vectors holds, in every state
    the process can reach, an object of the class the factory made from its line,
    with the path it made it with; null slots stay null; the timer interval is the
    constructor's 600000 ms, and the network threads' switch is what the file of
    the RFC said when the process started. *)
Theorem process_types (cfg : string) (ls : list (string * string * string)) (f : file) (w : world)
    (m0 : mgr TimeSrcObj TimeSyncObj) (s s' : daemon) (l : list input) :
  Forall line_ok ls → w_fs w !! cfg = Some f → f_data f = render_config ls →
  (∀ h, answer h (OpenRead cfg) = true) →
  new_SysTimeMgr cfg w = (Ret m0, w) → initialize (m0, (empty_bus, w)) = (Ret tt, s) → dexec s l s' →
  map (fmap src_type) (m_timerSrc s'.1) = map (fmap src_type) (configured "timesrc" createTimeSrc ls) ∧
  map (fmap sync_type) (m_timerSync s'.1) = map (fmap sync_type) (configured "timesync" createTimeSync ls) ∧
  m_timerInterval s'.1 = 600000 ∧
  m_chronyRfcEnabled s'.1 = bool_decide (is_Some (w_fs w !! "/opt/secure/RFC/chrony/chronyd_enabled")).
Proof.
  intros Hls Hf Hd Ho Hnew Hinit Hexec. apply dexec_constant in Hexec.
  injection Hnew as <-. match type of Hinit with initialize (?m, _) = _ =>
    pose proof (initialize_constant ls f m empty_bus w Hls Hf Hd Ho s Hinit) as Hc;
    destruct (config_lines_objects ls m) as [Hsrc Hsync]; destruct (config_lines_frame ls m) as [Hframe _] end.
  rewrite Hc in Hexec. set (m1 := foldl _ _ ls) in *. clearbody m1. clear Hinit Hc.
  injection Hexec as -> -> -> _ ->. rewrite Hsrc, Hsync.
  injection Hframe as _ _ -> _ _ _ _ -> _. done.
Qed.

(** C18: every message the process puts on the bus is well formed and consistent: in
    every run from a state with the daemon's invariant, the messages added carry
    one of the six events and one of the four qualities, each text fits its
    80-character array with its NUL, and the text is the name of the quality.  The
    one exception is the failure notice of a daemon without an initial time: it
    says Poor and carries quality Unknown. *)
Theorem bus_messages_consistent (l : list input) (s s' : daemon) :
  daemon_inv s → dexec s l s' →
  ∃ new, broadcasts (w_trace s'.2.2) = new ++ broadcasts (w_trace s.2.2) ∧
    Forall (λ msg, msg_fits msg ∧ core_ok (msg_core msg)) new.
Proof.
  intros (Hsm & Hmap & _ & Hinv & _) Hexec.
  destruct (dexec_advances l s s' Hsm Hmap Hexec) as [_ Hm _ _ _ _ (new & Hnew & Hfit)].
  exists new. split; [done|]. rewrite Hnew, map_app in Hm. apply app_inv_tail in Hm.
  apply Forall_and. split; [done|]. apply (proj1 (Forall_fmap msg_core core_ok new)).
  change (Forall core_ok (map msg_core new)). rewrite Hm.
  by apply Forall_reverse, spec_msgs_ok.
Qed.

(** C29: once the clock has been acquired the name of its source is never restored.
    From a state with network or secure time the daemon never leaves the three
    acquired states; if the name of the source is Last Known there, as it is on a
    device that got secure time first, or becomes it by a wake-up, it stays so for
    ever, whatever is announced later, and every message sent after that carries
    it. *)
Theorem source_stays_last_known (l1 l2 : list input) (s s1 s2 : daemon) :
  daemon_inv s → acquired (status_of s.1) = true → dexec s l1 s1 → dexec s1 l2 s2 →
  m_timersrc s.1 = "Last Known" ∨ IWake ∈ l1 →
  acquired (status_of s2.1) = true ∧ m_timersrc s2.1 = "Last Known" ∧
  ∃ new, broadcasts (w_trace s2.2.2) = new ++ broadcasts (w_trace s1.2.2) ∧
    Forall (λ msg, msg_timerSrc msg = "Last Known") new.
Proof.
  intros (Hsm & Hmap & _) Hac Hex1 Hex2 Hor.
  destruct (dexec_advances l1 s s1 Hsm Hmap Hex1) as [Hs1 _ _ Hsm1 Hmap1 _ _].
  destruct (dexec_advances l2 s1 s2) as [Hs2 Hm _ _ _ _ (new & Hnew & _)]; [congruence..|done|].
  destruct (spec_inputs_acquired l1 (status_of s.1) Hac) as [Hac1 Hsrc1]. rewrite <- Hs1 in Hac1, Hsrc1.
  specialize (Hsrc1 Hor). destruct (spec_inputs_acquired l2 (status_of s1.1) Hac1) as [Hac2 Hsrc2].
  rewrite <- Hs2 in Hac2, Hsrc2. split; [done|]. split; [by apply Hsrc2; left|].
  exists new. split; [done|]. rewrite Hnew, map_app in Hm. apply app_inv_tail in Hm.
  apply (proj1 (Forall_fmap msg_core (λ c, c.1.2 = "Last Known") new)).
  change (Forall (λ c : Z * Z * string * string, c.1.2 = "Last Known") (map msg_core new)). rewrite Hm.
  by apply Forall_reverse, spec_msgs_last_known.
Qed.

(** C30: what the clients have been told is true.  In a build with the bus, once a
    message with the current quality and source has been sent, the last message
    sent always carries the current quality and the current source, in every state
    of every run, with one exception: secure time that comes before network time
    raises the quality without a message.  Whatever the state, that one included, a
    wake-up adds exactly one message, with the deep sleep event, the quality and
    the source the status has after it, and the name of that quality, so from the
    next wake-up on the clients know again. *)
Theorem clients_are_told (l : list input) (s s' : daemon) (n : string) :
  daemon_inv s → m_publish s.1 = Some (IarmPublish n) →
  told_or_secure (status_of s.1) (map msg_core (broadcasts (w_trace s.2.2))) → dexec s l s' →
  told_or_secure (status_of s'.1) (map msg_core (broadcasts (w_trace s'.2.2))) ∧
  ∀ s'', dstep s' [IWake] s'' →
    ∃ msg, broadcasts (w_trace s''.2.2) = msg :: broadcasts (w_trace s'.2.2) ∧
      msg_event msg = publishEvent_code ePUBLISH_DEEP_SLEEP_ON ∧ tells (msg_core msg) (status_of s''.1) ∧
      msg_message msg = quality_label (m_timequality s''.1) ∧ m_timersrc s''.1 = "Last Known".
Proof.
  intros (Hsm & Hmap & _) Hp Ht Hexec. destruct (dexec_advances l s s' Hsm Hmap Hexec) as [Hs Hm _ Hsm' Hmap' Hp' _].
  split; [rewrite Hs, Hm, Hp; by apply spec_inputs_told|]. intros s'' Hstep.
  pose proof (dexec_step s' [IWake] s'' [] s'' Hstep (dexec_refl s'')) as Hwake.
  apply (wake_message s' s'' n Hwake); congruence.
Qed.

(** C28: a power transition reported by either bus reaches the state machine: in
    a build with that bus, after initialisation, the callback's effect is that
    of the power handler on the transition's signal, and nothing when the
    transition is not one into or out of deep sleep. *)
Theorem power_event_routed (cur new : IARM_PowerState) (m : mgr TimeSrcObj TimeSyncObj) (b : bus) (w : world) :
  IARM_SUPPORT_DISABLED = false → power_ready b →
  (if PWRMGRPLUGIN_ENABLED then pc_power_event (pc_of_iarm cur) (pc_of_iarm new) else iarm_power_event cur new)
    (m, (b, w))
  = match power_signal cur new with
    | Some message => (_ ← on_mgr (powerhandler message); mret tt) (m, (b, w))
    | None => (Ret tt, (m, (b, w)))
    end.
Proof.
  intros Hd Hready. destruct (Hready Hd) as (o & Hi & Hh & Hclass). unfold power_class in Hclass.
  destruct PWRMGRPLUGIN_ENABLED.
  - destruct Hclass as [o' ->]. simpl in Hh.
    unfold pc_power_event, mbind, M_bind at 1, on_snd. simpl.
    rewrite (sysTimeMgrHandlePwrEventData_run o' SysTimeMgr_powerhandler) by done.
    by destruct (power_signal cur new).
  - destruct Hclass as (n & h & ->). simpl in Hh. subst h.
    unfold iarm_power_event, mbind, M_bind at 1, on_snd. simpl.
    rewrite (powereventHandler_run n SysTimeMgr_powerhandler) by done.
    by destruct (power_signal cur new).
Qed.

(** C16: the synchronisation monitor ends, and announces.  When the kernel's clock
    is unsynchronised at the first [k] polls (adjtimex fails, answers TIME_ERROR
    or has STA_UNSYNC set) and synchronised at the next, the monitor polls
    exactly [k + 1] times and returns; on a working disk /tmp/systimemgr/ntp and
    /tmp/clock-event then exist and /tmp/ntp_status reads Synchronized.  It
    neither broadcasts nor sets the clock.  A fuel above [k] is enough. *)
Theorem ntp_monitor_announces (r : nat → Z * Z) (k fuel : nat) (w : world) :
  HealthyDisk E → (∀ h, answer h Adjtimex = r (adjtimex_calls h)) →
  (∀ i, (i < k)%nat → kernel_synced (r (adjtimex_calls (w_trace w) + i)%nat) = false) →
  kernel_synced (r (adjtimex_calls (w_trace w) + k)%nat) = true → (k < fuel)%nat →
  ∃ w', runNTPSyncMonitor fuel 0 w = (Ret (Some (S k)), w') ∧
    announced (w_fs w') ∧ adjtimex_calls (w_trace w') = (adjtimex_calls (w_trace w) + S k)%nat ∧ quiet w w'.
Proof.
  intros HD Hr Hf Hk Hlt. pose proof (monitor_loop true r k fuel 0 w HD Hr Hf Hk Hlt) as Hwp.
  apply wp_total_run in Hwp as (n & w' & Hrun & -> & Hq & Ha & Hc). by exists w'.
Qed.

(** C20: an announcement of network time reaches the clients.  When the daemon
    waits for network time (NTP_WAIT, NTP_FAIL, or on broadcast time) with an
    empty queue and inotify reports the attribute change of the ntp file, the
    path monitor's round and the processing of what it queued return; the state
    is NTP_ACQUIRED, the quality Good, the source NTP, and exactly one message was
    sent, which says so. *)
Theorem ntp_announcement_published {HSrc : ITimeSrcSpec true TimeSrcObj} {HSync : ITimeSyncSpec true TimeSyncObj}
    (m : mgr TimeSrcObj TimeSyncObj) (n : string) (ev : inotify_event) (rest : list inotify_event) (b : bus) (w : world) :
  answer (w_trace w) InotifyRead = Some (ev :: rest) → ie_name ev = "ntp" → Z.land (ie_mask ev) IN_ATTRIB ≠ 0 →
  SaneEnv E → stateMachine m = fill_stateMachine ∅ → m_pathEventMap m = path_events →
  m_queue m = [] → m_publish m = Some (IarmPublish n) → healthy true 2 m →
  m_state m ∈ [eSYSMGR_STATE_NTP_WAIT; eSYSMGR_STATE_NTP_FAIL; eSYSMGR_STATE_DTT_ACQUIRED] →
  ∃ s' now, (_ ← runPathMonitor_round; processMsg 1) (m, (b, w)) = (Ret tt, s') ∧
    status_of s'.1 = Status eSYSMGR_STATE_NTP_ACQUIRED eTIMEQUALILTY_GOOD "NTP" ∧ m_queue s'.1 = [] ∧
    broadcasts (w_trace s'.2.2)
    = status_msg (status_of s'.1) ePUBLISH_NTP_SUCCESS "Good" now :: broadcasts (w_trace w).
Proof.
  intros Hread Hname Hmask HE Hsm Hmap Hq Hp Hok Hst.
  assert (fst (spec_step (status_of m) eSYSMGR_EVENT_NTP_AVAILABLE)
          = Status eSYSMGR_STATE_NTP_ACQUIRED eTIMEQUALILTY_GOOD "NTP" ∧
          snd (spec_step (status_of m) eSYSMGR_EVENT_NTP_AVAILABLE) = Some (ePUBLISH_NTP_SUCCESS, "Good")) as [Hs Hn].
  { unfold spec_step. simpl.
    apply elem_of_cons in Hst as [->|[->|[->|[]%elem_of_nil]%elem_of_cons]%elem_of_cons]; done. }
  assert (wp true (_ ← runPathMonitor_round; processMsg 1) (λ _ s',
    status_of s'.1 = Status eSYSMGR_STATE_NTP_ACQUIRED eTIMEQUALILTY_GOOD "NTP" ∧ m_queue s'.1 = [] ∧
    ∃ now, broadcasts (w_trace s'.2.2)
      = status_msg (status_of s'.1) ePUBLISH_NTP_SUCCESS "Good" now :: broadcasts (w_trace w)) (m, (b, w))) as Hwp.
  { apply wp_bind. unfold runPathMonitor_round. apply wp_bind, wp_on_mgr, wp_on_snd, wp_sys. simpl.
    rewrite Hread. set (w0 := log _ w). assert (quiet w w0) as Hw0 by (unfold w0; eauto with quiet). clearbody w0.
    apply wp_bind, wp_gets. simpl. rewrite Hmap. unfold buffer_event.
    rewrite bool_decide_eq_false_2, Hname by done. simpl.
    apply wp_bind, wp_on_mgr, wp_modify, wp_ret. simpl. rewrite Hq. simpl.
    apply wp_bind, wp_gets. simpl. apply wp_bind. unfold processMsg_round.
    apply wp_bind, wp_on_mgr, wp_modify, wp_on_mgr. simpl.
    eapply wp_mono; [apply (wp_runStateMachine true (λ _, HE) 0); [done|by intros _]|].
    intros [] [m1 w1] (Hs1 & _ & Hc & (now & ss & [Hb _] & _) & _). simpl in *. apply wp_ret. simpl.
    change (status_of m1 = fst (spec_step (status_of m) eSYSMGR_EVENT_NTP_AVAILABLE)) in Hs1.
    change (broadcasts (w_trace w1)
      = notice_msgs (m_publish m) (fst (spec_step (status_of m) eSYSMGR_EVENT_NTP_AVAILABLE))
          (snd (spec_step (status_of m) eSYSMGR_EVENT_NTP_AVAILABLE)) now ++ broadcasts (w_trace w0)) in Hb.
    rewrite (broadcasts_quiet _ _ Hw0) in Hb. rewrite Hs in Hs1. rewrite Hs, Hn, Hp in Hb. split; [done|]. split; [by injection Hc|].
    exists now. rewrite Hs1. exact Hb. }
  apply wp_total_run in Hwp as ([] & s' & Hrun & Hs' & Hq' & now & Hb). by exists s', now.
Qed.
End properties.

(** ** Witnesses *)

Lemma booted_inv : daemon_inv booted.
Proof.
  assert (@initialize good_env good_build (fst new_object, (empty_bus, snd new_object)) = (Ret tt, booted))
    as Hinit by (vm_compute; reflexivity).
  by apply (wp_false_run _ _ _ _ _ Hinit (@wp_initialize good_env good_build false good_env_sane
    never (fst new_object) (snd new_object) eq_refl eq_refl eq_refl eq_refl eq_refl eq_refl never)).
Qed.

(** The timer expires and the message is processed, then the device wakes up: the
    power controller queues the event and its thread handles it. *)
Definition expiry : sysTimeMsg := mkSysTimeMsg eSYSMGR_EVENT_TIMER_EXPIRY None.
Definition run1 : daemon := snd (@runTimer_round good_env good_build booted).
Definition run2 : daemon := snd (@processMsg_round good_env good_build expiry [] run1).
Definition run2q : daemon :=
  snd (on_snd (sysTimeMgrPwrEventHandler POWER_STATE_STANDBY_DEEP_SLEEP POWER_STATE_ON) run2).
Definition run2p : daemon := snd (on_snd (sysTimeMgrPwrEventHandlingThreadFunc_round 1) run2q).
Definition run3 : daemon := snd (@power_locked good_env "DEEP_SLEEP_OFF" run2p).

Lemma demo_run : @dexec good_env good_build booted
  [IEvent eSYSMGR_EVENT_TIMER_EXPIRY None; IWake] run3.
Proof.
  eapply (dexec_step _ [] _ [_; _]); [apply (ds_timer booted run1); vm_compute; reflexivity|].
  eapply (dexec_step _ [_] _ [_]); [apply (ds_process expiry [] run1 run2); vm_compute; reflexivity|].
  eapply (dexec_step _ [] _ [_]).
  { apply (ds_pc_push POWER_STATE_STANDBY_DEEP_SLEEP POWER_STATE_ON run2 run2q). vm_compute. reflexivity. }
  eapply (dexec_step _ [_] _ []); [|apply dexec_refl].
  apply (ds_pc 1 "DEEP_SLEEP_OFF" run2q run2p run3); vm_compute; reflexivity.
Qed.

Lemma process_refines_spec_witness :
  status_of run3.1 = Status eSYSMGR_STATE_NTP_FAIL eTIMEQUALILTY_UNKNOWN "Last Known" ∧
  map msg_core (broadcasts (w_trace run3.2.2))
  = [(5, 3, "Last Known", "Unknown"); (1, 3, "Last Known", "Poor")] ++ map msg_core (broadcasts (w_trace booted.2.2)) ∧
  ∃ sent, m_queue booted.1 ++ sent = [expiry] ++ m_queue run3.1 ∧ Forall known_msg sent.
Proof.
  exact (@process_refines_spec good_env good_build [IEvent eSYSMGR_EVENT_TIMER_EXPIRY None; IWake] booted run3
    booted_inv demo_run).
Defined.

Lemma process_invariant_witness :
  daemon_inv run3 ∧ (m_timequality run3.1 = eTIMEQUALILTY_SECURE ↔ m_state run3.1 = eSYSMGR_STATE_RUNNING).
Proof.
  apply (@process_invariant good_env good_build [IEvent eSYSMGR_EVENT_TIMER_EXPIRY None; IWake]
    "/etc/systimemgr.conf" (conf_world demo_lines) (snd new_object) (fst new_object) booted run3 good_env_sane);
    [vm_compute; reflexivity|vm_compute; reflexivity|exact demo_run].
Defined.

Lemma power_event_routed_witness :
  @pc_power_event good_env POWER_STATE_STANDBY_DEEP_SLEEP POWER_STATE_ON
    (booted.1, (booted.2.1, booted.2.2))
  = (_ ← @on_mgr Z (@powerhandler good_env TimeSrcObj TimeSyncObj "DEEP_SLEEP_OFF"); mret tt)
      (booted.1, (booted.2.1, booted.2.2)).
Proof.
  apply (@power_event_routed good_env good_build IARM_POWERSTATE_STANDBY_DEEP_SLEEP IARM_POWERSTATE_ON);
    [reflexivity|].
  intros _. eexists. vm_compute. split; [reflexivity|]. split; [reflexivity|]. by eexists.
Defined.

(** A clock that is unsynchronised twice. *)
Definition late_clock : overrides := {|
  o_clock := Some (1700000000, 0); o_ntp := 1700000000; o_settime := true;
  o_adjtimex := [(5, 0); (0, 64)];
  o_active := λ _, 0; o_selectable := (0, 1); o_sources := (0, 1);
  o_offset := (0, S754_zero false); o_waitsync := 0; o_rpc := λ _, None;
  o_timeUtc := ""; o_mtime := None; o_subscribe := []; o_pwr := []
|}.

Lemma ntp_monitor_announces_witness :
  ∃ w', @runNTPSyncMonitor (test_env late_clock) good_build 5 0 good_world = (Ret (Some 3%nat), w') ∧
    announced (w_fs w') ∧ adjtimex_calls (w_trace w') = 3%nat ∧ quiet good_world w'.
Proof.
  apply (@ntp_monitor_announces (test_env late_clock) good_build (λ i, default (0, 0) ([(5, 0); (0, 64)] !! i)) 2 5
    good_world (test_env_disk late_clock)); try reflexivity; [|lia].
  intros i Hi. destruct i as [|[|i]]; [reflexivity|reflexivity|lia].
Defined.

#[local] Existing Instance good_env.
#[local] Existing Instance good_build.
#[local] Instance good_src_total : ITimeSrcSpec true TimeSrcObj :=
  TimeSrcObj_spec true (λ _, good_env_sane) (λ _, good_env_json).
#[local] Instance good_sync_total : ITimeSyncSpec true TimeSyncObj :=
  TimeSyncObj_spec true (λ _, good_env_sane) (λ _, good_mfr).

Definition ready_demo : mgr TimeSrcObj TimeSyncObj :=
  set_pathEventMap path_events (demo eSYSMGR_STATE_NTP_WAIT eTIMEQUALILTY_POOR).
Definition acquired_world : world :=
  World {[ "/tmp/systimemgr/drm" := File "1700000000" 0; "/tmp/systimemgr/ntp" := File "" 0 ]} [].

Lemma ntp_announcement_published_witness :
  ∃ s' now, (_ ← runPathMonitor_round; processMsg 1)
      (ready_demo, (empty_bus, good_world)) = (Ret tt, s') ∧
    status_of s'.1 = Status eSYSMGR_STATE_NTP_ACQUIRED eTIMEQUALILTY_GOOD "NTP" ∧ m_queue s'.1 = [] ∧
    broadcasts (w_trace s'.2.2)
    = status_msg (status_of s'.1) ePUBLISH_NTP_SUCCESS "Good" now :: broadcasts (w_trace good_world).
Proof.
  apply (@ntp_announcement_published good_env good_build _ _ ready_demo IARM_BUS_SYSTIME_MGR_NAME (InotifyEvent 4 "ntp") [InotifyEvent 4 "drm"]
    empty_bus good_world ltac:(reflexivity) eq_refl ltac:(done) good_env_sane eq_refl eq_refl eq_refl eq_refl (demo_healthy _ _ 2 ltac:(lia))).
  by apply list_elem_of_here.
Defined.

Lemma conf_lines_demo : conf_lines (w_fs (conf_world demo_lines)) "/etc/systimemgr.conf" = demo_lines.
Proof. vm_compute. reflexivity. Qed.

Lemma demo_lines_known : Forall (@known_line good_env good_build) demo_lines.
Proof. repeat (apply Forall_cons; split; [by split; intros ?; try discriminate; eexists|]). by apply Forall_nil. Qed.

Lemma process_never_fails_witness :
  fresh (2 * 2 + 2) ∧ @returns daemon unit (@runTimer_round good_env good_build) run3 ∧
  @returns daemon unit (on_snd (sysTimeMgrPwrEventHandler POWER_STATE_ON POWER_STATE_STANDBY_DEEP_SLEEP)) run3 ∧
  @returns daemon _ (on_mgr (on_snd (@sysTimeMgrPwrConnectHandlingThreadFunc good_env 1))) run3 ∧
  @returns daemon _ (on_mgr (on_snd (@sys good_env Z (ThunderSubscribe "onInternetStatusChange")))) run3.
Proof.
  assert (fresh (2 * 2 + 2)) as Hf by (by vm_compute).
  assert (@iarm_built good_build) as HB by (by intros _).
  assert (Forall (@known_line good_env good_build) (conf_lines (w_fs (conf_world demo_lines)) "/etc/systimemgr.conf")) as Hk
    by (rewrite conf_lines_demo; exact demo_lines_known).
  assert (times_in_range (w_fs (conf_world demo_lines))) as Hr by (split; vm_compute; by split).
  assert (new_SysTimeMgr "/etc/systimemgr.conf" (conf_world demo_lines) = (Ret (fst new_object), conf_world demo_lines)) as Hn
    by (vm_compute; reflexivity).
  assert (@initialize good_env good_build (fst new_object, (empty_bus, conf_world demo_lines)) = (Ret tt, booted)) as Hi
    by (vm_compute; reflexivity).
  destruct (@process_never_fails good_env good_build "/etc/systimemgr.conf" (conf_world demo_lines) (fst new_object)
    booted run3 [IEvent eSYSMGR_EVENT_TIMER_EXPIRY None; IWake] good_env_sane good_env_json good_mfr HB Hk Hr Hn Hi demo_run Hf)
    as (_ & Ht & _ & _ & _ & _ & Hp & Hc & Hs & _).
  destruct (Hp eq_refl) as [_ Hpush]. split; [exact Hf|]. split; [exact Ht|]. split; [exact (Hpush _ _)|]. split; [exact Hc|exact Hs].
Defined.

(** The configuration of the demonstration, with files from before the restart. *)
Definition restarted_world : world :=
  World (<["/tmp/systimemgr/drm" := File "1700000000" 0]> (<["/tmp/systimemgr/ntp" := File "" 0]>
    (w_fs (conf_world demo_lines)))) [].

Lemma boot_state_from_files_witness :
  ∃ m0 s s', new_SysTimeMgr "/etc/systimemgr.conf" restarted_world = (Ret m0, restarted_world) ∧
    @initialize good_env good_build (m0, (empty_bus, restarted_world)) = (Ret tt, s) ∧
    (_ ← @runPathMonitor_start good_env;
     @processMsg good_env good_build (length (existing (w_fs restarted_world) path_events))) s = (Ret tt, s') ∧
    m_queue s'.1 = [] ∧ m_state s'.1 = eSYSMGR_STATE_RUNNING.
Proof.
  apply (@boot_state_from_files good_env good_build "/etc/systimemgr.conf" restarted_world good_env_sane good_env_json
    good_mfr (test_env_disk plain)); [by intros _| |split; vm_compute; by split].
  replace (conf_lines (w_fs restarted_world) "/etc/systimemgr.conf") with demo_lines by (vm_compute; reflexivity).
  exact demo_lines_known.
Defined.

Lemma process_types_witness :
  map (fmap src_type) (m_timerSrc run3.1) = [Some ("ntp", ""); Some ("drm", "/tmp/systimemgr/drm")] ∧
  map (fmap sync_type) (m_timerSync run3.1) = [Some ("rdkdefault", "/opt/secure/clock.txt")] ∧
  m_timerInterval run3.1 = 600000 ∧ m_chronyRfcEnabled run3.1 = false.
Proof.
  apply (@process_types good_env good_build "/etc/systimemgr.conf" demo_lines (conf_file demo_lines)
    (conf_world demo_lines) (fst new_object) booted run3 [IEvent eSYSMGR_EVENT_TIMER_EXPIRY None; IWake]);
    [exact demo_lines_ok|vm_compute; reflexivity|reflexivity|done|vm_compute; reflexivity
    |vm_compute; reflexivity|exact demo_run].
Defined.

Lemma bus_messages_consistent_witness :
  ∃ new, broadcasts (w_trace run3.2.2) = new ++ broadcasts (w_trace booted.2.2) ∧
    Forall (λ msg, msg_fits msg ∧ core_ok (msg_core msg)) new.
Proof.
  exact (@bus_messages_consistent good_env good_build [IEvent eSYSMGR_EVENT_TIMER_EXPIRY None; IWake] booted run3
    booted_inv demo_run).
Defined.

Lemma run2_inv : daemon_inv run2.
Proof.
  apply (dexec_inv [IEvent eSYSMGR_EVENT_TIMER_EXPIRY None] booted run2); [|exact booted_inv].
  eapply (dexec_step _ [] _ [_]); [apply (ds_timer booted run1); vm_compute; reflexivity|].
  eapply (dexec_step _ [_] _ []); [apply (ds_process expiry [] run1 run2); vm_compute; reflexivity|apply dexec_refl].
Qed.

(** Secure time came first, and network time waits in the queue. *)
Definition secure_first (d : daemon) : daemon :=
  (set_state eSYSMGR_STATE_SECURE_TIME_ACQUIRED (set_quality eTIMEQUALILTY_GOOD
     (set_queue [mkSysTimeMsg eSYSMGR_EVENT_NTP_AVAILABLE None] d.1)), d.2).
Definition secured : daemon := secure_first booted.
Definition secured_ntp : daemon :=
  snd (@processMsg_round good_env good_build (mkSysTimeMsg eSYSMGR_EVENT_NTP_AVAILABLE None) [] secured).

Lemma secured_inv (d : daemon) : daemon_inv d → daemon_inv (secure_first d).
Proof.
  intros (Hsm & Hmap & _). split_and!; try done. apply Forall_singleton. split; [done|set_solver].
Qed.

Lemma source_stays_last_known_witness :
  m_state secured_ntp.1 = eSYSMGR_STATE_RUNNING ∧ acquired (status_of secured_ntp.1) = true ∧
  m_timersrc secured_ntp.1 = "Last Known" ∧
  ∃ new, broadcasts (w_trace secured_ntp.2.2) = new ++ broadcasts (w_trace secured.2.2) ∧
    Forall (λ msg, msg_timerSrc msg = "Last Known") new.
Proof.
  split; [vm_compute; reflexivity|].
  apply (@source_stays_last_known good_env good_build [] [IEvent eSYSMGR_EVENT_NTP_AVAILABLE None] secured secured
    secured_ntp (secured_inv _ booted_inv) eq_refl (dexec_refl _)); [|left; vm_compute; reflexivity].
  eapply (dexec_step _ [_] _ []); [|apply dexec_refl].
  apply (ds_process (mkSysTimeMsg eSYSMGR_EVENT_NTP_AVAILABLE None) []); vm_compute; reflexivity.
Defined.

(** Secure time came first; then a wake-up. *)
Definition secured_told : daemon := secure_first run2.
Definition secured_q : daemon :=
  snd (on_snd (sysTimeMgrPwrEventHandler POWER_STATE_STANDBY_DEEP_SLEEP POWER_STATE_ON) secured_told).
Definition secured_p : daemon := snd (on_snd (sysTimeMgrPwrEventHandlingThreadFunc_round 1) secured_q).
Definition secured_woken : daemon := snd (@power_locked good_env "DEEP_SLEEP_OFF" secured_p).

Lemma secured_push : @dexec good_env good_build secured_told [] secured_q.
Proof.
  eapply (dexec_step _ [] _ []); [|apply dexec_refl].
  apply (ds_pc_push POWER_STATE_STANDBY_DEEP_SLEEP POWER_STATE_ON secured_told secured_q). vm_compute. reflexivity.
Qed.
Lemma secured_wakes : @dstep good_env good_build secured_q [IWake] secured_woken.
Proof. apply (ds_pc 1 "DEEP_SLEEP_OFF" secured_q secured_p secured_woken); vm_compute; reflexivity. Qed.

Lemma clients_are_told_witness :
  m_state secured_woken.1 = eSYSMGR_STATE_SECURE_TIME_ACQUIRED ∧
  ∃ msg, broadcasts (w_trace secured_woken.2.2) = msg :: broadcasts (w_trace secured_q.2.2) ∧
    msg_event msg = 5 ∧ tells (msg_core msg) (status_of secured_woken.1) ∧ msg_message msg = "Good".
Proof.
  split; [vm_compute; reflexivity|].
  destruct (@clients_are_told good_env good_build [] secured_told secured_q IARM_BUS_SYSTIME_MGR_NAME) as [_ Hw].
  - exact (secured_inv _ run2_inv).
  - vm_compute. reflexivity.
  - left. vm_compute. reflexivity.
  - exact secured_push.
  - destruct (Hw secured_woken secured_wakes) as (msg & H1 & H2 & H3 & H4 & _). exists msg.
    split; [exact H1|]. split; [exact H2|]. split; [exact H3|]. rewrite H4. vm_compute. reflexivity.
Defined.
