(* ===== verification/Interleave.v ===== *)
(** * Interleave: the procedures without a lock, call by call

    The network procedure, the resynchronisation after a wake-up, the poll of the
    kernel's clock, the report of the offset and the two connection attempts hold no
    mutex while they talk to the outside.  Process takes each of them in one step;
    here each is stopped before any of its calls, with any other code in between:
    the rest of the daemon, other procedures, other processes that change files.
    To be stopped a procedure is needed as a tree of its calls ([tree]); trees are
    found by instance search ([Reified]) and proved to compute what the definitions
    of the other files compute, so nothing is translated twice. *)

From Corelib Require Import SpecFloat.
From S2P Require Import Prelude CString Platform TestEnv Interfaces TimeSync PubSub TimeSrc Factory.
From S2P Require Import SysTimeMgr MgrSpec MgrProps NetworkStatus PowerQueue Daemon Frame Calls Process System.

(** ** Trees of calls *)

Definition files : Type := gmap string file.

Inductive tree (A : Type) : Type :=
  | Leaf (r : outcome A)
  | Call (R : Set) (c : call R) (k : R → tree A)
  | Look (f : files → bool) (k : bool → tree A)
  | Store (f : files → files) (t : tree A).
Arguments Leaf {A} r.
Arguments Call {A R} c k.
Arguments Look {A} f k.
Arguments Store {A} f t.

Fixpoint graft {A B} (t : tree A) (k : A → tree B) : tree B :=
  match t with
  | Leaf (Ret a) => k a
  | Leaf (Throw e) => Leaf (Throw e)
  | Leaf Undef => Leaf Undef
  | Call c k' => Call c (λ r, graft (k' r) k)
  | Look f k' => Look f (λ b, graft (k' b) k)
  | Store f t => Store f (graft t k)
  end.

(** What a tree computes when nothing comes between its calls. *)
Fixpoint denote {E : Env} {A} (t : tree A) : M world A :=
  match t with
  | Leaf r => of_outcome r
  | Call c k => r ← sys c; denote (k r)
  | Look f k => b ← gets (λ w, f (w_fs w)); denote (k b)
  | Store f t => _ ← modify (set_fs f); denote t
  end.

Lemma denote_graft {E : Env} {A B} (t : tree A) (k : A → tree B) (w : world) :
  denote (graft t k) w = (denote t ≫= λ a, denote (k a)) w.
Proof.
  revert w. induction t as [[a|e|]|R c k' IH|f k' IH|f t IH]; intros w; try done; cbn [graft denote].
  - exact (IH _ _).
  - exact (IH _ _).
  - exact (IH _).
Qed.

(** ** The tree of a definition, the same on every platform *)

Class Reified {A} (m : ∀ E : Env, M world A) := {
  tree_of : tree A;
  tree_ok : ∀ E w, @denote E A tree_of w = m E w
}.
Arguments tree_of {A} m {_}.

#[export] Instance reified_ret {A} (a : A) : Reified (λ E, mret a).
Proof. by refine {| tree_of := Leaf (Ret a); tree_ok := _ |}. Defined.
#[export] Instance reified_sys {R : Set} (c : call R) : Reified (λ E, sys c).
Proof. by refine {| tree_of := Call c (λ r, Leaf (Ret r)); tree_ok := _ |}. Defined.
#[export] Instance reified_exists path : Reified (λ E, file_exists path).
Proof. by refine {| tree_of := Look (λ fs, bool_decide (is_Some (fs !! path))) (λ b, Leaf (Ret b)); tree_ok := _ |}. Defined.
#[export] Instance reified_store f : Reified (λ E, modify (set_fs f)).
Proof. by refine {| tree_of := Store f (Leaf (Ret tt)); tree_ok := _ |}. Defined.
#[export] Instance reified_bind {A B} (m : ∀ E : Env, M world A) (k : ∀ E : Env, A → M world B)
    {H1 : Reified m} {H2 : ∀ a, Reified (λ E, k E a)} : Reified (λ E, m E ≫= k E).
Proof.
  refine {| tree_of := graft (tree_of m) (λ a, tree_of (λ E, k E a)); tree_ok := _ |}.
  intros E w. rewrite denote_graft. unfold mbind, M_bind. rewrite tree_ok.
  destruct (m E w) as [[a|e|] w']; [exact (tree_ok (m := λ E, k E a) E w')|done|done].
Defined.
#[export] Instance reified_if {A} (b : bool) (m n : ∀ E : Env, M world A) {H1 : Reified m} {H2 : Reified n} :
  Reified (λ E, if b then m E else n E).
Proof. refine {| tree_of := if b then tree_of m else tree_of n; tree_ok := _ |}. intros E w. destruct b; apply tree_ok. Defined.
#[export] Instance reified_when (b : bool) (m : ∀ E : Env, M world unit) {H : Reified m} :
  Reified (λ E, when b (m E)).
Proof. exact (reified_if b m (λ E, mret tt)). Defined.

(** ** The procedures *)

(** Unfolds a definition and finds the tree of its body. *)
Ltac reify d := unfold d; typeclasses eauto.

Section procedures.
Context {B : Build}.

#[export] Instance create_file_reified path : Reified (λ E, create_file path).
Proof. reify @create_file. Defined.
#[export] Instance write_file_reified path d : Reified (λ E, write_file path d).
Proof. reify @write_file. Defined.
#[export] Instance set_mtime_reified path z : Reified (λ E, set_mtime path z).
Proof. reify @set_mtime. Defined.
#[export] Instance announce_reified path : Reified (λ E, notifypathAvailable path).
Proof. reify @notifypathAvailable. Defined.
#[export] Instance report_offset_reified : Reified (λ E, report_offset).
Proof. reify @report_offset. Defined.
#[export] Instance artefacts_reified : Reified (λ E, ntp_artefacts).
Proof. reify @ntp_artefacts. Defined.
#[export] Instance poll_reified : Reified (λ E, runNTPSyncMonitor 1 0).
Proof. simpl. typeclasses eauto. Defined.
#[export] Instance first_sync_reified : Reified (λ E, first_sync_pending).
Proof. reify @first_sync_pending. Defined.
#[export] Instance online_resync_reified : Reified (λ E, resync).
Proof. reify @resync. Defined.
#[export] Instance online_reified : Reified (λ E, processInternetOnline).
Proof. reify @processInternetOnline. Defined.
#[export] Instance wake_reified : Reified (λ E, deepsleepoff_resync).
Proof. reify @deepsleepoff_resync. Defined.
#[export] Instance connect_reified : Reified (λ E, sysTimeMgrPwrConnectHandlingThreadFunc 1).
Proof. simpl. typeclasses eauto. Defined.
End procedures.

(** The procedures and the fragments of thread functions that hold no mutex. *)
Inductive procedure := POnline | PResync | PPoll | POffset | PConnect | PSubscribe.

Section body.
Context {B : Build}.

Definition body {E : Env} (p : procedure) : M world unit :=
  match p with
  | POnline => processInternetOnline
  | PResync => deepsleepoff_resync
  | PPoll => _ ← runNTPSyncMonitor 1 0; mret tt
  | POffset => report_offset
  | PConnect => _ ← sysTimeMgrPwrConnectHandlingThreadFunc 1; mret tt
  | PSubscribe => _ ← sys (ThunderSubscribe "onInternetStatusChange"); mret tt
  end.

#[export] Instance body_reified p : Reified (λ E, body p).
Proof. destruct p; cbn [body]; typeclasses eauto. Defined.

End body.

(** ** What a procedure has done *)

(** [made t own t']: by the calls [own], most recent first, [t] has become [t']. *)
Inductive made {A} (t : tree A) : list ev → tree A → Prop :=
  | made_none : made t [] t
  | made_call {R : Set} (c : call R) k a own : made t own (Call c k) → made t (Ev c a :: own) (k a)
  | made_store f t' own : made t own (Store f t') → made t own t'.

(** A tree that looks at no file; one that does so at most at its start. *)
Fixpoint look_free {A} (t : tree A) : Prop :=
  match t with
  | Leaf _ => True
  | Call _ k => ∀ a, look_free (k a)
  | Look _ _ => False
  | Store _ t => look_free t
  end.
Definition opened {A} (t : tree A) (fs : files) : tree A :=
  match t with Look f k => k (f fs) | t => t end.

(** Evaluates the tree of a procedure up to the next test. *)
Ltac show_tree :=
  cbn [opened look_free graft tree_of body_reified online_reified first_sync_reified online_resync_reified
       wake_reified poll_reified artefacts_reified announce_reified create_file_reified write_file_reified
       set_mtime_reified report_offset_reified connect_reified
       reified_ret reified_sys reified_exists reified_store reified_bind reified_if reified_when].

Lemma body_opened {B : Build} p fs : look_free (opened (tree_of (λ E, body p)) fs).
Proof. destruct p; repeat (show_tree; try case_match; intros; try done). Qed.

(** ** A platform that gives recorded answers *)

(** Two calls of one constructor have answers of one type. *)
Definition same_type {R1 R2 : Set} (c : call R1) (d : call R2) : option (R1 = R2).
Proof. destruct c, d; first [exact (Some eq_refl) | exact None]. Defined.

Lemma same_type_refl {R : Set} (c : call R) : same_type c c = Some eq_refl.
Proof. by destruct c. Qed.

(** The [n]-th call since the start gets the [n]-th answer of [l]; calls that [l]
    does not have get the answers of [E]. *)
Definition replay (E : Env) (l : list ev) : Env := {|
  answer := λ R h c,
    match l !! length h with
    | Some (Ev d a) => match same_type d c with Some e => eq_rect _ (λ T : Set, T) a _ e | None => answer h c end
    | None => answer h c
    end;
  strftime_Ac := strftime_Ac;
  json_member := json_member;
  json_asString := json_asString;
  json_asBool := json_asBool;
  mfr_param_of_ll := mfr_param_of_ll;
  ll_of_mfr_param := ll_of_mfr_param
|}.

Lemma replay_answer (E : Env) l h {R : Set} (c : call R) a :
  l !! length h = Some (Ev c a) → @answer (replay E l) R h c = a.
Proof. intros Hl. simpl. by rewrite Hl, same_type_refl. Qed.

(** Run on that platform, a tree does what it has done. *)
Lemma replay_made (E : Env) {A} later (t : tree A) own t' fs :
  made t own t' → look_free t →
  ∃ fs', @denote (replay E (reverse (later ++ own))) A t (World fs []) = @denote (replay E (reverse (later ++ own))) A t' (World fs' own)
    ∧ look_free t'.
Proof.
  intros Ht Hf. revert later. induction Ht as [|R c k a own Ht IH|f t' own Ht IH]; intros later; [by exists fs| |].
  - destruct (IH (later ++ [Ev c a])) as (fs' & Hd & Hk). rewrite <- app_assoc in Hd. simpl in Hd.
    exists fs'. rewrite Hd. split; [|exact (Hk a)]. cbn [denote]. unfold mbind at 1, M_bind at 1, sys. simpl w_trace.
    rewrite (replay_answer E _ own c a); [done|].
    rewrite reverse_app, reverse_cons, <- app_assoc, lookup_app_r by (by rewrite length_reverse).
    by rewrite length_reverse, Nat.sub_diag.
  - destruct (IH later) as (fs' & Hd & Hk). by exists (f fs').
Qed.

(** A run only adds to the log. *)
Lemma denote_extends {E : Env} {A} (t : tree A) w : ∃ new, w_trace (snd (denote t w)) = new ++ w_trace w.
Proof.
  revert w. induction t as [r|R c k IH|f k IH|f t IH]; intros w; cbn [denote].
  - by exists [].
  - unfold mbind, M_bind, sys. destruct (IH (answer (w_trace w) c) (log (Ev c (answer (w_trace w) c)) w)) as [new Hn].
    exists (new ++ [Ev c (answer (w_trace w) c)]). by rewrite Hn, <- app_assoc.
  - exact (IH _ w).
  - exact (IH (set_fs f w)).
Qed.

(** ** Procedures among everything else *)

(** A procedure that was started: the tree of what is left, its calls so far, the
    files as it saw them. *)
Record job := Job { j_proc : procedure; j_rest : tree unit; j_own : list ev; j_files : files }.

Record pool := Pool { p_world : world; p_jobs : list job }.

Section pool.
Context {E : Env} {B : Build}.

(** Starting a procedure; one call, look or store of one of them. *)
Inductive job_step : pool → pool → Prop :=
  | job_start p s :
      job_step s (Pool (p_world s) (p_jobs s ++ [Job p (tree_of (λ E, body p)) [] (w_fs (p_world s))]))
  | job_call i p (R : Set) (c : call R) k own fs s :
      p_jobs s !! i = Some (Job p (Call c k) own fs) →
      let a := answer (w_trace (p_world s)) c in
      job_step s (Pool (log (Ev c a) (p_world s)) (<[i := Job p (k a) (Ev c a :: own) fs]> (p_jobs s)))
  | job_look i p f k own fs s :
      p_jobs s !! i = Some (Job p (Look f k) own fs) →
      job_step s (Pool (p_world s) (<[i := Job p (k (f (w_fs (p_world s)))) own (w_fs (p_world s))]> (p_jobs s)))
  | job_store i p f t own fs s :
      p_jobs s !! i = Some (Job p (Store f t) own fs) →
      job_step s (Pool (set_fs f (p_world s)) (<[i := Job p t own fs]> (p_jobs s))).

(** Besides, a call of the rest of the daemon (Calls: it commands nothing and does
    not poll), and a change of the files by the daemon or another process. *)
Inductive pool_step : pool → pool → Prop :=
  | pool_job s s' : job_step s s' → pool_step s s'
  | pool_other e s : controlling (ev_call e) = false → pool_step s (Pool (log e (p_world s)) (p_jobs s))
  | pool_files fs s : pool_step s (Pool (World fs (w_trace (p_world s))) (p_jobs s)).

(** What holds of a job: it has not begun, or it has become what it is from its
    tree with the files it saw. *)
Definition job_ok (j : job) : Prop :=
  (j_rest j = tree_of (λ E, body (j_proc j)) ∧ j_own j = []) ∨
  made (opened (tree_of (λ E, body (j_proc j))) (j_files j)) (j_own j) (j_rest j).

Lemma body_look p f k fs : tree_of (λ E, body p) = Look f k → opened (tree_of (λ E, body p)) fs = k (f fs).
Proof. by intros ->. Qed.

(** The first disjunct is the second where the tree does not begin with a look. *)
Lemma job_made j : job_ok j → (∀ f k, j_rest j ≠ Look f k) →
  made (opened (tree_of (λ E, body (j_proc j))) (j_files j)) (j_own j) (j_rest j).
Proof.
  intros [[Hr ->]|Ht] Hn; [|done]. rewrite Hr in *. destruct (tree_of (λ E, body (j_proc j))); try constructor.
  by destruct (Hn f k).
Qed.

Lemma made_look_free {A} (t : tree A) own t' : made t own t' → look_free t → look_free t'.
Proof. induction 1 as [|R c k a own _ IH|f t' own _ IH]; intros Hf; [done|exact (IH Hf a)|exact (IH Hf)]. Qed.

Lemma jobs_step_ok s s' : job_step s s' → Forall job_ok (p_jobs s) → Forall job_ok (p_jobs s').
Proof.
  intros Hstep Hok. destruct Hstep as [p s|i p R c k own fs s Hi a|i p f k own fs s Hi|i p f t own fs s Hi]; simpl.
  { apply Forall_app. split; [done|]. apply Forall_singleton. by left. }
  all: pose proof (Forall_lookup_1 _ _ _ _ Hok Hi) as Hj; apply Forall_insert; [done|]; right; simpl.
  - by apply (made_call _ c k), (job_made _ Hj).
  - destruct Hj as [[Hr Ho]|Ht]; simpl in *; [|by destruct (made_look_free _ _ _ Ht (body_opened p fs))].
    subst own. rewrite (body_look p f k) by done. constructor.
  - by apply (made_store _ f t), (job_made _ Hj).
Qed.
End pool.

(** ** What the procedures ask for, counted *)

Definition times (a : chrony_action) (l : list ev) : nat := length (filter (λ x, x = a) (actions l)).

Lemma times_app a l1 l2 : times a (l1 ++ l2) = (times a l1 + times a l2)%nat.
Proof. unfold times, actions. by rewrite omap_app, filter_app, length_app. Qed.
Lemma times_one a e : times a [e] = if bool_decide (action_of e = Some a) then 1%nat else 0%nat.
Proof.
  unfold times, actions. simpl. destruct (action_of e) as [b|]; [|done]. rewrite filter_cons.
  case_decide; case_bool_decide; by simplify_eq.
Qed.
Lemma times_cons a e l : times a (e :: l) = (times a [e] + times a l)%nat.
Proof. exact (times_app a [e] l). Qed.

Lemma asked_times a e w : asked a (log e w) = (times a [e] + asked a w)%nat.
Proof. exact (times_cons a e (w_trace w)). Qed.

Lemma other_times a e : controlling (ev_call e) = false → times a [e] = 0%nat.
Proof. rewrite times_one. destruct e as [R c r]. by destruct c. Qed.

(** Which actions a procedure may ask for, once. *)
Definition commands (a : chrony_action) (p : procedure) : bool :=
  match p with POnline => true | PResync => negb (bool_decide (a = AOnline)) | _ => false end.

Section counts.
Context {B : Build}.

Lemma body_quiet {E : Env} p w : wp true (body p) (λ _ w', quiet w w') w.
Proof.
  destruct p; cbn [body].
  - apply internet_quiet.
  - apply wp_deepsleepoff_resync. by intros w' Hq _.
  - apply wp_bind. eapply wp_mono; [apply ntp_poll_quiet|]. by intros r w' Hq.
  - apply report_offset_quiet.
  - apply wp_bind. eapply wp_mono; [apply connect_quiet|]. by intros r w' Hq.
  - apply wp_bind, wp_sys, wp_ret. eauto with quiet.
Qed.

Lemma body_returns {E : Env} p w : ∃ w', body p w = (Ret tt, w').
Proof. destruct (proj1 (wp_total_run _ _ _) (body_quiet p w)) as ([] & w' & Hrun & _). by exists w'. Qed.

Lemma body_asks {E : Env} a p w w' :
  body p w = (Ret tt, w') → (asked a w' ≤ asked a w + if commands a p then 1 else 0)%nat.
Proof.
  intros Hrun. assert (keeps controls (body p) → (asked a w' ≤ asked a w + if commands a p then 1 else 0)%nat) as Hkeep.
  { intros Hk. specialize (Hk w). rewrite Hrun in Hk. rewrite (asked_same a w w' Hk). lia. }
  destruct p; cbn [body commands] in *.
  - destruct (online_asks a _ _ Hrun). lia.
  - destruct (resync_asks a _ _ Hrun). by destruct (bool_decide (a = AOnline)).
  - unfold mbind, M_bind in Hrun. destruct (runNTPSyncMonitor 1 0 w) as [[r|e|] w1] eqn:Hp; [|done|done].
    injection Hrun as <-. destruct (poll_asks r w w1 Hp) as [Ha _]. rewrite (Ha a). lia.
  - apply Hkeep, report_offset_controls.
  - apply Hkeep, keeps_bind; [apply connect_controls|done].
  - apply Hkeep, keeps_bind; [by apply sys_controls|done].
Qed.

(** ** Every procedure, whatever comes between its calls *)

(** On some platform the procedure makes these calls in one go; finished, it has
    returned what it returns there. *)
Lemma job_atomic (E : Env) j : job_ok j →
  let E' := replay E (reverse (j_own j)) in
  ∃ w' later, @body B E' (j_proc j) (World (j_files j) []) = (Ret tt, w') ∧
    w_trace w' = later ++ j_own j ∧ (∀ r, j_rest j = Leaf r → r = Ret tt ∧ later = []).
Proof.
  intros Hok E'. destruct (@body_returns E' (j_proc j) (World (j_files j) [])) as [w' Hrun].
  exists w'. destruct j as [p rest own fs]. simpl in *.
  assert (∃ later, w_trace w' = later ++ [] ) as [l Hl].
  { destruct (@denote_extends E' _ (tree_of (λ E, body p)) (World fs [])) as [l Hl].
    rewrite tree_ok, Hrun in Hl. by exists l. }
  assert ((∀ f k, rest ≠ Look f k) ∨ (own = [] ∧ ∃ f k, rest = Look f k)) as [Hn|[-> (f & k & ->)]].
  { destruct rest; try (by left). right. destruct Hok as [[_ Ho]|Ht]; [simpl in Ho; eauto|].
    by destruct (made_look_free _ _ _ Ht (body_opened p fs)). }
  2:{ exists l. split; [done|]. by split. }
  pose proof (job_made _ Hok Hn) as Ht. simpl in Ht.
  assert (@denote E' _ (tree_of (λ E, body p)) (World fs []) = @denote E' _ (opened (tree_of (λ E, body p)) fs) (World fs []))
    as Hopen by (by destruct (tree_of (λ E, body p))).
  destruct (replay_made E [] _ _ _ fs Ht (body_opened p fs)) as (fs' & Hd & _). simpl in Hd. fold E' in Hd.
  rewrite <- Hopen, tree_ok, Hrun in Hd.
  destruct (@denote_extends E' _ rest (World fs' own)) as [later Hlater]. rewrite <- Hd in Hlater. simpl in Hlater.
  exists later. split_and!; [done|done|]. intros r ->. simpl in Hd. injection Hd as <- ->. simpl in Hlater.
  split; [done|]. by apply (app_inv_tail own), eq_sym.
Qed.

Definition in_one_go (j : job) : Prop :=
  ∃ (E' : Env) w' later, @body B E' (j_proc j) (World (j_files j) []) = (Ret tt, w') ∧
    w_trace w' = later ++ j_own j ∧ (∀ r, j_rest j = Leaf r → r = Ret tt ∧ later = []).

Lemma job_in_one_go (E : Env) j : job_ok j → in_one_go j.
Proof. intros Hok. exists (replay E (reverse (j_own j))). by apply job_atomic. Qed.

Lemma steps_justified_app l1 l2 : steps_justified (l1 ++ l2) = true → steps_justified l2 = true.
Proof. induction l1 as [|e l1 IH]; [done|]. simpl. intros [_ H]%andb_prop. by apply IH. Qed.

Lemma job_justified (E : Env) j : job_ok j → j_proc j = POnline →
  steps_justified (j_own j) = true ∧ (AMakestep ∈ actions (j_own j) → is_Some (j_files j !! "/tmp/clock-event")).
Proof.
  intros Hok Hp. destruct (job_atomic E j Hok) as (w' & later & Hrun & Hw & _). rewrite Hp in Hrun.
  destruct (@makestep_only_justified (replay E (reverse (j_own j))) (World (j_files j) []))
    as (w1 & l & Hrun1 & Hl & _ & Hj & Hf).
  cbn [body] in Hrun. rewrite Hrun1 in Hrun. injection Hrun as <-. rewrite app_nil_r in Hl. simpl in Hl.
  assert (l = later ++ j_own j) as -> by congruence.
  split; [by apply steps_justified_app in Hj|]. intros Ha. apply Hf. unfold actions. rewrite omap_app.
  apply elem_of_app. by right.
Qed.

Lemma job_asks (E : Env) a j : job_ok j → (times a (j_own j) ≤ if commands a (j_proc j) then 1 else 0)%nat.
Proof.
  intros Hok. destruct (job_atomic E j Hok) as (w' & later & Hrun & Hw & _).
  pose proof (@body_asks _ a _ _ _ Hrun) as Ha. unfold asked in Ha. simpl in Ha. rewrite Hw in Ha.
  fold (times a (later ++ j_own j)) in Ha. rewrite times_app in Ha. simpl in Ha. lia.
Qed.
End counts.

(** The log counts what the procedures have asked for. *)
Definition total (a : chrony_action) (l : list job) : nat := sum_list_with (λ j, times a (j_own j)) l.

Lemma total_insert a i j j' l :
  l !! i = Some j → (total a (<[i := j']> l) + times a (j_own j) = total a l + times a (j_own j'))%nat.
Proof.
  revert i. induction l as [|x l IH]; intros [|i] Hi; try done; simpl in *; [injection Hi as ->; lia|].
  specialize (IH i Hi). unfold total in *. lia.
Qed.

Lemma job_counts {E : Env} {B : Build} a s s' : job_step s s' →
  (asked a (p_world s') + total a (p_jobs s) = asked a (p_world s) + total a (p_jobs s'))%nat.
Proof.
  intros Hstep. destruct Hstep as [p s|i p R c k own fs s Hi x|i p f k own fs s Hi|i p f t own fs s Hi]; simpl.
  - unfold total. rewrite sum_list_with_app. simpl. unfold times. simpl. lia.
  - pose proof (total_insert a i _ (Job p (k x) (Ev c x :: own) fs) _ Hi) as H. simpl in H.
    rewrite (times_cons a (Ev c x) own) in H. rewrite asked_times. lia.
  - pose proof (total_insert a i _ (Job p (k (f (w_fs (p_world s)))) own (w_fs (p_world s))) _ Hi) as H. simpl in H. lia.
  - pose proof (total_insert a i _ (Job p t own fs) _ Hi) as H. simpl in H. unfold asked in *. simpl. lia.
Qed.

Lemma pool_keeps {E : Env} {B : Build} s s' : pool_step s s' →
  (Forall job_ok (p_jobs s) → Forall job_ok (p_jobs s')) ∧
  ∀ a, (asked a (p_world s') + total a (p_jobs s) = asked a (p_world s) + total a (p_jobs s'))%nat.
Proof.
  intros [s1 s2 Hj|e s1 He|fs s1]; (split; [|intros a]); try done.
  - by apply jobs_step_ok.
  - by apply job_counts.
  - simpl. by rewrite asked_times, (other_times a e He).
Qed.

Section property.
Context {E : Env} {B : Build}.

(** C15: the procedures are right whatever comes between their calls.  However the
    procedures that hold no mutex are interleaved, call by call, with one another,
    with calls of the rest of the daemon and with changes of the files: the calls of
    each are those it makes in one go on some platform that answers them alike, and
    finished it has returned; the network procedure asks chronyd for a step only
    directly after its own wait that found a source or its own reading of an offset
    above one second, and only when it saw that this boot has been synchronised; and
    each action was asked of chronyd at most once for every network procedure and
    every resynchronisation started, going online for the former only. *)
Theorem makestep_justified_interleaved (w : world) (s : pool) :
  rtc pool_step (Pool w []) s →
  (∀ j, j ∈ p_jobs s →
     in_one_go j ∧
     (j_proc j = POnline →
        steps_justified (j_own j) = true ∧
        (AMakestep ∈ actions (j_own j) → is_Some (j_files j !! "/tmp/clock-event")))) ∧
  (∀ a, (asked a (p_world s) ≤ asked a w + length (filter (λ j, commands a (j_proc j) = true) (p_jobs s)))%nat).
Proof.
  intros Hr.
  assert (Forall job_ok (p_jobs s) ∧ ∀ a, asked a (p_world s) = (asked a w + total a (p_jobs s))%nat) as [Hok Hc].
  { assert (∀ s0, rtc pool_step s0 s → Forall job_ok (p_jobs s0) →
      (∀ a, asked a (p_world s0) = (asked a w + total a (p_jobs s0))%nat) →
      Forall job_ok (p_jobs s) ∧ ∀ a, asked a (p_world s) = (asked a w + total a (p_jobs s))%nat) as Hind.
    { clear Hr. intros s0 Hr0. induction Hr0 as [|s0 s1 s2 Hstep _ IH]; [done|]. intros Hok Hc.
      destruct (pool_keeps _ _ Hstep) as [Hok' Hc']. apply IH; [auto|]. intros a. specialize (Hc a). specialize (Hc' a). lia. }
    apply (Hind _ Hr); [apply Forall_nil_2|]. intros a. unfold total. simpl. lia. }
  split.
  - intros j Hj. rewrite Forall_forall in Hok. specialize (Hok j Hj). split.
    + by apply (job_in_one_go E).
    + by apply (job_justified E).
  - intros a. rewrite (Hc a). clear Hc Hr. induction Hok as [|j l Hj _ IH]; [done|].
    pose proof (job_asks E a j Hj) as Ha. rewrite filter_cons. unfold total in *. simpl.
    destruct (commands a (j_proc j)); case_decide; simpl; (done || lia).
Qed.
End property.

(** ** The daemon among them *)

(** A tree none of whose calls is a broadcast or sets the clock. *)
Fixpoint quiet_tree {A} (t : tree A) : Prop :=
  match t with
  | Leaf _ => True
  | Call c k => ∀ a, quiet_ev (Ev c a) ∧ quiet_tree (k a)
  | Look _ k => ∀ b, quiet_tree (k b)
  | Store _ t => quiet_tree t
  end.

Lemma made_quiet {A} (t : tree A) own t' : made t own t' → quiet_tree t → quiet_tree t'.
Proof. induction 1 as [|R c k a own _ IH|f t' own _ IH]; intros Hq; [done|exact (proj2 (IH Hq a))|exact (IH Hq)]. Qed.

Section daemon.
Context {E : Env} {B : Build}.

Lemma body_quiet_tree p : quiet_tree (tree_of (λ E, body p)).
Proof. destruct p; repeat (show_tree; cbn [quiet_tree]; try case_match; intros; try split; try done). Qed.

(** The daemon, its procedures, and its platform at every step.  Between the steps
    of the daemon a procedure makes a call; a step under a mutex can be on any
    platform, since the answers it gets may depend on what others did meanwhile; and
    the log may have the calls of others in between, as long as they are no messages,
    with other files at the end. *)
Inductive istep : daemon * list job → list input → daemon * list job → Prop :=
  | i_daemon (E' : Env) l s s' jobs : @dstep E' B s l s' → istep (s, jobs) l (s', jobs)
  | i_others s jobs w' :
      broadcasts (w_trace w') = broadcasts (w_trace s.2.2) → istep (s, jobs) [] ((s.1, (s.2.1, w')), jobs)
  | i_job s jobs w' jobs' :
      job_step (Pool s.2.2 jobs) (Pool w' jobs') → istep (s, jobs) [] ((s.1, (s.2.1, w')), jobs').

Inductive iexec : daemon * list job → list input → daemon * list job → Prop :=
  | iexec_refl s : iexec s [] s
  | iexec_step s1 l1 s2 l2 s3 : istep s1 l1 s2 → iexec s2 l2 s3 → iexec s1 (l1 ++ l2) s3.

Lemma job_step_quiet s s' : job_step s s' → Forall job_ok (p_jobs s) →
  broadcasts (w_trace (p_world s')) = broadcasts (w_trace (p_world s)).
Proof.
  intros Hstep Hok. destruct Hstep as [p s|i p R c k own fs s Hi a|i p f k own fs s Hi|i p f t own fs s Hi]; try done.
  assert (quiet_ev (Ev c a)) as [Hq _].
  { pose proof (job_made _ (Forall_lookup_1 _ _ _ _ Hok Hi)) as Ht. simpl in Ht.
    assert (quiet_tree (opened (tree_of (λ E, body p)) fs)) as Hop.
    { pose proof (body_quiet_tree p) as H. destruct (tree_of (λ E, body p)); simpl in *; done. }
    exact (proj1 (made_quiet _ _ _ (Ht ltac:(done)) Hop a)). }
  unfold broadcasts. simpl. by rewrite Hq.
Qed.

(** What a step of others makes of the process. *)
Lemma advances_others (s : daemon) w' :
  broadcasts (w_trace w') = broadcasts (w_trace s.2.2) → advances [] s (s.1, (s.2.1, w')).
Proof.
  intros Hb. split; try done; simpl.
  - by rewrite Hb.
  - exists []. rewrite app_nil_r. by split; [|apply Forall_nil].
  - exists []. by split; [|apply Forall_nil].
Qed.

Lemma iexec_inv x l x' : iexec x l x' → daemon_inv x.1 → Forall job_ok x.2 →
  advances l x.1 x'.1 ∧ daemon_inv x'.1 ∧ Forall job_ok x'.2.
Proof.
  intros Hx. induction Hx as [x|x1 l1 x2 l2 x3 Hstep _ IH]; intros Hinv Hok; [split_and!; [by apply advances_quiet|done|done]|].
  assert (advances l1 x1.1 x2.1 ∧ daemon_inv x2.1 ∧ Forall job_ok x2.2) as (Ha & Hi & Hj).
  { destruct Hstep as [E' l s s' jobs Hd|s jobs w' Hb|s jobs w' jobs' Hj]; simpl in *.
    - assert (@dexec E' B s l s') as Hx by (rewrite <- (app_nil_r l); by eapply dexec_step, dexec_refl).
      destruct Hinv as (Hsm & Hmap & Hrest). split_and!; [by apply (@dexec_advances E' B)| |done].
      by eapply (@dexec_inv E' B).
    - split_and!; [by apply advances_others|done|done].
    - split_and!; [|done|exact (jobs_step_ok _ _ Hj Hok)]. by apply advances_others, (job_step_quiet _ _ Hj). }
  destruct (IH Hi Hj) as (Ha' & Hi' & Hj'). split_and!; [by eapply advances_trans|done|done].
Qed.

(** C2: the daemon refines the abstract status machine also when its calls to the
    outside are mixed.  However the procedures that hold no mutex make their calls
    between the steps of the threads and callbacks, whatever platform each step
    meets, and whatever calls of others the log has in between: the status is the
    abstract machine's on the inputs consumed, the messages on the bus are those it
    announces, in order, the queue loses nothing, the invariant of the daemon holds,
    and each procedure has done what it does in one go on some platform. *)
Theorem interleaved_process_refines (l : list input) (s s' : daemon) (jobs : list job) :
  daemon_inv s → iexec (s, []) l (s', jobs) →
  daemon_inv s' ∧ status_of s'.1 = spec_inputs (status_of s.1) l ∧
  map msg_core (broadcasts (w_trace s'.2.2))
  = reverse (spec_msgs (m_publish s.1) (status_of s.1) l) ++ map msg_core (broadcasts (w_trace s.2.2)) ∧
  (∃ sent, m_queue s.1 ++ sent = taken l ++ m_queue s'.1 ∧ Forall known_msg sent) ∧
  (∀ j, j ∈ jobs → in_one_go j).
Proof.
  intros Hinv Hx. destruct (iexec_inv _ _ _ Hx Hinv) as ([Hs Hm Hq _ _ _ _] & Hi & Hj); [by apply Forall_nil|].
  split_and!; [done..|]. intros j Hin. rewrite Forall_forall in Hj. by apply (job_in_one_go E), Hj.
Qed.
End daemon.

(** ** Witness

    A wake-up and a transition to full connectivity at once: both burst, wait and
    step, their calls mixed with each other and with a message of the daemon. *)
Definition il_env : Env := test_env {|
  o_clock := o_clock plain; o_ntp := o_ntp plain; o_settime := true; o_adjtimex := [];
  o_active := λ cmd, if decide (cmd = "/bin/systemctl is-active --quiet chronyd.service") then 0 else 3;
  o_selectable := (0, 0); o_sources := (0, 1); o_offset := o_offset plain; o_waitsync := 0;
  o_rpc := o_rpc plain; o_timeUtc := o_timeUtc plain; o_mtime := None; o_subscribe := []; o_pwr := [] |}.
Definition il_world : world := World {["/tmp/clock-event" := File "" 0]} [].

(** The next step of a procedure. *)
Definition act (i : nat) (s : pool) : pool :=
  match p_jobs s !! i with
  | Some (Job p (Call c k) own fs) =>
      let a := @answer il_env _ (w_trace (p_world s)) c in
      Pool (log (Ev c a) (p_world s)) (<[i := Job p (k a) (Ev c a :: own) fs]> (p_jobs s))
  | Some (Job p (Look f k) own fs) =>
      Pool (p_world s) (<[i := Job p (k (f (w_fs (p_world s)))) own (w_fs (p_world s))]> (p_jobs s))
  | Some (Job p (Store f t) own fs) => Pool (set_fs f (p_world s)) (<[i := Job p t own fs]> (p_jobs s))
  | _ => s
  end.
Definition begin (p : procedure) (s : pool) : pool :=
  Pool (p_world s) (p_jobs s ++ [Job p (tree_of (λ E, @body good_build E p)) [] (w_fs (p_world s))]).
Definition daemon_call (s : pool) : pool := Pool (log (Ev TimeNull 1700000000) (p_world s)) (p_jobs s).

Lemma act_steps i s : rtc (@pool_step il_env good_build) s (act i s).
Proof.
  unfold act. destruct (p_jobs s !! i) as [[p [r|R c k|f k|f t] own fs]|] eqn:Hi; try apply rtc_refl; apply rtc_once, pool_job.
  - exact (job_call i p R c k own fs s Hi).
  - exact (job_look i p f k own fs s Hi).
  - exact (job_store i p f t own fs s Hi).
Qed.
Lemma begin_steps p s : rtc (@pool_step il_env good_build) s (begin p s).
Proof. apply rtc_once, pool_job, job_start. Qed.
Lemma daemon_steps s : rtc (@pool_step il_env good_build) s (daemon_call s).
Proof. by apply rtc_once, pool_other. Qed.

Definition il_schedule : list (pool → pool) :=
  [begin POnline; act 0; act 0; act 0; begin PResync; act 1; act 1; act 0; act 1; daemon_call; act 0; act 1; act 1].
Definition il_end : pool := foldl (λ s f, f s) (Pool il_world []) il_schedule.

Lemma il_reached : rtc (@pool_step il_env good_build) (Pool il_world []) il_end.
Proof.
  unfold il_end, il_schedule. cbn [foldl].
  repeat first [apply rtc_refl | etrans; [|first [apply act_steps|apply begin_steps|apply daemon_steps]]].
Qed.

Lemma makestep_justified_interleaved_witness :
  asked AMakestep (p_world il_end) = 2%nat ∧ steps_justified (w_trace (p_world il_end)) = false ∧
  (∀ j, p_jobs il_end !! 0%nat = Some j → steps_justified (j_own j) = true) ∧
  (asked AMakestep (p_world il_end) ≤ 2)%nat.
Proof.
  destruct (@makestep_justified_interleaved il_env good_build il_world il_end il_reached) as [Hj Ha].
  split; [vm_compute; reflexivity|]. split; [vm_compute; reflexivity|]. split.
  - intros j Hl. apply (Hj j); [by eapply list_elem_of_lookup_2|]. revert Hl. vm_compute. by intros [= <-].
  - specialize (Ha AMakestep). vm_compute in Ha. vm_compute. exact Ha.
Defined.

(** The resynchronisation has begun when the timer expires; it goes on while the
    message is processed, on a platform of its own. *)
Definition il_job (f : pool → pool) (x : daemon * list job) : daemon * list job :=
  let s := f (Pool x.1.2.2 x.2) in ((x.1.1, (x.1.2.1, p_world s)), p_jobs s).
Definition il_daemon (f : daemon → outcome unit * daemon) (x : daemon * list job) : daemon * list job := (snd (f x.1), x.2).

Definition x0 : daemon * list job := il_job (act 0) (il_job (begin PResync) (booted, [])).
Definition x1 : daemon * list job := il_job (act 0) (il_daemon (@runTimer_round good_env good_build) x0).
Definition x2 : daemon * list job := il_job (act 0) (il_daemon (@processMsg_round good_env good_build expiry []) x1).

Lemma il_job_steps (i : nat) x :
  @istep il_env good_build x [] (il_job (act i) x) ∨ il_job (act i) x = x.
Proof.
  destruct x as [[m [b w]] jobs]. unfold il_job, act. simpl.
  destruct (jobs !! i) as [[p [r|R c k|f k|f t] own fs]|] eqn:Hi; simpl; [by right|left..|by right].
  - exact (i_job (m, (b, w)) jobs _ _ (job_call i p R c k own fs (Pool w jobs) Hi)).
  - exact (i_job (m, (b, w)) jobs _ _ (job_look i p f k own fs (Pool w jobs) Hi)).
  - exact (i_job (m, (b, w)) jobs _ _ (job_store i p f t own fs (Pool w jobs) Hi)).
Qed.

Lemma il_job_exec i x l y :
  @iexec il_env good_build (il_job (act i) x) l y → @iexec il_env good_build x l y.
Proof. intros Hx. destruct (il_job_steps i x) as [Hs|Heq]; [by apply (iexec_step _ [] _ l _ Hs)|by rewrite Heq in Hx]. Qed.

Lemma il_run : @iexec il_env good_build (booted, []) [IEvent eSYSMGR_EVENT_TIMER_EXPIRY None] x2.
Proof.
  apply (iexec_step _ [] (il_job (begin PResync) (booted, [])) [_]).
  { apply (i_job booted [] _ _ (job_start PResync (Pool booted.2.2 []))). }
  apply (il_job_exec 0). fold x0.
  apply (iexec_step _ [] (il_daemon (@runTimer_round good_env good_build) x0) [_]).
  { apply (i_daemon good_env [] x0.1), ds_timer. vm_compute. reflexivity. }
  apply (il_job_exec 0). fold x1.
  apply (iexec_step _ [_] (il_daemon (@processMsg_round good_env good_build expiry []) x1) []).
  { apply (i_daemon good_env _ x1.1), (ds_process expiry []); vm_compute; reflexivity. }
  apply (il_job_exec 0), iexec_refl.
Qed.

Lemma interleaved_process_refines_witness :
  map msg_core (broadcasts (w_trace x2.1.2.2))
  = [(1, 3, "Last Known", "Poor")] ++ map msg_core (broadcasts (w_trace booted.2.2)) ∧
  length x2.2 = 1%nat ∧ status_of x2.1.1 = Status eSYSMGR_STATE_NTP_FAIL eTIMEQUALILTY_UNKNOWN "Last Known".
Proof.
  destruct (@interleaved_process_refines il_env good_build [IEvent eSYSMGR_EVENT_TIMER_EXPIRY None] booted x2.1 x2.2
    booted_inv il_run) as (_ & Hs & Hm & _). rewrite Hs, Hm.
  split; [vm_compute; reflexivity|]. split; vm_compute; reflexivity.
Defined.
