(* ===== verification/Whole.v ===== *)
(** * Whole: the process as [main] puts it together

    [SysTimeMgr::run] starts a thread for each of the entry functions of
    systimemgr.cpp; the power subscriber has threads of its own, and the buses call
    back.  [wstep] is a step of the whole process: a step of Process on the object,
    taken by the thread the code gives it to and where that thread is, together
    with a step of NetworkStatus on the shared state of the network threads.  The
    theorems are about what needs the whole: who asks chronyd to act on the clock
    and how often. *)

From Corelib Require Import SpecFloat.
From S2P Require Import Prelude CString Platform TestEnv Interfaces TimeSync PubSub TimeSrc Factory.
From S2P Require Import SysTimeMgr MgrSpec MgrProps NetworkStatus PowerQueue Daemon Frame Calls NetworkShutdown Process Effects System.

(** src: systimemgr.cpp:467-525 SysTimeMgr::runPathMonitor
    Where the path monitor is: before the scan, before setting the watch up, in
    the loop, returned. *)
Inductive path_at := PathScan | PathWatch | PathRead | PathEnd.

(** src: systimemgr.cpp:313-424 SysTimeMgr::runNTPSyncMonitor
    The synchronisation monitor is polling, or has returned. *)
Inductive ntp_at := NtpPoll | NtpDone.

(** The process: the object with the buses and the world, the threads started by
    [run], where each is that is not always at the top of its loop, the connect
    thread of the power controller's subscriber, and the callbacks of a wake-up
    that have left the critical section and not yet resynchronised. *)
Record whole := Whole {
  wh_daemon : daemon;
  wh_started : list thread;
  wh_path : path_at;
  wh_ntp : ntp_at;
  wh_net : net_sys;
  wh_connecting : bool;
  wh_resyncs : nat
}.

Definition with_daemon (d : daemon) (s : whole) : whole :=
  Whole d (wh_started s) (wh_path s) (wh_ntp s) (wh_net s) (wh_connecting s) (wh_resyncs s).
Definition with_path (p : path_at) (s : whole) : whole :=
  Whole (wh_daemon s) (wh_started s) p (wh_ntp s) (wh_net s) (wh_connecting s) (wh_resyncs s).
Definition with_ntp (n : ntp_at) (s : whole) : whole :=
  Whole (wh_daemon s) (wh_started s) (wh_path s) n (wh_net s) (wh_connecting s) (wh_resyncs s).
Definition with_net (n : net_sys) (s : whole) : whole :=
  Whole (wh_daemon s) (wh_started s) (wh_path s) (wh_ntp s) n (wh_connecting s) (wh_resyncs s).
Definition with_connecting (b : bool) (s : whole) : whole :=
  Whole (wh_daemon s) (wh_started s) (wh_path s) (wh_ntp s) (wh_net s) b (wh_resyncs s).
Definition with_resyncs (n : nat) (s : whole) : whole :=
  Whole (wh_daemon s) (wh_started s) (wh_path s) (wh_ntp s) (wh_net s) (wh_connecting s) n.

Section whole_steps.
Context {E : Env} {B : Build}.

(** ** The threads of [run] *)

(** src: systimemgr.cpp:264-269 SysTimeMgr::processThr *)
Inductive process_thread (s : whole) : list input → whole → Prop :=
  | process_message val q d' :
      m_queue (wh_daemon s).1 = val :: q → processMsg_round val q (wh_daemon s) = (Ret tt, d') →
      process_thread s [IEvent (sm_event val) (sm_args val)] (with_daemon d' s).

(** src: systimemgr.cpp:271-277 SysTimeMgr::timerThr *)
Inductive timer_thread (s : whole) : list input → whole → Prop :=
  | timer_round d' : runTimer_round (wh_daemon s) = (Ret tt, d') → timer_thread s [] (with_daemon d' s).

(** src: systimemgr.cpp:279-285 SysTimeMgr::pathThr *)
Inductive path_thread (s : whole) : list input → whole → Prop :=
  | path_scans d' :
      wh_path s = PathScan → runPathMonitor_start (wh_daemon s) = (Ret tt, d') →
      path_thread s [] (with_path PathWatch (with_daemon d' s))
  | path_watches r d' :
      wh_path s = PathWatch → runPathMonitor_watch (wh_daemon s) = (Ret r, d') →
      path_thread s [] (with_path (if (r : bool) then PathRead else PathEnd) (with_daemon d' s))
  | path_reads r d' :
      wh_path s = PathRead → runPathMonitor_round (wh_daemon s) = (Ret r, d') →
      path_thread s [] (with_path (if (r : bool) then PathRead else PathEnd) (with_daemon d' s)).

(** src: systimemgr.cpp:287-292 SysTimeMgr::nwEventSubscribeThr
    [Subscribe] is a call of the process; its result decides where the thread goes
    on. *)
Inductive subscribe_thread (s : whole) : list input → whole → Prop :=
  | subscribe_tests : n_sub (wh_net s) = SCheck → subscribe_thread s [] (with_net (sub_check (wh_net s)) s)
  | subscribe_calls_thunder r d' :
      n_sub (wh_net s) = SCall →
      on_mgr (on_snd (sys (ThunderSubscribe "onInternetStatusChange"))) (wh_daemon s) = (Ret r, d') →
      subscribe_thread s []
        (with_net (if bool_decide (r = 0) then sub_ok (wh_net s) else sub_wait (wh_net s) SWait) (with_daemon d' s))
  | subscribe_times_out : n_sub (wh_net s) = SWait → subscribe_thread s [] (with_net (sub_wait (wh_net s) SCheck) s).

(** src: systimemgr.cpp:294-299 SysTimeMgr::nwEventProcessThr *)
Inductive event_thread (s : whole) : list input → whole → Prop :=
  | event_checks : n_proc (wh_net s) = PCheck → event_thread s [] (with_net (proc_check (wh_net s)) s)
  | event_processes d' :
      n_proc (wh_net s) = PProcess → on_mgr (on_snd processInternetOnline) (wh_daemon s) = (Ret tt, d') →
      event_thread s [] (with_net (set_proc PCheck (wh_net s)) (with_daemon d' s))
  | event_woken : n_proc (wh_net s) = PWait → event_thread s [] (with_net (set_proc PCheck (wh_net s)) s).

(** src: systimemgr.cpp:301-305 SysTimeMgr::ntpSyncMonitorThr
    One poll; the thread ends with the first that finds the clock synchronised. *)
Inductive ntp_thread (s : whole) : list input → whole → Prop :=
  | ntp_polls r d' :
      wh_ntp s = NtpPoll → on_mgr (on_snd (runNTPSyncMonitor 1 0)) (wh_daemon s) = (Ret r, d') →
      ntp_thread s [] (with_ntp (if bool_decide (is_Some (r : option nat)) then NtpDone else NtpPoll) (with_daemon d' s)).

(** src: systimemgr.cpp:207-222 SysTimeMgr::run
    The functions the threads are constructed with. *)
Definition thread_step (t : thread) : whole → list input → whole → Prop :=
  match t with
  | processThr => process_thread
  | timerThr => timer_thread
  | pathThr => path_thread
  | nwEventProcessThr => event_thread
  | nwEventSubscribeThr => subscribe_thread
  | ntpSyncMonitorThr => ntp_thread
  end.

(** ** Power *)

(** A power callback past its critical section: after a wake-up it has still to
    resynchronise. *)
Definition after_power (message : string) (d : daemon) (s : whole) : whole :=
  with_resyncs (length (power_inputs message) + wh_resyncs s) (with_daemon d s).

(** src: systimemgr.cpp:798-816 SysTimeMgr::powerhandler
    The callers of the power handler.  Over IARM it runs on the threads of the
    bus; with the power controller on the event thread, one event at a time, and
    the controller's callback only queues. *)
Inductive power_step (s : whole) : list input → whole → Prop :=
  | power_iarm id cur new message d1 d' :
      PWRMGRPLUGIN_ENABLED = false →
      on_snd (powereventHandler id cur new) (wh_daemon s) = (Ret (Some (SysTimeMgr_powerhandler, message)), d1) →
      power_locked message d1 = (Ret tt, d') → power_step s (power_inputs message) (after_power message d' s)
  | power_event this message d1 d' :
      PWRMGRPLUGIN_ENABLED = true → wh_resyncs s = 0%nat → handler_started (wh_daemon s).2.1 this = true →
      on_snd (sysTimeMgrPwrEventHandlingThreadFunc_round this) (wh_daemon s)
        = (Ret (Some (SysTimeMgr_powerhandler, message)), d1) →
      power_locked message d1 = (Ret tt, d') → power_step s (power_inputs message) (after_power message d' s)
  | power_nothing this d' :
      PWRMGRPLUGIN_ENABLED = true → wh_resyncs s = 0%nat → handler_started (wh_daemon s).2.1 this = true →
      on_snd (sysTimeMgrPwrEventHandlingThreadFunc_round this) (wh_daemon s) = (Ret None, d') →
      power_step s [] (with_daemon d' s)
  | power_queues cur new d' :
      PWRMGRPLUGIN_ENABLED = true → on_snd (sysTimeMgrPwrEventHandler cur new) (wh_daemon s) = (Ret tt, d') →
      power_step s [] (with_daemon d' s)
  | power_connects r d' :
      wh_connecting s = true →
      on_mgr (on_snd (sysTimeMgrPwrConnectHandlingThreadFunc 1)) (wh_daemon s) = (Ret r, d') →
      power_step s [] (with_connecting (negb (bool_decide (is_Some (r : option Z)))) (with_daemon d' s))
  | power_resyncs n d' :
      wh_resyncs s = S n → on_mgr (on_snd deepsleepoff_resync) (wh_daemon s) = (Ret tt, d') →
      power_step s [] (with_resyncs n (with_daemon d' s)).

(** ** The rest *)

(** src: systimemgr.cpp:735-746 SysTimeMgr::getTimeStatus
    The static function the bus calls for a query: the object exists; the caller's
    message is filled in and the result is 0. *)
Definition getTimeStatus_callback (pMsg : TimerMsg) : M daemon (TimerMsg * Z) :=
  r ← on_mgr (getTimeStatus pMsg);
  mret (r, 0).

(** Thunder's notifications, the clients' queries and the other processes. *)
Inductive bus_step (s : whole) : list input → whole → Prop :=
  | bus_silent p st :
      n_sub (wh_net s) = SCall ∨ (n_sub (wh_net s) = SExit ∧ m_networkeventsubscribed (n_st (wh_net s)) = true) →
      handle_internetStatusChange p (n_st (wh_net s)) = (st, false) →
      bus_step s [] (with_net (with_state st (n_signals (wh_net s)) (wh_net s)) s)
  | bus_signal p st net' :
      n_sub (wh_net s) = SCall ∨ (n_sub (wh_net s) = SExit ∧ m_networkeventsubscribed (n_st (wh_net s)) = true) →
      handle_internetStatusChange p (n_st (wh_net s)) = (st, true) →
      notify_one (with_state st (S (n_signals (wh_net s))) (wh_net s)) net' → bus_step s [] (with_net net' s)
  | bus_query p r d' :
      getTimeStatus_callback p (wh_daemon s) = (Ret r, d') → bus_step s [IQuery p] (with_daemon d' s)
  | bus_files fs :
      let d := wh_daemon s in bus_step s [] (with_daemon (d.1, (d.2.1, World fs (w_trace d.2.2))) s).

(** A step of the process.  The static [NetworkStatusSrc] lives until the process
    exits, which it does not while the threads run. *)
Inductive wstep (s : whole) (l : list input) (s' : whole) : Prop :=
  | w_thread t : t ∈ wh_started s → thread_step t s l s' → wstep s l s'
  | w_power : power_step s l s' → wstep s l s'
  | w_bus : bus_step s l s' → wstep s l s'.

Inductive wexec : whole → list input → whole → Prop :=
  | wexec_refl s : wexec s [] s
  | wexec_step s1 l1 s2 l2 s3 : wstep s1 l1 s2 → wexec s2 l2 s3 → wexec s1 (l1 ++ l2) s3.

(** *** Who queues what *)

(** Who takes a step. *)
Inductive actor := ByThread (t : thread) | ByPower | ByBus.

Definition actor_step (a : actor) : whole → list input → whole → Prop :=
  match a with
  | ByThread t => λ s l s', t ∈ wh_started s ∧ thread_step t s l s'
  | ByPower => power_step
  | ByBus => bus_step
  end.

(** What a step of [a] has to put in the queue: the timer an expiry, the path
    monitor what it finds in the files and in the inotify events, nobody else
    anything. *)
Definition queued_by (a : actor) (s : whole) : list sysTimeMgrEvent :=
  let w := (wh_daemon s).2.2 in
  match a with
  | ByThread timerThr => [eSYSMGR_EVENT_TIMER_EXPIRY]
  | ByThread pathThr =>
      match wh_path s with
      | PathScan => scan_finds path_events w
      | PathRead => read_finds path_events w
      | _ => []
      end
  | _ => []
  end.

(** A run with what its steps have to put in the queue. *)
Inductive queueing : whole → list input → list sysTimeMgrEvent → whole → Prop :=
  | queueing_refl s : queueing s [] [] s
  | queueing_step a s1 l1 s2 l2 es s3 :
      actor_step a s1 l1 s2 → queueing s2 l2 es s3 → queueing s1 (l1 ++ l2) (queued_by a s1 ++ es) s3.

(** The connect thread was started. *)
Definition connecting (b : bus) : bool :=
  match instance b with Some (IpowerControllerSubscriber o) => pc_connecting o | _ => false end.

(** After [run] has started the threads. *)
Definition whole_start (ts : list thread) (d : daemon) : whole :=
  Whole d ts PathScan NtpPoll net_start (connecting d.2.1) 0.

(** src: main.cpp:26-54 main
    The process that [main] has brought up: the object, [initialize], [run]. *)
Inductive boots (cfg pid : string) (w : world) : whole → Prop :=
  | boots_up m0 w0 d d' ts :
      new_SysTimeMgr cfg w = (Ret m0, w0) → initialize (m0, (empty_bus, w0)) = (Ret tt, d) →
      run pid true d = (Ret ts, d') → boots cfg pid w (whole_start ts d').
End whole_steps.

(** ** The parts *)

Definition wakes (l : list input) : nat :=
  length (filter (λ i, match i with IWake => true | _ => false end = true) l).

Lemma wakes_app l1 l2 : wakes (l1 ++ l2) = (wakes l1 + wakes l2)%nat.
Proof. unfold wakes. by rewrite filter_app, length_app. Qed.

Lemma power_inputs_wakes message : wakes (power_inputs message) = length (power_inputs message).
Proof. unfold power_inputs. by case_bool_decide. Qed.

Section footprints.
Context {E : Env} {B : Build}.

Notation world_of s := (wh_daemon s).2.2.

(** What a step makes of the parts the theorems look at: it commands nothing and
    leaves the network threads alone, or moves only those, or is one of the four
    operations that command or ask something, or a wake-up. *)
Inductive footprint (s : whole) (l : list input) (s' : whole) : Prop :=
  | fp_still :
      controls (world_of s') = controls (world_of s) → wakes l = 0%nat → wh_net s' = wh_net s →
      wh_ntp s' = wh_ntp s → wh_resyncs s' = wh_resyncs s → footprint s l s'
  | fp_net :
      controls (world_of s') = controls (world_of s) → l = [] → net_step (wh_net s) (wh_net s') → n_dtor (wh_net s') = n_dtor (wh_net s) →
      (n_proc (wh_net s) ≠ PProcess) ∨ n_proc (wh_net s') = PProcess →
      wh_ntp s' = wh_ntp s → wh_resyncs s' = wh_resyncs s → footprint s l s'
  | fp_online :
      processInternetOnline (world_of s) = (Ret tt, world_of s') → l = [] →
      n_proc (wh_net s) = PProcess → wh_net s' = set_proc PCheck (wh_net s) →
      wh_ntp s' = wh_ntp s → wh_resyncs s' = wh_resyncs s → footprint s l s'
  | fp_poll r :
      runNTPSyncMonitor 1 0 (world_of s) = (Ret r, world_of s') → l = [] → wh_net s' = wh_net s →
      ntpSyncMonitorThr ∈ wh_started s → wh_ntp s = NtpPoll →
      wh_ntp s' = (if bool_decide (is_Some (r : option nat)) then NtpDone else NtpPoll) →
      wh_resyncs s' = wh_resyncs s → footprint s l s'
  | fp_wake n :
      controls (world_of s') = controls (world_of s) → wakes l = n → wh_net s' = wh_net s →
      wh_ntp s' = wh_ntp s → wh_resyncs s' = (n + wh_resyncs s)%nat → footprint s l s'
  | fp_resync :
      deepsleepoff_resync (world_of s) = (Ret tt, world_of s') → l = [] → wh_net s' = wh_net s →
      wh_ntp s' = wh_ntp s → wh_resyncs s = S (wh_resyncs s') → footprint s l s'.

Lemma on_world_run {A} (c : M world A) r (d d' : daemon) :
  on_mgr (on_snd c) d = (r, d') → c d.2.2 = (r, d'.2.2).
Proof.
  destruct d as [m [b w]]. unfold on_mgr, on_snd. simpl. destruct (c w) as [x w']. simpl. by intros [= <- <-].
Qed.

Lemma still_run {A} (m : M daemon A) r (d d' : daemon) :
  keeps (λ s : daemon, controls s.2.2) m → m d = (r, d') → controls d'.2.2 = controls d.2.2.
Proof. apply (keeps_run (λ s : daemon, controls s.2.2)). Qed.

Lemma bus_run_still {A} (c : M (bus * world) A) r (d d' : daemon) :
  keeps (λ bw : bus * world, bw.2) c → on_snd c d = (r, d') → controls d'.2.2 = controls d.2.2.
Proof. intros Hc Hr. by destruct (on_bus_same c r d d' Hc Hr) as [_ ->]. Qed.

Lemma power_locked_controls message : keeps (λ s : daemon, controls s.2.2) (power_locked message).
Proof. unfold power_locked. apply keeps_when, on_mgr_controls, deepsleepoff_locked_controls. Qed.

Lemma proc_check_dtor net : n_dtor (proc_check net) = n_dtor net.
Proof. unfold proc_check. by destruct (internetUpPending _), (stopProcessing _). Qed.
Lemma sub_wait_dtor net p : n_dtor (sub_wait net p) = n_dtor net.
Proof. unfold sub_wait. by destruct (stopProcessing _). Qed.

Lemma notify_one_proc net net' :
  notify_one net net' → n_dtor net' = n_dtor net ∧ (n_proc net ≠ PProcess ∨ n_proc net' = PProcess).
Proof.
  intros [s Hp|s Hw|s Hp Hw]; [split; [done|left; by rewrite Hp]|split; [apply sub_wait_dtor|]|split; [done|]];
    unfold sub_wait; [destruct (stopProcessing _)|]; simpl; destruct (n_proc s); auto.
Qed.

Lemma thread_footprint t s l s' : t ∈ wh_started s → thread_step t s l s' → footprint s l s'.
Proof.
  intros Hin Hstep. destruct t; simpl in Hstep.
  - destruct Hstep as [val q d' Hq Hr]. apply fp_still; try done. exact (still_run _ _ _ _ (processMsg_controls val q) Hr).
  - destruct Hstep as [d' Hr]. apply fp_still; try done. exact (still_run _ _ _ _ runTimer_controls Hr).
  - destruct Hstep as [d' _ Hr|r d' _ Hr|r d' _ Hr]; apply fp_still; try done;
      [exact (still_run _ _ _ _ path_start_controls Hr)|exact (still_run _ _ _ _ path_watch_controls Hr)
      |exact (still_run _ _ _ _ path_round_controls Hr)].
  - destruct Hstep as [Hp|d' Hp Hr|Hp].
    + apply fp_net; try done; [by apply net_proc, step_check|apply proc_check_dtor|left; by rewrite Hp].
    + apply fp_online; try done. exact (on_world_run _ _ _ _ Hr).
    + apply fp_net; try done; [by apply net_spurious|left; by rewrite Hp].
  - destruct Hstep as [Hp|r d' Hp Hr|Hp].
    + apply fp_net; try done; [by apply net_sub, step_sub_check|by unfold sub_check; destruct (_ || _)|].
      unfold sub_check. destruct (_ || _); simpl; destruct (n_proc (wh_net s)); auto.
    + apply fp_net; try done.
      * refine (still_run _ _ _ _ _ Hr). apply on_world_controls. by apply sys_controls.
      * apply net_sub. simpl. by case_bool_decide; [apply step_sub_ok|apply step_sub_fail].
      * simpl. by case_bool_decide; [|apply sub_wait_dtor].
      * simpl. unfold sub_wait. case_bool_decide; [|destruct (stopProcessing _)]; simpl; destruct (n_proc (wh_net s)); auto.
    + apply fp_net; try done; [by apply net_sub, step_sub_timeout|apply sub_wait_dtor|].
      simpl. unfold sub_wait. destruct (stopProcessing _); simpl; destruct (n_proc (wh_net s)); auto.
  - destruct Hstep as [r d' Hp Hr]. eapply fp_poll; try done. exact (on_world_run _ _ _ _ Hr).
Qed.

Lemma power_footprint s l s' : power_step s l s' → footprint s l s'.
Proof.
  intros Hstep. destruct Hstep as [id cur new message d1 d' _ Hc Hr|this message d1 d' _ _ _ Hc Hr|this d' _ _ _ Hc|cur new d' _ Hc
    |r d' _ Hr|n d' Hn Hr].
  1,2: apply (fp_wake _ _ _ (length (power_inputs message))); [|apply power_inputs_wakes|done..]; simpl;
    rewrite (still_run _ _ _ _ (power_locked_controls message) Hr).
  - exact (bus_run_still _ _ _ _ (powereventHandler_keeps _ _ _ _) Hc).
  - exact (bus_run_still _ _ _ _ (pwr_round_keeps _) Hc).
  - apply fp_still; try done. exact (bus_run_still _ _ _ _ (pwr_round_keeps _) Hc).
  - apply fp_still; try done. exact (bus_run_still _ _ _ _ (pwr_push_keeps _ _) Hc).
  - apply fp_still; try done. refine (still_run _ _ _ _ _ Hr). apply on_world_controls, connect_controls.
  - apply fp_resync; try done. exact (on_world_run _ _ _ _ Hr).
Qed.


Lemma bus_footprint s l s' : bus_step s l s' → footprint s l s'.
Proof.
  intros Hstep. destruct Hstep as [p st Hsub Hh|p st net' Hsub Hh Hn|p r d' Hr|fs].
  - apply fp_net; try done; [by eapply net_silent|simpl; destruct (n_proc (wh_net s)); auto].
  - apply fp_net; try done; [by eapply net_signal|apply (proj1 (notify_one_proc _ _ Hn))|exact (proj2 (notify_one_proc _ _ Hn))].
  - apply fp_still; try done. refine (still_run _ _ _ _ _ Hr). unfold getTimeStatus_callback.
    apply keeps_bind; [apply on_mgr_controls, getTimeStatus_controls|done].
  - by apply fp_still.
Qed.

Lemma wstep_footprint s l s' : wstep s l s' → footprint s l s'.
Proof. intros [t Hin Ht|Hp|Hb]; [by eapply thread_footprint|by apply power_footprint|by apply bus_footprint]. Qed.
End footprints.

(** ** Invariants of the whole *)

Section invariants.
Context {E : Env} {B : Build}.

Lemma wstep_started s l s' : wstep s l s' → wh_started s' = wh_started s.
Proof. intros [t Hin Ht|Hp|Hb]; [destruct t; by destruct Ht|by destruct Hp|by destruct Hb]. Qed.

Lemma wexec_started s l s' : wexec s l s' → wh_started s' = wh_started s.
Proof. induction 1 as [|s1 l1 s2 l2 s3 Hstep _ IH]; [done|]. rewrite IH. by eapply wstep_started. Qed.

(** A property of the process that every step preserves. *)
Lemma wexec_ind_inv (I : list input → whole → Prop) s l s' :
  (∀ k s1 l1 s2, wstep s1 l1 s2 → I k s1 → I (k ++ l1) s2) → I [] s → wexec s l s' → I l s'.
Proof.
  intros Hstep H0 Hexec. change l with ([] ++ l). revert H0. generalize (@nil input).
  induction Hexec as [s|s1 l1 s2 l2 s3 H1 _ IH]; intros k Hk; [by rewrite app_nil_r|].
  rewrite app_assoc. by eapply IH, Hstep.
Qed.

(** The steps are those of the parts. *)
Lemma thread_dstep t s l s' :
  thread_step t s l s' → dstep (wh_daemon s) l (wh_daemon s') ∨ (l = [] ∧ wh_daemon s' = wh_daemon s).
Proof.
  intros Hstep. destruct t; simpl in Hstep.
  - destruct Hstep as [val q d' Hq Hr]. left. exact (ds_process val q _ _ Hq Hr).
  - destruct Hstep as [d' Hr]. left. exact (ds_timer _ _ Hr).
  - destruct Hstep as [d' _ Hr|r d' _ Hr|r d' _ Hr]; left;
      [exact (ds_scan _ _ Hr)|exact (ds_watch r _ _ Hr)|exact (ds_path r _ _ Hr)].
  - destruct Hstep as [Hp|d' Hp Hr|Hp]; [by right|left; exact (ds_internet _ _ Hr)|by right].
  - destruct Hstep as [Hp|r d' Hp Hr|Hp]; [by right|left; exact (ds_subscribe r _ _ Hr)|by right].
  - destruct Hstep as [r d' Hp Hr]. left. exact (ds_ntp_poll r _ _ Hr).
Qed.
Lemma power_dstep s l s' : power_step s l s' → dstep (wh_daemon s) l (wh_daemon s').
Proof.
  intros Hstep. destruct Hstep as [id cur new message d1 d' _ Hc Hr|this message d1 d' _ _ Ht Hc Hr|this d' _ _ Ht Hc|cur new d' _ Hc
    |r d' _ Hr|n d' Hn Hr].
  - exact (ds_iarm id cur new message _ _ _ Hc Hr).
  - exact (ds_pc this message _ _ _ Ht Hc Hr).
  - exact (ds_pc_none this _ _ Ht Hc).
  - exact (ds_pc_push cur new _ _ Hc).
  - exact (ds_connect r _ _ Hr).
  - exact (ds_resync _ _ Hr).
Qed.
Lemma bus_dstep s l s' : bus_step s l s' → dstep (wh_daemon s) l (wh_daemon s') ∨ (l = [] ∧ wh_daemon s' = wh_daemon s).
Proof.
  intros Hstep. destruct Hstep as [p st Hsub Hh|p st net' Hsub Hh Hn|p r d' Hr|fs]; [by right|by right| |].
  - left. unfold getTimeStatus_callback, mbind, M_bind in Hr.
    destruct (on_mgr (getTimeStatus p) (wh_daemon s)) as [[x|e|] d] eqn:Hx; [|done|done]. injection Hr as _ <-.
    exact (ds_query p x _ _ Hx).
  - left. exact (ds_files fs _).
Qed.

Lemma wexec_dexec s l s' : wexec s l s' → dexec (wh_daemon s) l (wh_daemon s').
Proof.
  induction 1 as [|s1 l1 s2 l2 s3 Hstep _ IH]; [by apply dexec_refl|].
  assert (dstep (wh_daemon s1) l1 (wh_daemon s2) ∨ (l1 = [] ∧ wh_daemon s2 = wh_daemon s1)) as [Hd|[-> Hd]].
  { destruct Hstep as [t _ Ht|Hp|Hb]; [by eapply thread_dstep|left; by apply power_dstep|by apply bus_dstep]. }
  - by eapply dexec_step.
  - by rewrite Hd in IH.
Qed.

(** The network threads run, and nobody calls the destructor. *)
Definition net_ok (s : whole) : Prop := rtc joined_step net_start (wh_net s) ∧ n_dtor (wh_net s) = D0.

Lemma wstep_net_ok s l s' : wstep s l s' → net_ok s → net_ok s'.
Proof.
  intros Hstep [Hr Hd]. destruct (wstep_footprint _ _ _ Hstep) as
    [_ _ Hn|_ _ Hn Hk|_ _ Hp Hn|r _ _ Hn|n _ _ Hn|_ _ Hn]; unfold net_ok; try by rewrite Hn.
  - split; [|by rewrite Hk]. eapply rtc_r; [exact Hr|]. by apply run_threads.
  - rewrite Hn. split; [|done]. eapply rtc_r; [exact Hr|]. by apply run_threads; [apply net_proc, step_done|].
Qed.

(** Without the subscription thread there is no signal. *)
Definition unsubscribed (s : whole) : Prop :=
  nwEventSubscribeThr ∉ wh_started s → n_sub (wh_net s) = SCheck ∧ n_signals (wh_net s) = 0%nat.

Lemma wstep_unsubscribed s l s' : wstep s l s' → unsubscribed s → unsubscribed s'.
Proof.
  intros Hstep Hu Hn. rewrite (wstep_started _ _ _ Hstep) in Hn. destruct (Hu Hn) as [Hs Hg].
  destruct Hstep as [t Hin Ht|Hp|Hb].
  - destruct t; destruct Ht; simpl; try done; try congruence.
    unfold proc_check. by destruct (internetUpPending _), (stopProcessing _).
  - by destruct Hp.
  - destruct Hb as [p st [?|[? _]] _|p st net' [?|[? _]] _ _|p r d' _|fs]; simpl; congruence || done.
Qed.

(** What chronyd is asked: each wake-up not yet answered, and the processing that
    is on, may still ask once. *)
Definition asked_bound (w : world) (a : chrony_action) (k : list input) (s : whole) : Prop :=
  (asked a (wh_daemon s).2.2 + (if bool_decide (a = AOnline) then 0 else wh_resyncs s)
     + (if n_proc (wh_net s) is PProcess then 1 else 0)
   ≤ asked a w + (if bool_decide (a = AOnline) then 0 else wakes k) + n_runs (wh_net s))%nat.

Lemma net_step_runs net net' :
  net_step net net' → n_proc net ≠ PProcess ∨ n_proc net' = PProcess →
  ((if n_proc net' is PProcess then 1 else 0) + n_runs net
   ≤ (if n_proc net is PProcess then 1 else 0) + n_runs net')%nat.
Proof.
  intros Hstep Hor.
  destruct Hstep as [s s' Hp|s s' Hp|s Hp|s p st Hsub Hh|s p st s' Hsub Hh Hn|s Hd st|s Hd]; simpl; try lia.
  - destruct Hp as [s Hp|s Hp]; [|by destruct Hor].
    rewrite Hp. unfold proc_check. destruct (internetUpPending _), (stopProcessing _); simpl; lia.
  - destruct Hp; unfold sub_check, sub_wait; [destruct (_ || _)| |destruct (stopProcessing _)..]; simpl; lia.
  - remember (with_state st (S (n_signals s)) s) as s1 eqn:Hs1.
    assert (n_proc s1 = n_proc s ∧ n_runs s1 = n_runs s) as [<- <-] by by subst s1.
    destruct Hn as [s1 Hp|s1 Hw|s1 Hp Hw]; [rewrite Hp; simpl; lia|unfold sub_wait; destruct (stopProcessing _)|]; simpl; lia.
  - destruct (n_proc s); lia.
Qed.

Lemma wstep_asked w a k s l s' : wstep s l s' → asked_bound w a k s → asked_bound w a (k ++ l) s'.
Proof.
  intros Hstep Hb. unfold asked_bound in *. rewrite wakes_app.
  destruct (wstep_footprint _ _ _ Hstep) as
    [Hc Hk Hn _ Hr|Hc -> Hn _ Hp _ Hr|Ho -> Hp Hn _ Hr|r Ho -> Hn _ _ _ Hr|n Hc Hk Hn _ Hr|Ho -> Hn _ Hr].
  - rewrite (asked_same a _ _ Hc), Hn, Hr. case_bool_decide; lia.
  - rewrite (asked_same a _ _ Hc), Hr. pose proof (net_step_runs _ _ Hn Hp). simpl. case_bool_decide; lia.
  - destruct (online_asks a _ _ Ho) as [Ha _]. rewrite Hn, Hr. rewrite Hp in Hb. simpl in *. case_bool_decide; lia.
  - destruct (poll_asks _ _ _ Ho) as [-> _]. rewrite Hn, Hr. simpl. case_bool_decide; lia.
  - rewrite (asked_same a _ _ Hc), Hn, Hr. case_bool_decide; lia.
  - destruct (resync_asks a _ _ Ho) as [Ha _]. rewrite Hn. rewrite Hr in Hb. simpl. case_bool_decide; lia.
Qed.
End invariants.

(** ** What [main] brings up *)

Section booted.
Context {E : Env} {B : Build}.

Notation world_of s := (wh_daemon s).2.2.

(** [initialize] leaves the switch of the network threads as the constructor set
    it. *)
Lemma initialize_rfc : keeps (λ s : daemon, m_chronyRfcEnabled s.1) initialize.
Proof.
  set (f := λ m : mgr TimeSrcObj TimeSyncObj, m_chronyRfcEnabled m).
  assert (∀ g, (∀ m, f (g m) = f m) → keeps (λ s : daemon, f s.1) (on_mgr (upd g))) as Hupd.
  { intros g Hg. apply (on_mgr_keeps f). intros [m w]. apply Hg. }
  assert (keeps (λ s : daemon, f s.1) (on_mgr setInitialTime)) as Hset.
  { intros s. pose proof (on_mgr_keeps constant _ setInitialTime_keeps s) as Hc. by injection Hc. }
  unfold initialize, load_config, connect_bus.
  keep; first [apply Hupd|apply (on_mgr_outside_keeps f)|apply (on_bus_keeps f)]; try done.
  intros m. unfold f. destruct (config_lines_frame (read_triples s) m) as [Hc _]. by injection Hc.
Qed.

(** The threads [run] starts, and what it changes. *)
Lemma run_spec pid forever (d d' : daemon) ts :
  run pid forever d = (Ret ts, d') →
  ts = ([processThr; timerThr; pathThr] ++
        if m_chronyRfcEnabled d.1 then [nwEventProcessThr; nwEventSubscribeThr; ntpSyncMonitorThr] else []) ∧
  d'.1 = d.1 ∧ d'.2.1 = d.2.1 ∧ quiet d.2.2 d'.2.2.
Proof.
  destruct d as [m [b w]]. unfold run. intros Hrun.
  refine (wp_false_run _ (λ ts d', _ ∧ _ ∧ _ ∧ quiet w d'.2.2) _ _ _ Hrun _).
  apply wp_bind, wp_gets, wp_bind, wp_when; intros _; [|apply wp_ret; by split_and!].
  apply wp_bind, wp_on_mgr, wp_on_snd, wp_write_file; intros; apply wp_ret, wp_ret; by split_and!.
Qed.

(** The process that has booted: the daemon's invariant, waiting for network time,
    and the network threads at their start. *)
Lemma boots_facts cfg pid w s :
  SaneEnv E → boots cfg pid w s →
  daemon_inv (wh_daemon s) ∧ m_state (wh_daemon s).1 = eSYSMGR_STATE_NTP_WAIT ∧
  m_queue (wh_daemon s).1 = [] ∧ controls (world_of s) = controls w ∧
  wh_net s = net_start ∧ wh_ntp s = NtpPoll ∧ wh_resyncs s = 0%nat ∧
  wh_started s = [processThr; timerThr; pathThr] ++
    (if bool_decide (is_Some (w_fs w !! "/opt/secure/RFC/chrony/chronyd_enabled"))
     then [nwEventProcessThr; nwEventSubscribeThr; ntpSyncMonitorThr] else []).
Proof.
  intros HE [m0 w0 d d' ts Hnew Hinit Hrun].
  destruct (initialize_inv cfg w w0 m0 d HE Hnew Hinit) as (Hinv & Hst & Hq).
  pose proof (keeps_run (λ s : daemon, m_chronyRfcEnabled s.1) _ _ _ _ initialize_rfc Hinit) as Hrfc.
  pose proof (still_run _ _ _ _ initialize_controls Hinit) as Hc1.
  pose proof (still_run _ _ _ _ (run_controls pid true) Hrun) as Hc2.
  destruct (run_spec pid true d d' ts Hrun) as (-> & Hm & Hb & _). injection Hnew as <- <-. simpl in *.
  unfold daemon_inv in *. rewrite Hm, Hrfc. split_and!; try tauto. congruence.
Qed.

Lemma booted_invariants cfg pid w s l s' :
  SaneEnv E → boots cfg pid w s → wexec s l s' →
  net_ok s' ∧ unsubscribed s' ∧ (∀ a, asked_bound w a l s').
Proof.
  intros HE Hb Hexec. destruct (boots_facts cfg pid w s HE Hb) as (_ & _ & _ & Hc & Hn & _ & Hr & _).
  split; [|split].
  - refine (wexec_ind_inv (λ _, net_ok) s l s' (λ k s1 l1 s2, wstep_net_ok s1 l1 s2) _ Hexec).
    unfold net_ok. rewrite Hn. by split; [apply rtc_refl|].
  - refine (wexec_ind_inv (λ _, unsubscribed) s l s' (λ k s1 l1 s2, wstep_unsubscribed s1 l1 s2) _ Hexec).
    intros _. by rewrite Hn.
  - intros a. refine (wexec_ind_inv (asked_bound w a) s l s' (λ k s1 l1 s2, wstep_asked w a k s1 l1 s2) _ Hexec).
    unfold asked_bound. rewrite (asked_same a w) by done. rewrite Hn, Hr. simpl. case_bool_decide; simpl; lia.
Qed.
End booted.

(** ** The functions of the threads

    A thread that is alone takes its steps one after the other: the functions of
    Daemon and NetworkStatus, with their loops, are runs of the steps above. *)

Section thread_functions.
Context {E : Env} {B : Build}.

(** Runs of one thread. *)
Inductive thread_runs (R : whole → list input → whole → Prop) : whole → list input → whole → Prop :=
  | tr_refl s : thread_runs R s [] s
  | tr_step s1 l1 s2 l2 s3 : R s1 l1 s2 → thread_runs R s2 l2 s3 → thread_runs R s1 (l1 ++ l2) s3.

Lemma tr_quiet R s1 s2 s3 : R s1 [] s2 → thread_runs R s2 [] s3 → thread_runs R s1 [] s3.
Proof. apply (tr_step R s1 [] s2 []). Qed.

Lemma with_daemon_same s : with_daemon (wh_daemon s) s = s.
Proof. by destruct s. Qed.

Lemma processMsg_runs n s d' :
  processMsg n (wh_daemon s) = (Ret tt, d') → ∃ l, thread_runs process_thread s l (with_daemon d' s).
Proof.
  revert s. induction n as [|n IH]; intros s; cbn [processMsg].
  { intros [= <-]. exists []. rewrite with_daemon_same. constructor. }
  unfold mbind at 1, M_bind at 1, gets. destruct (m_queue (wh_daemon s).1) as [|val q] eqn:Hq.
  { intros [= <-]. exists []. rewrite with_daemon_same. constructor. }
  intros ([] & d1 & H1 & H2)%bind_ret_inv.
  destruct (IH (with_daemon d1 s) H2) as [l Hl]. eexists (_ ++ l).
  eapply tr_step; [by apply (process_message s val q d1)|exact Hl].
Qed.

Lemma path_loop_runs fuel s d' :
  wh_path s = PathRead → runPathMonitor_loop fuel (wh_daemon s) = (Ret true, d') →
  thread_runs path_thread s [] (with_path PathEnd (with_daemon d' s)).
Proof.
  revert s. induction fuel as [|fuel IH]; intros s Hp; [done|]. cbn [runPathMonitor_loop].
  intros (go & d1 & H1 & H2)%bind_ret_inv. eapply tr_quiet; [exact (path_reads s go d1 Hp H1)|]. destruct go.
  - exact (IH (with_path PathRead (with_daemon d1 s)) eq_refl H2).
  - injection H2 as <-. constructor.
Qed.

Lemma path_runs fuel s d' :
  wh_path s = PathScan → runPathMonitor fuel (wh_daemon s) = (Ret true, d') →
  thread_runs path_thread s [] (with_path PathEnd (with_daemon d' s)).
Proof.
  intros Hp ([] & d1 & H1 & (w & d2 & H2 & H3)%bind_ret_inv)%bind_ret_inv.
  eapply tr_quiet; [exact (path_scans s d1 Hp H1)|].
  eapply tr_quiet; [exact (path_watches (with_path PathWatch (with_daemon d1 s)) w d2 eq_refl H2)|]. destruct w.
  - exact (path_loop_runs fuel (with_path PathRead (with_daemon d2 s)) d' eq_refl H3).
  - injection H3 as <-. constructor.
Qed.

(** A computation on the world, from the process. *)
Definition with_world (w : world) (s : whole) : whole :=
  with_daemon ((wh_daemon s).1, ((wh_daemon s).2.1, w)) s.

Lemma on_world {A} (c : M world A) (s : whole) r w' :
  c (wh_daemon s).2.2 = (r, w') → on_mgr (on_snd c) (wh_daemon s) = (r, wh_daemon (with_world w' s)).
Proof.
  intros Hc. unfold with_world. destruct (wh_daemon s) as [m [b w]]. unfold on_mgr, on_snd. simpl in *. by rewrite Hc.
Qed.

Lemma ntp_runs fuel polls s n w' :
  wh_ntp s = NtpPoll → runNTPSyncMonitor fuel polls (wh_daemon s).2.2 = (Ret (Some n), w') →
  thread_runs ntp_thread s [] (with_ntp NtpDone (with_world w' s)).
Proof.
  revert s polls. induction fuel as [|fuel IH]; intros s polls Hp; [done|]. cbn [runNTPSyncMonitor].
  intros (r & w1 & H1 & H2)%bind_ret_inv. destruct (kernel_synced r) eqn:Hk.
  - assert (runNTPSyncMonitor 1 0 (wh_daemon s).2.2 = (Ret (Some 1%nat), w')) as Hone.
    { cbn [runNTPSyncMonitor]. unfold mbind at 1, M_bind at 1. rewrite H1, Hk.
      destruct (bind_ret_inv _ _ _ _ _ H2) as ([] & w2 & H3 & ([] & w3 & H4 & H5)%bind_ret_inv).
      injection H5 as _ <-. unfold mbind at 1, M_bind at 1. rewrite H3. unfold mbind, M_bind. by rewrite H4. }
    eapply tr_quiet; [exact (ntp_polls s (Some 1%nat) _ Hp (on_world _ s _ _ Hone))|]. constructor.
  - assert (runNTPSyncMonitor 1 0 (wh_daemon s).2.2 = (Ret None, w1)) as Hone.
    { cbn [runNTPSyncMonitor]. unfold mbind at 1, M_bind at 1. by rewrite H1, Hk. }
    eapply tr_quiet; [exact (ntp_polls s None _ Hp (on_world _ s _ _ Hone))|].
    exact (IH (with_ntp NtpPoll (with_world w1 s)) (S polls) eq_refl H2).
Qed.

(** The subscription has returned with this state. *)
Definition subscribed_to (st : NetState) (w : world) (s : whole) : whole :=
  let n := wh_net s in
  with_net (NetSys st (n_proc n) SExit (n_dtor n) (n_signals n) (n_runs n)) (with_world w s).

Lemma subscribe_runs fuel attempt s k st' w' :
  n_sub (wh_net s) = SCheck →
  subscribeToInternetEvent fuel attempt (n_st (wh_net s), (wh_daemon s).2.2) = (Ret (Some k), (st', w')) →
  thread_runs subscribe_thread s [] (subscribed_to st' w' s).
Proof.
  revert s attempt. induction fuel as [|fuel IH]; intros s attempt Hp; [done|]. cbn [subscribeToInternetEvent].
  unfold mbind at 1, M_bind at 1, gets at 1. cbn [fst]. intros Hr.
  eapply tr_quiet; [exact (subscribe_tests s Hp)|]. unfold sub_check.
  destruct (m_networkeventsubscribed (n_st (wh_net s))) eqn:Hsub; cbn [orb].
  { injection Hr as _ <- <-. destruct s as [[m [b w]] ts pa nt [st pr su dt sg ru] co re]. constructor. }
  revert Hr. unfold mbind at 1, M_bind at 1, gets at 1. cbn [fst].
  destruct (stopProcessing (n_st (wh_net s))) eqn:Hstop.
  { intros [= _ <- <-]. destruct s as [[m [b w]] ts pa nt [st pr su dt sg ru] co re]. constructor. }
  intros (ret & [st1 w1] & H1 & H2)%bind_ret_inv.
  assert (st1 = n_st (wh_net s) ∧ sys (ThunderSubscribe "onInternetStatusChange") (wh_daemon s).2.2 = (Ret ret, w1))
    as [-> Hsys] by (by injection H1 as <- <- <-).
  set (s1 := with_net (set_sub SCall (wh_net s)) s).
  eapply tr_quiet; [exact (subscribe_calls_thunder s1 ret _ eq_refl (on_world _ s1 _ _ Hsys))|].
  case_bool_decide as Hret.
  - injection H2 as _ <- <-. constructor.
  - unfold sub_wait. cbn. rewrite Hstop.
    set (s2 := with_net (set_sub SWait (wh_net s)) (with_world w1 s)).
    eapply tr_quiet; [exact (subscribe_times_out s2 eq_refl)|]. unfold sub_wait. cbn. rewrite Hstop.
    exact (IH (with_net (set_sub SCheck (wh_net s)) (with_world w1 s)) (S attempt) eq_refl H2).
Qed.
End thread_functions.

(** ** The kernel's clock *)

Section kernel_clock.
Context {E : Env} {B : Build}.

Notation world_of s := (wh_daemon s).2.2.

(** The answers since the world [w]: all but the last found the clock
    unsynchronised, and the monitor has ended exactly when that one did not. *)
Definition polled (w : world) (s : whole) : Prop :=
  ∃ new, kernel_answers (world_of s) = new ++ kernel_answers w ∧
    Forall (λ x, kernel_synced x = false) (tail new) ∧
    (wh_ntp s = NtpDone ↔ ∃ x, head new = Some x ∧ kernel_synced x = true) ∧
    (ntpSyncMonitorThr ∉ wh_started s → new = []).

Lemma polled_same w s s' :
  kernel_answers (world_of s') = kernel_answers (world_of s) → wh_ntp s' = wh_ntp s →
  wh_started s' = wh_started s → polled w s → polled w s'.
Proof. intros Hk Hn Hs (new & H). exists new. by rewrite Hk, Hn, Hs. Qed.

Lemma wstep_polled w s l s' : wstep s l s' → polled w s → polled w s'.
Proof.
  intros Hstep Hp. pose proof (wstep_started _ _ _ Hstep) as Hst.
  destruct (wstep_footprint _ _ _ Hstep) as
    [Hc _ _ Hn _|Hc _ _ _ _ Hn _|Ho _ _ _ Hn _|r Ho _ _ Hin Hn Hn' _|n Hc _ _ Hn _|Ho _ _ Hn _].
  1,2,5: by apply (polled_same w s); [apply answers_same| | |].
  - destruct (online_asks AOnline _ _ Ho) as [_ Hk]. by apply (polled_same w s).
  - destruct (poll_asks _ _ _ Ho) as (_ & x & Hk & Hx). destruct Hp as (new & Hnew & Hf & Hiff & _).
    exists (x :: new). rewrite Hk, Hnew, Hst. split_and!; [done| | |done].
    + simpl. destruct new as [|y new]; [by apply Forall_nil|]. apply Forall_cons. split; [|exact Hf].
      destruct (kernel_synced y) eqn:Hy; [|done]. assert (wh_ntp s = NtpDone) as Hd by (apply Hiff; eauto). congruence.
    + rewrite Hn', <- Hx. destruct (kernel_synced x) eqn:Hs; (split; [|done || intros (y & [= <-] & Hy); congruence]);
        [eauto|done].
  - destruct (resync_asks AOnline _ _ Ho) as [_ Hk]. by apply (polled_same w s).
Qed.
End kernel_clock.

(** ** The processing thread *)

Section event_runs.
Context {E : Env} {B : Build}.

Notation world_of s := (wh_daemon s).2.2.

Lemma joined_net_inv net : rtc joined_step net_start net → net_inv net.
Proof.
  intros Hr. apply net_reachable_inv. unfold net_reachable. refine (rtc_subrel _ _ _ _ _ Hr).
  by intros s1 s2 [? ? ? _|? ? ? _ _].
Qed.

(** The network procedure on the process returns and touches the world only. *)
Lemma internet_run (d : daemon) :
  ∃ d', on_mgr (on_snd processInternetOnline) d = (Ret tt, d') ∧ d'.1 = d.1 ∧
    processInternetOnline d.2.2 = (Ret tt, d'.2.2).
Proof.
  destruct d as [m [b w]]. destruct (proj1 (wp_total_run _ _ _) (internet_quiet true w)) as ([] & w' & Hrun & _).
  exists (m, (b, w')). unfold on_mgr, on_snd. simpl. by rewrite Hrun.
Qed.

(** A step of the thread alone. *)
Definition event_moves (a b : whole) : Prop := event_thread a [] b.

(** It ends what it is doing. *)
Lemma event_finishes s :
  n_proc (wh_net s) = PProcess →
  ∃ s1, event_moves s s1 ∧ wh_net s1 = set_proc PCheck (wh_net s) ∧ (wh_daemon s1).1 = (wh_daemon s).1.
Proof.
  intros Hp. destruct (internet_run (wh_daemon s)) as (d' & Hrun & Hm & _).
  eexists. split; [by apply event_processes|done].
Qed.

(** From the top of the loop its second step serves a pending signal. *)
Lemma event_serves s :
  n_proc (wh_net s) = PCheck → internetUpPending (n_st (wh_net s)) = true → stopProcessing (n_st (wh_net s)) = false →
  ∃ s1 s2, event_moves s s1 ∧ event_moves s1 s2 ∧
    n_runs (wh_net s2) = S (n_runs (wh_net s)) ∧ n_proc (wh_net s2) = PCheck ∧
    internetUpPending (n_st (wh_net s2)) = false ∧
    processInternetOnline (world_of s1) = (Ret tt, world_of s2) ∧ (wh_daemon s2).1 = (wh_daemon s).1.
Proof.
  intros Hp Hup Hst. destruct (proc_check_runs _ Hp Hup Hst) as (_ & Hpc & Hruns & Hlow).
  destruct (internet_run (wh_daemon s)) as (d' & Hrun & Hm & Hw).
  exists (with_net (proc_check (wh_net s)) s). eexists.
  split; [by apply event_checks|]. split; [by apply (event_processes _ d')|done].
Qed.
End event_runs.

(** ** main *)

Section main_runs.
Context {E : Env} {B : Build}.

Definition pid_file : string := "/run/systimemgr.pid".

Lemma files_but_lookup path path' (w w' : world) :
  files_but path w' = files_but path w → path' ≠ path → w_fs w' !! path' = w_fs w !! path'.
Proof.
  intros Heq Hne. assert (∀ v : world, w_fs v !! path' = files_but path v !! path') as H.
  { intros v. unfold files_but. by rewrite lookup_delete_ne. }
  by rewrite !H, Heq.
Qed.

Lemma run_forever pid (d : daemon) :
  HealthyDisk E →
  ∃ ts d', run pid true d = (Ret ts, d') ∧
    f_data <$> w_fs d'.2.2 !! pid_file = Some (pid +:+ newline) ∧
    (∀ path, path ≠ pid_file → w_fs d'.2.2 !! path = w_fs d.2.2 !! path).
Proof.
  intros [Hopen Hwrite _]. destruct d as [m [b w]].
  refine (proj1 (wp_total_run _ (λ ts d', f_data <$> w_fs d'.2.2 !! pid_file = Some (pid +:+ newline) ∧
    (∀ path, path ≠ pid_file → w_fs d'.2.2 !! path = w_fs w !! path)) _) _). unfold run.
  apply wp_bind, wp_gets, wp_bind, wp_when; intros Hf; [|done].
  apply wp_bind, wp_on_mgr, wp_on_snd, wp_write_file.
  - intros h n mt w' <- _ Hfs. apply wp_ret, wp_ret. simpl. rewrite Hfs. split.
    + rewrite lookup_insert_eq. simpl. by rewrite string_take_all by apply Hwrite.
    + intros path Hne. by rewrite lookup_insert_ne.
  - intros h w' Ho. by rewrite Hopen in Ho.
Qed.

(** On a good platform [main] comes up, whatever the pid file holds. *)
Lemma main_run cfg pid (w : world) :
  SaneEnv E → SaneMfr → HealthyDisk E → iarm_built → Forall known_line (conf_lines (w_fs w) cfg) →
  times_in_range (w_fs w) →
  ∃ m0 s, new_SysTimeMgr cfg w = (Ret m0, w) ∧ main pid (m0, (empty_bus, w)) = (Ret None, s) ∧
    f_data <$> w_fs s.2.2 !! pid_file = Some (pid +:+ newline) ∧
    (∀ path, path ≠ pid_file → path ≠ "/tmp/systimeset" → w_fs s.2.2 !! path = w_fs w !! path).
Proof.
  intros HE HM HD HB Hk Hr. destruct (initialize_run cfg w HE HM HB Hk Hr) as (m0 & d & Hnew & Hinit & _).
  destruct (run_forever pid d HD) as (ts & d' & Hrun & Hpid & Hfs). exists m0, d'. split; [done|]. split; [|split; [done|]].
  - unfold main, catch. unfold mbind, M_bind. rewrite Hinit. by rewrite Hrun.
  - intros path H1 H2. rewrite Hfs by done.
    pose proof (keeps_run (λ s : daemon, files_but "/tmp/systimeset" s.2.2) _ _ _ _ initialize_files Hinit) as Hkeep.
    by apply (files_but_lookup "/tmp/systimeset").
Qed.
End main_runs.

(** ** The queue *)

Section queue.
Context {E : Env} {B : Build}.

(** The accounts of the queue: what was in it and what a step had to put in is what
    it took and what is left. *)
Definition balanced (s : whole) (l : list input) (es : list sysTimeMgrEvent) (s' : whole) : Prop :=
  m_queue (wh_daemon s).1 ++ map plain_msg es = taken l ++ m_queue (wh_daemon s').1.

Lemma balanced_same s l s' :
  m_queue (wh_daemon s').1 = m_queue (wh_daemon s).1 → taken l = [] → balanced s l [] s'.
Proof. intros Hq Ht. unfold balanced. by rewrite Ht, Hq, app_nil_r. Qed.

Lemma outside_balanced {A} (c : M world A) r s d' (f : whole → whole) :
  on_mgr (on_snd c) (wh_daemon s) = (r, d') → (∀ s, wh_daemon (f s) = wh_daemon s) → balanced s [] [] (f (with_daemon d' s)).
Proof.
  intros Hr Hf. apply balanced_same; [|done]. rewrite Hf.
  exact (keeps_run (λ d : daemon, m_queue d.1) _ _ _ _ (outside_keeps_queue c) Hr).
Qed.

Lemma thread_balanced t s l s' :
  daemon_inv (wh_daemon s) → thread_step t s l s' → balanced s l (queued_by (ByThread t) s) s'.
Proof.
  intros (Hsm & Hmap & _) Hstep. destruct t; simpl in *.
  - destruct Hstep as [val q d' Hq Hr]. unfold balanced. simpl. rewrite (process_takes val q _ d' Hsm Hr), Hq, app_nil_r.
    by destruct val.
  - destruct Hstep as [d' Hr]. unfold balanced. simpl. by rewrite (timer_puts _ _ Hr).
  - destruct Hstep as [d' Hp Hr|r d' Hp Hr|r d' Hp Hr]; rewrite Hp.
    + unfold balanced. simpl. by rewrite (scan_puts _ _ Hr), Hmap.
    + apply balanced_same; [|done]. exact (keeps_run (λ d : daemon, m_queue d.1) _ _ _ _ watch_keeps_queue Hr).
    + unfold balanced. simpl. by rewrite (read_puts _ _ _ Hr), Hmap.
  - destruct Hstep as [Hp|d' Hp Hr|Hp]; [by apply balanced_same| |by apply balanced_same].
    by apply (outside_balanced _ _ s d' (with_net _) Hr).
  - destruct Hstep as [Hp|r d' Hp Hr|Hp]; [by apply balanced_same| |by apply balanced_same].
    by apply (outside_balanced _ _ s d' (with_net _) Hr).
  - destruct Hstep as [r d' Hp Hr]. by apply (outside_balanced _ _ s d' (with_ntp _) Hr).
Qed.

Lemma power_balanced s l s' : power_step s l s' → balanced s l [] s'.
Proof.
  assert (∀ message, taken (power_inputs message) = []) as Hnone by (intros; unfold power_inputs; by case_bool_decide).
  intros Hstep. destruct Hstep as [id cur new message d1 d' _ Hc Hr|this message d1 d' _ _ _ Hc Hr|this d' _ _ _ Hc|cur new d' _ Hc
    |r d' _ Hr|n d' Hn Hr].
  - apply balanced_same; [|done]. simpl. rewrite (wake_keeps_queue _ _ _ Hr).
    by destruct (on_bus_same _ _ _ _ (powereventHandler_keeps _ _ _ _) Hc) as [-> _].
  - apply balanced_same; [|done]. simpl. rewrite (wake_keeps_queue _ _ _ Hr).
    by destruct (on_bus_same _ _ _ _ (pwr_round_keeps _) Hc) as [-> _].
  - apply balanced_same; [|done]. simpl. by destruct (on_bus_same _ _ _ _ (pwr_round_keeps _) Hc) as [-> _].
  - apply balanced_same; [|done]. simpl. by destruct (on_bus_same _ _ _ _ (pwr_push_keeps _ _) Hc) as [-> _].
  - by apply (outside_balanced _ _ s d' (with_connecting _) Hr).
  - by apply (outside_balanced _ _ s d' (with_resyncs n) Hr).
Qed.

Lemma bus_balanced s l s' : bus_step s l s' → balanced s l [] s'.
Proof.
  intros Hstep. destruct Hstep as [p st Hsub Hh|p st net' Hsub Hh Hn|p r d' Hr|fs]; apply balanced_same; try done.
  simpl. apply bind_ret_inv in Hr as (x & d1 & Hr & H1). injection H1 as _ <-.
  exact (keeps_run (λ d : daemon, m_queue d.1) _ _ _ _ (query_keeps_queue p) Hr).
Qed.

Lemma actor_wstep a s l s' : actor_step a s l s' → wstep s l s'.
Proof. destruct a as [t| |]; simpl; [intros [Hin Ht]; by eapply w_thread|by apply w_power|by apply w_bus]. Qed.
Lemma wstep_actor s l s' : wstep s l s' → ∃ a, actor_step a s l s'.
Proof. intros [t Hin Ht|Hp|Hb]; [by exists (ByThread t)|by exists ByPower|by exists ByBus]. Qed.

Lemma wexec_queueing s l s' : wexec s l s' → ∃ es, queueing s l es s'.
Proof.
  induction 1 as [s|s1 l1 s2 l2 s3 Hstep _ [es IH]]; [exists []; constructor|].
  destruct (wstep_actor _ _ _ Hstep) as [a Ha]. eexists. by eapply queueing_step.
Qed.

Lemma wstep_inv s l s' : wstep s l s' → daemon_inv (wh_daemon s) → daemon_inv (wh_daemon s').
Proof.
  intros Hstep Hinv. refine (dexec_inv l _ _ (wexec_dexec _ _ _ _) Hinv).
  rewrite <- (app_nil_r l). eapply wexec_step; [exact Hstep|constructor].
Qed.

Lemma queueing_balanced s l es s' : daemon_inv (wh_daemon s) → queueing s l es s' → balanced s l es s'.
Proof.
  intros Hinv Hq. induction Hq as [s|a s1 l1 s2 l2 es s3 Hstep _ IH]; [by apply balanced_same|].
  assert (balanced s1 l1 (queued_by a s1) s2) as Hb.
  { destruct a as [t| |]; [|by apply power_balanced|by apply bus_balanced]. destruct Hstep. by apply thread_balanced. }
  specialize (IH (wstep_inv _ _ _ (actor_wstep _ _ _ _ Hstep) Hinv)). unfold balanced, taken in *.
  by rewrite map_app, omap_app, app_assoc, Hb, <- !app_assoc, IH.
Qed.
End queue.

(** Without broadcast time the state is never DTT_ACQUIRED, and the clock not set. *)
Lemma no_dtt_no_clock l s :
  s_state s ≠ eSYSMGR_STATE_DTT_ACQUIRED → (∀ args, IEvent eSYSMGR_EVENT_DTT_TIME_AVAILABLE args ∉ l) →
  clock_inputs s l = 0%nat.
Proof.
  revert s. induction l as [|i l IH]; intros s Hs Hno; [done|]. simpl.
  assert (input_may_set_clock s i = false) as ->.
  { destruct i as [e args| |p]; try done. simpl. unfold may_set_clock. by rewrite bool_decide_eq_false_2. }
  apply IH; [|intros args Hin; apply (Hno args); by right]. destruct s as [st q src].
  destruct i as [e args| |p]; simpl; [|by destruct q|done].
  destruct (decide (e = eSYSMGR_EVENT_DTT_TIME_AVAILABLE)) as [->|He]; [destruct (Hno args); by left|].
  simpl in Hs. by destruct st, e.
Qed.

(** * Properties *)

Section properties.
Context {E : Env} {B : Build}.

Notation world_of s := (wh_daemon s).2.2.
Notation rfc_file := "/opt/secure/RFC/chrony/chronyd_enabled".

(** C1: the process that [main] brings up refines the two abstract machines.  It
    starts waiting for network time with an empty queue.  In every run of the whole
    process, each thread where the code puts it, the status at the end is the one
    the abstract status machine computes from the inputs in the order they were
    consumed, and the messages on the bus are exactly those it announces, in order.
    The queue loses, doubles and reorders nothing: what the steps of the run had to
    put in it, an expiry for every round of the timer, what the scan and the reads
    of the path monitor found, nothing for any other step, is what was taken, in
    order, and what is still queued.  The invariant of the object holds.  The shared
    state of the network threads has gone through steps of the network protocol
    only, and its shutdown was never asked for. *)
Theorem whole_process_refines (cfg pid : string) (w : world) (s s' : whole) (l : list input) :
  SaneEnv E → boots cfg pid w s → wexec s l s' →
  m_state (wh_daemon s).1 = eSYSMGR_STATE_NTP_WAIT ∧ m_queue (wh_daemon s).1 = [] ∧
  status_of (wh_daemon s').1 = spec_inputs (status_of (wh_daemon s).1) l ∧
  map msg_core (broadcasts (w_trace (world_of s')))
  = reverse (spec_msgs (m_publish (wh_daemon s).1) (status_of (wh_daemon s).1) l)
      ++ map msg_core (broadcasts (w_trace (world_of s))) ∧
  (∃ es, queueing s l es s') ∧
  (∀ es, queueing s l es s' → map plain_msg es = taken l ++ m_queue (wh_daemon s').1) ∧
  daemon_inv (wh_daemon s') ∧ rtc joined_step net_start (wh_net s') ∧ n_dtor (wh_net s') = D0.
Proof.
  intros HE Hb Hexec. destruct (boots_facts cfg pid w s HE Hb) as (Hinv & Hst & Hq & _).
  destruct (booted_invariants cfg pid w s l s' HE Hb Hexec) as ([Hr Hd] & _).
  pose proof (wexec_dexec s l s' Hexec) as Hdex. pose proof (dexec_inv l _ _ Hdex Hinv) as Hinv'.
  pose proof Hinv as (Hsm & Hmap & _).
  destruct (dexec_advances l _ _ Hsm Hmap Hdex) as [Hs Hm _ _ _ _ _].
  split_and!; try done; [by apply wexec_queueing|]. intros es Hes.
  pose proof (queueing_balanced s l es s' Hinv Hes) as Hbal. unfold balanced in Hbal. by rewrite Hq in Hbal.
Qed.

(** C19: the daemon sets the system clock itself only for broadcast time.  In every run
    of the whole process after its start-up, which may have set the initial time, it
    has called clock_settime at most once for every expiry
    of the timer that the state machine consumed in DTT_ACQUIRED, and not at all
    when no broadcast time was announced: no other event, no wake-up, no query and
    no network thread calls it.  (What a wake-up and the network threads ask of
    chronyd, which may move the clock as well, is counted apart.) *)
Theorem clock_set_only_for_dtt (cfg pid : string) (w : world) (s s' : whole) (l : list input) :
  SaneEnv E → boots cfg pid w s → wexec s l s' →
  ∃ ss, settimes (w_trace (world_of s')) = ss ++ settimes (w_trace (world_of s)) ∧
    (length ss ≤ clock_inputs (status_of (wh_daemon s).1) l)%nat ∧
    ((∀ args, IEvent eSYSMGR_EVENT_DTT_TIME_AVAILABLE args ∉ l) → ss = []).
Proof.
  intros HE Hb Hexec. destruct (boots_facts cfg pid w s HE Hb) as ((Hsm & Hmap & _) & Hst & _).
  destruct (dexec_clock l _ _ Hsm Hmap (wexec_dexec s l s' Hexec)) as (ss & Hss & Hlen).
  exists ss. do 2 (split; [done|]). intros Hno. rewrite no_dtt_no_clock in Hlen; [|simpl; congruence|done].
  by destruct ss; [|simpl in Hlen; lia].
Qed.

(** The steps of the threads are those of their functions.  Whatever the state of
    the process, a thread that runs alone takes its steps as its function says:
    the processing loop through the messages it finds, the path monitor from its
    scan to the failed watch or read that ends it, the synchronisation monitor
    through all its polls, the subscription through all its attempts, each of any
    length, to the state and the world in which the function returns. *)
Theorem thread_functions_are_runs (s : whole) :
  (∀ n d', processMsg n (wh_daemon s) = (Ret tt, d') → ∃ l, thread_runs process_thread s l (with_daemon d' s)) ∧
  (∀ fuel d', wh_path s = PathScan → runPathMonitor fuel (wh_daemon s) = (Ret true, d') →
     thread_runs path_thread s [] (with_path PathEnd (with_daemon d' s))) ∧
  (∀ fuel n w', wh_ntp s = NtpPoll → runNTPSyncMonitor fuel 0 (world_of s) = (Ret (Some n), w') →
     thread_runs ntp_thread s [] (with_ntp NtpDone (with_world w' s))) ∧
  (∀ fuel k st' w', n_sub (wh_net s) = SCheck →
     subscribeToInternetEvent fuel 0 (n_st (wh_net s), world_of s) = (Ret (Some k), (st', w')) →
     thread_runs subscribe_thread s [] (subscribed_to st' w' s)).
Proof.
  split_and!.
  - intros n d'. apply processMsg_runs.
  - intros fuel d'. apply path_runs.
  - intros fuel n w'. apply ntp_runs.
  - intros fuel k st' w'. apply subscribe_runs.
Qed.

(** C13: the daemon commands chronyd only with a cause.  In every run of the whole
    process, each of the actions that can move the clock (burst, wait, step) was
    asked for at most once for every wake-up and every transition to full
    connectivity, going online at most once for every such transition; where the
    file that switches the feature on was missing at the start, the network never
    asks, and what is left are the wake-ups. *)
Theorem chrony_commands_bounded (cfg pid : string) (w : world) (s s' : whole) (l : list input) (a : chrony_action) :
  SaneEnv E → boots cfg pid w s → wexec s l s' →
  (asked a (world_of s') ≤ asked a w + (if bool_decide (a = AOnline) then 0 else wakes l) + n_signals (wh_net s'))%nat ∧
  (w_fs w !! rfc_file = None → n_signals (wh_net s') = 0%nat).
Proof.
  intros HE Hb Hexec. destruct (booted_invariants cfg pid w s l s' HE Hb Hexec) as ([Hr _] & Hu & Ha).
  destruct (joined_net_inv _ Hr) as (_ & _ & _ & Hruns).
  split.
  - specialize (Ha a). unfold asked_bound in Ha. destruct (internetUpPending _); lia.
  - intros Hf. apply Hu. rewrite (wexec_started _ _ _ Hexec).
    destruct (boots_facts cfg pid w s HE Hb) as (_ & _ & _ & _ & _ & _ & _ & ->).
    rewrite Hf. simpl. set_solver.
Qed.

(** C17: the kernel's clock is polled until it is synchronised, and never after.  In
    every run of the whole process, the answers of adjtimex since the start are
    all of an unsynchronised clock but possibly the last; that one is synchronised
    exactly when the monitor's thread has ended; and without the file that
    switches the feature on the kernel is not asked at all. *)
Theorem kernel_polled_until_synced (cfg pid : string) (w : world) (s s' : whole) (l : list input) :
  SaneEnv E → boots cfg pid w s → wexec s l s' →
  ∃ new, kernel_answers (world_of s') = new ++ kernel_answers w ∧
    Forall (λ x, kernel_synced x = false) (tail new) ∧
    (wh_ntp s' = NtpDone ↔ ∃ x, head new = Some x ∧ kernel_synced x = true) ∧
    (w_fs w !! rfc_file = None → new = []).
Proof.
  intros HE Hb Hexec. destruct (boots_facts cfg pid w s HE Hb) as (_ & _ & _ & Hc & _ & Hn & _ & Hst).
  assert (polled w s') as (new & Hnew & Hf & Hiff & Hno).
  { refine (wexec_ind_inv (λ _, polled w) s l s' (λ k s1 l1 s2, wstep_polled w s1 l1 s2) _ Hexec).
    exists []. rewrite (answers_same w) by done. rewrite Hn. split_and!; [done|by apply Forall_nil| |done].
    split; [done|by intros (x & ? & _)]. }
  exists new. split_and!; [done|done|done|]. intros Hfile. apply Hno.
  rewrite (wexec_started _ _ _ Hexec), Hst, Hfile. simpl. set_solver.
Qed.

(** C14: full connectivity is answered.  In every state of the whole process, if a
    transition to full connectivity is pending, the processing thread was started
    and is not blocked, and it serves the transition in at most three steps of its
    own: three when it is still in [processInternetOnline] for an earlier one, else
    two.  The last of them is [processInternetOnline] on the daemon's world, which
    returns; the thread is back at the top of its loop, the transition is no longer
    pending, and one more was served. *)
Theorem connectivity_served (cfg pid : string) (w : world) (s s' : whole) (l : list input) :
  SaneEnv E → boots cfg pid w s → wexec s l s' → internetUpPending (n_st (wh_net s')) = true →
  nwEventProcessThr ∈ wh_started s' ∧ n_proc (wh_net s') ∈ [PCheck; PProcess] ∧
  ∃ s1 s2, nsteps event_moves (if n_proc (wh_net s') is PProcess then 2 else 1) s' s1 ∧ event_moves s1 s2 ∧
    n_runs (wh_net s2) = S (n_runs (wh_net s')) ∧ n_proc (wh_net s2) = PCheck ∧
    internetUpPending (n_st (wh_net s2)) = false ∧
    processInternetOnline (world_of s1) = (Ret tt, world_of s2) ∧
    (wh_daemon s2).1 = (wh_daemon s').1.
Proof.
  intros HE Hb Hexec Hup. destruct (booted_invariants cfg pid w s l s' HE Hb Hexec) as ([Hr _] & Hu & _).
  destruct (joined_running _ Hr) as (Hstop & Hne & _).
  destruct (joined_net_inv _ Hr) as (Hwake & _ & _ & Hruns). rewrite Hup in Hruns. split.
  - pose proof (wexec_started _ _ _ Hexec) as Hst.
    destruct (boots_facts cfg pid w s HE Hb) as (_ & _ & _ & _ & _ & _ & _ & Hs). rewrite Hs in Hst.
    destruct (bool_decide _).
    + rewrite Hst. set_solver.
    + assert (nwEventSubscribeThr ∉ wh_started s') as Hn by (rewrite Hst; set_solver).
      destruct (Hu Hn). lia.
  - destruct (n_proc (wh_net s')) eqn:Hp; [|by destruct (Hwake Hup)| |done]; (split; [set_solver|]).
    + destruct (event_serves s') as (s1 & s2 & H1 & Hrest); [done..|]. exists s1, s2. by split; [apply nsteps_once|].
    + destruct (event_finishes s' Hp) as (s0 & H0 & Hn0 & Hd0).
      destruct (event_serves s0) as (s1 & s2 & H1 & H2 & Hr2 & Hrest); [by rewrite Hn0|by rewrite Hn0|by rewrite Hn0|].
      rewrite Hn0, Hd0 in *. exists s1, s2. split; [|done]. eapply nsteps_l; [exact H0|]. by apply nsteps_once.
Qed.
(** C35: nothing keeps a second instance from running.  On a good platform, with the
    first instance up and its number in the pid file, a second invocation of the
    program comes up as well, blocked in its joins like the first, and the pid file
    names the second. *)
Theorem second_instance_starts (cfg pid1 pid2 : string) (w : world) :
  SaneEnv E → SaneMfr → HealthyDisk E → iarm_built → Forall known_line (conf_lines (w_fs w) cfg) →
  times_in_range (w_fs w) → cfg ≠ pid_file → cfg ≠ "/tmp/systimeset" →
  ∃ m1 s1, new_SysTimeMgr cfg w = (Ret m1, w) ∧ main pid1 (m1, (empty_bus, w)) = (Ret None, s1) ∧
    f_data <$> w_fs s1.2.2 !! pid_file = Some (pid1 +:+ newline) ∧
    ∃ m2 s2, new_SysTimeMgr cfg s1.2.2 = (Ret m2, s1.2.2) ∧ main pid2 (m2, (empty_bus, s1.2.2)) = (Ret None, s2) ∧
      f_data <$> w_fs s2.2.2 !! pid_file = Some (pid2 +:+ newline).
Proof.
  intros HE HM HD HB Hk Hr H1 H2.
  destruct (main_run cfg pid1 w HE HM HD HB Hk Hr) as (m1 & s1 & Hnew1 & Hmain1 & Hpid1 & Hfs).
  exists m1, s1. do 3 (split; [done|]).
  destruct (main_run cfg pid2 s1.2.2 HE HM HD HB) as (m2 & s2 & Hnew2 & Hmain2 & Hpid2 & _).
  - unfold conf_lines in *. by rewrite Hfs.
  - unfold times_in_range, stored_time, image_time in *. by rewrite !Hfs.
  - eauto 6.
Qed.
End properties.

(** ** Witnesses *)

(** A platform that runs chronyd and not systemd-timesyncd. *)
Definition chrony_platform : overrides := {|
  o_clock := Some (1700000000, 0); o_ntp := 1700000000; o_settime := true; o_adjtimex := [(5, 64)];
  o_active := λ cmd, if bool_decide (cmd = "/bin/systemctl is-active --quiet chronyd.service") then 0 else 3;
  o_selectable := (0, 1); o_sources := (0, 1); o_offset := (0, S754_zero false); o_waitsync := 0;
  o_rpc := λ _, None; o_timeUtc := "1700000000"; o_mtime := None; o_subscribe := []; o_pwr := []
|}.

#[local] Instance chrony_env : Env := test_env chrony_platform.
#[local] Instance chrony_build : Build := good_build.

Lemma chrony_env_sane : SaneEnv chrony_env.
Proof. apply test_env_sane; simpl; unfold sane_max; lia. Qed.

(** The start of the process, run. *)
Definition boot_of {E : Env} {B : Build} (cfg pid : string) (w : world) : option whole :=
  match new_SysTimeMgr cfg w with
  | (Ret m0, w0) =>
      match initialize (m0, (empty_bus, w0)) with
      | (Ret _, d) => match run pid true d with (Ret ts, d') => Some (whole_start ts d') | _ => None end
      | _ => None
      end
  | _ => None
  end.

Lemma boot_of_boots {E : Env} {B : Build} cfg pid w s : boot_of cfg pid w = Some s → boots cfg pid w s.
Proof.
  unfold boot_of. destruct (new_SysTimeMgr cfg w) as [[m0|e|] w0] eqn:H1; [|done|done].
  destruct (initialize _) as [[[]|e|] d] eqn:H2; [|done|done].
  destruct (run pid true d) as [[ts|e|] d'] eqn:H3; [|done|done]. intros [= <-]. by eapply boots_up.
Qed.

#[local] Instance thread_eq_dec : EqDecision thread.
Proof. solve_decision. Defined.

(** The thread is among those started. *)
Ltac started := apply (bool_decide_eq_true_1 _); vm_compute; reflexivity.

(** Without the file of the feature, and with it. *)
Definition wh_world : world := conf_world demo_lines.
Definition wh_net_world : world :=
  World (<["/opt/secure/RFC/chrony/chronyd_enabled" := File "" 0]> (w_fs (conf_world demo_lines))) [].
Definition nothing_up : whole := whole_start [] booted.
Definition up_plain : whole := default nothing_up (boot_of "/etc/systimemgr.conf" "812" wh_world).
Definition up_net : whole := default nothing_up (boot_of "/etc/systimemgr.conf" "812" wh_net_world).

Lemma up_plain_boots : boots "/etc/systimemgr.conf" "812" wh_world up_plain.
Proof. apply boot_of_boots. vm_compute. reflexivity. Qed.
Lemma up_net_boots : boots "/etc/systimemgr.conf" "812" wh_net_world up_net.
Proof. apply boot_of_boots. vm_compute. reflexivity. Qed.

Notation step_daemon f s := (with_daemon (snd (f (wh_daemon s))) s).

(** A wake-up: queued, taken, resynchronised. *)
Definition wk1 : whole :=
  step_daemon (on_snd (sysTimeMgrPwrEventHandler POWER_STATE_STANDBY_DEEP_SLEEP POWER_STATE_ON)) up_plain.
Definition wk2 : whole :=
  after_power "DEEP_SLEEP_OFF"
    (snd (power_locked "DEEP_SLEEP_OFF" (snd (on_snd (sysTimeMgrPwrEventHandlingThreadFunc_round 1) (wh_daemon wk1))))) wk1.
Definition wk3 : whole := with_resyncs 0 (step_daemon (on_mgr (on_snd deepsleepoff_resync)) wk2).

Lemma wk_run : wexec up_plain [IWake] wk3.
Proof.
  eapply (wexec_step _ [] _ [_]).
  { apply w_power, (power_queues _ POWER_STATE_STANDBY_DEEP_SLEEP POWER_STATE_ON); vm_compute; reflexivity. }
  eapply (wexec_step _ [_] _ []).
  { apply w_power. eapply (power_event wk1 1 "DEEP_SLEEP_OFF"); vm_compute; reflexivity. }
  eapply (wexec_step _ [] _ []); [|apply wexec_refl].
  apply w_power. apply (power_resyncs wk2); vm_compute; reflexivity.
Qed.

(** Steps whose outcome is known. *)
Lemma subscribe_succeeds {E : Env} s d' :
  n_sub (wh_net s) = SCall →
  on_mgr (on_snd (sys (ThunderSubscribe "onInternetStatusChange"))) (wh_daemon s) = (Ret 0, d') →
  subscribe_thread s [] (with_net (sub_ok (wh_net s)) (with_daemon d' s)).
Proof. apply (subscribe_calls_thunder s 0). Qed.
Lemma ntp_unsynced {E : Env} {B : Build} s d' :
  wh_ntp s = NtpPoll → on_mgr (on_snd (runNTPSyncMonitor 1 0)) (wh_daemon s) = (Ret None, d') →
  ntp_thread s [] (with_daemon d' s).
Proof. intros Hp Hr. pose proof (ntp_polls s None d' Hp Hr) as H. destruct s. simpl in *. by subst. Qed.
Lemma ntp_synced {E : Env} {B : Build} s n d' :
  wh_ntp s = NtpPoll → on_mgr (on_snd (runNTPSyncMonitor 1 0)) (wh_daemon s) = (Ret (Some n), d') →
  ntp_thread s [] (with_ntp NtpDone (with_daemon d' s)).
Proof. apply (ntp_polls s (Some n)). Qed.

(** The network comes up: the processing thread waits, the subscription succeeds,
    a notification arrives. *)
Definition nt1 : whole := with_net (proc_check (wh_net up_net)) up_net.
Definition nt2 : whole := with_net (sub_check (wh_net nt1)) nt1.
Definition nt3 : whole :=
  with_net (sub_ok (wh_net nt2)) (step_daemon (on_mgr (on_snd (sys (ThunderSubscribe "onInternetStatusChange")))) nt2).
Definition nt4 : whole := with_net net_pending nt3.

Lemma nt_run : wexec up_net [] nt4.
Proof.
  eapply (wexec_step _ [] nt1 []).
  { apply (w_thread _ _ _ nwEventProcessThr); [started|]. apply event_checks. vm_compute. reflexivity. }
  eapply (wexec_step _ [] nt2 []).
  { apply (w_thread _ _ _ nwEventSubscribeThr); [started|]. apply subscribe_tests. vm_compute. reflexivity. }
  eapply (wexec_step _ [] nt3 []).
  { apply (w_thread _ _ _ nwEventSubscribeThr); [started|].
    unfold nt3. apply subscribe_succeeds; vm_compute; reflexivity. }
  eapply (wexec_step _ [] nt4 []); [|apply wexec_refl].
  apply w_bus. eapply (bus_signal nt3 up); [right; vm_compute; by split|vm_compute; reflexivity|].
  by apply (notify_proc (NetSys (mkNetState "fully_connected" true false true) PWait SExit D0 1 0)).
Qed.

(** Two polls: the first finds the clock unsynchronised. *)
Definition kc1 : whole := step_daemon (on_mgr (on_snd (runNTPSyncMonitor 1 0))) up_net.
Definition kc2 : whole := with_ntp NtpDone (step_daemon (on_mgr (on_snd (runNTPSyncMonitor 1 0))) kc1).

Lemma kc_run : wexec up_net [] kc2.
Proof.
  eapply (wexec_step _ [] kc1 []).
  { apply (w_thread _ _ _ ntpSyncMonitorThr); [started|].
    unfold kc1. apply ntp_unsynced; vm_compute; reflexivity. }
  eapply (wexec_step _ [] kc2 []); [|apply wexec_refl].
  apply (w_thread _ _ _ ntpSyncMonitorThr); [started|].
  unfold kc2. apply (ntp_synced _ 1); vm_compute; reflexivity.
Qed.

(** A round of the timer, and the message it queued, processed. *)
Definition tm1 : whole := step_daemon runTimer_round up_plain.
Definition tm2 : whole := step_daemon (processMsg_round (plain_msg eSYSMGR_EVENT_TIMER_EXPIRY) []) tm1.

Lemma tm_run : wexec up_plain [IEvent eSYSMGR_EVENT_TIMER_EXPIRY None] tm2.
Proof.
  eapply (wexec_step _ [] tm1 [_]).
  { apply (w_thread _ _ _ timerThr); [started|]. unfold tm1. apply timer_round. vm_compute. reflexivity. }
  eapply (wexec_step _ [_] tm2 []); [|apply wexec_refl].
  apply (w_thread _ _ _ processThr); [started|]. unfold tm2.
  apply (process_message tm1 (plain_msg eSYSMGR_EVENT_TIMER_EXPIRY) []); vm_compute; reflexivity.
Qed.

Lemma whole_process_refines_witness :
  m_state (wh_daemon tm2).1 = eSYSMGR_STATE_NTP_FAIL ∧ m_queue (wh_daemon up_plain).1 = [] ∧
  status_of (wh_daemon tm2).1
  = spec_inputs (status_of (wh_daemon up_plain).1) [IEvent eSYSMGR_EVENT_TIMER_EXPIRY None] ∧
  (∃ es, queueing up_plain [IEvent eSYSMGR_EVENT_TIMER_EXPIRY None] es tm2) ∧
  (∀ es, queueing up_plain [IEvent eSYSMGR_EVENT_TIMER_EXPIRY None] es tm2 →
     map plain_msg es = [plain_msg eSYSMGR_EVENT_TIMER_EXPIRY] ++ m_queue (wh_daemon tm2).1).
Proof.
  split; [vm_compute; reflexivity|].
  destruct (whole_process_refines _ _ _ up_plain tm2 _ chrony_env_sane up_plain_boots tm_run)
    as (_ & H1 & H2 & _ & H3 & H4 & _).
  split; [exact H1|]. split; [exact H2|]. split; [exact H3|exact H4].
Defined.

Lemma clock_set_only_for_dtt_witness :
  ∃ ss, settimes (w_trace (wh_daemon wk3).2.2) = ss ++ settimes (w_trace (wh_daemon up_plain).2.2) ∧ ss = [].
Proof.
  destruct (clock_set_only_for_dtt _ _ _ up_plain wk3 [IWake] chrony_env_sane up_plain_boots wk_run) as (ss & H1 & _ & H2).
  exists ss. split; [exact H1|]. apply H2. intros args [H|H%elem_of_nil]%elem_of_cons; [discriminate H|exact H].
Defined.

(** The wake-up has stepped the clock although the feature is off. *)
Lemma chrony_commands_bounded_witness :
  asked AMakestep (wh_daemon wk3).2.2 = 1%nat ∧
  (asked AMakestep (wh_daemon wk3).2.2 ≤ 1 + n_signals (wh_net wk3))%nat ∧ n_signals (wh_net wk3) = 0%nat.
Proof.
  split; [vm_compute; reflexivity|].
  destruct (chrony_commands_bounded _ _ _ up_plain wk3 [IWake] AMakestep chrony_env_sane up_plain_boots wk_run) as [H1 H2].
  split; [exact H1|]. apply H2. vm_compute. reflexivity.
Defined.

Lemma kernel_polled_until_synced_witness :
  map kernel_synced (kernel_answers (wh_daemon kc2).2.2) = [true; false] ∧
  ∃ new, kernel_answers (wh_daemon kc2).2.2 = new ++ [] ∧ Forall (λ x, kernel_synced x = false) (tail new) ∧
    (wh_ntp kc2 = NtpDone ↔ ∃ x, head new = Some x ∧ kernel_synced x = true).
Proof.
  split; [vm_compute; reflexivity|].
  destruct (kernel_polled_until_synced _ _ _ up_net kc2 [] chrony_env_sane up_net_boots kc_run) as (new & H1 & H2 & H3 & _).
  exists new. split; [exact H1|by split].
Defined.

Lemma connectivity_served_witness :
  nwEventProcessThr ∈ wh_started nt4 ∧ n_proc (wh_net nt4) ∈ [PCheck; PProcess] ∧
  ∃ s1 s2, nsteps event_moves 1 nt4 s1 ∧ event_moves s1 s2 ∧
    n_runs (wh_net s2) = 1%nat ∧ n_proc (wh_net s2) = PCheck ∧ internetUpPending (n_st (wh_net s2)) = false ∧
    processInternetOnline (wh_daemon s1).2.2 = (Ret tt, (wh_daemon s2).2.2) ∧ (wh_daemon s2).1 = (wh_daemon nt4).1.
Proof. exact (connectivity_served _ _ _ up_net nt4 [] chrony_env_sane up_net_boots nt_run eq_refl). Defined.

Lemma second_instance_starts_witness :
  ∃ m1 s1, new_SysTimeMgr "/etc/systimemgr.conf" wh_world = (Ret m1, wh_world) ∧
    main "812" (m1, (empty_bus, wh_world)) = (Ret None, s1) ∧
    f_data <$> w_fs s1.2.2 !! pid_file = Some ("812" +:+ newline) ∧
    ∃ m2 s2, new_SysTimeMgr "/etc/systimemgr.conf" s1.2.2 = (Ret m2, s1.2.2) ∧
      main "1204" (m2, (empty_bus, s1.2.2)) = (Ret None, s2) ∧
      f_data <$> w_fs s2.2.2 !! pid_file = Some ("1204" +:+ newline).
Proof.
  apply (second_instance_starts "/etc/systimemgr.conf" "812" "1204" wh_world chrony_env_sane).
  - split. exact (@sane_mfr good_env good_build good_mfr).
  - exact (test_env_disk chrony_platform).
  - by intros _.
  - unfold wh_world. rewrite conf_lines_demo.
    repeat (apply Forall_cons; split; [by split; intros ?; try discriminate; eexists|]). by apply Forall_nil.
  - split; vm_compute; by split.
  - done.
  - done.
Defined.

(** The monitor's function polls twice and returns. *)
Lemma thread_functions_are_runs_witness :
  let w' := snd (runNTPSyncMonitor 5 0 (wh_daemon up_net).2.2) in
  fst (runNTPSyncMonitor 5 0 (wh_daemon up_net).2.2) = Ret (Some 2%nat) ∧
  thread_runs ntp_thread up_net [] (with_ntp NtpDone (with_world w' up_net)).
Proof.
  intros w'. split; [vm_compute; reflexivity|].
  apply (thread_functions_are_runs up_net) with (fuel := 5%nat) (n := 2%nat); [vm_compute; reflexivity|].
  unfold w'. rewrite (surjective_pairing (runNTPSyncMonitor 5 0 (wh_daemon up_net).2.2)) at 1. by f_equal.
Defined.
