(* ===== verification/UnitTests.v ===== *)
(** * UnitTests: the repository's unit tests on the model

    The tests of systimerfactory/unittest/ as computations on the model, with the
    answers their mocks give.  A test holds when the calls return and every
    EXPECT and ASSERT holds; an EXPECT_CALL with a number of calls is a count in
    the log.  A test that starts a thread and sleeps asserts nothing: it holds when
    the rounds the thread takes meanwhile return and leave the queue as the name of
    the test says.  Not replayed: the tests of a stand-in class or of the mocks
    themselves, those that compare addresses, and the one whose mock throws
    [std::runtime_error]. *)

From Corelib Require Import SpecFloat.
From S2P Require Import Prelude CString Calendar Platform TestEnv Interfaces TimeSync PubSub TimeSrc Factory.
From S2P Require Import SysTimeMgr MgrSpec MgrProps NetworkStatus Daemon Frame Process System NetworkShutdown Whole.

(** A test passes from a world. *)
Definition passes {S} (t : M S bool) (s : S) : bool :=
  match t s with (Ret b, _) => b | _ => false end.

(** [EXPECT_THROW(m, e)]. *)
Definition expect_throw {S A} (e : exn) (m : M S A) : M S bool := λ s,
  match m s with (Throw e', s') => (Ret (bool_decide (e' = e)), s') | (_, s') => (Ret false, s') end.

(** How many calls in the log are of a kind. *)
Definition called {O} (f : ∀ {A : Set}, call A → bool) : M (O * world) nat :=
  gets (λ ow, count_calls (@f) (w_trace ow.2)).

(** ** JSON replies: systimerfactory/unittest/mocks/Client_Mock.h *)

(** A [Json::Value]; the members of an object are handles. *)
Inductive jvalue :=
  | JNull | JBool (b : bool) | JInt (z : Z) | JString (s : string) | JObject (l : list (string * json)).

Definition is_rpc {A : Set} (c : call A) : bool := match c with CallMethod _ => true | _ => false end.
Definition is_method (name : string) {A : Set} (c : call A) : bool :=
  match c with CallMethod m => bool_decide (m = name) | _ => false end.

Fixpoint assoc {K V} `{EqDecision K} (k : K) (l : list (K * V)) : option V :=
  match l with
  | [] => None
  | (k', v) :: l => if bool_decide (k = k') then Some v else assoc k l
  end.

(** A handle without a value is null; 1 is one. *)
Definition table_lookup (t : list (json * jvalue)) (j : json) : jvalue := default JNull (assoc j t).

(** src: systimerfactory/unittest/mocks/Client_Mock.h:100-112 Client::CallMethod
    The conversions are those of jsoncpp.  The mock's answers are [replies] in turn, then null; without a mock
    ([client = false]) it throws. *)
Definition json_env (client : bool) (replies : list json) (t : list (json * jvalue)) : Env := {|
  answer := λ A h c, match c in call A return A with
    | CallMethod m => if client then Some (default 1%positive (replies !! count_calls (@is_rpc) h)) else None
    | c => test_answer plain h c end;
  strftime_Ac := glibc_strftime;
  json_member := λ j k, match table_lookup t j with
    | JNull => Ret 1%positive
    | JObject l => Ret (default 1%positive (assoc k l))
    | _ => Throw JsonLogicError end;
  json_asString := λ j, match table_lookup t j with
    | JNull => Ret "" | JString s => Ret s | JInt z => Ret (to_string_ll z)
    | JBool b => Ret (if b then "true" else "false") | JObject _ => Throw JsonLogicError end;
  json_asBool := λ j, match table_lookup t j with
    | JNull => Ret false | JBool b => Ret b | JInt z => Ret (negb (bool_decide (z = 0)))
    | _ => Throw JsonLogicError end;
  mfr_param_of_ll := u32;
  ll_of_mfr_param := u32
|}.

(** The handles the tests use. *)
Definition h_null : json := 1%positive.
Definition h_reply : json := 2%positive.
Definition h_field : json := 3%positive.
Definition h_true : json := 4%positive.
Definition h_false : json := 5%positive.
Definition h_info : json := 6%positive.

Definition test_build : Build := {|
  T2_EVENT_ENABLED := false; MILESTONE_SUPPORT_DISABLED := true; IARM_SUPPORT_DISABLED := false;
  ENABLE_IARM := false; PWRMGRPLUGIN_ENABLED := false; DTT_ENABLED := false; TEE_ENABLED := false;
  WPEVGDRM_ENABLED := false; LOCAL_TEST := false
|}.

(** ** drmtimerUnitTest.cpp *)

Definition DRM_TEST_FILE : string := "/opt/DRMTEST.txt".
Definition drm_start : DrmTimeSrc * world := (mkDrmTimeSrc DRM_TEST_FILE, good_world).

Section drm.
Context {E : Env}.
#[local] Instance drm_build : Build := test_build.

(** [ASSERT_EQ(TestDrmTime.getTimeSec(), expected)] with [n] calls of the mock. *)
Definition drm_time_is (expected : Z) (n : nat) : M (DrmTimeSrc * world) bool :=
  v ← DrmTimeSrc_getTimeSec;
  calls ← called (@is_rpc);
  mret (bool_decide (v = expected) && bool_decide (calls = n)).
End drm.

(** src: systimerfactory/unittest/drmtimerUnitTest.cpp:50-58 getTimeSecTestwithINactive *)
Definition drm_getTimeSecTestwithINactive : bool :=
  passes (@drm_time_is (json_env true [h_reply]
    [(h_reply, JObject [("activationstatus", h_field)]); (h_field, JString "iNActive")]) 0 1) drm_start.

(** src: systimerfactory/unittest/drmtimerUnitTest.cpp:62-68 getTimeSecTestwithActiveWithoutSuccess
    No expectation is set: the mock's default is a null value. *)
Definition drm_getTimeSecTestwithActiveWithoutSuccess : bool :=
  passes (@drm_time_is (json_env true [] []) 0 1) drm_start.

(** src: systimerfactory/unittest/drmtimerUnitTest.cpp:70-80 getTimeSecTestwithActiveWithSuccess
    The second call gets the default. *)
Definition drm_getTimeSecTestwithActiveWithSuccess : bool :=
  passes (@drm_time_is (json_env true [h_reply]
    [(h_reply, JObject [("activationstatus", h_field); ("success", h_true)]); (h_field, JString "Active");
     (h_true, JBool true)]) 0 2) drm_start.

(** A reply with secure time [t]. *)
Definition secure_reply (t : string) : Env :=
  json_env true [h_reply; h_reply]
    [(h_reply, JObject [("activationstatus", h_field); ("success", h_true); ("securetime", h_info)]);
     (h_field, JString "Active"); (h_true, JBool true); (h_info, JString t)].

(** src: systimerfactory/unittest/drmtimerUnitTest.cpp:81-102 getTimeSecTestwithActiveWithSecureTime
    The file exists afterwards, its time in seconds above any [tv_nsec]. *)
Definition drm_getTimeSecTestwithActiveWithSecureTime : bool :=
  passes (r ← @drm_time_is (secure_reply "1234567890") 1234567890 2;
          f ← gets (λ ow : DrmTimeSrc * world, w_fs ow.2 !! DRM_TEST_FILE);
          mret (r && match f with Some f => bool_decide (f_mtime f > 999999999) | None => false end)) drm_start.

(** src: systimerfactory/unittest/drmtimerUnitTest.cpp:104-107 isReferenceTest *)
Definition drm_isReferenceTest : bool := negb (@isreference _ (@DrmTimeSrc_ITimeSrc good_env test_build) drm_start.1).

(** src: systimerfactory/unittest/drmtimerUnitTest.cpp:109-116 checkTimeTestTrue *)
Definition drm_checkTimeTestTrue : bool :=
  passes (r ← @checkTime _ (@DrmTimeSrc_ITimeSrc (secure_reply "123456789") test_build); n ← called (@is_rpc);
          mret (negb r && bool_decide (n = 2%nat))) drm_start.

(** src: systimerfactory/unittest/drmtimerUnitTest.cpp:118-121 isClockProviderTest *)
Definition drm_isClockProviderTest : bool :=
  negb (@isclockProvider _ (@DrmTimeSrc_ITimeSrc good_env test_build) drm_start.1).

(** src: systimerfactory/unittest/drmtimerUnitTest.cpp:123-126 checkTimeTest
    Without the fixture there is no mock: the client throws. *)
Definition drm_checkTimeTest : bool :=
  passes (@checkTime _ (@DrmTimeSrc_ITimeSrc (json_env false [] []) test_build)) drm_start.

Definition drmTests : list bool :=
  [drm_getTimeSecTestwithINactive; drm_getTimeSecTestwithActiveWithoutSuccess;
   drm_getTimeSecTestwithActiveWithSuccess; drm_getTimeSecTestwithActiveWithSecureTime; drm_isReferenceTest;
   drm_checkTimeTestTrue; drm_isClockProviderTest; drm_checkTimeTest].

(** ** dtttimerUnitTest.cpp *)

Definition DTT_TEST_FILE : string := "/opt/DTTTEST.txt".
Definition dtt_start : DttTimeSrc * world := (new_DttTimeSrc DTT_TEST_FILE, good_world).

(** The mock was asked [a] times to activate and [b] times for the time. *)
Definition dtt_calls (a b : nat) : M (DttTimeSrc * world) bool :=
  n ← called (@is_method "Controller.1.activate");
  k ← called (@is_method "org.rdk.MediaSystem.1.getBroadcastTimeInfo");
  mret (bool_decide (n = a) && bool_decide (k = b)).

(** The replies: success false; success without info; with a time. *)
Definition dtt_failure : Env :=
  json_env true [h_reply; h_reply; h_reply] [(h_reply, JObject [("success", h_false)]); (h_false, JBool false)].
Definition dtt_no_info : Env :=
  json_env true [h_reply; h_reply] [(h_reply, JObject [("success", h_true)]); (h_true, JBool true)].
Definition dtt_with_info : Env :=
  json_env true [h_reply; h_reply]
    [(h_reply, JObject [("success", h_true); ("info", h_info)]); (h_true, JBool true);
     (h_info, JObject [("timeUtc", h_field)]); (h_field, JInt 1234567890)].

(** src: systimerfactory/unittest/dtttimerUnitTest.cpp:49-58 getTimeSecTestwithNoSuccess *)
Definition dtt_getTimeSecTestwithNoSuccess : bool :=
  passes (v ← @DttTimeSrc_getTimeSec dtt_failure test_build; n ← dtt_calls 1 1;
          mret (bool_decide (v = 0) && n)) dtt_start.

(** src: systimerfactory/unittest/dtttimerUnitTest.cpp:62-73 getTimeSecTestwithSuccessNoinfo *)
Definition dtt_getTimeSecTestwithSuccessNoinfo : bool :=
  passes (r ← expect_throw StdInvalidArgument (@DttTimeSrc_getTimeSec dtt_no_info test_build); n ← dtt_calls 1 1;
          mret (r && n)) dtt_start.

(** src: systimerfactory/unittest/dtttimerUnitTest.cpp:75-86 getTimeSecTestwithSuccessInfo *)
Definition dtt_getTimeSecTestwithSuccessInfo : bool :=
  passes (v ← @DttTimeSrc_getTimeSec dtt_with_info test_build; n ← dtt_calls 1 1;
          mret (bool_decide (v = 1234567890) && n)) dtt_start.

(** src: systimerfactory/unittest/dtttimerUnitTest.cpp:107-119 getTimeSecTestActivateonceNegetive *)
Definition dtt_getTimeSecTestActivateonceNegetive : bool :=
  passes (v1 ← @DttTimeSrc_getTimeSec dtt_failure test_build; v2 ← @DttTimeSrc_getTimeSec dtt_failure test_build;
          n ← dtt_calls 1 2;
          mret (bool_decide (v1 = 0) && bool_decide (v2 = 0) && n)) dtt_start.

(** src: systimerfactory/unittest/dtttimerUnitTest.cpp:147-150 isReferenceTest *)
Definition dtt_isReferenceTest : bool := negb (@isreference _ (@DttTimeSrc_ITimeSrc good_env test_build) dtt_start.1).

(** src: systimerfactory/unittest/dtttimerUnitTest.cpp:152-161 checkTimeTestTrue *)
Definition dtt_checkTimeTestTrue : bool :=
  passes (r ← @checkTime _ (@DttTimeSrc_ITimeSrc dtt_with_info test_build); n ← dtt_calls 1 1;
          mret (negb r && n)) dtt_start.

(** src: systimerfactory/unittest/dtttimerUnitTest.cpp:165-168 isClockProviderTest *)
Definition dtt_isClockProviderTest : bool := @isclockProvider _ (@DttTimeSrc_ITimeSrc good_env test_build) dtt_start.1.

(** src: systimerfactory/unittest/dtttimerUnitTest.cpp:170-173 checkTimeTest *)
Definition dtt_checkTimeTest : bool :=
  passes (@checkTime _ (@DttTimeSrc_ITimeSrc (json_env false [] []) test_build)) dtt_start.

Definition dttTests : list bool :=
  [dtt_getTimeSecTestwithNoSuccess; dtt_getTimeSecTestwithSuccessNoinfo; dtt_getTimeSecTestwithSuccessInfo;
   dtt_getTimeSecTestActivateonceNegetive; dtt_isReferenceTest; dtt_checkTimeTestTrue; dtt_isClockProviderTest;
   dtt_checkTimeTest].

(** ** rdkDefaulttimesyncUnitTest.cpp

    The tests share the files: they run in the order of the file. *)

(** A local object. *)
Definition with_object {T A} (o : T) (m : M (T * world) A) : M world A := λ w,
  let '(r, (_, w')) := m (o, w) in (r, w').

(** [std::getline] and [std::stoll] on the first line of a file; [None]: it does
    not open, and the test ends with an exception. *)
Definition first_line_ll (path : string) : M world (option Z) :=
  f ← @read_file good_env path;
  match f with
  | Some s => Some <$> of_outcome (stoll (string_substr s 0 (string_find newline s 0)))
  | None => mret None
  end.

Section rdkdefault.
#[local] Existing Instance good_env.
#[local] Existing Instance test_build.

(** src: systimerfactory/unittest/rdkDefaulttimesyncUnitTest.cpp:29-44 getTimeBuildTimeTest *)
Definition getTimeBuildTimeTest : M world bool :=
  _ ← write_file "/version.txt" ("BUILD_TIME=" +:+ quoted "2022-01-01 00:00:00" +:+ newline);
  result ← with_object (new_RdkDefaultTimeSync "/opt/secure/clock.txt") getTime;
  mret (bool_decide (result = 1640995200)).

(** src: systimerfactory/unittest/rdkDefaulttimesyncUnitTest.cpp:46-56 updateTimeWithZero *)
Definition updateTimeWithZero : M world bool :=
  with_object (new_RdkDefaultTimeSync "/tmp/clock.txt")
    (_ ← updateTime 0; data ← on_snd (first_line_ll "/tmp/clock.txt"); t ← getTime;
     mret (bool_decide (Some t = data))).

(** src: systimerfactory/unittest/rdkDefaulttimesyncUnitTest.cpp:64-75 updateTimeWithNonZero *)
Definition updateTimeWithNonZero : M world bool :=
  with_object (new_RdkDefaultTimeSync "/tmp/clock.txt")
    (_ ← updateTime 1640995200; data ← on_snd (first_line_ll "/tmp/clock.txt"); t ← getTime;
     mret (bool_decide (Some t = data))).

(** src: systimerfactory/unittest/rdkDefaulttimesyncUnitTest.cpp:83-87 updateTimeWitDefaultFile *)
Definition updateTimeWitDefaultFile : M world bool :=
  _ ← with_object (new_RdkDefaultTimeSync "/opt/secure/clock.txt") (updateTime 1640995200);
  file_exists "/opt/secure/clock.txt".

(** src: systimerfactory/unittest/rdkDefaulttimesyncUnitTest.cpp:89-96 updateTimeWithExistingTime *)
Definition updateTimeWithExistingTime : M world bool :=
  C_TIME ← sys TimeNull;
  updatedTime ← with_object (new_RdkDefaultTimeSync "/opt/secure/clock.txt") (_ ← updateTime 0; getTime);
  mret (bool_decide (updatedTime + 10 * 60 > C_TIME)).

(** src: systimerfactory/unittest/rdkDefaulttimesyncUnitTest.cpp:97-104 updateTimeWithOlderTimeIncrementsBy10Minutes *)
Definition updateTimeWithOlderTimeIncrementsBy10Minutes : M world bool :=
  with_object (new_RdkDefaultTimeSync "/tmp/clock.txt")
    (_ ← updateTime 1640995200; afterFirst ← getTime; _ ← updateTime 1640990000; afterSecond ← getTime;
     mret (bool_decide (afterSecond = afterFirst))).
End rdkdefault.

(** src: systimerfactory/unittest/rdkDefaulttimesyncUnitTest.cpp:106-114 tokenizeBreakCoverage *)
Definition tokenizeBreakCoverage : M world bool :=
  mret (match tokenize ("KEY1=VALUE1" +:+ newline +:+ "KEY2=") "=" with
        | Some result => bool_decide (result !! "KEY1" = Some "VALUE1")
        | None => false end).

(** src: test/rdkdefaulttimesyncTest.cpp:29-40 TokenizeTest
    The other tests of that file call functions the class does not have. *)
Definition TokenizeTest : M world bool :=
  mret (bool_decide (tokenize ("key1=value1" +:+ newline +:+ "key2=value2" +:+ newline +:+ "key3=value3" +:+ newline) "="
    = Some {["key1" := "value1"; "key2" := "value2"; "key3" := "value3"]})).

(** The results of tests run one after the other. *)
Fixpoint run_tests {S} (ts : list (M S bool)) (s : S) : list bool :=
  match ts with
  | [] => []
  | t :: ts => let '(r, s') := t s in (match r with Ret b => b | _ => false end) :: run_tests ts s'
  end.

Definition rdkDefaultTests : list bool :=
  run_tests [getTimeBuildTimeTest; updateTimeWithZero; updateTimeWithNonZero; updateTimeWitDefaultFile;
             updateTimeWithExistingTime; updateTimeWithOlderTimeIncrementsBy10Minutes; tokenizeBreakCoverage;
             TokenizeTest] good_world.

(** ** timerfactory_gtest.cpp *)

(** [dynamic_cast] to a class succeeds. *)
Definition is_src (k : nat) (o : option TimeSrcObj) : bool :=
  match o with Some o => bool_decide (src_class o = k) | None => false end.

(** src: systimerfactory/unittest/timerfactory_gtest.cpp:30-33 CreateNtpTimeSrc *)
Definition CreateNtpTimeSrc : bool := is_src 0 (@createTimeSrc test_build "ntp" "").
(** src: systimerfactory/unittest/timerfactory_gtest.cpp:35-38 CreateSttTimeSrc *)
Definition CreateSttTimeSrc : bool := is_src 1 (@createTimeSrc test_build "stt" "").
(** src: systimerfactory/unittest/timerfactory_gtest.cpp:40-43 CreateRegularTimeSrc *)
Definition CreateRegularTimeSrc : bool := is_src 2 (@createTimeSrc test_build "regular" "param").
(** src: systimerfactory/unittest/timerfactory_gtest.cpp:45-48 CreateDrmTimeSrc *)
Definition CreateDrmTimeSrc : bool := is_src 3 (@createTimeSrc test_build "drm" "/path").
(** src: systimerfactory/unittest/timerfactory_gtest.cpp:57-60 CreateInvalidTimeSrcReturnsNullptr *)
Definition CreateInvalidTimeSrcReturnsNullptr : bool :=
  match @createTimeSrc test_build "unknown" "xyz" with None => true | Some _ => false end.
(** src: systimerfactory/unittest/timerfactory_gtest.cpp:64-67 CreateTestTimeSync *)
Definition CreateTestTimeSync : bool :=
  match @createTimeSync test_build "test" "arg" with Some (SyncTest _) => true | _ => false end.
(** src: systimerfactory/unittest/timerfactory_gtest.cpp:69-72 CreateRdkDefaultTimeSync *)
Definition CreateRdkDefaultTimeSync : bool :=
  match @createTimeSync test_build "rdkdefault" "" with Some (SyncRdkDefault _) => true | _ => false end.
(** src: systimerfactory/unittest/timerfactory_gtest.cpp:81-84 CreateInvalidTimeSync *)
Definition CreateInvalidTimeSync : bool :=
  match @createTimeSync test_build "blah" "" with None => true | Some _ => false end.

Definition timerfactoryTests : list bool :=
  [CreateNtpTimeSrc; CreateSttTimeSrc; CreateRegularTimeSrc; CreateDrmTimeSrc; CreateInvalidTimeSrcReturnsNullptr;
   CreateTestTimeSync; CreateRdkDefaultTimeSync; CreateInvalidTimeSync].

(** ** The IARM mocks

    The bus answers a connection test with [connected], the registration of a call
    with [regcall] and of an event handler with [reghandler], the power controller
    a deregistration with [unregister]; a mock without an expectation returns 0. *)
Definition bus_env (connected regcall reghandler unregister : Z) : Env := {|
  answer := λ A h c, match c in call A return A with
    | IarmIsConnected _ => connected
    | IarmRegisterCall _ => regcall
    | IarmRegisterEventHandler _ _ => reghandler
    | PowerControllerUnRegister => unregister
    | c => test_answer plain h c end;
  strftime_Ac := glibc_strftime;
  json_member := λ j k, Ret j;
  json_asString := λ j, Ret "";
  json_asBool := λ j, Ret false;
  mfr_param_of_ll := u32;
  ll_of_mfr_param := u32
|}.

(** src: systimerfactory/unittest/mocks/libIARM.h:96-96 IARM_RESULT_SUCCESS *)
Definition IARM_RESULT_SUCCESS : Z := 0.
(** src: systimerfactory/unittest/mocks/libIARM.h:97-97 IARM_RESULT_INVALID_PARAM *)
Definition IARM_RESULT_INVALID_PARAM : Z := 1.
(** src: systimerfactory/unittest/mocks/libIARM.h:98-98 IARM_RESULT_INVALID_STATE *)
Definition IARM_RESULT_INVALID_STATE : Z := 2.
(** src: systimerfactory/unittest/mocks/libIARM.h:99-99 IARM_RESULT_IPCCORE_FAIL *)
Definition IARM_RESULT_IPCCORE_FAIL : Z := 3.

Definition mock_env : Env := bus_env 0 0 0 0.

(** A build of [createSubscriber] with IARM, with and without the power
    controller. *)
Definition iarm_build (pwr : bool) : Build := {|
  T2_EVENT_ENABLED := false; MILESTONE_SUPPORT_DISABLED := true; IARM_SUPPORT_DISABLED := false;
  ENABLE_IARM := true; PWRMGRPLUGIN_ENABLED := pwr; DTT_ENABLED := false; TEE_ENABLED := false;
  WPEVGDRM_ENABLED := false; LOCAL_TEST := false
|}.

Definition is_IarmInit (name : string) {A : Set} (c : call A) : bool :=
  match c with IarmInit n => bool_decide (n = name) | _ => false end.
Definition is_IarmConnect {A : Set} (c : call A) : bool := match c with IarmConnect => true | _ => false end.
Definition is_IarmRegisterCall {A : Set} (c : call A) : bool :=
  match c with IarmRegisterCall n => bool_decide (n = TIMER_STATUS_MSG) | _ => false end.
Definition is_IarmRegisterEventHandler {A : Set} (c : call A) : bool :=
  match c with
  | IarmRegisterEventHandler o e => bool_decide (o = IARM_BUS_PWRMGR_NAME ∧ e = IARM_BUS_PWRMGR_EVENT_MODECHANGED)
  | _ => false end.
Definition is_Broadcast (name : string) (event : Z) {A : Set} (c : call A) : bool :=
  match c with IarmBroadcastEvent n e _ => bool_decide (n = name ∧ e = event) | _ => false end.
Definition is_UnRegister {A : Set} (c : call A) : bool :=
  match c with PowerControllerUnRegister => true | _ => false end.
Definition is_Term {A : Set} (c : call A) : bool := match c with PowerControllerTerm => true | _ => false end.

(** ** pubsubfactory_gtest.cpp *)

Definition no_subscribers : bus * world := (empty_bus, good_world).

(** The object a pointer to a subscriber points at. *)
Definition pointee (p : option nat) : M (bus * world) (option ISubscribe) :=
  gets (λ bw, i ← p; b_objs bw.1 !! i).

(** src: systimerfactory/unittest/pubsubfactory_gtest.cpp:27-30 CreateTestPublish *)
Definition CreateTestPublish : bool :=
  passes (p ← @createPublish mock_env (iarm_build false) "test" "args_for_test";
          mret (match p with Some (TestPublish _) => true | _ => false end)) good_world.
(** src: systimerfactory/unittest/pubsubfactory_gtest.cpp:33-36 CreateIarmPublish *)
Definition CreateIarmPublish : bool :=
  passes (p ← @createPublish mock_env (iarm_build false) "iarm" "args_for_iarm";
          mret (match p with Some (IarmPublish _) => true | _ => false end)) good_world.
(** src: systimerfactory/unittest/pubsubfactory_gtest.cpp:39-42 CreateInvalidPublishReturnsNullptr *)
Definition CreateInvalidPublishReturnsNullptr : bool :=
  passes (p ← @createPublish mock_env (iarm_build false) "unknown" "some_arg";
          mret (match p with None => true | _ => false end)) good_world.
(** src: systimerfactory/unittest/pubsubfactory_gtest.cpp:46-49 CreateTestSubscriber *)
Definition CreateTestSubscriber : bool :=
  passes (p ← @createSubscriber mock_env (iarm_build false) "test" "args_test" "unused_subtype"; o ← pointee p;
          mret (match o with Some (TestSubscriber _) => true | _ => false end)) no_subscribers.
(** src: systimerfactory/unittest/pubsubfactory_gtest.cpp:52-55 CreateIarmTimerStatusSubscriber *)
Definition CreateIarmTimerStatusSubscriber : bool :=
  passes (p ← @createSubscriber mock_env (iarm_build false) "iarm" "args_timer" TIMER_STATUS_MSG; o ← pointee p;
          mret (match o with Some (IarmTimerStatusSubscriber _) => true | _ => false end)) no_subscribers.
(** src: systimerfactory/unittest/pubsubfactory_gtest.cpp:58-61 CreateIpowerControllerSubscriber *)
Definition CreateIpowerControllerSubscriber : bool :=
  passes (p ← @createSubscriber mock_env (iarm_build true) "iarm" "args_power" POWER_CHANGE_MSG; o ← pointee p;
          mret (match o with Some (IpowerControllerSubscriber _) => true | _ => false end)) no_subscribers.
(** src: systimerfactory/unittest/pubsubfactory_gtest.cpp:63-66 CreateIarmPowerSubscriber *)
Definition CreateIarmPowerSubscriber : bool :=
  passes (p ← @createSubscriber mock_env (iarm_build false) "iarm" "args_power" POWER_CHANGE_MSG; o ← pointee p;
          mret (match o with Some (IarmPowerSubscriber _ _) => true | _ => false end)) no_subscribers.
(** src: systimerfactory/unittest/pubsubfactory_gtest.cpp:70-73 CreateInvalidSubscriberReturnsNullptr *)
Definition CreateInvalidSubscriberReturnsNullptr : bool :=
  passes (p ← @createSubscriber mock_env (iarm_build false) "unknown" "some_arg" "some_subtype";
          mret (match p with None => true | _ => false end)) no_subscribers.

Definition pubsubfactoryTests : list bool :=
  [CreateTestPublish; CreateIarmPublish; CreateInvalidPublishReturnsNullptr; CreateTestSubscriber;
   CreateIarmTimerStatusSubscriber; CreateIpowerControllerSubscriber; CreateIarmPowerSubscriber;
   CreateInvalidSubscriberReturnsNullptr].

(** ** iarmpublish_gtest.cpp *)

(** How many of the constructor's calls were made. *)
Definition init_and_connect {O} (name : string) (i c : nat) : M (O * world) bool :=
  n ← called (@is_IarmInit name); k ← called (@is_IarmConnect); mret (bool_decide (n = i) && bool_decide (k = c)).

(** src: systimerfactory/unittest/iarmpublish_gtest.cpp:65-71 Constructor_DoesNotInitIfConnected *)
Definition publish_Constructor_DoesNotInitIfConnected : bool :=
  passes (_ ← on_snd (@new_IarmPublish (bus_env IARM_RESULT_SUCCESS 0 0 0) "TestPublisher");
          init_and_connect "TestPublisher" 0 0) (tt, good_world).
(** src: systimerfactory/unittest/iarmpublish_gtest.cpp:73-82 Constructor_CallsInitAndConnectIfNotConnected *)
Definition publish_Constructor_CallsInitAndConnectIfNotConnected : bool :=
  passes (_ ← on_snd (@new_IarmPublish (bus_env IARM_RESULT_IPCCORE_FAIL 0 0 0) "TestPublisher");
          init_and_connect "TestPublisher" 1 1) (tt, good_world).
(** src: systimerfactory/unittest/iarmpublish_gtest.cpp:84-101 Publish_CallsBroadcastEventWithCorrectArgs
    The two arrays the test does not fill are empty here. *)
Definition Publish_CallsBroadcastEventWithCorrectArgs : bool :=
  passes (p ← on_snd (@new_IarmPublish mock_env "TestPublisher");
          _ ← on_snd (@publish mock_env p 100 (mkTimerMsg 100 50 "" "" "Hello"));
          n ← called (@is_Broadcast "TestPublisher" 100); mret (bool_decide (n = 1%nat))) (tt, good_world).

Definition iarmpublishTests : list bool :=
  [publish_Constructor_DoesNotInitIfConnected; publish_Constructor_CallsInitAndConnectIfNotConnected;
   Publish_CallsBroadcastEventWithCorrectArgs].

(** ** iarmtimerstatus_gtest.cpp *)

(** The constructor, and [subscribe] with some function. *)
Definition timer_subscriber (env : Env) : M (bus * world) nat :=
  @new_IarmTimerStatusSubscriber env "test_subscriber".
Definition timer_subscribe (env : Env) (event : string) : M (bus * world) bool :=
  p ← timer_subscriber env; @subscribe env (Some p) event SysTimeMgr_getTimeStatus.

(** src: systimerfactory/unittest/iarmtimerstatus_gtest.cpp:61-72 Constructor_IarmNotConnected_InitializesAndConnects *)
Definition timer_Constructor_IarmNotConnected_InitializesAndConnects : bool :=
  passes (_ ← timer_subscriber (bus_env IARM_RESULT_INVALID_STATE 0 0 0); init_and_connect "test_subscriber" 1 1)
    no_subscribers.
(** src: systimerfactory/unittest/iarmtimerstatus_gtest.cpp:74-85 Constructor_IarmAlreadyConnected_DoesNotReconnect *)
Definition timer_Constructor_IarmAlreadyConnected_DoesNotReconnect : bool :=
  passes (_ ← timer_subscriber (bus_env IARM_RESULT_SUCCESS 0 0 0); init_and_connect "test_subscriber" 0 0)
    no_subscribers.
(** src: systimerfactory/unittest/iarmtimerstatus_gtest.cpp:87-94 Subscribe_InvalidEventName_ReturnsFalse *)
Definition timer_Subscribe_InvalidEventName_ReturnsFalse : bool :=
  passes (result ← timer_subscribe mock_env "INVALID_EVENT"; n ← called (@is_IarmRegisterCall);
          mret (negb result && bool_decide (n = 0%nat))) no_subscribers.
(** src: systimerfactory/unittest/iarmtimerstatus_gtest.cpp:96-104 Subscribe_ValidEventName_CallsRegisterCallAndReturnsFalseOnSuccess *)
Definition timer_Subscribe_ValidEventName_ReturnsFalseOnSuccess : bool :=
  passes (result ← timer_subscribe (bus_env 0 IARM_RESULT_SUCCESS 0 0) TIMER_STATUS_MSG;
          n ← called (@is_IarmRegisterCall); mret (negb result && bool_decide (n = 1%nat))) no_subscribers.
(** src: systimerfactory/unittest/iarmtimerstatus_gtest.cpp:106-113 Subscribe_ValidEventName_ReturnsTrueOnFailure *)
Definition timer_Subscribe_ValidEventName_ReturnsTrueOnFailure : bool :=
  passes (result ← timer_subscribe (bus_env 0 IARM_RESULT_INVALID_STATE 0 0) TIMER_STATUS_MSG;
          n ← called (@is_IarmRegisterCall); mret (result && bool_decide (n = 1%nat))) no_subscribers.

Definition iarmtimerstatusTests : list bool :=
  [timer_Constructor_IarmNotConnected_InitializesAndConnects; timer_Constructor_IarmAlreadyConnected_DoesNotReconnect;
   timer_Subscribe_InvalidEventName_ReturnsFalse; timer_Subscribe_ValidEventName_ReturnsFalseOnSuccess;
   timer_Subscribe_ValidEventName_ReturnsTrueOnFailure].

(** ** iarmpowersubscribe_gtest.cpp

    The function given to [subscribe] stands for the tests' [TestPowerHandler],
    which records the string it is called with. *)

Definition power_subscriber : M (bus * world) nat := @new_IarmPowerSubscriber mock_env "TestSub".
Definition power_subscribe (env : Env) (event : string) : M (bus * world) bool :=
  p ← power_subscriber; @subscribe env (Some p) event SysTimeMgr_powerhandler.

(** [gReceivedStatus] after the event. *)
Definition received (c : option invocation) : string := match c with Some (_, status) => status | None => "" end.

(** Subscribed, the transition makes [gReceivedStatus] equal to a string. *)
Definition power_transition (cur new : IARM_PowerState) (status : string) : bool :=
  passes (_ ← power_subscribe mock_env POWER_CHANGE_MSG;
          c ← powereventHandler IARM_BUS_PWRMGR_EVENT_MODECHANGED cur new;
          mret (bool_decide (received c = status))) no_subscribers.

(** src: systimerfactory/unittest/iarmpowersubscribe_gtest.cpp:69-77 Constructor_NotConnected_CallsInitAndConnect *)
Definition power_Constructor_NotConnected_CallsInitAndConnect : bool :=
  passes (_ ← @new_IarmPowerSubscriber (bus_env IARM_RESULT_INVALID_STATE 0 0 0) "TestSub";
          init_and_connect "TestSub" 1 1) no_subscribers.
(** src: systimerfactory/unittest/iarmpowersubscribe_gtest.cpp:79-87 Subscribe_ValidPowerEvent_Success *)
Definition power_Subscribe_ValidPowerEvent_Success : bool :=
  passes (result ← power_subscribe (bus_env 0 0 IARM_RESULT_INVALID_PARAM 0) POWER_CHANGE_MSG;
          n ← called (@is_IarmRegisterEventHandler); mret (result && bool_decide (n = 1%nat))) no_subscribers.
(** src: systimerfactory/unittest/iarmpowersubscribe_gtest.cpp:89-93 Subscribe_InvalidEvent_ReturnsFalse *)
Definition power_Subscribe_InvalidEvent_ReturnsFalse : bool :=
  passes (result ← power_subscribe mock_env "UNKNOWN_EVENT"; mret (negb result)) no_subscribers.
(** src: systimerfactory/unittest/iarmpowersubscribe_gtest.cpp:95-105 PowerEventHandler_DeepSleepOn_TriggersHandler *)
Definition PowerEventHandler_DeepSleepOn_TriggersHandler : bool :=
  power_transition IARM_POWERSTATE_ON IARM_POWERSTATE_STANDBY_DEEP_SLEEP "DEEP_SLEEP_ON".
(** src: systimerfactory/unittest/iarmpowersubscribe_gtest.cpp:107-117 PowerEventHandler_DeepSleepOff_TriggersHandler *)
Definition PowerEventHandler_DeepSleepOff_TriggersHandler : bool :=
  power_transition IARM_POWERSTATE_STANDBY_DEEP_SLEEP IARM_POWERSTATE_ON "DEEP_SLEEP_OFF".
(** src: systimerfactory/unittest/iarmpowersubscribe_gtest.cpp:119-130 PowerEventHandler_DeepSleepOff_LightSleep_TriggersHandler *)
Definition PowerEventHandler_DeepSleepOff_LightSleep_TriggersHandler : bool :=
  power_transition IARM_POWERSTATE_STANDBY_DEEP_SLEEP IARM_POWERSTATE_STANDBY_LIGHT_SLEEP "DEEP_SLEEP_OFF".
(** src: systimerfactory/unittest/iarmpowersubscribe_gtest.cpp:132-143 PowerEventHandler_DeepSleepOff_Standby_TriggersHandler *)
Definition PowerEventHandler_DeepSleepOff_Standby_TriggersHandler : bool :=
  power_transition IARM_POWERSTATE_STANDBY_DEEP_SLEEP IARM_POWERSTATE_STANDBY "DEEP_SLEEP_OFF".
(** src: systimerfactory/unittest/iarmpowersubscribe_gtest.cpp:145-152 PowerEventHandler_UnrelatedEventId_DoesNothing
    The data pointer is null; it is not looked at. *)
Definition PowerEventHandler_UnrelatedEventId_DoesNothing : bool :=
  passes (_ ← power_subscribe mock_env POWER_CHANGE_MSG;
          c ← powereventHandler 999 IARM_POWERSTATE_OFF IARM_POWERSTATE_OFF;
          mret (bool_decide (received c = ""))) no_subscribers.
(** src: systimerfactory/unittest/iarmpowersubscribe_gtest.cpp:154-167 PowerEventHandler_NullSingleton_InstancePathCovered *)
Definition PowerEventHandler_NullSingleton_InstancePathCovered : bool :=
  passes (_ ← powereventHandler IARM_BUS_PWRMGR_EVENT_MODECHANGED IARM_POWERSTATE_ON
                IARM_POWERSTATE_STANDBY_DEEP_SLEEP; mret true) no_subscribers.

Definition iarmpowersubscribeTests : list bool :=
  [power_Constructor_NotConnected_CallsInitAndConnect; power_Subscribe_ValidPowerEvent_Success;
   power_Subscribe_InvalidEvent_ReturnsFalse; PowerEventHandler_DeepSleepOn_TriggersHandler;
   PowerEventHandler_DeepSleepOff_TriggersHandler; PowerEventHandler_DeepSleepOff_LightSleep_TriggersHandler;
   PowerEventHandler_DeepSleepOff_Standby_TriggersHandler; PowerEventHandler_UnrelatedEventId_DoesNothing;
   PowerEventHandler_NullSingleton_InstancePathCovered].

(** ** ipowercontrollersubscriber_gtest.cpp

    Again the registered function stands for the tests' handlers, and an
    invocation for a handler that was called. *)

Definition pc_subscriber_of (name : string) : M (bus * world) nat := new_IpowerControllerSubscriber name.

(** [subscriber.m_powerHandler = f]. *)
Definition set_powerHandler (this : nat) (f : funcPtr) : M (bus * world) unit :=
  o ← pointee (Some this);
  match o with
  | Some (IpowerControllerSubscriber o) => put_subscriber this (IpowerControllerSubscriber (with_handler f o))
  | _ => undef
  end.

(** A subscriber with a handler is given a transition; the string the handler
    gets. *)
Definition pc_transition (f : funcPtr) (cur new : PowerController_PowerState) : M (bus * world) (option string) :=
  p ← pc_subscriber_of "sub";
  _ ← set_powerHandler p f;
  c ← sysTimeMgrHandlePwrEventData cur new;
  mret (snd <$> c).
Definition test_handler : funcPtr := FFun SysTimeMgr_powerhandler.

(** The object is destroyed. *)
Definition pc_delete (env : Env) (this : nat) : M (bus * world) bool :=
  o ← pointee (Some this);
  match o with
  | Some (IpowerControllerSubscriber o) => @delete_IpowerControllerSubscriber env this o
  | _ => undef
  end.

(** src: systimerfactory/unittest/ipowercontrollersubscriber_gtest.cpp:65-69 Destructor_CallsPowerControllerTerm *)
Definition Destructor_CallsPowerControllerTerm : bool :=
  passes (p ← pc_subscriber_of "test_subscriber"; b ← pc_delete mock_env p; n ← called (@is_Term);
          mret (b && bool_decide (n = 1%nat))) no_subscribers.
(** src: systimerfactory/unittest/ipowercontrollersubscriber_gtest.cpp:72-76 Subscribe_InvalidEventName_ReturnsFalse *)
Definition pc_Subscribe_InvalidEventName_ReturnsFalse : bool :=
  passes (p ← pc_subscriber_of "test_subscriber";
          ret ← @subscribe mock_env (Some p) "INVALID_EVENT" SysTimeMgr_powerhandler; mret (negb ret)) no_subscribers.
(** src: systimerfactory/unittest/ipowercontrollersubscriber_gtest.cpp:86-94 HandlePwrEventData_DeepSleepOn *)
Definition HandlePwrEventData_DeepSleepOn : bool :=
  passes (c ← pc_transition test_handler POWER_STATE_UNKNOWN POWER_STATE_OFF;
          mret (bool_decide (c = Some "DEEP_SLEEP_ON"))) no_subscribers.
(** src: systimerfactory/unittest/ipowercontrollersubscriber_gtest.cpp:103-109 HandlePwrEventData_DeepSleepOff *)
Definition HandlePwrEventData_DeepSleepOff : bool :=
  passes (c ← pc_transition test_handler POWER_STATE_STANDBY_DEEP_SLEEP POWER_STATE_ON;
          mret (bool_decide (c = Some "DEEP_SLEEP_OFF"))) no_subscribers.
(** src: systimerfactory/unittest/ipowercontrollersubscriber_gtest.cpp:111-115 Subscribe_ValidEvent_ConnectionFails_WithTestSubscriber *)
Definition Subscribe_ValidEvent_ConnectionFails_WithTestSubscriber : bool :=
  passes (p ← new_subscriber (TestSubscriber "test_subscriber");
          @subscribe mock_env (Some p) POWER_CHANGE_MSG SysTimeMgr_powerhandler) no_subscribers.
(** src: systimerfactory/unittest/ipowercontrollersubscriber_gtest.cpp:117-121 Subscribe_ValidEvent_ConnectionSuccess_WithTestSubscriber *)
Definition Subscribe_ValidEvent_ConnectionSuccess_WithTestSubscriber : bool :=
  passes (p ← new_subscriber (TestSubscriber "test_subscriber");
          @subscribe mock_env (Some p) POWER_CHANGE_MSG SysTimeMgr_powerhandler) no_subscribers.
(** src: systimerfactory/unittest/ipowercontrollersubscriber_gtest.cpp:144-148 Destructor_WithoutSubscribe_DoesNotCrashOrLeak *)
Definition Destructor_WithoutSubscribe_DoesNotCrashOrLeak : bool :=
  passes (p ← pc_subscriber_of "test_subscriber"; b ← pc_delete mock_env p; n ← called (@is_Term);
          mret (b && bool_decide (n = 1%nat))) no_subscribers.
(** src: systimerfactory/unittest/ipowercontrollersubscriber_gtest.cpp:123-129 HandlePwrEventData_UnknownNewState_LogsError *)
Definition HandlePwrEventData_UnknownNewState_LogsError : bool :=
  passes (c ← pc_transition test_handler POWER_STATE_ON (POWER_STATE_OTHER 999);
          mret (bool_decide (c = None))) no_subscribers.
(** src: systimerfactory/unittest/ipowercontrollersubscriber_gtest.cpp:131-136 Destructor_UnregisterCallbackFails_StillCleansUp *)
Definition Destructor_UnregisterCallbackFails_StillCleansUp : bool :=
  passes (p ← pc_subscriber_of "test_subscriber"; b ← pc_delete (bus_env 0 0 0 1) p;
          n ← called (@is_Term); k ← called (@is_UnRegister);
          mret (b && bool_decide (n = 1%nat) && bool_decide (k = 1%nat))) no_subscribers.
(** src: systimerfactory/unittest/ipowercontrollersubscriber_gtest.cpp:138-142 Subscribe_EmptyEventName_ReturnsFalse *)
Definition Subscribe_EmptyEventName_ReturnsFalse : bool :=
  passes (p ← pc_subscriber_of "test_subscriber";
          ret ← @subscribe mock_env (Some p) "" SysTimeMgr_powerhandler; mret (negb ret)) no_subscribers.
(** src: systimerfactory/unittest/ipowercontrollersubscriber_gtest.cpp:160-165 HandlePwrEventData_NoHandler_DoesNotCrash *)
Definition HandlePwrEventData_NoHandler_DoesNotCrash : bool :=
  passes (_ ← pc_transition FNull POWER_STATE_UNKNOWN POWER_STATE_OFF; mret true) no_subscribers.
(** src: systimerfactory/unittest/ipowercontrollersubscriber_gtest.cpp:188-215 SysTimeMgrPwrEventHandler_EnqueuesEventAndSignals
    The queue; the signal is that of PowerQueue. *)
Definition SysTimeMgrPwrEventHandler_EnqueuesEventAndSignals : bool :=
  passes (p ← pc_subscriber_of "test_subscriber";
          _ ← sysTimeMgrPwrEventHandler POWER_STATE_OFF POWER_STATE_ON;
          o ← pointee (Some p);
          mret (match o with
                | Some (IpowerControllerSubscriber o) =>
                    bool_decide (pc_pwrEvtQueue o = [(POWER_STATE_OFF, POWER_STATE_ON)])
                | _ => false end)) no_subscribers.
(** src: systimerfactory/unittest/ipowercontrollersubscriber_gtest.cpp:218-222 HandlePwrEventData_InvalidState_LogsError *)
Definition HandlePwrEventData_InvalidState_LogsError : bool :=
  passes (_ ← pc_subscriber_of "test_subscriber";
          _ ← sysTimeMgrHandlePwrEventData POWER_STATE_ON (POWER_STATE_OTHER 999); mret true) no_subscribers.

Definition ipowercontrollersubscriberTests : list bool :=
  [Destructor_CallsPowerControllerTerm; pc_Subscribe_InvalidEventName_ReturnsFalse; HandlePwrEventData_DeepSleepOn;
   HandlePwrEventData_DeepSleepOff; Subscribe_ValidEvent_ConnectionFails_WithTestSubscriber;
   Subscribe_ValidEvent_ConnectionSuccess_WithTestSubscriber; Destructor_WithoutSubscribe_DoesNotCrashOrLeak;
   HandlePwrEventData_UnknownNewState_LogsError; Destructor_UnregisterCallbackFails_StillCleansUp;
   Subscribe_EmptyEventName_ReturnsFalse; HandlePwrEventData_NoHandler_DoesNotCrash;
   SysTimeMgrPwrEventHandler_EnqueuesEventAndSignals; HandlePwrEventData_InvalidState_LogsError].

(** ** SysTimeMgrUnitTest.cpp: the mocks

    Each mock is an instance of the interface with the answers given to its
    expectations and the calls made of it so far.  The two role queries, which
    have no effect, are not counted. *)

(** src: systimerfactory/unittest/SysTimeMgrUnitTest.cpp:18-24 MockTimeSrc *)
Record MockTimeSrc := mkMockTimeSrc {
  mock_reference : bool; mock_time : Z; mock_provider : bool;
  calls_getTimeSec : nat; calls_checkTime : nat
}.
(** src: systimerfactory/unittest/SysTimeMgrUnitTest.cpp:26-30 MockTimeSync *)
Record MockTimeSync := mkMockTimeSync { mock_getTime : Z; calls_getTime : nat; calls_updateTime : nat }.

#[export] Instance MockTimeSrc_ITimeSrc : ITimeSrc MockTimeSrc := {
  isreference := mock_reference;
  getTimeSec := λ ow, let o := ow.1 in (Ret (mock_time o),
    (mkMockTimeSrc (mock_reference o) (mock_time o) (mock_provider o) (S (calls_getTimeSec o)) (calls_checkTime o), ow.2));
  checkTime := λ ow, let o := ow.1 in (Ret false,
    (mkMockTimeSrc (mock_reference o) (mock_time o) (mock_provider o) (calls_getTimeSec o) (S (calls_checkTime o)), ow.2));
  isclockProvider := mock_provider
}.
#[export] Instance MockTimeSync_ITimeSync : ITimeSync MockTimeSync := {
  updateTime := λ _ ow, let o := ow.1 in
    (Ret tt, (mkMockTimeSync (mock_getTime o) (calls_getTime o) (S (calls_updateTime o)), ow.2));
  getTime := λ ow, let o := ow.1 in
    (Ret (mock_getTime o), (mkMockTimeSync (mock_getTime o) (S (calls_getTime o)) (calls_updateTime o), ow.2))
}.

(** ** SysTimeMgrUnitTest.cpp: the tests

    The mock publisher is a [TestPublish], whose calls the log counts. *)

Definition test_mgr : Type := mgr MockTimeSrc MockTimeSync.

(** src: systimerfactory/unittest/SysTimeMgrUnitTest.cpp:57-76 SysTimeMgrTest::SetUp *)
Definition SetUp : M world test_mgr :=
  m ← get_instance (Src := MockTimeSrc) (Sync := MockTimeSync) None;
  mret (set_pathEventMap (fill_pathEventMap [])
         (set_tmrsubscriber (Some 0%nat) (set_subscriber (Some 0%nat)
           (set_publish (Some (TestPublish "MockPublisherForTest")) (set_syncs [] (set_srcs [] m)))))).

(** A test of the fixture. *)
Definition fixture (t : M (test_mgr * world) bool) : bool :=
  passes (m ← SetUp; with_object m t) good_world.

(** The disk refuses to open a file. *)
Definition cannot_open (path : string) : Env := {|
  answer := λ A h c, match c in call A return A with
    | OpenWrite p => negb (bool_decide (p = path))
    | InotifyAddWatch _ _ => -1
    | c => test_answer plain h c end;
  strftime_Ac := glibc_strftime;
  json_member := λ j k, Ret j;
  json_asString := λ j, Ret "";
  json_asBool := λ j, Ret false;
  mfr_param_of_ll := u32;
  ll_of_mfr_param := u32
|}.

(** A computation of the daemon from an object without subscribers. *)
Definition in_daemon {A} (m : mgr TimeSrcObj TimeSyncObj) (c : M daemon A) : M world A := λ w,
  let '(r, s) := c (m, (empty_bus, w)) in (r, s.2.2).

Definition is_Console {A : Set} (c : call A) : bool := match c with ConsolePublish _ _ _ => true | _ => false end.

Section systimemgr_tests.
#[local] Existing Instance good_env.
#[local] Existing Instance test_build.
Implicit Type t : M (test_mgr * world) unit.

(** A source and a sync as the tests expect them to answer. *)
Definition src_of (ref : bool) (time : Z) (provider : bool) : MockTimeSrc := mkMockTimeSrc ref time provider 0 0.
Definition sync_of (time : Z) : MockTimeSync := mkMockTimeSync time 0 0.
Definition push_src (o : MockTimeSrc) : M (test_mgr * world) unit := upd (λ m, set_srcs (m_timerSrc m ++ [Some o]) m).
Definition push_sync (o : MockTimeSync) : M (test_mgr * world) unit :=
  upd (λ m, set_syncs (m_timerSync m ++ [Some o]) m).

(** Runs a call; then the sources were asked so often for the time and for a
    check, the syncs so often for the time and for an update. *)
Definition src_calls (time check : nat) : M (test_mgr * world) bool :=
  srcs ← field m_timerSrc;
  mret (forallb (λ p, match p with
    | Some o => bool_decide (calls_getTimeSec o = time) && bool_decide (calls_checkTime o = check)
    | None => false end) srcs).
Definition sync_calls (get update : nat) : M (test_mgr * world) bool :=
  syncs ← field m_timerSync;
  mret (forallb (λ p, match p with
    | Some o => bool_decide (calls_getTime o = get) && bool_decide (calls_updateTime o = update)
    | None => false end) syncs).

(** It publishes at least once and leaves the given state. *)
Definition publishes (t : M (test_mgr * world) unit) (st : option sysTimeMgrState) : bool :=
  fixture (_ ← t; n ← called (@is_Console); s ← field m_state;
           mret (negb (bool_decide (n = 0%nat)) &&
                 match st with Some st => bool_decide (s = st) | None => true end)).

(** src: systimerfactory/unittest/SysTimeMgrUnitTest.cpp:105-108 DestructorCovers *)
Definition DestructorCovers : bool :=
  passes (m ← new_SysTimeMgr "dummy.cfg"; _ ← in_daemon m delete_SysTimeMgr; mret true) good_world.
(** src: systimerfactory/unittest/SysTimeMgrUnitTest.cpp:111-115 SetInitialTime_ZeroTime *)
Definition SetInitialTime_ZeroTime : bool :=
  fixture (_ ← push_sync (sync_of 0); _ ← setInitialTime; sync_calls 1 0).
(** src: systimerfactory/unittest/SysTimeMgrUnitTest.cpp:117-121 SetInitialTime_NonZeroTime *)
Definition SetInitialTime_NonZeroTime : bool :=
  fixture (_ ← push_sync (sync_of 100000); _ ← setInitialTime; sync_calls 1 0).
(** src: systimerfactory/unittest/SysTimeMgrUnitTest.cpp:123-127 UpdateTime_InvokesCheckTime *)
Definition UpdateTime_InvokesCheckTime : bool :=
  fixture (_ ← push_src (src_of false 0 false); _ ← SysTimeMgr_updateTime None; src_calls 0 1).
(** src: systimerfactory/unittest/SysTimeMgrUnitTest.cpp:129-139 SetInitialTime_FileCreationFails
    A directory of that name is there, so the open fails. *)
Definition SetInitialTime_FileCreationFails : bool :=
  fixture (_ ← push_sync (sync_of 12345); _ ← @setInitialTime (cannot_open "/tmp/systimeset") _ _ _ _; sync_calls 1 0).
(** src: systimerfactory/unittest/SysTimeMgrUnitTest.cpp:141-143 RunStateMachineUnknownEvent *)
Definition RunStateMachineUnknownEvent : bool :=
  fixture (_ ← runStateMachine eSYSMGR_EVENT_UNKNOWN None; mret true).
(** src: systimerfactory/unittest/SysTimeMgrUnitTest.cpp:145-150 TimerExpiryUsesReference *)
Definition TimerExpiryUsesReference : bool :=
  fixture (_ ← push_src (src_of true 1234 false); _ ← timerExpiry None; src_calls 1 0).
(** src: systimerfactory/unittest/SysTimeMgrUnitTest.cpp:152-157 TimerExpiryUsesFileTime *)
Definition TimerExpiryUsesFileTime : bool :=
  fixture (_ ← push_src (src_of false 5678 false); _ ← timerExpiry None; src_calls 1 0).
(** src: systimerfactory/unittest/SysTimeMgrUnitTest.cpp:159-163 UpdateTimeSyncCallsSyncs *)
Definition UpdateTimeSyncCallsSyncs : bool :=
  fixture (_ ← push_sync (sync_of 0); _ ← updateTimeSync 1234; sync_calls 0 1).
(** src: systimerfactory/unittest/SysTimeMgrUnitTest.cpp:165-168 NtpFailedPublishesStatus *)
Definition NtpFailedPublishesStatus : bool := publishes (ntpFailed None) None.
(** src: systimerfactory/unittest/SysTimeMgrUnitTest.cpp:170-174 NtpAquiredPublishesStatusAndUpdatesState *)
Definition NtpAquiredPublishesStatusAndUpdatesState : bool :=
  publishes (ntpAquired None) (Some eSYSMGR_STATE_NTP_ACQUIRED).
(** src: systimerfactory/unittest/SysTimeMgrUnitTest.cpp:176-180 NtpFailed *)
Definition NtpFailed : bool := publishes (ntpFailed None) (Some eSYSMGR_STATE_NTP_FAIL).
(** src: systimerfactory/unittest/SysTimeMgrUnitTest.cpp:183-187 DttAcquiredPublishesStatusAndUpdatesState *)
Definition DttAcquiredPublishesStatusAndUpdatesState : bool :=
  publishes (dttAquired None) (Some eSYSMGR_STATE_DTT_ACQUIRED).
(** src: systimerfactory/unittest/SysTimeMgrUnitTest.cpp:189-192 SecureTimeAcquiredUpdatesState *)
Definition SecureTimeAcquiredUpdatesState : bool :=
  fixture (_ ← secureTimeAcquired None; s ← field m_state;
           mret (bool_decide (s = eSYSMGR_STATE_SECURE_TIME_ACQUIRED))).
(** src: systimerfactory/unittest/SysTimeMgrUnitTest.cpp:194-198 UpdateSecureTimePublishesStatusAndUpdatesState *)
Definition UpdateSecureTimePublishesStatusAndUpdatesState : bool :=
  publishes (updateSecureTime None) (Some eSYSMGR_STATE_RUNNING).
(** src: systimerfactory/unittest/SysTimeMgrUnitTest.cpp:204-208 GetTimeStatusPopulatesFields *)
Definition GetTimeStatusPopulatesFields : bool :=
  fixture (msg ← getTimeStatus (mkTimerMsg 0 0 "" "" ""); mret (bool_decide (0 ≤ Z.of_nat (String.length (msg_message msg))))).
(** src: systimerfactory/unittest/SysTimeMgrUnitTest.cpp:210-215 PowerHandlerHandlesSleepEvents *)
Definition PowerHandlerHandlesSleepEvents : bool :=
  fixture (on ← powerhandler "DEEP_SLEEP_ON"; off ← powerhandler "DEEP_SLEEP_OFF";
           mret (bool_decide (on = 1) && bool_decide (off = 1))).
(** src: systimerfactory/unittest/SysTimeMgrUnitTest.cpp:217-221 DeepSleepOffPublishesStatus *)
Definition DeepSleepOffPublishesStatus : bool :=
  publishes (_ ← upd (set_quality eTIMEQUALILTY_SECURE); deepsleepoff) None.
(** src: systimerfactory/unittest/SysTimeMgrUnitTest.cpp:223-226 DeepSleepOffCoversPoorCase *)
Definition DeepSleepOffCoversPoorCase : bool :=
  fixture (_ ← upd (set_quality eTIMEQUALILTY_POOR); _ ← deepsleepoff; mret true).
(** src: systimerfactory/unittest/SysTimeMgrUnitTest.cpp:233-239 UpdateClockRealTimeSetsTime *)
Definition UpdateClockRealTimeSetsTime : bool :=
  fixture (_ ← push_src (src_of false 1234 true); _ ← updateClockRealTime None; src_calls 1 1).
(** src: systimerfactory/unittest/SysTimeMgrUnitTest.cpp:269-281 UpdateClockRealTimeAllBranches *)
Definition UpdateClockRealTimeAllBranches : bool :=
  fixture (_ ← push_src (src_of false 1234 true); _ ← updateClockRealTime None; r1 ← src_calls 1 1;
           _ ← upd (set_srcs []);
           _ ← push_src (src_of false 0 true); _ ← updateClockRealTime None; r2 ← src_calls 1 1;
           mret (r1 && r2)).
(** src: systimerfactory/unittest/SysTimeMgrUnitTest.cpp:283-292 GetTimeStatus_AllQualities *)
Definition GetTimeStatus_AllQualities : bool :=
  fixture (_ ← upd (set_quality eTIMEQUALILTY_POOR); msg ← getTimeStatus (mkTimerMsg 0 0 "" "" "");
           _ ← upd (set_quality eTIMEQUALILTY_GOOD); msg ← getTimeStatus msg;
           _ ← upd (set_quality eTIMEQUALILTY_SECURE); _ ← getTimeStatus msg; mret true).
(** src: systimerfactory/unittest/SysTimeMgrUnitTest.cpp:294-302 PublishStatusCoversAll *)
Definition PublishStatusCoversAll : bool :=
  publishes (_ ← publishStatus ePUBLISH_NTP_FAIL "Poor"; _ ← publishStatus ePUBLISH_NTP_SUCCESS "Good";
             _ ← publishStatus ePUBLISH_SECURE_TIME_SUCCESS "Secure"; _ ← publishStatus ePUBLISH_DTT_SUCCESS "Good";
             _ ← publishStatus ePUBLISH_TIME_INITIAL "Poor"; publishStatus ePUBLISH_DEEP_SLEEP_ON "Unknown") None.
(** src: systimerfactory/unittest/SysTimeMgrUnitTest.cpp:304-314 TimerExpiry_RefVsFileTime *)
Definition TimerExpiry_RefVsFileTime : bool :=
  fixture (_ ← push_src (src_of true 123 false); _ ← timerExpiry None; r1 ← src_calls 1 0;
           _ ← upd (set_srcs []);
           _ ← push_src (src_of false 456 false); _ ← timerExpiry None; r2 ← src_calls 1 0;
           mret (r1 && r2)).
(** src: systimerfactory/unittest/SysTimeMgrUnitTest.cpp:331-345 RunStateMachine_AllStatesEvents
    The machine is filled by [initialize], which the fixture does not call. *)
Definition RunStateMachine_AllStatesEvents : bool :=
  fixture (_ ← mapM (λ state, _ ← upd (set_state state);
             mapM (λ event, runStateMachine event None)
               [eSYSMGR_EVENT_TIMER_EXPIRY; eSYSMGR_EVENT_NTP_AVAILABLE; eSYSMGR_EVENT_SECURE_TIME_AVAILABLE;
                eSYSMGR_EVENT_DTT_TIME_AVAILABLE])
             [eSYSMGR_STATE_RUNNING; eSYSMGR_STATE_NTP_WAIT; eSYSMGR_STATE_NTP_ACQUIRED; eSYSMGR_STATE_NTP_FAIL;
              eSYSMGR_STATE_DTT_ACQUIRED; eSYSMGR_STATE_SECURE_TIME_ACQUIRED]; mret true).
(** src: systimerfactory/unittest/SysTimeMgrUnitTest.cpp:383-389 RunPathMonitorInotifyAddWatchFails
    With an empty map and no directory to watch the monitor returns. *)
Definition RunPathMonitorInotifyAddWatchFails : bool :=
  passes (m ← get_instance None;
          in_daemon (set_pathEventMap [] m) (@runPathMonitor (cannot_open "") 1))
    good_world.
(** src: systimerfactory/unittest/SysTimeMgrUnitTest.cpp:392-396 RunStateMachine_HitsFunctionPointer *)
Definition RunStateMachine_HitsFunctionPointer : bool :=
  fixture (_ ← upd (λ m, set_stateMachine
             (sm_assign eSYSMGR_STATE_RUNNING eSYSMGR_EVENT_TIMER_EXPIRY updateTime_f (stateMachine m)) m);
           _ ← upd (set_state eSYSMGR_STATE_RUNNING); _ ← runStateMachine eSYSMGR_EVENT_TIMER_EXPIRY None; mret true).
(** src: systimerfactory/unittest/SysTimeMgrUnitTest.cpp:200-202 SendMessageQueuesEvent *)
Definition SendMessageQueuesEvent : bool :=
  fixture (_ ← sendMessage eSYSMGR_EVENT_TIMER_EXPIRY None; q ← field m_queue;
           mret (bool_decide (map sm_event q = [eSYSMGR_EVENT_TIMER_EXPIRY]))).
(** src: systimerfactory/unittest/SysTimeMgrUnitTest.cpp:228-230 DeepSleepOnLogs *)
Definition DeepSleepOnLogs : bool := fixture (_ ← deepsleepon; mret true).

(** The tests of the thread functions, on the object of the daemon. *)
Definition thread_test (env : Env) (w : world) (t : M daemon bool) : bool :=
  passes (m ← get_instance None;
          in_daemon (set_pathEventMap (fill_pathEventMap []) (set_publish (Some (TestPublish "MockPublisherForTest")) m)) t) w.
Definition queued : M daemon (list sysTimeMgrEvent) := gets (λ s : daemon, map sm_event (m_queue s.1)).

(** src: systimerfactory/unittest/SysTimeMgrUnitTest.cpp:241-244 RunDetachesThreadsWhenNotForever *)
Definition RunDetachesThreadsWhenNotForever : bool :=
  thread_test good_env good_world
    (ts ← run "1" false; f ← on_mgr (on_snd (file_exists "/run/systimemgr.pid"));
     mret (negb f && bool_decide (length ts = 3%nat))).
(** src: systimerfactory/unittest/SysTimeMgrUnitTest.cpp:247-256 ProcessThrCallsProcessMsgAndRunsOneIteration
    One message, which no state handles; then the thread waits. *)
Definition ProcessThrCallsProcessMsgAndRunsOneIteration : bool :=
  thread_test good_env good_world
    (_ ← on_mgr (sendMessage eSYSMGR_EVENT_UNKNOWN None); _ ← processMsg 2; q ← queued; mret (bool_decide (q = []))).
(** src: systimerfactory/unittest/SysTimeMgrUnitTest.cpp:324-329 SendMessageAndProcessMsg *)
Definition SendMessageAndProcessMsg : bool :=
  thread_test good_env good_world
    (_ ← on_mgr (sendMessage eSYSMGR_EVENT_TIMER_EXPIRY None); _ ← processMsg 2; q ← queued; mret (bool_decide (q = []))).
(** src: systimerfactory/unittest/SysTimeMgrUnitTest.cpp:258-267 TimerThrCallsRunTimerAndRunsOnce
    The round after the sleep of ten minutes, which the test does not wait for. *)
Definition TimerThrCallsRunTimerAndRunsOnce : bool :=
  thread_test good_env good_world
    (_ ← runTimer_round; q ← queued; mret (bool_decide (q = [eSYSMGR_EVENT_TIMER_EXPIRY]))).
(** src: systimerfactory/unittest/SysTimeMgrUnitTest.cpp:316-322 TimerThrAndProcessThrCoverage *)
Definition TimerThrAndProcessThrCoverage : bool :=
  thread_test good_env good_world (_ ← runTimer_round; _ ← processMsg 2; q ← queued; mret (bool_decide (q = []))).
(** src: systimerfactory/unittest/SysTimeMgrUnitTest.cpp:348-353 GetTimeStatusStaticFunctionWorks *)
Definition GetTimeStatusStaticFunctionWorks : bool :=
  thread_test good_env good_world
    (r ← getTimeStatus_callback (mkTimerMsg 0 0 "" "" ""); mret (bool_decide (snd r = 0))).

(** inotify reports the change of the attributes of the ntp file, then nothing. *)
Definition chmod_env : Env := {|
  answer := λ A h c, match c in call A return A with
    | InotifyRead => Some [InotifyEvent IN_ATTRIB "ntp"]
    | c => test_answer plain h c end;
  strftime_Ac := glibc_strftime;
  json_member := λ j k, Ret j;
  json_asString := λ j, Ret "";
  json_asBool := λ j, Ret false;
  mfr_param_of_ll := u32;
  ll_of_mfr_param := u32
|}.

(** src: systimerfactory/unittest/SysTimeMgrUnitTest.cpp:355-367 RunPathMonitorCoversInotifyEvent
    The file is found by the scan and its change is read. *)
Definition RunPathMonitorCoversInotifyEvent : bool :=
  thread_test chmod_env good_world
    (_ ← on_mgr (on_snd (write_file "/tmp/systimemgr/ntp" "test")); _ ← @runPathMonitor chmod_env 1; q ← queued;
     mret (bool_decide (q = [eSYSMGR_EVENT_NTP_AVAILABLE; eSYSMGR_EVENT_NTP_AVAILABLE]))).
(** src: systimerfactory/unittest/SysTimeMgrUnitTest.cpp:369-381 RunPathMonitorFileExistsAtStartup
    The file is in another directory than the one the monitor looks at: nothing is
    sent. *)
Definition RunPathMonitorFileExistsAtStartup : bool :=
  thread_test good_env good_world
    (_ ← on_mgr (on_snd (write_file "/tmp/systimemgr_test_tmp2/ntp" "")); _ ← runPathMonitor_start; q ← queued;
     mret (bool_decide (q = []))).
End systimemgr_tests.

Definition systimemgrTests : list bool :=
  [DestructorCovers; SetInitialTime_ZeroTime; SetInitialTime_NonZeroTime; UpdateTime_InvokesCheckTime;
   SetInitialTime_FileCreationFails; RunStateMachineUnknownEvent; TimerExpiryUsesReference; TimerExpiryUsesFileTime;
   UpdateTimeSyncCallsSyncs; NtpFailedPublishesStatus; NtpAquiredPublishesStatusAndUpdatesState; NtpFailed;
   DttAcquiredPublishesStatusAndUpdatesState; SecureTimeAcquiredUpdatesState;
   UpdateSecureTimePublishesStatusAndUpdatesState; GetTimeStatusPopulatesFields; PowerHandlerHandlesSleepEvents;
   DeepSleepOffPublishesStatus; DeepSleepOffCoversPoorCase; UpdateClockRealTimeSetsTime;
   UpdateClockRealTimeAllBranches; GetTimeStatus_AllQualities; PublishStatusCoversAll; TimerExpiry_RefVsFileTime;
   RunStateMachine_AllStatesEvents; RunPathMonitorInotifyAddWatchFails; RunStateMachine_HitsFunctionPointer;
   SendMessageQueuesEvent; DeepSleepOnLogs; RunDetachesThreadsWhenNotForever;
   ProcessThrCallsProcessMsgAndRunsOneIteration; SendMessageAndProcessMsg; TimerThrCallsRunTimerAndRunsOnce;
   TimerThrAndProcessThrCoverage; GetTimeStatusStaticFunctionWorks; RunPathMonitorCoversInotifyEvent;
   RunPathMonitorFileExistsAtStartup].

(** * Validation *)

Definition all_tests : list bool :=
  drmTests ++ dttTests ++ rdkDefaultTests ++ timerfactoryTests ++ pubsubfactoryTests ++ iarmpublishTests ++
  iarmtimerstatusTests ++ iarmpowersubscribeTests ++ ipowercontrollersubscriberTests ++ systimemgrTests.

(** The renditions above all hold, with the answers the mocks give; many of them
    only say that the calls return, as the tests they replay do.  They depend on
    their order: the test of an older time passes only because an earlier test has
    left a /version.txt whose build time is the time it expects; run alone, the
    clock file follows the older time and the test fails. *)
Theorem unit_tests_pass :
  forallb id all_tests = true ∧
  run_tests [updateTimeWithOlderTimeIncrementsBy10Minutes] good_world = [false].
Proof. split; vm_compute; reflexivity. Qed.
